(* ===== verification/_CoqProject ===== *)
-Q . S2P
Prelude.v
Eff.v
IoctlCommands.v
NfpTypes.v
Kernel.v
Reg.v
SimKernel.v
NfpDma.v
NfpMem.v
NfpIoctl.v
MmapRing.v
SemLock.v
NfpPci.v
NfpProbe.v
NfpDriver.v
Numbers.v
Posix.v
Middleware.v
Link.v
SimSystem.v
RwBar.v
BenchArgs.v
BenchMain.v
BenchRun.v
EngineManager.v
EngineReads.v
AddressGen.v
DeviceDma.v
RegisterMap.v
Completer.v
Completions.v
Fifo.v
Bridge.v
CardBus.v
Requester.v
TlpGroups.v
RequesterReads.v
ReadLatency.v
C2sBuffer.v
App.v
RequesterWrites.v
DmaLogic.v
Board.v
CardDriver.v
Prompt.v
Session.v
SimBoard.v
BenchDevice.v
System.v
Restart.v
