(* ===== verification/Prelude.v ===== *)
(** * pciebench-netfpga: verification of the host software

    pciebench measures PCI Express with a NetFPGA card: a user program asks the driver
    to have the DMA engine of the card read or write a huge page, and prints the
    latencies and the counts of bytes the card measured.  This library models the host
    software of HOST/ (the driver, the middleware, the two programs) function by
    function, and the DMA core of the FPGA register by register, and proves that each part
    does what the next one relies on.

    ** How the parts interact

    A program (rwBar, benchmark) calls the middleware.  The middleware allocates huge
    pages and talks to the driver through [ioctl] on /dev/nfp.  The driver pins the huge
    page, translates offsets in it to kernel addresses, maps them for the device and
    writes the registers of the DMA engine, which lie in BAR 0 as the packed structures
    of nfp_types.h lay them out.  The engine works through a table of 1024 descriptors:
    it takes the entry of its active index, and when the operation ends it moves to the
    next index, stores the measurements there and, if that was the last descriptor,
    disables itself.  The operation is the work of the generator of requests: it sends
    writes with the words of the application, or reads whose answers are counted tag by
    tag, TLP by TLP, and measures them.  The driver polls until the engine is disabled and
    unmaps.  The benchmark repeats this for each iteration and reads the measurements back
    from the next slot.

    ** The model

    The C functions keep their names.  A function is a value of the monad [M] of Eff.v:
    state passing over the state of the project, with a family of calls to whatever is
    not part of the project.  The kernel is the family [kcall] (Kernel.v), the operating
    system under the programs is [ucall] (Posix.v); whoever answers is an instance of
    [Handler], and the theorems hold for every instance, or for those with the laws they
    name ([PageLaws], [ClockLaws], [MemoryBound], [ChrdevLaws], [IocLaws], [MemoryLaws],
    [FsLaws], [Resources], [MmapLaws], [DeviceLaws], [SemaphoreLaws], [BramLaws],
    [BramPortLaws], [BoardLaws], [PromptEngine], [UserMemory], [PagesGiven], [QuietSystem],
    [LoadLaws], [ResetLaws], [AxisFifoLaws]), which state documented behaviour, or what a healthy machine
    does.
    Undefined behaviour, divisions by zero, [exit] and a bound that was reached are
    values of [stop], so that "the call returns" is something that is proved.  Integers
    are [Z] with [wrap] and [swrap] where the C types wrap around; objects in memory are
    lists of bytes where they cross a boundary.  SimKernel.v, SimSystem.v and SimBoard.v are
    concrete environments: the witnesses of the theorems are evaluated on them.

    - Prelude.v (this file): machine integers, bytes, arrays, hint databases.  Eff.v:
      outcomes, the monad and its laws, weakest preconditions [wp] with their tactics,
      and the logics of calls ([emits]), of invariants ([preserves]) and of traces that
      tell the state of the environment ([replays]).
    - IoctlCommands.v: include/ioctl_commands.h, the structures and their bytes.
      NfpTypes.v: driver/nfp_types.h, the register map and the state [driver] of the
      driver (the card, the globals of nfpdma.c, the globals of nfpmem.c).
    - Reg.v: driver/reg.c.  NfpDma.v: driver/nfpdma.c.  NfpMem.v: driver/nfpmem.c.
      NfpIoctl.v: [nfp_ioctl] and the file operations of driver/nfpioctl.c.  MmapRing.v:
      its mmap.  SemLock.v: its semaphore, with interleavings.  NfpPci.v and NfpProbe.v:
      driver/nfp.c, and the character device.  NfpDriver.v: the driver as a whole.
    - Numbers.v: text and numbers.  Middleware.v: middleware/*.c.  Link.v: system calls,
      from the middleware to the driver.  RwBar.v: user/rwBar/rwBar.c.  BenchArgs.v,
      BenchMain.v, BenchRun.v: user/benchmark/benchmark.c (its arguments, its functions,
      its runs).
    - EngineManager.v, EngineReads.v: FPGA/source/hdl/dma/dma_engine_manager.v by clock
      cycles, the registers that decide what it does and the ones that answer.
      Completer.v: FPGA/source/hdl/pcie_completer_to_bram.sv.  CardBus.v: both on the bus,
      with dma_sriov_top.v and dma_logic.v between them.  AddressGen.v, Requester.v:
      dma_rq_logic.v, the addresses and the rest; TlpGroups.v: its counts of TLPs and words
      against those of the benchmark; RequesterReads.v, RequesterWrites.v: what an
      operation amounts to; ReadLatency.v: what it measures of a read; C2sBuffer.v: its buffer
      of words; App.v: app/app.v, where the words come from.  Completions.v:
      dma_rc_logic.v.  DmaLogic.v: dma_logic.v, with all of these in it.  Fifo.v: the FIFOs of the vendor.
      Bridge.v: controller/pcie_to_axi_reg_requester.sv, the registers of another BAR.  CardDriver.v: the
      stores of the driver as requests.  DeviceDma.v: the driver and the device.  RegisterMap.v: the
      members of the driver's structures as registers of the device.  Board.v: the device at
      work while the driver polls.  Prompt.v: a device that ends in time.  BenchDevice.v:
      the benchmark on a device.
    - Session.v: what the system calls find and leave on a board that lives on between
      them ([serving], [performed], [served]).  System.v: programs, library, kernel,
      driver and board at once.  Restart.v: loading the module, and HOST/restart.sh.

    ** What is proved

    - The whole system: a run of the benchmark on a driver that serves has the board
      perform, for every iteration in order, the operation of its descriptor on the page
      mapped for it, and writes to the file the measurements the board took for that very
      operation ([benchmark_on_system]); it leaves driver and board further on, so that a
      second run without a restart reports late, with measurements of the first
      ([benchmark_lags]); the restart the manual asks for brings driver and board back
      together ([restart_serves]).  The files from IoctlCommands.v to Session.v give the
      lemmas of the path, one per boundary.
    - The whole program: a run of the benchmark makes exactly the requests of the
      specification [run_of] of an experiment, and gives everything back
      (BenchRun.v); on a card fresh from its reset every request has the device work on
      the page of the benchmark with the parameters of the experiment, and what comes
      back are the measurements of that iteration, found in the slot after it
      (BenchDevice.v).
    - The boundary with the hardware: each member of the driver's structures is the
      register, or the entry of the table, that the decoder has for its name, for stores
      and for loads ([register_map]); the device holds what the driver stored and never starts early, and
      driver and device agree on which descriptor is next (DeviceDma.v); with a device
      that works at its own pace, a call that does not time out has had exactly one
      operation done, whose measurements are read back (Board.v); the clocked design
      implements operations on the tables (EngineManager.v, a refinement up to what the
      memories answer).
    - The bus: what Board.v and DeviceDma.v take for granted of the hardware is what the
      card does clock by clock.  A load is completed with the bytes that are there
      ([load_served]); a store is the access it is taken for ([store_served]); the stores
      of a descriptor, sent as requests with any pauses, leave the device as the driver
      means it ([descriptor_on_card]); the engine is shown that descriptor in the cycle in
      which it sees the start, and not before ([start_shows_descriptor]).
    - The operation: what Board.v supposes of the engine ("an operation that was started
      may end, with some measurements") is what the whole clocked card does, once, on a
      link that is fair ([card_performs_read], [card_performs_write]).  A read asks for
      the TLPs that the benchmark counts with, within the buffer of the host and with tags
      of the window, and ends when all are answered ([read_requests]), and a tag is free
      again exactly with its last answer ([tag_completes]); a write carries the words of
      the application in order, in packets that are formed as their count of dwords wants
      ([write_requests]), out of a buffer that is a queue ([buffer_is_queue]), and they are
      the counter of the application ([writes_carry_counter]).  What the latency test prints
      for a read of one TLP is the time of that read ([time_of_one_read]).  The
      addresses of all groups after the first stay in the buffer, in every mode ([addresses_in_buffer]).
      A window of tags that grows hangs the engine ([growing_window_hangs]), and a write
      sends whole groups, which the benchmark does not count ([writes_overcount]).
    - The other BAR: stores and loads of the registers of the application reach its bus in
      order, and loads that do not overlap are answered, each with its word ([bar2_stores],
      [bar2_loads]); of two at once an answer may be lost ([second_answer_lost]).
    - The driver: the functional behaviour of every function on every branch, errors
      included; mappings are balanced and the polling ends (NfpDma.v); registration
      records each huge page and unregistration gives back each page once (NfpMem.v);
      the path of a descriptor from the bytes of the system call to the registers and
      back (NfpIoctl.v); the semaphore gives mutual exclusion as long as no wait is
      interrupted (SemLock.v); the ring of mmap refines a bounded queue when areas are
      closed in order (MmapRing.v); what a probe acquires a removal releases
      (NfpProbe.v); an invariant of the state holds through any sequence of file
      operations, with whatever arguments (NfpDriver.v).
    - The user side: round trips of the command line and of numbers, bounds on accepted
      arguments, the arithmetic of TLPs against a reference, words of a BAR from the
      library to the device (BenchArgs.v, RwBar.v, BenchMain.v, Link.v).
    - Where the code does not do what it means to, a theorem says what it does instead:
      [descriptor_address_unchecked], [failed_registration_divides],
      [unregister_keeps_translating], [interrupted_wait_breaks_lock],
      [mmap_wraps_past_buffer], [close_order_matters], [probe_failures],
      [reg_hugemem_too_many_pages], [area_unchecked], [benchmark_leaks], [benchmark_lags],
      [reload_loses_pages], [low_load_hangs], [load_after_store_stale], [time_stops_early],
      [second_answer_lost] and others.

    ** Bounds

    The loops of the code are [for_range] over their exact counts, or take fuel where
    the code has no bound: [poll_engine] ends within [rate * (TIMEOUT_US + 1)] rounds if
    [rate] polls take a microsecond at least ([writeDMADescriptor_returns]);
    [power_above] within 64 rounds for sizes up to 2 ^ 63 ([power_above_spec], which also
    shows that it never ends for larger ones); [readOptions] within as many rounds as
    there are arguments.  Running out of fuel is [Stop NoFuel], never a result.

    ** Not modelled, and why

    [printk], [perror] and the text of messages have no effect on the state.  The
    floating-point quotient that is only printed is the call that prints it; [ceil] and
    the conversion to [double] of the count of TLPs are modelled.  Branches of the
    conditional compilation other than those of Linux 4.6 on x86-64 with huge pages and
    one page, and the code under USE_KERNEL_AFFINITY are left out.  Of dma_rq_logic.v and
    dma_rc_logic.v, registers that nothing depends on and counters for debugging are left
    out.  An operation in both directions at once is a run of [rq_step] like any other,
    but the theorems on operations are about one direction.  Of dma_logic.v, the bit that
    says an operation is going on has no reader.  The PCI Express core is the vendor's: it
    presents a load or a store as the specification has it ([asks], [carries]), takes the
    requests ([fair], [fair_link], [supplied], [fed_link]) and answers only what was asked
    ([legal_beat], [honest]).  The FIFOs are the vendor's too: a class
    with its laws in Bridge.v and App.v, while DmaLogic.v sees user_fifo through the words that
    come out of it.
    The memories have the latencies that create_project_vc709.tcl configures, and no
    answer where both ports meet on a word.  The GPIO block behind the AXI-Lite bus is the
    vendor's: it takes and gives what the inputs of Bridge.v say.  Makefiles, scripts other than restart.sh, and
    documentation are not code of the system.  That the bus hands the card to the driver
    when the module is loaded, with its static objects as initialised, is the kernel's
    doing ([insmod], [rmmod]). *)

From Stdlib Require Import ZArith Lia.
From stdpp Require Import base numbers list strings.

#[global] Open Scope Z_scope.
#[global] Set Default Goal Selector "!".

(** ** Machine integers

    A C object of an unsigned type of [w] bits holds [wrap w z]; a conversion to
    a signed type of [w] bits (two's complement, as every compiler the project
    targets does) is [swrap w z]. *)

Definition wrap (w z : Z) : Z := z mod 2 ^ w.
Definition swrap (w z : Z) : Z :=
  let m := z mod 2 ^ w in if m <? 2 ^ (w - 1) then m else m - 2 ^ w.

Abbreviation u8 := (wrap 8).
Abbreviation u16 := (wrap 16).
Abbreviation u32 := (wrap 32).
Abbreviation u64 := (wrap 64).
Abbreviation s8 := (swrap 8).
Abbreviation s32 := (swrap 32).
Abbreviation s64 := (swrap 64).

(** [fits w z]: [z] is a value of the unsigned type of [w] bits. *)
Definition fits (w z : Z) : Prop := 0 <= z < 2 ^ w.

#[export] Instance fits_dec w z : Decision (fits w z).
Proof. unfold fits. apply _. Defined.

Create HintDb pcie discriminated.
Create Rewrite HintDb wrapping.
Create Rewrite HintDb lengths.
Create Rewrite HintDb traces.
#[export] Hint Constants Transparent : pcie.

Lemma wrap_fits w z : 0 <= w -> fits w (wrap w z).
Proof. intros Hw. apply Z.mod_pos_bound. lia. Qed.

Lemma wrap_id w z : fits w z -> wrap w z = z.
Proof. apply Z.mod_small. Qed.

Lemma wrap_wrap w z : wrap w (wrap w z) = wrap w z.
Proof. unfold wrap. apply Zmod_mod. Qed.

Lemma wrap_add_l w a b : wrap w (wrap w a + b) = wrap w (a + b).
Proof. unfold wrap. apply Zplus_mod_idemp_l. Qed.

Lemma wrap_add_r w a b : wrap w (a + wrap w b) = wrap w (a + b).
Proof. unfold wrap. apply Zplus_mod_idemp_r. Qed.

Lemma wrap_sub w a b : wrap w (wrap w a - wrap w b) = wrap w (a - b).
Proof. unfold wrap. symmetry. apply Zminus_mod. Qed.

Lemma swrap_id w z : 0 < w -> - 2 ^ (w - 1) <= z < 2 ^ (w - 1) -> swrap w z = z.
Proof.
  intros Hw Hz. unfold swrap.
  assert (E : 2 ^ w = 2 * 2 ^ (w - 1)) by (rewrite <- Z.pow_succ_r by lia; f_equal; lia).
  destruct (Z_lt_le_dec z 0) as [Hneg | Hpos].
  - assert (Hm : z mod 2 ^ w = z + 2 ^ w).
    { symmetry. apply (Z.mod_unique_pos _ _ (-1)); lia. }
    rewrite Hm. destruct (Z.ltb_spec (z + 2 ^ w) (2 ^ (w - 1))); lia.
  - rewrite Z.mod_small by lia. destruct (Z.ltb_spec z (2 ^ (w - 1))); lia.
Qed.

Lemma swrap_range w z : 0 < w -> - 2 ^ (w - 1) <= swrap w z < 2 ^ (w - 1).
Proof.
  intros Hw. unfold swrap.
  assert (E : 2 ^ w = 2 * 2 ^ (w - 1)) by (rewrite <- Z.pow_succ_r by lia; f_equal; lia).
  pose proof (Z.mod_pos_bound z (2 ^ w)).
  destruct (Z.ltb_spec (z mod 2 ^ w) (2 ^ (w - 1))); lia.
Qed.

Lemma swrap_le w z : 0 < w -> - 2 ^ (w - 1) <= z -> swrap w z <= z.
Proof.
  intros Hw Hz. unfold swrap.
  assert (E : 2 ^ w = 2 * 2 ^ (w - 1)) by (rewrite <- Z.pow_succ_r by lia; f_equal; lia).
  destruct (Z_lt_le_dec z 0) as [Hneg | Hpos].
  - assert (Hm : z mod 2 ^ w = z + 2 ^ w) by (symmetry; apply (Z.mod_unique_pos _ _ (-1)); lia).
    rewrite Hm. destruct (Z.ltb_spec (z + 2 ^ w) (2 ^ (w - 1))); lia.
  - assert (0 < 2 ^ w) by (apply Z.pow_pos_nonneg; lia).
    pose proof (Z.mod_le z (2 ^ w)). destruct (z mod 2 ^ w <? 2 ^ (w - 1)); lia.
Qed.

#[export] Hint Resolve wrap_fits : pcie.
#[export] Hint Rewrite wrap_wrap wrap_add_l wrap_add_r : wrapping.

(** ** Tactics *)

(** Case analysis on every [if] of the goal, with the tests of [Z] and [nat]
    turned into inequalities. *)
Ltac cases_if :=
  repeat match goal with
  | |- context [if ?b then _ else _] =>
      lazymatch b with
      | Z.eqb ?x ?y => destruct (Z.eqb_spec x y)
      | Z.ltb ?x ?y => destruct (Z.ltb_spec x y)
      | Z.leb ?x ?y => destruct (Z.leb_spec x y)
      | _ => destruct b eqn:?
      end
  end.

(** Boolean connectives in the hypotheses turned into propositions. *)
Ltac bools :=
  repeat match goal with
  | H : _ && _ = true |- _ => apply andb_true_iff in H as [? ?]
  | H : _ && _ = false |- _ => apply andb_false_iff in H
  | H : _ || _ = true |- _ => apply orb_true_iff in H
  | H : _ || _ = false |- _ => apply orb_false_iff in H as [? ?]
  | H : negb _ = true |- _ => apply negb_true_iff in H
  | H : negb _ = false |- _ => apply negb_false_iff in H
  | H : (_ =? _) = true |- _ => apply Z.eqb_eq in H
  | H : (_ =? _) = false |- _ => apply Z.eqb_neq in H
  | H : (_ <? _) = true |- _ => apply Z.ltb_lt in H
  | H : (_ <? _) = false |- _ => apply Z.ltb_ge in H
  | H : (_ <=? _) = true |- _ => apply Z.leb_le in H
  | H : (_ <=? _) = false |- _ => apply Z.leb_gt in H
  end.

(** ** Little-endian byte strings (bytes are values of [Z] below 256) *)

Fixpoint bytes_of (n : nat) (z : Z) : list Z :=
  match n with
  | O => []
  | S n' => z mod 256 :: bytes_of n' (z / 256)
  end.

Fixpoint of_bytes (bs : list Z) : Z :=
  match bs with
  | [] => 0
  | b :: bs' => b + 256 * of_bytes bs'
  end.

Definition is_byte (b : Z) : Prop := 0 <= b < 256.

Lemma bytes_of_length n z : length (bytes_of n z) = n.
Proof. revert z; induction n as [|n IH]; intros z; cbn; [done | by rewrite IH]. Qed.

Lemma bytes_of_bytes n z : Forall is_byte (bytes_of n z).
Proof.
  revert z; induction n as [|n IH]; intros z; cbn; constructor; [|done].
  unfold is_byte. apply Z.mod_pos_bound. lia.
Qed.

Lemma of_bytes_of n z : of_bytes (bytes_of n z) = z mod 256 ^ Z.of_nat n.
Proof.
  revert z; induction n as [|n IH]; intros z; cbn [bytes_of of_bytes].
  - by rewrite Z.mod_1_r.
  - rewrite IH, Nat2Z.inj_succ, Z.pow_succ_r by lia.
    rewrite Z.rem_mul_r; [done | lia |]. apply Z.pow_pos_nonneg; lia.
Qed.

Lemma of_bytes_range bs :
  Forall is_byte bs -> 0 <= of_bytes bs < 256 ^ Z.of_nat (length bs).
Proof.
  induction 1 as [|b bs Hb _ IH]; cbn [of_bytes length]; [done|].
  rewrite Nat2Z.inj_succ, Z.pow_succ_r by lia. unfold is_byte in Hb. lia.
Qed.

Lemma bytes_of_of_bytes bs :
  Forall is_byte bs -> bytes_of (length bs) (of_bytes bs) = bs.
Proof.
  induction 1 as [|b bs Hb _ IH]; cbn [of_bytes length bytes_of]; [done|].
  unfold is_byte in Hb. f_equal.
  - rewrite (Z.mul_comm 256), Z.mod_add by lia. apply Z.mod_small; lia.
  - rewrite (Z.mul_comm 256), Z.div_add by lia.
    rewrite Z.div_small by lia. done.
Qed.

Lemma of_bytes_of_4 z : fits 32 z -> of_bytes (bytes_of 4 z) = z.
Proof. intros H. rewrite of_bytes_of. by apply Z.mod_small. Qed.

Lemma of_bytes_of_8 z : fits 64 z -> of_bytes (bytes_of 8 z) = z.
Proof. intros H. rewrite of_bytes_of. by apply Z.mod_small. Qed.

(** Byte [j] of a word. *)
Definition byte_at (z j : Z) : Z := (z / 256 ^ j) mod 256.

Lemma byte_at_shift z s j : 0 <= s <= j -> byte_at (z * 256 ^ s) j = byte_at z (j - s).
Proof.
  intros H. unfold byte_at. replace j with (j - s + s) at 1 by lia.
  assert (0 < 256 ^ s /\ 0 < 256 ^ (j - s)) as [? ?] by (split; apply Z.pow_pos_nonneg; lia).
  by rewrite Z.pow_add_r, Z.div_mul_cancel_r by lia.
Qed.

Lemma byte_at_div z s j : 0 <= s -> 0 <= j -> byte_at (z / 256 ^ s) j = byte_at z (s + j).
Proof.
  intros Hs Hj. unfold byte_at.
  assert (0 < 256 ^ s /\ 0 < 256 ^ j) as [? ?] by (split; apply Z.pow_pos_nonneg; lia).
  by rewrite Z.pow_add_r, Z.div_div by lia.
Qed.

Lemma byte_at_mod z n j : 0 <= j < n -> byte_at (z mod 256 ^ n) j = byte_at z j.
Proof.
  intros H. unfold byte_at.
  replace (256 ^ n) with (256 ^ j * 256 ^ (n - j)) by (rewrite <- Z.pow_add_r by lia; f_equal; lia).
  assert (0 < 256 ^ j /\ 0 < 256 ^ (n - j)) as [? ?] by (split; apply Z.pow_pos_nonneg; lia).
  rewrite Z.rem_mul_r, (Z.mul_comm (256 ^ j)), Z.div_add, (Z.div_small (z mod 256 ^ j)) by
    (lia || by apply Z.mod_pos_bound).
  rewrite Z.add_0_l. replace (n - j) with (1 + (n - j - 1)) by lia.
  rewrite Z.pow_add_r, Z.rem_mul_r by lia. change (256 ^ 1) with 256.
  by rewrite (Z.mul_comm 256), Z.mod_add, Zmod_mod by lia.
Qed.

Lemma byte_at_of_bytes bs i b :
  Forall is_byte bs -> bs !! i = Some b -> byte_at (of_bytes bs) (Z.of_nat i) = b.
Proof.
  intros Hb. revert i. induction Hb as [|c bs Hc Hbs IH]; intros [|i]; try done.
  - intros [= ->]. unfold byte_at. cbn [of_bytes]. change (256 ^ Z.of_nat 0) with 1.
    rewrite Z.div_1_r, (Z.mul_comm 256), Z.mod_add by lia. by apply Z.mod_small.
  - intros Hi. rewrite <- (IH i Hi). replace (Z.of_nat (S i)) with (1 + Z.of_nat i) by lia.
    rewrite <- byte_at_div by lia. f_equal. change (256 ^ 1) with 256. cbn [of_bytes].
    rewrite (Z.mul_comm 256), Z.div_add, Z.div_small by (lia || done). done.
Qed.

(** [slice o n bs]: the [n] bytes of [bs] from offset [o]. *)
Definition slice {A} (o n : nat) (bs : list A) : list A := take n (drop o bs).

Lemma slice_app_l {A} o n (a b : list A) :
  (o + n <= length a)%nat -> slice o n (a ++ b) = slice o n a.
Proof.
  intros H. unfold slice. rewrite drop_app_le by lia.
  apply take_app_le. rewrite length_drop. lia.
Qed.

Lemma slice_app_r {A} o n (a b : list A) :
  (length a <= o)%nat -> slice o n (a ++ b) = slice (o - length a) n b.
Proof. intros H. unfold slice. by rewrite drop_app_ge by lia. Qed.

Lemma slice_all {A} (n : nat) (a : list A) : length a = n -> slice 0 n a = a.
Proof. intros <-. unfold slice. rewrite drop_0. by apply take_ge. Qed.

#[export] Hint Rewrite bytes_of_length : lengths.

(** ** C arrays: access and update by a [Z] index, [None] out of range *)

Definition arr_get {A} (l : list A) (i : Z) : option A :=
  if (0 <=? i) && (i <? Z.of_nat (length l)) then l !! Z.to_nat i else None.

Definition arr_set {A} (l : list A) (i : Z) (x : A) : option (list A) :=
  if (0 <=? i) && (i <? Z.of_nat (length l)) then Some (<[Z.to_nat i := x]> l) else None.

Lemma arr_get_Some {A} (l : list A) i x :
  arr_get l i = Some x <-> (0 <= i < Z.of_nat (length l)) /\ l !! Z.to_nat i = Some x.
Proof.
  unfold arr_get. destruct (0 <=? i) eqn:?, (i <? Z.of_nat (length l)) eqn:?; cbn; bools;
    split; try done; try (intros [? ?]; lia).
  all: try (intros H; done || (split; [lia | done])).
  intros [? ?]; done.
Qed.

Lemma arr_get_in {A} (l : list A) i :
  0 <= i < Z.of_nat (length l) -> exists x, arr_get l i = Some x.
Proof.
  intros H. destruct (lookup_lt_is_Some_2 l (Z.to_nat i)) as [x Hx]; [lia|].
  exists x. by apply arr_get_Some.
Qed.

Lemma arr_get_out {A} (l : list A) i :
  ~ (0 <= i < Z.of_nat (length l)) -> arr_get l i = None.
Proof.
  intros H. unfold arr_get. destruct (0 <=? i) eqn:?, (i <? Z.of_nat (length l)) eqn:?; bools; cbn; lia || done.
Qed.

Lemma arr_set_in {A} (l : list A) i x :
  0 <= i < Z.of_nat (length l) -> arr_set l i x = Some (<[Z.to_nat i := x]> l).
Proof.
  intros H. unfold arr_set.
  destruct (0 <=? i) eqn:?, (i <? Z.of_nat (length l)) eqn:?; bools; cbn; lia || done.
Qed.

Lemma arr_set_out {A} (l : list A) i x :
  ~ (0 <= i < Z.of_nat (length l)) -> arr_set l i x = None.
Proof.
  intros H. unfold arr_set. destruct (0 <=? i) eqn:?, (i <? Z.of_nat (length l)) eqn:?; bools; cbn; lia || done.
Qed.

Lemma arr_set_length {A} (l l' : list A) i x :
  arr_set l i x = Some l' -> length l' = length l.
Proof. unfold arr_set. case_match; [|done]. intros [= <-]. apply length_insert. Qed.

(** [C's] unsigned division: [None] stands for the trap of a zero divisor. *)
Definition udiv (a b : Z) : option Z := if b =? 0 then None else Some (a / b).
Definition umod (a b : Z) : option Z := if b =? 0 then None else Some (a mod b).

(** Error numbers the driver returns. *)
Definition EFAULT : Z := 14.
Definition EAGAIN : Z := 11.
Definition ENODEV : Z := 19.
Definition EINVAL : Z := 22.
Definition ENOTTY : Z := 25.
Definition ERESTARTSYS : Z := 512.
