(* ===== verification/Eff.v ===== *)
(** * Effects

    The C functions of the project read and write their own state and call code
    that is not part of the project: the kernel, the C library, the other side
    of a system call.  Such a call is a constructor of a family [C : Type -> Type]
    indexed by the type of its answer, and whoever answers is an instance of
    [Handler C K] over a state [K] that this development leaves abstract.  A
    function of the project is a value of [M C K S A]: from its own state [S] and
    the environment's state [K] it computes an outcome, the new states, and the
    list of the calls it made with the answers it got, in order. *)

From S2P Require Import Prelude.
From Stdlib Require Import ZArith Lia.
From stdpp Require Import base list.
Local Open Scope Z_scope.

(** What stops a run short of a result. *)
Inductive fault :=
| OutOfBounds      (* an array or structure accessed out of its range *)
| DivByZero        (* an integer division trap *)
| NullDeref        (* a null pointer dereferenced *)
| Uninit           (* an object read before any value was stored in it *)
| UseAfterClose.   (* a stream used after fclose *)

Inductive stop :=
| Undefined (f : fault)   (* behaviour the C standard does not define *)
| Exited (code : Z)       (* exit (code) *)
| NoFuel.                 (* the model's bound on an unbounded loop was reached *)

Inductive outcome (A : Type) :=
| Done (a : A)
| Stop (h : stop).
Arguments Done {A} a.
Arguments Stop {A} h.

(** A call and its answer. *)
Inductive event (C : Type -> Type) : Type :=
| Ev {X : Type} (c : C X) (r : X).
Arguments Ev {C X} c r.

Class Handler (C : Type -> Type) (K : Type) := handle : forall {X}, C X -> K -> X * K.

Record res (C : Type -> Type) (K S A : Type) := Res {
  r_out : outcome A;
  r_st : S;
  r_k : K;
  r_tr : list (event C)
}.
Arguments Res {C K S A} r_out r_st r_k r_tr.
Arguments r_out {C K S A} r.
Arguments r_st {C K S A} r.
Arguments r_k {C K S A} r.
Arguments r_tr {C K S A} r.

Definition M (C : Type -> Type) (K S A : Type) : Type := S -> K -> res C K S A.

Section Ops.
Context {C : Type -> Type} {K S : Type} `{!Handler C K}.

Definition ret {A} (a : A) : M C K S A := fun s k => Res (Done a) s k [].

Definition bind {A B} (m : M C K S A) (f : A -> M C K S B) : M C K S B :=
  fun s k =>
    let r := m s k in
    match r_out r with
    | Done a =>
        let q := f a (r_st r) (r_k r) in
        Res (r_out q) (r_st q) (r_k q) (r_tr r ++ r_tr q)
    | Stop h => Res (Stop h) (r_st r) (r_k r) (r_tr r)
    end.

Definition call {X} (c : C X) : M C K S X :=
  fun s k => let a := handle c k in Res (Done a.1) s a.2 [Ev c a.1].

Definition get : M C K S S := fun s k => Res (Done s) s k [].
Definition gets {A} (f : S -> A) : M C K S A := fun s k => Res (Done (f s)) s k [].
Definition modify (f : S -> S) : M C K S unit := fun s k => Res (Done tt) (f s) k [].
Definition halt {A} (h : stop) : M C K S A := fun s k => Res (Stop h) s k [].

(** The value of an option, or the given fault. *)
Definition need {A} (f : fault) (o : option A) : M C K S A :=
  match o with Some a => ret a | None => halt (Undefined f) end.

(** [for (i = 0; i < n; i++) body (start + i)] *)
Fixpoint for_range (n : nat) (start : Z) (body : Z -> M C K S unit) : M C K S unit :=
  match n with
  | O => ret tt
  | Datatypes.S n' => bind (body start) (fun _ => for_range n' (start + 1) body)
  end.
End Ops.

Declare Scope eff_scope.
Delimit Scope eff_scope with eff.
Notation "'let*' x := m 'in' k" := (bind m (fun x => k))
  (at level 10, x name, m at level 200, k at level 200) : eff_scope.
Notation "'let*' ' p := m 'in' k" := (bind m (fun x => match x with p => k end))
  (at level 10, p pattern, m at level 200, k at level 200) : eff_scope.
Notation "'do*' m 'in' k" := (bind m (fun _ => k))
  (at level 10, m at level 200, k at level 200) : eff_scope.

(** ** Equality of computations, and the monad laws *)

Section Laws.
Context {C : Type -> Type} {K S : Type} `{!Handler C K}.

Definition eqM {A} (m m' : M C K S A) : Prop := forall s k, m s k = m' s k.

#[export] Instance eqM_equivalence A : Equivalence (@eqM A).
Proof.
  split.
  - by intros m s k.
  - intros m m' H s k. symmetry. apply H.
  - intros m m' m'' H H' s k. by transitivity (m' s k).
Qed.

#[export] Instance bind_proper A B :
  Proper (eqM ==> pointwise_relation A eqM ==> eqM) (@bind C K S A B).
Proof.
  intros m m' Hm f f' Hf s k. unfold bind. rewrite (Hm s k).
  destruct (m' s k) as [[a|h] s1 k1 t1]; cbn; [|done]. by rewrite (Hf a s1 k1).
Qed.

Lemma bind_ret_l {A B} (a : A) (f : A -> M C K S B) : eqM (bind (ret a) f) (f a).
Proof. intros s k. unfold bind, ret; cbn. by destruct (f a s k). Qed.

Lemma bind_ret_r {A} (m : M C K S A) : eqM (bind m ret) m.
Proof.
  intros s k. unfold bind, ret. destruct (m s k) as [[a|h] s1 k1 t1]; cbn; [|done].
  by rewrite app_nil_r.
Qed.

Lemma bind_assoc {A B D} (m : M C K S A) (f : A -> M C K S B) (g : B -> M C K S D) :
  eqM (bind (bind m f) g) (bind m (fun a => bind (f a) g)).
Proof.
  intros s k. unfold bind. destruct (m s k) as [[a|h] s1 k1 t1]; cbn; [|done].
  destruct (f a s1 k1) as [[b|h] s2 k2 t2]; cbn; [|done].
  by rewrite app_assoc.
Qed.
End Laws.

(** ** Weakest preconditions

    [wp m Q s k]: the run of [m] from [s] and [k] ends in an outcome, states and
    calls that satisfy [Q]. *)

Section Wp.
Context {C : Type -> Type} {K S : Type} `{!Handler C K}.

Definition spec (A : Type) : Type := outcome A -> S -> K -> list (event C) -> Prop.

Definition wp {A} (m : M C K S A) (Q : spec A) (s : S) (k : K) : Prop :=
  let r := m s k in Q (r_out r) (r_st r) (r_k r) (r_tr r).

Lemma wp_mono {A} (m : M C K S A) (Q Q' : spec A) s k :
  wp m Q s k -> (forall o s' k' t, Q o s' k' t -> Q' o s' k' t) -> wp m Q' s k.
Proof. unfold wp. eauto. Qed.

Lemma wp_and {A} (m : M C K S A) (Q Q' : spec A) s k :
  wp m Q s k -> wp m Q' s k -> wp m (fun o s' k' t => Q o s' k' t /\ Q' o s' k' t) s k.
Proof. done. Qed.

Lemma wp_run {A} (m : M C K S A) (Q : spec A) s k o s' k' t :
  wp m Q s k -> m s k = Res o s' k' t -> Q o s' k' t.
Proof. unfold wp. intros H E. by rewrite E in H. Qed.

Lemma wp_ret {A} (a : A) (Q : spec A) s k : Q (Done a) s k [] -> wp (ret a) Q s k.
Proof. done. Qed.

Lemma wp_bind {A B} (m : M C K S A) (f : A -> M C K S B) (Q : spec B) s k :
  wp m (fun o s1 k1 t1 =>
    match o with
    | Done a => wp (f a) (fun o2 s2 k2 t2 => Q o2 s2 k2 (t1 ++ t2)) s1 k1
    | Stop h => Q (Stop h) s1 k1 t1
    end) s k ->
  wp (bind m f) Q s k.
Proof. unfold wp, bind. destruct (m s k) as [[a|h] s1 k1 t1]; done. Qed.

Lemma wp_call {X} (c : C X) (Q : spec X) s k :
  (forall r k', handle c k = (r, k') -> Q (Done r) s k' [Ev c r]) -> wp (call c) Q s k.
Proof. unfold wp, call; cbn. intros H. apply H. by destruct (handle c k). Qed.

Lemma wp_get (Q : spec S) s k : Q (Done s) s k [] -> wp get Q s k.
Proof. done. Qed.

Lemma wp_gets {A} (f : S -> A) (Q : spec A) s k : Q (Done (f s)) s k [] -> wp (gets f) Q s k.
Proof. done. Qed.

Lemma wp_modify (f : S -> S) (Q : spec unit) s k :
  Q (Done tt) (f s) k [] -> wp (modify f) Q s k.
Proof. done. Qed.

Lemma wp_halt {A} h (Q : spec A) s k : Q (Stop h) s k [] -> wp (halt h) Q s k.
Proof. done. Qed.

Lemma wp_need {A} f (o : option A) (Q : spec A) s k :
  (forall a, o = Some a -> Q (Done a) s k []) ->
  (o = None -> Q (Stop (Undefined f)) s k []) ->
  wp (need f o) Q s k.
Proof. intros H1 H2. destruct o; cbn; [by apply H1 | by apply H2]. Qed.

(** The rule for counting loops: [I i] holds of the state and the calls made
    when the index is [i]. *)
Lemma wp_for_range n start body (I : Z -> S -> K -> list (event C) -> Prop)
    (Q : spec unit) s k :
  I start s k [] ->
  (forall i s1 k1 t1, start <= i < start + Z.of_nat n -> I i s1 k1 t1 ->
    wp (body i) (fun o s2 k2 t2 =>
      match o with
      | Done _ => I (i + 1) s2 k2 (t1 ++ t2)
      | Stop h => Q (Stop h) s2 k2 (t1 ++ t2)
      end) s1 k1) ->
  (forall s1 k1 t1, I (start + Z.of_nat n) s1 k1 t1 -> Q (Done tt) s1 k1 t1) ->
  wp (for_range n start body) Q s k.
Proof.
  intros H0 Hstep Hend.
  enough (G : forall n' i s1 k1 t1, start <= i -> i + Z.of_nat n' = start + Z.of_nat n ->
      I i s1 k1 t1 ->
      wp (for_range n' i body) (fun o s2 k2 t2 => Q o s2 k2 (t1 ++ t2)) s1 k1).
  { eapply wp_mono; [eapply (G n start s k []); [lia|lia|done]|]. done. }
  induction n' as [|n' IH]; intros i s1 k1 t1 Hi Hn HI; cbn [for_range].
  - apply wp_ret. rewrite app_nil_r. apply Hend. replace (start + Z.of_nat n) with i by lia. done.
  - apply wp_bind. eapply wp_mono; [apply (Hstep i s1 k1 t1); [lia|done]|].
    intros [[]|h] s2 k2 t2 HQ; [|done].
    eapply wp_mono; [apply (IH (i + 1) s2 k2 (t1 ++ t2)); [lia|lia|done]|].
    intros o s3 k3 t3. by rewrite app_assoc.
Qed.
End Wp.

(** ** Which calls a computation can make

    [emits P m]: whatever the environment answers, every call of a run of [m]
    satisfies [P]; the rules are hints of the database [emits]. *)

Section Emits.
Context {C : Type -> Type} {K S : Type} `{!Handler C K}.
Variable P : event C -> Prop.

Definition emits {A} (m : M C K S A) : Prop := forall s k, Forall P (r_tr (m s k)).

Lemma emits_ret {A} (a : A) : emits (ret a).
Proof. intros s k. constructor. Qed.

Lemma emits_bind {A B} (m : M C K S A) (f : A -> M C K S B) :
  emits m -> (forall a, emits (f a)) -> emits (bind m f).
Proof.
  intros Hm Hf s k. unfold bind. specialize (Hm s k).
  destruct (m s k) as [[a|h] s1 k1 t1]; cbn in *; [|done].
  apply Forall_app. split; [done | apply Hf].
Qed.

Lemma emits_call {X} (c : C X) : (forall r, P (Ev c r)) -> emits (call c).
Proof. intros H s k. cbn. by repeat constructor. Qed.

Lemma emits_gets {A} (f : S -> A) : emits (gets f).
Proof. intros s k. constructor. Qed.

Lemma emits_get : emits get.
Proof. intros s k. constructor. Qed.

Lemma emits_modify (f : S -> S) : emits (modify f).
Proof. intros s k. constructor. Qed.

Lemma emits_halt {A} h : emits (A := A) (halt h).
Proof. intros s k. constructor. Qed.

Lemma emits_need {A} f (o : option A) : emits (need f o).
Proof. destruct o; [apply emits_ret | apply emits_halt]. Qed.

Lemma emits_for_range n start body : (forall i, emits (body i)) -> emits (for_range n start body).
Proof.
  intros H. revert start. induction n as [|n IH]; intros start; cbn [for_range].
  - apply emits_ret.
  - apply emits_bind; [apply H | intros _; apply IH].
Qed.

Lemma wp_emits {A} (m : M C K S A) s k : emits m -> wp m (fun _ _ _ t => Forall P t) s k.
Proof. unfold wp. intros H. apply H. Qed.

Lemma emits_wp {A} (m : M C K S A) (Q : spec A) s k :
  emits m -> wp m Q s k -> wp m (fun o s' k' t => Q o s' k' t /\ Forall P t) s k.
Proof. unfold wp. intros H ?. split; [done | apply H]. Qed.
End Emits.

Create HintDb emits discriminated.
#[export] Hint Resolve emits_ret emits_bind emits_gets emits_get emits_modify emits_halt
  emits_need emits_for_range : emits.

(** Decides [emits P m] by the rules; the calls are left to [done] after unfolding [P]. *)
Ltac solve_emits :=
  repeat match goal with
  | |- forall _, _ => intro
  | |- emits _ (bind _ _) => apply emits_bind
  | |- emits _ (call _) => apply emits_call; intros; solve [done | auto with emits]
  | |- emits _ (if ?b then _ else _) => destruct b
  | |- emits _ (match ?o with _ => _ end) => destruct o
  | |- emits _ _ => solve [auto with emits]
  end.

(** ** Invariants

    [preserves I m]: a run of [m] from a state with [I] that has a result ends in one
    with [I]. *)

Section Preserves.
Context {C : Type -> Type} {K S : Type} `{!Handler C K}.
Variable I : S -> Prop.

Definition preserves {A} (m : M C K S A) : Prop :=
  forall s k, I s -> wp m (fun o s' _ _ => match o with Done _ => I s' | Stop _ => True end) s k.

Lemma preserves_ret {A} (a : A) : preserves (ret a).
Proof. intros s k H. exact H. Qed.
Lemma preserves_call {X} (c : C X) : preserves (call c).
Proof. intros s k H. exact H. Qed.
Lemma preserves_gets {A} (f : S -> A) : preserves (gets f).
Proof. intros s k H. exact H. Qed.
Lemma preserves_halt {A} h : preserves (A := A) (halt h).
Proof. intros s k H. exact Logic.I. Qed.
Lemma preserves_need {A} f (o : option A) : preserves (need f o).
Proof. destruct o; [apply preserves_ret | apply preserves_halt]. Qed.
Lemma preserves_modify f : (forall s, I s -> I (f s)) -> preserves (modify f).
Proof. intros H s k. apply H. Qed.

Lemma preserves_bind {A B} (m : M C K S A) (f : A -> M C K S B) :
  preserves m -> (forall a, preserves (f a)) -> preserves (bind m f).
Proof.
  intros Hm Hf s k HI. apply wp_bind. eapply wp_mono; [by apply Hm|].
  intros [a|h] s1 k1 t1 H1; [|done]. by apply Hf.
Qed.

Lemma preserves_for_range n start body :
  (forall i, preserves (body i)) -> preserves (for_range n start body).
Proof.
  intros H. revert start. induction n as [|n IH]; intros start; cbn [for_range].
  - apply preserves_ret.
  - apply preserves_bind; [apply H | intros _; apply IH].
Qed.
End Preserves.

Create HintDb preserves discriminated.
#[export] Hint Resolve preserves_ret preserves_call preserves_gets preserves_halt preserves_need
  preserves_for_range : preserves.

(** Decides [preserves I m] by the rules; the assignments are left to the database. *)
Ltac solve_preserves :=
  repeat match goal with
  | |- forall _, _ => intro
  | |- preserves _ (bind _ _) => apply preserves_bind
  | |- preserves _ (if ?b then _ else _) => destruct b
  | |- preserves _ (match ?o with _ => _ end) => destruct o
  | |- preserves _ _ => solve [auto with preserves]
  end.

(** One step of symbolic execution. *)
Ltac wp_step :=
  lazymatch goal with
  | |- wp (bind _ _) _ _ _ => apply wp_bind
  | |- wp (ret _) _ _ _ => apply wp_ret
  | |- wp (call _) _ _ _ =>
      let a := fresh "ans" in let q := fresh "kk" in let h := fresh "Hans" in
      apply wp_call; intros a q h
  | |- wp get _ _ _ => apply wp_get
  | |- wp (gets _) _ _ _ => apply wp_gets
  | |- wp (modify _) _ _ _ => apply wp_modify
  | |- wp (halt _) _ _ _ => apply wp_halt
  | |- wp (need _ _) _ _ _ => apply wp_need; intros
  end.

(** Turns a goal about the result [r] of a run into a weakest precondition. *)
Ltac as_wp r m s k :=
  pattern (r_out r), (r_st r), (r_tr r);
  match goal with |- ?Q _ _ _ =>
    cut (wp m (fun o s1 _ t => Q o s1 t) s k); [exact (fun W => W)|]
  end; cbv beta; clear r.

(** The same when the goal is about the state of the environment. *)
Ltac as_wpk r m s k :=
  pattern (r_out r), (r_st r), (r_k r);
  match goal with |- ?Q _ _ _ =>
    cut (wp m (fun o s1 k1 _ => Q o s1 k1) s k); [exact (fun W => W)|]
  end; cbv beta; clear r.

Ltac wp_steps := repeat (wp_step; cbn beta iota).

(** The calls of a trace that a test selects. *)
Definition calls {C : Type -> Type} {A} (f : event C -> option A) (t : list (event C)) : list A :=
  omap f t.

Lemma calls_app {C : Type -> Type} {A} (f : event C -> option A) t t' :
  calls f (t ++ t') = calls f t ++ calls f t'.
Proof. apply omap_app. Qed.

#[export] Hint Rewrite @calls_app @app_nil_r @app_nil_l : traces.

Lemma calls_none {C : Type -> Type} {A} (f : event C -> option A) t :
  Forall (fun e => f e = None) t -> calls f t = [].
Proof. unfold calls. induction 1 as [|e t He _ IH]; cbn; [done | by rewrite He]. Qed.

Lemma calls_cons_inv {C : Type -> Type} {A} (f : event C -> option A) t a l :
  calls f t = a :: l ->
  exists t1 e t2, t = t1 ++ e :: t2 /\ Forall (fun e => f e = None) t1 /\ f e = Some a /\
    calls f t2 = l.
Proof.
  unfold calls. induction t as [|e t IH]; [done|]. cbn. destruct (f e) as [b|] eqn:E.
  - intros [= -> <-]. exists [], e, t. by split_and!.
  - intros H. destruct (IH H) as (t1 & e' & t2 & -> & F & E' & <-).
    exists (e :: t1), e', t2. split_and!; try done. by constructor.
Qed.

Lemma calls_nil_inv {C : Type -> Type} {A} (f : event C -> option A) t :
  calls f t = [] -> Forall (fun e => f e = None) t.
Proof.
  unfold calls. induction t as [|e t IH]; [constructor|]. cbn.
  destruct (f e) eqn:E; [done|]. intros H. constructor; auto.
Qed.

(** ** Traces tell what happened

    The state of the environment after a run is the one the calls of its trace lead to,
    and their answers are the ones it gave. *)

Section Replay.
Context {C : Type -> Type} {K : Type} `{!Handler C K}.

Definition next (e : event C) (k : K) : K := match e with Ev c _ => (handle c k).2 end.
Definition answered (e : event C) (k : K) : Prop :=
  match e with Ev c r => r = (handle c k).1 end.

Definition replay (t : list (event C)) (k : K) : K := fold_left (fun k e => next e k) t k.

Fixpoint consistent (t : list (event C)) (k : K) : Prop :=
  match t with
  | [] => True
  | e :: t' => answered e k /\ consistent t' (next e k)
  end.

Lemma replay_app t t' k : replay (t ++ t') k = replay t' (replay t k).
Proof. apply fold_left_app. Qed.

Lemma consistent_app t t' k : consistent (t ++ t') k <-> consistent t k /\ consistent t' (replay t k).
Proof.
  revert k. induction t as [|e t IH]; intros k; cbn; [tauto|].
  rewrite IH. unfold replay. cbn. tauto.
Qed.

(** What every call of the trace keeps is kept. *)
Lemma replay_keeps (P : K -> Prop) t k :
  Forall (fun e => forall k, P k -> P (next e k)) t -> P k -> P (replay t k).
Proof. intros F. revert k. induction F as [|e t He _ IH]; intros k H; cbn; auto. Qed.

Definition replays {S A} (m : M C K S A) : Prop :=
  forall s k, r_k (m s k) = replay (r_tr (m s k)) k /\ consistent (r_tr (m s k)) k.

Lemma replays_ret {S A} (a : A) : replays (S := S) (ret a).
Proof. by intros s k. Qed.
Lemma replays_get {S} : replays (S := S) get.
Proof. by intros s k. Qed.
Lemma replays_gets {S A} (f : S -> A) : replays (gets f).
Proof. by intros s k. Qed.
Lemma replays_modify {S} (f : S -> S) : replays (modify f).
Proof. by intros s k. Qed.
Lemma replays_halt {S A} h : replays (S := S) (A := A) (halt h).
Proof. by intros s k. Qed.
Lemma replays_need {S A} f (o : option A) : replays (S := S) (need f o).
Proof. by destruct o. Qed.
Lemma replays_call {S X} (c : C X) : replays (S := S) (call c).
Proof. by intros s k. Qed.

Lemma replays_bind {S A B} (m : M C K S A) (f : A -> M C K S B) :
  replays m -> (forall a, replays (f a)) -> replays (bind m f).
Proof.
  intros Hm Hf s k. unfold bind. specialize (Hm s k).
  destruct (m s k) as [[a|h] s1 k1 t1]; cbn [r_out r_st r_k r_tr] in *; [|done].
  destruct Hm as [-> Ht]. rewrite replay_app, consistent_app. destruct (Hf a s1 (replay t1 k)). done.
Qed.

Lemma replays_for_range {S} n start (body : Z -> M C K S unit) :
  (forall i, replays (body i)) -> replays (for_range n start body).
Proof.
  intros H. revert start. induction n as [|n IH]; intros start; cbn [for_range].
  - apply replays_ret.
  - apply replays_bind; [apply H | intros _; apply IH].
Qed.

(** The trace of a run, for a proof about its postcondition. *)
Lemma wp_replays {S A} (m : M C K S A) (Q : spec A) s k :
  replays m -> wp m Q s k ->
  wp m (fun o s' k' t => Q o s' k' t /\ k' = replay t k /\ consistent t k) s k.
Proof. intros H W. unfold wp in *. split; [exact W | apply H]. Qed.
End Replay.

Create HintDb replays discriminated.
#[export] Hint Resolve replays_ret replays_get replays_gets replays_modify replays_halt replays_need
  replays_call replays_for_range : replays.

(** Decides [replays m] by the rules. *)
Ltac solve_replays :=
  repeat match goal with
  | |- forall _, _ => intro
  | |- replays (bind _ _) => apply replays_bind
  | |- replays (if ?b then _ else _) => destruct b
  | |- replays (match ?o with _ => _ end) => destruct o
  | |- replays (for_range _ _ _) => apply replays_for_range
  | |- replays _ => solve [auto with replays]
  end.
