(* ===== verification/IoctlCommands.v ===== *)
(** * The ioctl interface (HOST/include/ioctl_commands.h)

    The structures that cross the boundary between the user programs and the
    driver, the bytes they occupy (x86-64 System V layout, little endian), and the
    command numbers.  The kernel's macros [_IO], [_IOR], [_IOWR], [_IOC_TYPE] and
    [_IOC_NR] are not part of the project: they are the class [IocEncoding], and
    what the kernel documents of them is [IocLaws]. *)

From S2P Require Import Prelude.
From Stdlib Require Import ZArith Lia.
From stdpp Require Import base list.
Local Open Scope Z_scope.

Definition KERNEL_PAGE_SIZE : Z := 4096.
Definition MAX_PAGES : Z := 1024.
Definition LOG2_MAX_PAGES : Z := 10.

Record reg32 := Reg32 {
  r_data : Z;      (* uint32_t *)
  r_bar : Z;       (* uint32_t *)
  r_offset : Z     (* uint64_t *)
}.

Record dma_transfer := DmaTransfer {
  dt_data : Z;     (* void * *)
  dt_length : Z    (* uint64_t *)
}.

Record dma_buffer := DmaBuffer {
  db_is_hp : Z;    (* char *)
  db_data : Z;     (* void * *)
  db_length : Z;   (* uint64_t *)
  db_hp_size : Z;  (* uint64_t *)
  db_n_hp : Z      (* uint32_t *)
}.

Record dma_descriptor_sw := DmaDescriptorSw {
  dd_address : Z;
  dd_buffer_size : Z;
  dd_length : Z;
  dd_enable : Z;         (* : 1 *)
  dd_u1 : Z;             (* : 1 *)
  dd_is_c2s_op : Z;      (* : 1 *)
  dd_is_s2c_op : Z;      (* : 1 *)
  dd_address_mode : Z;   (* : 2 *)
  dd_u0 : Z;             (* : 58 *)
  dd_number_of_tlps : Z;
  dd_latency : Z;
  dd_address_offset : Z;
  dd_address_inc : Z;
  dd_time_at_req : Z;
  dd_time_at_comp : Z;
  dd_bytes_at_req : Z;
  dd_bytes_at_comp : Z;
  dd_index : Z
}.

#[export] Instance reg32_eq_dec : EqDecision reg32.
Proof. solve_decision. Defined.
#[export] Instance dma_buffer_eq_dec : EqDecision dma_buffer.
Proof. solve_decision. Defined.
#[export] Instance dma_descriptor_sw_eq_dec : EqDecision dma_descriptor_sw.
Proof. solve_decision. Defined.

(** ** Values within the widths of their fields *)

Definition reg32_ok (r : reg32) : Prop :=
  fits 32 (r_data r) /\ fits 32 (r_bar r) /\ fits 64 (r_offset r).

Definition dma_buffer_ok (b : dma_buffer) : Prop :=
  fits 8 (db_is_hp b) /\ fits 64 (db_data b) /\ fits 64 (db_length b) /\
  fits 64 (db_hp_size b) /\ fits 32 (db_n_hp b).

Definition dd_ok (d : dma_descriptor_sw) : Prop :=
  fits 64 (dd_address d) /\ fits 64 (dd_buffer_size d) /\ fits 64 (dd_length d) /\
  fits 1 (dd_enable d) /\ fits 1 (dd_u1 d) /\ fits 1 (dd_is_c2s_op d) /\
  fits 1 (dd_is_s2c_op d) /\ fits 2 (dd_address_mode d) /\ fits 58 (dd_u0 d) /\
  fits 64 (dd_number_of_tlps d) /\ fits 64 (dd_latency d) /\
  fits 64 (dd_address_offset d) /\ fits 64 (dd_address_inc d) /\
  fits 64 (dd_time_at_req d) /\ fits 64 (dd_time_at_comp d) /\
  fits 64 (dd_bytes_at_req d) /\ fits 64 (dd_bytes_at_comp d) /\ fits 64 (dd_index d).

(** ** Layout in memory *)

Definition sizeof_reg32 : Z := 16.
Definition sizeof_dma_transfer : Z := 16.
Definition sizeof_dma_buffer : Z := 40.
Definition sizeof_dma_descriptor_sw : Z := 104.
Definition sizeof_u64 : Z := 8.

(** The scalar of [n] bytes at offset [o] of an object's bytes. *)
Definition scalar (o n : nat) (bs : list Z) : Z := of_bytes (slice o n bs).

Definition encode_reg32 (r : reg32) : list Z :=
  bytes_of 4 (r_data r) ++ bytes_of 4 (r_bar r) ++ bytes_of 8 (r_offset r).

Definition decode_reg32 (bs : list Z) : reg32 :=
  Reg32 (scalar 0 4 bs) (scalar 4 4 bs) (scalar 8 8 bs).

(** Padding bytes are unspecified in C; the encoder stores zeros there. *)
Definition encode_dma_buffer (b : dma_buffer) : list Z :=
  bytes_of 8 (db_is_hp b) ++ bytes_of 8 (db_data b) ++ bytes_of 8 (db_length b) ++
  bytes_of 8 (db_hp_size b) ++ bytes_of 8 (db_n_hp b).

Definition decode_dma_buffer (bs : list Z) : dma_buffer :=
  DmaBuffer (scalar 0 1 bs) (scalar 8 8 bs) (scalar 16 8 bs) (scalar 24 8 bs) (scalar 32 4 bs).

(** The bit-fields of a descriptor share its fourth 64-bit word, from bit 0 up. *)
Definition bitfield (lo n w : Z) : Z := (w / 2 ^ lo) mod 2 ^ n.

Definition pack_flags (d : dma_descriptor_sw) : Z :=
  dd_enable d + 2 * dd_u1 d + 4 * dd_is_c2s_op d + 8 * dd_is_s2c_op d +
  16 * dd_address_mode d + 64 * dd_u0 d.

Definition dd_words (d : dma_descriptor_sw) : list Z :=
  [ dd_address d; dd_buffer_size d; dd_length d; pack_flags d; dd_number_of_tlps d;
    dd_latency d; dd_address_offset d; dd_address_inc d; dd_time_at_req d;
    dd_time_at_comp d; dd_bytes_at_req d; dd_bytes_at_comp d; dd_index d ].

Definition encode_dma_descriptor_sw (d : dma_descriptor_sw) : list Z :=
  concat (bytes_of 8 <$> dd_words d).

Definition decode_dma_descriptor_sw (bs : list Z) : dma_descriptor_sw :=
  let w i := scalar (8 * i) 8 bs in
  let f lo n := bitfield lo n (w 3%nat) in
  DmaDescriptorSw (w 0%nat) (w 1%nat) (w 2%nat) (f 0 1) (f 1 1) (f 2 1) (f 3 1) (f 4 2) (f 6 58)
    (w 4%nat) (w 5%nat) (w 6%nat) (w 7%nat) (w 8%nat) (w 9%nat) (w 10%nat) (w 11%nat) (w 12%nat).

Definition encode_u64 (z : Z) : list Z := bytes_of 8 z.
Definition decode_u64 (bs : list Z) : Z := scalar 0 8 bs.

(** ** Command numbers *)

Class IocEncoding := {
  _IO : Z -> Z -> Z;           (* type, number *)
  _IOR : Z -> Z -> Z -> Z;     (* type, number, sizeof *)
  _IOWR : Z -> Z -> Z -> Z;
  _IOC_TYPE : Z -> Z;
  _IOC_NR : Z -> Z
}.

(** include/uapi/asm-generic/ioctl.h: a command determines its type and number. *)
Class IocLaws (E : IocEncoding) : Prop := {
  ioc_io t n : 0 <= t < 256 -> 0 <= n < 256 -> _IOC_TYPE (_IO t n) = t /\ _IOC_NR (_IO t n) = n;
  ioc_ior t n s : 0 <= t < 256 -> 0 <= n < 256 -> 0 <= s < 8192 ->
    _IOC_TYPE (_IOR t n s) = t /\ _IOC_NR (_IOR t n s) = n;
  ioc_iowr t n s : 0 <= t < 256 -> 0 <= n < 256 -> 0 <= s < 8192 ->
    _IOC_TYPE (_IOWR t n s) = t /\ _IOC_NR (_IOWR t n s) = n
}.

Definition IOCTL_MAGIC_NUMBER : Z := 57.   (* '9' *)
Definition IOC_MAXNR : Z := 7.

Section Commands.
Context `{E : IocEncoding}.

Definition NFPIOC_WRITE_32 : Z := _IOR IOCTL_MAGIC_NUMBER 1 sizeof_reg32.
Definition NFPIOC_READ_32 : Z := _IOWR IOCTL_MAGIC_NUMBER 2 sizeof_reg32.
Definition NFPIOC_WRITE_DMA_DESCRIPTOR : Z := _IOR IOCTL_MAGIC_NUMBER 3 sizeof_dma_descriptor_sw.
Definition NFPIOC_READ_DMA_DESCRIPTOR : Z := _IOWR IOCTL_MAGIC_NUMBER 4 sizeof_dma_descriptor_sw.
Definition NFPIOC_REGISTER_BUFFER : Z := _IOR IOCTL_MAGIC_NUMBER 5 sizeof_dma_transfer.
Definition NFPIOC_UNREGISTER_BUFFER : Z := _IO IOCTL_MAGIC_NUMBER 6.
Definition NFPIOC_WINDOW_SIZE : Z := _IOR IOCTL_MAGIC_NUMBER 7 sizeof_u64.

Definition nfp_commands : list Z :=
  [ NFPIOC_WRITE_32; NFPIOC_READ_32; NFPIOC_WRITE_DMA_DESCRIPTOR; NFPIOC_READ_DMA_DESCRIPTOR;
    NFPIOC_REGISTER_BUFFER; NFPIOC_UNREGISTER_BUFFER; NFPIOC_WINDOW_SIZE ].
End Commands.

(** The encoding of most architectures, x86 among them. *)
Definition generic_ioc (dir t n s : Z) : Z := dir * 2 ^ 30 + s * 2 ^ 16 + t * 2 ^ 8 + n.

#[export] Instance asm_generic_ioc : IocEncoding := {|
  _IO t n := generic_ioc 0 t n 0;
  _IOR t n s := generic_ioc 2 t n s;
  _IOWR t n s := generic_ioc 3 t n s;
  _IOC_TYPE c := bitfield 8 8 c;
  _IOC_NR c := bitfield 0 8 c
|}.

(** ** Lemmas *)

Lemma scalar_at o n (pre : list Z) z (post : list Z) :
  length pre = o -> scalar o n (pre ++ bytes_of n z ++ post) = z mod 256 ^ Z.of_nat n.
Proof.
  intros Hp. unfold scalar. rewrite slice_app_r by lia.
  rewrite Hp, Nat.sub_diag, slice_app_l by (rewrite bytes_of_length; lia).
  rewrite slice_all by apply bytes_of_length. apply of_bytes_of.
Qed.

Lemma scalar_concat i (ws : list Z) w :
  ws !! i = Some w -> fits 64 w -> scalar (8 * i) 8 (concat (bytes_of 8 <$> ws)) = w.
Proof.
  intros Hi Hw. rewrite <- (take_drop_middle ws i w Hi).
  rewrite fmap_app, concat_app, fmap_cons. cbn [concat].
  rewrite scalar_at; [by apply Z.mod_small|].
  assert (L : forall l : list Z, length (concat (bytes_of 8 <$> l)) = (8 * length l)%nat).
  { induction l as [|x l IH]; [done|]. rewrite fmap_cons. cbn [concat length].
    rewrite length_app, IH, bytes_of_length. lia. }
  rewrite L, length_take. apply lookup_lt_Some in Hi. lia.
Qed.

Lemma flags_range d : dd_ok d -> fits 64 (pack_flags d).
Proof. unfold dd_ok, fits, pack_flags. lia. Qed.

Lemma generic_ioc_fields dir t n s :
  0 <= dir -> 0 <= t < 256 -> 0 <= n < 256 -> 0 <= s ->
  bitfield 8 8 (generic_ioc dir t n s) = t /\ bitfield 0 8 (generic_ioc dir t n s) = n.
Proof.
  intros. unfold bitfield, generic_ioc.
  split; Z.to_euclidean_division_equations; lia.
Qed.

#[export] Instance asm_generic_ioc_laws : IocLaws asm_generic_ioc.
Proof. split; intros; apply generic_ioc_fields; lia. Qed.

Lemma flags_fields d :
  dd_ok d ->
  let w := pack_flags d in
  bitfield 0 1 w = dd_enable d /\ bitfield 1 1 w = dd_u1 d /\ bitfield 2 1 w = dd_is_c2s_op d /\
  bitfield 3 1 w = dd_is_s2c_op d /\ bitfield 4 2 w = dd_address_mode d /\
  bitfield 6 58 w = dd_u0 d.
Proof.
  unfold dd_ok, fits, bitfield, pack_flags. intros (_ & _ & _ & ? & ? & ? & ? & ? & ? & _).
  cbn zeta. repeat split; Z.to_euclidean_division_equations; lia.
Qed.

(** ** Round trips *)

Lemma descriptor_bytes_roundtrip d :
  dd_ok d ->
  Z.of_nat (length (encode_dma_descriptor_sw d)) = sizeof_dma_descriptor_sw /\
  decode_dma_descriptor_sw (encode_dma_descriptor_sw d) = d.
Proof.
  intros Hd. split; [done|].
  pose proof (flags_fields d Hd) as (E0 & E1 & E2 & E3 & E4 & E6).
  pose proof (flags_range d Hd) as Hfl.
  unfold dd_ok in Hd. destruct_and! Hd.
  unfold decode_dma_descriptor_sw, encode_dma_descriptor_sw.
  rewrite !(scalar_concat 3 _ (pack_flags d)) by done.
  rewrite E0, E1, E2, E3, E4, E6.
  rewrite (scalar_concat 0 _ (dd_address d)), (scalar_concat 1 _ (dd_buffer_size d)),
    (scalar_concat 2 _ (dd_length d)), (scalar_concat 4 _ (dd_number_of_tlps d)),
    (scalar_concat 5 _ (dd_latency d)), (scalar_concat 6 _ (dd_address_offset d)),
    (scalar_concat 7 _ (dd_address_inc d)), (scalar_concat 8 _ (dd_time_at_req d)),
    (scalar_concat 9 _ (dd_time_at_comp d)), (scalar_concat 10 _ (dd_bytes_at_req d)),
    (scalar_concat 11 _ (dd_bytes_at_comp d)), (scalar_concat 12 _ (dd_index d)) by done.
  by destruct d.
Qed.

(** The bytes a program stores for a descriptor are the 104 bytes
    [copy_from_user] takes, and the driver reads back from them the descriptor
    the program wrote, bit-fields included. *)
Theorem dma_descriptor_sw_roundtrip d :
  dd_ok d ->
  Z.of_nat (length (encode_dma_descriptor_sw d)) = sizeof_dma_descriptor_sw /\
  decode_dma_descriptor_sw (encode_dma_descriptor_sw d) = d.
Proof. apply descriptor_bytes_roundtrip. Qed.

Lemma reg32_roundtrip r : reg32_ok r -> decode_reg32 (encode_reg32 r) = r.
Proof.
  intros (H1 & H2 & H3). unfold decode_reg32, encode_reg32.
  pose proof (scalar_at 0 4 [] (r_data r) (bytes_of 4 (r_bar r) ++ bytes_of 8 (r_offset r)) eq_refl) as E1.
  pose proof (scalar_at 4 4 (bytes_of 4 (r_data r)) (r_bar r) (bytes_of 8 (r_offset r)) eq_refl) as E2.
  pose proof (scalar_at 8 8 (bytes_of 4 (r_data r) ++ bytes_of 4 (r_bar r)) (r_offset r) [] eq_refl) as E3.
  rewrite app_nil_r, <- app_assoc in E3. cbn [app] in E1. rewrite E1, E2, E3.
  destruct r; unfold fits in *; cbn [r_data r_bar r_offset] in *. f_equal; apply Z.mod_small; done.
Qed.

Lemma dma_buffer_roundtrip b :
  dma_buffer_ok b -> decode_dma_buffer (encode_dma_buffer b) = b.
Proof.
  intros (H0 & H1 & H2 & H3 & H4). unfold decode_dma_buffer.
  replace (encode_dma_buffer b) with (concat (bytes_of 8 <$>
    [db_is_hp b; db_data b; db_length b; db_hp_size b; db_n_hp b]))
    by (unfold encode_dma_buffer; cbn [fmap list_fmap concat]; by rewrite app_nil_r).
  rewrite (scalar_concat 1 _ (db_data b)), (scalar_concat 2 _ (db_length b)),
    (scalar_concat 3 _ (db_hp_size b)) by done.
  assert (P : forall n z rest, (n <= 8)%nat ->
      of_bytes (take n (bytes_of 8 z ++ rest)) = z mod 256 ^ Z.of_nat n).
  { intros n z rest Hn. rewrite take_app_le by (rewrite bytes_of_length; lia).
    rewrite <- of_bytes_of. f_equal. do 9 (destruct n as [|n]; [reflexivity|]). lia. }
  assert (E0 : scalar 0 1 (concat (bytes_of 8 <$> [db_is_hp b; db_data b; db_length b;
    db_hp_size b; db_n_hp b])) = db_is_hp b).
  { unfold scalar, slice. cbn [fmap list_fmap concat]. rewrite drop_0, P by lia.
    by apply Z.mod_small. }
  assert (E4 : scalar 32 4 (concat (bytes_of 8 <$> [db_is_hp b; db_data b; db_length b;
    db_hp_size b; db_n_hp b])) = db_n_hp b).
  { unfold scalar. cbn [fmap list_fmap concat].
    do 4 (rewrite slice_app_r by (rewrite bytes_of_length; lia); rewrite bytes_of_length).
    change (32 - 8 - 8 - 8 - 8)%nat with 0%nat.
    unfold slice. rewrite drop_0, P by lia. by apply Z.mod_small. }
  rewrite E0, E4. by destruct b.
Qed.

Definition example_descriptor : dma_descriptor_sw :=
  DmaDescriptorSw 4096 1073741824 512 1 0 1 1 3 0 262144 0 8 64 0 0 0 0 7.

Lemma dma_descriptor_sw_roundtrip_witness :
  decode_dma_descriptor_sw (encode_dma_descriptor_sw example_descriptor) = example_descriptor.
Proof.
  apply (dma_descriptor_sw_roundtrip example_descriptor).
  unfold dd_ok, fits; cbn; lia.
Defined.

(** Every command passes the driver's test of the type and of the number, and
    no two commands have the same value, so the switch of [nfp_ioctl] is
    unambiguous. *)
Theorem nfp_commands_distinct `{E : IocEncoding} `{!IocLaws E} :
  Forall (fun c => _IOC_TYPE c = IOCTL_MAGIC_NUMBER /\ 0 <= _IOC_NR c <= IOC_MAXNR) nfp_commands /\
  NoDup nfp_commands.
Proof.
  unfold nfp_commands.
  pose proof (ioc_ior 57 1 16 ltac:(lia) ltac:(lia) ltac:(lia)) as [T1 N1].
  pose proof (ioc_iowr 57 2 16 ltac:(lia) ltac:(lia) ltac:(lia)) as [T2 N2].
  pose proof (ioc_ior 57 3 104 ltac:(lia) ltac:(lia) ltac:(lia)) as [T3 N3].
  pose proof (ioc_iowr 57 4 104 ltac:(lia) ltac:(lia) ltac:(lia)) as [T4 N4].
  pose proof (ioc_ior 57 5 16 ltac:(lia) ltac:(lia) ltac:(lia)) as [T5 N5].
  pose proof (ioc_io 57 6 ltac:(lia) ltac:(lia)) as [T6 N6].
  pose proof (ioc_ior 57 7 8 ltac:(lia) ltac:(lia) ltac:(lia)) as [T7 N7].
  split.
  - repeat constructor; unfold IOC_MAXNR; first [exact T1 | exact T2 | exact T3 | exact T4
      | exact T5 | exact T6 | exact T7 | idtac]; cbv [NFPIOC_WRITE_32 NFPIOC_READ_32
      NFPIOC_WRITE_DMA_DESCRIPTOR NFPIOC_READ_DMA_DESCRIPTOR NFPIOC_REGISTER_BUFFER
      NFPIOC_UNREGISTER_BUFFER NFPIOC_WINDOW_SIZE IOCTL_MAGIC_NUMBER sizeof_reg32
      sizeof_dma_descriptor_sw sizeof_dma_transfer sizeof_u64]; lia.
  - apply (NoDup_fmap_1 _IOC_NR). cbn [fmap list_fmap].
    cbv [NFPIOC_WRITE_32 NFPIOC_READ_32
      NFPIOC_WRITE_DMA_DESCRIPTOR NFPIOC_READ_DMA_DESCRIPTOR NFPIOC_REGISTER_BUFFER
      NFPIOC_UNREGISTER_BUFFER NFPIOC_WINDOW_SIZE IOCTL_MAGIC_NUMBER sizeof_reg32
      sizeof_dma_descriptor_sw sizeof_dma_transfer sizeof_u64].
    rewrite N1, N2, N3, N4, N5, N6, N7.
    apply (bool_decide_unpack (NoDup [1; 2; 3; 4; 5; 6; 7])). vm_compute. done.
Qed.

Lemma nfp_commands_distinct_witness :
  NoDup (nfp_commands (E := asm_generic_ioc)).
Proof. apply (nfp_commands_distinct (E := asm_generic_ioc)). Defined.
