(* ===== verification/NfpTypes.v ===== *)
(** * Driver data (HOST/driver/nfp_types.h)

    The register file of the DMA core as the packed C structures lay it out in
    BAR 0, and the state of a card.  Sizes and offsets are computed from the list
    of members, as the compiler does for a packed structure. *)

From S2P Require Import Prelude.
From Stdlib Require Import ZArith Lia.
From stdpp Require Import base list strings.
Local Open Scope string_scope.
Local Open Scope list_scope.
Local Open Scope Z_scope.

Definition PCI_VENDOR_ID_NFP : Z := 0x10EE.
Definition PCI_DEVICE_ID_NFP : Z := 0x7038.
Definition MAX_NUM_DMA_ENGINES : Z := 2.
Definition MAX_NUM_DMA_DESCRIPTORS : Z := 1024.
Definition OFFSET_BETWEEN_ENGINES : Z := 0x4000.   (* in 64-bit words *)
Definition DMA_OFFSET : Z := 0x200.                (* in 64-bit words *)
Definition PAGE_SHIFT : Z := 12.
Definition PAGE_SIZE : Z := 4096.

(** ** Packed layouts *)

Definition layout := list (string * Z).

Definition sizeof (l : layout) : Z := foldr (fun m n => m.2 + n) 0 l.

Fixpoint offsetof (f : string) (l : layout) : Z :=
  match l with
  | [] => 0
  | (g, n) :: l' => if decide (f = g) then 0 else n + offsetof f l'
  end.

Definition dma_descriptor : layout :=
  [ ("address", 8); ("size", 8); ("generate_irq", 8); ("latency", 8);
    ("time_at_req", 8); ("time_at_comp", 8); ("bytes_at_req", 8); ("bytes_at_comp", 8) ].

Definition dma_engine : layout :=
  [ ("control", 8);   (* enable, reset, is_c2s, is_s2c : 1, address_mode : 2, u0 : 58 *)
    ("complete_until_descriptor", 2); ("u1", 2); ("u2", 4);
    ("total_time", 8); ("total_bytes", 8);
    ("host_buffer_size", 8); ("address_offset", 8); ("address_inc", 8); ("number_of_tlps", 8);
    ("dma_descriptor", MAX_NUM_DMA_DESCRIPTORS * sizeof dma_descriptor);
    ("u4", 8 * (OFFSET_BETWEEN_ENGINES - 4 - MAX_NUM_DMA_DESCRIPTORS * sizeof dma_descriptor / 8)) ].

Definition dma_core : layout :=
  [ ("dma_engine", MAX_NUM_DMA_ENGINES * sizeof dma_engine); ("dma_common_block", 8) ].

(** [&dma->dma_engine[i].f], [&dma->dma_engine[0].dma_descriptor[j].f] and
    [&dma->dma_common_block], as byte offsets from [dma]. *)
Definition engine_off (i : Z) (f : string) : Z :=
  offsetof "dma_engine" dma_core + i * sizeof dma_engine + offsetof f dma_engine.
Definition descriptor_off (j : Z) (f : string) : Z :=
  engine_off 0 "dma_descriptor" + j * sizeof dma_descriptor + offsetof f dma_descriptor.
Definition common_block_off : Z := offsetof "dma_common_block" dma_core.

(** ** The card *)

Record mem := Mem {
  m_virtual : Z;
  m_length : Z;
  m_page_size : Z;
  m_npages : Z;
  m_page_address : list Z     (* [16] *)
}.

Record mmap_info := MmapInfo {
  mi_last : Z;                (* int *)
  mi_first : Z;               (* int *)
  mi_active : Z;              (* int *)
  mi_dma_handle : Z;
  mi_page_list : Z            (* struct page *, the address of the buffer *)
}.

Record nfp_card := Card {
  c_bar0 : Z;
  c_bar1 : Z;
  c_bar2 : Z;
  c_dev : Z;
  c_dev_class : Z;
  c_dma : Z;                  (* struct dma_core * *)
  c_buffer : mem;
  c_mmap_info : mmap_info
}.

(** Objects of static storage in nfpdma.c and nfpmem.c. *)
Record dma_globals := DmaGlobals {
  g_s : Z;
  g_e : Z;
  g_ldescriptor : Z;
  g_phy_addr : list Z;        (* [MAX_NUM_DMA_DESCRIPTORS] *)
  g_phy_size : list Z;
  g_phy_addr_valid : list Z
}.

Record mem_globals := MemGlobals {
  g_num_pages : Z;
  g_pages : list Z            (* the array of struct page * that pages points to *)
}.

Record driver := Driver {
  d_card : nfp_card;
  d_dma : dma_globals;
  d_mem : mem_globals
}.

(** ** Assignments to the members *)

Definition set_card (f : nfp_card -> nfp_card) (d : driver) : driver :=
  Driver (f (d_card d)) (d_dma d) (d_mem d).
Definition set_dma (f : dma_globals -> dma_globals) (d : driver) : driver :=
  Driver (d_card d) (f (d_dma d)) (d_mem d).
Definition set_mem (f : mem_globals -> mem_globals) (d : driver) : driver :=
  Driver (d_card d) (d_dma d) (f (d_mem d)).

Definition set_buffer (f : mem -> mem) (c : nfp_card) : nfp_card :=
  Card (c_bar0 c) (c_bar1 c) (c_bar2 c) (c_dev c) (c_dev_class c) (c_dma c)
    (f (c_buffer c)) (c_mmap_info c).
Definition set_mmap_info (f : mmap_info -> mmap_info) (c : nfp_card) : nfp_card :=
  Card (c_bar0 c) (c_bar1 c) (c_bar2 c) (c_dev c) (c_dev_class c) (c_dma c)
    (c_buffer c) (f (c_mmap_info c)).

Definition set_virtual v (m : mem) : mem :=
  Mem v (m_length m) (m_page_size m) (m_npages m) (m_page_address m).
Definition set_length v (m : mem) : mem :=
  Mem (m_virtual m) v (m_page_size m) (m_npages m) (m_page_address m).
Definition set_page_size v (m : mem) : mem :=
  Mem (m_virtual m) (m_length m) v (m_npages m) (m_page_address m).
Definition set_npages v (m : mem) : mem :=
  Mem (m_virtual m) (m_length m) (m_page_size m) v (m_page_address m).
Definition set_page_address v (m : mem) : mem :=
  Mem (m_virtual m) (m_length m) (m_page_size m) (m_npages m) v.

Definition set_last v (m : mmap_info) : mmap_info :=
  MmapInfo v (mi_first m) (mi_active m) (mi_dma_handle m) (mi_page_list m).
Definition set_first v (m : mmap_info) : mmap_info :=
  MmapInfo (mi_last m) v (mi_active m) (mi_dma_handle m) (mi_page_list m).
Definition set_active v (m : mmap_info) : mmap_info :=
  MmapInfo (mi_last m) (mi_first m) v (mi_dma_handle m) (mi_page_list m).

Definition set_s v (g : dma_globals) : dma_globals :=
  DmaGlobals v (g_e g) (g_ldescriptor g) (g_phy_addr g) (g_phy_size g) (g_phy_addr_valid g).
Definition set_e v (g : dma_globals) : dma_globals :=
  DmaGlobals (g_s g) v (g_ldescriptor g) (g_phy_addr g) (g_phy_size g) (g_phy_addr_valid g).
Definition set_ldescriptor v (g : dma_globals) : dma_globals :=
  DmaGlobals (g_s g) (g_e g) v (g_phy_addr g) (g_phy_size g) (g_phy_addr_valid g).
Definition set_phy_addr v (g : dma_globals) : dma_globals :=
  DmaGlobals (g_s g) (g_e g) (g_ldescriptor g) v (g_phy_size g) (g_phy_addr_valid g).
Definition set_phy_size v (g : dma_globals) : dma_globals :=
  DmaGlobals (g_s g) (g_e g) (g_ldescriptor g) (g_phy_addr g) v (g_phy_addr_valid g).
Definition set_phy_addr_valid v (g : dma_globals) : dma_globals :=
  DmaGlobals (g_s g) (g_e g) (g_ldescriptor g) (g_phy_addr g) (g_phy_size g) v.

(** ** Initial values (static objects, and the memset of [nfp_probe]) *)

Definition mem_zero : mem := Mem 0 0 0 0 (replicate 16 0).
Definition mmap_info_zero : mmap_info := MmapInfo 0 0 0 0 0.
Definition card_zero : nfp_card := Card 0 0 0 0 0 0 mem_zero mmap_info_zero.
Definition dma_globals_init : dma_globals :=
  DmaGlobals 0 0 0 (replicate 1024 0) (replicate 1024 0) (replicate 1024 0).
Definition mem_globals_init : mem_globals := MemGlobals 0 [].
Definition driver_init : driver := Driver card_zero dma_globals_init mem_globals_init.

(** Sizes of the arrays never change. *)
Definition dma_wf (g : dma_globals) : Prop :=
  length (g_phy_addr g) = 1024%nat /\ length (g_phy_size g) = 1024%nat /\
  length (g_phy_addr_valid g) = 1024%nat /\
  Forall (fun v => v = 0 \/ v = 1) (g_phy_addr_valid g) /\
  0 <= g_ldescriptor g < MAX_NUM_DMA_DESCRIPTORS.

Lemma dma_globals_init_wf : dma_wf dma_globals_init.
Proof.
  unfold dma_wf, dma_globals_init; cbn [g_phy_addr g_phy_size g_phy_addr_valid g_ldescriptor].
  rewrite !length_replicate. unfold MAX_NUM_DMA_DESCRIPTORS.
  repeat split; try lia. apply Forall_replicate. by left.
Qed.

#[export] Hint Resolve dma_globals_init_wf : pcie.

(** ** What the layout gives *)

(** The padding member [u4] subtracts 4 header words where the structure has 8:
    the structure of an engine is 4 words longer than the distance between engines
    of the hardware, so engine 1 and the common block of [struct dma_core] are
    not at the addresses the comment of nfp_types.h gives (and HOST/restart.sh,
    which resets the core by writing byte 266240 of BAR 0, uses). *)
Theorem dma_core_misplaces_engine1 :
  sizeof dma_engine = 8 * OFFSET_BETWEEN_ENGINES + 32 /\
  (forall f, engine_off 1 f = 8 * OFFSET_BETWEEN_ENGINES + engine_off 0 f + 32) /\
  common_block_off = 8 * (MAX_NUM_DMA_ENGINES * OFFSET_BETWEEN_ENGINES) + 64 /\
  8 * DMA_OFFSET + 8 * (MAX_NUM_DMA_ENGINES * OFFSET_BETWEEN_ENGINES) = 266240.
Proof.
  split; [vm_compute; done|]. split; [|split; vm_compute; done].
  intros f. unfold engine_off. change (sizeof dma_engine) with 131104.
  unfold OFFSET_BETWEEN_ENGINES. lia.
Qed.
