(* ===== verification/Kernel.v ===== *)
(** * The kernel as the driver sees it

    The calls the driver makes into Linux and onto the bus, as the family [kcall]
    indexed by the type of the answer.  Nothing of the kernel is defined here: an
    instance of [Handler kcall K] answers the calls, and the theorems about the
    driver quantify over every such instance, or over those that satisfy a named
    law of this file.  [printk] has no effect on the state of the driver and is
    left out.  The card, the PCI device and the device numbers the calls take as
    their context are the driver's only ones and are not repeated as arguments. *)

From S2P Require Import Prelude Eff NfpTypes.
From Stdlib Require Import ZArith Lia.
From stdpp Require Import base list.
Local Open Scope Z_scope.

Inductive kcall : Type -> Type :=
(* the semaphore card->sem_op *)
| K_sema_init (n : Z) : kcall unit
| K_down_interruptible : kcall Z
| K_up : kcall unit
(* user memory; None stands for a non-zero count of bytes not copied *)
| K_copy_from_user (p n : Z) : kcall (option (list Z))
| K_copy_to_user (p : Z) (bs : list Z) : kcall Z
(* device registers *)
| K_iowrite32 (v a : Z) : kcall unit
| K_ioread32 (a : Z) : kcall Z
| K_memcpy_toio (a : Z) (bs : list Z) : kcall unit
| K_memcpy_fromio (a n : Z) : kcall (list Z)
| K_io_store16 (a v : Z) : kcall unit        (* a plain 16-bit store through dma-> *)
| K_io_load_bit (a b : Z) : kcall bool       (* a plain read of bit b of the word at a *)
(* time and DMA mappings *)
| K_ktime_get_us : kcall Z                   (* ktime_to_us (ktime_get ()) *)
| K_pci_map_single (addr size : Z) : kcall Z
| K_pci_unmap_single (addr size : Z) : kcall unit
(* memory management *)
| K_vmalloc_pages (n : Z) : kcall (option (list Z))  (* n pointers of unspecified value *)
| K_vfree_pages (pages : list Z) : kcall unit
| K_down_read_mmap_sem : kcall unit
| K_up_read_mmap_sem : kcall unit
| K_get_user_pages (start n : Z) (pages : list Z) : kcall (Z * list Z)
| K_page_address (page : Z) : kcall Z
| K_PageReserved (page : Z) : kcall bool
| K_SetPageDirty (page : Z) : kcall unit
| K_put_page (page : Z) : kcall unit
| K_virt_to_phys (p : Z) : kcall Z
| K_remap_pfn_range (start pfn size : Z) : kcall Z
(* the character device *)
| K_alloc_chrdev_region : kcall (Z * Z)
| K_unregister_chrdev_region (dev : Z) : kcall unit
| K_class_create : kcall Z
| K_IS_ERR (p : Z) : kcall bool
| K_class_destroy (cls : Z) : kcall unit
| K_device_create (cls dev : Z) : kcall Z
| K_device_destroy (cls dev : Z) : kcall unit
| K_cdev_init : kcall unit
| K_cdev_add (dev : Z) : kcall Z
| K_cdev_del : kcall unit
(* the PCI device *)
| K_kmalloc_card : kcall Z
| K_kfree_card : kcall unit
| K_pci_enable_device : kcall Z
| K_pci_disable_device : kcall unit
| K_pci_find_capability (parent : bool) (cap : Z) : kcall Z
| K_pci_read_config_word (off : Z) : kcall (Z * Z)
| K_pci_write_config_word (off v : Z) : kcall Z
| K_pci_write_config_dword (off v : Z) : kcall Z
| K_pci_set_dma_mask : kcall Z
| K_pci_set_consistent_dma_mask : kcall Z
| K_pci_set_drvdata (card : Z) : kcall unit
| K_pci_get_drvdata : kcall Z
| K_pci_set_master : kcall unit
| K_pci_clear_master : kcall unit
| K_pci_resource_flags (bar : Z) : kcall Z
| K_pci_resource_len (bar : Z) : kcall Z
| K_pci_request_regions : kcall Z
| K_pci_release_regions : kcall unit
| K_pci_iomap (bar len : Z) : kcall Z
| K_pci_iounmap (a : Z) : kcall unit
| K_pci_alloc_consistent (size : Z) : kcall (Z * Z)
| K_pci_free_consistent (size p h : Z) : kcall unit
| K_pci_set_power_state (st : Z) : kcall unit
| K_pci_choose_state (mstate : Z) : kcall Z
| K_pci_save_state : kcall unit
| K_pci_restore_state : kcall unit
| K_pci_register_driver : kcall Z
| K_pci_unregister_driver : kcall unit.

Abbreviation KM K := (M kcall K driver).
Abbreviation ktrace := (list (event kcall)).

(** ** What a trace did *)

(** The stores of the CPU into the memory of the device, in order. *)
Definition mmio_write (e : event kcall) : option (Z * list Z) :=
  match e with
  | Ev (K_memcpy_toio a bs) _ => Some (a, bs)
  | Ev (K_io_store16 a v) _ => Some (a, bytes_of 2 v)
  | Ev (K_iowrite32 v a) _ => Some (a, bytes_of 4 v)
  | _ => None
  end.

(** DMA mappings: the bus address and size of each one made and of each one undone. *)
Definition dma_map (e : event kcall) : option (Z * Z) :=
  match e with
  | Ev (K_pci_map_single _ n) r => Some (u64 r, n)
  | _ => None
  end.
Definition dma_unmap (e : event kcall) : option (Z * Z) :=
  match e with
  | Ev (K_pci_unmap_single a n) _ => Some (a, n)
  | _ => None
  end.

(** The kernel address and size each mapping was asked for. *)
Definition map_request (e : event kcall) : option (Z * Z) :=
  match e with
  | Ev (K_pci_map_single a n) _ => Some (a, n)
  | _ => None
  end.

(** What was copied to user memory, and where. *)
Definition copied_out (e : event kcall) : option (Z * list Z) :=
  match e with Ev (K_copy_to_user p bs) _ => Some (p, bs) | _ => None end.

(** The semaphore: +1 for each [up], -1 for each [down_interruptible] that got it. *)
Definition sem_step (e : event kcall) : Z :=
  match e with
  | Ev K_up _ => 1
  | Ev K_down_interruptible r => if r =? 0 then -1 else 0
  | _ => 0
  end.

(** What a thread did to the semaphore: took it, was interrupted while waiting for
    it, gave it back. *)
Inductive sem_act := Took | Interrupted | Gave.
Definition sem_action (e : event kcall) : option sem_act :=
  match e with
  | Ev K_up _ => Some Gave
  | Ev K_down_interruptible r => Some (if r =? 0 then Took else Interrupted)
  | _ => None
  end.

Definition sem_delta (t : ktrace) : Z := foldr (fun e n => sem_step e + n) 0 t.

Lemma sem_delta_app t t' : sem_delta (t ++ t') = sem_delta t + sem_delta t'.
Proof. induction t as [|e t IH]; cbn; [done|]. unfold sem_delta in *. lia. Qed.

Lemma sem_delta_cons e t : sem_delta (e :: t) = sem_step e + sem_delta t.
Proof. done. Qed.

#[export] Hint Rewrite sem_delta_app sem_delta_cons : traces.

(** Pages given back to the memory manager. *)
Definition page_released (e : event kcall) : option Z :=
  match e with Ev (K_put_page p) _ => Some p | _ => None end.

(** ** Documented behaviour of the kernel

    Each law is a class of its own; a theorem names the ones it needs. *)

Section KernelLaws.
Context {K : Type} `{H : Handler kcall K}.

(** The state of the environment after [n] rounds of the polling loop of
    [writeDMADescriptor] on the word at [a]. *)
Fixpoint polls (n : nat) (a : Z) (k : K) : K :=
  match n with
  | O => k
  | S n' => polls n' a (handle (K_io_load_bit a 0) (handle K_ktime_get_us k).2).2
  end.

(** The monotonic clock, as an unbounded count of microseconds: a reading gives its
    value in 64 bits, no call moves it back or takes [2 ^ 62] microseconds, and
    [rate] rounds of polling take at least one. *)
Class ClockLaws (clock : K -> Z) (rate : nat) : Prop := {
  clock_read k : (handle K_ktime_get_us k).1 = u64 (clock (handle K_ktime_get_us k).2);
  clock_step {X} (c : kcall X) k : clock k <= clock (handle c k).2 < clock k + 2 ^ 62;
  clock_rate a k : clock k < clock (polls rate a k)
}.

(** Pages: the array [vmalloc] gives has the length asked for, [get_user_pages]
    fills entries of the array it is given and pins at most as many pages as it is
    asked, and the kernel address of a page is a function of the page. *)
Class PageLaws (addr_of : Z -> Z) : Prop := {
  vmalloc_length n l k : (handle (K_vmalloc_pages n) k).1 = Some l -> Z.of_nat (length l) = n;
  gup_length start n l k :
    length (handle (K_get_user_pages start n l) k).1.2 = length l;
  gup_count start n l k : 0 <= n -> -4095 <= (handle (K_get_user_pages start n l) k).1.1 <= n;
  page_address_fn p k : (handle (K_page_address p) k).1 = addr_of p
}.

(** There is no memory for an array of 2 ^ 53 pointers. *)
Class MemoryBound : Prop :=
  vmalloc_bound n l k : (handle (K_vmalloc_pages n) k).1 = Some l -> n < 2 ^ 53.

(** The character device: failures are negative, and [IS_ERR] tests for the last
    4095 addresses. *)
Class ChrdevLaws : Prop := {
  alloc_chrdev_neg k : (handle K_alloc_chrdev_region k).1.1 <= 0;
  alloc_chrdev_int k : - 2 ^ 31 <= (handle K_alloc_chrdev_region k).1.1;
  cdev_add_neg d k : - 2 ^ 31 <= (handle (K_cdev_add d) k).1 <= 0;
  is_err p k : (handle (K_IS_ERR p) k).1 = bool_decide (2 ^ 64 - 4095 <= u64 p)
}.

Lemma polls_add n m a k : polls (n + m) a k = polls m a (polls n a k).
Proof. revert k; induction n as [|n IH]; intros k; cbn; [done | by rewrite IH]. Qed.

Lemma polls_clock `{!ClockLaws clock rate} n a k :
  clock k + Z.of_nat n <= clock (polls (rate * n) a k).
Proof.
  induction n as [|n IH]; [rewrite Nat.mul_0_r; cbn; lia|].
  rewrite Nat.mul_succ_r, polls_add.
  pose proof (clock_rate a (polls (rate * n) a k)). lia.
Qed.
End KernelLaws.

Ltac unit_answers :=
  repeat match goal with r : unit |- _ => destruct r end.
