(* ===== verification/Reg.v ===== *)
(** * Register access (HOST/driver/reg.c) *)

From S2P Require Import Prelude Eff IoctlCommands NfpTypes Kernel.
From Stdlib Require Import ZArith Lia.
From stdpp Require Import base list.
Local Open Scope Z_scope.
Local Open Scope eff_scope.

Section Reg.
Context {K : Type} `{!Handler kcall K}.

(** The switch both functions start with: [None] is its default branch. *)
Definition select_bar (r : reg32) (card : nfp_card) : option Z :=
  if r_bar r =? 0 then Some (c_bar0 card)
  else if r_bar r =? 1 then Some (c_bar1 card)
  else if r_bar r =? 2 then Some (c_bar2 card)
  else None.

Definition WriteReg32 (r : reg32) : KM K unit :=
  let* card := gets d_card in
  match select_bar r card with
  | None => ret tt
  | Some bar =>
      if bar =? 0 then ret tt
      else call (K_iowrite32 (r_data r) (u64 (bar + r_offset r)))
  end.

(** The structure [r] points to, after the call. *)
Definition ReadReg32 (r : reg32) : KM K reg32 :=
  let* card := gets d_card in
  match select_bar r card with
  | None => ret r
  | Some bar =>
      if bar =? 0 then ret r
      else
        let* v := call (K_ioread32 (u64 (bar + r_offset r))) in
        ret (Reg32 (u32 v) (r_bar r) (r_offset r))
  end.
End Reg.

(** The BAR a request names, when the card has it mapped. *)
Definition target (r : reg32) (card : nfp_card) : option Z :=
  match select_bar r card with
  | Some b => if b =? 0 then None else Some (u64 (b + r_offset r))
  | None => None
  end.

Section RegSpec.
Context {K : Type} `{!Handler kcall K}.

(** A write request makes exactly one 32-bit store, at its offset in the BAR
    it names, when that BAR is one of the three and is mapped; otherwise it
    touches nothing.  The state of the driver never changes. *)
Theorem WriteReg32_spec r d (k : K) :
  WriteReg32 r d k =
    match target r (d_card d) with
    | Some a =>
        let k' := (handle (K_iowrite32 (r_data r) a) k).2 in
        Res (Done tt) d k' [Ev (K_iowrite32 (r_data r) a) tt]
    | None => Res (Done tt) d k []
    end.
Proof.
  unfold WriteReg32, target, bind, gets; cbn.
  destruct (select_bar r (d_card d)) as [b|]; [|done].
  destruct (b =? 0); cbn; [done|].
  unfold call; cbn. destruct (handle _ k) as [[] k']. done.
Qed.

(** A read request answers the 32-bit value the device gives for its offset in
    its BAR; a request for a BAR that does not exist or is not mapped gives the
    structure back unchanged and reads nothing. *)
Theorem ReadReg32_spec r d (k : K) :
  ReadReg32 r d k =
    match target r (d_card d) with
    | Some a =>
        let v := (handle (K_ioread32 a) k).1 in
        Res (Done (Reg32 (u32 v) (r_bar r) (r_offset r))) d (handle (K_ioread32 a) k).2
          [Ev (K_ioread32 a) v]
    | None => Res (Done r) d k []
    end.
Proof.
  unfold ReadReg32, target, bind, gets; cbn.
  destruct (select_bar r (d_card d)) as [b|]; [|done].
  destruct (b =? 0); cbn; [done|].
  unfold call; cbn. done.
Qed.
End RegSpec.
