(* ===== verification/SimKernel.v ===== *)
(** * A concrete kernel

    An instance of [Handler kcall] on which the theorems about the driver can be
    evaluated: memories are finite maps of bytes, the clock advances by one at every
    call, the DMA engine stops after a number of polls, and one call can be made
    to fail.  No theorem about the driver rests on it; the witnesses do. *)

From S2P Require Import Prelude Eff IoctlCommands NfpTypes Kernel.
From Stdlib Require Import ZArith Lia.
From stdpp Require Import base list gmap.
Local Open Scope Z_scope.

(** The calls that [sim_fails] can select. *)
Inductive site :=
| NoFailure | FailKmalloc | FailEnable | FailParentCap | FailCap | FailReadConfig
| FailDmaMask | FailConsistentMask | FailChrdev | FailClass | FailDevice | FailCdev
| FailResourceFlags | FailRequestRegions | FailIomap | FailAllocConsistent
| FailVmalloc | FailGetUserPages | FailRemap | FailCopyTo.

#[export] Instance site_eq_dec : EqDecision site.
Proof. solve_decision. Defined.

Record sim := Sim {
  sim_clock : Z;
  sim_sem : Z;
  sim_user : gmap Z Z;      (* user memory *)
  sim_dev : gmap Z Z;       (* device memory, by bus address of the register *)
  sim_config : gmap Z Z;    (* words of the configuration space *)
  sim_busy : nat;           (* polls before the engine stops *)
  sim_drvdata : Z;
  sim_fails : site
}.

Definition peek (m : gmap Z Z) (a : Z) : Z := default 0 (m !! a).
Definition read_bytes (m : gmap Z Z) (a n : Z) : list Z :=
  (fun i => peek m (a + i)) <$> seqZ 0 n.
Fixpoint write_bytes (m : gmap Z Z) (a : Z) (bs : list Z) : gmap Z Z :=
  match bs with
  | [] => m
  | b :: bs' => write_bytes (<[a := b]> m) (a + 1) bs'
  end.

Definition fails (k : sim) (x : site) : bool := bool_decide (sim_fails k = x).

(** The answer of a call. *)
Definition sim_answer {X} (c : kcall X) (k : sim) : X :=
  match c in kcall X return X with
  | K_sema_init _ => tt
  | K_down_interruptible => if 0 <? sim_sem k then 0 else -4
  | K_up => tt
  | K_copy_from_user p n => if p =? 0 then None else Some (read_bytes (sim_user k) p n)
  | K_copy_to_user p bs =>
      if (p =? 0) || fails k FailCopyTo then Z.of_nat (length bs) else 0
  | K_iowrite32 _ _ => tt
  | K_ioread32 a => of_bytes (read_bytes (sim_dev k) a 4)
  | K_memcpy_toio _ _ => tt
  | K_memcpy_fromio a n => read_bytes (sim_dev k) a n
  | K_io_store16 _ _ => tt
  | K_io_load_bit _ _ => negb (Nat.eqb (sim_busy k) 0)
  | K_ktime_get_us => u64 (sim_clock k + 1)
  | K_pci_map_single addr _ => addr + 2 ^ 40
  | K_pci_unmap_single _ _ => tt
  | K_vmalloc_pages n =>
      if fails k FailVmalloc || (n <? 1) || (2 ^ 53 <=? n) then None
      else Some (replicate (Z.to_nat n) 0)
  | K_vfree_pages _ => tt
  | K_down_read_mmap_sem => tt
  | K_up_read_mmap_sem => tt
  | K_get_user_pages start n pages =>
      if fails k FailGetUserPages then (-14, pages)
      else (n, (fun i => start / 4096 + i) <$> seqZ 0 (Z.of_nat (length pages)))
  | K_page_address page => 2 ^ 46 + page * 4096
  | K_PageReserved _ => false
  | K_SetPageDirty _ => tt
  | K_put_page _ => tt
  | K_virt_to_phys p => p
  | K_remap_pfn_range _ _ _ => if fails k FailRemap then -12 else 0
  | K_alloc_chrdev_region => if fails k FailChrdev then (-16, 0) else (0, 240)
  | K_unregister_chrdev_region _ => tt
  | K_class_create => if fails k FailClass then -12 else 4096
  | K_IS_ERR p => bool_decide (2 ^ 64 - 4095 <= u64 p)
  | K_class_destroy _ => tt
  | K_device_create _ _ => if fails k FailDevice then 0 else 8192
  | K_device_destroy _ _ => tt
  | K_cdev_init => tt
  | K_cdev_add _ => if fails k FailCdev then -12 else 0
  | K_cdev_del => tt
  | K_kmalloc_card => if fails k FailKmalloc then 0 else 16384
  | K_kfree_card => tt
  | K_pci_enable_device => if fails k FailEnable then -5 else 0
  | K_pci_disable_device => tt
  | K_pci_find_capability parent _ =>
      if fails k (if parent then FailParentCap else FailCap) then 0 else 64
  | K_pci_read_config_word off =>
      if fails k FailReadConfig then (135, 65535) else (0, peek (sim_config k) off)
  | K_pci_write_config_word _ _ => 0
  | K_pci_write_config_dword _ _ => 0
  | K_pci_set_dma_mask => if fails k FailDmaMask then -5 else 0
  | K_pci_set_consistent_dma_mask => if fails k FailConsistentMask then -5 else 0
  | K_pci_set_drvdata _ => tt
  | K_pci_get_drvdata => sim_drvdata k
  | K_pci_set_master => tt
  | K_pci_clear_master => tt
  | K_pci_resource_flags _ => if fails k FailResourceFlags then 256 else 512
  | K_pci_resource_len _ => 2 ^ 20
  | K_pci_request_regions => if fails k FailRequestRegions then -16 else 0
  | K_pci_release_regions => tt
  | K_pci_iomap bar _ => if fails k FailIomap then 0 else 2 ^ 32 + bar * 2 ^ 20
  | K_pci_iounmap _ => tt
  | K_pci_alloc_consistent _ =>
      if fails k FailAllocConsistent then (0, 0) else (2 ^ 36, 2 ^ 41)
  | K_pci_free_consistent _ _ _ => tt
  | K_pci_set_power_state _ => tt
  | K_pci_choose_state m => m
  | K_pci_save_state => tt
  | K_pci_restore_state => tt
  | K_pci_register_driver => 0
  | K_pci_unregister_driver => tt
  end.

(** Its effect, the clock apart. *)
Definition sim_effect {X} (c : kcall X) (k : sim) : sim :=
  let (t, sem, um, dev, cfg, busy, dd, fl) := k in
  match c with
  | K_sema_init n => Sim t n um dev cfg busy dd fl
  | K_down_interruptible => Sim t (if 0 <? sem then sem - 1 else sem) um dev cfg busy dd fl
  | K_up => Sim t (sem + 1) um dev cfg busy dd fl
  | K_copy_to_user p bs =>
      if (p =? 0) || fails k FailCopyTo then k
      else Sim t sem (write_bytes um p bs) dev cfg busy dd fl
  | K_iowrite32 v a => Sim t sem um (write_bytes dev a (bytes_of 4 v)) cfg busy dd fl
  | K_memcpy_toio a bs => Sim t sem um (write_bytes dev a bs) cfg busy dd fl
  | K_io_store16 a v => Sim t sem um (write_bytes dev a (bytes_of 2 v)) cfg busy dd fl
  | K_io_load_bit _ _ => Sim t sem um dev cfg (pred busy) dd fl
  | K_pci_write_config_word off v => Sim t sem um dev (<[off := v]> cfg) busy dd fl
  | K_pci_write_config_dword off v =>
      Sim t sem um dev (<[off := u16 v]> (<[off + 2 := v / 2 ^ 16]> cfg)) busy dd fl
  | K_pci_set_drvdata p => Sim t sem um dev cfg busy p fl
  | _ => k
  end.

Definition tick (k : sim) : sim :=
  Sim (sim_clock k + 1) (sim_sem k) (sim_user k) (sim_dev k) (sim_config k) (sim_busy k)
    (sim_drvdata k) (sim_fails k).

#[export] Instance sim_handler : Handler kcall sim :=
  fun X c k => (sim_answer c k, tick (sim_effect c k)).

Definition sim_init : sim := Sim 0 1 ∅ ∅ ∅ 3 0 NoFailure.
Definition sim_failing (x : site) : sim := Sim 0 1 ∅ ∅ ∅ 3 0 x.

Lemma sim_effect_clock {X} (c : kcall X) k : sim_clock (sim_effect c k) = sim_clock k.
Proof. destruct k, c; cbn; try done. case_match; done. Qed.

#[export] Instance sim_clock_laws : ClockLaws sim_clock 1.
Proof.
  split.
  - intros k. cbn. by rewrite sim_effect_clock.
  - intros X c k. cbn. rewrite sim_effect_clock. lia.
  - intros a k. cbn. destruct k; cbn. lia.
Qed.

#[export] Instance sim_page_laws : PageLaws (fun page => 2 ^ 46 + page * 4096).
Proof.
  split.
  - intros n l k. cbn. destruct (fails k FailVmalloc); [done|]. cbn [orb].
    destruct (Z.ltb_spec n 1); [done|]. destruct (_ <=? n); [done|]. intros [= <-].
    rewrite length_replicate. lia.
  - intros start n l k. cbn. destruct (fails k FailGetUserPages); [done|].
    cbn. by rewrite length_fmap, length_seqZ, Nat2Z.id.
  - intros start n l k. cbn. destruct (fails k FailGetUserPages); cbn; lia.
  - done.
Qed.

#[export] Instance sim_memory_bound : MemoryBound (K := sim).
Proof.
  intros n l k. cbn. destruct (fails k FailVmalloc || (n <? 1)); [done|]. cbn [orb].
  destruct (Z.leb_spec (2 ^ 53) n); done || lia.
Qed.

#[export] Instance sim_chrdev_laws : ChrdevLaws (K := sim).
Proof.
  split.
  - intros k. cbn. by destruct (fails k FailChrdev).
  - intros k. cbn. by destruct (fails k FailChrdev).
  - intros d k. cbn. by destruct (fails k FailCdev).
  - done.
Qed.

(** A card whose two BARs are mapped. *)
Definition mapped_driver : driver :=
  set_card (fun c => Card (2 ^ 32) (2 ^ 32 + 2 ^ 20) 0 (c_dev c) (c_dev_class c)
    (2 ^ 32 + 4096) (c_buffer c) (c_mmap_info c)) driver_init.
