(* ===== verification/NfpDma.v ===== *)
(** * The DMA engine (HOST/driver/nfpdma.c)

    [writeDMADescriptor] maps the buffer of a descriptor for the device, stores the
    descriptor in the registers of engine 0 and, when the descriptor says so,
    starts the engine, polls until it stops or ten seconds pass, and undoes every
    mapping made since the last start.  [readDMADescriptor] copies the status
    registers of a descriptor back. *)

From S2P Require Import Prelude Eff IoctlCommands NfpTypes Kernel SimKernel.
From Stdlib Require Import ZArith Lia.
From stdpp Require Import base list strings.
Local Open Scope string_scope.
Local Open Scope list_scope.
Local Open Scope Z_scope.
Local Open Scope eff_scope.

Definition TIMEOUT_US : Z := 10000000.

(** The control word the driver composes: bit 2 is C2S, bit 3 is S2C, bits 4 and 5
    are the address mode. *)
Definition control_word (dd : dma_descriptor_sw) : Z :=
  let control := u32 (dd_is_c2s_op dd * 4) in
  let control := u32 (control + (if dd_is_s2c_op dd =? 0 then 0 else 8)) in
  u32 (control + dd_address_mode dd * 16).

Section Dma.
Context {K : Type} `{!Handler kcall K}.

Definition dma_base : KM K Z := gets (fun d => c_dma (d_card d)).

(** memcpy_toio (&dma->dma_engine[0].f, ..., 8) *)
Definition engine_write8 (f : string) (v : Z) : KM K unit :=
  let* dma := dma_base in call (K_memcpy_toio (dma + engine_off 0 f) (bytes_of 8 v)).

Definition descriptor_write8 (j : Z) (f : string) (v : Z) : KM K unit :=
  let* dma := dma_base in call (K_memcpy_toio (dma + descriptor_off j f) (bytes_of 8 v)).

Definition descriptor_read8 (j : Z) (f : string) : KM K Z :=
  let* dma := dma_base in
  let* bs := call (K_memcpy_fromio (dma + descriptor_off j f) 8) in
  ret (decode_u64 bs).

(** A store to one of the three arrays of 1024 elements. *)
Definition phy_store (get_arr : dma_globals -> list Z)
    (set_arr : list Z -> dma_globals -> dma_globals) (i v : Z) : KM K unit :=
  let* a := gets (fun d => get_arr (d_dma d)) in
  let* a' := need OutOfBounds (arr_set a i v) in
  modify (set_dma (set_arr a')).

Definition phy_load (get_arr : dma_globals -> list Z) (i : Z) : KM K Z :=
  let* a := gets (fun d => get_arr (d_dma d)) in need OutOfBounds (arr_get a i).

Definition dma_set_window_size (ws : Z) : KM K unit := engine_write8 "total_bytes" ws.

(** do { e = getToD (); exit_loop = ... } while (!exit_loop); the result is e. *)
Fixpoint poll_engine (fuel : nat) (control_at start : Z) : KM K unit :=
  match fuel with
  | O => halt NoFuel
  | S fuel' =>
      let* t := call K_ktime_get_us in
      do* modify (set_dma (set_e (u64 t))) in
      let* enabled := call (K_io_load_bit control_at 0) in
      if negb enabled || (TIMEOUT_US <? u64 (u64 t - start)) then ret tt
      else poll_engine fuel' control_at start
  end.

Definition release_mapping (i : Z) : KM K unit :=
  let* valid := phy_load g_phy_addr_valid i in
  do* (if valid =? 0 then ret tt
       else
         let* a := phy_load g_phy_addr i in
         let* n := phy_load g_phy_size i in
         call (K_pci_unmap_single a n)) in
  phy_store g_phy_addr_valid set_phy_addr_valid i 0.

(** Lines 71 to 95: everything before the test of the enable field. *)
Definition program_descriptor (dd : dma_descriptor_sw) : KM K unit :=
  let j := dd_index dd in
  let* pa := call (K_pci_map_single (dd_address dd) (dd_buffer_size dd)) in
  do* phy_store g_phy_addr set_phy_addr j (u64 pa) in
  do* engine_write8 "host_buffer_size" (dd_buffer_size dd) in
  do* engine_write8 "number_of_tlps" (dd_number_of_tlps dd) in
  do* engine_write8 "address_offset" (dd_address_offset dd) in
  do* engine_write8 "address_inc" (dd_address_inc dd) in
  let* a := phy_load g_phy_addr j in
  do* descriptor_write8 j "address" a in
  do* descriptor_write8 j "size" (dd_length dd) in
  do* phy_store g_phy_addr_valid set_phy_addr_valid j 1 in
  do* phy_store g_phy_size set_phy_size j (dd_buffer_size dd) in
  let* dma := dma_base in
  do* call (K_memcpy_toio (dma + engine_off 0 "control") (bytes_of 4 (control_word dd))) in
  do* modify (set_dma (fun g => set_ldescriptor (g_ldescriptor g mod MAX_NUM_DMA_DESCRIPTORS) g)) in
  let* l := gets (fun d => g_ldescriptor (d_dma d)) in
  do* call (K_io_store16 (dma + engine_off 0 "complete_until_descriptor") (u16 l)) in
  modify (set_dma (fun g =>
    set_ldescriptor (u32 (g_ldescriptor g + 1) mod MAX_NUM_DMA_DESCRIPTORS) g)).

(** Lines 101 to 124: start the engine, poll, release. *)
Definition run_engine (fuel : nat) (dd : dma_descriptor_sw) : KM K unit :=
  let* dma := dma_base in
  let* t := call K_ktime_get_us in
  do* modify (set_dma (set_s (u64 t))) in
  let control := Z.lor (control_word dd) 1 in
  do* call (K_memcpy_toio (dma + engine_off 0 "control") (bytes_of 4 control)) in
  do* poll_engine fuel (dma + engine_off 0 "control") (u64 t) in
  for_range (Z.to_nat MAX_NUM_DMA_DESCRIPTORS) 0 release_mapping.

Definition writeDMADescriptor (fuel : nat) (dd : dma_descriptor_sw) : KM K Z :=
  do* program_descriptor dd in
  if dd_enable dd =? 0 then ret 0
  else
    do* run_engine fuel dd in
    ret 0.

(** The descriptor after the call; the returned value is its latency. *)
Definition readDMADescriptor (dd : dma_descriptor_sw) : KM K dma_descriptor_sw :=
  let j := dd_index dd in
  let* latency := descriptor_read8 j "latency" in
  let* time_at_req := descriptor_read8 j "time_at_req" in
  let* time_at_comp := descriptor_read8 j "time_at_comp" in
  let* bytes_at_req := descriptor_read8 j "bytes_at_req" in
  let* bytes_at_comp := descriptor_read8 j "bytes_at_comp" in
  ret (DmaDescriptorSw (dd_address dd) (dd_buffer_size dd) (dd_length dd) (dd_enable dd)
    (dd_u1 dd) (dd_is_c2s_op dd) (dd_is_s2c_op dd) (dd_address_mode dd) (dd_u0 dd)
    (dd_number_of_tlps dd) latency (dd_address_offset dd) (dd_address_inc dd)
    time_at_req time_at_comp bytes_at_req bytes_at_comp (dd_index dd)).
End Dma.

Section DmaReplay.
Context {K : Type} `{!Handler kcall K}.

Lemma replays_release i : replays (K := K) (release_mapping i).
Proof. unfold release_mapping, phy_store, phy_load. solve_replays. Qed.
Lemma replays_program dd : replays (K := K) (program_descriptor dd).
Proof.
  unfold program_descriptor, engine_write8, descriptor_write8, phy_store, phy_load, dma_base.
  solve_replays.
Qed.
Lemma replays_poll fuel a st : replays (K := K) (poll_engine fuel a st).
Proof. induction fuel as [|fuel IH]; cbn [poll_engine]; solve_replays. Qed.
#[local] Hint Resolve replays_release replays_program replays_poll : replays.

Lemma replays_write fuel dd : replays (K := K) (writeDMADescriptor fuel dd).
Proof. unfold writeDMADescriptor, run_engine, dma_base. solve_replays. Qed.
Lemma replays_read dd : replays (K := K) (readDMADescriptor dd).
Proof. unfold readDMADescriptor, descriptor_read8, dma_base. solve_replays. Qed.
Lemma replays_window ws : replays (K := K) (dma_set_window_size ws).
Proof. unfold dma_set_window_size, engine_write8, dma_base. solve_replays. Qed.
End DmaReplay.

#[export] Hint Resolve replays_release replays_program replays_poll replays_write replays_read
  replays_window : replays.

(** ** What the operations do *)

Section DmaSpec.
Context {K : Type} `{!Handler kcall K}.

Definition in_range (j : Z) : Prop := 0 <= j < MAX_NUM_DMA_DESCRIPTORS.

(** The state once a descriptor is programmed with the bus address [pa]. *)
Definition programmed (dd : dma_descriptor_sw) (pa : Z) (g : dma_globals) : dma_globals :=
  let j := Z.to_nat (dd_index dd) in
  DmaGlobals (g_s g) (g_e g)
    (u32 (g_ldescriptor g mod MAX_NUM_DMA_DESCRIPTORS + 1) mod MAX_NUM_DMA_DESCRIPTORS)
    (<[j := pa]> (g_phy_addr g)) (<[j := dd_buffer_size dd]> (g_phy_size g))
    (<[j := 1]> (g_phy_addr_valid g)).

(** The stores that program it, in the order the device sees them. *)
Definition descriptor_stores (base : Z) (dd : dma_descriptor_sw) (pa l : Z)
    : list (Z * list Z) :=
  let j := dd_index dd in
  [ (base + engine_off 0 "host_buffer_size", bytes_of 8 (dd_buffer_size dd));
    (base + engine_off 0 "number_of_tlps", bytes_of 8 (dd_number_of_tlps dd));
    (base + engine_off 0 "address_offset", bytes_of 8 (dd_address_offset dd));
    (base + engine_off 0 "address_inc", bytes_of 8 (dd_address_inc dd));
    (base + descriptor_off j "address", bytes_of 8 pa);
    (base + descriptor_off j "size", bytes_of 8 (dd_length dd));
    (base + engine_off 0 "control", bytes_of 4 (control_word dd));
    (base + engine_off 0 "complete_until_descriptor",
      bytes_of 2 (u16 (l mod MAX_NUM_DMA_DESCRIPTORS))) ].

Definition start_store (base : Z) (dd : dma_descriptor_sw) : list (Z * list Z) :=
  [ (base + engine_off 0 "control", bytes_of 4 (Z.lor (control_word dd) 1)) ].

(** The mappings the driver has to undo. *)
Definition live (g : dma_globals) : list (Z * Z) :=
  omap (fun x => if x.1 =? 0 then None else Some x.2)
    (zip (g_phy_addr_valid g) (zip (g_phy_addr g) (g_phy_size g))).

Definition quiet (t : ktrace) : Prop :=
  calls mmio_write t = [] /\ calls dma_map t = [] /\ calls dma_unmap t = [].

Lemma wp_engine_write8 f v (Q : spec unit) s (k : K) :
  (forall k', Q (Done tt) s k'
    [Ev (K_memcpy_toio (c_dma (d_card s) + engine_off 0 f) (bytes_of 8 v)) tt]) ->
  wp (engine_write8 f v) Q s k.
Proof. intros H. unfold engine_write8, dma_base. wp_steps. unit_answers. apply H. Qed.

Lemma wp_descriptor_write8 j f v (Q : spec unit) s (k : K) :
  (forall k', Q (Done tt) s k'
    [Ev (K_memcpy_toio (c_dma (d_card s) + descriptor_off j f) (bytes_of 8 v)) tt]) ->
  wp (descriptor_write8 j f v) Q s k.
Proof. intros H. unfold descriptor_write8, dma_base. wp_steps. unit_answers. apply H. Qed.

Lemma wp_phy_store ga sa i v (Q : spec unit) s (k : K) :
  0 <= i < Z.of_nat (length (ga (d_dma s))) ->
  Q (Done tt) (set_dma (sa (<[Z.to_nat i := v]> (ga (d_dma s)))) s) k [] ->
  wp (phy_store ga sa i v) Q s k.
Proof.
  intros Hi HQ. unfold phy_store. rewrite <- (app_nil_r (A := event kcall) []) in HQ.
  wp_steps; [|rewrite arr_set_in in H; done].
  rewrite arr_set_in in H by done. injection H as <-. done.
Qed.

Lemma wp_phy_store_out ga sa i v (Q : spec unit) s (k : K) :
  ~ (0 <= i < Z.of_nat (length (ga (d_dma s)))) ->
  Q (Stop (Undefined OutOfBounds)) s k [] ->
  wp (phy_store ga sa i v) Q s k.
Proof. intros Hi HQ. unfold phy_store. wp_steps; rewrite arr_set_out in H; done. Qed.

Lemma wp_phy_load ga i x (Q : spec Z) s (k : K) :
  0 <= i < Z.of_nat (length (ga (d_dma s))) -> ga (d_dma s) !! Z.to_nat i = Some x ->
  Q (Done x) s k [] -> wp (phy_load ga i) Q s k.
Proof.
  intros Hi Hx HQ. assert (E : arr_get (ga (d_dma s)) i = Some x) by (by apply arr_get_Some).
  unfold phy_load. wp_steps; rewrite E in H; [injection H as <-|]; done.
Qed.
End DmaSpec.

(** Steps through the sequence of stores of [program_descriptor]. *)
Ltac dma_step :=
  first
    [ apply wp_engine_write8; intros ?
    | apply wp_descriptor_write8; intros ?
    | wp_step ]; cbn beta iota.

Section DmaProofs.
Context {K : Type} `{!Handler kcall K}.

Lemma wp_program_descriptor dd s (k : K) :
  dma_wf (d_dma s) -> in_range (dd_index dd) ->
  wp (program_descriptor dd) (fun o s' _ t =>
    exists pa, o = Done tt /\ s' = set_dma (programmed dd pa) s /\
      calls mmio_write t =
        descriptor_stores (c_dma (d_card s)) dd pa (g_ldescriptor (d_dma s)) /\
      calls dma_map t = [(pa, dd_buffer_size dd)] /\ calls dma_unmap t = []) s k.
Proof.
  intros (L1 & L2 & L3 & _ & _) Hj. unfold in_range, MAX_NUM_DMA_DESCRIPTORS in Hj.
  unfold program_descriptor, dma_base. repeat dma_step.
  apply wp_phy_store; [rewrite L1; lia|]. repeat dma_step.
  eapply wp_phy_load; [cbn; rewrite length_insert, L1; lia
    | cbn; apply list_lookup_insert_eq; rewrite L1; lia|]. repeat dma_step.
  apply wp_phy_store; [cbn; rewrite L3; lia|]. repeat dma_step.
  apply wp_phy_store; [cbn; rewrite L2; lia|]. repeat dma_step.
  exists (u64 ans). destruct s as [c [] m]. done.
Qed.

Lemma wp_program_descriptor_out dd s (k : K) :
  dma_wf (d_dma s) -> ~ in_range (dd_index dd) ->
  wp (program_descriptor dd) (fun o s' _ t =>
    o = Stop (Undefined OutOfBounds) /\ s' = s /\ calls mmio_write t = []) s k.
Proof.
  intros (L1 & _) Hj. unfold in_range, MAX_NUM_DMA_DESCRIPTORS in Hj.
  unfold program_descriptor. repeat dma_step.
  apply wp_phy_store_out; [rewrite L1; done|]. done.
Qed.

Lemma wp_poll_engine fuel at_ start s (k : K) :
  wp (poll_engine fuel at_ start) (fun o s' _ t =>
    (o = Done tt \/ o = Stop NoFuel) /\ (exists e, s' = set_dma (set_e e) s) /\ quiet t) s k.
Proof.
  revert s k. induction fuel as [|fuel IH]; intros s k; cbn [poll_engine]; wp_steps.
  - split; [by right|]. split; [exists (g_e (d_dma s)); by destruct s as [c [] m]|done].
  - destruct (negb _ || _); [apply wp_ret | eapply wp_mono; [apply IH|]].
    + split; [by left|]. split; [by eexists | done].
    + intros o s' k2 t (Ho & [e ->] & q). split; [done|]. split; [by exists e|].
      unfold quiet in *. by rewrite !calls_app.
Qed.

(** The state of the release loop when its index is [i]. *)
Definition released (i : nat) (g : dma_globals) : dma_globals :=
  set_phy_addr_valid (replicate i 0 ++ drop i (g_phy_addr_valid g)) g.

Lemma live_prefix g i v a n :
  g_phy_addr_valid g !! i = Some v -> g_phy_addr g !! i = Some a ->
  g_phy_size g !! i = Some n ->
  omap (fun x : Z * (Z * Z) => if x.1 =? 0 then None else Some x.2)
    (take (S i) (zip (g_phy_addr_valid g) (zip (g_phy_addr g) (g_phy_size g)))) =
  omap (fun x : Z * (Z * Z) => if x.1 =? 0 then None else Some x.2)
    (take i (zip (g_phy_addr_valid g) (zip (g_phy_addr g) (g_phy_size g)))) ++
  (if v =? 0 then [] else [(a, n)]).
Proof.
  intros Hv Ha Hn. rewrite (take_S_r _ _ (v, (a, n))).
  - rewrite omap_app. cbn. by destruct (v =? 0).
  - apply lookup_zip_Some. split; [done|]. by apply lookup_zip_Some.
Qed.

Lemma released_step g i :
  (i < length (g_phy_addr_valid g))%nat ->
  set_phy_addr_valid (<[i := 0]> (g_phy_addr_valid (released i g))) (released i g) =
  released (S i) g.
Proof.
  intros Hi. unfold released, set_phy_addr_valid; cbn. f_equal.
  rewrite insert_app_r_alt, length_replicate, Nat.sub_diag by (rewrite length_replicate; lia).
  destruct (lookup_lt_is_Some_2 _ _ Hi) as [v Hv].
  rewrite (drop_S _ _ _ Hv). cbn [insert list_insert].
  change (0 :: drop (S i) (g_phy_addr_valid g)) with ([0] ++ drop (S i) (g_phy_addr_valid g)).
  by rewrite app_assoc, <- replicate_S_end.
Qed.

Lemma wp_release_mapping g0 c m i (k : K) :
  dma_wf g0 -> (i < 1024)%nat ->
  wp (release_mapping (Z.of_nat i)) (fun o s' _ t =>
    o = Done tt /\ s' = Driver c (released (S i) g0) m /\
    calls mmio_write t = [] /\ calls dma_map t = [] /\
    exists v a n, g_phy_addr_valid g0 !! i = Some v /\ g_phy_addr g0 !! i = Some a /\
      g_phy_size g0 !! i = Some n /\
      calls dma_unmap t = if v =? 0 then [] else [(a, n)])
    (Driver c (released i g0) m) k.
Proof.
  intros (L1 & L2 & L3 & _ & _) Hi.
  destruct (lookup_lt_is_Some_2 (g_phy_addr_valid g0) i) as [v Hv]; [lia|].
  destruct (lookup_lt_is_Some_2 (g_phy_addr g0) i) as [a Ha]; [lia|].
  destruct (lookup_lt_is_Some_2 (g_phy_size g0) i) as [n Hn]; [lia|].
  assert (Lr : length (g_phy_addr_valid (released i g0)) = 1024%nat).
  { cbn. rewrite length_app, length_replicate, length_drop. lia. }
  unfold release_mapping. wp_step. eapply (wp_phy_load _ _ v).
  { cbn [d_dma]. rewrite Lr. lia. }
  { cbn. rewrite Nat2Z.id, lookup_app_r, length_replicate, Nat.sub_diag, lookup_drop,
      Nat.add_0_r by (rewrite length_replicate; lia). done. }
  wp_step.
  assert (Fin : forall t (k' : K), calls mmio_write t = [] -> calls dma_map t = [] ->
    calls dma_unmap t = (if v =? 0 then [] else [(a, n)]) ->
    wp (phy_store g_phy_addr_valid set_phy_addr_valid (Z.of_nat i) 0) (fun o s' _ t' =>
      o = Done tt /\ s' = Driver c (released (S i) g0) m /\
      calls mmio_write (t ++ t') = [] /\ calls dma_map (t ++ t') = [] /\
      exists v a n, g_phy_addr_valid g0 !! i = Some v /\ g_phy_addr g0 !! i = Some a /\
        g_phy_size g0 !! i = Some n /\
        calls dma_unmap (t ++ t') = if v =? 0 then [] else [(a, n)])
      (Driver c (released i g0) m) k').
  { intros t k' T1 T2 T3. apply wp_phy_store; [cbn [d_dma]; rewrite Lr; lia|].
    rewrite app_nil_r. split; [done|]. rewrite Nat2Z.id. unfold set_dma. cbn [d_dma d_card d_mem].
    rewrite released_step by lia. repeat split; try done. by exists v, a, n. }
  destruct (v =? 0).
  - wp_steps. by apply Fin.
  - wp_steps. eapply (wp_phy_load _ _ a); [cbn; lia | by rewrite Nat2Z.id|].
    wp_steps. eapply (wp_phy_load _ _ n); [cbn; lia | by rewrite Nat2Z.id|].
    wp_steps. by apply Fin.
Qed.
End DmaProofs.

Section DmaRun.
Context {K : Type} `{!Handler kcall K}.

Lemma wp_release_all s (k : K) :
  dma_wf (d_dma s) ->
  wp (for_range (Z.to_nat MAX_NUM_DMA_DESCRIPTORS) 0 release_mapping) (fun o s' _ t =>
    o = Done tt /\ s' = set_dma (set_phy_addr_valid (replicate 1024 0)) s /\
    calls mmio_write t = [] /\ calls dma_map t = [] /\ calls dma_unmap t = live (d_dma s)) s k.
Proof.
  intros Hwf. destruct s as [c g0 m]. cbn [d_dma] in *.
  pose proof Hwf as (L1 & L2 & L3 & _ & _).
  apply wp_for_range with (I := fun i s1 _ t1 =>
    s1 = Driver c (released (Z.to_nat i) g0) m /\ calls mmio_write t1 = [] /\
    calls dma_map t1 = [] /\
    calls dma_unmap t1 = omap (fun x : Z * (Z * Z) => if x.1 =? 0 then None else Some x.2)
      (take (Z.to_nat i) (zip (g_phy_addr_valid g0) (zip (g_phy_addr g0) (g_phy_size g0))))).
  - split; [|done]. by destruct g0.
  - intros i s1 k1 t1 Hi (-> & T1 & T2 & T3). unfold MAX_NUM_DMA_DESCRIPTORS in Hi.
    rewrite <- (Z2Nat.id i) at 1 by lia.
    eapply wp_mono; [apply wp_release_mapping; [done|lia]|].
    intros o s' k' t (-> & -> & T4 & T5 & v & a & n & Hv & Ha & Hn & T6).
    rewrite !calls_app, T1, T2, T3, T4, T5, T6.
    replace (Z.to_nat (i + 1)) with (S (Z.to_nat i)) by lia.
    rewrite (live_prefix g0 _ v a n) by done. done.
  - change (0 + Z.of_nat (Z.to_nat MAX_NUM_DMA_DESCRIPTORS)) with 1024.
    intros s1 k1 t1 (-> & T1 & T2 & T3). split; [done|]. split; [|split; [done|split; [done|]]].
    + unfold set_dma, released, set_phy_addr_valid. cbn [d_card d_dma d_mem].
      change (Z.to_nat 1024) with 1024%nat. by rewrite drop_ge, app_nil_r by lia.
    + rewrite T3. unfold live. rewrite take_ge; [done|].
      rewrite !length_zip_with. change (Z.to_nat 1024) with 1024%nat. lia.
Qed.

(** The state after a start: [e] is the last reading of the clock. *)
Definition stopped (st e : Z) (g : dma_globals) : dma_globals :=
  set_phy_addr_valid (replicate 1024 0) (set_e e (set_s st g)).

Lemma wp_run_engine fuel dd s (k : K) :
  dma_wf (d_dma s) ->
  wp (run_engine fuel dd) (fun o s' _ t =>
    calls mmio_write t = start_store (c_dma (d_card s)) dd /\ calls dma_map t = [] /\
    exists st e,
    (o = Stop NoFuel /\ s' = set_dma (fun g => set_e e (set_s st g)) s /\
      calls dma_unmap t = [] \/
     o = Done tt /\ s' = set_dma (stopped st e) s /\ calls dma_unmap t = live (d_dma s))) s k.
Proof.
  intros Hwf. unfold run_engine, dma_base. wp_steps. unit_answers.
  eapply wp_mono; [apply wp_poll_engine|].
  intros o s' k' t (Ho & [e ->] & (Q1 & Q2 & Q3)).
  destruct Ho as [-> | ->].
  - eapply wp_mono; [apply wp_release_all; destruct s as [c [] m]; exact Hwf|].
    intros o s' k2 t2 (-> & -> & T1 & T2 & T3).
    unfold quiet, calls in *. cbn. rewrite !omap_app, Q1, Q2, Q3, T1, T2, T3.
    split; [done|]. split; [done|]. eexists _, e. right. by destruct s as [c [] m].
  - unfold calls in *. cbn. rewrite Q1, Q2, Q3. split; [done|]. split; [done|].
    eexists _, e. left. by destruct s as [c [] m].
Qed.
End DmaRun.

Section DmaMappings.
Implicit Types g : dma_globals.

Definition slot_free (j : Z) (g : dma_globals) : Prop :=
  g_phy_addr_valid g !! Z.to_nat j = Some 0.

Lemma omap_insert_none {A B} (f : A -> option B) (l : list A) i x y b :
  l !! i = Some x -> f x = None -> f y = Some b ->
  omap f (<[i := y]> l) ≡ₚ b :: omap f l.
Proof.
  intros Hx Hf Hb. assert (i < length l)%nat by (by eapply lookup_lt_Some).
  rewrite (insert_take_drop l) by done.
  rewrite <- (take_drop_middle l i x Hx) at 3.
  rewrite !omap_app. cbn. rewrite Hf, Hb. by rewrite <- Permutation_middle.
Qed.

Lemma live_programmed dd pa g :
  dma_wf g -> in_range (dd_index dd) -> slot_free (dd_index dd) g ->
  live (programmed dd pa g) ≡ₚ (pa, dd_buffer_size dd) :: live g.
Proof.
  intros (L1 & L2 & L3 & _ & _) Hj Hf. unfold in_range, MAX_NUM_DMA_DESCRIPTORS in Hj.
  destruct (lookup_lt_is_Some_2 (g_phy_addr g) (Z.to_nat (dd_index dd))) as [a Ha]; [lia|].
  destruct (lookup_lt_is_Some_2 (g_phy_size g) (Z.to_nat (dd_index dd))) as [n Hn]; [lia|].
  unfold live, programmed. cbn [g_phy_addr_valid g_phy_addr g_phy_size].
  rewrite <- !insert_zip_with.
  apply (omap_insert_none _ _ _ (0, (a, n))); [|done|done].
  apply lookup_zip_Some. split; [done|]. by apply lookup_zip_Some.
Qed.

Lemma live_stopped st e g : live (stopped st e g) = [].
Proof.
  unfold live, stopped, set_phy_addr_valid. cbn [g_phy_addr_valid g_phy_addr g_phy_size].
  generalize 1024%nat. intros n.
  revert n. generalize (zip (g_phy_addr (set_e e (set_s st g))) (g_phy_size (set_e e (set_s st g)))).
  induction l as [|x l IH]; intros [|n]; cbn; auto.
Qed.

Lemma programmed_wf dd pa g :
  dma_wf g -> in_range (dd_index dd) -> dma_wf (programmed dd pa g).
Proof.
  intros (L1 & L2 & L3 & Hv & Hl) Hj. unfold programmed, dma_wf; cbn.
  rewrite !length_insert. repeat split; try done.
  - apply Forall_insert; auto.
  - apply Z.mod_pos_bound. done.
  - apply Z.mod_pos_bound. done.
Qed.

Lemma stopped_wf st e g : dma_wf g -> dma_wf (stopped st e g).
Proof.
  intros (L1 & L2 & L3 & Hv & Hl). unfold stopped, dma_wf, set_phy_addr_valid.
  cbn [g_phy_addr g_phy_size g_phy_addr_valid g_ldescriptor].
  rewrite length_replicate. repeat split; try done; try apply Hl.
  apply Forall_replicate. by left.
Qed.

Lemma next_ldescriptor dd pa g :
  0 <= g_ldescriptor g < MAX_NUM_DMA_DESCRIPTORS ->
  g_ldescriptor (programmed dd pa g) = (g_ldescriptor g + 1) mod MAX_NUM_DMA_DESCRIPTORS.
Proof.
  unfold programmed, MAX_NUM_DMA_DESCRIPTORS; cbn [g_ldescriptor]. intros H.
  rewrite (Z.mod_small (g_ldescriptor g)) by lia. by rewrite (wrap_id 32) by (unfold fits; lia).
Qed.
End DmaMappings.

#[export] Hint Resolve programmed_wf stopped_wf : pcie.

Section DmaTheorems.
Context {K : Type} `{!Handler kcall K}.

Lemma wp_writeDMADescriptor fuel dd s (k : K) :
  dma_wf (d_dma s) -> in_range (dd_index dd) ->
  wp (writeDMADescriptor fuel dd) (fun o s' _ t => exists pa,
    calls dma_map t = [(pa, dd_buffer_size dd)] /\
    (if dd_enable dd =? 0 then
       o = Done 0 /\ s' = set_dma (programmed dd pa) s /\
       calls mmio_write t =
         descriptor_stores (c_dma (d_card s)) dd pa (g_ldescriptor (d_dma s)) /\
       calls dma_unmap t = []
     else
       calls mmio_write t =
         descriptor_stores (c_dma (d_card s)) dd pa (g_ldescriptor (d_dma s)) ++
         start_store (c_dma (d_card s)) dd /\
       exists st e,
       (o = Stop NoFuel /\ s' = set_dma (fun g => set_e e (set_s st (programmed dd pa g))) s /\
          calls dma_unmap t = [] \/
        o = Done 0 /\ s' = set_dma (fun g => stopped st e (programmed dd pa g)) s /\
          calls dma_unmap t = live (programmed dd pa (d_dma s))))) s k.
Proof.
  intros Hwf Hj.
  unfold writeDMADescriptor. wp_step.
  eapply wp_mono; [by apply wp_program_descriptor|].
  intros o s' k' t (pa & -> & -> & T1 & T2 & T3). destruct (dd_enable dd =? 0).
  - apply wp_ret. exists pa. by rewrite app_nil_r.
  - wp_step. eapply wp_mono; [apply wp_run_engine; by apply programmed_wf|].
    intros o s' k2 t2 (T4 & T5 & st & e & [(-> & -> & T6) | (-> & -> & T6)]).
    + exists pa. rewrite !calls_app, T1, T2, T3, T4, T5, T6. split; [done|].
      split; [done|]. exists st, e. left. by destruct s.
    + apply wp_ret. exists pa. rewrite app_nil_r, !calls_app, T1, T2, T3, T4, T5, T6.
      split; [done|]. split; [done|]. exists st, e. right. by destruct s.
Qed.

(** C23.  Writing a descriptor whose index is in range: whatever the kernel and the
    device do, one mapping is made, of the whole buffer; the registers get the
    descriptor, its bus address and the current last-descriptor index, in the
    order of [descriptor_stores], and the start bit only if the descriptor asks
    for it, last.  If the call returns, it returns 0, and either nothing was
    started and no mapping was undone, or every live mapping was undone, in
    slot order, and no slot is left valid. *)
Theorem writeDMADescriptor_spec fuel dd s (k : K) :
  dma_wf (d_dma s) -> in_range (dd_index dd) ->
  let r := writeDMADescriptor fuel dd s k in
  let base := c_dma (d_card s) in
  exists pa,
    calls dma_map (r_tr r) = [(pa, dd_buffer_size dd)] /\
    (if dd_enable dd =? 0 then
       r_out r = Done 0 /\ r_st r = set_dma (programmed dd pa) s /\
       calls mmio_write (r_tr r) = descriptor_stores base dd pa (g_ldescriptor (d_dma s)) /\
       calls dma_unmap (r_tr r) = []
     else
       calls mmio_write (r_tr r) =
         descriptor_stores base dd pa (g_ldescriptor (d_dma s)) ++ start_store base dd /\
       exists st e,
       (r_out r = Stop NoFuel /\
          r_st r = set_dma (fun g => set_e e (set_s st (programmed dd pa g))) s /\
          calls dma_unmap (r_tr r) = [] \/
        r_out r = Done 0 /\
          r_st r = set_dma (fun g => stopped st e (programmed dd pa g)) s /\
          calls dma_unmap (r_tr r) = live (programmed dd pa (d_dma s)))).
Proof. intros Hwf Hj. exact (wp_writeDMADescriptor fuel dd s k Hwf Hj). Qed.

(** The index comes from the user unchecked.  If it is out of range, the first
    thing the call does with it is to store outside an array of 1024 elements. *)
Theorem writeDMADescriptor_index_unchecked fuel dd s (k : K) :
  dma_wf (d_dma s) -> ~ in_range (dd_index dd) ->
  r_out (writeDMADescriptor fuel dd s k) = Stop (Undefined OutOfBounds).
Proof.
  intros Hwf Hj.
  enough (W : wp (writeDMADescriptor fuel dd) (fun o _ _ _ => o = Stop (Undefined OutOfBounds)) s k)
    by exact W.
  unfold writeDMADescriptor. wp_step. eapply wp_mono; [by apply wp_program_descriptor_out|].
  by intros o s' k' t (-> & _).
Qed.
End DmaTheorems.

Section DmaTermination.
Context {K : Type} `{!Handler kcall K} {clock : K -> Z} {rate : nat}.
Context `{!ClockLaws clock rate}.

Lemma poll_engine_done m at_ start fuel s (k : K) :
  start + TIMEOUT_US < clock (polls m at_ k) ->
  start <= clock k <= start + TIMEOUT_US + 2 ^ 62 -> (m < fuel)%nat ->
  r_out (poll_engine fuel at_ (u64 start) s k) = Done tt.
Proof.
  revert fuel s k. induction m as [|m IH]; intros [|fuel] s k Hm Hk Hf; try lia;
    enough (W : wp (poll_engine (S fuel) at_ (u64 start)) (fun o _ _ _ => o = Done tt) s k)
      by exact W;
    cbn [poll_engine]; wp_steps;
    pose proof (clock_read k) as R; pose proof (clock_step K_ktime_get_us k) as S1;
    rewrite Hans in R, S1; cbn [fst snd] in R, S1; subst ans;
    rewrite wrap_wrap, wrap_sub; unfold TIMEOUT_US in *;
    rewrite (wrap_id 64 (clock kk - start)) by (unfold fits; lia).
  - cbn [polls] in Hm. destruct (Z.ltb_spec 10000000 (clock kk - start)); [|lia].
    rewrite orb_true_r. by apply wp_ret.
  - destruct (Z.ltb_spec 10000000 (clock kk - start)); [rewrite orb_true_r; by apply wp_ret|].
    rewrite orb_false_r. destruct (negb ans0); [by apply wp_ret|].
    pose proof (clock_step (K_io_load_bit at_ 0) kk) as S2. rewrite Hans0 in S2. cbn [snd] in S2.
    apply IH; [|lia|lia]. cbn [polls] in Hm. rewrite Hans in Hm. cbn [snd] in Hm.
    by rewrite Hans0 in Hm.
Qed.

Lemma wp_poll_engine_done fuel at_ start s (k : K) :
  start <= clock k <= start + 2 ^ 62 -> (rate * Z.to_nat (TIMEOUT_US + 1) < fuel)%nat ->
  wp (poll_engine fuel at_ (u64 start)) (fun o s' _ _ =>
    o = Done tt /\ exists e, s' = set_dma (set_e e) s) s k.
Proof.
  intros Hk Hf. pose proof (wp_poll_engine fuel at_ (u64 start) s k) as P.
  unfold wp in *. split; [|by destruct P as (_ & P & _)].
  pose proof (polls_clock (clock := clock) (rate := rate) (Z.to_nat (TIMEOUT_US + 1)) at_ k).
  rewrite Z2Nat.id in * by done. unfold TIMEOUT_US in *.
  eapply poll_engine_done; [|unfold TIMEOUT_US; lia|exact Hf]. unfold TIMEOUT_US. lia.
Qed.

Lemma run_engine_done fuel dd s (k : K) :
  dma_wf (d_dma s) -> (rate * Z.to_nat (TIMEOUT_US + 1) < fuel)%nat ->
  wp (run_engine fuel dd) (fun o _ _ _ => o = Done tt) s k.
Proof.
  intros Hwf Hf. unfold run_engine, dma_base. wp_steps.
  pose proof (clock_read k) as R. rewrite Hans in R. cbn [fst snd] in R. subst ans.
  rewrite wrap_wrap.
  match type of Hans0 with handle ?c kk = _ => pose proof (clock_step c kk) as S1 end.
  rewrite Hans0 in S1. cbn [snd] in S1.
  eapply wp_mono; [apply wp_poll_engine_done; [lia|done]|].
  intros o s' k' t (-> & e & ->).
  eapply wp_mono; [apply wp_release_all; by destruct s as [c [] m]|].
  by intros o s' k2 t2 (-> & _).
Qed.

Lemma write_returns fuel dd s (k : K) :
  dma_wf (d_dma s) -> in_range (dd_index dd) ->
  (rate * Z.to_nat (TIMEOUT_US + 1) < fuel)%nat ->
  r_out (writeDMADescriptor fuel dd s k) = Done 0.
Proof.
  intros Hwf Hj Hf.
  enough (W : wp (writeDMADescriptor fuel dd) (fun o _ _ _ => o = Done 0) s k) by exact W.
  unfold writeDMADescriptor. wp_step. eapply wp_mono; [by apply wp_program_descriptor|].
  intros o s' k' t (pa & -> & -> & _). destruct (dd_enable dd =? 0); [by apply wp_ret|].
  wp_step. eapply wp_mono; [apply run_engine_done; [by apply programmed_wf|done]|].
  intros o s' k2 t2 ->. by apply wp_ret.
Qed.

(** C34.  The polling loop ends even if the device never clears the enable bit: the
    call returns 0 with fuel for the polls of ten seconds and one microsecond. *)
Theorem writeDMADescriptor_returns fuel dd s (k : K) :
  dma_wf (d_dma s) -> in_range (dd_index dd) ->
  (rate * Z.to_nat (TIMEOUT_US + 1) < fuel)%nat ->
  r_out (writeDMADescriptor fuel dd s k) = Done 0.
Proof. apply write_returns. Qed.
End DmaTermination.

(** ** Sequences of descriptors *)

Section DmaHistory.
Context {K : Type} `{!Handler kcall K}.

Fixpoint write_all (fuel : nat) (l : list dma_descriptor_sw) : KM K unit :=
  match l with
  | [] => ret tt
  | dd :: l' => do* writeDMADescriptor fuel dd in write_all fuel l'
  end.

(** No descriptor reuses the slot of one written since the last start; [busy] are
    the slots written since then. *)
Fixpoint slots_fresh (busy : list Z) (l : list dma_descriptor_sw) : Prop :=
  match l with
  | [] => True
  | dd :: l' =>
      in_range (dd_index dd) /\ (dd_index dd ∉ busy) /\
      slots_fresh (if dd_enable dd =? 0 then dd_index dd :: busy else []) l'
  end.

Definition busy_slots (busy : list Z) (g : dma_globals) : Prop :=
  forall j, in_range j -> j ∉ busy -> slot_free j g.

Lemma busy_programmed busy dd pa g :
  in_range (dd_index dd) -> busy_slots busy g ->
  busy_slots (dd_index dd :: busy) (programmed dd pa g).
Proof.
  intros Hi Hb j Hj Hn. apply not_elem_of_cons in Hn as [Hn1 Hn2].
  unfold slot_free, programmed; cbn [g_phy_addr_valid]. unfold in_range in *.
  rewrite list_lookup_insert_ne; [by apply Hb|]. intros E. apply Z2Nat.inj in E; lia.
Qed.

Lemma busy_stopped st e g : busy_slots [] (stopped st e g).
Proof.
  intros j Hj _. unfold slot_free, stopped, set_phy_addr_valid; cbn [g_phy_addr_valid].
  apply lookup_replicate_2. unfold in_range, MAX_NUM_DMA_DESCRIPTORS in Hj. lia.
Qed.

(** C29.  Mappings are neither lost nor undone twice: over any sequence of
    descriptors that does not reuse a slot between two starts, the mappings alive
    before and those made are, as a multiset, those undone and those alive after;
    and the index written as the last to process advances by one per descriptor,
    modulo 1024. *)
Theorem dma_mappings_balanced fuel l busy s (k : K) :
  dma_wf (d_dma s) -> busy_slots busy (d_dma s) -> slots_fresh busy l ->
  let r := write_all fuel l s k in
  r_out r = Done tt ->
  dma_wf (d_dma (r_st r)) /\
  calls dma_map (r_tr r) ++ live (d_dma s) ≡ₚ calls dma_unmap (r_tr r) ++ live (d_dma (r_st r)) /\
  g_ldescriptor (d_dma (r_st r)) =
    (g_ldescriptor (d_dma s) + Z.of_nat (length l)) mod MAX_NUM_DMA_DESCRIPTORS.
Proof.
  revert busy s k. induction l as [|dd l IH]; intros busy s k Hwf Hb Hf; cbn zeta.
  - intros _. cbn [write_all ret r_st r_tr calls omap list_omap length app]. split; [done|].
    split; [done|]. rewrite Z.add_0_r. symmetry. apply Z.mod_small. apply Hwf.
  - cbn [write_all slots_fresh length] in *. destruct Hf as (Hi & Hn & Hf).
    pose proof (wp_writeDMADescriptor fuel dd s k Hwf Hi) as W. unfold wp in W.
    destruct W as (pa & M1 & W).
    pose proof (live_programmed dd pa (d_dma s) Hwf Hi (Hb _ Hi Hn)) as L.
    pose proof (programmed_wf dd pa _ Hwf Hi) as Pwf.
    pose proof (next_ldescriptor dd pa (d_dma s) ltac:(apply Hwf)) as N.
    pose proof (busy_programmed busy dd pa _ Hi Hb) as Pb.
    unfold bind. destruct (writeDMADescriptor fuel dd s k) as [o s1 k1 t1].
    cbn [r_out r_st r_k r_tr] in *.
    assert (Adv : forall z, ((z + 1) mod MAX_NUM_DMA_DESCRIPTORS + Z.of_nat (length l))
      mod MAX_NUM_DMA_DESCRIPTORS = (z + Z.of_nat (S (length l))) mod MAX_NUM_DMA_DESCRIPTORS).
    { intros z. rewrite Zplus_mod_idemp_l. f_equal. lia. }
    destruct (dd_enable dd =? 0).
    + destruct W as (-> & -> & _ & U). cbn [r_out r_st r_tr]. intros Hr.
      destruct (IH _ (set_dma (programmed dd pa) s) k1 Pwf Pb Hf Hr) as (W1 & W2 & W3).
      split; [exact W1|]. rewrite !calls_app, M1, U. cbn [app set_dma d_dma] in *. split.
      * rewrite <- W2, L. by rewrite Permutation_middle.
      * by rewrite W3, N, Adv.
    + destruct W as (_ & st & e & [(-> & _) | (-> & -> & U)]); [done|].
      cbn [r_out r_st r_tr]. intros Hr.
      destruct (IH [] (set_dma (fun g => stopped st e (programmed dd pa g)) s) k1
        (stopped_wf _ _ _ Pwf) (busy_stopped _ _ _) Hf Hr) as (W1 & W2 & W3).
      split; [exact W1|]. rewrite !calls_app, M1, U. cbn [app set_dma d_dma] in *. split.
      * rewrite live_stopped, app_nil_r in W2. rewrite W2, L.
        cbn [app]. rewrite <- !app_assoc. f_equiv.
        rewrite app_assoc. apply Permutation_app_comm.
      * rewrite W3. change (g_ldescriptor (stopped st e (programmed dd pa (d_dma s))))
          with (g_ldescriptor (programmed dd pa (d_dma s))). by rewrite N, Adv.
Qed.
End DmaHistory.

Section DmaRead.
Context {K : Type} `{!Handler kcall K}.

Definition status_members : list string :=
  ["latency"; "time_at_req"; "time_at_comp"; "bytes_at_req"; "bytes_at_comp"].

Definition mmio_read (e : event kcall) : option (Z * Z) :=
  match e with Ev (K_memcpy_fromio a n) _ => Some (a, n) | _ => None end.
Definition read_answer (e : event kcall) : option Z :=
  match e with Ev (K_memcpy_fromio _ _) bs => Some (decode_u64 bs) | _ => None end.

Lemma wp_descriptor_read8 j f (Q : spec Z) s (k : K) :
  (forall bs k', Q (Done (decode_u64 bs)) s k'
    [Ev (K_memcpy_fromio (c_dma (d_card s) + descriptor_off j f) 8) bs]) ->
  wp (descriptor_read8 j f) Q s k.
Proof. intros H. unfold descriptor_read8, dma_base. wp_steps. apply H. Qed.

(** The descriptor with these values of its five status fields. *)
Definition with_status (l : list Z) (dd : dma_descriptor_sw) : dma_descriptor_sw :=
  match l with
  | [latency; req; comp; breq; bcomp] =>
      DmaDescriptorSw (dd_address dd) (dd_buffer_size dd) (dd_length dd) (dd_enable dd) (dd_u1 dd)
        (dd_is_c2s_op dd) (dd_is_s2c_op dd) (dd_address_mode dd) (dd_u0 dd)
        (dd_number_of_tlps dd) latency (dd_address_offset dd) (dd_address_inc dd)
        req comp breq bcomp (dd_index dd)
  | _ => dd
  end.

(** Reading a descriptor back reads the five status registers of the descriptor of that
    index, once each, puts the answers in the five status fields of the structure and
    leaves the rest of it, and the driver, alone. *)
Lemma wp_readDMADescriptor dd s (k : K) :
  wp (readDMADescriptor dd) (fun o s' _ t =>
    o = Done (with_status (calls read_answer t) dd) /\ s' = s /\ calls mmio_write t = [] /\
    calls mmio_read t =
      (fun f => (c_dma (d_card s) + descriptor_off (dd_index dd) f, 8)) <$> status_members) s k.
Proof.
  unfold readDMADescriptor.
  do 5 (wp_step; apply wp_descriptor_read8; intros ? ?; cbn beta iota).
  by apply wp_ret.
Qed.
End DmaRead.

(** The control word is what the bit-fields of [struct dma_engine] say: enable and
    reset clear, the two directions and the address mode of the descriptor. *)
Lemma control_word_fields dd :
  dd_ok dd ->
  let w := control_word dd in
  w = 4 * dd_is_c2s_op dd + 8 * dd_is_s2c_op dd + 16 * dd_address_mode dd /\
  Z.lor w 1 = w + 1.
Proof.
  unfold dd_ok, fits, control_word. intros (_ & _ & _ & _ & _ & Hc & Hs & Hm & _). cbn zeta.
  assert (dd_is_c2s_op dd = 0 \/ dd_is_c2s_op dd = 1) as [-> | ->] by lia;
  assert (dd_is_s2c_op dd = 0 \/ dd_is_s2c_op dd = 1) as [-> | ->] by lia;
  assert (dd_address_mode dd = 0 \/ dd_address_mode dd = 1 \/ dd_address_mode dd = 2 \/
    dd_address_mode dd = 3) as [-> | [-> | [-> | ->]]] by lia; done.
Qed.

(** ** Witnesses *)

Lemma example_in_range : in_range (dd_index example_descriptor).
Proof. vm_compute. done. Qed.

Lemma writeDMADescriptor_spec_witness :
  exists pa, calls dma_map (r_tr (writeDMADescriptor 10 example_descriptor driver_init sim_init)) =
    [(pa, 1073741824)].
Proof.
  destruct (writeDMADescriptor_spec 10 example_descriptor driver_init sim_init
    dma_globals_init_wf example_in_range) as (pa & E & _).
  exists pa. exact E.
Defined.

Definition example_bad_index : dma_descriptor_sw :=
  DmaDescriptorSw 4096 1073741824 512 1 0 1 1 3 0 262144 0 8 64 0 0 0 0 1024.

Lemma writeDMADescriptor_index_unchecked_witness :
  r_out (writeDMADescriptor 10 example_bad_index driver_init sim_init) =
    Stop (Undefined OutOfBounds).
Proof.
  apply writeDMADescriptor_index_unchecked; [apply dma_globals_init_wf|].
  intros [_ H]. vm_compute in H. done.
Defined.

Lemma writeDMADescriptor_returns_witness :
  r_out (writeDMADescriptor (S (1 * Z.to_nat (TIMEOUT_US + 1))) example_descriptor
    driver_init sim_init) = Done 0.
Proof.
  apply (writeDMADescriptor_returns (clock := sim_clock) (rate := 1)).
  - apply dma_globals_init_wf.
  - apply example_in_range.
  - apply Nat.lt_succ_diag_r.
Defined.

Lemma dma_mappings_balanced_witness :
  g_ldescriptor (d_dma (r_st (write_all 10 [example_descriptor] driver_init sim_init))) =
    (0 + 1) mod MAX_NUM_DMA_DESCRIPTORS.
Proof.
  apply (dma_mappings_balanced 10 [example_descriptor] [] driver_init sim_init).
  - apply dma_globals_init_wf.
  - intros j Hj _. apply lookup_replicate_2. unfold in_range, MAX_NUM_DMA_DESCRIPTORS in Hj. lia.
  - split; [apply example_in_range|]. split; [apply not_elem_of_nil | exact I].
  - vm_compute. reflexivity.
Defined.
