(* ===== verification/NfpMem.v ===== *)
(** * Huge-page buffers (HOST/driver/nfpmem.c)

    Registration pins the pages of a user buffer and records the kernel address of
    each huge page; unregistration gives the pages back.  The branches of the
    conditional compilation are those of Linux 4.6 and later. *)

From S2P Require Import Prelude Eff IoctlCommands NfpTypes Kernel SimKernel.
From Stdlib Require Import ZArith Lia.
From stdpp Require Import base list.
Local Open Scope Z_scope.
Local Open Scope eff_scope.

Definition PAGE_MASK : Z := 2 ^ 64 - 4096.

(** Lines 60 to 64: the 4 KB pages a user buffer touches. *)
Definition first_page (udata : Z) : Z := Z.shiftr (Z.land udata PAGE_MASK) PAGE_SHIFT.
Definition last_page (udata nbytes : Z) : Z :=
  Z.shiftr (Z.land (u64 (udata + nbytes - 1)) PAGE_MASK) PAGE_SHIFT.
Definition user_npages (udata nbytes : Z) : Z :=
  u64 (last_page udata nbytes - first_page udata + 1).

(** Lines 102 to 109, once the divisor is known not to be zero. *)
Definition huge_page_count (length hp_size : Z) : Z :=
  let num_huge_pages := length / hp_size in
  let acum := u64 (hp_size * num_huge_pages) in
  if acum =? length then num_huge_pages else u64 (num_huge_pages + 1).

Section Mem.
Context {K : Type} `{!Handler kcall K}.

Definition set_pages (pages : list Z) (g : mem_globals) : mem_globals :=
  MemGlobals (g_num_pages g) pages.
Definition set_num_pages (n : Z) (g : mem_globals) : mem_globals :=
  MemGlobals n (g_pages g).

(** card->buffer.page_address[i] = page_address (pag[hp_size / PAGE_SIZE * i]) *)
Definition record_huge_page (hp_size : Z) (pag : list Z) (i : Z) : KM K unit :=
  let* page := need OutOfBounds (arr_get pag (u64 (hp_size / PAGE_SIZE * i))) in
  let* a := call (K_page_address page) in
  let* old := gets (fun d => m_page_address (c_buffer (d_card d))) in
  let* new := need OutOfBounds (arr_set old i (u64 a)) in
  modify (set_card (set_buffer (set_page_address new))).

Definition getUserHugePages (db : dma_buffer) : KM K Z :=
  let udata := db_data db in
  let npages := user_npages udata (db_length db) in
  let* pag := call (K_vmalloc_pages (u64 (npages * 8) / 8)) in
  match pag with
  | None => ret (- EFAULT)
  | Some pag =>
      do* modify (set_mem (set_pages pag)) in
      do* call K_down_read_mmap_sem in
      let* got := call (K_get_user_pages udata npages pag) in
      do* modify (set_mem (set_pages got.2)) in
      do* call K_up_read_mmap_sem in
      if db_hp_size db =? 0 then halt (Undefined DivByZero)
      else
        let num_huge_pages := huge_page_count (db_length db) (db_hp_size db) in
        do* for_range (Z.to_nat num_huge_pages) 0 (record_huge_page (db_hp_size db) got.2) in
        do* modify (set_card (set_buffer (fun m =>
          set_length (db_length db) (set_virtual (db_data db) (set_npages num_huge_pages m))))) in
        ret (s32 got.1)
  end.

(** pages[i] given back *)
Definition forget_page (pages : list Z) (i : Z) : KM K unit :=
  do* call K_down_read_mmap_sem in
  let* page := need OutOfBounds (arr_get pages i) in
  let* reserved := call (K_PageReserved page) in
  do* (if (reserved : bool) then call (K_put_page page)
       else do* call (K_SetPageDirty page) in call (K_put_page page)) in
  call K_up_read_mmap_sem.

Definition forgetUserHugePages (pages : list Z) (num_pages : Z) : KM K unit :=
  do* for_range (Z.to_nat num_pages) 0 (forget_page pages) in
  call (K_vfree_pages pages).

Definition reg_hugemem (db : dma_buffer) : KM K Z :=
  let* n := getUserHugePages db in
  do* modify (set_mem (set_num_pages n)) in
  if n <? 0 then
    do* modify (set_card (set_buffer (set_length 0))) in
    do* call K_up in
    ret (- EFAULT)
  else
    do* modify (set_card (set_buffer (fun m =>
      set_page_size (db_hp_size db) (set_length (db_length db) (set_virtual (db_data db) m))))) in
    ret 0.

Definition unreg_hugemem : KM K Z :=
  let* card := gets d_card in
  if m_length (c_buffer card) =? 0 then ret 0
  else
    do* modify (set_card (set_buffer (set_length 0))) in
    let* g := gets d_mem in
    do* forgetUserHugePages (g_pages g) (g_num_pages g) in
    do* modify (set_mem (set_num_pages 0)) in
    ret 0.
End Mem.

Section MemReplay.
Context {K : Type} `{!Handler kcall K}.

Lemma replays_reg_hugemem db : replays (K := K) (reg_hugemem db).
Proof. unfold reg_hugemem, getUserHugePages, record_huge_page. solve_replays. Qed.
Lemma replays_unreg_hugemem : replays (K := K) unreg_hugemem.
Proof. unfold unreg_hugemem, forgetUserHugePages, forget_page. solve_replays. Qed.
End MemReplay.

#[export] Hint Resolve replays_reg_hugemem replays_unreg_hugemem : replays.

(** ** Page arithmetic *)

Lemma page_mask_shift x :
  fits 64 x -> Z.shiftr (Z.land x PAGE_MASK) PAGE_SHIFT = x / PAGE_SIZE.
Proof.
  intros Hx. unfold PAGE_SHIFT, PAGE_SIZE.
  rewrite Z.shiftr_land. change (Z.shiftr PAGE_MASK 12) with (Z.ones 52).
  rewrite Z.land_ones, Z.shiftr_div_pow2 by lia. apply Z.mod_small.
  unfold fits in Hx. Z.to_euclidean_division_equations; lia.
Qed.

Lemma user_npages_eq udata nbytes :
  0 <= udata -> 0 < nbytes -> udata + nbytes <= 2 ^ 64 ->
  user_npages udata nbytes = (udata + nbytes - 1) / PAGE_SIZE - udata / PAGE_SIZE + 1.
Proof.
  intros. unfold user_npages, last_page, first_page.
  rewrite (wrap_id 64 (udata + nbytes - 1)) by (unfold fits; lia).
  rewrite !page_mask_shift by (unfold fits; lia).
  apply wrap_id. unfold fits, PAGE_SIZE. Z.to_euclidean_division_equations; lia.
Qed.

Lemma huge_page_count_eq n hp :
  0 < hp -> fits 64 n -> huge_page_count n hp = (n + hp - 1) / hp.
Proof.
  intros Hp Hn. unfold huge_page_count, fits in *.
  assert (Hle : 0 <= hp * (n / hp) <= n).
  { split; [apply Z.mul_nonneg_nonneg; [lia | apply Z.div_pos; lia] | apply Z.mul_div_le; lia]. }
  rewrite (wrap_id 64 (hp * (n / hp))) by (unfold fits; lia).
  pose proof (Z.div_mod n hp ltac:(lia)) as D. pose proof (Z.mod_pos_bound n hp Hp) as B.
  assert (n / hp <= n) by (apply Z.div_le_upper_bound; nia).
  destruct (Z.eqb_spec (hp * (n / hp)) n) as [E | E].
  - apply (Z.div_unique_pos _ _ _ (hp - 1)); lia.
  - rewrite wrap_id.
    + apply (Z.div_unique_pos _ _ _ (n mod hp - 1)); lia.
    + unfold fits. assert (0 <= n / hp) by (apply Z.div_pos; lia).
      assert (n / hp <> n \/ n / hp < 2 ^ 64 - 1) by (destruct (Z.eq_dec hp 1); subst; lia || (left; nia)).
      nia.
Qed.

(** A registration the driver can honour: a page-aligned buffer inside the address
    space, cut in at most 16 huge pages whose size is a multiple of 4 KB. *)
Definition good_buffer (db : dma_buffer) : Prop :=
  0 < db_data db /\ (PAGE_SIZE | db_data db) /\ 0 < db_length db /\
  db_data db + db_length db <= 2 ^ 64 /\ 0 < db_hp_size db /\ (PAGE_SIZE | db_hp_size db) /\
  huge_page_count (db_length db) (db_hp_size db) <= 16.

(** Huge page [i] of a good buffer starts at one of the 4 KB pages of the buffer. *)
Lemma huge_page_start db i :
  good_buffer db -> 0 <= i < huge_page_count (db_length db) (db_hp_size db) ->
  0 <= db_hp_size db / PAGE_SIZE * i < user_npages (db_data db) (db_length db) /\
  user_npages (db_data db) (db_length db) <= 2 ^ 52.
Proof.
  intros (Hd & [q Hq] & Hl & Hs & Hh & [p Hp] & _) Hi.
  rewrite huge_page_count_eq in Hi by (unfold fits; lia).
  rewrite user_npages_eq by lia. unfold PAGE_SIZE in *. rewrite Hp, Z.div_mul by lia.
  assert (B : db_hp_size db * i < db_length db).
  { destruct Hi as [_ Hi].
    pose proof (Z.mul_div_le (db_length db + db_hp_size db - 1) (db_hp_size db) Hh). nia. }
  assert (p * i * 4096 <= db_length db - 1) by lia.
  split; [|Z.to_euclidean_division_equations; lia]. split; [nia|].
  rewrite Hq, Z.div_mul by lia.
  replace (q * 4096 + db_length db - 1) with (db_length db - 1 + q * 4096) by lia.
  rewrite Z.div_add by lia.
  assert (p * i <= (db_length db - 1) / 4096) by (apply Z.div_le_lower_bound; lia). lia.
Qed.

Section MemSpec.
Context {K : Type} `{!Handler kcall K} {addr_of : Z -> Z} `{!PageLaws addr_of}.

(** The first [n] huge pages are recorded. *)
Definition recorded (hp_size : Z) (pages : list Z) (n : Z) (addrs : list Z) : Prop :=
  length addrs = 16%nat /\
  forall i, 0 <= i < n -> exists p,
    pages !! Z.to_nat (hp_size / PAGE_SIZE * i) = Some p /\
    addrs !! Z.to_nat i = Some (u64 (addr_of p)).

Definition with_addrs (a : list Z) : driver -> driver :=
  set_card (set_buffer (set_page_address a)).

Lemma wp_record_huge_page hp pag i s a (k : K) :
  recorded hp pag i a -> 0 <= i < 16 ->
  0 <= hp / PAGE_SIZE * i < Z.of_nat (length pag) -> Z.of_nat (length pag) <= 2 ^ 64 ->
  wp (record_huge_page hp pag i) (fun o s' _ t =>
    exists a', o = Done tt /\ s' = with_addrs a' s /\ recorded hp pag (i + 1) a' /\
      sem_delta t = 0) (with_addrs a s) k.
Proof.
  intros [La Ha] Hi Hx Hb. destruct (arr_get_in pag _ Hx) as [p Hp].
  unfold record_huge_page. rewrite (wrap_id 64) by (unfold fits; lia). rewrite Hp.
  wp_steps; simplify_eq.
  - pose proof (page_address_fn (addr_of := addr_of) a0 k) as E. rewrite Hans in E.
    cbn [fst] in E. subst ans. cbn in H0. rewrite arr_set_in in H0 by lia. simplify_eq.
    eexists. split; [done|]. split; [by destruct s as [[] g m]|]. split; [|done].
    split; [by rewrite length_insert|]. intros j Hj. apply arr_get_Some in Hp as [_ Hp].
    destruct (Z.eq_dec j i) as [-> | Hne].
    + exists a0. split; [done|]. apply list_lookup_insert_eq. lia.
    + destruct (Ha j) as (q & Q1 & Q2); [lia|]. exists q. split; [done|].
      rewrite list_lookup_insert_ne; [done|]. intros E. apply Z2Nat.inj in E; lia.
  - cbn in H0. rewrite arr_set_in in H0 by lia. done.
Qed.

Lemma wp_record_huge_pages hp pag n s a (k : K) :
  length a = 16%nat -> 0 <= n <= 16 -> Z.of_nat (length pag) <= 2 ^ 64 ->
  (forall i, 0 <= i < n -> 0 <= hp / PAGE_SIZE * i < Z.of_nat (length pag)) ->
  wp (for_range (Z.to_nat n) 0 (record_huge_page hp pag)) (fun o s' _ t =>
    exists a', o = Done tt /\ s' = with_addrs a' s /\ recorded hp pag n a' /\
      sem_delta t = 0) (with_addrs a s) k.
Proof.
  intros La Hn Hb Hx.
  apply wp_for_range with (I := fun i s1 _ t => exists a', s1 = with_addrs a' s /\
    recorded hp pag i a' /\ sem_delta t = 0).
  - exists a. split; [done|]. split; [|done]. split; [done | lia].
  - intros i s1 k1 t1 Hi (a1 & -> & R & T).
    eapply wp_mono; [apply (wp_record_huge_page hp pag i s a1 k1 R); [lia|apply Hx; lia|done]|].
    intros o s2 k2 t2 (a2 & -> & -> & R2 & T2). exists a2.
    rewrite sem_delta_app, T, T2. done.
  - rewrite Z2Nat.id, Z.add_0_l by lia. intros s1 k1 t1 (a' & -> & R & T). by exists a'.
Qed.

(** The buffer a successful registration leaves. *)
Definition registered (db : dma_buffer) (s s' : driver) : Prop :=
  exists a, recorded (db_hp_size db) (g_pages (d_mem s'))
      (huge_page_count (db_length db) (db_hp_size db)) a /\
    d_card s' = set_buffer (fun _ => Mem (db_data db) (db_length db) (db_hp_size db)
      (huge_page_count (db_length db) (db_hp_size db)) a) (d_card s) /\
    d_dma s' = d_dma s /\
    0 <= g_num_pages (d_mem s') <= Z.of_nat (length (g_pages (d_mem s'))).

(** The kernel has no memory for the array of pages, or does not pin the pages. *)
Definition refuses_pages (db : dma_buffer) (k : K) : Prop :=
  let n := user_npages (db_data db) (db_length db) in
  match handle (K_vmalloc_pages n) k with
  | (None, _) => True
  | (Some l, k1) =>
      let k2 := (handle K_down_read_mmap_sem k1).2 in
      s32 (handle (K_get_user_pages (db_data db) n l) k2).1.1 < 0
  end.

Lemma wp_getUserHugePages db s (k : K) :
  good_buffer db -> length (m_page_address (c_buffer (d_card s))) = 16%nat ->
  wp (getUserHugePages db) (fun o s' _ t => sem_delta t = 0 /\
    ((o = Done (- EFAULT) /\ s' = s /\
      (handle (K_vmalloc_pages (user_npages (db_data db) (db_length db))) k).1 = None) \/
    exists n a pages, o = Done n /\ n <= Z.of_nat (length pages) /\
      (n < 0 -> refuses_pages db k) /\ d_mem s' = set_pages pages (d_mem s) /\ d_dma s' = d_dma s /\
      d_card s' = set_buffer (fun m => Mem (db_data db) (db_length db) (m_page_size m)
        (huge_page_count (db_length db) (db_hp_size db)) a) (d_card s) /\
      recorded (db_hp_size db) pages (huge_page_count (db_length db) (db_hp_size db)) a)) s k.
Proof.
  intros Hg La. unfold getUserHugePages.
  pose proof Hg as (Hd & Hd4 & Hl & Hs & Hh & Hh4 & H16).
  pose proof (huge_page_count_eq (db_length db) (db_hp_size db) Hh ltac:(unfold fits; lia)) as Hc.
  assert (H1 : 1 <= huge_page_count (db_length db) (db_hp_size db))
    by (rewrite Hc; apply Z.div_le_lower_bound; lia).
  destruct (huge_page_start db 0 Hg ltac:(lia)) as [B1 B2]. rewrite Z.mul_0_r in B1.
  rewrite (wrap_id 64), Z.div_mul by (unfold fits; lia).
  wp_steps. destruct ans as [junk|]; wp_steps; [|by rewrite Hans; auto].
  pose proof (vmalloc_length (addr_of := addr_of) (user_npages (db_data db) (db_length db)) junk k) as L.
  rewrite Hans in L. specialize (L eq_refl).
  pose proof (gup_length (addr_of := addr_of) (db_data db)
    (user_npages (db_data db) (db_length db)) junk kk0) as L2.
  pose proof (gup_count (addr_of := addr_of) (db_data db)
    (user_npages (db_data db) (db_length db)) junk kk0) as C2.
  rewrite Hans1 in L2, C2. destruct ans0 as [got pages]. cbn [fst snd] in *.
  destruct (Z.eqb_spec (db_hp_size db) 0); [lia|].
  wp_steps. unit_answers.
  match goal with |- wp _ _ ?s1 ?k1 =>
    pose proof (wp_record_huge_pages (db_hp_size db) pages
      (huge_page_count (db_length db) (db_hp_size db)) s1
      (m_page_address (c_buffer (d_card s))) k1 La ltac:(lia) ltac:(lia)) as W;
    replace (with_addrs _ s1) with s1 in W by (by destruct s as [[? ? ? ? ? ? [] ?] g m])
  end.
  eapply wp_mono; [apply W|].
  { intros i Hi. destruct (huge_page_start db i Hg Hi). lia. }
  intros o s' k' t (a & -> & -> & R & T). wp_steps.
  split; [cbn; by rewrite sem_delta_app, T|]. right.
  exists (s32 got), a, pages. split; [done|].
  split; [pose proof (swrap_le 32 got ltac:(lia) ltac:(lia)); lia|].
  split; [intros Hn; unfold refuses_pages; rewrite Hans, Hans0; cbn [snd]; by rewrite Hans1|].
  by destruct s as [[? ? ? ? ? ? [] ?] [] []].
Qed.

Lemma wp_reg_hugemem db s (k : K) :
  good_buffer db -> length (m_page_address (c_buffer (d_card s))) = 16%nat ->
  wp (reg_hugemem db) (fun o s' _ t =>
    (o = Done 0 /\ registered db s s' /\ sem_delta t = 0) \/
    (o = Done (- EFAULT) /\ m_length (c_buffer (d_card s')) = 0 /\ sem_delta t = 1 /\
      refuses_pages db k)) s k.
Proof.
  intros Hg La.
  unfold reg_hugemem. wp_step. eapply wp_mono; [by apply wp_getUserHugePages|].
  intros o s' k' t (T & [(-> & -> & Hv) | (n & a & pages & -> & Hn & Hf & E1 & E2 & E3 & R)]).
  - wp_steps. destruct (Z.ltb_spec (- EFAULT) 0) as [_|X]; [|vm_compute in X; done].
    wp_steps. unit_answers. right. split; [done|]. split; [done|].
    split; [by rewrite !sem_delta_app, T|].
    unfold refuses_pages. by destruct (handle (K_vmalloc_pages _) k) as [[] ?].
  - wp_steps. destruct (Z.ltb_spec n 0); wp_steps; unit_answers.
    + right. split; [done|]. split; [done|]. split; [by rewrite !sem_delta_app, T | by apply Hf].
    + left. split; [done|]. split; [|by rewrite !sem_delta_app, T].
      exists a. cbn [set_card set_mem set_num_pages d_card d_mem d_dma g_pages g_num_pages].
      rewrite E1, E2, E3. cbn [g_pages set_pages]. split; [exact R|]. split; [done|].
      split; [done | lia].
Qed.

(** C26.  Registration of a good buffer, whatever the kernel answers within its
    documented behaviour: it returns 0 and the card holds the kernel address of
    the first 4 KB page of every huge page of the buffer, or it returns -EFAULT
    and the buffer length is 0 (so that there is nothing to unregister), and then
    the kernel refused the memory or the pages.  It never strays from its arrays. *)
Theorem reg_hugemem_spec db s (k : K) :
  good_buffer db -> length (m_page_address (c_buffer (d_card s))) = 16%nat ->
  let r := reg_hugemem db s k in
  (r_out r = Done 0 /\ registered db s (r_st r) /\ sem_delta (r_tr r) = 0) \/
  (r_out r = Done (- EFAULT) /\ m_length (c_buffer (d_card (r_st r))) = 0 /\
    sem_delta (r_tr r) = 1 /\ refuses_pages db k).
Proof. intros Hg La. exact (wp_reg_hugemem db s k Hg La). Qed.

(** A failed registration, once the page array was allocated, leaves the buffer
    address set and the page size as it was. *)
Lemma wp_reg_hugemem_failed db s pages (k k1 : K) :
  good_buffer db -> length (m_page_address (c_buffer (d_card s))) = 16%nat ->
  handle (K_vmalloc_pages (user_npages (db_data db) (db_length db))) k = (Some pages, k1) ->
  wp (reg_hugemem db) (fun o s' _ _ => o = Done (- EFAULT) ->
    m_virtual (c_buffer (d_card s')) = db_data db /\
    m_page_size (c_buffer (d_card s')) = m_page_size (c_buffer (d_card s))) s k.
Proof.
  intros Hg La Hv. unfold reg_hugemem. wp_step. eapply wp_mono; [by apply wp_getUserHugePages|].
  rewrite Hv. intros o s' k' t (_ & [(_ & _ & ?) | (n & a & pgs & -> & _ & _ & E1 & _ & E3 & _)]);
    [done|].
  wp_steps. destruct (n <? 0); wp_steps; [|done]. intros _. cbn. by rewrite E3.
Qed.
End MemSpec.

Section MemLimits.
Context {K : Type} `{!Handler kcall K} {addr_of : Z -> Z} `{!PageLaws addr_of}.

(** The huge page size of the request is not checked: zero divides by zero
    in the kernel, with the pages of the buffer already pinned, unless the
    allocation of the page array fails first. *)
Theorem reg_hugemem_zero_hp_size db s (k : K) :
  db_hp_size db = 0 ->
  let r := reg_hugemem db s k in
  r_out r = Stop (Undefined DivByZero) \/ r_out r = Done (- EFAULT).
Proof.
  intros Hz r.
  enough (W : wp (reg_hugemem db) (fun o _ _ _ =>
    o = Stop (Undefined DivByZero) \/ o = Done (- EFAULT)) s k) by exact W.
  unfold reg_hugemem, getUserHugePages. rewrite Hz. cbn [Z.eqb].
  wp_steps. destruct ans; wp_steps; [by left|].
  destruct (Z.ltb_spec (- EFAULT) 0) as [_|X]; [|vm_compute in X; done].
  wp_steps. by right.
Qed.

(** The pages of the first 17 huge pages are pages of the buffer. *)
Lemma many_pages data len hp :
  0 < data -> (PAGE_SIZE | data) -> 0 < len -> data + len <= 2 ^ 64 -> 0 < hp ->
  (PAGE_SIZE | hp) -> 16 < huge_page_count len hp ->
  user_npages data len <= 2 ^ 52 /\
  forall i, 0 <= i <= 16 -> 0 <= hp / PAGE_SIZE * i < user_npages data len.
Proof.
  intros Hd Hd4 Hl Hs Hh Hh4 H16.
  rewrite (huge_page_count_eq len hp Hh) in H16 by (unfold fits; lia).
  assert (Hcut : 16 * hp < len).
  { assert (17 * hp <= len + hp - 1); [|lia].
    pose proof (Z.mul_div_le (len + hp - 1) hp Hh). nia. }
  rewrite user_npages_eq by lia. unfold PAGE_SIZE in *. split.
  - Z.to_euclidean_division_equations; lia.
  - intros i Hi. destruct Hd4 as [q Hq], Hh4 as [p Hp]. rewrite Hp, Z.div_mul by lia. split; [nia|].
    rewrite Hq, Z.div_mul by lia.
    replace (q * 4096 + len - 1) with (len - 1 + q * 4096) by lia.
    rewrite Z.div_add by lia.
    assert (p * i <= (len - 1) / 4096) by (apply Z.div_le_lower_bound; nia). lia.
Qed.

(** Recording one huge page more than the array of addresses has room for. *)
Lemma wp_record_overflow n hp pages (Q : spec unit) s (k : K) :
  16 < Z.of_nat n -> Z.of_nat (length pages) <= 2 ^ 52 ->
  (forall i, 0 <= i <= 16 -> 0 <= hp / PAGE_SIZE * i < Z.of_nat (length pages)) ->
  length (m_page_address (c_buffer (d_card s))) = 16%nat ->
  (forall s' k' t, Q (Stop (Undefined OutOfBounds)) s' k' t) ->
  wp (for_range n 0 (record_huge_page hp pages)) Q s k.
Proof.
  intros Hn Nb Np La HQ.
  apply wp_for_range with (I := fun i s1 _ _ => 0 <= i <= 16 /\
    length (m_page_address (c_buffer (d_card s1))) = 16%nat).
  - lia.
  - intros i s1 k1 t1 _ [Hi L1]. unfold record_huge_page.
    pose proof (Np i Hi) as Hx. rewrite (wrap_id 64) by (unfold fits; lia).
    destruct (arr_get_in pages (hp / PAGE_SIZE * i)) as [p Hp]; [lia|].
    rewrite Hp. wp_steps; simplify_eq; [|done].
    apply arr_set_length in H0 as L3. split; [|cbn; by rewrite L3].
    unfold arr_set in H0. destruct (0 <=? i) eqn:?, (i <? _) eqn:E in H0; try done.
    bools. rewrite L1 in E. lia.
  - intros s1 k1 t1 [X _]. lia.
Qed.

(** Nor is the number of huge pages: the array of addresses has 16 elements,
    and a request for more stores past its end (in [struct nfp_card], over the
    state of the mmap ring). *)
Theorem reg_hugemem_too_many_pages db s (k : K) :
  0 < db_data db -> (PAGE_SIZE | db_data db) -> 0 < db_length db ->
  db_data db + db_length db <= 2 ^ 64 -> 0 < db_hp_size db -> (PAGE_SIZE | db_hp_size db) ->
  16 < huge_page_count (db_length db) (db_hp_size db) ->
  length (m_page_address (c_buffer (d_card s))) = 16%nat ->
  let r := reg_hugemem db s k in
  r_out r = Stop (Undefined OutOfBounds) \/ r_out r = Done (- EFAULT).
Proof.
  intros Hd Hd4 Hl Hs Hh Hh4 H16 La r.
  destruct (many_pages _ _ _ Hd Hd4 Hl Hs Hh Hh4 H16) as [Nb Np].
  pose proof (Np 0 ltac:(lia)) as B1. rewrite Z.mul_0_r in B1.
  enough (W : wp (reg_hugemem db) (fun o _ _ _ =>
    o = Stop (Undefined OutOfBounds) \/ o = Done (- EFAULT)) s k) by exact W.
  unfold reg_hugemem, getUserHugePages. rewrite (wrap_id 64), Z.div_mul by (unfold fits; lia).
  wp_steps. destruct ans as [junk|]; wp_steps.
  2: { destruct (Z.ltb_spec (- EFAULT) 0) as [_|X]; [|vm_compute in X; done].
    wp_steps. by right. }
  pose proof (vmalloc_length (addr_of := addr_of) _ junk k (f_equal fst Hans)) as L.
  pose proof (gup_length (addr_of := addr_of) (db_data db)
    (user_npages (db_data db) (db_length db)) junk kk0) as L2.
  rewrite Hans1 in L2. cbn [fst] in L2. rewrite <- L, <- L2 in Np.
  destruct (Z.eqb_spec (db_hp_size db) 0); [lia|]. wp_steps.
  apply wp_record_overflow; [lia | lia | exact Np | done | by left].
Qed.
End MemLimits.

Section MemRelease.
Context {K : Type} `{!Handler kcall K}.

Lemma wp_forget_page pages i s (k : K) p :
  arr_get pages i = Some p ->
  wp (forget_page pages i) (fun o s' _ t => o = Done tt /\ s' = s /\
    calls page_released t = [p] /\ sem_delta t = 0) s k.
Proof.
  intros Hp. unfold forget_page. rewrite Hp. wp_steps; simplify_eq.
  destruct ans0; wp_steps; unit_answers; done.
Qed.

Lemma wp_forgetUserHugePages pages n s (k : K) :
  0 <= n <= Z.of_nat (length pages) ->
  wp (forgetUserHugePages pages n) (fun o s' _ t => o = Done tt /\ s' = s /\
    calls page_released t = take (Z.to_nat n) pages /\ sem_delta t = 0) s k.
Proof.
  intros Hn. unfold forgetUserHugePages. wp_step.
  apply wp_for_range with (I := fun i s1 _ t => s1 = s /\
    calls page_released t = take (Z.to_nat i) pages /\ sem_delta t = 0).
  - done.
  - intros i s1 k1 t1 Hi (-> & T & D). destruct (arr_get_in pages i) as [p Hp]; [lia|].
    eapply wp_mono; [by apply wp_forget_page|].
    intros o s2 k2 t2 (-> & -> & T2 & D2). split; [done|].
    rewrite calls_app, sem_delta_app, T, T2, D, D2. split; [|done].
    apply arr_get_Some in Hp as [_ Hp]. replace (Z.to_nat (i + 1)) with (S (Z.to_nat i)) by lia.
    by rewrite (take_S_r _ _ p).
  - rewrite Z.add_0_l, Z2Nat.id by lia. intros s1 k1 t1 (-> & T & D). wp_steps. unit_answers.
    rewrite calls_app, sem_delta_app, T, D. cbn. by rewrite app_nil_r.
Qed.

(** Unregistering gives every pinned page back exactly once, in order, and
    clears the length and the count, so that doing it again gives nothing back. *)
Theorem unreg_hugemem_spec s (k : K) :
  0 <= g_num_pages (d_mem s) <= Z.of_nat (length (g_pages (d_mem s))) ->
  let r := unreg_hugemem s k in
  r_out r = Done 0 /\
  calls page_released (r_tr r) =
    (if m_length (c_buffer (d_card s)) =? 0 then []
     else take (Z.to_nat (g_num_pages (d_mem s))) (g_pages (d_mem s))) /\
  m_length (c_buffer (d_card (r_st r))) = 0 /\ sem_delta (r_tr r) = 0 /\
  (let r' := unreg_hugemem (r_st r) (r_k r) in
   r_out r' = Done 0 /\ r_st r' = r_st r /\ r_tr r' = []).
Proof.
  intros Hn r.
  enough (W : wp unreg_hugemem (fun o s' _ t => o = Done 0 /\
    calls page_released t = (if m_length (c_buffer (d_card s)) =? 0 then []
     else take (Z.to_nat (g_num_pages (d_mem s))) (g_pages (d_mem s))) /\
    m_length (c_buffer (d_card s')) = 0 /\ sem_delta t = 0) s k).
  { destruct W as (W1 & W2 & W3 & W4). fold r in W1, W2, W3, W4. do 4 (split; [done|]).
    unfold unreg_hugemem, bind, gets. cbn [r_out r_st r_k r_tr]. by rewrite W3. }
  unfold unreg_hugemem. wp_steps.
  destruct (Z.eqb_spec (m_length (c_buffer (d_card s))) 0) as [E | E]; wp_steps; [done|].
  eapply wp_mono; [by apply wp_forgetUserHugePages|].
  intros o s' k' t (-> & -> & T & D). wp_steps.
  cbn [app]. rewrite !app_nil_r. by rewrite T.
Qed.
End MemRelease.

(** ** Witnesses *)

(** Three huge pages of 8 KB, the last one partly used, at address 2 ^ 30. *)
Definition example_buffer : dma_buffer := DmaBuffer 1 (2 ^ 30) 20480 8192 3.

Lemma example_buffer_good : good_buffer example_buffer.
Proof.
  unfold good_buffer, example_buffer, PAGE_SIZE; cbn [db_data db_length db_hp_size].
  split; [lia|]. split; [by exists 262144|]. split; [lia|]. split; [lia|]. split; [lia|].
  split; [by exists 2 | vm_compute; done].
Qed.

Abbreviation sim_addr := (fun page => 2 ^ 46 + page * 4096).

Lemma reg_hugemem_spec_witness :
  let r := reg_hugemem example_buffer driver_init sim_init in
  (r_out r = Done 0 /\ registered (addr_of := sim_addr) example_buffer driver_init (r_st r) /\
    sem_delta (r_tr r) = 0) \/
  (r_out r = Done (- EFAULT) /\ m_length (c_buffer (d_card (r_st r))) = 0 /\
    sem_delta (r_tr r) = 1 /\ refuses_pages example_buffer sim_init).
Proof.
  apply (reg_hugemem_spec (addr_of := sim_addr)); [apply example_buffer_good | reflexivity].
Defined.

Lemma reg_hugemem_zero_hp_size_witness :
  let r := reg_hugemem (DmaBuffer 1 (2 ^ 30) 20480 0 3) driver_init sim_init in
  r_out r = Stop (Undefined DivByZero) \/ r_out r = Done (- EFAULT).
Proof. apply reg_hugemem_zero_hp_size. reflexivity. Defined.

Lemma reg_hugemem_too_many_pages_witness :
  let r := reg_hugemem (DmaBuffer 1 (2 ^ 30) 69633 4096 18) driver_init sim_init in
  r_out r = Stop (Undefined OutOfBounds) \/ r_out r = Done (- EFAULT).
Proof.
  apply (reg_hugemem_too_many_pages (addr_of := sim_addr)); cbn [db_data db_length db_hp_size];
    try (unfold PAGE_SIZE; lia).
  - by exists 262144.
  - by exists 1.
  - by vm_compute.
  - reflexivity.
Defined.

(** The driver once [example_buffer] is registered. *)
Definition example_registered : driver := r_st (reg_hugemem example_buffer driver_init sim_init).

Lemma example_registered_ok :
  registered (addr_of := sim_addr) example_buffer driver_init example_registered.
Proof.
  exists (((fun i => 2 ^ 46 + 2 ^ 30 + 8192 * i) <$> [0; 1; 2]) ++ replicate 13 0). split.
  - split; [done|]. intros i Hi. change (0 <= i < 3) in Hi.
    assert (i = 0 \/ i = 1 \/ i = 2) as [-> | [-> | ->]] by lia; eexists;
      (split; [vm_compute; reflexivity | vm_compute; reflexivity]).
  - split; [vm_compute; reflexivity|]. split; [reflexivity|]. by vm_compute.
Qed.

Lemma unreg_hugemem_spec_witness :
  let r := unreg_hugemem example_registered sim_init in
  calls page_released (r_tr r) = [262144; 262145; 262146; 262147; 262148].
Proof.
  destruct (unreg_hugemem_spec example_registered sim_init) as (_ & E & _).
  - by vm_compute.
  - exact E.
Defined.
