(* ===== verification/NfpIoctl.v ===== *)
(** * The ioctl handler (HOST/driver/nfpioctl.c, lines 44 to 216) *)

From S2P Require Import Prelude Eff IoctlCommands NfpTypes Kernel SimKernel Reg NfpDma NfpMem.
From Stdlib Require Import ZArith Lia.
From stdpp Require Import base list.
Local Open Scope Z_scope.
Local Open Scope eff_scope.

(** ** The trivial operations of the character device *)

(** [private_data] of an open file: the address of the card, 0 for NULL. *)
Record file := File { private_data : Z }.

Definition nfp_open (card : Z) (filp : file) : Z * file := (0, File card).
Definition nfp_release (filp : file) : Z * file := (0, File 0).
Definition nfp_read (length : Z) : Z := 0.
Definition nfp_write (len : Z) : Z := len.

(** ** The argument of a command *)

Inductive input :=
| InReg (r : reg32)
| InTimeout (t : Z)
| InDescriptor (dd : dma_descriptor_sw)
| InBuffer (db : dma_buffer)
| InNothing.   (* no local was filled *)

Section Ioctl.
Context {K : Type} `{!Handler kcall K} `{E : IocEncoding}.

(** copy_from_user, with what every call site does when it fails. *)
Definition fetch (arg size : Z) (decode : list Z -> input) : KM K (option input) :=
  let* bs := call (K_copy_from_user arg size) in
  match bs with
  | None => do* call K_up in ret None
  | Some bs => ret (Some (decode bs))
  end.

(** Lines 123 to 147. *)
Definition fetch_argument (cmd arg : Z) : KM K (option input) :=
  if (cmd =? NFPIOC_READ_32) || (cmd =? NFPIOC_WRITE_32) then
    fetch arg sizeof_reg32 (fun bs => InReg (decode_reg32 bs))
  else if cmd =? NFPIOC_WINDOW_SIZE then
    fetch arg sizeof_u64 (fun bs => InTimeout (decode_u64 bs))
  else if (cmd =? NFPIOC_WRITE_DMA_DESCRIPTOR) || (cmd =? NFPIOC_READ_DMA_DESCRIPTOR) then
    fetch arg sizeof_dma_descriptor_sw (fun bs => InDescriptor (decode_dma_descriptor_sw bs))
  else if cmd =? NFPIOC_REGISTER_BUFFER then
    fetch arg sizeof_dma_buffer (fun bs => InBuffer (decode_dma_buffer bs))
  else ret (Some InNothing).

(** Lines 170 to 177, and 183 to 190: the kernel address of an offset of the
    buffer, or [None] for the error branch. *)
Definition descriptor_address (dd : dma_descriptor_sw) : KM K (option Z) :=
  let* card := gets d_card in
  let b := c_buffer card in
  let mi := c_mmap_info card in
  if m_virtual b =? 0 then
    ret (Some (u64 (mi_page_list mi + u64 (mi_first mi + dd_address dd))))
  else if m_page_size b =? 0 then halt (Undefined DivByZero)
  else if u64 (dd_address dd + dd_length dd) / m_page_size b =? dd_address dd / m_page_size b then
    let* page := need OutOfBounds (arr_get (m_page_address b) (dd_address dd / m_page_size b)) in
    ret (Some (u64 (page + dd_address dd mod m_page_size b)))
  else ret None.

Definition with_address (a : Z) (dd : dma_descriptor_sw) : dma_descriptor_sw :=
  DmaDescriptorSw a (dd_buffer_size dd) (dd_length dd) (dd_enable dd) (dd_u1 dd)
    (dd_is_c2s_op dd) (dd_is_s2c_op dd) (dd_address_mode dd) (dd_u0 dd)
    (dd_number_of_tlps dd) (dd_latency dd) (dd_address_offset dd) (dd_address_inc dd)
    (dd_time_at_req dd) (dd_time_at_comp dd) (dd_bytes_at_req dd) (dd_bytes_at_comp dd)
    (dd_index dd).

(** The switch, lines 151 to 212.  A local that the commands before it do not fill
    is never read: the branches that would are [Uninit]. *)
Definition dispatch (fuel : nat) (cmd arg : Z) (inp : input) : KM K unit :=
  if cmd =? NFPIOC_WINDOW_SIZE then
    match inp with
    | InTimeout t => dma_set_window_size t
    | _ => halt (Undefined Uninit)
    end
  else if cmd =? NFPIOC_WRITE_32 then
    match inp with
    | InReg r => WriteReg32 r
    | _ => halt (Undefined Uninit)
    end
  else if cmd =? NFPIOC_READ_32 then
    match inp with
    | InReg r =>
        let* r' := ReadReg32 r in
        do* call (K_copy_to_user arg (encode_reg32 r')) in
        ret tt
    | _ => halt (Undefined Uninit)
    end
  else if cmd =? NFPIOC_WRITE_DMA_DESCRIPTOR then
    match inp with
    | InDescriptor dd =>
        let* a := descriptor_address dd in
        match a with
        | None => ret tt
        | Some a =>
            do* writeDMADescriptor fuel (with_address a dd) in
            ret tt
        end
    | _ => halt (Undefined Uninit)
    end
  else if cmd =? NFPIOC_READ_DMA_DESCRIPTOR then
    match inp with
    | InDescriptor dd =>
        let* a := descriptor_address dd in
        match a with
        | None => ret tt
        | Some a =>
            let* dd' := readDMADescriptor (with_address a dd) in
            do* call (K_copy_to_user arg (encode_dma_descriptor_sw dd')) in
            ret tt
        end
    | _ => halt (Undefined Uninit)
    end
  else if cmd =? NFPIOC_REGISTER_BUFFER then
    match inp with
    | InBuffer db => do* reg_hugemem db in ret tt
    | _ => halt (Undefined Uninit)
    end
  else if cmd =? NFPIOC_UNREGISTER_BUFFER then
    do* unreg_hugemem in ret tt
  else ret tt.

Definition nfp_ioctl (fuel : nat) (cmd arg : Z) : KM K Z :=
  if negb (_IOC_TYPE cmd =? IOCTL_MAGIC_NUMBER) then ret (- ENOTTY)
  else if IOC_MAXNR <? _IOC_NR cmd then ret (- ENOTTY)
  else
    let* r := call K_down_interruptible in
    if negb (r =? 0) then
      do* call K_up in
      ret (- ERESTARTSYS)
    else
      let* inp := fetch_argument cmd arg in
      match inp with
      | None => ret (- EFAULT)
      | Some inp =>
          do* dispatch fuel cmd arg inp in
          do* call K_up in
          ret 0
      end.
End Ioctl.

Lemma replays_nfp_ioctl {K} `{!Handler kcall K} `{E : IocEncoding} fuel cmd arg :
  replays (K := K) (nfp_ioctl fuel cmd arg).
Proof.
  unfold nfp_ioctl, dispatch, fetch_argument, fetch, descriptor_address, WriteReg32, ReadReg32.
  solve_replays.
Qed.
#[export] Hint Resolve replays_nfp_ioctl : replays.

(** ** The semaphore *)

Definition sem_free (e : event kcall) : Prop := sem_action e = None.

Lemma sem_free_actions (t : ktrace) : Forall sem_free t -> calls sem_action t = [].
Proof. apply calls_none. Qed.

Section SemFree.
Context {K : Type} `{!Handler kcall K}.

Lemma sem_free_phy_store ga sa i v : emits (K := K) sem_free (phy_store ga sa i v).
Proof. unfold phy_store. solve_emits. Qed.
Lemma sem_free_phy_load ga i : emits (K := K) sem_free (phy_load ga i).
Proof. unfold phy_load. solve_emits. Qed.
Lemma sem_free_engine_write8 f v : emits (K := K) sem_free (engine_write8 f v).
Proof. unfold engine_write8, dma_base. solve_emits. Qed.
Lemma sem_free_descriptor_write8 j f v : emits (K := K) sem_free (descriptor_write8 j f v).
Proof. unfold descriptor_write8, dma_base. solve_emits. Qed.
Lemma sem_free_descriptor_read8 j f : emits (K := K) sem_free (descriptor_read8 j f).
Proof. unfold descriptor_read8, dma_base. solve_emits. Qed.
#[local] Hint Resolve sem_free_phy_store sem_free_phy_load sem_free_engine_write8
  sem_free_descriptor_write8 sem_free_descriptor_read8 : emits.

Lemma sem_free_poll fuel a st : emits (K := K) sem_free (poll_engine fuel a st).
Proof. induction fuel as [|fuel IH]; cbn [poll_engine]; solve_emits. Qed.
Lemma sem_free_release i : emits (K := K) sem_free (release_mapping i).
Proof. unfold release_mapping. solve_emits. Qed.
#[local] Hint Resolve sem_free_poll sem_free_release : emits.

Lemma sem_free_write fuel dd : emits (K := K) sem_free (writeDMADescriptor fuel dd).
Proof. unfold writeDMADescriptor, program_descriptor, run_engine, dma_base. solve_emits. Qed.
Lemma sem_free_read dd : emits (K := K) sem_free (readDMADescriptor dd).
Proof. unfold readDMADescriptor. solve_emits. Qed.
Lemma sem_free_window ws : emits (K := K) sem_free (dma_set_window_size ws).
Proof. apply sem_free_engine_write8. Qed.
Lemma sem_free_WriteReg32 r : emits (K := K) sem_free (WriteReg32 r).
Proof. unfold WriteReg32. solve_emits. Qed.
Lemma sem_free_ReadReg32 r : emits (K := K) sem_free (ReadReg32 r).
Proof. unfold ReadReg32. solve_emits. Qed.
Lemma sem_free_forget_page l i : emits (K := K) sem_free (forget_page l i).
Proof. unfold forget_page. solve_emits. Qed.
#[local] Hint Resolve sem_free_forget_page : emits.
Lemma sem_free_unreg : emits (K := K) sem_free unreg_hugemem.
Proof. unfold unreg_hugemem, forgetUserHugePages. solve_emits. Qed.
Lemma sem_free_descriptor_address dd : emits (K := K) sem_free (descriptor_address dd).
Proof. unfold descriptor_address. solve_emits. Qed.
End SemFree.

#[export] Hint Resolve sem_free_write sem_free_read sem_free_window sem_free_WriteReg32
  sem_free_ReadReg32 sem_free_unreg sem_free_descriptor_address : emits.

Section SemTheorems.
Context {K : Type} `{!Handler kcall K} `{E : IocEncoding}.

Lemma sem_free_dispatch fuel cmd arg inp :
  cmd <> NFPIOC_REGISTER_BUFFER -> emits (K := K) sem_free (dispatch fuel cmd arg inp).
Proof.
  intros Hc. unfold dispatch.
  destruct (Z.eqb_spec cmd NFPIOC_REGISTER_BUFFER); [done|]. solve_emits.
Qed.

Lemma wp_fetch_argument cmd arg s (k : K) :
  wp (fetch_argument cmd arg) (fun o s' _ t => s' = s /\
    ((o = Done None /\ calls sem_action t = [Gave]) \/
     (exists inp, o = Done (Some inp) /\ calls sem_action t = []))) s k.
Proof.
  unfold fetch_argument, fetch.
  repeat match goal with |- wp (if ?b then _ else _) _ _ _ => destruct b end; wp_steps;
    try (destruct ans; wp_steps); eauto 10.
Qed.

(** What a call that returned did to the semaphore, by its result. *)
Definition sem_script (v : Z) : list sem_act :=
  if v =? - ENOTTY then [] else if v =? - ERESTARTSYS then [Interrupted; Gave] else [Took; Gave].

Lemma wp_nfp_ioctl_script fuel cmd arg s (k : K) :
  cmd <> NFPIOC_REGISTER_BUFFER ->
  wp (nfp_ioctl fuel cmd arg) (fun o _ _ t =>
    forall v, o = Done v -> calls sem_action t = sem_script v) s k.
Proof.
  intros Hc. unfold nfp_ioctl. destruct (negb _); [apply wp_ret; by intros v [= <-]|].
  destruct (IOC_MAXNR <? _IOC_NR cmd); [apply wp_ret; by intros v [= <-]|].
  wp_steps. destruct (Z.eqb_spec ans 0) as [-> | Ha]; cbn [negb]; wp_steps.
  2: { intros v [= <-]. cbn. by rewrite (proj2 (Z.eqb_neq ans 0) Ha). }
  eapply wp_mono; [apply wp_fetch_argument|].
  intros o s1 k1 t1 (-> & [(-> & T) | (inp & -> & T)]).
  - apply wp_ret. intros v [= <-]. by rewrite app_nil_r, calls_app, T.
  - wp_step. eapply wp_mono; [by apply (wp_emits sem_free), sem_free_dispatch|].
    intros [[]|h] s2 k2 t2 F; [|done]. wp_steps. intros v [= <-].
    apply sem_free_actions in F. by rewrite !calls_app, T, F.
Qed.

(** C31.  The semaphore of the card.  Whatever the kernel answers, a call that
    returns has taken the semaphore once and given it back once, with three exceptions:
    a refused command never touches it; a call that was interrupted while waiting
    ([-ERESTARTSYS]) gives back the semaphore it never took; and registering a buffer is
    the subject of [reg_hugemem_spec]. *)
Theorem nfp_ioctl_semaphore fuel cmd arg s (k : K) v :
  let r := nfp_ioctl fuel cmd arg s k in
  r_out r = Done v -> cmd <> NFPIOC_REGISTER_BUFFER ->
  calls sem_action (r_tr r) = sem_script v.
Proof. intros r Hr Hc. exact (wp_nfp_ioctl_script fuel cmd arg s k Hc v Hr). Qed.
End SemTheorems.

(** ** Registration, and the addresses of descriptors *)

Section Registration.
Context {K : Type} `{!Handler kcall K} {addr_of : Z -> Z} `{!PageLaws addr_of}.
Context `{E : IocEncoding} `{!IocLaws E}.

Lemma register_cmd_guards :
  negb (_IOC_TYPE NFPIOC_REGISTER_BUFFER =? IOCTL_MAGIC_NUMBER) = false /\
  (IOC_MAXNR <? _IOC_NR NFPIOC_REGISTER_BUFFER) = false.
Proof.
  destruct (ioc_ior 57 5 16 ltac:(lia) ltac:(lia) ltac:(lia)) as [T N].
  unfold NFPIOC_REGISTER_BUFFER, IOCTL_MAGIC_NUMBER, sizeof_dma_transfer. by rewrite T, N.
Qed.

Lemma cmd_neq c c' : _IOC_NR c <> _IOC_NR c' -> (c =? c') = false.
Proof. intros H. apply Z.eqb_neq. by intros ->. Qed.

Lemma cmd_numbers :
  _IOC_NR NFPIOC_WRITE_32 = 1 /\ _IOC_NR NFPIOC_READ_32 = 2 /\
  _IOC_NR NFPIOC_WRITE_DMA_DESCRIPTOR = 3 /\ _IOC_NR NFPIOC_READ_DMA_DESCRIPTOR = 4 /\
  _IOC_NR NFPIOC_REGISTER_BUFFER = 5 /\ _IOC_NR NFPIOC_UNREGISTER_BUFFER = 6 /\
  _IOC_NR NFPIOC_WINDOW_SIZE = 7.
Proof.
  pose proof (ioc_ior 57 1 16 ltac:(lia) ltac:(lia) ltac:(lia)) as [_ N1].
  pose proof (ioc_iowr 57 2 16 ltac:(lia) ltac:(lia) ltac:(lia)) as [_ N2].
  pose proof (ioc_ior 57 3 104 ltac:(lia) ltac:(lia) ltac:(lia)) as [_ N3].
  pose proof (ioc_iowr 57 4 104 ltac:(lia) ltac:(lia) ltac:(lia)) as [_ N4].
  pose proof (ioc_ior 57 5 16 ltac:(lia) ltac:(lia) ltac:(lia)) as [_ N5].
  pose proof (ioc_io 57 6 ltac:(lia) ltac:(lia)) as [_ N6].
  pose proof (ioc_ior 57 7 8 ltac:(lia) ltac:(lia) ltac:(lia)) as [_ N7].
  done.
Qed.

Lemma wp_nfp_ioctl_register fuel arg s (k k1 k2 : K) bs :
  handle K_down_interruptible k = (0, k1) ->
  handle (K_copy_from_user arg sizeof_dma_buffer) k1 = (Some bs, k2) ->
  good_buffer (decode_dma_buffer bs) -> length (m_page_address (c_buffer (d_card s))) = 16%nat ->
  wp (nfp_ioctl fuel NFPIOC_REGISTER_BUFFER arg) (fun o s' _ t => o = Done 0 /\
    ((registered (addr_of := addr_of) (decode_dma_buffer bs) s s' /\ sem_delta t = 0) \/
     (m_length (c_buffer (d_card s')) = 0 /\ sem_delta t = 1 /\
      refuses_pages (decode_dma_buffer bs) k2))) s k.
Proof.
  intros Hd Hc Hg La.
  unfold nfp_ioctl. destruct register_cmd_guards as [-> ->].
  destruct cmd_numbers as (N1 & N2 & N3 & N4 & N5 & N6 & N7).
  wp_steps. rewrite Hd in Hans. simplify_eq. cbn [Z.eqb negb].
  unfold fetch_argument, fetch. rewrite !cmd_neq by lia. rewrite Z.eqb_refl. cbn [orb].
  wp_steps. rewrite Hc in Hans. simplify_eq. wp_steps.
  unfold dispatch. rewrite !cmd_neq by lia. rewrite Z.eqb_refl.
  wp_steps.
  eapply wp_mono; [by apply (wp_reg_hugemem (addr_of := addr_of))|].
  intros o s' k' t [(-> & R & T) | (-> & R & T & V)]; wp_steps; unit_answers; (split; [done|]);
    rewrite !sem_delta_app, T; [by left | by right].
Qed.

(** Registering a good buffer through the device always answers 0, also when
    the registration failed, because the kernel refused memory or pages; and when it
    failed the semaphore ends one higher than it was, because both [reg_hugemem] and the
    handler release it. *)
Theorem nfp_ioctl_register fuel arg s (k k1 k2 : K) bs :
  handle K_down_interruptible k = (0, k1) ->
  handle (K_copy_from_user arg sizeof_dma_buffer) k1 = (Some bs, k2) ->
  good_buffer (decode_dma_buffer bs) -> length (m_page_address (c_buffer (d_card s))) = 16%nat ->
  let r := nfp_ioctl fuel NFPIOC_REGISTER_BUFFER arg s k in
  r_out r = Done 0 /\
  ((registered (addr_of := addr_of) (decode_dma_buffer bs) s (r_st r) /\ sem_delta (r_tr r) = 0) \/
   (m_length (c_buffer (d_card (r_st r))) = 0 /\ sem_delta (r_tr r) = 1 /\
    refuses_pages (decode_dma_buffer bs) k2)).
Proof. exact (wp_nfp_ioctl_register fuel arg s k k1 k2 bs). Qed.
End Registration.

Section Translation.
Context {K : Type} `{!Handler kcall K} {addr_of : Z -> Z} `{!PageLaws addr_of}.

Lemma descriptor_address_eq db s0 s dd (k : K) :
  good_buffer db -> registered (addr_of := addr_of) db s0 s ->
  0 <= dd_address dd -> 0 <= dd_length dd -> dd_address dd < db_length db ->
  dd_address dd + dd_length dd < 2 ^ 64 ->
  let hp := db_hp_size db in
  exists p,
    g_pages (d_mem s) !! Z.to_nat (hp / PAGE_SIZE * (dd_address dd / hp)) = Some p /\
    descriptor_address dd s k =
      Res (Done (if dd_address dd mod hp + dd_length dd <? hp
                 then Some (u64 (addr_of p + dd_address dd mod hp)) else None)) s k [].
Proof.
  intros Hg (a & [La R] & Ec & _) Ha Hl Hin Hw hp.
  pose proof Hg as (Hd & _ & Hl0 & Hs & Hh & _ & H16). unfold recorded in R. subst hp.
  set (hp := db_hp_size db) in *.
  rewrite huge_page_count_eq in H16 by (unfold fits; lia).
  assert (Hi : 0 <= dd_address dd / hp < (db_length db + hp - 1) / hp).
  { split; [apply Z.div_pos; lia|].
    apply (Z.lt_le_trans _ ((dd_address dd + hp) / hp)).
    - replace (dd_address dd + hp) with (dd_address dd + 1 * hp) by lia.
      rewrite Z.div_add by lia. lia.
    - apply Z.div_le_mono; lia. }
  destruct (R (dd_address dd / hp)) as (p & P1 & P2).
  { rewrite huge_page_count_eq by (unfold fits; lia). exact Hi. }
  exists p. split; [exact P1|].
  unfold descriptor_address, bind, gets. cbn. rewrite Ec. cbn. fold hp.
  destruct (Z.eqb_spec (db_data db) 0); [lia|]. destruct (Z.eqb_spec hp 0); [lia|].
  rewrite (wrap_id 64) by (unfold fits; lia).
  pose proof (Z.div_mod (dd_address dd) hp ltac:(lia)) as D.
  pose proof (Z.mod_pos_bound (dd_address dd) hp Hh) as B.
  replace ((dd_address dd + dd_length dd) / hp)
    with (dd_address dd / hp + (dd_address dd mod hp + dd_length dd) / hp).
  2: { rewrite <- Z.div_add_l by lia. f_equal. lia. }
  destruct (Z.ltb_spec (dd_address dd mod hp + dd_length dd) hp).
  - rewrite (Z.div_small (_ + _)) by lia. rewrite Z.add_0_r, Z.eqb_refl.
    assert (G : arr_get a (dd_address dd / hp) = Some (u64 (addr_of p))).
    { apply arr_get_Some. rewrite La. split; [lia | done]. }
    rewrite G. cbn. by rewrite wrap_add_l.
  - assert (1 <= (dd_address dd mod hp + dd_length dd) / hp) by (apply Z.div_le_lower_bound; lia).
    destruct (Z.eqb_spec (dd_address dd / hp + (dd_address dd mod hp + dd_length dd) / hp)
      (dd_address dd / hp)); [lia | done].
Qed.

(** Once a good buffer is registered, the offset of a descriptor that stays
    within one huge page (strictly before its end) is translated to the kernel
    address of the 4 KB page where its huge page starts, plus its offset in the
    huge page; and an offset whose last byte reaches the end of its huge page is
    refused.  Neither case fails or changes anything. *)
Theorem descriptor_address_registered db s0 s dd (k : K) :
  good_buffer db -> registered (addr_of := addr_of) db s0 s ->
  0 <= dd_address dd -> 0 <= dd_length dd -> dd_address dd < db_length db ->
  dd_address dd + dd_length dd < 2 ^ 64 ->
  let hp := db_hp_size db in
  exists p,
    g_pages (d_mem s) !! Z.to_nat (hp / PAGE_SIZE * (dd_address dd / hp)) = Some p /\
    descriptor_address dd s k =
      Res (Done (if dd_address dd mod hp + dd_length dd <? hp
                 then Some (u64 (addr_of p + dd_address dd mod hp)) else None)) s k [].
Proof. exact (descriptor_address_eq db s0 s dd k). Qed.

(** An offset past the 16 recorded huge pages is not refused: the handler
    reads outside the array of their addresses. *)
Theorem descriptor_address_unchecked dd s (k : K) :
  let b := c_buffer (d_card s) in
  length (m_page_address b) = 16%nat -> m_virtual b <> 0 -> 0 < m_page_size b ->
  u64 (dd_address dd + dd_length dd) / m_page_size b = dd_address dd / m_page_size b ->
  16 * m_page_size b <= dd_address dd ->
  descriptor_address dd s k = Res (Stop (Undefined OutOfBounds)) s k [].
Proof.
  intros b La Hv Hp Hc Hb. unfold descriptor_address, bind, gets. cbn. fold b.
  destruct (Z.eqb_spec (m_virtual b) 0); [done|]. destruct (Z.eqb_spec (m_page_size b) 0); [lia|].
  rewrite Hc, Z.eqb_refl. rewrite arr_get_out; [done|].
  rewrite La. assert (16 <= dd_address dd / m_page_size b) by (apply Z.div_le_lower_bound; lia).
  lia.
Qed.

(** When the first registration of a card fails after the page array was
    allocated, the card is left with a buffer whose page size is 0: every
    descriptor command that follows divides by zero. *)
Theorem failed_registration_divides db s pages (k k1 : K) :
  good_buffer db -> length (m_page_address (c_buffer (d_card s))) = 16%nat ->
  m_page_size (c_buffer (d_card s)) = 0 ->
  handle (K_vmalloc_pages (user_npages (db_data db) (db_length db))) k = (Some pages, k1) ->
  let r := reg_hugemem db s k in
  r_out r = Done (- EFAULT) -> forall dd,
  r_out (descriptor_address dd (r_st r) (r_k r)) = Stop (Undefined DivByZero).
Proof.
  intros Hg La Hz Hv r Hr dd.
  destruct (wp_reg_hugemem_failed (addr_of := addr_of) db s pages k k1 Hg La Hv Hr) as [E1 E2].
  fold r in E1, E2. unfold descriptor_address, bind, gets. cbn [r_out r_st r_k r_tr].
  rewrite E1, E2, Hz. destruct Hg as [Hd _].
  destruct (Z.eqb_spec (db_data db) 0); [lia|]. done.
Qed.

(** The answer depends on the buffer and the ring only. *)
Lemma descriptor_address_out dd s s' (k k' : K) :
  m_virtual (c_buffer (d_card s')) = m_virtual (c_buffer (d_card s)) ->
  m_page_size (c_buffer (d_card s')) = m_page_size (c_buffer (d_card s)) ->
  m_page_address (c_buffer (d_card s')) = m_page_address (c_buffer (d_card s)) ->
  c_mmap_info (d_card s') = c_mmap_info (d_card s) ->
  r_out (descriptor_address dd s' k') = r_out (descriptor_address dd s k).
Proof.
  intros W1 W2 W3 W4. unfold descriptor_address, bind, gets. cbn. rewrite W1, W2, W3, W4.
  destruct (m_virtual _ =? 0); [done|]. destruct (m_page_size _ =? 0); [done|].
  destruct (_ / _ =? _); [|done]. by destruct (arr_get _ _).
Qed.

(** Unregistering a buffer does not stop its use: the handler goes on
    translating descriptors with the addresses of the pages it gave back. *)
Theorem unregister_keeps_translating dd s (k : K) :
  0 <= g_num_pages (d_mem s) <= Z.of_nat (length (g_pages (d_mem s))) ->
  let r := unreg_hugemem s k in
  r_out (descriptor_address dd (r_st r) (r_k r)) = r_out (descriptor_address dd s k).
Proof.
  intros Hn r.
  enough (W : wp unreg_hugemem (fun _ s' _ _ =>
    m_virtual (c_buffer (d_card s')) = m_virtual (c_buffer (d_card s)) /\
    m_page_size (c_buffer (d_card s')) = m_page_size (c_buffer (d_card s)) /\
    m_page_address (c_buffer (d_card s')) = m_page_address (c_buffer (d_card s)) /\
    c_mmap_info (d_card s') = c_mmap_info (d_card s)) s k).
  { destruct W as (W1 & W2 & W3 & W4). by apply descriptor_address_out. }
  unfold unreg_hugemem. wp_steps. destruct (m_length (c_buffer (d_card s)) =? 0); wp_steps; [done|].
  eapply wp_mono; [by apply wp_forgetUserHugePages|].
  intros o s' k' t (-> & -> & _). by wp_steps.
Qed.
End Translation.

(** ** Commands that are refused *)

Section Refused.
Context {K : Type} `{!Handler kcall K} `{E : IocEncoding}.

(** The bytes a command takes from the user. *)
Definition argument_size (cmd : Z) : option Z :=
  if (cmd =? NFPIOC_READ_32) || (cmd =? NFPIOC_WRITE_32) then Some sizeof_reg32
  else if cmd =? NFPIOC_WINDOW_SIZE then Some sizeof_u64
  else if (cmd =? NFPIOC_WRITE_DMA_DESCRIPTOR) || (cmd =? NFPIOC_READ_DMA_DESCRIPTOR)
    then Some sizeof_dma_descriptor_sw
  else if cmd =? NFPIOC_REGISTER_BUFFER then Some sizeof_dma_buffer
  else None.

(** C38.  Commands of another driver, or above the last number, are refused before
    the semaphore is touched; a command whose argument cannot be read answers
    [-EFAULT] after giving the semaphore back, and reaches neither the card nor the
    state of the driver. *)
Theorem nfp_ioctl_refuses fuel cmd arg s (k : K) :
  (_IOC_TYPE cmd <> IOCTL_MAGIC_NUMBER \/ IOC_MAXNR < _IOC_NR cmd ->
   nfp_ioctl fuel cmd arg s k = Res (Done (- ENOTTY)) s k []) /\
  (forall n k1 k2,
   _IOC_TYPE cmd = IOCTL_MAGIC_NUMBER -> _IOC_NR cmd <= IOC_MAXNR ->
   argument_size cmd = Some n -> handle K_down_interruptible k = (0, k1) ->
   handle (K_copy_from_user arg n) k1 = (None, k2) ->
   nfp_ioctl fuel cmd arg s k =
     Res (Done (- EFAULT)) s (handle K_up k2).2
       [Ev K_down_interruptible 0; Ev (K_copy_from_user arg n) None; Ev K_up tt]).
Proof.
  unfold nfp_ioctl. split.
  - intros H. destruct (Z.eqb_spec (_IOC_TYPE cmd) IOCTL_MAGIC_NUMBER) as [E1|]; [|done].
    destruct (Z.ltb_spec IOC_MAXNR (_IOC_NR cmd)); [done|]. destruct H; [done | lia].
  - intros n k1 k2 -> Hn Ha Hd Hc. rewrite Z.eqb_refl.
    destruct (Z.ltb_spec IOC_MAXNR (_IOC_NR cmd)); [lia|]. cbn [negb].
    unfold fetch_argument. unfold argument_size in Ha. revert Ha.
    repeat match goal with |- context [if ?b then _ else _] => destruct b end;
      intros [= <-]; unfold fetch, bind, call; cbn; rewrite Hd; cbn; rewrite Hc; cbn;
      by destruct (handle K_up k2) as [[] ?].
Qed.
End Refused.

(** ** A descriptor, from the system call to the device *)

Definition no_map (e : event kcall) : Prop := map_request e = None.

Section EndToEnd.
Context {K : Type} `{!Handler kcall K}.

Lemma no_map_engine_write8 f v : emits (K := K) no_map (engine_write8 f v).
Proof. unfold engine_write8, dma_base. solve_emits. Qed.
Lemma no_map_descriptor_write8 j f v : emits (K := K) no_map (descriptor_write8 j f v).
Proof. unfold descriptor_write8, dma_base. solve_emits. Qed.
Lemma no_map_phy_store ga sa i v : emits (K := K) no_map (phy_store ga sa i v).
Proof. unfold phy_store. solve_emits. Qed.
Lemma no_map_phy_load ga i : emits (K := K) no_map (phy_load ga i).
Proof. unfold phy_load. solve_emits. Qed.
#[local] Hint Resolve no_map_engine_write8 no_map_descriptor_write8 no_map_phy_store
  no_map_phy_load : emits.
Lemma no_map_poll fuel a st : emits (K := K) no_map (poll_engine fuel a st).
Proof. induction fuel as [|fuel IH]; cbn [poll_engine]; solve_emits. Qed.
Lemma no_map_release i : emits (K := K) no_map (release_mapping i).
Proof. unfold release_mapping. solve_emits. Qed.
#[local] Hint Resolve no_map_poll no_map_release : emits.
Lemma no_map_run fuel dd : emits (K := K) no_map (run_engine fuel dd).
Proof. unfold run_engine, dma_base. solve_emits. Qed.

Definition no_copy (e : event kcall) : Prop := copied_out e = None.

Lemma no_copy_read dd : emits (K := K) no_copy (readDMADescriptor dd).
Proof. unfold readDMADescriptor, descriptor_read8, dma_base. solve_emits. Qed.
Lemma no_copy_poll fuel a st : emits (K := K) no_copy (poll_engine fuel a st).
Proof. induction fuel as [|fuel IH]; cbn [poll_engine]; solve_emits. Qed.
Lemma no_copy_release i : emits (K := K) no_copy (release_mapping i).
Proof. unfold release_mapping, phy_store, phy_load. solve_emits. Qed.
#[local] Hint Resolve no_copy_poll no_copy_release : emits.
Lemma no_copy_write fuel dd : emits (K := K) no_copy (writeDMADescriptor fuel dd).
Proof.
  unfold writeDMADescriptor, program_descriptor, run_engine, engine_write8, descriptor_write8,
    phy_store, phy_load, dma_base. solve_emits.
Qed.

Lemma wp_write_requests fuel dd s (k : K) :
  wp (writeDMADescriptor fuel dd) (fun _ _ _ t =>
    calls map_request t = [(dd_address dd, dd_buffer_size dd)]) s k.
Proof.
  unfold writeDMADescriptor, program_descriptor.
  wp_step. wp_step. wp_step.
  match goal with |- wp ?m _ _ _ => assert (E : emits (K := K) no_map m)
    by (unfold dma_base; solve_emits) end.
  eapply wp_mono; [by apply (wp_emits no_map)|].
  intros o s' k' t F. apply calls_none in F.
  destruct o; [|by rewrite calls_app, F].
  destruct (dd_enable dd =? 0).
  - apply wp_ret. by rewrite app_nil_r, calls_app, F.
  - wp_step. eapply wp_mono; [apply (wp_emits no_map), no_map_run|].
    intros o2 s2 k2 t2 F2. apply calls_none in F2.
    destruct o2; [apply wp_ret; rewrite app_nil_r|]; by rewrite !calls_app, F, F2.
Qed.
End EndToEnd.

Section Pipeline.
Context {K : Type} `{!Handler kcall K} {addr_of : Z -> Z} `{!PageLaws addr_of}.
Context `{E : IocEncoding} `{!IocLaws E}.

(** A registration lasts while the card and the pages stay the same. *)
Lemma registered_after db s0 s s' :
  registered (addr_of := addr_of) db s0 s -> d_card s' = d_card s -> d_mem s' = d_mem s ->
  registered (addr_of := addr_of) db (Driver (d_card s0) (d_dma s') (d_mem s0)) s'.
Proof. intros (a & R1 & R2 & _ & R4) E1 E2. exists a. by rewrite E1, E2. Qed.

Lemma with_address_ok a dd : fits 64 a -> dd_ok dd -> dd_ok (with_address a dd).
Proof. intros Ha (_ & Hd). split; [exact Ha | exact Hd]. Qed.

Lemma write_cmd_guards :
  negb (_IOC_TYPE NFPIOC_WRITE_DMA_DESCRIPTOR =? IOCTL_MAGIC_NUMBER) = false /\
  (IOC_MAXNR <? _IOC_NR NFPIOC_WRITE_DMA_DESCRIPTOR) = false.
Proof.
  destruct (ioc_ior 57 3 104 ltac:(lia) ltac:(lia) ltac:(lia)) as [T N].
  unfold NFPIOC_WRITE_DMA_DESCRIPTOR, IOCTL_MAGIC_NUMBER, sizeof_dma_descriptor_sw.
  by rewrite T, N.
Qed.

(** Writing a descriptor is [writeDMADescriptor] on the translated descriptor, in the
    kernel once the argument is copied. *)
Lemma nfp_ioctl_write_is fuel arg s (k k1 k2 : K) bs o :
  handle K_down_interruptible k = (0, k1) ->
  handle (K_copy_from_user arg sizeof_dma_descriptor_sw) k1 = (Some bs, k2) ->
  let dd := decode_dma_descriptor_sw bs in
  descriptor_address dd s k2 = Res (Done o) s k2 [] ->
  let r := nfp_ioctl fuel NFPIOC_WRITE_DMA_DESCRIPTOR arg s k in
  match o with
  | None =>
      r_out r = Done 0 /\ r_st r = s /\ calls mmio_write (r_tr r) = [] /\
      calls map_request (r_tr r) = []
  | Some a =>
      let w := writeDMADescriptor fuel (with_address a dd) s k2 in
      r_out r = match r_out w with Done _ => Done 0 | Stop h => Stop h end /\
      r_st r = r_st w /\
      calls mmio_write (r_tr r) = calls mmio_write (r_tr w) /\
      calls dma_map (r_tr r) = calls dma_map (r_tr w) /\
      calls map_request (r_tr r) = calls map_request (r_tr w) /\
      calls copied_out (r_tr r) = [] /\
      r_k r = match r_out w with Done _ => (handle K_up (r_k w)).2 | Stop _ => r_k w end
  end.
Proof.
  intros Hd Hc dd P r.
  pattern (r_out r), (r_st r), (r_k r), (r_tr r).
  match goal with |- ?Q _ _ _ _ =>
    cut (wp (nfp_ioctl fuel NFPIOC_WRITE_DMA_DESCRIPTOR arg) Q s k); [exact (fun W => W)|]
  end. cbv beta. clear r.
  unfold nfp_ioctl. destruct write_cmd_guards as [-> ->].
  destruct cmd_numbers as (N1 & N2 & N3 & N4 & N5 & N6 & N7).
  wp_steps. rewrite Hd in Hans. injection Hans as <- <-. cbn [Z.eqb negb].
  unfold fetch_argument, fetch. rewrite !cmd_neq by lia. rewrite Z.eqb_refl. cbn [orb].
  wp_steps. rewrite Hc in Hans. injection Hans as <- <-. wp_steps.
  unfold dispatch. rewrite !cmd_neq by lia. rewrite Z.eqb_refl. fold dd.
  wp_step. unfold wp at 1. rewrite P. cbn [r_out r_st r_k r_tr].
  destruct o as [a|]; wp_steps; [|by unit_answers].
  unfold wp at 1. pose proof (no_copy_write fuel (with_address a dd) s k2) as F.
  apply calls_none in F.
  destruct (writeDMADescriptor fuel (with_address a dd) s k2) as [[v|h] s' k' t];
    cbn [r_out r_st r_k r_tr] in *; wp_steps; rewrite !calls_app, F, ?app_nil_r; unit_answers;
    rewrite ?Hans; done.
Qed.

Lemma nfp_ioctl_write_run fuel arg db s0 s (k k1 k2 : K) bs :
  handle K_down_interruptible k = (0, k1) ->
  handle (K_copy_from_user arg sizeof_dma_descriptor_sw) k1 = (Some bs, k2) ->
  good_buffer db -> registered (addr_of := addr_of) db s0 s -> dma_wf (d_dma s) ->
  let dd := decode_dma_descriptor_sw bs in
  in_range (dd_index dd) -> 0 <= dd_address dd < db_length db -> 0 <= dd_length dd ->
  dd_address dd + dd_length dd < 2 ^ 64 ->
  let hp := db_hp_size db in
  let r := nfp_ioctl fuel NFPIOC_WRITE_DMA_DESCRIPTOR arg s k in
  if dd_address dd mod hp + dd_length dd <? hp then
    exists p pa dd',
      g_pages (d_mem s) !! Z.to_nat (hp / PAGE_SIZE * (dd_address dd / hp)) = Some p /\
      dd' = with_address (u64 (addr_of p + dd_address dd mod hp)) dd /\
      calls map_request (r_tr r) = [(dd_address dd', dd_buffer_size dd)] /\
      calls dma_map (r_tr r) = [(pa, dd_buffer_size dd)] /\
      calls mmio_write (r_tr r) =
        descriptor_stores (c_dma (d_card s)) dd' pa (g_ldescriptor (d_dma s)) ++
        (if dd_enable dd =? 0 then [] else start_store (c_dma (d_card s)) dd') /\
      (r_out r = Done 0 \/ r_out r = Stop NoFuel)
  else
    r_out r = Done 0 /\ r_st r = s /\ calls mmio_write (r_tr r) = [] /\
    calls map_request (r_tr r) = [].
Proof.
  intros Hd Hc Hg Hr Hwf dd Hj Ha Hl Hw hp r.
  destruct (descriptor_address_eq db s0 s dd k2 Hg Hr ltac:(lia) Hl ltac:(lia) Hw)
    as (p & P1 & P2). fold hp in P1, P2.
  pose proof (nfp_ioctl_write_is fuel arg s k k1 k2 bs _ Hd Hc P2) as I. cbv zeta in I.
  fold dd in I. fold r in I.
  destruct (dd_address dd mod hp + dd_length dd <? hp); [|done].
  set (dd' := with_address (u64 (addr_of p + dd_address dd mod hp)) dd) in *.
  destruct I as (Io & _ & Iw & Im & Iq & _).
  pose proof (wp_and _ _ _ _ _ (wp_writeDMADescriptor fuel dd' s k2 Hwf Hj)
    (wp_write_requests fuel dd' s k2)) as W. unfold wp in W. rewrite Io, Iw, Im, Iq.
  destruct W as [(pa & -> & W) ->]. change (dd_enable dd') with (dd_enable dd) in W.
  exists p, pa, dd'. split; [exact P1|]. do 3 (split; [done|]).
  destruct (dd_enable dd =? 0);
    [destruct W as (-> & _ & -> & _) | destruct W as (-> & st & e & [(-> & _) | (-> & _)])];
    rewrite ?app_nil_r; auto.
Qed.

(** C22.  The whole path of a descriptor, from the system call to the device, with a
    registered buffer: the mapping asked of the kernel starts at the kernel
    address of the offset in the buffer and has the size the descriptor gives
    (the whole window, not what is left of the huge page), and the registers get
    the descriptor with the bus address of that mapping.  An offset whose range
    reaches the end of its huge page programs nothing, but the call still
    answers 0. *)
Theorem nfp_ioctl_write_descriptor fuel arg db s0 s (k k1 k2 : K) bs :
  handle K_down_interruptible k = (0, k1) ->
  handle (K_copy_from_user arg sizeof_dma_descriptor_sw) k1 = (Some bs, k2) ->
  good_buffer db -> registered (addr_of := addr_of) db s0 s -> dma_wf (d_dma s) ->
  let dd := decode_dma_descriptor_sw bs in
  in_range (dd_index dd) -> 0 <= dd_address dd < db_length db -> 0 <= dd_length dd ->
  dd_address dd + dd_length dd < 2 ^ 64 ->
  let hp := db_hp_size db in
  let r := nfp_ioctl fuel NFPIOC_WRITE_DMA_DESCRIPTOR arg s k in
  if dd_address dd mod hp + dd_length dd <? hp then
    exists p pa dd',
      g_pages (d_mem s) !! Z.to_nat (hp / PAGE_SIZE * (dd_address dd / hp)) = Some p /\
      dd' = with_address (u64 (addr_of p + dd_address dd mod hp)) dd /\
      calls map_request (r_tr r) = [(dd_address dd', dd_buffer_size dd)] /\
      calls dma_map (r_tr r) = [(pa, dd_buffer_size dd)] /\
      calls mmio_write (r_tr r) =
        descriptor_stores (c_dma (d_card s)) dd' pa (g_ldescriptor (d_dma s)) ++
        (if dd_enable dd =? 0 then [] else start_store (c_dma (d_card s)) dd') /\
      (r_out r = Done 0 \/ r_out r = Stop NoFuel)
  else
    r_out r = Done 0 /\ r_st r = s /\ calls mmio_write (r_tr r) = [] /\
    calls map_request (r_tr r) = [].
Proof. exact (nfp_ioctl_write_run fuel arg db s0 s k k1 k2 bs). Qed.

Lemma read_cmd_guards :
  negb (_IOC_TYPE NFPIOC_READ_DMA_DESCRIPTOR =? IOCTL_MAGIC_NUMBER) = false /\
  (IOC_MAXNR <? _IOC_NR NFPIOC_READ_DMA_DESCRIPTOR) = false.
Proof.
  destruct (ioc_iowr 57 4 104 ltac:(lia) ltac:(lia) ltac:(lia)) as [T N].
  unfold NFPIOC_READ_DMA_DESCRIPTOR, IOCTL_MAGIC_NUMBER, sizeof_dma_descriptor_sw.
  by rewrite T, N.
Qed.

(** Reading a descriptor is [readDMADescriptor] on the translated descriptor. *)
Lemma nfp_ioctl_read_is fuel arg s (k k1 k2 : K) bs o :
  handle K_down_interruptible k = (0, k1) ->
  handle (K_copy_from_user arg sizeof_dma_descriptor_sw) k1 = (Some bs, k2) ->
  let dd := decode_dma_descriptor_sw bs in
  descriptor_address dd s k2 = Res (Done o) s k2 [] ->
  let r := nfp_ioctl fuel NFPIOC_READ_DMA_DESCRIPTOR arg s k in
  r_out r = Done 0 /\ r_st r = s /\ calls mmio_write (r_tr r) = [] /\
  match o with
  | None => calls mmio_read (r_tr r) = [] /\ calls copied_out (r_tr r) = []
  | Some a =>
      let q := readDMADescriptor (with_address a dd) s k2 in
      calls mmio_read (r_tr r) = calls mmio_read (r_tr q) /\
      calls read_answer (r_tr r) = calls read_answer (r_tr q) /\
      calls copied_out (r_tr r) = [(arg, encode_dma_descriptor_sw
        (with_status (calls read_answer (r_tr q)) (with_address a dd)))]
  end.
Proof.
  intros Hd Hc dd P r.
  as_wp r (nfp_ioctl fuel NFPIOC_READ_DMA_DESCRIPTOR arg) s k.
  unfold nfp_ioctl. destruct read_cmd_guards as [-> ->].
  destruct cmd_numbers as (N1 & N2 & N3 & N4 & N5 & N6 & N7).
  wp_steps. rewrite Hd in Hans. injection Hans as <- <-. cbn [Z.eqb negb].
  unfold fetch_argument, fetch. rewrite !(cmd_neq NFPIOC_READ_DMA_DESCRIPTOR) by lia.
  rewrite Z.eqb_refl. cbn [orb].
  wp_steps. rewrite Hc in Hans. injection Hans as <- <-. wp_steps.
  unfold dispatch. rewrite !(cmd_neq NFPIOC_READ_DMA_DESCRIPTOR) by lia. rewrite Z.eqb_refl. fold dd.
  wp_step. unfold wp at 1. rewrite P. cbn [r_out r_st r_k r_tr].
  destruct o as [a|]; wp_steps; [|by unit_answers].
  unfold wp at 1. pose proof (wp_readDMADescriptor (with_address a dd) s k2) as W. unfold wp in W.
  pose proof (no_copy_read (with_address a dd) s k2) as F. apply calls_none in F.
  destruct (readDMADescriptor (with_address a dd) s k2) as [o s' k' t]; cbn [r_out r_st r_k r_tr] in *.
  destruct W as (-> & -> & Hw & _). wp_steps. unit_answers.
  rewrite !calls_app, Hw, F, ?app_nil_r. done.
Qed.

Lemma nfp_ioctl_read_run fuel arg db s0 s (k k1 k2 : K) bs :
  handle K_down_interruptible k = (0, k1) ->
  handle (K_copy_from_user arg sizeof_dma_descriptor_sw) k1 = (Some bs, k2) ->
  good_buffer db -> registered (addr_of := addr_of) db s0 s ->
  let dd := decode_dma_descriptor_sw bs in
  0 <= dd_address dd < db_length db -> 0 <= dd_length dd ->
  dd_address dd + dd_length dd < 2 ^ 64 ->
  let hp := db_hp_size db in
  let r := nfp_ioctl fuel NFPIOC_READ_DMA_DESCRIPTOR arg s k in
  r_out r = Done 0 /\ r_st r = s /\ calls mmio_write (r_tr r) = [] /\
  if dd_address dd mod hp + dd_length dd <? hp then
    calls mmio_read (r_tr r) =
      (fun f => (c_dma (d_card s) + descriptor_off (dd_index dd) f, 8)) <$> status_members /\
    exists p l,
      g_pages (d_mem s) !! Z.to_nat (hp / PAGE_SIZE * (dd_address dd / hp)) = Some p /\
      calls read_answer (r_tr r) = l /\
      calls copied_out (r_tr r) = [(arg, encode_dma_descriptor_sw
        (with_status l (with_address (u64 (addr_of p + dd_address dd mod hp)) dd)))]
  else calls mmio_read (r_tr r) = [] /\ calls copied_out (r_tr r) = [].
Proof.
  intros Hd Hc Hg Hr dd Ha Hl Hw hp r.
  destruct (descriptor_address_eq db s0 s dd k2 Hg Hr ltac:(lia) Hl ltac:(lia) Hw)
    as (p & P1 & P2). fold hp in P1, P2.
  pose proof (nfp_ioctl_read_is fuel arg s k k1 k2 bs _ Hd Hc P2) as I. cbv zeta in I.
  fold dd in I. fold r in I. destruct I as (I1 & I2 & I3 & I).
  split; [exact I1|]. split; [exact I2|]. split; [exact I3|].
  destruct (dd_address dd mod hp + dd_length dd <? hp); [|done].
  destruct I as (Im & Ia & Ic). pose proof (wp_readDMADescriptor
    (with_address (u64 (addr_of p + dd_address dd mod hp)) dd) s k2) as (_ & _ & _ & W).
  split; [by rewrite Im|]. exists p. eexists. split; [exact P1|]. split; [exact Ia | exact Ic].
Qed.

(** C24.  Reading a descriptor with a registered buffer: the five status registers of its
    index are read and nothing is written to the device; the user is handed, once, the
    descriptor with those five answers, the address replaced by the kernel's and the
    rest as it was; the driver is unchanged and the call answers 0, even if the copy to
    the user failed.  An address whose range reaches the end of its huge page reads and
    copies nothing, and the call answers 0 too. *)
Theorem nfp_ioctl_read_descriptor fuel arg db s0 s (k k1 k2 : K) bs :
  handle K_down_interruptible k = (0, k1) ->
  handle (K_copy_from_user arg sizeof_dma_descriptor_sw) k1 = (Some bs, k2) ->
  good_buffer db -> registered (addr_of := addr_of) db s0 s ->
  let dd := decode_dma_descriptor_sw bs in
  0 <= dd_address dd < db_length db -> 0 <= dd_length dd ->
  dd_address dd + dd_length dd < 2 ^ 64 ->
  let hp := db_hp_size db in
  let r := nfp_ioctl fuel NFPIOC_READ_DMA_DESCRIPTOR arg s k in
  r_out r = Done 0 /\ r_st r = s /\ calls mmio_write (r_tr r) = [] /\
  if dd_address dd mod hp + dd_length dd <? hp then
    calls mmio_read (r_tr r) =
      (fun f => (c_dma (d_card s) + descriptor_off (dd_index dd) f, 8)) <$> status_members /\
    exists p l,
      g_pages (d_mem s) !! Z.to_nat (hp / PAGE_SIZE * (dd_address dd / hp)) = Some p /\
      calls read_answer (r_tr r) = l /\
      calls copied_out (r_tr r) = [(arg, encode_dma_descriptor_sw
        (with_status l (with_address (u64 (addr_of p + dd_address dd mod hp)) dd)))]
  else calls mmio_read (r_tr r) = [] /\ calls copied_out (r_tr r) = [].
Proof. exact (nfp_ioctl_read_run fuel arg db s0 s k k1 k2 bs). Qed.
End Pipeline.

(** ** Witnesses *)

(** User memory with an object at an address, on the concrete kernel. *)
Definition sim_with (p : Z) (bs : list Z) : sim :=
  Sim 0 1 (write_bytes ∅ p bs) ∅ ∅ 3 0 NoFailure.

Definition sim_after {X} (c : kcall X) (k : sim) : sim := (handle c k).2.

Definition example_offset : dma_descriptor_sw :=
  DmaDescriptorSw 8256 20480 512 1 0 1 0 3 0 262144 0 8 64 0 0 0 0 7.

Definition sim_offset : sim := sim_with 4096 (encode_dma_descriptor_sw example_offset).
Definition sim_buffer : sim := sim_with 4096 (encode_dma_buffer example_buffer).

Lemma nfp_ioctl_semaphore_witness :
  calls sem_action
    (r_tr (nfp_ioctl 10 NFPIOC_WRITE_DMA_DESCRIPTOR 4096 example_registered sim_offset)) =
  [Took; Gave].
Proof.
  apply (nfp_ioctl_semaphore 10 NFPIOC_WRITE_DMA_DESCRIPTOR 4096 example_registered sim_offset 0).
  - vm_compute. reflexivity.
  - vm_compute. done.
Defined.

Lemma nfp_ioctl_register_witness :
  r_out (nfp_ioctl 10 NFPIOC_REGISTER_BUFFER 4096 driver_init sim_buffer) = Done 0.
Proof.
  apply (nfp_ioctl_register (addr_of := sim_addr) 10 4096 driver_init sim_buffer
    (sim_after K_down_interruptible sim_buffer)
    (sim_after (K_copy_from_user 4096 sizeof_dma_buffer) (sim_after K_down_interruptible sim_buffer))
    (encode_dma_buffer example_buffer)).
  - vm_compute. reflexivity.
  - vm_compute. reflexivity.
  - exact example_buffer_good.
  - reflexivity.
Defined.

Lemma nfp_ioctl_write_descriptor_witness :
  calls map_request
    (r_tr (nfp_ioctl 10 NFPIOC_WRITE_DMA_DESCRIPTOR 4096 example_registered sim_offset)) =
  [(2 ^ 46 + 2 ^ 30 + 8256, 20480)].
Proof.
  destruct (nfp_ioctl_write_descriptor (addr_of := sim_addr) 10 4096 example_buffer driver_init
    example_registered sim_offset
    (sim_after K_down_interruptible sim_offset)
    (sim_after (K_copy_from_user 4096 sizeof_dma_descriptor_sw)
      (sim_after K_down_interruptible sim_offset))
    (encode_dma_descriptor_sw example_offset)) as (p & pa & dd' & P & -> & Q & _).
  - vm_compute. reflexivity.
  - vm_compute. reflexivity.
  - exact example_buffer_good.
  - exact example_registered_ok.
  - exact dma_globals_init_wf.
  - vm_compute. done.
  - vm_compute. done.
  - vm_compute. done.
  - vm_compute. done.
  - rewrite Q. vm_compute in P. injection P as <-. vm_compute. reflexivity.
Defined.

Lemma descriptor_address_registered_witness :
  exists p, descriptor_address example_offset example_registered sim_init =
    Res (Done (Some (u64 (sim_addr p + 64)))) example_registered sim_init [].
Proof.
  destruct (descriptor_address_registered (addr_of := sim_addr) example_buffer driver_init
    example_registered example_offset sim_init) as (p & _ & E).
  - exact example_buffer_good.
  - exact example_registered_ok.
  - by vm_compute.
  - by vm_compute.
  - by vm_compute.
  - by vm_compute.
  - exists p. exact E.
Defined.

Lemma descriptor_address_unchecked_witness :
  r_out (descriptor_address (DmaDescriptorSw 131072 0 512 0 0 1 0 0 0 1 0 0 0 0 0 0 0 0)
    example_registered sim_init) = Stop (Undefined OutOfBounds).
Proof.
  rewrite (descriptor_address_unchecked _ example_registered sim_init).
  - reflexivity.
  - reflexivity.
  - by vm_compute.
  - by vm_compute.
  - by vm_compute.
  - by vm_compute.
Defined.

Definition sim_pin_fails : sim := sim_failing FailGetUserPages.

Lemma failed_registration_divides_witness :
  let r := reg_hugemem example_buffer driver_init sim_pin_fails in
  r_out (descriptor_address example_offset (r_st r) (r_k r)) = Stop (Undefined DivByZero).
Proof.
  apply (failed_registration_divides (addr_of := sim_addr) example_buffer driver_init
    (replicate 5 0) sim_pin_fails
    (sim_after (K_vmalloc_pages (user_npages (2 ^ 30) 20480)) sim_pin_fails)).
  - exact example_buffer_good.
  - reflexivity.
  - reflexivity.
  - vm_compute. reflexivity.
  - vm_compute. reflexivity.
Defined.

Lemma unregister_keeps_translating_witness :
  let r := unreg_hugemem example_registered sim_init in
  r_out (descriptor_address example_offset (r_st r) (r_k r)) =
  r_out (descriptor_address example_offset example_registered sim_init).
Proof. apply unregister_keeps_translating. by vm_compute. Defined.

Lemma nfp_ioctl_refuses_witness :
  nfp_ioctl 10 21505 0 driver_init sim_init = Res (Done (- ENOTTY)) driver_init sim_init [].
Proof.
  apply (nfp_ioctl_refuses 10 21505 0 driver_init sim_init). left. vm_compute. done.
Defined.

Lemma nfp_ioctl_read_descriptor_witness :
  calls mmio_read
    (r_tr (nfp_ioctl 10 NFPIOC_READ_DMA_DESCRIPTOR 4096 example_registered sim_offset)) =
  (fun f => (c_dma (d_card example_registered) + descriptor_off 7 f, 8)) <$> status_members.
Proof.
  destruct (nfp_ioctl_read_descriptor (addr_of := sim_addr) 10 4096 example_buffer driver_init
    example_registered sim_offset
    (sim_after K_down_interruptible sim_offset)
    (sim_after (K_copy_from_user 4096 sizeof_dma_descriptor_sw)
      (sim_after K_down_interruptible sim_offset))
    (encode_dma_descriptor_sw example_offset)) as (_ & _ & _ & M & _).
  - vm_compute. reflexivity.
  - vm_compute. reflexivity.
  - exact example_buffer_good.
  - exact example_registered_ok.
  - vm_compute. done.
  - vm_compute. done.
  - vm_compute. done.
  - exact M.
Defined.
