(* ===== verification/MmapRing.v ===== *)
(** * The ring of the mmap buffer (HOST/driver/nfpioctl.c, lines 221 to 282)

    The driver owns a buffer of [MAX_PAGES] pages.  [mmap] hands out the pages that
    follow [mmap_info.last], [close] advances [mmap_info.first]: the specification
    below is a bounded queue of page counts, which the code implements as long as
    mappings are closed in the order they were made. *)

From S2P Require Import Prelude Eff IoctlCommands NfpTypes Kernel SimKernel NfpDma NfpMem NfpIoctl.
From Stdlib Require Import ZArith Lia.
From stdpp Require Import base list.
Local Open Scope Z_scope.
Local Open Scope eff_scope.

(** The fields of [struct vm_area_struct] the code reads. *)
Record vm_area := VmArea { vm_start : Z; vm_end : Z }.

Definition vma_size (vma : vm_area) : Z := u64 (vm_end vma - vm_start vma).

(** [int npages], lines 226 and 227, and 245 and 253; the kernel is compiled with
    wrapping signed arithmetic. *)
Definition vma_npages (vma : vm_area) : Z :=
  let npages := s32 (vma_size vma / PAGE_SIZE) in
  if u64 (npages * PAGE_SIZE) =? vma_size vma then npages else s32 (npages + 1).

(** The loop of lines 256 to 260, from index [i]: it met [first]. *)
Fixpoint no_free_elements (n : nat) (i last first : Z) : bool :=
  match n with
  | O => false
  | S n' =>
      if Z.rem (s32 (last + i + 1)) MAX_PAGES =? first then true
      else no_free_elements n' (i + 1) last first
  end.

Section Ring.
Context {K : Type} `{!Handler kcall K}.

Definition mmap_close (vma : vm_area) : KM K unit :=
  let npages := vma_npages vma in
  let* mi := gets (fun d => c_mmap_info (d_card d)) in
  if mi_first mi =? mi_last mi then modify (set_card (set_mmap_info (set_active 0)))
  else modify (set_card (set_mmap_info
    (set_first (Z.rem (s32 (mi_first mi + npages)) MAX_PAGES)))).

(** What the kernel calls for the areas of the driver. *)
Record vm_operations_struct := VmOperations { vm_close : vm_area -> KM K unit }.
Definition mmap_vm_ops : vm_operations_struct := VmOperations mmap_close.

Definition mmap_kmem (vma : vm_area) : KM K Z :=
  let npages := vma_npages vma in
  let* mi := gets (fun d => c_mmap_info (d_card d)) in
  if no_free_elements (Z.to_nat npages) 0 (mi_last mi) (mi_first mi) then ret (- EAGAIN)
  else
    let p := u64 (mi_page_list mi + PAGE_SIZE * mi_last mi) in
    let* phys := call (K_virt_to_phys p) in
    let* r := call (K_remap_pfn_range (vm_start vma) (Z.shiftr (u64 phys) PAGE_SHIFT) (vma_size vma)) in
    if s32 r <? 0 then ret (- EAGAIN)
    else
      do* modify (set_card (set_mmap_info (fun m =>
        set_active 1 (set_last (Z.rem (s32 (mi_last mi + npages)) MAX_PAGES) m)))) in
      ret (s32 r).

Definition nfp_mmap (vma : vm_area) : KM K Z := mmap_kmem vma.
End Ring.

(** ** The queue of mappings *)

Definition total (q : list Z) : Z := foldr Z.add 0 q.
#[global] Arguments total : simpl never.

Lemma total_app q q' : total (q ++ q') = total q + total q'.
Proof. unfold total. induction q as [|n q IH]; cbn; lia. Qed.

(** The mappings alive, oldest first, as page counts, and the page of the buffer
    where the oldest starts. *)
Record queue := Queue { q_head : Z; q_counts : list Z }.

(** What a client sees: a mapping of [n] pages, the page it starts at, whether the
    kernel refused to map it, and the result; a mapping of [n] pages closed. *)
Inductive label := LMap (n : Z) (start : option Z) (refused : bool) (result : Z) | LClose (n : Z).

(** At most [MAX_PAGES - 1] pages are handed out; each mapping starts where the one
    before it ends; mappings are closed in the order they were made. *)
Inductive queue_step : queue -> label -> queue -> Prop :=
| QMap h q n r :
    total q + n <= MAX_PAGES - 1 -> 0 <= r ->
    queue_step (Queue h q) (LMap n (Some ((h + total q) mod MAX_PAGES)) false r)
      (Queue h (q ++ [n]))
| QFull h q n :
    MAX_PAGES - 1 < total q + n ->
    queue_step (Queue h q) (LMap n None false (- EAGAIN)) (Queue h q)
| QRefused h q n :
    total q + n <= MAX_PAGES - 1 ->
    queue_step (Queue h q) (LMap n (Some ((h + total q) mod MAX_PAGES)) true (- EAGAIN))
      (Queue h q)
| QClose h q n :
    queue_step (Queue h (n :: q)) (LClose n) (Queue ((h + n) mod MAX_PAGES) q).

(** ** Page counts *)

(** An area the kernel can make: whole pages of the user half of the address space. *)
Definition area_ok (vma : vm_area) : Prop :=
  0 <= vm_start vma /\ vm_start vma < vm_end vma /\ vm_end vma <= 2 ^ 47 /\
  vm_end vma - vm_start vma <= 2 ^ 41.

Lemma vma_npages_eq vma :
  area_ok vma -> vma_npages vma = (vm_end vma - vm_start vma + 4095) / PAGE_SIZE.
Proof.
  intros (H0 & H1 & H2 & H3). unfold vma_npages, vma_size, PAGE_SIZE.
  rewrite (wrap_id 64 (_ - _)) by (unfold fits; lia).
  set (n := vm_end vma - vm_start vma) in *.
  assert (Hn : 0 < n <= 2 ^ 41) by (unfold n; lia). clearbody n.
  pose proof (Z.div_mod n 4096 ltac:(lia)) as D. pose proof (Z.mod_pos_bound n 4096 ltac:(lia)) as B.
  set (q := n / 4096) in *. assert (Q : 0 <= q <= 2 ^ 30) by lia.
  rewrite (swrap_id 32 q) by lia. rewrite (wrap_id 64 _) by (unfold fits; lia).
  destruct (Z.eqb_spec (q * 4096) n) as [E | E].
  - apply (Z.div_unique_pos _ _ _ 4095); lia.
  - rewrite swrap_id by lia. apply (Z.div_unique_pos _ _ _ (n mod 4096 - 1)); lia.
Qed.

Lemma vma_npages_range vma : area_ok vma -> 1 <= vma_npages vma <= 2 ^ 29.
Proof.
  intros H. rewrite vma_npages_eq by done. destruct H as (H0 & H1 & H2 & H3).
  unfold PAGE_SIZE. Z.to_euclidean_division_equations; lia.
Qed.

(** The loop answers whether one of the [n] slots after [last] is [first]. *)
Lemma no_free_elements_spec n i last first :
  0 <= i -> i + Z.of_nat n <= 2 ^ 30 -> 0 <= last < MAX_PAGES ->
  no_free_elements n i last first = true <->
  exists j, i <= j < i + Z.of_nat n /\ (last + j + 1) mod MAX_PAGES = first.
Proof.
  intros Hi Hn Hl. unfold MAX_PAGES in *. revert i Hi Hn.
  induction n as [|n IH]; intros i Hi Hn; cbn [no_free_elements].
  - split; [done | intros (j & Hj & _); lia].
  - rewrite swrap_id by lia. unfold MAX_PAGES at 1.
    rewrite Z.rem_mod_nonneg by lia. destruct (Z.eqb_spec ((last + i + 1) mod 1024) first) as [E | E].
    + split; [|done]. intros _. exists i. split; [lia | done].
    + rewrite IH by lia. split; intros (j & Hj & F); exists j; (split; [|done]).
      * lia.
      * assert (j <> i) by congruence. lia.
Qed.

(** ** The code implements the queue *)

Section Refinement.
Context {K : Type} `{!Handler kcall K}.

(** The ring holds the queue [q]. *)
Definition ring (qu : queue) (mi : mmap_info) : Prop :=
  let q := q_counts qu in
  mi_first mi = q_head qu /\ 0 <= mi_first mi < MAX_PAGES /\ mi_last mi = (mi_first mi + total q) mod MAX_PAGES /\
  total q <= MAX_PAGES - 1 /\ Forall (fun n => 1 <= n) q.

Lemma total_nonneg q : Forall (fun n => 1 <= n) q -> 0 <= total q.
Proof. unfold total. induction 1; cbn; lia. Qed.

(** No free element exactly when the queue has no room. *)
Lemma ring_full h q mi n :
  ring (Queue h q) mi -> 1 <= n <= 2 ^ 29 ->
  no_free_elements (Z.to_nat n) 0 (mi_last mi) (mi_first mi) = (MAX_PAGES - 1 <? total q + n).
Proof.
  intros (_ & F & L & T & P) Hn. cbn [q_counts] in *. pose proof (total_nonneg q P) as T0.
  assert (HL : 0 <= mi_last mi < MAX_PAGES) by (rewrite L; apply Z.mod_pos_bound; done).
  apply eq_bool_prop_intro. rewrite !Is_true_true.
  rewrite no_free_elements_spec by lia. rewrite Z.ltb_lt.
  assert (Slot : forall j, 0 <= j < MAX_PAGES ->
    (mi_last mi + j + 1) mod MAX_PAGES = mi_first mi <-> j = MAX_PAGES - 1 - total q).
  { intros j Hj. rewrite L. unfold MAX_PAGES in *.
    replace ((mi_first mi + total q) mod 1024 + j + 1)
      with ((mi_first mi + total q) mod 1024 + (j + 1)) by lia.
    rewrite Zplus_mod_idemp_l. split.
    - intros E. Z.to_euclidean_division_equations; lia.
    - intros ->. replace (mi_first mi + total q + (1024 - 1 - total q + 1))
        with (mi_first mi + 1 * 1024) by lia.
      rewrite Z.mod_add by lia. by apply Z.mod_small. }
  split.
  - intros (j & Hj & E). destruct (Z.lt_ge_cases j MAX_PAGES); [|lia].
    apply Slot in E; lia.
  - intros H. exists (MAX_PAGES - 1 - total q). split; [lia|]. apply Slot; lia.
Qed.

(** The address whose pages are mapped, and the answer of [remap_pfn_range]. *)
Definition mapped_at (e : event kcall) : option Z :=
  match e with Ev (K_virt_to_phys p) _ => Some p | _ => None end.
Definition remap_refused (e : event kcall) : bool :=
  match e with Ev (K_remap_pfn_range _ _ _) r => s32 r <? 0 | _ => false end.

(** A step of the driver: the areas open are kept in the order they were made. *)
Inductive ring_step : driver * K * list vm_area -> label -> driver * K * list vm_area -> Prop :=
| RMap s k areas vma at_ r s' k' t :
    area_ok vma -> mmap_kmem vma s k = Res (Done r) s' k' t ->
    calls mapped_at t =
      (fun p => u64 (mi_page_list (c_mmap_info (d_card s)) + PAGE_SIZE * p)) <$> option_list at_ ->
    (forall p, at_ = Some p -> 0 <= p < MAX_PAGES) ->
    ring_step (s, k, areas) (LMap (vma_npages vma) at_ (existsb remap_refused t) r)
      (s', k', if r <? 0 then areas else areas ++ [vma])
| RClose s k areas vma s' k' t :
    area_ok vma -> mmap_close vma s k = Res (Done tt) s' k' t ->
    ring_step (s, k, vma :: areas) (LClose (vma_npages vma)) (s', k', areas).

Definition ring_inv (qu : queue) (c : driver * K * list vm_area) : Prop :=
  ring qu (c_mmap_info (d_card c.1.1)) /\ q_counts qu = vma_npages <$> c.2 /\
  0 <= mi_page_list (c_mmap_info (d_card c.1.1)) < 2 ^ 63.
End Refinement.

Section Simulation.
Context {K : Type} `{!Handler kcall K}.

Lemma mmap_kmem_full h q vma s (k : K) :
  ring (Queue h q) (c_mmap_info (d_card s)) -> area_ok vma ->
  MAX_PAGES - 1 < total q + vma_npages vma ->
  mmap_kmem vma s k = Res (Done (- EAGAIN)) s k [].
Proof.
  intros R A H. unfold mmap_kmem, bind, gets. cbn.
  rewrite (ring_full h q) by (done || by apply vma_npages_range).
  by destruct (Z.ltb_spec (MAX_PAGES - 1) (total q + vma_npages vma)); [|lia].
Qed.

Lemma wp_mmap_kmem h q vma s (k : K) :
  ring (Queue h q) (c_mmap_info (d_card s)) -> area_ok vma ->
  total q + vma_npages vma <= MAX_PAGES - 1 ->
  wp (mmap_kmem vma) (fun o s' _ t => exists r,
    let mi := c_mmap_info (d_card s) in
    calls mapped_at t = [u64 (mi_page_list mi + PAGE_SIZE * mi_last mi)] /\
    existsb remap_refused t = (r <? 0) /\
    if r <? 0 then o = Done (- EAGAIN) /\ s' = s
    else o = Done r /\ s' = set_card (set_mmap_info (fun m => set_active 1
      (set_last ((mi_last mi + vma_npages vma) mod MAX_PAGES) m))) s) s k.
Proof.
  intros R A H. unfold mmap_kmem. pose proof (vma_npages_range vma A) as N. wp_steps.
  rewrite (ring_full h q) by done.
  destruct (Z.ltb_spec (MAX_PAGES - 1) (total q + vma_npages vma)); [lia|]. wp_steps.
  exists (s32 ans0).
  assert (L : 0 <= mi_last (c_mmap_info (d_card s)) < MAX_PAGES).
  { destruct R as (_ & _ & -> & _). by apply Z.mod_pos_bound. }
  destruct (s32 ans0 <? 0) eqn:E; wp_steps; cbn; rewrite E; (split; [done|]);
    (split; [done|]); [done|]. split; [done|]. unfold MAX_PAGES in *.
  by rewrite swrap_id, Z.rem_mod_nonneg by lia.
Qed.

Lemma ring_map h q n mi :
  1 <= n -> total q + n <= MAX_PAGES - 1 -> ring (Queue h q) mi ->
  ring (Queue h (q ++ [n])) (set_active 1 (set_last ((mi_last mi + n) mod MAX_PAGES) mi)).
Proof.
  intros Hn T (H & F & L & _ & P). unfold ring.
  cbn [q_counts q_head set_active set_last mi_first mi_last] in *. split; [done|]. split; [done|].
  rewrite total_app. change (total [n]) with (n + 0). rewrite L, Zplus_mod_idemp_l.
  split; [f_equal; lia|]. split; [lia|]. apply Forall_app. by repeat constructor.
Qed.

Lemma ring_close h q n mi :
  ring (Queue h (n :: q)) mi ->
  (mi_first mi =? mi_last mi) = false /\
  ring (Queue ((h + n) mod MAX_PAGES) q) (set_first ((mi_first mi + n) mod MAX_PAGES) mi).
Proof.
  intros (H & F & L & T & P). cbn [q_counts q_head] in *. apply Forall_cons_1 in P as [Pn P].
  pose proof (total_nonneg q P) as T0. change (total (n :: q)) with (n + total q) in *.
  unfold MAX_PAGES in *. split.
  - apply Z.eqb_neq. rewrite L. intros E.
    assert (mi_first mi + (n + total q) < 1024 \/ 1024 <= mi_first mi + (n + total q)) as [C | C] by lia.
    + rewrite Z.mod_small in E by lia. lia.
    + replace (mi_first mi + (n + total q))
        with (mi_first mi + (n + total q) - 1024 + 1 * 1024) in E by lia.
      rewrite Z.mod_add, Z.mod_small in E by lia. lia.
  - unfold ring; cbn. unfold MAX_PAGES. fold (total q). rewrite H. split; [done|].
    split; [apply Z.mod_pos_bound; lia|]. rewrite L, H, Zplus_mod_idemp_l.
    split; [f_equal; lia|]. split; [lia | done].
Qed.

(** C25.  The driver implements the queue: each call of [mmap] and each close, in the
    order of the openings, answers as the queue does and keeps the ring in
    correspondence with it.  A mapping is refused exactly when the queue has no
    room for it or the kernel refuses to map it. *)
Theorem ring_refines_queue c l c' qu :
  ring_inv (K := K) qu c -> ring_step c l c' ->
  exists qu', queue_step qu l qu' /\ ring_inv qu' c'.
Proof.
  intros (R & Q & B) S. destruct qu as [h q]. cbn [q_counts] in Q.
  inversion S as [s k areas vma at_ r s' k' t A E M P Ec El Ec' | s k areas vma s' k' t A E Ec El Ec'];
    subst c l c'; cbn [fst snd] in *.
  - pose proof (vma_npages_range vma A) as N.
    destruct (Z.lt_ge_cases (MAX_PAGES - 1) (total q + vma_npages vma)) as [Full | Room].
    + rewrite (mmap_kmem_full h q) in E by done. injection E as <- <- <- <-.
      exists (Queue h q). destruct at_; [done|]. split; [by constructor | done].
    + pose proof (wp_mmap_kmem h q vma s k R A Room) as W. unfold wp in W. rewrite E in W.
      destruct W as (r0 & M0 & X & W). cbn [r_out r_st r_tr] in *. rewrite X.
      assert (at_ = Some ((h + total q) mod MAX_PAGES)) as ->.
      { destruct R as (Hh & _ & L & _). rewrite M0, L in M. destruct at_ as [p|]; [|done].
        cbn in M, Hh. rewrite Hh in M. injection M as M. specialize (P p eq_refl).
        pose proof (Z.mod_pos_bound (h + total q) MAX_PAGES ltac:(done)) as D.
        unfold PAGE_SIZE, MAX_PAGES in *. rewrite !wrap_id in M by (unfold fits; lia).
        f_equal. lia. }
      destruct (Z.ltb_spec r0 0) as [Neg | Pos]; destruct W as [W1 ->]; injection W1 as ->.
      * exists (Queue h q). split; [by constructor | done].
      * exists (Queue h (q ++ [vma_npages vma])). split; [by constructor|].
        assert (Ers : (r0 <? 0) = false) by lia. rewrite Ers. split; [apply ring_map; [lia | done | done]|].
        split; [cbn [q_counts snd]; by rewrite fmap_app, Q | done].
  - destruct q as [|n q]; [done|]. rewrite fmap_cons in Q. injection Q as -> Q.
    destruct (ring_close h q _ _ R) as [C R']. revert E. unfold mmap_close, bind, gets. cbn.
    rewrite C. unfold modify. intros [= <- <- <-].
    pose proof (vma_npages_range vma A) as N. destruct R as (_ & F & _).
    exists (Queue ((h + vma_npages vma) mod MAX_PAGES) q). split; [constructor|].
    split; [|done]. cbn. unfold MAX_PAGES in *. by rewrite swrap_id, Z.rem_mod_nonneg by lia.
Qed.

Lemma ring_inv_init (k : K) s :
  c_mmap_info (d_card s) = MmapInfo 0 0 0 (mi_dma_handle (c_mmap_info (d_card s)))
    (mi_page_list (c_mmap_info (d_card s))) ->
  0 <= mi_page_list (c_mmap_info (d_card s)) < 2 ^ 63 -> ring_inv (Queue 0 []) (s, k, []).
Proof.
  intros E B. split; [|done]. cbn [fst]. rewrite E. unfold ring. cbn. by repeat constructor.
Qed.
End Simulation.

(** ** Where the ring and the memory differ *)

Section Memory.
Context {K : Type} `{!Handler kcall K}.

(** The size asked of each mapping. *)
Definition remapped (e : event kcall) : option Z :=
  match e with Ev (K_remap_pfn_range _ _ n) _ => Some n | _ => None end.

Lemma wp_mmap_kmem_size h q vma s (k : K) :
  ring (Queue h q) (c_mmap_info (d_card s)) -> 1 <= vma_npages vma <= 2 ^ 29 ->
  total q + vma_npages vma <= MAX_PAGES - 1 ->
  wp (mmap_kmem vma) (fun _ _ _ t =>
    calls mapped_at t = [u64 (mi_page_list (c_mmap_info (d_card s)) +
      PAGE_SIZE * ((h + total q) mod MAX_PAGES))] /\
    calls remapped t = [vma_size vma]) s k.
Proof.
  intros R N H. unfold mmap_kmem. wp_steps. rewrite (ring_full h q) by done.
  destruct (Z.ltb_spec (MAX_PAGES - 1) (total q + vma_npages vma)); [lia|].
  destruct R as (F & _ & -> & _). rewrite F.
  wp_steps. destruct (s32 ans0 <? 0); wp_steps; done.
Qed.

(** The slots of the ring wrap around but a mapping does not: one that goes past
    the last slot is still mapped from a single address, and its end is past the end
    of the buffer of [MAX_PAGES] pages. *)
Theorem mmap_wraps_past_buffer h q vma s (k : K) :
  let base := mi_page_list (c_mmap_info (d_card s)) in
  ring (Queue h q) (c_mmap_info (d_card s)) -> 0 <= base < 2 ^ 63 -> area_ok vma ->
  total q + vma_npages vma <= MAX_PAGES - 1 ->
  MAX_PAGES < (h + total q) mod MAX_PAGES + vma_npages vma ->
  let t := r_tr (mmap_kmem vma s k) in
  exists p n, calls mapped_at t = [p] /\ calls remapped t = [n] /\
    base <= p /\ base + MAX_PAGES * PAGE_SIZE < p + n.
Proof.
  intros base R B A Room Over t.
  destruct (wp_mmap_kmem_size h q vma s k R (vma_npages_range vma A) Room) as [M1 M2].
  fold t base in M1, M2. eexists _, _. split; [exact M1|]. split; [exact M2|].
  rewrite (vma_npages_eq vma A) in Over. destruct A as (A0 & A1 & A2 & A3).
  pose proof (Z.mod_pos_bound (h + total q) MAX_PAGES ltac:(done)) as D.
  unfold MAX_PAGES, PAGE_SIZE, vma_size in *.
  rewrite !wrap_id by (unfold fits; lia). split; [lia|].
  pose proof (Z.div_mod (vm_end vma - vm_start vma + 4095) 4096 ltac:(lia)).
  pose proof (Z.mod_pos_bound (vm_end vma - vm_start vma + 4095) 4096 ltac:(lia)). lia.
Qed.

(** The count of pages is an [int]: an area of 16 TB counts as one page, passes
    the test for free elements and is mapped whole. *)
Theorem mmap_int_truncation h q start s (k : K) :
  ring (Queue h q) (c_mmap_info (d_card s)) -> total q + 1 <= MAX_PAGES - 1 ->
  0 <= start < 2 ^ 46 ->
  let vma := VmArea start (start + 2 ^ 44) in
  vma_npages vma = 1 /\ calls remapped (r_tr (mmap_kmem vma s k)) = [2 ^ 44].
Proof.
  intros R Room Hs vma.
  assert (N : vma_npages vma = 1).
  { unfold vma_npages, vma_size, vma. cbn [vm_start vm_end].
    replace (start + 2 ^ 44 - start) with (2 ^ 44) by lia. reflexivity. }
  split; [done|].
  destruct (wp_mmap_kmem_size h q vma s k R) as [_ M2]; [lia | lia |].
  rewrite M2. unfold vma_size, vma. cbn [vm_start vm_end].
  by replace (start + 2 ^ 44 - start) with (2 ^ 44) by lia.
Qed.

(** A descriptor for the mmap buffer is offset from the head of the ring in bytes
    where the mappings are offset in pages: the two agree only while the head is
    page 0. *)
Theorem ring_descriptor_byte_offset h q dd s (k : K) :
  let base := mi_page_list (c_mmap_info (d_card s)) in
  ring (Queue h q) (c_mmap_info (d_card s)) -> m_virtual (c_buffer (d_card s)) = 0 ->
  0 <= base < 2 ^ 63 -> 0 <= dd_address dd < 2 ^ 62 ->
  exists a, descriptor_address dd s k = Res (Done (Some a)) s k [] /\
    (a = base + PAGE_SIZE * h + dd_address dd <-> h = 0).
Proof.
  intros base (F & B & _) V Hb Ha. exists (base + (h + dd_address dd)).
  unfold descriptor_address, bind, gets. cbn. rewrite V, F. cbn [Z.eqb].
  cbn [q_head] in F. rewrite F in B. fold base.
  unfold MAX_PAGES, PAGE_SIZE in *. cbn [q_head].
  rewrite !wrap_id by (unfold fits; rewrite ?wrap_id by (unfold fits; lia); lia).
  split; [done | lia].
Qed.
End Memory.

(** ** Witnesses *)

Definition area (start npages : Z) : vm_area := VmArea start (start + PAGE_SIZE * npages).

(** The driver with its buffer allocated at [2 ^ 36]. *)
Definition ring_driver : driver :=
  set_card (set_mmap_info (fun _ => MmapInfo 0 0 0 (2 ^ 41) (2 ^ 36))) driver_init.

Lemma area_ok_small start n : 0 <= start <= 2 ^ 46 -> 1 <= n <= 1024 -> area_ok (area start n).
Proof. intros Hs Hn. unfold area_ok, area, PAGE_SIZE; cbn [vm_start vm_end]. lia. Qed.

Lemma ring_refines_queue_witness :
  exists qu', queue_step (Queue 0 [])
    (LMap 10 (Some 0) false 0) qu' /\
    ring_inv qu' (r_st (mmap_kmem (area 0 10) ring_driver sim_init),
      r_k (mmap_kmem (area 0 10) ring_driver sim_init), [area 0 10]).
Proof.
  apply (ring_refines_queue (ring_driver, sim_init, [])).
  - apply ring_inv_init; [reflexivity | by vm_compute].
  - replace (LMap 10 (Some 0) false 0) with (LMap (vma_npages (area 0 10)) (Some 0)
      (existsb remap_refused (r_tr (mmap_kmem (area 0 10) ring_driver sim_init))) 0)
      by (vm_compute; reflexivity).
    apply (RMap ring_driver sim_init [] (area 0 10) (Some 0) 0 _ _
      (r_tr (mmap_kmem (area 0 10) ring_driver sim_init))).
    + apply area_ok_small; lia.
    + vm_compute. reflexivity.
    + vm_compute. reflexivity.
    + intros p [= <-]. by vm_compute.
Defined.

(** A client that maps 1000 pages, unmaps them and maps 100. *)
Definition after_1000 : driver :=
  r_st ((do* mmap_kmem (area 0 1000) in mmap_close (area 0 1000)) ring_driver sim_init).

Lemma after_1000_ring : ring (Queue 1000 []) (c_mmap_info (d_card after_1000)).
Proof. by vm_compute. Qed.

Lemma mmap_wraps_past_buffer_witness :
  exists p n, calls remapped (r_tr (mmap_kmem (area 0 100) after_1000 sim_init)) = [n] /\
    2 ^ 36 + MAX_PAGES * PAGE_SIZE < p + n.
Proof.
  destruct (mmap_wraps_past_buffer 1000 [] (area 0 100) after_1000 sim_init)
    as (p & n & _ & E & _ & L).
  - apply after_1000_ring.
  - by vm_compute.
  - apply area_ok_small; lia.
  - by vm_compute.
  - by vm_compute.
  - exists p, n. split; [exact E | exact L].
Defined.

Lemma mmap_int_truncation_witness :
  calls remapped (r_tr (mmap_kmem (VmArea 0 (2 ^ 44)) ring_driver sim_init)) = [2 ^ 44].
Proof.
  apply (mmap_int_truncation 0 [] 0 ring_driver sim_init).
  - unfold ring. cbn. by repeat constructor.
  - by vm_compute.
  - by vm_compute.
Defined.

Lemma ring_descriptor_byte_offset_witness :
  exists a, r_out (descriptor_address example_offset after_1000 sim_init) = Done (Some a) /\
    a <> 2 ^ 36 + PAGE_SIZE * 1000 + 8256.
Proof.
  destruct (ring_descriptor_byte_offset 1000 [] example_offset after_1000 sim_init)
    as (a & E & H).
  - apply after_1000_ring.
  - reflexivity.
  - by vm_compute.
  - by vm_compute.
  - exists a. rewrite E. split; [reflexivity|]. intros C. apply H in C. discriminate C.
Defined.

Definition out_of_order : KM sim unit :=
  do* mmap_kmem (area 0 10) in
  do* mmap_kmem (area (2 ^ 20) 20) in
  do* mmap_close (area (2 ^ 20) 20) in
  do* mmap_kmem (area (2 ^ 24) 994) in
  do* mmap_kmem (area (2 ^ 25) 5) in
  ret tt.

(** Mappings closed out of order are lost track of: here 10 and 20 pages are
    mapped, the second mapping is closed, and after 994 more pages a new mapping
    of 5 pages gets page 0, which the first mapping still holds. *)
Theorem close_order_matters :
  let r := out_of_order ring_driver sim_init in
  r_out r = Done tt /\
  (fun p => (p - 2 ^ 36) / PAGE_SIZE) <$> calls mapped_at (r_tr r) = [0; 10; 30; 0] /\
  (fun n => n / PAGE_SIZE) <$> calls remapped (r_tr r) = [10; 20; 994; 5].
Proof. vm_compute. done. Qed.
