(* ===== verification/SemLock.v ===== *)
(** * The lock of the card (HOST/driver/nfpioctl.c, lines 116 to 119 and 214)

    Threads that call [nfp_ioctl] meet at the semaphore of the card.  Each thread is
    the sequence of its actions on the semaphore, as its run of [nfp_ioctl] makes
    them; the semaphore interleaves them. *)

From S2P Require Import Prelude Eff IoctlCommands NfpTypes Kernel SimKernel NfpMem NfpIoctl.
From Stdlib Require Import ZArith Lia.
From stdpp Require Import base list relations.
Local Open Scope Z_scope.
Local Open Scope eff_scope.

(** A thread: whether it is between taking the semaphore and giving it back, and
    the actions it has left. *)
Record thread := Thread { inside : bool; todo : list sem_act }.

Record system := System { count : Z; threads : list thread }.

(** [down_interruptible] takes a positive semaphore; a waiting thread can be interrupted. *)
Inductive sem_moves : Z -> sem_act -> Z -> Prop :=
| MTake c : 0 < c -> sem_moves c Took (c - 1)
| MInterrupt c : c <= 0 -> sem_moves c Interrupted c
| MGive c : sem_moves c Gave (c + 1).

Definition advance (a : sem_act) (rest : list sem_act) (t : thread) : thread :=
  Thread (match a with Took => true | Interrupted => inside t | Gave => false end) rest.

Inductive system_step : system -> system -> Prop :=
| Step c ts i t a rest c' :
    ts !! i = Some t -> todo t = a :: rest -> sem_moves c a c' ->
    system_step (System c ts) (System c' (<[i := advance a rest t]> ts)).

Definition start (scripts : list (list sem_act)) : system := System 1 (Thread false <$> scripts).

Definition holders (ts : list thread) : Z :=
  Z.of_nat (length (filter (fun t => inside t = true) ts)).

(** The same, computing the next state. *)
Lemma step_to s s' i t a rest :
  threads s !! i = Some t -> todo t = a :: rest -> sem_moves (count s) a (count s') ->
  threads s' = <[i := advance a rest t]> (threads s) -> system_step s s'.
Proof. destruct s as [c ts], s' as [c' ts']; cbn. intros Hi Ht M ->. by econstructor. Qed.

(** ** Mutual exclusion *)

Definition polite (t : thread) : Prop :=
  t = Thread false [] \/ t = Thread false [Took; Gave] \/ t = Thread true [Gave].

Definition lock_inv (s : system) : Prop :=
  Forall polite (threads s) /\ 0 <= count s /\ count s + holders (threads s) = 1.

Definition weight (t : thread) : Z := if inside t then 1 else 0.

Lemma holders_cons t ts : holders (t :: ts) = weight t + holders ts.
Proof.
  unfold holders, weight. rewrite filter_cons. destruct t as [[] l]; cbn [inside];
    case_decide; cbn [length]; lia || done.
Qed.

Lemma holders_insert ts i t t' :
  ts !! i = Some t -> holders (<[i := t']> ts) = holders ts - weight t + weight t'.
Proof.
  revert i. induction ts as [|u ts IH]; intros [|i] H; [done|done| |].
  - injection H as ->. change (<[0%nat := t']> (t :: ts)) with (t' :: ts). rewrite !holders_cons. lia.
  - change (<[S i := t']> (u :: ts)) with (u :: <[i := t']> ts). rewrite !holders_cons, (IH i H). lia.
Qed.

Lemma lock_inv_step s s' : lock_inv s -> system_step s s' -> lock_inv s'.
Proof.
  intros I St. destruct St as [c ts i t a rest c' Hi Ht M]. destruct I as (P & C0 & C).
  cbn [count threads] in *.
  assert (Pt : polite t) by exact (Forall_lookup_1 _ _ _ _ P Hi).
  assert (Q : polite (advance a rest t) /\ c' + weight (advance a rest t) = c + weight t).
  { destruct Pt as [-> | [-> | ->]]; cbn in Ht; [done| |];
      injection Ht as <- <-; inversion M; subst; cbn; (split; [unfold polite; auto | lia]). }
  split; cbn [count threads].
  - apply Forall_insert; [done | apply Q].
  - split; [inversion M; lia|]. rewrite (holders_insert ts i t _ Hi). lia.
Qed.

Lemma lock_inv_reachable s s' : lock_inv s -> rtc system_step s s' -> lock_inv s'.
Proof. intros H R. induction R; eauto using lock_inv_step. Qed.

Section Lock.
Context {K : Type} `{!Handler kcall K} `{E : IocEncoding}.

(** The actions of a call of [nfp_ioctl] that returned [v]. *)
Definition ioctl_run (ok : Z -> Z -> Prop) (script : list sem_act) : Prop :=
  exists fuel cmd arg s (k : K) v,
    r_out (nfp_ioctl fuel cmd arg s k) = Done v /\ ok cmd v /\
    script = calls sem_action (r_tr (nfp_ioctl fuel cmd arg s k)).

Lemma polite_run script :
  ioctl_run (fun cmd v => cmd <> NFPIOC_REGISTER_BUFFER /\ v <> - ERESTARTSYS) script ->
  polite (Thread false script).
Proof.
  intros (fuel & cmd & arg & s & k & v & R & [Hc Hv] & ->).
  pose proof (wp_nfp_ioctl_script fuel cmd arg s k Hc v R) as Sc. rewrite Sc.
  unfold sem_script, polite. destruct (v =? - ENOTTY); [by auto|].
  destruct (Z.eqb_spec v (- ERESTARTSYS)); [done | by auto].
Qed.

Lemma holders_start scripts : holders (Thread false <$> scripts) = 0.
Proof. induction scripts as [|x l IH]; [done|]. rewrite fmap_cons, holders_cons, IH. done. Qed.

(** C28.  Mutual exclusion: however the calls of any number of threads interleave, as
    long as none is interrupted while waiting and none registers a buffer, at most
    one thread is inside, between its down and its up, and the semaphore counts the others out. *)
Theorem ioctl_mutual_exclusion scripts s :
  Forall (ioctl_run (fun cmd v => cmd <> NFPIOC_REGISTER_BUFFER /\ v <> - ERESTARTSYS)) scripts ->
  rtc system_step (start scripts) s ->
  0 <= count s /\ holders (threads s) <= 1 /\ (holders (threads s) = 1 <-> count s = 0).
Proof.
  intros F R.
  assert (I : lock_inv s).
  { eapply lock_inv_reachable; [|exact R]. split; cbn [start count threads].
    - rewrite Forall_fmap. eapply Forall_impl; [exact F|]. intros x. apply polite_run.
    - by rewrite holders_start. }
  destruct I as (P & C0 & C). lia.
Qed.
End Lock.


(** ** Witnesses *)

Definition sim_busy_sem : sim := Sim 0 0 ∅ ∅ ∅ 3 0 NoFailure.

Definition run_unregister (k : sim) : res kcall sim driver Z :=
  nfp_ioctl 10 NFPIOC_UNREGISTER_BUFFER 0 driver_init k.

Lemma ioctl_mutual_exclusion_witness :
  exists s, rtc system_step (start [[Took; Gave]; [Took; Gave]]) s /\ holders (threads s) <= 1.
Proof.
  assert (R : rtc system_step (start [[Took; Gave]; [Took; Gave]])
    (System 0 [Thread true [Gave]; Thread false [Took; Gave]])).
  { eapply rtc_once.
    apply (step_to _ _ 0 (Thread false [Took; Gave]) Took [Gave]);
      [reflexivity | reflexivity | by apply (MTake 1) | reflexivity]. }
  eexists. split; [exact R|].
  apply (ioctl_mutual_exclusion (K := sim) [[Took; Gave]; [Took; Gave]]); [|exact R].
  repeat constructor; exists 10%nat, NFPIOC_UNREGISTER_BUFFER, 0, driver_init, sim_init, 0;
    by vm_compute.
Defined.

(** Two threads inside at once: the scripts are those of three calls of [nfp_ioctl],
    of which one is interrupted while it waits for the first. *)
Theorem interrupted_wait_breaks_lock :
  let scripts := [calls sem_action (r_tr (run_unregister sim_init));
                  calls sem_action (r_tr (run_unregister sim_busy_sem));
                  calls sem_action (r_tr (run_unregister sim_init))] in
  r_out (run_unregister sim_busy_sem) = Done (- ERESTARTSYS) /\
  exists s, rtc system_step (start scripts) s /\ holders (threads s) = 2.
Proof.
  intros scripts. split; [reflexivity|].
  change scripts with [[Took; Gave]; [Interrupted; Gave]; [Took; Gave]].
  exists (System 0 [Thread true [Gave]; Thread false []; Thread true [Gave]]).
  split; [|reflexivity].
  eapply (rtc_l _ _ (System 0 [Thread true [Gave]; Thread false [Interrupted; Gave];
    Thread false [Took; Gave]])).
  { apply (step_to _ _ 0 (Thread false [Took; Gave]) Took [Gave]);
      [reflexivity | reflexivity | by apply (MTake 1) | reflexivity]. }
  eapply (rtc_l _ _ (System 0 [Thread true [Gave]; Thread false [Gave]; Thread false [Took; Gave]])).
  { apply (step_to _ _ 1 (Thread false [Interrupted; Gave]) Interrupted [Gave]);
      [reflexivity | reflexivity | by apply MInterrupt | reflexivity]. }
  eapply (rtc_l _ _ (System 1 [Thread true [Gave]; Thread false []; Thread false [Took; Gave]])).
  { apply (step_to _ _ 1 (Thread false [Gave]) Gave []);
      [reflexivity | reflexivity | by apply (MGive 0) | reflexivity]. }
  apply rtc_once, (step_to _ _ 2 (Thread false [Took; Gave]) Took [Gave]);
    [reflexivity | reflexivity | by apply (MTake 1) | reflexivity].
Qed.
