(* ===== verification/NfpPci.v ===== *)
(** * PCI Express settings (HOST/driver/nfp.c, lines 68 to 195)

    The two functions that adjust the Device Control register of the card: the
    maximum payload size and the maximum read request size. *)

From S2P Require Import Prelude Eff NfpTypes Kernel SimKernel.
From Stdlib Require Import ZArith Lia.
From stdpp Require Import base list gmap.
Local Open Scope Z_scope.
Local Open Scope eff_scope.

(** include/uapi/linux/pci_regs.h *)
Definition PCI_CAP_ID_EXP : Z := 0x10.
Definition PCI_EXP_DEVCAP : Z := 4.
Definition PCI_EXP_DEVCAP_PAYLOAD : Z := 0x07.
Definition PCI_EXP_DEVCTL : Z := 8.
Definition PCI_EXP_DEVCTL_PAYLOAD : Z := 0x00e0.
Definition PCI_EXP_DEVCTL_READRQ : Z := 0x7000.

(** One plus the index of the lowest bit set, 0 for 0. *)
Fixpoint ffs_positive (p : positive) : Z :=
  match p with xO p' => 1 + ffs_positive p' | _ => 1 end.
Definition ffs (z : Z) : Z :=
  match z with Z0 => 0 | Zpos p => ffs_positive p | Zneg p => ffs_positive p end.

Section Pci.
Context {K : Type} `{!Handler kcall K}.

Definition pci_set_payload (payload : Z) : KM K Z :=
  if negb (((128 <=? payload) && (payload <=? 512)) || (payload =? 0)) then ret (-1)
  else
    let* pos := call (K_pci_find_capability false PCI_CAP_ID_EXP) in
    if pos =? 0 then ret 0
    else
      let* dctl := call (K_pci_read_config_word (pos + PCI_EXP_DEVCTL)) in
      let* dcap := call (K_pci_read_config_word (pos + PCI_EXP_DEVCAP)) in
      let dctl := u16 dctl.2 in
      let dcap := u16 dcap.2 in
      let dsz := Z.shiftr (Z.land dctl PCI_EXP_DEVCTL_PAYLOAD) 5 in
      let dmax := Z.land dcap PCI_EXP_DEVCAP_PAYLOAD in
      let* ppos := call (K_pci_find_capability true PCI_CAP_ID_EXP) in
      if ppos =? 0 then ret 0
      else
        let psz := if payload =? 0 then dmax else Z.shiftr payload 8 in
        if dmax <? psz then ret (-1)
        else if dsz <? psz then
          do* call (K_pci_write_config_word (pos + PCI_EXP_DEVCTL)
            (u16 (Z.land dctl (Z.lnot PCI_EXP_DEVCTL_PAYLOAD) + Z.shiftl psz 5))) in
          ret 0
        else ret 0.

Definition pcie_set_readrq (count : Z) : KM K Z :=
  if (count <? 128) || (4096 <? count) then ret (-1)
  else
    let v := u16 (Z.shiftl (ffs count - 8) 12) in
    let* cap := call (K_pci_find_capability false PCI_CAP_ID_EXP) in
    if cap =? 0 then ret (-1)
    else
      let* ctl := call (K_pci_read_config_word (cap + PCI_EXP_DEVCTL)) in
      if negb (ctl.1 =? 0) then ret (-1)
      else
        let ctl := u16 ctl.2 in
        if negb (Z.land ctl PCI_EXP_DEVCTL_READRQ =? v) then
          let ctl := u16 (Z.land ctl (Z.lnot PCI_EXP_DEVCTL_READRQ)) in
          do* call (K_pci_write_config_dword (cap + PCI_EXP_DEVCTL) (Z.lor ctl v)) in
          ret 0
        else ret 0.
End Pci.

(** ** The fields of Device Control *)

Definition payload_field (w : Z) : Z := (w / 2 ^ 5) mod 8.
Definition readrq_field (w : Z) : Z := (w / 2 ^ 12) mod 8.

(** The field of [n] bits at bit [lo], by its mask. *)
Lemma land_field w lo n :
  0 <= lo -> 0 <= n -> Z.land w (Z.shiftl (Z.ones n) lo) = 2 ^ lo * ((w / 2 ^ lo) mod 2 ^ n).
Proof.
  intros Hl Hn. rewrite <- Z.land_ones, <- Z.shiftr_div_pow2 by lia.
  rewrite Z.mul_comm, <- Z.shiftl_mul_pow2, Z.shiftl_land by lia.
  apply Z.bits_inj'. intros i Hi. rewrite !Z.land_spec, !Z.shiftl_spec by lia.
  destruct (Z.lt_ge_cases i lo).
  - rewrite (Z.testbit_neg_r (Z.ones n)) by lia. by rewrite !andb_false_r.
  - rewrite Z.shiftr_spec by lia. by replace (i - lo + lo) with i by lia.
Qed.

Lemma land_lnot w m : Z.land w (Z.lnot m) = w - Z.land w m.
Proof.
  rewrite <- Z.ldiff_land. symmetry. rewrite Z.sub_nocarry_ldiff.
  - apply Z.bits_inj'. intros i Hi. rewrite !Z.ldiff_spec, Z.land_spec.
    by destruct (Z.testbit w i), (Z.testbit m i).
  - apply Z.bits_inj'. intros i Hi. rewrite Z.ldiff_spec, Z.land_spec, Z.bits_0.
    by destruct (Z.testbit w i), (Z.testbit m i).
Qed.

Lemma payload_bits w :
  Z.shiftr (Z.land w PCI_EXP_DEVCTL_PAYLOAD) 5 = payload_field w /\
  Z.land w (Z.lnot PCI_EXP_DEVCTL_PAYLOAD) = w - 2 ^ 5 * payload_field w.
Proof.
  rewrite land_lnot. change PCI_EXP_DEVCTL_PAYLOAD with (Z.shiftl (Z.ones 3) 5).
  rewrite land_field by lia. split; [|done].
  rewrite Z.shiftr_div_pow2, Z.mul_comm, Z.div_mul by lia. done.
Qed.

Lemma readrq_bits w :
  Z.land w PCI_EXP_DEVCTL_READRQ = 2 ^ 12 * readrq_field w /\
  Z.land w (Z.lnot PCI_EXP_DEVCTL_READRQ) = w - 2 ^ 12 * readrq_field w.
Proof.
  rewrite land_lnot. change PCI_EXP_DEVCTL_READRQ with (Z.shiftl (Z.ones 3) 12).
  rewrite land_field by lia. done.
Qed.

Lemma capability_bits w : Z.land w PCI_EXP_DEVCAP_PAYLOAD = w mod 8.
Proof. change PCI_EXP_DEVCAP_PAYLOAD with (Z.ones 3). by rewrite Z.land_ones. Qed.

(** A field stored over a word whose field is clear. *)
Lemma store_field w lo n k :
  0 <= lo -> 0 <= n -> 0 <= w -> 0 <= k < 2 ^ n ->
  let w0 := w - 2 ^ lo * ((w / 2 ^ lo) mod 2 ^ n) in
  0 <= w0 /\ ((w0 + 2 ^ lo * k) / 2 ^ lo) mod 2 ^ n = k /\
  w0 = w mod 2 ^ lo + 2 ^ (lo + n) * (w / 2 ^ (lo + n)) /\
  Z.lor w0 (2 ^ lo * k) = w0 + 2 ^ lo * k.
Proof.
  intros Hl Hn Hw Hk w0.
  assert (L : 0 < 2 ^ lo) by (apply Z.pow_pos_nonneg; lia).
  assert (N : 0 < 2 ^ n) by (apply Z.pow_pos_nonneg; lia).
  pose proof (Z.div_mod w (2 ^ lo) ltac:(lia)) as D1.
  pose proof (Z.div_mod (w / 2 ^ lo) (2 ^ n) ltac:(lia)) as D2.
  rewrite Z.div_div in D2 by lia. rewrite <- Z.pow_add_r in D2 by lia.
  pose proof (Z.mod_pos_bound w (2 ^ lo) L) as B1.
  assert (E : w0 = w mod 2 ^ lo + 2 ^ (lo + n) * (w / 2 ^ (lo + n))).
  { unfold w0. rewrite Z.pow_add_r in * by lia.
    assert (D3 : 2 ^ lo * (w / 2 ^ lo) = 2 ^ lo * (2 ^ n * (w / (2 ^ lo * 2 ^ n)) +
      (w / 2 ^ lo) mod 2 ^ n)) by (f_equal; exact D2). lia. }
  assert (P : 0 <= w / 2 ^ (lo + n)) by (apply Z.div_pos; [lia | apply Z.pow_pos_nonneg; lia]).
  assert (P0 : 0 <= 2 ^ (lo + n) * (w / 2 ^ (lo + n))).
  { apply Z.mul_nonneg_nonneg; [apply Z.pow_nonneg; lia | exact P]. }
  split; [lia|]. split; [|split; [done|]].
  - rewrite E, Z.pow_add_r by lia.
    replace (w mod 2 ^ lo + 2 ^ lo * 2 ^ n * (w / (2 ^ lo * 2 ^ n)) + 2 ^ lo * k)
      with (w mod 2 ^ lo + (k + w / (2 ^ lo * 2 ^ n) * 2 ^ n) * 2 ^ lo) by ring.
    rewrite Z.div_add, (Z.div_small (w mod 2 ^ lo)), Z.add_0_l by lia.
    rewrite Z.mod_add by lia. apply Z.mod_small. lia.
  - assert (Z.land w0 (2 ^ lo * k) = 0) as H0.
    { unfold w0. rewrite <- land_field, <- land_lnot by lia.
      replace (2 ^ lo * k) with (2 ^ lo * (((2 ^ lo * k) / 2 ^ lo) mod 2 ^ n))
        by (rewrite (Z.mul_comm _ k), Z.div_mul, Z.mod_small by lia; lia).
      rewrite <- land_field by lia. apply Z.bits_inj'. intros i Hi.
      rewrite !Z.land_spec, Z.lnot_spec, Z.bits_0 by lia.
      destruct (Z.testbit (Z.shiftl (Z.ones n) lo) i); [|by rewrite !andb_false_r].
      by rewrite andb_false_r. }
    by rewrite Z.add_nocarry_lxor, Z.lxor_lor.
Qed.

(** ** What the functions write *)

Definition config_write (e : event kcall) : option (Z * Z) :=
  match e with
  | Ev (K_pci_write_config_word off v) _ => Some (off, v)
  | Ev (K_pci_write_config_dword off v) _ => Some (off, v)
  | _ => None
  end.

Section PciSpec.
Context {K : Type} `{!Handler kcall K}.

(** With the two capabilities present: the payload asked for (as the code
    encodes it) is refused if it is above what the device is capable of, left alone if
    it is not above the one in effect, and otherwise stored in its field of
    the control register with every other bit kept. *)
Theorem pci_set_payload_spec payload s (k k1 k2 k3 k4 : K) pos ppos ctl cap e1 e2 :
  (128 <= payload <= 512 \/ payload = 0) ->
  handle (K_pci_find_capability false PCI_CAP_ID_EXP) k = (pos, k1) -> pos <> 0 ->
  handle (K_pci_read_config_word (pos + PCI_EXP_DEVCTL)) k1 = ((e1, ctl), k2) -> fits 16 ctl ->
  handle (K_pci_read_config_word (pos + PCI_EXP_DEVCAP)) k2 = ((e2, cap), k3) -> fits 16 cap ->
  handle (K_pci_find_capability true PCI_CAP_ID_EXP) k3 = (ppos, k4) -> ppos <> 0 ->
  let r := pci_set_payload payload s k in
  let psz := if payload =? 0 then cap mod 8 else payload / 256 in
  if cap mod 8 <? psz then r_out r = Done (-1) /\ calls config_write (r_tr r) = []
  else r_out r = Done 0 /\
    if payload_field ctl <? psz then exists w, calls config_write (r_tr r) =
      [(pos + PCI_EXP_DEVCTL, w)] /\ payload_field w = psz /\
      w - 2 ^ 5 * payload_field w = ctl - 2 ^ 5 * payload_field ctl
    else calls config_write (r_tr r) = [].
Proof.
  intros Hp H1 Hpos H2 F2 H3 F3 H4 Hppos r psz. unfold psz. clear psz.
  as_wp r (pci_set_payload payload) s k. unfold pci_set_payload.
  replace (negb _) with false.
  2: { destruct (Z.leb_spec 128 payload), (Z.leb_spec payload 512), (Z.eqb_spec payload 0);
         cbn; lia || done. }
  wp_steps. rewrite H1 in Hans. simplify_eq. destruct (Z.eqb_spec ans 0); [done|].
  wp_steps. rewrite H2 in Hans. simplify_eq. rewrite H3 in Hans0. simplify_eq.
  rewrite H4 in Hans1. simplify_eq. destruct (Z.eqb_spec ans2 0); [done|].
  cbn [snd]. rewrite !(wrap_id 16) by done.
  destruct (payload_bits ctl) as [-> ->]. rewrite capability_bits.
  rewrite Z.shiftr_div_pow2 by lia. change (2 ^ 8) with 256.
  set (psz := if payload =? 0 then cap mod 8 else payload / 256).
  destruct (Z.ltb_spec (cap mod 8) psz) as [Big | Fit]; [by wp_steps|].
  destruct (Z.ltb_spec (payload_field ctl) psz) as [Above | Below]; [|by wp_steps].
  assert (Hz : 0 <= psz < 2 ^ 3).
  { assert (0 <= payload_field ctl) by (apply Z.mod_pos_bound; lia).
    pose proof (Z.mod_pos_bound cap 8). lia. }
  destruct (store_field ctl 5 3 psz) as (W0 & W1 & W2 & _); [lia|lia|apply F2|done|].
  change ((ctl / 2 ^ 5) mod 2 ^ 3) with (payload_field ctl) in *.
  rewrite Z.shiftl_mul_pow2, (Z.mul_comm psz) by lia.
  assert (Hw : fits 16 (ctl - 2 ^ 5 * payload_field ctl + 2 ^ 5 * psz)).
  { unfold fits in *. pose proof (Z.mod_pos_bound ctl (2 ^ 5) ltac:(lia)).
    assert (ctl / 2 ^ (5 + 3) < 2 ^ 8) by (apply Z.div_lt_upper_bound; lia). lia. }
  rewrite (wrap_id 16) by done. wp_steps. split; [done|]. eexists. split; [done|].
  change ((_ / 2 ^ 5) mod 2 ^ 3) with
    (payload_field (ctl - 2 ^ 5 * payload_field ctl + 2 ^ 5 * psz)) in W1.
  rewrite W1. split; [done | lia].
Qed.

(** The driver asks for 128 bytes, which the code encodes as 0: the call never
    fails and never writes, whatever the device answers. *)
Theorem pci_set_payload_128 s (k : K) :
  let r := pci_set_payload 128 s k in
  r_out r = Done 0 /\ r_st r = s /\ calls config_write (r_tr r) = [].
Proof.
  intros r. as_wp r (pci_set_payload 128) s k. unfold pci_set_payload.
  replace (negb _) with false by reflexivity. change (Z.shiftr 128 8) with 0. change (128 =? 0) with false.
  wp_steps. destruct (ans =? 0); wp_steps; [done|]. destruct (ans2 =? 0); wp_steps; [done|].
  rewrite capability_bits. destruct (payload_bits (u16 ans0.2)) as [-> _].
  pose proof (Z.mod_pos_bound (u16 ans1.2) 8 ltac:(lia)).
  assert (0 <= payload_field (u16 ans0.2)) by (apply Z.mod_pos_bound; lia).
  destruct (Z.ltb_spec (u16 ans1.2 mod 8) 0); [lia|].
  destruct (Z.ltb_spec (payload_field (u16 ans0.2)) 0); [lia|]. by wp_steps.
Qed.

(** For the six sizes a device may have, the read request size asked for is in
    the register after the call (written only if it was not there), and every other
    bit of it is kept. *)
Theorem pcie_set_readrq_spec n s (k k1 k2 : K) cap ctl :
  0 <= n <= 5 ->
  handle (K_pci_find_capability false PCI_CAP_ID_EXP) k = (cap, k1) -> cap <> 0 ->
  handle (K_pci_read_config_word (cap + PCI_EXP_DEVCTL)) k1 = ((0, ctl), k2) -> fits 16 ctl ->
  let r := pcie_set_readrq (128 * 2 ^ n) s k in
  r_out r = Done 0 /\
  if readrq_field ctl =? n then calls config_write (r_tr r) = []
  else exists w, calls config_write (r_tr r) = [(cap + PCI_EXP_DEVCTL, w)] /\
    fits 16 w /\ readrq_field w = n /\
    w - 2 ^ 12 * readrq_field w = ctl - 2 ^ 12 * readrq_field ctl.
Proof.
  intros Hn H1 Hc H2 F r. as_wp r (pcie_set_readrq (128 * 2 ^ n)) s k.
  unfold pcie_set_readrq.
  assert (V : u16 (Z.shiftl (ffs (128 * 2 ^ n) - 8) 12) = 2 ^ 12 * n /\
    (128 * 2 ^ n <? 128) || (4096 <? 128 * 2 ^ n) = false).
  { assert (n = 0 \/ n = 1 \/ n = 2 \/ n = 3 \/ n = 4 \/ n = 5)
      as [-> | [-> | [-> | [-> | [-> | ->]]]]] by lia; by vm_compute. }
  destruct V as [-> ->]. wp_steps. rewrite H1 in Hans. simplify_eq.
  destruct (Z.eqb_spec ans 0); [done|]. wp_steps. rewrite H2 in Hans. simplify_eq.
  cbn [fst snd Z.eqb negb]. rewrite (wrap_id 16 ctl) by done.
  destruct (readrq_bits ctl) as [-> ->].
  destruct (store_field ctl 12 3 n) as (W0 & W1 & W2 & W3); [lia|lia|apply F|lia|].
  change ((ctl / 2 ^ 12) mod 2 ^ 3) with (readrq_field ctl) in *.
  assert (B : 0 <= readrq_field ctl < 8) by (apply Z.mod_pos_bound; lia).
  assert (Hw : fits 16 (ctl - 2 ^ 12 * readrq_field ctl + 2 ^ 12 * n)).
  { unfold fits in *. pose proof (Z.mod_pos_bound ctl (2 ^ 12) ltac:(lia)).
    assert (ctl / 2 ^ (12 + 3) < 2 ^ 1) by (apply Z.div_lt_upper_bound; lia). lia. }
  destruct (Z.eqb_spec (readrq_field ctl) n) as [-> | Ne].
  { rewrite Z.eqb_refl. by wp_steps. }
  destruct (Z.eqb_spec (2 ^ 12 * readrq_field ctl) (2 ^ 12 * n)) as [Eq|]; [lia|].
  cbn [negb]. rewrite (wrap_id 16) by (unfold fits in *; lia). rewrite W3.
  wp_steps. split; [done|]. eexists. split; [done|]. split; [done|].
  change ((_ / 2 ^ 12) mod 2 ^ 3) with
    (readrq_field (ctl - 2 ^ 12 * readrq_field ctl + 2 ^ 12 * n)) in W1.
  rewrite W1. split; [done | lia].
Qed.

(** Nothing is written when the size is out of range, or the device has no PCI
    Express capability, or its control register cannot be read. *)
Lemma pcie_set_readrq_fails count s (k : K) :
  let r := pcie_set_readrq count s k in
  r_out r = Done (-1) -> r_st r = s /\ calls config_write (r_tr r) = [].
Proof.
  intros r. as_wp r (pcie_set_readrq count) s k. unfold pcie_set_readrq.
  destruct (_ || _); wp_steps; [done|]. destruct (ans =? 0); wp_steps; [done|].
  destruct (negb (ans0.1 =? 0)); wp_steps; [done|].
  destruct (negb _); wp_steps; done.
Qed.
End PciSpec.

(** ** Witnesses *)

Definition sim_config_with (l : list (Z * Z)) : sim := Sim 0 1 ∅ ∅ (list_to_map l) 3 0 NoFailure.

(** A device capable of 512 bytes, set to 128 bytes of payload and 512 of read
    request: the values of the comment of nfp.c. *)
Definition sim_express : sim := sim_config_with [(72, 0x2800); (68, 0x8002)].

Lemma pci_set_payload_spec_witness :
  exists w, calls config_write (r_tr (pci_set_payload 256 driver_init sim_express)) = [(72, w)] /\
    payload_field w = 1.
Proof.
  destruct (pci_set_payload_spec 256 driver_init sim_express (tick sim_express)
    (tick (tick sim_express)) (tick (tick (tick sim_express)))
    (tick (tick (tick (tick sim_express)))) 64 64 0x2800 0x8002 0 0) as [_ W];
    try (vm_compute; done || reflexivity).
  - left. lia.
  - destruct W as (w & W1 & W2 & _). exists w. split; [exact W1 | exact W2].
Defined.

Lemma pcie_set_readrq_spec_witness :
  exists w, calls config_write (r_tr (pcie_set_readrq 4096 driver_init sim_express)) = [(72, w)] /\
    readrq_field w = 5.
Proof.
  destruct (pcie_set_readrq_spec 5 driver_init sim_express (tick sim_express)
    (tick (tick sim_express)) 64 0x2800) as [_ W]; try (vm_compute; done || reflexivity).
  destruct W as (w & W1 & _ & W2 & _). exists w. split; [exact W1 | exact W2].
Defined.
