(* ===== verification/NfpProbe.v ===== *)
(** * Binding and unbinding a card (HOST/driver/nfp.c, lines 197 to 463, and
    HOST/driver/nfpioctl.c, lines 299 to 361)

    [nfp_probe] and [nfp_remove] with the character device they create, and the
    ledger of the resources they acquire and release. *)

From S2P Require Import Prelude Eff IoctlCommands NfpTypes Kernel SimKernel NfpPci.
From Stdlib Require Import ZArith Lia.
From stdpp Require Import base list strings.
Local Open Scope Z_scope.
Local Open Scope eff_scope.

Definition PCI_VENDOR_ID_NFP : Z := 0x10EE.
Definition PCI_DEVICE_ID_NFP : Z := 0x7038.
Definition IORESOURCE_MEM : Z := 0x200.
Definition PCI_D0 : Z := 0.
Definition PCI_ERS_RESULT_RECOVERED : Z := 5.

Section Probe.
Context {K : Type} `{!Handler kcall K}.

(** Assignments to the members of the card. *)
Definition set_dev v (c : nfp_card) : nfp_card :=
  Card (c_bar0 c) (c_bar1 c) (c_bar2 c) v (c_dev_class c) (c_dma c) (c_buffer c) (c_mmap_info c).
Definition set_dev_class v (c : nfp_card) : nfp_card :=
  Card (c_bar0 c) (c_bar1 c) (c_bar2 c) (c_dev c) v (c_dma c) (c_buffer c) (c_mmap_info c).
Definition set_bars b0 b1 b2 (c : nfp_card) : nfp_card :=
  Card b0 b1 b2 (c_dev c) (c_dev_class c) (c_dma c) (c_buffer c) (c_mmap_info c).
Definition set_dma_core v (c : nfp_card) : nfp_card :=
  Card (c_bar0 c) (c_bar1 c) (c_bar2 c) (c_dev c) (c_dev_class c) v (c_buffer c) (c_mmap_info c).
Definition set_page_list p h (m : mmap_info) : mmap_info :=
  MmapInfo (mi_last m) (mi_first m) (mi_active m) h p.

Definition nfpioctl_probe : KM K Z :=
  let* r := call K_alloc_chrdev_region in
  if negb (r.1 =? 0) then ret r.1
  else
    do* modify (set_card (set_dev r.2)) in
    let* cls := call K_class_create in
    do* modify (set_card (set_dev_class (u64 cls))) in
    let* err := call (K_IS_ERR (u64 cls)) in
    if (err : bool) then
      do* call (K_unregister_chrdev_region r.2) in
      ret (s32 (u64 cls))
    else
      let* d := call (K_device_create (u64 cls) r.2) in
      if d =? 0 then
        do* call (K_class_destroy (u64 cls)) in
        do* call (K_unregister_chrdev_region r.2) in
        ret (-1)
      else
        do* call K_cdev_init in
        let* a := call (K_cdev_add r.2) in
        if negb (a =? 0) then
          do* call (K_device_destroy (u64 cls) r.2) in
          do* call (K_class_destroy (u64 cls)) in
          do* call (K_unregister_chrdev_region r.2) in
          ret a
        else ret 0.

Definition nfpioctl_remove : KM K Z :=
  let* card := gets d_card in
  do* call K_cdev_del in
  do* call (K_device_destroy (c_dev_class card) (c_dev card)) in
  do* call (K_class_destroy (c_dev_class card)) in
  do* call (K_unregister_chrdev_region (c_dev card)) in
  ret 0.

(** if (bar) pci_iounmap (pdev, bar) *)
Definition iounmap_if (bar : Z) : KM K unit :=
  if bar =? 0 then ret tt else call (K_pci_iounmap bar).

(** The labels at the end of [nfp_probe]. *)
Definition err_out_disable_device (r : Z) : KM K Z :=
  do* call K_pci_disable_device in
  do* call (K_pci_set_drvdata 0) in
  ret r.

Definition err_out_ioctl (r : Z) : KM K Z :=
  do* call K_kfree_card in
  err_out_disable_device r.

Definition err_iface (r : Z) : KM K Z :=
  let* card := gets d_card in
  do* call (K_pci_iounmap (c_bar0 card)) in
  do* iounmap_if (c_bar1 card) in
  do* iounmap_if (c_bar2 card) in
  do* call K_pci_release_regions in
  do* call (K_pci_set_drvdata 0) in
  do* call K_pci_clear_master in
  do* call K_pci_disable_device in
  do* nfpioctl_remove in
  err_out_ioctl r.

(** Lines 261 to 297. *)
Definition probe_bars (r : Z) : KM K Z :=
  let* flags := call (K_pci_resource_flags 0) in
  if Z.land flags IORESOURCE_MEM =? 0 then err_out_ioctl r
  else
    let* r := call K_pci_request_regions in
    if negb (r =? 0) then err_out_ioctl r
    else
      let* n0 := call (K_pci_resource_len 0) in
      let* b0 := call (K_pci_iomap 0 n0) in
      let* n1 := call (K_pci_resource_len 0) in
      let* b1 := call (K_pci_iomap 1 n1) in
      let* n2 := call (K_pci_resource_len 0) in
      let* b2 := call (K_pci_iomap 2 n2) in
      do* modify (set_card (set_bars b0 b1 b2)) in
      do* modify (set_card (set_dma_core (u64 (b0 + DMA_OFFSET * 8)))) in
      let* buf := call (K_pci_alloc_consistent (MAX_PAGES * PAGE_SIZE)) in
      do* modify (set_card (set_mmap_info (set_page_list buf.1 buf.2))) in
      if buf.1 =? 0 then err_iface r
      else ret r.

Definition nfp_probe : KM K Z :=
  let* card := call K_kmalloc_card in
  if card =? 0 then ret (- ENODEV)
  else
    do* modify (set_card (fun _ => card_zero)) in
    do* call (K_sema_init 1) in
    let* r := call K_pci_enable_device in
    if negb (r =? 0) then ret (- ENODEV)
    else
      let* p := pci_set_payload 128 in
      if negb (p =? 0) then err_out_disable_device r
      else
        let* q := pcie_set_readrq 4096 in
        if negb (q =? 0) then err_out_disable_device r
        else
          let* m := call K_pci_set_dma_mask in
          if negb (m =? 0) then err_out_disable_device r
          else
            let* c := call K_pci_set_consistent_dma_mask in
            if negb (c =? 0) then err_out_disable_device r
            else
              do* call (K_pci_set_drvdata card) in
              do* call K_pci_set_master in
              let* r := nfpioctl_probe in
              if r <? 0 then err_out_ioctl r
              else probe_bars r.

Definition nfp_remove : KM K unit :=
  let* card := call K_pci_get_drvdata in
  if card =? 0 then ret tt
  else
    let* c := gets d_card in
    do* call (K_pci_free_consistent (MAX_PAGES * PAGE_SIZE)
      (mi_page_list (c_mmap_info c)) (mi_dma_handle (c_mmap_info c))) in
    do* nfpioctl_remove in
    do* call (K_pci_iounmap (c_bar0 c)) in
    do* iounmap_if (c_bar1 c) in
    do* iounmap_if (c_bar2 c) in
    do* call K_pci_release_regions in
    do* call (K_pci_set_drvdata 0) in
    do* call K_pci_clear_master in
    do* call K_pci_disable_device in
    call K_kfree_card.

(** Power management, errors, and the module itself. *)
Definition nfp_resume : KM K Z :=
  do* call (K_pci_set_power_state PCI_D0) in
  do* call K_pci_restore_state in
  ret 0.

Definition nfp_suspend (mstate : Z) : KM K Z :=
  do* call K_pci_save_state in
  let* st := call (K_pci_choose_state mstate) in
  do* call (K_pci_set_power_state st) in
  ret 0.

Definition nfp_pcie_error (state : Z) : KM K Z := ret PCI_ERS_RESULT_RECOVERED.

(** What the module registers: the identifiers, vendor and device, ended by zeros, and
    the functions, the one of [pcie_err_handlers] included. *)
Definition pci_id : list (Z * Z) := [(PCI_VENDOR_ID_NFP, PCI_DEVICE_ID_NFP); (0, 0)].

Record pci_functions := PciDriver {
  drv_name : string;
  drv_id_table : list (Z * Z);
  drv_probe : KM K Z;
  drv_remove : KM K unit;
  drv_suspend : Z -> KM K Z;
  drv_resume : KM K Z;
  drv_error_detected : Z -> KM K Z
}.

Definition pci_driver : pci_functions :=
  PciDriver "nfp"%string pci_id nfp_probe nfp_remove nfp_suspend nfp_resume nfp_pcie_error.

Definition nfp_init : KM K Z := call K_pci_register_driver.
Definition nfp_exit : KM K unit := call K_pci_unregister_driver.
End Probe.

(** ** The ledger *)

Inductive resource :=
| RCard                          (* the memory of struct nfp_card *)
| REnabled                       (* the PCI device enabled *)
| RMaster                        (* bus mastering *)
| RChrdev (dev : Z)              (* a device number *)
| RClass (cls : Z)
| RDevice (cls dev : Z)
| RCdev
| RRegions                       (* the regions of the BARs *)
| RMap (a : Z)                   (* the mapping of a BAR *)
| RBuffer (p h : Z).             (* the coherent buffer *)

#[export] Instance resource_eq_dec : EqDecision resource.
Proof. solve_decision. Defined.

Definition acquire (e : event kcall) : option resource :=
  match e with
  | Ev K_kmalloc_card r => if r =? 0 then None else Some RCard
  | Ev K_pci_enable_device r => if r =? 0 then Some REnabled else None
  | Ev K_pci_set_master _ => Some RMaster
  | Ev K_alloc_chrdev_region r => if r.1 =? 0 then Some (RChrdev r.2) else None
  | Ev (K_IS_ERR p) r => if r then None else Some (RClass p)
  | Ev (K_device_create cls dev) r => if r =? 0 then None else Some (RDevice cls dev)
  | Ev (K_cdev_add _) r => if r =? 0 then Some RCdev else None
  | Ev K_pci_request_regions r => if r =? 0 then Some RRegions else None
  | Ev (K_pci_iomap _ _) r => if r =? 0 then None else Some (RMap r)
  | Ev (K_pci_alloc_consistent _) r => if r.1 =? 0 then None else Some (RBuffer r.1 r.2)
  | _ => None
  end.

(** Unmapping address 0 releases nothing. *)
Definition release (e : event kcall) : option resource :=
  match e with
  | Ev K_kfree_card _ => Some RCard
  | Ev K_pci_disable_device _ => Some REnabled
  | Ev K_pci_clear_master _ => Some RMaster
  | Ev (K_unregister_chrdev_region d) _ => Some (RChrdev d)
  | Ev (K_class_destroy cls) _ => Some (RClass cls)
  | Ev (K_device_destroy cls dev) _ => Some (RDevice cls dev)
  | Ev K_cdev_del _ => Some RCdev
  | Ev K_pci_release_regions _ => Some RRegions
  | Ev (K_pci_iounmap a) _ => if a =? 0 then None else Some (RMap a)
  | Ev (K_pci_free_consistent _ p h) _ => Some (RBuffer p h)
  | _ => None
  end.

(** The mappings of the three BARs, those that exist. *)
Definition bars (b0 b1 b2 : Z) : list resource :=
  omap (fun b => if b =? 0 then None else Some (RMap b)) [b0; b1; b2].

Definition chrdev_resources (dev cls : Z) : list resource :=
  [RChrdev dev; RClass cls; RDevice cls dev; RCdev].

(** How a probe can end: the card it leaves, its result, what it acquired and
    what it released. *)
Inductive probe_end (c : nfp_card) : Z -> list resource -> list resource -> Prop :=
| PE_no_memory : probe_end c (- ENODEV) [] []
| PE_not_enabled : probe_end c (- ENODEV) [RCard] []
| PE_config : probe_end c 0 [RCard; REnabled] [REnabled]
| PE_chrdev v l l' :
    v < 0 -> l ≡ₚ l' ->
    probe_end c v ([RCard; REnabled; RMaster] ++ l) (l' ++ [RCard; REnabled])
| PE_bar0 dev cls :
    probe_end c 0 ([RCard; REnabled; RMaster] ++ chrdev_resources dev cls) [RCard; REnabled]
| PE_regions v dev cls :
    v <> 0 ->
    probe_end c v ([RCard; REnabled; RMaster] ++ chrdev_resources dev cls) [RCard; REnabled]
| PE_buffer dev cls b0 b1 b2 :
    probe_end c 0
      ([RCard; REnabled; RMaster] ++ chrdev_resources dev cls ++ [RRegions] ++ bars b0 b1 b2)
      (bars b0 b1 b2 ++ [RRegions; RMaster; REnabled] ++ reverse (chrdev_resources dev cls) ++
       [RCard; REnabled])
| PE_ready b0 b1 b2 p h :
    p <> 0 -> c_bar0 c = b0 -> c_bar1 c = b1 -> c_bar2 c = b2 ->
    c_dma c = u64 (b0 + DMA_OFFSET * 8) ->
    mi_page_list (c_mmap_info c) = p -> mi_dma_handle (c_mmap_info c) = h ->
    probe_end c 0
      ([RCard; REnabled; RMaster] ++ chrdev_resources (c_dev c) (c_dev_class c) ++
       [RRegions] ++ bars b0 b1 b2 ++ [RBuffer p h]) [].

Lemma probe_end_eq c v l r l' r' :
  probe_end c v l r -> l' = l -> r' = r -> probe_end c v l' r'.
Proof. by intros H -> ->. Qed.

(** Only a probe that ended well keeps a character device and releases nothing. *)
Lemma probe_end_ready c v l :
  probe_end c v l [] -> RCdev ∈ l ->
  exists b0 b1 b2 p h,
    l = [RCard; REnabled; RMaster] ++ chrdev_resources (c_dev c) (c_dev_class c) ++
        [RRegions] ++ bars b0 b1 b2 ++ [RBuffer p h] /\
    c_bar0 c = b0 /\ c_bar1 c = b1 /\ c_bar2 c = b2 /\
    mi_page_list (c_mmap_info c) = p /\ mi_dma_handle (c_mmap_info c) = h /\ p <> 0.
Proof.
  intros P. inversion P as [| | |v0 l0 l1 _ _ E0 E1 E2| | |? ? b0 b1 b2 E0 E1 E2|b0 b1 b2 p h]; subst.
  - by intros ?%elem_of_nil.
  - intros [?|?%elem_of_nil]%elem_of_cons; done.
  - by apply app_eq_nil in E2 as [_ E2].
  - by apply app_eq_nil in E2 as [_ E2].
  - intros _. do 5 eexists. done.
Qed.

Definition neutral (e : event kcall) : Prop := acquire e = None /\ release e = None.

Lemma neutral_calls t : Forall neutral t -> calls acquire t = [] /\ calls release t = [].
Proof.
  intros F. split; apply calls_none; eapply Forall_impl; try exact F; by intros e [? ?].
Qed.

Section ProbeSpec.
Context {K : Type} `{!Handler kcall K} `{!ChrdevLaws (K := K)}.

Lemma neutral_payload n : emits (K := K) neutral (pci_set_payload n).
Proof. unfold pci_set_payload. solve_emits. Qed.
Lemma neutral_readrq n : emits (K := K) neutral (pcie_set_readrq n).
Proof. unfold pcie_set_readrq. solve_emits. Qed.

Lemma pci_set_payload_done n s (k : K) :
  wp (pci_set_payload n) (fun o s' _ t => (exists v, o = Done v) /\ s' = s) s k.
Proof.
  unfold pci_set_payload.
  repeat (wp_steps; try match goal with |- wp (if ?b then _ else _) _ _ _ => destruct b end);
    eauto.
Qed.
Lemma pcie_set_readrq_done n s (k : K) :
  wp (pcie_set_readrq n) (fun o s' _ t => (exists v, o = Done v) /\ s' = s) s k.
Proof.
  unfold pcie_set_readrq.
  repeat (wp_steps; try match goal with |- wp (if ?b then _ else _) _ _ _ => destruct b end);
    eauto.
Qed.

Lemma err_ptr_negative p : 2 ^ 64 - 4095 <= u64 p -> s32 (u64 p) < 0.
Proof.
  intros H. pose proof (wrap_fits 64 p ltac:(lia)) as F. unfold fits in F.
  unfold swrap. set (x := u64 p) in *. clearbody x.
  replace (x mod 2 ^ 32) with (x - 2 ^ 32 * (2 ^ 32 - 1))
    by (apply (Z.mod_unique_pos _ _ (2 ^ 32 - 1)); lia).
  destruct (Z.ltb_spec (x - 2 ^ 32 * (2 ^ 32 - 1)) (2 ^ (32 - 1))); lia.
Qed.

Lemma wp_nfpioctl_probe s (k : K) :
  wp nfpioctl_probe (fun o s' _ t =>
    (exists dev cls, o = Done 0 /\ s' = set_card (fun c => set_dev_class cls (set_dev dev c)) s /\
      calls acquire t = chrdev_resources dev cls /\ calls release t = []) \/
    (exists v, o = Done v /\ v < 0 /\ calls acquire t ≡ₚ calls release t)) s k.
Proof.
  unfold nfpioctl_probe. wp_steps.
  pose proof (alloc_chrdev_neg k) as N1. rewrite Hans in N1. cbn [fst] in N1.
  destruct (Z.eqb_spec ans.1 0) as [E1|E1]; cbn [negb]; wp_steps.
  2: { right. exists ans.1. split; [done|]. split; [lia|]. cbn.
       by rewrite (proj2 (Z.eqb_neq _ _) E1). }
  pose proof (is_err (u64 ans0) kk0) as N2. rewrite Hans1 in N2. cbn [fst] in N2.
  rewrite wrap_wrap in N2. destruct ans1; wp_steps; symmetry in N2.
  { apply bool_decide_eq_true in N2. right. eexists. split; [done|].
    split; [by apply err_ptr_negative|]. cbn. by rewrite E1. }
  destruct (Z.eqb_spec ans1 0) as [E3|E3]; wp_steps.
  { right. eexists. split; [done|]. split; [lia|]. cbn. rewrite E1, E3. cbn.
    apply Permutation_swap. }
  pose proof (cdev_add_neg ans.2 kk3) as N4. rewrite Hans4 in N4. cbn [fst] in N4.
  apply (proj2 (Z.eqb_neq _ _)) in E3.
  destruct (Z.eqb_spec ans3 0) as [E4|E4]; cbn [negb]; wp_steps.
  - left. exists ans.2, (u64 ans0). split; [done|]. split; [done|].
    cbn. by rewrite E1, E3, E4.
  - right. exists ans3. split; [done|]. split; [lia|]. cbn.
    rewrite E1, E3, (proj2 (Z.eqb_neq _ _) E4). cbn.
    apply (Permutation_rev [RChrdev ans.2; RClass (u64 ans0); RDevice (u64 ans0) ans.2]).
Qed.

Lemma wp_nfpioctl_remove s (k : K) :
  wp nfpioctl_remove (fun o s' _ t => o = Done 0 /\ s' = s /\ calls acquire t = [] /\
    calls release t = reverse (chrdev_resources (c_dev (d_card s)) (c_dev_class (d_card s)))) s k.
Proof. unfold nfpioctl_remove. wp_steps. by unit_answers. Qed.

Lemma wp_iounmap_bars b0 b1 b2 s (k : K) :
  wp (do* call (K_pci_iounmap b0) in do* iounmap_if b1 in iounmap_if b2)
    (fun o s' _ t => o = Done tt /\ s' = s /\ calls acquire t = [] /\
      calls release t = bars b0 b1 b2) s k.
Proof.
  unfold iounmap_if. wp_steps. destruct (b1 =? 0) eqn:E1, (b2 =? 0) eqn:E2; wp_steps;
    unit_answers; (split; [done|]); (split; [done|]); (split; [done|]);
    cbn; rewrite ?E1, ?E2; by destruct (b0 =? 0).
Qed.

Lemma wp_err_iface r s (k : K) :
  wp (err_iface r) (fun o s' _ t => o = Done r /\ s' = s /\ calls acquire t = [] /\
    calls release t =
      bars (c_bar0 (d_card s)) (c_bar1 (d_card s)) (c_bar2 (d_card s)) ++
      [RRegions; RMaster; REnabled] ++
      reverse (chrdev_resources (c_dev (d_card s)) (c_dev_class (d_card s))) ++
      [RCard; REnabled]) s k.
Proof.
  unfold err_iface, iounmap_if. wp_steps.
  destruct (c_bar1 (d_card s) =? 0) eqn:E1, (c_bar2 (d_card s) =? 0) eqn:E2; wp_steps;
    (eapply wp_mono; [apply wp_nfpioctl_remove|]);
    intros o s' k' t (-> & -> & A & R); unfold err_out_ioctl, err_out_disable_device;
    wp_steps; unit_answers; (split; [done|]); (split; [done|]);
    rewrite !calls_app, A, R; (split; [done|]); unfold bars; cbn; rewrite ?E1, ?E2;
    by destruct (c_bar0 (d_card s) =? 0).
Qed.

(** What the probe has once the character device is there. *)
Definition probed (dev cls : Z) : list resource :=
  [RCard; REnabled; RMaster] ++ chrdev_resources dev cls.

Lemma wp_probe_bars s (k : K) :
  wp (probe_bars 0) (fun o s' _ t => exists v, o = Done v /\
    probe_end (d_card s') v
      (probed (c_dev (d_card s)) (c_dev_class (d_card s)) ++ calls acquire t)
      (calls release t)) s k.
Proof.
  unfold probe_bars. wp_step. wp_step. destruct (Z.land ans IORESOURCE_MEM =? 0).
  { unfold err_out_ioctl, err_out_disable_device. wp_steps. exists 0. split; [done|].
    cbn. constructor. }
  wp_step. wp_step. destruct (Z.eqb_spec ans0 0) as [-> | E]; cbn [negb].
  2: { unfold err_out_ioctl, err_out_disable_device. wp_steps. exists ans0. split; [done|].
    cbn. rewrite (proj2 (Z.eqb_neq _ _) E). by constructor. }
  wp_steps. destruct (Z.eqb_spec ans6.1 0) as [E | E].
  - eapply wp_mono; [apply wp_err_iface|]. intros o s' k' t (-> & -> & A & R). exists 0.
    split; [done|]. rewrite !calls_app, A, R.
    apply (probe_end_eq _ _ _ _ _ _ (PE_buffer _ (c_dev (d_card s)) (c_dev_class (d_card s))
      ans1 ans3 ans5)); [|done].
    unfold probed, bars. cbn. rewrite E. by destruct (ans1 =? 0), (ans3 =? 0), (ans5 =? 0).
  - wp_steps. exists 0. split; [done|].
    eapply probe_end_eq; [by apply (PE_ready _ ans1 ans3 ans5 ans6.1 ans6.2)| |done].
    unfold probed, bars. cbn. rewrite (proj2 (Z.eqb_neq _ _) E).
    by destruct (ans1 =? 0), (ans3 =? 0), (ans5 =? 0).
Qed.

Ltac ledger := cbn [calls omap list_omap acquire release app fst snd].

(** A run after which a probe that acquired [A] and released [R] before is over. *)
Definition ends (A R : list resource) (m : KM K Z) (s : driver) (k : K) : Prop :=
  wp m (fun o s' _ t => exists v, o = Done v /\
    probe_end (d_card s') v (A ++ calls acquire t) (R ++ calls release t)) s k.

Lemma ends_call {X} A R (c : kcall X) f s (k : K) :
  (forall ans k', handle c k = (ans, k') ->
    ends (A ++ calls acquire [Ev c ans]) (R ++ calls release [Ev c ans]) (f ans) s k') ->
  ends A R (bind (call c) f) s k.
Proof.
  intros H. unfold ends. wp_steps. eapply wp_mono; [by apply H|].
  intros o s' k' t (v & -> & P). exists v. split; [done|].
  by rewrite !calls_app, !app_assoc.
Qed.

Lemma ends_modify A R g f s (k : K) :
  ends A R (f tt) (g s) k -> ends A R (bind (modify g) f) s k.
Proof. done. Qed.

Lemma ends_quiet {X} A R (m : KM K X) f s (k : K) :
  wp m (fun o s' _ t => (exists v, o = Done v) /\ s' = s) s k -> emits neutral m ->
  (forall ans k', ends A R (f ans) s k') -> ends A R (bind m f) s k.
Proof.
  intros W N H. unfold ends. wp_step. eapply wp_mono; [by apply (emits_wp neutral)|].
  intros o s1 k1 t1 [((x & ->) & ->) [E1 E2]%neutral_calls].
  eapply wp_mono; [apply H|]. intros o s' k' t P. by rewrite !calls_app, E1, E2.
Qed.

Lemma ends_config s (k : K) : ends [RCard; REnabled] [] (err_out_disable_device 0) s k.
Proof.
  unfold ends, err_out_disable_device. wp_steps. exists 0. split; [done | constructor].
Qed.

Lemma ends_chrdev s (k : K) :
  ends [RCard; REnabled; RMaster] []
    (let* r := nfpioctl_probe in if r <? 0 then err_out_ioctl r else probe_bars r) s k.
Proof.
  unfold ends. wp_step. eapply wp_mono; [apply wp_nfpioctl_probe|].
  intros o s1 k1 t1 [(dev & cls & -> & -> & A & R) | (v & -> & Hv & P)].
  - change (0 <? 0) with false. eapply wp_mono; [apply wp_probe_bars|].
    intros o s2 k2 t2 (v & -> & P). exists v. split; [done|].
    by rewrite !calls_app, A, R.
  - destruct (Z.ltb_spec v 0); [|lia]. unfold err_out_ioctl, err_out_disable_device.
    wp_steps. exists v. split; [done|]. rewrite !calls_app. cbn [calls omap list_omap acquire release].
    rewrite ?app_nil_r. by apply PE_chrdev.
Qed.

Lemma wp_nfp_probe s (k : K) :
  wp nfp_probe (fun o s' _ t => exists v, o = Done v /\
    probe_end (d_card s') v (calls acquire t) (calls release t)) s k.
Proof.
  change (ends [] [] nfp_probe s k). unfold nfp_probe.
  apply ends_call. intros card k0 _. ledger.
  destruct (card =? 0); [exists (- ENODEV); split; [done | constructor]|].
  apply ends_modify.
  apply ends_call. intros u k1 _. apply ends_call. intros r k2 _. ledger.
  destruct (Z.eqb_spec r 0) as [->|E1]; cbn [negb];
    [|exists (- ENODEV); split; [done | constructor]].
  apply ends_quiet; [apply pci_set_payload_done | apply neutral_payload|].
  intros p k3. destruct (negb _); [apply ends_config|].
  apply ends_quiet; [apply pcie_set_readrq_done | apply neutral_readrq|].
  intros q k4. destruct (negb _); [apply ends_config|].
  apply ends_call. intros m k5 _. ledger. destruct (negb _); [apply ends_config|].
  apply ends_call. intros c k6 _. ledger. destruct (negb _); [apply ends_config|].
  apply ends_call. intros u7 k7 _. apply ends_call. intros u8 k8 _. apply ends_chrdev.
Qed.

(** C27.  Whatever the kernel answers, a probe returns, and ends in one of the ways of
    [probe_end]. *)
Theorem nfp_probe_outcomes s (k : K) :
  let r := nfp_probe s k in
  exists v, r_out r = Done v /\
    probe_end (d_card (r_st r)) v (calls acquire (r_tr r)) (calls release (r_tr r)).
Proof. intros r. exact (wp_nfp_probe s k). Qed.

Lemma wp_nfp_remove s (k k1 : K) card :
  handle K_pci_get_drvdata k = (card, k1) -> card <> 0 ->
  let c := d_card s in
  wp nfp_remove (fun o s' _ t => o = Done tt /\ calls acquire t = [] /\
    calls release t =
      [RBuffer (mi_page_list (c_mmap_info c)) (mi_dma_handle (c_mmap_info c))] ++
      reverse (chrdev_resources (c_dev c) (c_dev_class c)) ++
      bars (c_bar0 c) (c_bar1 c) (c_bar2 c) ++ [RRegions; RMaster; REnabled; RCard]) s k.
Proof.
  intros Hd Hc c. unfold nfp_remove, iounmap_if. wp_steps. rewrite Hd in Hans. simplify_eq.
  destruct (Z.eqb_spec ans 0); [done|]. wp_steps.
  eapply wp_mono; [apply wp_nfpioctl_remove|]. intros o s1 k2 t1 (-> & -> & A & R). fold c in R.
  wp_steps. fold c. destruct (c_bar1 c =? 0) eqn:E1, (c_bar2 c =? 0) eqn:E2; wp_steps; unit_answers;
    (split; [done|]); rewrite !calls_app, A, R; (split; [done|]);
    unfold bars; cbn; rewrite ?E1, ?E2; by destruct (c_bar0 c =? 0).
Qed.

Lemma ledger_permutation dev cls b0 b1 b2 p h :
  [RBuffer p h] ++ reverse (chrdev_resources dev cls) ++ bars b0 b1 b2 ++
    [RRegions; RMaster; REnabled; RCard] ≡ₚ
  [RCard; REnabled; RMaster] ++ chrdev_resources dev cls ++ [RRegions] ++ bars b0 b1 b2 ++
    [RBuffer p h].
Proof.
  rewrite reverse_Permutation. rewrite (Permutation_app_comm [RBuffer p h]), <- !app_assoc.
  rewrite (Permutation_app_swap_app _ (chrdev_resources dev cls)).
  apply Permutation_app_head.
  rewrite (Permutation_app_swap_app [RRegions]), (Permutation_app_swap_app _ (bars b0 b1 b2)).
  apply Permutation_app_head.
  apply (Permutation_app_tail [RBuffer p h]
    (Permutation_rev [RRegions; RMaster; REnabled; RCard])).
Qed.

(** A probe that ended well. *)
Definition probe_ready (t : ktrace) : Prop :=
  calls release t = [] /\ RCdev ∈ calls acquire t.

(** C30.  Removing the driver from a card whose probe ended well releases each resource
    the probe acquired, exactly once. *)
Theorem nfp_remove_releases s (k k1 : K) card :
  let r := nfp_probe s k in
  probe_ready (r_tr r) -> handle K_pci_get_drvdata (r_k r) = (card, k1) -> card <> 0 ->
  let q := nfp_remove (r_st r) (r_k r) in
  r_out q = Done tt /\ calls acquire (r_tr q) = [] /\
  calls release (r_tr q) ≡ₚ calls acquire (r_tr r).
Proof.
  intros r [Rel In] Hd Hc q.
  pose proof (wp_nfp_probe s k) as W. unfold wp in W. fold r in W. cbn zeta in W.
  destruct W as (v & _ & P). rewrite Rel in P.
  destruct (probe_end_ready _ _ _ P In) as (b0 & b1 & b2 & p & h & E & C0 & C1 & C2 & C3 & C4 & _).
  pose proof (wp_nfp_remove (r_st r) (r_k r) k1 card Hd Hc) as W. unfold wp in W. fold q in W.
  destruct W as (W1 & W2 & W3). split; [done|]. split; [done|].
  rewrite W3, E, C0, C1, C2, C3, C4. apply ledger_permutation.
Qed.
End ProbeSpec.

(** ** Witnesses *)

(** The concrete kernel with a device that has a PCI Express capability. *)
Definition probe_on (x : site) : res kcall sim driver Z := nfp_probe driver_init (sim_failing x).

Lemma nfp_probe_outcomes_witness :
  exists v, r_out (probe_on FailCdev) = Done v /\
    probe_end (d_card (r_st (probe_on FailCdev))) v
      (calls acquire (r_tr (probe_on FailCdev))) (calls release (r_tr (probe_on FailCdev))).
Proof. apply (nfp_probe_outcomes driver_init (sim_failing FailCdev)). Defined.

Lemma nfp_remove_releases_witness :
  let r := probe_on NoFailure in
  let q := nfp_remove (r_st r) (r_k r) in
  calls release (r_tr q) ≡ₚ calls acquire (r_tr r).
Proof.
  apply (nfp_remove_releases driver_init (sim_failing NoFailure)
    (handle K_pci_get_drvdata (r_k (probe_on NoFailure))).2 16384).
  - split; [vm_compute; reflexivity|].
    apply (bool_decide_unpack (RCdev ∈ calls acquire (r_tr (probe_on NoFailure)))).
    vm_compute. done.
  - vm_compute. reflexivity.
  - done.
Defined.

(** The failures in which a probe reports success, leaks or frees twice, by the call
    that fails. *)
Theorem probe_failures :
  (fun x => (r_out (probe_on x), Z.of_nat (length (calls acquire (r_tr (probe_on x)))),
             Z.of_nat (length (calls release (r_tr (probe_on x)))))) <$>
    [FailKmalloc; FailEnable; FailCap; FailReadConfig; FailDmaMask; FailConsistentMask;
     FailChrdev; FailClass; FailDevice; FailCdev; FailResourceFlags; FailRequestRegions;
     FailAllocConsistent; NoFailure] =
  [ (Done (-19), 0, 0); (Done (-19), 1, 0); (Done 0, 2, 1); (Done 0, 2, 1); (Done 0, 2, 1);
    (Done 0, 2, 1); (Done (-16), 3, 2); (Done (-12), 4, 3); (Done (-1), 5, 4);
    (Done (-12), 6, 5); (Done 0, 7, 2); (Done (-16), 7, 2); (Done 0, 11, 12); (Done 0, 12, 0) ].
Proof. vm_compute. reflexivity. Qed.
