(* ===== verification/NfpDriver.v ===== *)
(** * The driver as a whole

    The table of file operations (HOST/driver/nfpioctl.c, lines 237 to 239 and 287 to
    296) over the components of the driver, what holds of its state between any two of
    them, whatever the user and the kernel do, and what probing the card establishes. *)

From S2P Require Import Prelude Eff IoctlCommands NfpTypes Kernel SimKernel Reg NfpDma NfpMem.
From S2P Require Import NfpIoctl MmapRing NfpPci NfpProbe.
From Stdlib Require Import ZArith Lia.
From stdpp Require Import base list.
Local Open Scope Z_scope.
Local Open Scope eff_scope.

(** ** File operations *)

Inductive file_operation :=
| FOpen (card : Z) (filp : file)
| FRelease (filp : file)
| FRead (length : Z)
| FWrite (len : Z)
| FIoctl (cmd arg : Z)          (* unlocked_ioctl and compat_ioctl *)
| FMmap (vma : vm_area)
| FClose (vma : vm_area).       (* the close of mmap_vm_ops *)

Section Operations.
Context {K : Type} `{!Handler kcall K} `{E : IocEncoding}.

Definition nfp_ops (fuel : nat) (op : file_operation) : KM K Z :=
  match op with
  | FOpen card filp => ret (nfp_open card filp).1
  | FRelease filp => ret (nfp_release filp).1
  | FRead length => ret (nfp_read length)
  | FWrite len => ret (nfp_write len)
  | FIoctl cmd arg => nfp_ioctl fuel cmd arg
  | FMmap vma => nfp_mmap vma
  | FClose vma => do* vm_close mmap_vm_ops vma in ret 0
  end.

(** Operations one after the other; the results are the user's. *)
Fixpoint history (fuel : nat) (ops : list file_operation) : KM K (list Z) :=
  match ops with
  | [] => ret []
  | op :: ops' =>
      let* v := nfp_ops fuel op in
      let* vs := history fuel ops' in
      ret (v :: vs)
  end.

(** The areas of the user are areas. *)
Definition op_ok (op : file_operation) : Prop :=
  match op with FMmap vma | FClose vma => area_ok vma | _ => True end.
End Operations.

(** ** The invariant *)

(** What only [nfp_probe] sets. *)
Definition hardware (c : nfp_card) : Z * Z * Z * Z * Z * Z * Z * Z :=
  (c_bar0 c, c_bar1 c, c_bar2 c, c_dev c, c_dev_class c, c_dma c,
   mi_dma_handle (c_mmap_info c), mi_page_list (c_mmap_info c)).

Record core (c : nfp_card) (s : driver) : Prop := Core {
  core_dma : dma_wf (d_dma s);
  core_pages : length (m_page_address (c_buffer (d_card s))) = 16%nat;
  core_first : 0 <= mi_first (c_mmap_info (d_card s)) < MAX_PAGES;
  core_last : 0 <= mi_last (c_mmap_info (d_card s)) < MAX_PAGES;
  core_hardware : hardware (d_card s) = hardware c
}.

(** The arrays have their sizes, the indices are in their ranges, the card is where it
    was, and there are no more pages pinned than the array of pages has. *)
Definition driver_wf (c : nfp_card) (s : driver) : Prop :=
  core c s /\ g_num_pages (d_mem s) <= Z.of_nat (length (g_pages (d_mem s))).

Lemma wf_set_dma c f s :
  dma_wf (f (d_dma s)) -> driver_wf c s -> driver_wf c (set_dma f s).
Proof. intros Hf [[? ? ? ? ?] Hn]. by split. Qed.

Lemma wf_set_buffer c f s :
  length (m_page_address (f (c_buffer (d_card s)))) = 16%nat ->
  driver_wf c s -> driver_wf c (set_card (set_buffer f) s).
Proof. intros Hf [[? ? ? ? ?] Hn]. by split. Qed.

Lemma wf_set_ring c f s :
  let mi := f (c_mmap_info (d_card s)) in
  0 <= mi_first mi < MAX_PAGES -> 0 <= mi_last mi < MAX_PAGES ->
  mi_dma_handle mi = mi_dma_handle (c_mmap_info (d_card s)) ->
  mi_page_list mi = mi_page_list (c_mmap_info (d_card s)) ->
  driver_wf c s -> driver_wf c (set_card (set_mmap_info f) s).
Proof.
  intros mi H1 H2 H3 H4 [[? ? ? ? Hh] Hn]. split; [|done]. split; try done.
  rewrite <- Hh. unfold hardware. cbn. fold mi. by rewrite H3, H4.
Qed.

(** ** Every operation keeps it *)

Section Keeps.
Context {K : Type} `{!Handler kcall K} {addr_of : Z -> Z} `{!PageLaws addr_of}.
Context `{!MemoryBound (K := K)} `{E : IocEncoding}.
Variable c : nfp_card.

Lemma preserves_write fuel dd : preserves (C := kcall) (K := K) (driver_wf c) (writeDMADescriptor fuel dd).
Proof.
  intros s k Hwf. pose proof Hwf as [[Hd _ _ _ _] _].
  destruct (decide (0 <= dd_index dd < MAX_NUM_DMA_DESCRIPTORS)) as [Hj | Hj].
  - eapply wp_mono; [by apply wp_writeDMADescriptor|]. intros o s' k' t (pa & _ & W).
    pose proof (programmed_wf dd pa _ Hd Hj) as P.
    destruct (dd_enable dd =? 0).
    + destruct W as (-> & -> & _). by apply wf_set_dma.
    + destruct W as (_ & st & e & [(-> & _) | (-> & -> & _)]); [done|].
      apply wf_set_dma; [by apply stopped_wf | done].
  - unfold writeDMADescriptor. wp_step. eapply wp_mono; [by apply wp_program_descriptor_out|].
    by intros o s' k' t (-> & _).
Qed.

Lemma preserves_read dd : preserves (C := kcall) (K := K) (driver_wf c) (readDMADescriptor dd).
Proof. unfold readDMADescriptor, descriptor_read8, dma_base. solve_preserves. Qed.
Lemma preserves_window ws : preserves (C := kcall) (K := K) (driver_wf c) (dma_set_window_size ws).
Proof. unfold dma_set_window_size, engine_write8, dma_base. solve_preserves. Qed.
Lemma preserves_WriteReg32 r : preserves (C := kcall) (K := K) (driver_wf c) (WriteReg32 r).
Proof. unfold WriteReg32. solve_preserves. Qed.
Lemma preserves_ReadReg32 r : preserves (C := kcall) (K := K) (driver_wf c) (ReadReg32 r).
Proof. unfold ReadReg32. solve_preserves. Qed.
Lemma preserves_address dd : preserves (C := kcall) (K := K) (driver_wf c) (descriptor_address dd).
Proof. unfold descriptor_address. solve_preserves. Qed.

Lemma preserves_set_buffer f :
  (forall m, length (m_page_address (f m)) = length (m_page_address m)) ->
  preserves (C := kcall) (K := K) (driver_wf c) (modify (set_card (set_buffer f))).
Proof.
  intros Hf. apply preserves_modify. intros s Hs. apply wf_set_buffer; [|done].
  rewrite Hf. apply Hs.
Qed.

Lemma preserves_forget_page l i : preserves (C := kcall) (K := K) (driver_wf c) (forget_page l i).
Proof. unfold forget_page. solve_preserves. Qed.
#[local] Hint Resolve preserves_write preserves_read preserves_window preserves_WriteReg32
  preserves_ReadReg32 preserves_address preserves_set_buffer preserves_forget_page : preserves.

Lemma preserves_unreg : preserves (C := kcall) (K := K) (driver_wf c) unreg_hugemem.
Proof.
  unfold unreg_hugemem, forgetUserHugePages. solve_preserves.
  apply preserves_modify. intros s [Hc Hn]. split; [|cbn; lia]. destruct Hc. by split.
Qed.

#[local] Hint Resolve preserves_unreg : preserves.

(** Pages of 4 KB: their numbers have 52 bits. *)
Lemma page_number_range x : 0 <= Z.shiftr (Z.land x PAGE_MASK) PAGE_SHIFT < 2 ^ 52.
Proof.
  unfold PAGE_SHIFT. rewrite Z.shiftr_land. change (Z.shiftr PAGE_MASK 12) with (Z.ones 52).
  rewrite Z.land_ones by lia. by apply Z.mod_pos_bound.
Qed.

(** An array of pages that fits in memory has an element for each page. *)
Lemma array_count d :
  - 2 ^ 52 < d <= 2 ^ 52 -> u64 (u64 d * 8) / 8 < 2 ^ 53 -> 0 <= u64 d /\ u64 (u64 d * 8) / 8 = u64 d.
Proof.
  intros Hd. destruct (Z.lt_ge_cases d 0) as [Hn | Hn].
  - assert (E1 : u64 d = d + 2 ^ 64).
    { unfold wrap. rewrite <- (Z.mod_add d 1) by lia. apply Z.mod_small. lia. }
    rewrite E1. assert (E2 : u64 ((d + 2 ^ 64) * 8) = (d + 2 ^ 61) * 8).
    { unfold wrap. replace ((d + 2 ^ 64) * 8) with ((d + 2 ^ 61) * 8 + 7 * 2 ^ 64) by lia.
      rewrite Z.mod_add by lia. apply Z.mod_small. lia. }
    rewrite E2, Z.div_mul by lia. lia.
  - intros _. rewrite (wrap_id 64 d) by (unfold fits; lia). split; [done|].
    rewrite wrap_id by (unfold fits; lia). by apply Z.div_mul.
Qed.

Lemma npages_array udata nbytes :
  let n := user_npages udata nbytes in
  u64 (n * 8) / 8 < 2 ^ 53 -> 0 <= n /\ u64 (n * 8) / 8 = n.
Proof.
  apply array_count. unfold first_page, last_page.
  pose proof (page_number_range udata). pose proof (page_number_range (u64 (udata + nbytes - 1))).
  lia.
Qed.

Lemma pinned_range n x : 0 <= n -> -4095 <= x <= n -> s32 x <= n.
Proof.
  intros Hn Hx. unfold swrap. destruct (Z.ltb_spec (x mod 2 ^ 32) (2 ^ (32 - 1)));
    Z.to_euclidean_division_equations; lia.
Qed.

(** Between pinning the pages and counting them: [n] pages are pinned. *)
Definition pinned (n : Z) (s : driver) : Prop :=
  core c s /\ n <= Z.of_nat (length (g_pages (d_mem s))).

Lemma preserves_record n hp pag i :
  preserves (C := kcall) (K := K) (pinned n) (record_huge_page hp pag i).
Proof.
  intros s k [[H1 H2 H3 H4 H5] Hn]. unfold record_huge_page. wp_steps; try done.
  split; [|done]. split; try done. cbn. by erewrite arr_set_length by done.
Qed.

Lemma wp_getUserHugePages_wf db s (k : K) :
  driver_wf c s ->
  wp (getUserHugePages db) (fun o s' _ _ =>
    match o with Done n => pinned n s' | Stop _ => True end) s k.
Proof.
  intros Hs. unfold getUserHugePages. wp_steps. destruct ans as [pag|]; wp_steps.
  2: { split; [apply Hs | unfold EFAULT; lia]. }
  pose proof (vmalloc_length (addr_of := addr_of) _ _ k (f_equal fst Hans)) as L.
  pose proof (vmalloc_bound _ _ k (f_equal fst Hans)) as Bd.
  destruct (npages_array _ _ Bd) as [N0 N1]. rewrite N1 in L.
  set (n := user_npages (db_data db) (db_length db)) in *.
  pose proof (gup_length (addr_of := addr_of) (db_data db) n pag kk0) as G1.
  pose proof (gup_count (addr_of := addr_of) (db_data db) n pag kk0 N0) as G2.
  rewrite Hans1 in G1, G2. cbn [fst] in G1, G2. destruct (db_hp_size db =? 0); [by wp_step|].
  wp_step. eapply wp_mono; [apply (preserves_for_range (pinned (s32 ans0.1)))|].
  - intros i. apply preserves_record.
  - pose proof (pinned_range n ans0.1 N0 G2). split; [|cbn; lia].
    destruct Hs as [[? ? ? ? ?] _]. by split.
  - intros [[]|h] s' k' t Hp; [|done]. wp_steps. destruct Hp as [[? ? ? ? ?] ?].
    split; [by split | done].
Qed.

Lemma preserves_reg db : preserves (C := kcall) (K := K) (driver_wf c) (reg_hugemem db).
Proof.
  intros s k Hs. unfold reg_hugemem. wp_step.
  eapply wp_mono; [by apply wp_getUserHugePages_wf|].
  intros [n|h] s' k' t Hp; [|done]. wp_step. apply wp_modify.
  assert (Hs' : driver_wf c (set_mem (set_num_pages n) s'))
    by (destruct Hp as [[? ? ? ? ?] ?]; by split).
  revert Hs'. generalize (set_mem (set_num_pages n) s'). intros s1 Hs1.
  match goal with |- wp ?m _ _ _ => assert (P : preserves (C := kcall) (driver_wf c) m)
    by solve_preserves end.
  exact (P s1 k' Hs1).
Qed.
#[local] Hint Resolve preserves_reg : preserves.

Lemma preserves_fetch arg size decode :
  preserves (C := kcall) (K := K) (driver_wf c) (fetch arg size decode).
Proof. unfold fetch. solve_preserves. Qed.
#[local] Hint Resolve preserves_fetch : preserves.

Lemma preserves_ioctl fuel cmd arg :
  preserves (C := kcall) (K := K) (driver_wf c) (nfp_ioctl fuel cmd arg).
Proof. unfold nfp_ioctl, fetch_argument, dispatch. solve_preserves. Qed.

Lemma rem_range a : 0 <= a -> 0 <= Z.rem a MAX_PAGES < MAX_PAGES.
Proof. intros Ha. rewrite Z.rem_mod_nonneg by done. by apply Z.mod_pos_bound. Qed.

Lemma next_page_range i vma :
  0 <= i < MAX_PAGES -> area_ok vma ->
  0 <= Z.rem (s32 (i + vma_npages vma)) MAX_PAGES < MAX_PAGES.
Proof.
  intros Hi Hv. pose proof (vma_npages_range vma Hv). unfold MAX_PAGES in Hi.
  rewrite swrap_id by lia. apply rem_range. lia.
Qed.

Lemma preserves_mmap vma :
  area_ok vma -> preserves (C := kcall) (K := K) (driver_wf c) (nfp_mmap vma).
Proof.
  intros Hv s k Hs. pose proof Hs as [[_ _ Hf Hl _] _]. unfold nfp_mmap, mmap_kmem. wp_steps.
  destruct (no_free_elements _ _ _ _); wp_steps; [done|].
  destruct (s32 ans0 <? 0); wp_steps; [done|].
  apply wf_set_ring; try done. by apply next_page_range.
Qed.

Lemma preserves_close vma :
  area_ok vma -> preserves (C := kcall) (K := K) (driver_wf c) (mmap_close vma).
Proof.
  intros Hv s k Hs. pose proof Hs as [[_ _ Hf Hl _] _]. unfold mmap_close. wp_steps.
  destruct (_ =? _); wp_steps; apply wf_set_ring; try done. by apply next_page_range.
Qed.

Lemma preserves_op fuel op :
  op_ok op -> preserves (C := kcall) (K := K) (driver_wf c) (nfp_ops fuel op).
Proof.
  destruct op; cbn [op_ok nfp_ops]; intros Ho; auto using preserves_ioctl, preserves_mmap with preserves.
  apply preserves_bind; [by apply preserves_close | solve_preserves].
Qed.

Lemma preserves_history fuel ops :
  Forall op_ok ops -> preserves (C := kcall) (K := K) (driver_wf c) (history fuel ops).
Proof.
  induction 1 as [|op ops Hop _ IH]; cbn [history]; [apply preserves_ret|].
  apply preserves_bind; [by apply preserves_op|]. intros v.
  apply preserves_bind; [exact IH | intros vs'; apply preserves_ret].
Qed.

(** Unregistering finds in the array every page it gives back. *)
Lemma unreg_returns s (k : K) : driver_wf c s -> r_out (unreg_hugemem s k) = Done 0.
Proof.
  intros [_ Hn].
  enough (W : wp unreg_hugemem (fun o _ _ _ => o = Done 0) s k) by exact W.
  unfold unreg_hugemem, forgetUserHugePages. wp_steps. destruct (_ =? 0); wp_steps; [done|].
  cbn [d_mem set_card].
  eapply (wp_for_range _ _ _ (fun _ _ _ _ => True)); [done| |].
  - intros i s1 k1 t1 Hi _. destruct (arr_get_in (g_pages (d_mem s)) i) as [p Hp];
      [destruct (Z.lt_ge_cases (g_num_pages (d_mem s)) 0); lia|].
    eapply wp_mono; [by apply wp_forget_page|]. by intros o s2 k2 t2 (-> & _).
  - intros s1 k1 t1 _. by wp_steps.
Qed.

(** C21.  The invariant of the driver.  Through any sequence of file operations with any
    arguments, and whatever the kernel and the device answer, as long as the operations
    have results: the arrays keep their sizes, the indices of the ring and of the next
    descriptor stay in their ranges, no more pages are taken for pinned than the array of
    pages has, so that unregistering always has a result, and the addresses of the BARs,
    of the engine, of the buffer and of the character device stay those of the probe. *)
Theorem driver_invariant fuel ops s (k : K) vs :
  Forall op_ok ops -> driver_wf c s ->
  let r := history fuel ops s k in
  r_out r = Done vs ->
  driver_wf c (r_st r) /\ forall k', r_out (unreg_hugemem (r_st r) k') = Done 0.
Proof.
  intros Ho Hs r Hr. pose proof (preserves_history fuel ops Ho s k Hs) as P.
  unfold wp in P. fold r in P. rewrite Hr in P. split; [exact P|].
  intros k'. by apply unreg_returns.
Qed.
End Keeps.

(** ** The probe *)

Section Probed.
Context {K : Type} `{!Handler kcall K} `{!ChrdevLaws (K := K)}.

(** A card that has just been cleared, next to these globals. *)
Definition cleared (g : dma_globals) (m : mem_globals) (s : driver) : Prop :=
  d_dma s = g /\ d_mem s = m /\ length (m_page_address (c_buffer (d_card s))) = 16%nat /\
  mi_first (c_mmap_info (d_card s)) = 0 /\ mi_last (c_mmap_info (d_card s)) = 0.

Lemma cleared_modify g m f :
  (forall c, c_buffer (f c) = c_buffer c /\ mi_first (c_mmap_info (f c)) = mi_first (c_mmap_info c) /\
    mi_last (c_mmap_info (f c)) = mi_last (c_mmap_info c)) ->
  preserves (C := kcall) (K := K) (cleared g m) (modify (set_card f)).
Proof.
  intros Hf. apply preserves_modify. intros s (H1 & H2 & H3 & H4 & H5).
  destruct (Hf (d_card s)) as (F1 & F2 & F3). unfold cleared, set_card; cbn.
  by rewrite F1, F2, F3.
Qed.
#[local] Hint Extern 1 (preserves _ (modify (set_card _))) =>
  apply cleared_modify; intros []; done : preserves.

Lemma wp_probe_cleared s (k : K) :
  wp nfp_probe (fun o s' _ t =>
    match o with
    | Done _ => cleared (d_dma s) (d_mem s) s' \/ calls acquire t = []
    | Stop _ => True
    end) s k.
Proof.
  unfold nfp_probe. wp_step. wp_step. destruct (Z.eqb_spec ans 0) as [-> | Hc].
  { wp_step. by right. }
  wp_step. wp_step.
  match goal with |- wp ?m _ _ _ =>
    assert (P : preserves (C := kcall) (K := K) (cleared (d_dma s) (d_mem s)) m) end.
  { unfold probe_bars, nfpioctl_probe, pci_set_payload, pcie_set_readrq, err_iface, nfpioctl_remove,
      iounmap_if, err_out_ioctl, err_out_disable_device. solve_preserves. }
  eapply wp_mono; [by apply P|]. intros [v|h] s' k' t Hs'; [by left | done].
Qed.

Lemma probe_end_dma c v l :
  probe_end c v l [] -> RCdev ∈ l -> c_dma c = u64 (c_bar0 c + DMA_OFFSET * 8).
Proof.
  intros P. inversion P as [| | |v0 l0 l1 _ _ E0 E1 E2| | |? ? b0 b1 b2 E0 E1 E2|b0 b1 b2 p h]; subst.
  - by intros ?%elem_of_nil.
  - intros [?|?%elem_of_nil]%elem_of_cons; done.
  - by apply app_eq_nil in E2 as [_ E2].
  - by apply app_eq_nil in E2 as [_ E2].
  - done.
Qed.

Lemma probe_wf s (k : K) :
  dma_wf (d_dma s) -> g_num_pages (d_mem s) <= Z.of_nat (length (g_pages (d_mem s))) ->
  let r := nfp_probe s k in
  let c := d_card (r_st r) in
  probe_ready (r_tr r) -> fits 64 (c_bar0 c + 8 * DMA_OFFSET) ->
  driver_wf c (r_st r) /\ c_dma c = c_bar0 c + 8 * DMA_OFFSET.
Proof.
  intros Hd Hn r c [Hr Hc] Hf.
  pose proof (wp_nfp_probe s k) as W. unfold wp in W. cbv zeta in W. fold r in W.
  destruct W as (v & O & P). rewrite Hr in P. pose proof (probe_end_dma _ _ _ P Hc) as D. fold c in D.
  pose proof (wp_probe_cleared s k) as W. unfold wp in W. fold r in W. rewrite O in W.
  destruct W as [(E1 & E2 & E3 & E4 & E5) | E]; [|by rewrite E in Hc; apply elem_of_nil in Hc].
  split.
  - split; [|by rewrite E2]. split; try done; [by rewrite E1 | by rewrite E4 | by rewrite E5].
  - rewrite D. replace (DMA_OFFSET * 8) with (8 * DMA_OFFSET) by lia. by apply wrap_id.
Qed.

(** A probe that ended well leaves the state the operations start from: the
    invariant holds, and the registers of the engine are at their offset in BAR 0. *)
Theorem probe_establishes s (k : K) :
  dma_wf (d_dma s) -> g_num_pages (d_mem s) <= Z.of_nat (length (g_pages (d_mem s))) ->
  let r := nfp_probe s k in
  let c := d_card (r_st r) in
  probe_ready (r_tr r) -> fits 64 (c_bar0 c + 8 * DMA_OFFSET) ->
  driver_wf c (r_st r) /\ c_dma c = c_bar0 c + 8 * DMA_OFFSET.
Proof. exact (probe_wf s k). Qed.
End Probed.

(** ** Witnesses *)

Definition probed_driver : driver := r_st (probe_on NoFailure).

Lemma probe_establishes_witness :
  driver_wf (d_card probed_driver) probed_driver /\
  c_dma (d_card probed_driver) = c_bar0 (d_card probed_driver) + 8 * DMA_OFFSET.
Proof.
  apply (probe_establishes driver_init (sim_failing NoFailure)).
  - exact dma_globals_init_wf.
  - vm_compute. done.
  - split; [vm_compute; reflexivity|].
    apply (bool_decide_unpack (RCdev ∈ calls acquire (r_tr (probe_on NoFailure)))).
    vm_compute. done.
  - vm_compute. done.
Defined.

(** An area mapped and closed, with a command that is not one in between. *)
Lemma driver_invariant_witness :
  let ops := [FMmap (VmArea 0 8192); FIoctl 0 0; FClose (VmArea 0 8192)] in
  let r := history 10 ops probed_driver sim_init in
  driver_wf (d_card probed_driver) (r_st r) /\
  forall k', r_out (unreg_hugemem (K := sim) (r_st r) k') = Done 0.
Proof.
  apply (driver_invariant (addr_of := fun page => 2 ^ 46 + page * 4096) (d_card probed_driver) 10
    [FMmap (VmArea 0 8192); FIoctl 0 0; FClose (VmArea 0 8192)] probed_driver sim_init
    [0; - ENOTTY; 0]).
  - assert (A : area_ok (VmArea 0 8192)) by done. by repeat constructor.
  - apply probe_wf.
    + exact dma_globals_init_wf.
    + vm_compute. done.
    + split; [vm_compute; reflexivity|].
      apply (bool_decide_unpack (RCdev ∈ calls acquire (r_tr (probe_on NoFailure)))).
      vm_compute. done.
    + vm_compute. done.
  - vm_compute. reflexivity.
Defined.
