(* ===== verification/Numbers.v ===== *)
(** * Numbers as text

    Characters, digits, [strtol] and the conversions of [printf] the two programs use. *)

From S2P Require Import Prelude.
From Stdlib Require Import ZArith Lia String Ascii.
From stdpp Require Import base list strings.
Local Open Scope string_scope.
Local Open Scope list_scope.
Local Open Scope Z_scope.

Abbreviation chars := list_ascii_of_string.

Definition is_digit (c : ascii) : bool :=
  let n := Z.of_nat (nat_of_ascii c) in (48 <=? n) && (n <=? 57).

(** The switches of lines 97 to 115 and 142 to 160: [None] is the default branch. *)
Definition hex_digit (c : ascii) : option Z :=
  let n := Z.of_nat (nat_of_ascii c) in
  if (48 <=? n) && (n <=? 57) then Some (n - 48)
  else if (97 <=? n) && (n <=? 102) then Some (n - 87)
  else if (65 <=? n) && (n <=? 70) then Some (n - 55)
  else None.

Definition is_hex (c : ascii) : bool := match hex_digit c with Some _ => true | None => false end.

(** strtol of a string of digits only: it saturates at LONG_MAX. *)
Definition LONG_MAX : Z := 2 ^ 63 - 1.
Definition number (base : Z) (l : list ascii) : Z :=
  foldl (fun n c => n * base + default 0 (hex_digit c)) 0 l.
Definition strtol (base : Z) (l : list ascii) : Z := Z.min (number base l) LONG_MAX.

(** The hexadecimal digits of a number, [n] of them, in upper case: %08X for 8. *)
Fixpoint hex_of (n : nat) (z : Z) : list ascii :=
  match n with
  | O => []
  | S n' =>
      hex_of n' (z / 16) ++
      [ascii_of_nat (Z.to_nat (let d := z mod 16 in if d <? 10 then 48 + d else 55 + d))]
  end.

(** ** Reading back what is printed *)

Definition hex_char (c : ascii) : Prop := is_hex c = true.

Lemma hex_digit_char d :
  0 <= d < 16 ->
  hex_digit (ascii_of_nat (Z.to_nat (if d <? 10 then 48 + d else 55 + d))) = Some d.
Proof.
  intros Hd.
  assert (d = 0 \/ d = 1 \/ d = 2 \/ d = 3 \/ d = 4 \/ d = 5 \/ d = 6 \/ d = 7 \/ d = 8 \/ d = 9 \/
    d = 10 \/ d = 11 \/ d = 12 \/ d = 13 \/ d = 14 \/ d = 15) as H by lia.
  repeat destruct H as [-> | H]; try reflexivity. by subst.
Qed.

Lemma number_app b l c : number b (l ++ [c]) = number b l * b + default 0 (hex_digit c).
Proof. unfold number. by rewrite foldl_app. Qed.

Lemma hex_of_length n z : length (hex_of n z) = n.
Proof. revert z. induction n as [|n IH]; intros z; cbn; [done|]. rewrite length_app, IH. cbn. lia. Qed.

Lemma hex_of_hex n z : Forall hex_char (hex_of n z).
Proof.
  revert z. induction n as [|n IH]; intros z; cbn [hex_of]; [constructor|].
  apply Forall_app. split; [apply IH|]. repeat constructor. unfold hex_char, is_hex.
  by rewrite hex_digit_char by (apply Z.mod_pos_bound; lia).
Qed.

Lemma number_hex_of n z : 0 <= z -> number 16 (hex_of n z) = z mod 16 ^ Z.of_nat n.
Proof.
  revert z. induction n as [|n IH]; intros z Hz; cbn [hex_of].
  - by rewrite Z.mod_1_r.
  - rewrite number_app, IH by (apply Z.div_pos; lia).
    rewrite hex_digit_char by (apply Z.mod_pos_bound; lia).
    rewrite Nat2Z.inj_succ, Z.pow_succ_r by lia. cbn [from_option id].
    rewrite Z.rem_mul_r; [lia | lia | apply Z.pow_pos_nonneg; lia].
Qed.

(** Decimal digits. *)
Fixpoint dec_of (n : nat) (z : Z) : list ascii :=
  match n with
  | O => []
  | S n' => dec_of n' (z / 10) ++ [ascii_of_nat (Z.to_nat (48 + z mod 10))]
  end.

Lemma dec_digit d :
  0 <= d < 10 -> let c := ascii_of_nat (Z.to_nat (48 + d)) in
  hex_digit c = Some d /\ is_digit c = true.
Proof.
  intros Hd.
  assert (d = 0 \/ d = 1 \/ d = 2 \/ d = 3 \/ d = 4 \/ d = 5 \/ d = 6 \/ d = 7 \/ d = 8 \/ d = 9)
    as H by lia.
  repeat destruct H as [-> | H]; try done. by subst.
Qed.

Lemma dec_of_digits n z : Forall (fun c => is_digit c = true) (dec_of n z).
Proof.
  revert z. induction n as [|n IH]; intros z; cbn [dec_of]; [constructor|].
  apply Forall_app. split; [apply IH|]. repeat constructor.
  apply dec_digit. apply Z.mod_pos_bound. lia.
Qed.

Lemma number_dec_of n z : 0 <= z -> number 10 (dec_of n z) = z mod 10 ^ Z.of_nat n.
Proof.
  revert z. induction n as [|n IH]; intros z Hz; cbn [dec_of].
  - by rewrite Z.mod_1_r.
  - rewrite number_app, IH by (apply Z.div_pos; lia).
    destruct (dec_digit (z mod 10)) as [-> _]; [apply Z.mod_pos_bound; lia|].
    rewrite Nat2Z.inj_succ, Z.pow_succ_r by lia. cbn [from_option id].
    rewrite Z.rem_mul_r; [lia | lia | apply Z.pow_pos_nonneg; lia].
Qed.

Lemma chars_app a b : chars (a +:+ b) = chars a ++ chars b.
Proof. 
  induction a as [|c a IH]; [done|]. change (String c a +:+ b) with (String c (a +:+ b)).
  cbn [list_ascii_of_string]. by rewrite IH.
Qed.

Lemma forallb_all {A} (f : A -> bool) l : Forall (fun c => f c = true) l -> forallb f l = true.
Proof. induction 1 as [|c l E _ IH]; cbn; [done|]. by rewrite E. Qed.

Lemma reverse_hex_of n z :
  exists c, reverse (hex_of (S n) z) = c :: reverse (hex_of n (z / 16)) /\
    hex_digit c = Some (z mod 16).
Proof.
  eexists. split; [cbn [hex_of]; rewrite reverse_app; reflexivity|].
  apply hex_digit_char, Z.mod_pos_bound. lia.
Qed.

