(* ===== verification/Posix.v ===== *)
(** * The operating system as the user programs see it

    The calls the middleware and the two programs make, as the family [ucall]
    indexed by the type of the answer.  A pointer argument is the address the
    program passes; the object behind the argument of [ioctl] is its bytes before the
    call and, in the answer, after it. *)

From S2P Require Import Prelude Eff IoctlCommands.
From Stdlib Require Import ZArith Lia.
From stdpp Require Import base list strings.
Local Open Scope Z_scope.

Inductive ucall : Type -> Type :=
(* the character device *)
| U_open_nfp : ucall Z                                (* open ("/dev/nfp", O_RDWR) *)
| U_ioctl (fd cmd : Z) (arg : list Z) : ucall (Z * list Z)
(* files and memory *)
| U_open_hp : ucall Z                                 (* open (FILE_NAME, ...) *)
| U_close (fd : Z) : ucall Z
| U_mmap (len fd : Z) : ucall Z
| U_munmap (a len : Z) : ucall Z
| U_unlink_hp : ucall Z
| U_stat (path : string) : ucall (Z * bool)           (* result, S_ISDIR *)
| U_fopen (path mode : string) : ucall Z
| U_fscanf_ld (f : Z) : ucall (option Z)              (* None: nothing converted *)
| U_fdopen (fd : Z) : ucall Z
| U_vfprintf (f : Z) (s : string) : ucall Z
| U_fprintf (f : Z) (s : string) : ucall unit
| U_eprintf (s : string) : ucall unit                 (* fprintf (stderr, ...) *)
| U_printf (s : string) : ucall unit
| U_fclose (f : Z) : ucall unit
(* the rest *)
| U_sched_setaffinity (mask : Z) : ucall Z
| U_store64 (a v : Z) : ucall unit                    (* a store to memory shared with the card *)
| U_store_large (i v : Z) : ucall unit                (* large_array[i] = v; *)
| U_fprintf_gbps (f num den : Z) : ucall unit         (* ",%lf\n", num * 8.0 / den *)
| U_rand : ucall Z
| U_srand_time : ucall unit.                          (* srand (time (NULL)) *)

Definition nl : string := String (Ascii.ascii_of_nat 10) EmptyString.

(** Lines, each with its end. *)
Definition text (lines : list string) : string :=
  foldr (fun l s => (l ++ nl ++ s)%string) EmptyString lines.

(** Results of the calls. *)
Definition MAP_FAILED : Z := 2 ^ 64 - 1.

(** The ioctl calls of a trace: command and argument of each. *)
Definition ioctl_sent (e : event ucall) : option (Z * list Z) :=
  match e with Ev (U_ioctl _ cmd arg) _ => Some (cmd, arg) | _ => None end.

(** What a program printed on its standard output. *)
Definition printed (e : event ucall) : option string :=
  match e with Ev (U_printf s) _ => Some s | _ => None end.

(** Memory mapped and unmapped: address and length. *)
Definition mapped (e : event ucall) : option (Z * Z) :=
  match e with
  | Ev (U_mmap len _) r => if u64 r =? MAP_FAILED then None else Some (u64 r, len)
  | _ => None
  end.
Definition unmapped (e : event ucall) : option (Z * Z) :=
  match e with Ev (U_munmap a len) _ => Some (a, len) | _ => None end.

(** Stores to the memory shared with the card. *)
Definition stored (e : event ucall) : option (Z * Z) :=
  match e with Ev (U_store64 a v) _ => Some (a, v) | _ => None end.

(** Descriptors closed. *)
Definition closed (e : event ucall) : option Z :=
  match e with Ev (U_close fd) _ => Some fd | _ => None end.

Section Laws.
Context {U : Type} `{H : Handler ucall U}.

(** What [stat] answers. *)
Definition fs (k : U) (path : string) : Z * bool := (handle (U_stat path) k).1.

Definition same_fs (k k' : U) : Prop := forall path, fs k' path = fs k path.

(** The directories of sysfs do not change while a program runs. *)
Class FsLaws : Prop :=
  stat_stable X (c : ucall X) k : same_fs k (handle c k).2.

(** A system that gives a program the files and the memory it asks for. *)
Class Resources : Prop := {
  fopen_ok path mode k : (handle (U_fopen path mode) k).1 <> 0;
  fdopen_given fd k : (handle (U_fdopen fd) k).1 <> 0;
  open_nfp_ok k : 0 < (handle U_open_nfp k).1 < 2 ^ 31;
  open_hp_ok k : 0 <= (handle U_open_hp k).1 < 2 ^ 31;
  mmap_ok len fd k : 0 < (handle (U_mmap len fd) k).1 < MAP_FAILED
}.

(** [mmap] places memory at a page of the lower half of the address space. *)
Class MmapLaws : Prop :=
  mmap_place len fd k : 0 <= len < 2 ^ 40 -> let p := (handle (U_mmap len fd) k).1 in
    (4096 | p) /\ 0 < p /\ p + len <= 2 ^ 63.

Lemma same_fs_trans k1 k2 k3 : same_fs k1 k2 -> same_fs k2 k3 -> same_fs k1 k3.
Proof. intros A B path. by rewrite B, A. Qed.

Lemma same_fs_call `{!FsLaws} {X} (c : ucall X) k x k' : handle c k = (x, k') -> same_fs k k'.
Proof. intros E. pose proof (stat_stable _ c k) as S. by rewrite E in S. Qed.

(** Computations keep the directories: any that is made of calls. *)
Definition keeps_fs {S A} (m : M ucall U S A) : Prop := forall s k, same_fs k (r_k (m s k)).

Lemma keeps_ret {S A} (a : A) : keeps_fs (S := S) (ret a).
Proof. by intros s k. Qed.
Lemma keeps_halt {S A} h : keeps_fs (S := S) (A := A) (halt h).
Proof. by intros s k. Qed.
Lemma keeps_need {S A} f (o : option A) : keeps_fs (S := S) (need f o).
Proof. by destruct o. Qed.
Lemma keeps_call `{!FsLaws} {S X} (c : ucall X) : keeps_fs (S := S) (call c).
Proof. intros s k. apply stat_stable. Qed.
Lemma keeps_bind {S A B} (m : M ucall U S A) (f : A -> M ucall U S B) :
  keeps_fs m -> (forall a, keeps_fs (f a)) -> keeps_fs (bind m f).
Proof.
  intros Hm Hf s k. unfold bind. specialize (Hm s k).
  destruct (m s k) as [[a|h] s1 k1 t1]; cbn in *; [|done].
  eapply same_fs_trans; [exact Hm | apply Hf].
Qed.

Lemma stat_answer path k x k' : handle (U_stat path) k = (x, k') -> x = fs k path.
Proof. intros E. unfold fs. by rewrite E. Qed.
End Laws.

#[export] Hint Resolve keeps_ret keeps_halt keeps_need keeps_call keeps_bind : pcie.

(** Decides [keeps_fs m]. *)
Ltac solve_keeps :=
  repeat match goal with
  | |- forall _, _ => intro
  | |- keeps_fs (bind _ _) => apply keeps_bind
  | |- keeps_fs (if ?b then _ else _) => destruct b
  | |- keeps_fs (match ?o with _ => _ end) => destruct o
  | |- keeps_fs _ => solve [auto with pcie]
  end.
