(* ===== verification/Middleware.v ===== *)
(** * The middleware (HOST/middleware: huge_page.c, debug.c, init.c, transfer.c)

    The library the user programs are linked with: huge pages, the log, opening and
    closing the device, and the requests to the driver.  Messages of [perror] are left
    out. *)

From S2P Require Import Prelude Eff IoctlCommands Posix.
From Stdlib Require Import ZArith Lia.
From stdpp Require Import base list strings pretty.
Local Open Scope string_scope.
Local Open Scope list_scope.
Local Open Scope Z_scope.
Local Open Scope eff_scope.

(** The static objects of the four files.  [a_log_closed] is not in the code: it says
    whether the stream was closed, after which its use is undefined. *)
Record lib := App {
  a_fd : Z;                 (* init.c *)
  a_log : Z;                (* debug.c, rte_logs.file *)
  a_log_closed : bool;
  a_hp_identifier : Z;      (* transfer.c, struct hugepage hp *)
  a_hp_data : Z;
  a_sz : Z                  (* huge_page.c *)
}.

Definition lib_init : lib := App 0 0 false 0 0 0.

Definition set_fd v (a : lib) : lib :=
  App v (a_log a) (a_log_closed a) (a_hp_identifier a) (a_hp_data a) (a_sz a).
Definition set_log v (a : lib) : lib :=
  App (a_fd a) v false (a_hp_identifier a) (a_hp_data a) (a_sz a).
Definition set_log_closed (a : lib) : lib :=
  App (a_fd a) (a_log a) true (a_hp_identifier a) (a_hp_data a) (a_sz a).
Definition set_hp_identifier v (a : lib) : lib :=
  App (a_fd a) (a_log a) (a_log_closed a) v (a_hp_data a) (a_sz a).
Definition set_hp_data v (a : lib) : lib :=
  App (a_fd a) (a_log a) (a_log_closed a) (a_hp_identifier a) v (a_sz a).
Definition set_sz v (a : lib) : lib :=
  App (a_fd a) (a_log a) (a_log_closed a) (a_hp_identifier a) (a_hp_data a) v.

Abbreviation UM U := (M ucall U lib).
Abbreviation utrace := (list (event ucall)).

Section Middleware.
Context {U : Type} `{!Handler ucall U}.

(** ** huge_page.c *)

(** The structure is [hp] of transfer.c, the only one. *)
Definition alloc_hugepage (size : Z) : UM U Z :=
  do* modify (set_sz size) in
  let* id := call U_open_hp in
  do* modify (set_hp_identifier (s32 id)) in
  if s32 id <? 0 then ret (-1)
  else
    let* p := call (U_mmap size (s32 id)) in
    do* modify (set_hp_data (u64 p)) in
    if u64 p =? MAP_FAILED then
      do* call U_unlink_hp in
      ret (-1)
    else ret 0.

Definition free_hugepage : UM U unit :=
  let* a := (get : UM U lib) in
  do* call (U_munmap (a_hp_data a) (a_sz a)) in
  do* call (U_close (a_hp_identifier a)) in
  do* call U_unlink_hp in
  modify (fun a => set_hp_identifier 0 (set_hp_data 0 a)).

Definition hugepage_size : UM U Z :=
  let* r := call (U_stat "/sys/kernel/mm/hugepages") in
  if r.1 =? -1 then ret 0
  else if (r.2 : bool) then
    let* r1 := call (U_stat "/sys/kernel/mm/hugepages/hugepages-1048576kB") in
    if r1.1 =? -1 then
      let* r2 := call (U_stat "/sys/kernel/mm/hugepages/hugepages-2048kB") in
      if r2.1 =? -1 then ret 0 else ret 2048
    else ret (1024 * 1024 * 1024)
  else ret 0.

Definition free_hugepages_path (kb : Z) : string :=
  ("/sys/kernel/mm/hugepages/hugepages-" ++ pretty kb ++ "kB/free_hugepages")%string.

Definition hugepage_number : UM U Z :=
  let* size := hugepage_size in
  let* f := call (U_fopen (free_hugepages_path (size / 1024)) "r") in
  if f =? 0 then ret 0
  else
    let* n := call (U_fscanf_ld f) in
    do* call (U_fclose f) in
    let* n := need Uninit n in
    ret (u64 n).

(** ** debug.c *)

Definition rte_openlog_stream (f : Z) : UM U Z :=
  do* modify (set_log f) in
  ret 0.

Definition rte_actuallog_stream : UM U Z := gets a_log.

(** vfprintf and fflush on the log. *)
Definition rte_vlog (msg : string) : UM U Z :=
  let* a := (get : UM U lib) in
  if a_log a =? 0 then halt (Undefined NullDeref)
  else if a_log_closed a then halt (Undefined UseAfterClose)
  else call (U_vfprintf (a_log a) msg).

(** ** init.c *)

Definition CPU_AFFINITY : Z := 0.
Definition set_affinity : UM U unit :=
  do* call (U_sched_setaffinity (Z.shiftl 1 CPU_AFFINITY)) in
  ret tt.

Definition rte_free (exit_code : Z) (msg : string) : UM U unit :=
  do* rte_vlog msg in
  let* fd := gets a_fd in
  if fd =? 0 then ret tt
  else
    let* log := rte_actuallog_stream in
    do* call (U_fclose log) in
    do* modify set_log_closed in
    do* call (U_close fd) in
    modify (set_fd 0).

Definition rte_exit {A} (exit_code : Z) (msg : string) : UM U A :=
  do* rte_free exit_code msg in
  halt (Exited exit_code).

Definition rte_eal_init : UM U Z :=
  let* log := call (U_fdopen 1) in
  do* rte_openlog_stream log in
  do* set_affinity in
  let* fd := call U_open_nfp in
  do* modify (set_fd (s32 fd)) in
  if s32 fd <=? 0 then
    rte_exit (-1) ("Error opening /dev/nfp. Do you have privileges?" ++ nl)%string
  else ret 0.

Definition getCharDeviceDescriptor : UM U Z := gets a_fd.

(** ** transfer.c *)

Section Requests.
Context `{E : IocEncoding}.

Definition writeWord (bar offset data : Z) : UM U Z :=
  let* fd := getCharDeviceDescriptor in
  let* r := call (U_ioctl fd NFPIOC_WRITE_32 (encode_reg32 (Reg32 data bar offset))) in
  ret (r_data (decode_reg32 r.2)).

Definition readWord (bar offset : Z) : UM U Z :=
  let* fd := getCharDeviceDescriptor in
  let* r := call (U_ioctl fd NFPIOC_READ_32 (encode_reg32 (Reg32 0 bar offset))) in
  ret (r_data (decode_reg32 r.2)).

(** The result is 0 for NULL. *)
Definition getFreePages (npages : Z) : UM U Z :=
  let* fd := getCharDeviceDescriptor in
  let* p := call (U_mmap (u32 (KERNEL_PAGE_SIZE * npages)) fd) in
  if u64 p =? MAP_FAILED then ret 0 else ret (u64 p).

Definition unsetFreePages (address npages : Z) : UM U unit :=
  do* call (U_munmap address (u32 (KERNEL_PAGE_SIZE * npages))) in
  ret tt.

Definition getFreeHugePages (npages : Z) : UM U Z :=
  let* fd := getCharDeviceDescriptor in
  let* npages := (if npages =? 0 then
      let* n := hugepage_number in ret (u32 n)
    else ret npages) in
  let* size := hugepage_size in
  let tsize := u64 (npages * size) in
  let* err := alloc_hugepage tsize in
  do* (if negb (err =? 0) then
         do* call (U_close fd) in
         rte_exit (-1) ("Hugepage alloc error" ++ nl)%string
       else ret tt) in
  let* data := gets a_hp_data in
  let* size := hugepage_size in
  do* call (U_ioctl fd NFPIOC_REGISTER_BUFFER
    (encode_dma_buffer (DmaBuffer 1 data tsize size npages))) in
  gets a_hp_data.

Definition unsetHugeFreePages (address npages : Z) : UM U unit :=
  let* fd := getCharDeviceDescriptor in
  let* data := gets a_hp_data in
  if data =? 0 then ret tt
  else
    do* call (U_ioctl fd NFPIOC_UNREGISTER_BUFFER []) in
    free_hugepage.

(** The descriptor after the call, and the result. *)
Definition writeDescriptor (l : dma_descriptor_sw) : UM U (dma_descriptor_sw * Z) :=
  let* fd := getCharDeviceDescriptor in
  let* r := call (U_ioctl fd NFPIOC_WRITE_DMA_DESCRIPTOR (encode_dma_descriptor_sw l)) in
  ret (decode_dma_descriptor_sw r.2, 0).

Definition readDescriptor (l : dma_descriptor_sw) : UM U (dma_descriptor_sw * Z) :=
  let* fd := getCharDeviceDescriptor in
  let* r := call (U_ioctl fd NFPIOC_READ_DMA_DESCRIPTOR (encode_dma_descriptor_sw l)) in
  ret (decode_dma_descriptor_sw r.2, 0).

Definition setWindowSize (ws : Z) : UM U Z :=
  let* fd := getCharDeviceDescriptor in
  do* call (U_ioctl fd NFPIOC_WINDOW_SIZE (encode_u64 ws)) in
  ret 0.
End Requests.
End Middleware.

(** ** Huge pages *)

Section HugePages.
Context {U : Type} `{!Handler ucall U} `{!FsLaws (U := U)}.
Context `{E : IocEncoding}.

Definition has_dir (k : U) (path : string) : bool := negb ((fs k path).1 =? -1).

(** What [hugepage_size] answers on a system. *)
Definition hp_size_of (k : U) : Z :=
  if has_dir k "/sys/kernel/mm/hugepages" && (fs k "/sys/kernel/mm/hugepages").2 then
    if has_dir k "/sys/kernel/mm/hugepages/hugepages-1048576kB" then 2 ^ 30
    else if has_dir k "/sys/kernel/mm/hugepages/hugepages-2048kB" then 2048
    else 0
  else 0.

Lemma hp_size_same k k' : same_fs k k' -> hp_size_of k' = hp_size_of k.
Proof. intros S. unfold hp_size_of, has_dir. by rewrite !S. Qed.

(** No request to the driver, no memory mapped or unmapped, nothing closed. *)
Definition idle (t : utrace) : Prop :=
  calls ioctl_sent t = [] /\ calls mapped t = [] /\ calls unmapped t = [] /\
  calls closed t = [].

Lemma wp_hugepage_size s (k : U) :
  wp hugepage_size (fun o s' k' t => o = Done (hp_size_of k) /\ s' = s /\ idle t /\
    same_fs k k') s k.
Proof.
  unfold hugepage_size, hp_size_of, has_dir. wp_steps.
  pose proof (stat_answer _ _ _ _ Hans) as ->. pose proof (same_fs_call _ _ _ _ Hans) as S1.
  destruct ((fs k "/sys/kernel/mm/hugepages").1 =? -1); cbn [negb andb]; [by wp_steps|].
  destruct ((fs k "/sys/kernel/mm/hugepages").2); [|by wp_steps]. wp_steps.
  pose proof (stat_answer _ _ _ _ Hans0) as ->. pose proof (same_fs_call _ _ _ _ Hans0) as S2.
  pose proof (same_fs_trans _ _ _ S1 S2) as S12. rewrite S1.
  destruct ((fs k "/sys/kernel/mm/hugepages/hugepages-1048576kB").1 =? -1); cbn [negb];
    [|by wp_steps]. wp_steps.
  pose proof (stat_answer _ _ _ _ Hans1) as ->. pose proof (same_fs_call _ _ _ _ Hans1) as S3.
  pose proof (same_fs_trans _ _ _ S12 S3). rewrite S12.
  destruct ((fs k "/sys/kernel/mm/hugepages/hugepages-2048kB").1 =? -1); by wp_steps.
Qed.

Lemma wp_rte_exit {A} code msg s (k : U) :
  wp (rte_exit code msg : UM U A) (fun o _ _ t => (exists h, o = Stop h) /\
    calls mapped t = [] /\ calls ioctl_sent t = []) s k.
Proof.
  unfold rte_exit, rte_free, rte_vlog, rte_actuallog_stream. wp_steps.
  destruct (a_log s =? 0); wp_steps; [by eauto|].
  destruct (a_log_closed s); wp_steps; [by eauto|].
  destruct (a_fd s =? 0); wp_steps; by eauto.
Qed.

Lemma wp_alloc_hugepage size s (k : U) :
  wp (alloc_hugepage size) (fun o s' k' t => same_fs k k' /\ calls ioctl_sent t = [] /\
    calls unmapped t = [] /\ calls closed t = [] /\
    ((o = Done (-1) /\ calls mapped t = []) \/
     (exists id p, o = Done 0 /\ calls mapped t = [(p, size)] /\
       s' = set_hp_data p (set_hp_identifier id (set_sz size s))))) s k.
Proof.
  unfold alloc_hugepage. wp_steps. pose proof (same_fs_call _ _ _ _ Hans) as S1.
  destruct (s32 ans <? 0); wp_steps.
  { do 4 (split; [done|]). by left. }
  pose proof (same_fs_trans _ _ _ S1 (same_fs_call _ _ _ _ Hans0)) as S2.
  destruct (u64 ans0 =? MAP_FAILED) eqn:E0; wp_steps.
  - pose proof (same_fs_trans _ _ _ S2 (same_fs_call _ _ _ _ Hans1)).
    do 4 (split; [done|]). left. split; [done|]. cbn. by rewrite E0.
  - do 4 (split; [done|]). right. exists (s32 ans), (u64 ans0). split; [done|].
    split; [|done]. cbn. by rewrite E0.
Qed.

(** Asking for [n] huge pages either ends the program, with nothing mapped, or gives
    the address of one mapping of [n] pages of the size found, of which the driver
    was told, whatever it answered. *)
Theorem getFreeHugePages_spec n s (k : U) :
  0 < n < 2 ^ 32 ->
  let r := getFreeHugePages n s k in
  let size := u64 (n * hp_size_of k) in
  (exists p, r_out r = Done p /\ a_hp_data (r_st r) = p /\ a_sz (r_st r) = size /\
     a_fd (r_st r) = a_fd s /\ calls mapped (r_tr r) = [(p, size)] /\
     calls unmapped (r_tr r) = [] /\ calls closed (r_tr r) = [] /\
     calls ioctl_sent (r_tr r) =
       [(NFPIOC_REGISTER_BUFFER, encode_dma_buffer (DmaBuffer 1 p size (hp_size_of k) n))]) \/
  (exists h, r_out r = Stop h /\ calls mapped (r_tr r) = [] /\ calls ioctl_sent (r_tr r) = []).
Proof.
  intros Hn r size. as_wp r (getFreeHugePages n) s k.
  unfold getFreeHugePages, getCharDeviceDescriptor. destruct (Z.eqb_spec n 0); [lia|]. wp_steps.
  eapply wp_mono; [apply wp_hugepage_size|]. intros o s1 k1 t1 (-> & -> & (I1 & I2 & I3 & I4) & F1).
  fold size. wp_steps. eapply wp_mono; [apply wp_alloc_hugepage|].
  intros o s2 k2 t2 (F2 & A1 & A2 & A3 & [(-> & A4) | (id & p & -> & A4 & ->)]).
  - change (negb (-1 =? 0)) with true. wp_steps.
    eapply wp_mono; [apply wp_rte_exit|]. intros o s3 k3 t3 ((h & ->) & X1 & X2).
    right. exists h. rewrite !calls_app, I1, I2, A1, A4, X1, X2. done.
  - change (negb (0 =? 0)) with false. wp_steps.
    eapply wp_mono; [apply wp_hugepage_size|]. intros o s3 k3 t3 (-> & -> & (J1 & J2 & J3 & J4) & _).
    rewrite (hp_size_same k k2) by (eapply same_fs_trans; done). wp_steps. left. exists p. split; [done|]. split; [done|]. split; [done|]. split; [done|].
    rewrite !calls_app, I1, I2, I3, I4, A1, A2, A3, A4, J1, J2, J3, J4.
    repeat (split; [reflexivity|]). reflexivity.
Qed.

Lemma wp_alloc_hugepage_ok `{!Resources (U := U)} size s (k : U) :
  wp (alloc_hugepage size) (fun o s' k' t => same_fs k k' /\ calls ioctl_sent t = [] /\
    calls unmapped t = [] /\ calls closed t = [] /\ exists id p, o = Done 0 /\ 0 < p /\
    calls mapped t = [(p, size)] /\ s' = set_hp_data p (set_hp_identifier id (set_sz size s))) s k.
Proof.
  unfold alloc_hugepage. wp_steps. pose proof (same_fs_call _ _ _ _ Hans) as S1.
  pose proof (open_hp_ok k) as O. rewrite Hans in O. cbn [fst] in O.
  rewrite swrap_id by lia. destruct (Z.ltb_spec ans 0); [lia|]. wp_steps.
  pose proof (same_fs_trans _ _ _ S1 (same_fs_call _ _ _ _ Hans0)) as S2.
  pose proof (mmap_ok size ans kk) as P. rewrite Hans0 in P. cbn [fst] in P.
  unfold MAP_FAILED in P. rewrite wrap_id by (unfold fits; lia).
  destruct (Z.eqb_spec ans0 MAP_FAILED) as [E0 | E0]; [unfold MAP_FAILED in E0; lia|]. wp_steps.
  do 4 (split; [done|]). exists ans, ans0. split; [done|]. split; [lia|]. split; [|done].
  cbn. rewrite wrap_id by (unfold fits; lia). by apply Z.eqb_neq in E0 as ->.
Qed.

(** With the resources it asks for, the call gives a mapping. *)
Lemma wp_getFreeHugePages_ok `{!Resources (U := U)} n s (k : U) :
  0 < n < 2 ^ 32 ->
  let size := u64 (n * hp_size_of k) in
  wp (getFreeHugePages n) (fun o s' k' t => same_fs k k' /\
    calls unmapped t = [] /\ calls closed t = [] /\ exists id p, o = Done p /\ 0 < p /\
    s' = set_hp_data p (set_hp_identifier id (set_sz size s)) /\
    calls mapped t = [(p, size)] /\ calls ioctl_sent t =
      [(NFPIOC_REGISTER_BUFFER, encode_dma_buffer (DmaBuffer 1 p size (hp_size_of k) n))]) s k.
Proof.
  intros Hn size. unfold getFreeHugePages, getCharDeviceDescriptor.
  destruct (Z.eqb_spec n 0); [lia|]. wp_steps.
  eapply wp_mono; [apply wp_hugepage_size|]. intros o s1 k1 t1 (-> & -> & (I1 & I2 & I3 & I4) & F1).
  fold size. wp_steps. eapply wp_mono; [apply wp_alloc_hugepage_ok|].
  intros o s2 k2 t2 (F2 & A1 & A2 & A3 & id & p & -> & Hp & A4 & ->).
  change (negb (0 =? 0)) with false. wp_steps.
  eapply wp_mono; [apply wp_hugepage_size|]. intros o s3 k3 t3 (-> & -> & (J1 & J2 & J3 & J4) & F3).
  pose proof (same_fs_trans _ _ _ F1 F2) as F12. pose proof (same_fs_trans _ _ _ F12 F3) as F13.
  rewrite (hp_size_same k k2) by done. wp_steps.
  split; [exact (same_fs_trans _ _ _ F13 (same_fs_call _ _ _ _ Hans))|].
  rewrite !calls_app, I1, I2, I3, I4, A1, A2, A3, A4, J1, J2, J3, J4.
  do 2 (split; [reflexivity|]). exists id, p. by repeat (split; [done|]).
Qed.

Lemma wp_unsetHugeFreePages a n s (k : U) :
  wp (unsetHugeFreePages a n) (fun o s' _ t =>
    o = Done tt /\
    s' = (if a_hp_data s =? 0 then s else set_hp_identifier 0 (set_hp_data 0 s)) /\
    calls mapped t = [] /\
    calls ioctl_sent t = (if a_hp_data s =? 0 then [] else [(NFPIOC_UNREGISTER_BUFFER, [])]) /\
    calls unmapped t = (if a_hp_data s =? 0 then [] else [(a_hp_data s, a_sz s)]) /\
    calls closed t = (if a_hp_data s =? 0 then [] else [a_hp_identifier s])) s k.
Proof.
  unfold unsetHugeFreePages, free_hugepage, getCharDeviceDescriptor. wp_steps.
  destruct (Z.eqb_spec (a_hp_data s) 0) as [E0 | E0]; wp_steps;
    repeat (split; [reflexivity|]); reflexivity.
Qed.

(** Giving huge pages back undoes the mapping, closes the file and tells the driver, once:
    a second call does nothing. *)
Theorem unsetHugeFreePages_spec a n s (k : U) :
  let r := unsetHugeFreePages a n s k in
  r_out r = Done tt /\ a_hp_data (r_st r) = 0 /\ a_fd (r_st r) = a_fd s /\
  calls ioctl_sent (r_tr r) =
    (if a_hp_data s =? 0 then [] else [(NFPIOC_UNREGISTER_BUFFER, [])]) /\
  calls unmapped (r_tr r) = (if a_hp_data s =? 0 then [] else [(a_hp_data s, a_sz s)]) /\
  calls closed (r_tr r) = (if a_hp_data s =? 0 then [] else [a_hp_identifier s]) /\
  forall a' n', let q := unsetHugeFreePages a' n' (r_st r) (r_k r) in
    r_st q = r_st r /\ r_tr q = [].
Proof.
  intros r.
  pose proof (wp_unsetHugeFreePages a n s k) as W. unfold wp in W. fold r in W.
  destruct W as (W1 & Ws & _ & W4 & W5 & W6).
  assert (W2 : a_hp_data (r_st r) = 0 /\ a_fd (r_st r) = a_fd s).
  { rewrite Ws. destruct (Z.eqb_spec (a_hp_data s) 0); by split. }
  destruct W2 as [W2 W3]. do 6 (split; [done|]). clear Ws W3. intros a' n'. generalize (r_k r). intros k'. revert W2. generalize (r_st r). intros s' W2.
  unfold unsetHugeFreePages, getCharDeviceDescriptor, bind, gets.
  cbn [r_out r_st r_k r_tr]. by rewrite W2.
Qed.

(** On a system with 2 MB pages only, the size of a huge page is given in kilobytes
    where it is used in bytes: one page is asked for as 2048 bytes, and the count of
    free pages is looked for in the directory of pages of 2 kB. *)
Theorem hugepage_size_2MB (k : U) :
  has_dir k "/sys/kernel/mm/hugepages" = true -> (fs k "/sys/kernel/mm/hugepages").2 = true ->
  has_dir k "/sys/kernel/mm/hugepages/hugepages-1048576kB" = false ->
  has_dir k "/sys/kernel/mm/hugepages/hugepages-2048kB" = true ->
  forall s, r_out (hugepage_size s k) = Done 2048 /\
  free_hugepages_path (2048 / 1024) =
    "/sys/kernel/mm/hugepages/hugepages-2kB/free_hugepages".
Proof.
  intros H1 H2 H3 H4 s. split; [|reflexivity].
  destruct (wp_hugepage_size s k) as [W _]. rewrite W. unfold hp_size_of.
  by rewrite H1, H2, H3, H4.
Qed.
End HugePages.

(** ** Opening and leaving *)

Section Lifecycle.
Context {U : Type} `{!Handler ucall U}.

(** Leaving closes the device and the log, and ends the program with the code
    asked for.  Once the resources are released, releasing or leaving again uses the
    closed log. *)
Theorem rte_exit_closes code msg s (k : U) :
  a_log s <> 0 -> a_log_closed s = false -> a_fd s <> 0 ->
  let r := (rte_exit code msg : UM U unit) s k in
  r_out r = Stop (Exited code) /\ calls closed (r_tr r) = [a_fd s] /\ a_fd (r_st r) = 0 /\
  (forall msg', r_out (rte_free code msg' (r_st r) (r_k r)) = Stop (Undefined UseAfterClose)).
Proof.
  intros Hl Hc Hf r. apply Z.eqb_neq in Hl, Hf.
  assert (W : wp (rte_exit code msg : UM U unit) (fun o s' _ t => o = Stop (Exited code) /\
    calls closed t = [a_fd s] /\ a_fd s' = 0 /\ a_log s' = a_log s /\ a_log_closed s' = true) s k).
  { unfold rte_exit, rte_free, rte_vlog, rte_actuallog_stream. wp_steps. rewrite Hl, Hc.
    wp_steps. rewrite Hf. wp_steps. done. }
  destruct W as (W1 & W2 & W3 & W4 & W5). fold r in W1, W2, W3, W4, W5.
  do 3 (split; [done|]). intros msg'.
  generalize (r_k r). intros k'. revert W4 W5. generalize (r_st r). intros s' W4 W5.
  enough (V : wp (rte_free code msg') (fun o _ _ _ => o = Stop (Undefined UseAfterClose)) s' k')
    by exact V.
  unfold rte_free, rte_vlog. wp_steps. rewrite W4, Hl, W5. by wp_steps.
Qed.

(** Opening either gives a positive descriptor, kept for the requests, or does not
    return. *)
Theorem rte_eal_init_opens s (k : U) :
  let r := rte_eal_init s k in
  (r_out r = Done 0 /\ 0 < a_fd (r_st r)) \/
  r_out r = Stop (Exited (-1)) \/ r_out r = Stop (Undefined NullDeref).
Proof.
  intros r. as_wp r (rte_eal_init (U := U)) s k.
  unfold rte_eal_init, rte_openlog_stream, set_affinity. wp_steps.
  destruct (Z.leb_spec (s32 ans1) 0); wp_steps; [|left; by split].
  unfold rte_exit, rte_free, rte_vlog, rte_actuallog_stream. wp_steps.
  cbn [a_log a_log_closed set_fd set_log]. destruct (ans =? 0); wp_steps; [by right; right|].
  cbn [a_fd set_fd set_log]. destruct (s32 ans1 =? 0); wp_steps; by right; left.
Qed.
End Lifecycle.
