(* ===== verification/Link.v ===== *)
(** * System calls

    The middleware talks of [ioctl], the driver of [nfp_ioctl]: this file joins the
    two.  The process places the object behind the argument in its memory, the kernel
    runs [nfp_ioctl] on its address, and the process finds the object as the driver
    left it.  The theorems are about words of the BARs, from the library call to the
    device register. *)

From S2P Require Import Prelude Eff IoctlCommands NfpTypes Kernel SimKernel Reg NfpDma NfpMem.
From S2P Require Import NfpIoctl Posix Middleware.
From Stdlib Require Import ZArith Lia.
From stdpp Require Import base list gmap.
Local Open Scope Z_scope.
Local Open Scope eff_scope.

(** The memory of the calling process at the address of the argument, as the kernel
    sees it: [load n] is its first [n] bytes, [store] changes them. *)
Class ProcessMemory (K : Type) := {
  argp : Z;
  load : nat -> K -> list Z;
  store : list Z -> K -> K;
  good : K -> Prop;           (* the memory is accessible *)
  ready : K -> Prop           (* nobody holds the semaphore and no signal is pending *)
}.

Definition copies_out {X} (c : kcall X) : bool :=
  match c with K_copy_to_user _ _ => true | _ => false end.

(** Documented behaviour of [copy_from_user] and [copy_to_user] on accessible memory,
    and of [down_interruptible] without signals. *)
Class MemoryLaws (K : Type) `{H : Handler kcall K} `{P : ProcessMemory K} : Prop := {
  good_call {X} (c : kcall X) k : good k -> good (handle c k).2;
  good_store bs k : good k -> good (store bs k);
  load_store bs k : load (length bs) (store bs k) = bs;
  copy_in n k : 0 <= n -> good k ->
    (handle (K_copy_from_user argp n) k).1 = Some (load (Z.to_nat n) k);
  copy_out bs k : good k -> (handle (K_copy_to_user argp bs) k).1 = 0;
  load_copied bs k : good k -> load (length bs) (handle (K_copy_to_user argp bs) k).2 = bs;
  load_call {X} (c : kcall X) n k : copies_out c = false -> load n (handle c k).2 = load n k;
  ready_store bs k : ready k -> ready (store bs k);
  down_free k : ready k -> (handle K_down_interruptible k).1 = 0
}.

Section Syscall.
Context {K : Type} `{!Handler kcall K} `{P : ProcessMemory K} `{E : IocEncoding}.

(** The system call, when the kernel survives it: the result in the convention of
    the C library, the object, and the driver and the kernel after it. *)
Definition sys_ioctl (fuel : nat) (cmd : Z) (bs : list Z) (d : driver) (k : K)
    : option (Z * list Z * driver * K) :=
  let r := nfp_ioctl fuel cmd argp d (store bs k) in
  match r_out r with
  | Done v => Some (if v <? 0 then -1 else v, load (length bs) (r_k r), r_st r, r_k r)
  | Stop _ => None
  end.
End Syscall.

(** The semaphore as a count, in a system where no signal is pending: only [up],
    [down_interruptible] and [sema_init] change it. *)
Definition inits_sem {X} (c : kcall X) : bool :=
  match c with K_sema_init _ => true | _ => false end.

Class SemaphoreLaws (K : Type) `{H : Handler kcall K} `{P : ProcessMemory K} (count : K -> Z)
    : Prop := {
  count_call {X} (c : kcall X) k : inits_sem c = false ->
    count (handle c k).2 = count k + sem_step (Ev c (handle c k).1);
  count_store bs k : count (store bs k) = count k;
  count_ready k : 0 < count k -> ready k
}.

(** An operating system whose [ioctl] on the device runs the driver. *)
Class Linked (U K : Type) `{HU : Handler ucall U} `{HK : Handler kcall K} `{P : ProcessMemory K}
    `{E : IocEncoding} (fuel : nat) (dev_fd : Z) (kernel : U -> driver * K) : Prop :=
  ioctl_runs cmd bs u v bs' d' k' :
    sys_ioctl fuel cmd bs (kernel u).1 (kernel u).2 = Some (v, bs', d', k') ->
    (handle (U_ioctl dev_fd cmd bs) u).1 = (v, bs') /\
    kernel (handle (U_ioctl dev_fd cmd bs) u).2 = (d', k').

(** ** Words of a BAR *)

Section Words.
Context {K : Type} `{!Handler kcall K} `{P : ProcessMemory K} `{!MemoryLaws K}.
Context `{E : IocEncoding} `{!IocLaws E}.

(** The kernel when the body of a command starts: the object stored, the semaphore
    taken, the object copied in. *)
Definition entered (bs : list Z) (n : Z) (k : K) : K :=
  (handle (K_copy_from_user argp n) (handle K_down_interruptible (store bs k)).2).2.

Lemma reg_cmd_guards :
  (negb (_IOC_TYPE NFPIOC_WRITE_32 =? IOCTL_MAGIC_NUMBER) = false /\
   (IOC_MAXNR <? _IOC_NR NFPIOC_WRITE_32) = false) /\
  (negb (_IOC_TYPE NFPIOC_READ_32 =? IOCTL_MAGIC_NUMBER) = false /\
   (IOC_MAXNR <? _IOC_NR NFPIOC_READ_32) = false).
Proof.
  destruct (ioc_ior 57 1 16 ltac:(lia) ltac:(lia) ltac:(lia)) as [T1 N1].
  destruct (ioc_iowr 57 2 16 ltac:(lia) ltac:(lia) ltac:(lia)) as [T2 N2].
  unfold NFPIOC_WRITE_32, NFPIOC_READ_32, IOCTL_MAGIC_NUMBER, sizeof_reg32.
  by rewrite T1, N1, T2, N2.
Qed.

Lemma encode_reg32_length r : length (encode_reg32 r) = 16%nat.
Proof. unfold encode_reg32. by rewrite !length_app, !bytes_of_length. Qed.

Lemma enc_reg32_size r : sizeof_reg32 = Z.of_nat (length (encode_reg32 r)).
Proof. by rewrite encode_reg32_length. Qed.

(** The first two calls of a command that takes its argument from the user. *)
Lemma enter_ioctl bs n k :
  n = Z.of_nat (length bs) -> good k -> ready k ->
  exists k1, handle K_down_interruptible (store bs k) = (0, k1) /\
    handle (K_copy_from_user argp n) k1 = (Some bs, entered bs n k) /\
    good (entered bs n k) /\ load (length bs) (entered bs n k) = bs.
Proof.
  intros -> G Rd. pose proof (good_store bs k G) as G1.
  pose proof (down_free _ (ready_store bs k Rd)) as D.
  pose proof (good_call K_down_interruptible _ G1) as G2.
  pose proof (load_store bs k) as L.
  pose proof (load_call K_down_interruptible (length bs) (store bs k) eq_refl) as L2.
  rewrite L in L2. unfold entered.
  destruct (handle K_down_interruptible (store bs k)) as [x k1].
  cbn [fst snd] in *. subst x. exists k1. split; [done|]. set (n := Z.of_nat (length bs)).
  pose proof (copy_in n k1 ltac:(lia) G2) as C.
  pose proof (good_call (K_copy_from_user argp n) _ G2) as G3.
  pose proof (load_call (K_copy_from_user argp n) (length bs) k1 eq_refl) as L3.
  destruct (handle (K_copy_from_user argp n) k1) as [y k2]. cbn [fst snd] in *.
  unfold n in C. rewrite Nat2Z.id in C. rewrite C, L2. split; [done|].
  split; [done|]. by rewrite L3.
Qed.

Lemma good_entered bs n k : good k -> good (entered bs n k).
Proof. intros G. unfold entered. by do 2 apply good_call; apply good_store. Qed.

Lemma sys_write32 fuel r d k :
  reg32_ok r -> good k -> ready k ->
  let k0 := entered (encode_reg32 r) sizeof_reg32 k in
  let k1 := match target r (d_card d) with
            | Some a => (handle (K_iowrite32 (r_data r) a) k0).2
            | None => k0
            end in
  sys_ioctl fuel NFPIOC_WRITE_32 (encode_reg32 r) d k =
    Some (0, encode_reg32 r, d, (handle K_up k1).2).
Proof.
  intros Hr G Rd k0 k1. destruct (enter_ioctl (encode_reg32 r) sizeof_reg32 k (enc_reg32_size r) G Rd) as (ka & D & C & G0 & L).
  fold k0 in C, G0, L. rewrite encode_reg32_length in L.
  enough (W : wp (nfp_ioctl fuel NFPIOC_WRITE_32 argp) (fun o s' k' _ =>
    o = Done 0 /\ s' = d /\ k' = (handle K_up k1).2) d (store (encode_reg32 r) k)).
  { unfold sys_ioctl. unfold wp in W.
    destruct (nfp_ioctl fuel NFPIOC_WRITE_32 argp d (store (encode_reg32 r) k)) as [o s' k' t].
    cbn [r_out r_st r_k r_tr] in *. destruct W as (-> & -> & ->).
    rewrite encode_reg32_length, load_call by done.
    assert (load 16 k1 = encode_reg32 r) as ->; [|done].
    unfold k1. destruct (target r (d_card d)); [by rewrite load_call | done]. }
  destruct reg_cmd_guards as [[E1 E2] _]. unfold nfp_ioctl. rewrite E1, E2.
  destruct cmd_numbers as (N1 & N2 & N3 & N4 & N5 & N6 & N7).
  wp_steps. rewrite D in Hans. injection Hans as <- <-. cbn [Z.eqb negb].
  unfold fetch_argument, fetch. rewrite Z.eqb_refl, orb_true_r. wp_steps.
  rewrite C in Hans. injection Hans as <- <-. wp_steps. rewrite reg32_roundtrip by done.
  unfold dispatch. rewrite cmd_neq by lia. rewrite Z.eqb_refl.
  unfold wp at 1. rewrite WriteReg32_spec. fold k0. fold k1.
  destruct (target r (d_card d)); cbn [r_out r_st r_k r_tr]; wp_steps;
    unfold k1; by rewrite Hans.
Qed.

(** The structure a read gives back, and the kernel after it. *)
Definition read_back (r : reg32) (d : driver) (k0 : K) : reg32 * K :=
  match target r (d_card d) with
  | Some a =>
      let v := handle (K_ioread32 a) k0 in (Reg32 (u32 v.1) (r_bar r) (r_offset r), v.2)
  | None => (r, k0)
  end.

Lemma sys_read32 fuel r d k :
  reg32_ok r -> good k -> ready k ->
  let b := read_back r d (entered (encode_reg32 r) sizeof_reg32 k) in
  sys_ioctl fuel NFPIOC_READ_32 (encode_reg32 r) d k =
    Some (0, encode_reg32 b.1, d,
      (handle K_up (handle (K_copy_to_user argp (encode_reg32 b.1)) b.2).2).2).
Proof.
  intros Hr G Rd b. destruct (enter_ioctl (encode_reg32 r) sizeof_reg32 k (enc_reg32_size r) G Rd) as (ka & D & C & G0 & L).
  rewrite encode_reg32_length in L. set (k0 := entered (encode_reg32 r) sizeof_reg32 k) in *.
  set (kc := (handle (K_copy_to_user argp (encode_reg32 b.1)) b.2).2).
  assert (Gb : good b.2) by (unfold b, read_back; destruct (target r (d_card d)) as [at_|];
    [exact (good_call (K_ioread32 at_) k0 G0) | exact G0]).
  enough (W : wp (nfp_ioctl fuel NFPIOC_READ_32 argp) (fun o s' k' _ =>
    o = Done 0 /\ s' = d /\ k' = (handle K_up kc).2) d (store (encode_reg32 r) k)).
  { unfold sys_ioctl. unfold wp in W.
    destruct (nfp_ioctl fuel NFPIOC_READ_32 argp d (store (encode_reg32 r) k)) as [o s' k' t].
    cbn [r_out r_st r_k r_tr] in *. destruct W as (-> & -> & ->).
    rewrite encode_reg32_length, load_call by done. unfold kc.
    pose proof (load_copied (encode_reg32 b.1) b.2 Gb) as Lc.
    rewrite encode_reg32_length in Lc. by rewrite Lc. }
  destruct reg_cmd_guards as [_ [E1 E2]]. unfold nfp_ioctl. rewrite E1, E2.
  destruct cmd_numbers as (N1 & N2 & N3 & N4 & N5 & N6 & N7).
  wp_steps. rewrite D in Hans. injection Hans as <- <-. cbn [Z.eqb negb].
  unfold fetch_argument, fetch. rewrite Z.eqb_refl. cbn [orb]. wp_steps.
  rewrite C in Hans. injection Hans as <- <-. wp_steps. rewrite reg32_roundtrip by done.
  unfold dispatch. rewrite !(cmd_neq NFPIOC_READ_32) by lia. rewrite Z.eqb_refl. wp_steps.
  unfold wp at 1. rewrite ReadReg32_spec. fold k0. unfold kc, b, read_back.
  destruct (target r (d_card d)) as [a|]; cbn [r_out r_st r_k r_tr fst snd]; wp_steps;
    rewrite Hans; cbn [snd]; by rewrite Hans0.
Qed.
End Words.

(** ** From the library to the device *)

Section EndToEnd.
Context {U K : Type} `{HU : Handler ucall U} `{HK : Handler kcall K} `{P : ProcessMemory K}.
Context `{!MemoryLaws K} `{E : IocEncoding} `{!IocLaws E}.
Context {fuel : nat} {dev_fd : Z} {kernel : U -> driver * K}.
Context `{!Linked U K fuel dev_fd kernel}.

(** C33.  [writeWord] on an open device stores its word in the register once, at the
    offset asked for in the BAR asked for, if the card has that BAR mapped, and gives the
    word back; nothing else of the driver changes. *)
Theorem writeWord_reaches_device bar offset data a (u : U) :
  a_fd a = dev_fd -> fits 8 bar -> fits 32 offset -> fits 32 data ->
  good (kernel u).2 -> ready (kernel u).2 ->
  let r := writeWord bar offset data a u in
  let w := Reg32 data bar offset in
  let d := (kernel u).1 in
  let k0 := entered (encode_reg32 w) sizeof_reg32 (kernel u).2 in
  r_out r = Done data /\ r_st r = a /\
  kernel (r_k r) = (d, (handle K_up
    match target w (d_card d) with
    | Some at_ => (handle (K_iowrite32 data at_) k0).2
    | None => k0
    end).2).
Proof.
  intros Hfd Hb Ho Hv G Rd r w d k0.
  assert (Hw : reg32_ok w) by (unfold reg32_ok, w, fits in *; cbn; lia).
  pose proof (sys_write32 fuel w d (kernel u).2 Hw G Rd) as S. cbn zeta in S.
  destruct (ioctl_runs NFPIOC_WRITE_32 (encode_reg32 w) u _ _ _ _ S) as [A B].
  as_wpk r (writeWord bar offset data) a u. unfold writeWord, getCharDeviceDescriptor. wp_steps.
  rewrite Hfd in Hans. fold w in Hans. rewrite Hans in A, B. cbn [fst snd] in A, B. subst ans.
  cbn [snd]. by rewrite reg32_roundtrip.
Qed.

Lemma wp_readWord bar offset a (u : U) :
  a_fd a = dev_fd -> fits 8 bar -> fits 32 offset ->
  good (kernel u).2 -> ready (kernel u).2 ->
  let q := Reg32 0 bar offset in
  let d := (kernel u).1 in
  let k0 := entered (encode_reg32 q) sizeof_reg32 (kernel u).2 in
  wp (readWord bar offset) (fun o s' u' t =>
    s' = a /\ (kernel u').1 = d /\ calls printed t = [] /\
    o = Done (match target q (d_card d) with
              | Some at_ => u32 (handle (K_ioread32 at_) k0).1
              | None => 0
              end)) a u.
Proof.
  intros Hfd Hb Ho G Rd q d k0.
  assert (Hq : reg32_ok q) by (unfold reg32_ok, q, fits in *; cbn; lia).
  pose proof (sys_read32 fuel q d (kernel u).2 Hq G Rd) as S. cbn zeta in S. fold k0 in S.
  destruct (ioctl_runs NFPIOC_READ_32 (encode_reg32 q) u _ _ _ _ S) as [A B].
  unfold readWord, getCharDeviceDescriptor. wp_steps.
  rewrite Hfd in Hans. fold q in Hans. rewrite Hans in A, B. cbn [fst snd] in A, B. subst ans.
  cbn [snd]. rewrite B, reg32_roundtrip.
  - split; [done|]. split; [done|]. split; [done|].
    unfold read_back. by destruct (target q (d_card d)).
  - unfold read_back. destruct (target q (d_card d)); [|done].
    unfold reg32_ok in *. cbn [fst r_data r_bar r_offset] in *.
    split; [apply wrap_fits; lia | apply Hq].
Qed.

(** [readWord] gives the 32 bits the device answers for the register, or 0 if the
    card does not have that BAR mapped. *)
Theorem readWord_reads_device bar offset a (u : U) :
  a_fd a = dev_fd -> fits 8 bar -> fits 32 offset ->
  good (kernel u).2 -> ready (kernel u).2 ->
  let r := readWord bar offset a u in
  let q := Reg32 0 bar offset in
  let d := (kernel u).1 in
  let k0 := entered (encode_reg32 q) sizeof_reg32 (kernel u).2 in
  r_st r = a /\ (kernel (r_k r)).1 = d /\
  r_out r = Done (match target q (d_card d) with
                  | Some at_ => u32 (handle (K_ioread32 at_) k0).1
                  | None => 0
                  end).
Proof.
  intros Hfd Hb Ho G Rd r q d k0.
  destruct (wp_readWord bar offset a u Hfd Hb Ho G Rd) as (W1 & W2 & _ & W3). done.
Qed.
End EndToEnd.

(** An operating system that leaves the driver alone outside [ioctl], opens the device
    and gives programs a log. *)
Definition is_ioctl {X} (c : ucall X) : bool :=
  match c with U_ioctl _ _ _ => true | _ => false end.

Class DeviceLaws (U K : Type) `{HU : Handler ucall U} `{P : ProcessMemory K}
    (dev_fd : Z) (kernel : U -> driver * K) : Prop := {
  dev_fd_positive : 0 < dev_fd < 2 ^ 31;
  open_nfp u : (handle U_open_nfp u).1 = dev_fd;
  fdopen_ok fd u : (handle (U_fdopen fd) u).1 <> 0;
  quiet_driver X (c : ucall X) u : is_ioctl c = false ->
    (kernel (handle c u).2).1 = (kernel u).1;
  quiet_good X (c : ucall X) u : is_ioctl c = false ->
    good (kernel u).2 -> good (kernel (handle c u).2).2;
  quiet_ready X (c : ucall X) u : is_ioctl c = false ->
    ready (kernel u).2 -> ready (kernel (handle c u).2).2
}.

Section Opening.
Context {U K : Type} `{HU : Handler ucall U} `{P : ProcessMemory K}.
Context {dev_fd : Z} {kernel : U -> driver * K} `{!DeviceLaws U K dev_fd kernel}.

(** The kernel is as usable as before, with the same driver. *)
Definition kept (u u' : U) : Prop :=
  (kernel u').1 = (kernel u).1 /\ (good (kernel u).2 -> good (kernel u').2) /\
  (ready (kernel u).2 -> ready (kernel u').2).

Lemma kept_call {X} (c : ucall X) u x u' :
  is_ioctl c = false -> handle c u = (x, u') -> kept u u'.
Proof.
  intros Hc E. pose proof (quiet_driver (dev_fd := dev_fd) (kernel := kernel) _ c u Hc) as A.
  pose proof (quiet_good (dev_fd := dev_fd) (kernel := kernel) _ c u Hc) as B.
  pose proof (quiet_ready (dev_fd := dev_fd) (kernel := kernel) _ c u Hc) as C.
  rewrite E in A, B, C. done.
Qed.

Lemma kept_trans u u1 u2 : kept u u1 -> kept u1 u2 -> kept u u2.
Proof. intros (A & B & C) (A' & B' & C'). split; [by rewrite A'|]. auto. Qed.

Lemma wp_rte_eal_init a (u : U) :
  wp rte_eal_init (fun o s' u' t => o = Done 0 /\ a_fd s' = dev_fd /\ a_log s' <> 0 /\
    a_log_closed s' = false /\ calls printed t = [] /\ kept u u') a u.
Proof.
  unfold rte_eal_init, rte_openlog_stream, set_affinity. wp_steps.
  pose proof (fdopen_ok (dev_fd := dev_fd) (kernel := kernel) 1 u) as L. rewrite Hans in L.
  pose proof (open_nfp (dev_fd := dev_fd) (kernel := kernel) kk0) as O. rewrite Hans1 in O.
  cbn [fst] in *. subst ans1. pose proof (dev_fd_positive (kernel := kernel)) as D.
  rewrite swrap_id by lia. destruct (Z.leb_spec dev_fd 0); [lia|]. wp_steps.
  do 5 (split; [done|]). eapply kept_trans; [by refine (kept_call _ _ _ _ _ Hans)|].
  eapply kept_trans; [by refine (kept_call _ _ _ _ _ Hans0)|].
  by refine (kept_call _ _ _ _ _ Hans1).
Qed.
End Opening.
