(* ===== verification/SimSystem.v ===== *)
(** * A concrete system

    An instance of [Handler ucall] whose [ioctl] on the device runs the driver on the
    concrete kernel of SimKernel.v: the witnesses of the theorems about the middleware
    and the programs evaluate on it. *)

From S2P Require Import Prelude Eff IoctlCommands NfpTypes Kernel SimKernel Reg NfpDma NfpMem.
From S2P Require Import NfpIoctl Posix Middleware Link.
From Stdlib Require Import ZArith Lia.
From stdpp Require Import base list gmap strings.
Local Open Scope string_scope.
Local Open Scope list_scope.
Local Open Scope Z_scope.

(** ** The memory of the process on the concrete kernel *)

Definition set_user (um : gmap Z Z) (k : sim) : sim :=
  Sim (sim_clock k) (sim_sem k) um (sim_dev k) (sim_config k) (sim_busy k) (sim_drvdata k)
    (sim_fails k).

#[export] Instance sim_memory : ProcessMemory sim := {|
  argp := 4096;
  load n k := read_bytes (sim_user k) 4096 (Z.of_nat n);
  store bs k := set_user (write_bytes (sim_user k) 4096 bs) k;
  good k := sim_fails k = NoFailure;
  ready k := 0 < sim_sem k
|}.

Lemma write_bytes_other m a bs i :
  i < a -> write_bytes m a bs !! i = m !! i.
Proof.
  revert m a. induction bs as [|b bs IH]; intros m a H; [done|]. cbn.
  rewrite IH by lia. apply lookup_insert_ne. lia.
Qed.

Lemma write_bytes_lookup m a bs j b :
  bs !! j = Some b -> write_bytes m a bs !! (a + Z.of_nat j) = Some b.
Proof.
  revert m a j. induction bs as [|x bs IH]; intros m a [|j] H; try done; cbn.
  - injection H as ->. rewrite write_bytes_other by lia. rewrite Z.add_0_r.
    apply lookup_insert_eq.
  - replace (a + Z.of_nat (S j)) with (a + 1 + Z.of_nat j) by lia. by apply IH.
Qed.

Lemma read_write_bytes m a bs :
  read_bytes (write_bytes m a bs) a (Z.of_nat (length bs)) = bs.
Proof.
  unfold read_bytes. apply list_eq. intros j. rewrite list_lookup_fmap.
  destruct (bs !! j) as [b|] eqn:E.
  - rewrite lookup_seqZ_lt by (apply lookup_lt_Some in E; lia). cbn. unfold peek.
    by rewrite Z.add_0_l, (write_bytes_lookup _ _ _ _ _ E).
  - apply lookup_ge_None in E. by rewrite lookup_seqZ_ge by lia.
Qed.

Lemma sim_effect_fails {X} (c : kcall X) k : sim_fails (sim_effect c k) = sim_fails k.
Proof. destruct k, c; cbn; try done. case_match; done. Qed.

Lemma sim_effect_user {X} (c : kcall X) k :
  copies_out c = false -> sim_user (sim_effect c k) = sim_user k.
Proof. by destruct k, c. Qed.

#[export] Instance sim_memory_laws : MemoryLaws sim.
Proof.
  split.
  - intros X c k G. cbn. by rewrite sim_effect_fails.
  - intros bs k G. exact G.
  - intros bs k. cbn. apply read_write_bytes.
  - intros n k Hn G. cbn. by rewrite Z2Nat.id.
  - intros bs k G. cbn in *. unfold fails. by rewrite G.
  - intros bs k G. destruct k as [t sem um dev cfg busy dd fl]. cbn in *. subst fl.
    apply read_write_bytes.
  - intros X c n k Hc. cbn. by rewrite sim_effect_user.
  - intros bs k R. exact R.
  - intros k R. cbn in *. by destruct (Z.ltb_spec 0 (sim_sem k)); [|lia].
Qed.

#[export] Instance sim_semaphore_laws : SemaphoreLaws sim sim_sem.
Proof.
  split; [|done|done]. intros X c [t sem um dev cfg busy dd fl] Hc. destruct c; try done; cbn; try lia.
  - destruct (Z.ltb_spec 0 sem); cbn; lia.
  - case_match; cbn; lia.
Qed.

(** ** The system *)

Record sys := Sys {
  s_driver : driver;
  s_kernel : sim;
  s_dirs : list string;       (* the directories of sysfs *)
  s_rand : Z                  (* the state of rand *)
}.

Definition s_stat (dirs : list string) (path : string) : Z * bool :=
  if decide (path ∈ dirs) then (0, true) else (-1, false).

Definition sim_fd : Z := 3.
Definition sys_fuel : nat := 100.

Definition sys_answer {X} (c : ucall X) (u : sys) : X * sys :=
  match c in ucall X return X * sys with
  | U_open_nfp => (sim_fd, u)
  | U_ioctl fd cmd arg =>
      if fd =? sim_fd then
        match sys_ioctl sys_fuel cmd arg (s_driver u) (s_kernel u) with
        | Some (v, bs, d, k) =>
            (v, bs, Sys d k (s_dirs u) (s_rand u))
        | None => (-1, arg, u)
        end
      else (-1, arg, u)
  | U_open_hp => (4, u)
  | U_close _ => (0, u)
  | U_mmap _ _ => (2 ^ 30, u)
  | U_munmap _ _ => (0, u)
  | U_unlink_hp => (0, u)
  | U_stat path => (s_stat (s_dirs u) path, u)
  | U_fopen _ _ => (2 ^ 20, u)
  | U_fscanf_ld _ => (Some 8, u)
  | U_fdopen _ => (2 ^ 21, u)
  | U_vfprintf _ s => (Z.of_nat (String.length s), u)
  | U_fprintf _ _ => (tt, u)
  | U_eprintf _ => (tt, u)
  | U_printf _ => (tt, u)
  | U_fclose _ => (tt, u)
  | U_sched_setaffinity _ => (0, u)
  | U_store64 _ _ => (tt, u)
  | U_store_large _ _ => (tt, u)
  | U_fprintf_gbps _ _ _ => (tt, u)
  | U_rand =>
      let r := (s_rand u * 1103515245 + 12345) mod 2 ^ 31 in
      (r, Sys (s_driver u) (s_kernel u) (s_dirs u) r)
  | U_srand_time => (tt, u)
  end.

#[export] Instance sys_handler : Handler ucall sys := fun X c u => sys_answer c u.

Definition sys_kernel (u : sys) : driver * sim := (s_driver u, s_kernel u).

#[export] Instance sys_linked : Linked sys sim sys_fuel sim_fd sys_kernel.
Proof.
  intros cmd bs u v bs' d' k' H. unfold handle, sys_handler. cbn [sys_answer].
  rewrite Z.eqb_refl. cbn [sys_kernel fst snd] in H. by rewrite H.
Qed.

#[export] Instance sys_device_laws : DeviceLaws sys sim sim_fd sys_kernel.
Proof.
  split; try done; by intros X [] [].
Qed.

(** A machine with 1 GB pages. *)
Definition hugepages_dir : string := "/sys/kernel/mm/hugepages".
Definition dirs_1GB : list string :=
  [hugepages_dir; "/sys/kernel/mm/hugepages/hugepages-1048576kB"].
Definition dirs_2MB : list string :=
  [hugepages_dir; "/sys/kernel/mm/hugepages/hugepages-2048kB"].

Definition sys_init : sys := Sys mapped_driver sim_init dirs_1GB 1.

Definition open_lib : lib := App sim_fd (2 ^ 21) false 0 0 0.

#[export] Instance sys_resources : Resources (U := sys).
Proof. by split. Qed.

#[export] Instance sys_fs_laws : FsLaws (U := sys).
Proof.
  intros X c [d k dirs r] path. unfold fs, handle, sys_handler. destruct c; try done.
  cbn. case_match; [|done]. by repeat case_match.
Qed.

(** ** Witnesses of the middleware and of the system calls *)

(** The same machine with 2 MB pages. *)
Definition sys_2MB : sys := Sys mapped_driver sim_init dirs_2MB 1.

Lemma getFreeHugePages_spec_witness :
  let r := getFreeHugePages 1 open_lib sys_2MB in
  calls ioctl_sent (r_tr r) =
    [(NFPIOC_REGISTER_BUFFER, encode_dma_buffer (DmaBuffer 1 (2 ^ 30) 2048 2048 1))] \/
  exists h, r_out r = Stop h.
Proof.
  destruct (getFreeHugePages_spec 1 open_lib sys_2MB) as [(p & H) | (h & H & _)].
  - done.
  - left. destruct H as (O & _ & _ & _ & M & _ & _ & Q). rewrite Q.
    vm_compute in M. injection M as <-. vm_compute. reflexivity.
  - right. exists h. exact H.
Defined.

Lemma hugepage_size_2MB_witness :
  r_out (hugepage_size lib_init sys_2MB) = Done 2048.
Proof.
  apply (hugepage_size_2MB sys_2MB);
    vm_compute; reflexivity.
Defined.

Lemma rte_exit_closes_witness :
  r_out ((rte_exit 0 "Operation complete" : UM sys unit) open_lib sys_init) = Stop (Exited 0).
Proof. apply (rte_exit_closes 0 "Operation complete" open_lib sys_init); done. Defined.

Lemma writeWord_reaches_device_witness :
  r_out (writeWord 0 0x9000 4064 open_lib sys_init) = Done 4064.
Proof.
  apply (writeWord_reaches_device (K := sim) (fuel := sys_fuel) (dev_fd := sim_fd)
    (kernel := sys_kernel) 0 0x9000 4064 open_lib sys_init); done.
Defined.

Lemma readWord_reads_device_witness :
  let u := r_k (writeWord 0 0x9000 4064 open_lib sys_init) in
  r_st (readWord 0 0x9000 open_lib u) = open_lib /\
  r_out (readWord 0 0x9000 open_lib u) = Done 4064.
Proof.
  destruct (readWord_reads_device (K := sim) (fuel := sys_fuel) (dev_fd := sim_fd)
    (kernel := sys_kernel) 0 0x9000 open_lib
    (r_k (writeWord 0 0x9000 4064 open_lib sys_init))) as (A & _ & B).
  - done.
  - done.
  - done.
  - vm_compute. reflexivity.
  - vm_compute. reflexivity.
  - split; [exact A|]. rewrite B. vm_compute. reflexivity.
Defined.
