(* ===== verification/RwBar.v ===== *)
(** * The register utility (HOST/user/rwBar/rwBar.c)

    [etoi] reads a number in the formats of the comment of the file, [readArguments]
    the command line; [main] makes one access to a register. *)

From S2P Require Import Prelude Eff IoctlCommands NfpTypes Kernel Reg Posix Middleware Link.
From S2P Require Import Numbers SimKernel SimSystem.
From Stdlib Require Import ZArith Lia String Ascii.
From stdpp Require Import base list strings.
Local Open Scope string_scope.
Local Open Scope list_scope.
Local Open Scope Z_scope.
Local Open Scope eff_scope.

(** ** Numbers *)

(** The index of the first [c] of a string. *)
Fixpoint strchr (l : list ascii) (c : ascii) : option nat :=
  match l with
  | [] => None
  | d :: l' => if Ascii.eqb d c then Some O else S <$> strchr l' c
  end.

Definition is_separator (c : ascii) : bool := Ascii.eqb c "_" || Ascii.eqb c "-".

Definition etoi_error : Z := u32 (-1).

(** The loop of lines 129 to 167, over the characters from the last to the first. *)
Fixpoint etoi_groups (l : list ascii) (cdword tdword multp multd cnt : Z) : Z :=
  match l with
  | [] => etoi_error
  | c :: l' =>
      if (cnt mod 4 =? 0) && negb (cnt =? 0) then
        if negb (is_separator c) then etoi_error
        else
          let tdword := u32 (tdword + u32 (multd * cdword)) in
          let multd := u32 (multd * 65536) in
          match l' with
          | [] => u32 (tdword + u32 (multd * 0))
          | _ => etoi_groups l' 0 tdword 1 multd 0
          end
      else
        match hex_digit c with
        | None => etoi_error
        | Some cchar =>
            let cdword := u32 (cdword + u32 (cchar * multp)) in
            let multp := u32 (multp * 16) in
            match l' with
            | [] => u32 (tdword + u32 (multd * cdword))
            | _ => etoi_groups l' cdword tdword multp multd (cnt + 1)
            end
        end
  end.

Definition etoi_chars (string : list ascii) : Z :=
  match (match strchr string "x" with Some i => Some i | None => strchr string "X" end) with
  | Some i =>
      let value := S i in
      if (2 <? value)%nat then etoi_error
      else if (value =? 2)%nat && negb (Ascii.eqb (default zero (head string)) "0") then etoi_error
      else
        let v := drop value string in
        if forallb is_hex v && negb (length v =? 0)%nat then u32 (strtol 16 v)
        else etoi_groups (reverse v) 0 0 1 1 0
  | None =>
      if forallb is_digit string then u32 (strtol 10 string) else etoi_error
  end.

Definition etoi (string : string) : Z := etoi_chars (chars string).

(** ** The command line *)

(** [string[0]], the terminator for an empty string. *)
Definition first_char (string : string) : ascii := default zero (head (chars string)).
#[global] Arguments first_char : simpl never.

Inductive DIRECTION := TO_CARD | FROM_CARD.

Record memory_op := MemoryOp { op_dir : DIRECTION; op_val : Z; op_offset : Z; op_bar : Z }.

(** The lines of the help. *)
Definition usage : list string :=
  ["You can use this program in the following ways:";
   "· Indicating ONE read/write operation";
   "";
   "Example of operation";
   "";
   "· R 0 0x9000        -> It is translated into read a 32 bit word from the offset 0x9000 in the BAR0";
   "· W 1 0x9000 0xFE0  -> It is translated into write the 32 bit word (0xFEO) to the offset 0x9000 in the BAR0"].

Section Program.
Context {U : Type} `{!Handler ucall U} `{E : IocEncoding}.

(** The operation, or [None] for the result -1.  [argv] is the vector with the name
    of the program; an element past its end is the null pointer. *)
Definition readArguments (argv : list string) : UM U (option memory_op) :=
  let argc := length argv in
  if negb (argc =? 2)%nat && negb (argc =? 4)%nat && negb (argc =? 5)%nat then ret None
  else
    let* argv1 := need NullDeref (argv !! 1%nat) in
    let op := first_char argv1 in
    let finish dir val :=
      let* a2 := need NullDeref (argv !! 2%nat) in
      let bar := s8 (etoi a2) in
      let* a3 := need NullDeref (argv !! 3%nat) in
      ret (Some (MemoryOp dir val (etoi a3) bar)) in
    if Ascii.eqb op "R" || Ascii.eqb op "r" then finish FROM_CARD 0
    else if Ascii.eqb op "W" || Ascii.eqb op "w" then
      if negb (argc =? 5)%nat then ret None
      else
        let* a4 := need NullDeref (argv !! 4%nat) in
        finish TO_CARD (etoi a4)
    else ret None.

Definition printUsage : UM U unit := call (U_printf (text usage)).

Definition main (argv : list string) : UM U Z :=
  let* a := readArguments argv in
  match a with
  | None =>
      do* printUsage in
      ret 0
  | Some op =>
      let* r := rte_eal_init in
      if negb (r =? 0) then
        do* call (U_printf ("No target found" ++ nl)%string) in
        ret (-1)
      else
        do* (match op_dir op with
             | FROM_CARD =>
                 let* w := readWord (u8 (op_bar op)) (op_offset op) in
                 call (U_printf (string_of_list_ascii (hex_of 8 w) ++ nl)%string)
             | TO_CARD =>
                 do* writeWord (u8 (op_bar op)) (op_offset op) (op_val op) in
                 ret tt
             end) in
        rte_exit 0 ("Operation complete" ++ nl)%string
  end.
End Program.

Lemma strchr_none l c : Forall (fun d => Ascii.eqb d c = false) l -> strchr l c = None.
Proof. induction 1 as [|d l E _ IH]; cbn; [done|]. by rewrite E, IH. Qed.

Lemma hex_not_x c : hex_char c -> Ascii.eqb c "x" = false /\ Ascii.eqb c "X" = false.
Proof. unfold hex_char. intros H. split; apply Ascii.eqb_neq; intros ->; by vm_compute in H. Qed.

Lemma digit_not_x c : is_digit c = true -> Ascii.eqb c "x" = false /\ Ascii.eqb c "X" = false.
Proof. intros H. split; apply Ascii.eqb_neq; intros ->; by vm_compute in H. Qed.

Lemma strchr_hex l : Forall hex_char l -> strchr l "x" = None /\ strchr l "X" = None.
Proof.
  intros H. split; apply strchr_none; (eapply Forall_impl; [exact H|]);
    intros c Hc; by apply hex_not_x.
Qed.

(** The prefixes of a hexadecimal number. *)
Definition prefixes : list string := ["0x"; "x"; "0X"; "X"].

Lemma etoi_prefix p l :
  p ∈ prefixes -> Forall (fun c => Ascii.eqb c "x" = false /\ Ascii.eqb c "X" = false) l ->
  etoi_chars (chars p ++ l) =
    if forallb is_hex l && negb (length l =? 0)%nat then u32 (strtol 16 l)
    else etoi_groups (reverse l) 0 0 1 1 0.
Proof.
  intros Hp Hl.
  assert (Nx : strchr l "x" = None) by (apply strchr_none; eapply Forall_impl; [exact Hl|]; by intros c [? ?]).
  assert (NX : strchr l "X" = None) by (apply strchr_none; eapply Forall_impl; [exact Hl|]; by intros c [? ?]).
  unfold etoi_chars. unfold prefixes in Hp. rewrite !elem_of_cons, elem_of_nil in Hp.
  destruct Hp as [-> | [-> | [-> | [-> | []]]]]; cbn; rewrite ?Nx, ?NX; done.
Qed.

(** Hexadecimal numbers in each of the four notations, with any number of leading zeros
    and as %08X prints them, are read as the number that was written. *)
Theorem etoi_hex p n z :
  p ∈ prefixes -> (0 < n)%nat -> fits 32 z -> z < 16 ^ Z.of_nat n ->
  etoi (p +:+ string_of_list_ascii (hex_of n z)) = z.
Proof.
  intros Hp Hn Hz Hlt. unfold etoi, fits in *.
  rewrite chars_app, list_ascii_of_string_of_list_ascii.
  pose proof (hex_of_hex n z) as Hh.
  rewrite etoi_prefix; [|done | eapply Forall_impl; [exact Hh | apply hex_not_x]].
  replace (forallb is_hex (hex_of n z)) with true.
  2: { symmetry. by apply forallb_all. }
  rewrite hex_of_length. destruct (Nat.eqb_spec n 0); [lia|]. cbn [negb andb].
  unfold strtol. rewrite number_hex_of, Z.mod_small by lia.
  unfold LONG_MAX. rewrite Z.min_l by lia. by apply wrap_id.
Qed.

(** Decimal numbers, with any number of leading zeros, are read as the number that
    was written. *)
Theorem etoi_decimal n z :
  fits 32 z -> z < 10 ^ Z.of_nat n -> etoi (string_of_list_ascii (dec_of n z)) = z.
Proof.
  intros Hz Hlt. unfold etoi, fits in *. rewrite list_ascii_of_string_of_list_ascii.
  pose proof (dec_of_digits n z) as Hd. unfold etoi_chars.
  rewrite !strchr_none by (eapply Forall_impl; [exact Hd|]; intros c Hc; by apply digit_not_x).
  replace (forallb is_digit (dec_of n z)) with true.
  2: { symmetry. by apply forallb_all. }
  unfold strtol. rewrite number_dec_of, Z.mod_small by lia.
  unfold LONG_MAX. rewrite Z.min_l by lia. by apply wrap_id.
Qed.

(** *** Groups of digits *)

Lemma groups_step c l d cd td md cnt :
  hex_digit c = Some d -> 0 <= cnt < 4 -> 0 <= d < 16 -> 0 <= cd < 16 ^ cnt ->
  etoi_groups (c :: l) cd td (16 ^ cnt) md cnt =
    (match l with
     | [] => u32 (td + u32 (md * (cd + d * 16 ^ cnt)))
     | _ => etoi_groups l (cd + d * 16 ^ cnt) td (16 ^ (cnt + 1)) md (cnt + 1)
     end) /\
  0 <= cd + d * 16 ^ cnt < 16 ^ (cnt + 1).
Proof.
  intros Hc Hn Hd Hcd. cbn [etoi_groups].
  replace ((cnt mod 4 =? 0) && negb (cnt =? 0)) with false.
  2: { rewrite Z.mod_small by lia. by destruct (cnt =? 0). }
  rewrite Hc.
  assert (cnt = 0 \/ cnt = 1 \/ cnt = 2 \/ cnt = 3) as H by lia.
  assert (E1 : u32 (cd + u32 (d * 16 ^ cnt)) = cd + d * 16 ^ cnt).
  { rewrite (wrap_id 32 (d * _)), wrap_id; unfold fits; destruct H as [-> | [-> | [-> | ->]]]; lia. }
  assert (E2 : u32 (16 ^ cnt * 16) = 16 ^ (cnt + 1)).
  { destruct H as [-> | [-> | [-> | ->]]]; reflexivity. }
  rewrite E1, E2. split; [done|]. destruct H as [-> | [-> | [-> | ->]]]; lia.
Qed.

(** The digits of a group, followed by more. *)
Lemma groups_digits n z cnt cd td md rest :
  0 <= z -> 0 <= cnt -> cnt + Z.of_nat n <= 4 -> 0 <= cd < 16 ^ cnt -> rest <> [] ->
  etoi_groups (reverse (hex_of n z) ++ rest) cd td (16 ^ cnt) md cnt =
  etoi_groups rest (cd + 16 ^ cnt * (z mod 16 ^ Z.of_nat n)) td (16 ^ (cnt + Z.of_nat n)) md
    (cnt + Z.of_nat n).
Proof.
  revert z cnt cd. induction n as [|n IH]; intros z cnt cd Hz Hc Hn Hcd Hr.
  - cbn. rewrite Z.mod_1_r, Z.mul_0_r, !Z.add_0_r. done.
  - destruct (reverse_hex_of n z) as (c & -> & Hd). cbn [app].
    pose proof (Z.mod_pos_bound z 16 ltac:(lia)).
    destruct (groups_step c (reverse (hex_of n (z / 16)) ++ rest) (z mod 16) cd td md cnt)
      as [-> B]; [done|lia|done|done|].
    replace (match reverse (hex_of n (z / 16)) ++ rest with [] => u32 (td + u32 (md *
      (cd + z mod 16 * 16 ^ cnt))) | _ :: _ => etoi_groups (reverse (hex_of n (z / 16)) ++ rest)
      (cd + z mod 16 * 16 ^ cnt) td (16 ^ (cnt + 1)) md (cnt + 1) end)
      with (etoi_groups (reverse (hex_of n (z / 16)) ++ rest)
        (cd + z mod 16 * 16 ^ cnt) td (16 ^ (cnt + 1)) md (cnt + 1))
      by (destruct (reverse (hex_of n (z / 16))), rest; done).
    rewrite IH by (done || lia || apply Z.div_pos; lia).
    replace (cnt + 1 + Z.of_nat n) with (cnt + Z.of_nat (S n)) by lia. f_equal.
    rewrite Nat2Z.inj_succ, Z.pow_succ_r, Z.rem_mul_r by (lia || apply Z.pow_pos_nonneg; lia).
    rewrite Z.pow_add_r by lia. lia.
Qed.

(** The digits of the last group. *)
Lemma groups_last n z cnt cd td md :
  0 <= z -> (0 < n)%nat -> 0 <= cnt -> cnt + Z.of_nat n <= 4 -> 0 <= cd < 16 ^ cnt ->
  etoi_groups (reverse (hex_of n z)) cd td (16 ^ cnt) md cnt =
  u32 (td + u32 (md * (cd + 16 ^ cnt * (z mod 16 ^ Z.of_nat n)))).
Proof.
  revert z cnt cd. induction n as [|n IH]; intros z cnt cd Hz Hp Hc Hn Hcd; [lia|].
  destruct (reverse_hex_of n z) as (c & -> & Hd).
  pose proof (Z.mod_pos_bound z 16 ltac:(lia)).
  destruct (groups_step c (reverse (hex_of n (z / 16))) (z mod 16) cd td md cnt)
    as [-> B]; [done|lia|done|done|].
  destruct n as [|n].
  - cbn [hex_of reverse]. change (16 ^ Z.of_nat 1) with 16. cbn. do 4 f_equal. lia.
  - destruct (reverse_hex_of n (z / 16)) as (c' & E & _).
    remember (reverse (hex_of (S n) (z / 16))) as l eqn:El.
    destruct l as [|x l]; [done|]. rewrite El.
    rewrite IH by (done || lia || apply Z.div_pos; lia).
    rewrite (Nat2Z.inj_succ (S n)), Z.pow_succ_r, Z.rem_mul_r
      by (lia || apply Z.pow_pos_nonneg; lia).
    rewrite Z.pow_add_r by lia. do 3 f_equal. lia.
Qed.

(** Numbers whose last four hexadecimal digits are set apart by an underscore or a
    hyphen, in each of the four notations, are read as if it were not there. *)
Theorem etoi_separator p n a b c :
  p ∈ prefixes -> (0 < n <= 4)%nat -> fits 16 a -> a < 16 ^ Z.of_nat n -> fits 16 b ->
  is_separator c = true ->
  etoi (p +:+ string_of_list_ascii (hex_of n a ++ [c] ++ hex_of 4 b)) = a * 2 ^ 16 + b.
Proof.
  intros Hp Hn Ha Hlt Hb Hc. unfold etoi, fits in *.
  rewrite chars_app, list_ascii_of_string_of_list_ascii.
  assert (Sc : c = "_"%char \/ c = "-"%char).
  { unfold is_separator in Hc. apply orb_true_iff in Hc as [H | H]; apply Ascii.eqb_eq in H; auto. }
  rewrite etoi_prefix; [|done|].
  2: { rewrite !Forall_app. split; [|split].
       - eapply Forall_impl; [apply hex_of_hex | apply hex_not_x].
       - destruct Sc as [-> | ->]; by repeat constructor.
       - eapply Forall_impl; [apply hex_of_hex | apply hex_not_x]. }
  replace (forallb is_hex (hex_of n a ++ [c] ++ hex_of 4 b)) with false.
  2: { symmetry. rewrite !forallb_app. destruct Sc as [-> | ->]; cbn; by rewrite andb_false_r. }
  cbn [andb]. rewrite !reverse_app. cbn [reverse rev_append app]. rewrite <- app_assoc.
  change 1 with (16 ^ 0) at 1. rewrite groups_digits by (done || lia).
  change (16 ^ Z.of_nat 4) with (2 ^ 16). rewrite Z.mod_small by lia.
  change (0 + Z.of_nat 4) with 4. cbn [app etoi_groups].
  change ((4 mod 4 =? 0) && negb (4 =? 0)) with true. rewrite Hc. cbn [negb].
  destruct n as [|n]; [lia|]. destruct (reverse_hex_of n a) as (c' & E & _).
  change (reverse [c] ++ reverse (hex_of (S n) a)) with (c :: reverse (hex_of (S n) a)).
  remember (reverse (hex_of (S n) a)) as l eqn:El. destruct l as [|x l]; [done|]. rewrite El.
  match goal with |- etoi_groups ?l 0 ?t 1 ?m 0 = _ =>
    change (etoi_groups l 0 t 1 m 0) with (etoi_groups l 0 t (16 ^ 0) m 0) end.
  rewrite groups_last by (done || lia). rewrite (Z.mod_small a) by lia.
  rewrite Z.mul_1_l, !Z.add_0_l, !Z.mul_1_l. rewrite !(wrap_id 32 b), (wrap_id 32 65536)
    by (unfold fits; lia).
  rewrite (wrap_id 32 (65536 * a)), wrap_id by (unfold fits; lia). lia.
Qed.

(** A text that is not a number is not refused: it is read as 0xFFFFFFFF, and so is the
    number 0xFFFFFFFF. *)
Theorem etoi_error_is_a_number l :
  Forall (fun c => Ascii.eqb c "x" = false /\ Ascii.eqb c "X" = false) l ->
  forallb is_digit l = false ->
  etoi (string_of_list_ascii l) = etoi "0xFFFFFFFF" /\ etoi "0xFFFFFFFF" = 2 ^ 32 - 1.
Proof.
  intros Hx Hd. split; [|reflexivity]. unfold etoi at 1.
  rewrite list_ascii_of_string_of_list_ascii. unfold etoi_chars.
  rewrite !strchr_none by (eapply Forall_impl; [exact Hx|]; by intros ? [? ?]).
  by rewrite Hd.
Qed.

Lemma etoi_groups_fits l cd td mp md cnt : fits 32 (etoi_groups l cd td mp md cnt).
Proof.
  revert cd td mp md cnt. induction l as [|c l IH]; intros; cbn [etoi_groups]; [done|].
  repeat case_match; try (by apply wrap_fits); try apply IH; done.
Qed.

Lemma etoi_fits s : fits 32 (etoi s).
Proof.
  unfold etoi, etoi_chars. repeat case_match; try (by apply wrap_fits); try done;
    apply etoi_groups_fits.
Qed.

(** ** The program *)

(** Elements of a concrete argument vector. *)
Ltac operands :=
  repeat match goal with
  | H : _ !! _ = _ |- _ => cbn in H; first [discriminate H | injection H as <-]
  end.

Section Programs.
Context {U : Type} `{!Handler ucall U} `{E : IocEncoding}.

(** With a read operation and no operands, the program dereferences the null pointer at
    the end of the argument vector; it should have printed its help. *)
Theorem read_without_operands prog op a (u : U) :
  first_char op = "R"%char \/ first_char op = "r"%char ->
  r_out (main [prog; op] a u) = Stop (Undefined NullDeref).
Proof.
  intros H.
  enough (W : wp (main [prog; op]) (fun o _ _ _ => o = Stop (Undefined NullDeref)) a u) by exact W.
  unfold main, readArguments. cbn [length Nat.eqb negb andb]. wp_steps; operands.
  destruct H as [-> | ->]; cbn [Ascii.eqb Bool.eqb orb]; wp_steps; by operands.
Qed.
End Programs.

Section Reading.
Context {U K : Type} `{HU : Handler ucall U} `{HK : Handler kcall K} `{P : ProcessMemory K}.
Context `{!MemoryLaws K} `{E : IocEncoding} `{!IocLaws E}.
Context {fuel : nat} {dev_fd : Z} {kernel : U -> driver * K}.
Context `{!Linked U K fuel dev_fd kernel} `{!DeviceLaws U K dev_fd kernel}.

Lemma wp_rte_exit_printed {A} code msg s (u : U) :
  a_log s <> 0 -> a_log_closed s = false ->
  wp (rte_exit code msg : UM U A) (fun o _ _ t => o = Stop (Exited code) /\
    calls printed t = []) s u.
Proof.
  intros Hl Hc. unfold rte_exit, rte_free, rte_vlog, rte_actuallog_stream. wp_steps.
  destruct (Z.eqb_spec (a_log s) 0); [done|]. rewrite Hc. wp_steps.
  destruct (a_fd s =? 0); by wp_steps.
Qed.

(** A read operation prints, in eight hexadecimal digits, the word the device answers for
    the register named on the command line, and leaves with code 0; the register is
    the one at the offset read by [etoi] in the BAR read by [etoi], modulo 256. *)
Theorem rwbar_read_prints prog op bar offset more a (u : U) :
  first_char op = "R"%char \/ first_char op = "r"%char ->
  more = [] \/ (exists x, more = [x]) -> good (kernel u).2 -> ready (kernel u).2 ->
  let r := main (prog :: op :: bar :: offset :: more) a u in
  let q := Reg32 0 (u8 (etoi bar)) (etoi offset) in
  exists k', good k' /\ r_out r = Stop (Exited 0) /\
    calls printed (r_tr r) =
      [(string_of_list_ascii (hex_of 8
          (match target q (d_card (kernel u).1) with
           | Some at_ => u32 (handle (K_ioread32 at_) k').1
           | None => 0
           end)) ++ nl)%string].
Proof.
  intros Hop Hm G Rd r q.
  as_wp r (main (prog :: op :: bar :: offset :: more)) a u. unfold main. wp_step.
  assert (RA : wp (readArguments (U := U) (prog :: op :: bar :: offset :: more))
    (fun o s' u' t => o = Done (Some (MemoryOp FROM_CARD 0 (etoi offset) (s8 (etoi bar)))) /\
      s' = a /\ u' = u /\ t = []) a u).
  { unfold readArguments.
    destruct Hm as [-> | [x ->]]; cbn [length Nat.eqb negb andb];
      wp_steps; operands;
      (destruct Hop as [-> | ->]; cbn [Ascii.eqb Bool.eqb orb]; wp_steps; by operands). }
  eapply wp_mono; [exact RA|]. intros o s' u' t (-> & -> & -> & ->). cbn [op_dir op_bar op_offset].
  wp_step. eapply wp_mono; [apply (wp_rte_eal_init (dev_fd := dev_fd) (kernel := kernel))|].
  intros o s1 u1 t1 (-> & Hfd & Hl & Hc & Pr & (K1 & K2 & K3)). cbn [Z.eqb negb].
  wp_step. wp_step.
  assert (Eb : u8 (s8 (etoi bar)) = u8 (etoi bar)).
  { unfold swrap, wrap. cbn zeta. destruct (_ <? _).
    - by rewrite Zmod_mod.
    - rewrite Zminus_mod, Z_mod_same_full, Z.sub_0_r, !Zmod_mod. done. }
  rewrite Eb.
  eapply wp_mono; [apply (wp_readWord (fuel := fuel) (kernel := kernel) _ _ s1 u1 Hfd);
    [by apply wrap_fits | apply etoi_fits | by apply K2 | by apply K3]|].
  intros o s2 u2 t2 (-> & _ & P2 & ->). fold q. rewrite K1.
  wp_steps. eapply wp_mono; [by apply wp_rte_exit_printed|].
  intros o s3 u3 t3 (-> & P3).
  exists (entered (encode_reg32 q) sizeof_reg32 (kernel u1).2). split; [|split; [done|]].
  - by apply good_entered, K2.
  - rewrite !calls_app, Pr, P2, P3. done.
Qed.
End Reading.

(** ** Witnesses *)

Lemma etoi_hex_witness : etoi "0x0000DEAD" = 57005.
Proof.
  apply (etoi_hex "0x" 8 57005).
  - left.
  - lia.
  - done.
  - done.
Defined.

Lemma etoi_decimal_witness : etoi "0042" = 42.
Proof. apply (etoi_decimal 4 42); done. Defined.

Lemma etoi_separator_witness : etoi "x1234-5678" = 0x12345678.
Proof.
  apply (etoi_separator "x" 4 0x1234 0x5678 "-").
  - right. left.
  - lia.
  - done.
  - done.
  - done.
  - done.
Defined.

Lemma etoi_error_is_a_number_witness : etoi "0z12" = etoi "0xFFFFFFFF".
Proof.
  apply (etoi_error_is_a_number ["0"; "z"; "1"; "2"]%char); [by repeat constructor | done].
Defined.

Lemma read_without_operands_witness :
  r_out (main ["rwBar"; "Read"] lib_init sys_init) = Stop (Undefined NullDeref).
Proof. apply read_without_operands. by left. Defined.

Lemma rwbar_read_prints_witness :
  exists k' : sim, r_out (main ["rwBar"; "R"; "0"; "0x9000"] lib_init sys_init) = Stop (Exited 0) /\
    calls printed (r_tr (main ["rwBar"; "R"; "0"; "0x9000"] lib_init sys_init)) =
    [(string_of_list_ascii (hex_of 8 (u32 (handle (K_ioread32 (2 ^ 32 + 0x9000)) k').1)) ++ nl)%string].
Proof.
  destruct (rwbar_read_prints (K := sim) (fuel := sys_fuel) (dev_fd := sim_fd)
    (kernel := sys_kernel) "rwBar" "R" "0" "0x9000" [] lib_init sys_init) as (k' & _ & O & Q).
  - by left.
  - by left.
  - done.
  - done.
  - exists k'. split; [exact O | exact Q].
Defined.
