(* ===== verification/BenchArgs.v ===== *)
(** * The arguments of the benchmark (HOST/user/benchmark/benchmark.c, lines 44 to 284)

    [string2bytes] and [readArguments].  The union [prop] is kept as its three words,
    so that the members of the two structures that share it do share it. *)

From S2P Require Import Prelude Eff Posix Middleware Numbers Kernel NfpTypes IoctlCommands.
From S2P Require Import SimKernel SimSystem.
From Stdlib Require Import ZArith Lia String Ascii.
From stdpp Require Import base list strings.
Local Open Scope string_scope.
Local Open Scope list_scope.
Local Open Scope Z_scope.
Local Open Scope eff_scope.

Definition MAX_WINDOW_SIZE : Z := 24.
Definition MAX_DMA_DESCRIPTORS : Z := 1024.
Definition PAGE_SIZE : Z := 4096.

Inductive pattern := FIX | SEQ | RAN.
Inductive direction := D2H | H2D | BOTH.
Inductive cache := IGNORE | DISCARD | WARM.
Inductive test := LATENCY | BANDWIDTH.

Record arguments := Arguments {
  a_niters : Z;
  a_nbytes : Z;
  a_wsize : Z;
  a_test : test;
  a_pat : pattern;
  a_dir : direction;
  a_cache : cache;
  a_prop0 : Z;                (* pfix.initial_offset, pran.nsystempages *)
  a_prop1 : Z;                (* pran.cachelines *)
  a_prop2 : Z;                (* pran.windowsize *)
  a_file_name : option string (* None: the null pointer *)
}.

Definition set_niters v (a : arguments) : arguments :=
  Arguments v (a_nbytes a) (a_wsize a) (a_test a) (a_pat a) (a_dir a) (a_cache a) (a_prop0 a)
    (a_prop1 a) (a_prop2 a) (a_file_name a).
Definition set_nbytes v (a : arguments) : arguments :=
  Arguments (a_niters a) v (a_wsize a) (a_test a) (a_pat a) (a_dir a) (a_cache a) (a_prop0 a)
    (a_prop1 a) (a_prop2 a) (a_file_name a).
Definition set_wsize v (a : arguments) : arguments :=
  Arguments (a_niters a) (a_nbytes a) v (a_test a) (a_pat a) (a_dir a) (a_cache a) (a_prop0 a)
    (a_prop1 a) (a_prop2 a) (a_file_name a).
Definition set_test v (a : arguments) : arguments :=
  Arguments (a_niters a) (a_nbytes a) (a_wsize a) v (a_pat a) (a_dir a) (a_cache a) (a_prop0 a)
    (a_prop1 a) (a_prop2 a) (a_file_name a).
Definition set_pat v (a : arguments) : arguments :=
  Arguments (a_niters a) (a_nbytes a) (a_wsize a) (a_test a) v (a_dir a) (a_cache a) (a_prop0 a)
    (a_prop1 a) (a_prop2 a) (a_file_name a).
Definition set_dir v (a : arguments) : arguments :=
  Arguments (a_niters a) (a_nbytes a) (a_wsize a) (a_test a) (a_pat a) v (a_cache a) (a_prop0 a)
    (a_prop1 a) (a_prop2 a) (a_file_name a).
Definition set_cache v (a : arguments) : arguments :=
  Arguments (a_niters a) (a_nbytes a) (a_wsize a) (a_test a) (a_pat a) (a_dir a) v (a_prop0 a)
    (a_prop1 a) (a_prop2 a) (a_file_name a).
Definition set_prop0 v (a : arguments) : arguments :=
  Arguments (a_niters a) (a_nbytes a) (a_wsize a) (a_test a) (a_pat a) (a_dir a) (a_cache a) v
    (a_prop1 a) (a_prop2 a) (a_file_name a).
Definition set_pran n c w (a : arguments) : arguments :=
  Arguments (a_niters a) (a_nbytes a) (a_wsize a) (a_test a) (a_pat a) (a_dir a) (a_cache a) n c w
    (a_file_name a).
Definition set_file_name v (a : arguments) : arguments :=
  Arguments (a_niters a) (a_nbytes a) (a_wsize a) (a_test a) (a_pat a) (a_dir a) (a_cache a)
    (a_prop0 a) (a_prop1 a) (a_prop2 a) v.

(** ** Sizes *)

Definition is_space (c : ascii) : bool :=
  let n := Z.of_nat (nat_of_ascii c) in (n =? 32) || ((9 <=? n) && (n <=? 13)).

Fixpoint skip_space (l : list ascii) : list ascii :=
  match l with c :: l' => if is_space c then skip_space l' else l | [] => [] end.

Fixpoint span_digits (l : list ascii) : list ascii * list ascii :=
  match l with
  | c :: l' => if is_digit c then let (d, r) := span_digits l' in (c :: d, r) else ([], l)
  | [] => ([], [])
  end.

(** The %ld of sscanf: the number and what follows it; [None] when nothing converts. *)
Definition scan_ld (l : list ascii) : option (Z * list ascii) :=
  let l := skip_space l in
  let (neg, l) := match l with
    | c :: l' => if Ascii.eqb c "-" then (true, l') else if Ascii.eqb c "+" then (false, l')
                 else (false, l)
    | [] => (false, l)
    end in
  let (d, r) := span_digits l in
  match d with
  | [] => None
  | _ => Some (if (neg : bool) then Z.max (- number 10 d) (- LONG_MAX - 1) else strtol 10 d, r)
  end.

Definition toupper (c : ascii) : ascii :=
  let n := nat_of_ascii c in
  if (97 <=? n)%nat && (n <=? 122)%nat then ascii_of_nat (n - 32) else c.

(** [None]: [size] is read without having been stored. *)
Definition string2bytes (s : string) : option Z :=
  match scan_ld (chars s) with
  | None => None
  | Some (v, rest) =>
      let size := u64 v in
      Some match rest with
           | [] => size
           | unit :: _ =>
               if Ascii.eqb (toupper unit) "G" then u64 (size * (1024 * 1024 * 1024))
               else if Ascii.eqb (toupper unit) "M" then u64 (size * (1024 * 1024))
               else if Ascii.eqb (toupper unit) "K" then u64 (size * 1024)
               else size
           end
  end.

Definition default_file : string := "/dev/stdout".

(** ** The command line *)

Section Args.
Context {U : Type} `{!Handler ucall U}.

(** strcmp (argv[i], ...) and string2bytes (argv[i]) at the end of the vector. *)
Definition operand (l : list string) : UM U string := need NullDeref (head l).

Definition operand_bytes (l : list string) : UM U Z :=
  let* s := operand l in need Uninit (string2bytes s).

(** The body of the loop of line 201 on the option [o] and what follows it: the new
    structure and the arguments left, or [None] for the result -1. *)
Definition readOption (o : string) (l : list string) (arg : arguments)
    : UM U (option (arguments * list string)) :=
  if (o =? "-t")%string then
    let* v := operand l in
    if (v =? "lat")%string then ret (Some (set_test LATENCY arg, tail l))
    else if (v =? "bw")%string then ret (Some (set_test BANDWIDTH arg, tail l))
    else ret None
  else if (o =? "-f")%string then ret (Some (set_file_name (head l) arg, tail l))
  else if (o =? "-n")%string then
    let* n := operand_bytes l in ret (Some (set_nbytes n arg, tail l))
  else if (o =? "-l")%string then
    let* n := operand_bytes l in ret (Some (set_niters n arg, tail l))
  else if (o =? "-w")%string then
    let* n := operand_bytes l in ret (Some (set_wsize n arg, tail l))
  else if (o =? "-d")%string then
    let* v := operand l in
    if (v =? "RW")%string || (v =? "rw")%string then ret (Some (set_dir BOTH arg, tail l))
    else if (v =? "R")%string || (v =? "r")%string then ret (Some (set_dir D2H arg, tail l))
    else if (v =? "W")%string || (v =? "w")%string then ret (Some (set_dir H2D arg, tail l))
    else ret None
  else if (o =? "-c")%string then
    let* v := operand l in
    if (v =? "discard")%string then ret (Some (set_cache DISCARD arg, tail l))
    else if (v =? "warm")%string then ret (Some (set_cache WARM arg, tail l))
    else if (v =? "ignore")%string then ret (Some (set_cache IGNORE arg, tail l))
    else ret None
  else if (o =? "-p")%string then
    let* v := operand l in
    if (v =? "SEQ")%string then ret (Some (set_pat SEQ arg, tail l))
    else if (v =? "FIX")%string then
      let* n := operand_bytes (tail l) in
      ret (Some (set_prop0 n (set_pat FIX arg), tail (tail l)))
    else if (v =? "RAN")%string then
      let* n := operand_bytes (tail l) in
      let nsystempages := u64 (n + PAGE_SIZE - 1) / PAGE_SIZE in
      if nsystempages =? 0 then ret None
      else
        do* call U_srand_time in
        ret (Some (set_pran nsystempages (n / 64) n (set_pat RAN arg), tail (tail l)))
    else ret None
  else ret None.

(** The loop; [fuel] is the number of arguments at most, each round takes one. *)
Fixpoint readOptions (fuel : nat) (l : list string) (arg : arguments) : UM U (option arguments) :=
  match l with
  | [] => ret (Some arg)
  | o :: l' =>
      match fuel with
      | O => halt NoFuel
      | S fuel' =>
          let* r := readOption o l' arg in
          match r with
          | None => ret None
          | Some (arg', l'') => readOptions fuel' l'' arg'
          end
      end
  end.

Definition initial : arguments :=
  Arguments 0 0 MAX_WINDOW_SIZE LATENCY FIX D2H IGNORE 0 0 0 (Some default_file).

(** Lines 270 to 283. *)
Definition checkArguments (arg : arguments) : UM U bool :=
  if (MAX_WINDOW_SIZE <? a_wsize arg) || (a_wsize arg <? 1) then
    do* call (U_eprintf
      ("niter is greater or equal than the total number of descriptors" ++ nl)%string) in
    ret false
  else if negb (a_nbytes arg mod 4 =? 0) then
    do* call (U_eprintf ("nbytes is not a multiple of 4" ++ nl)%string) in
    ret false
  else if (MAX_DMA_DESCRIPTORS <=? a_niters arg) || (a_niters arg <=? 0) then
    do* call (U_eprintf
      ("niter is greater or equal than the total number of descriptors" ++ nl)%string) in
    ret false
  else ret true.

(** [argv] with the name of the program; [None] for the result -1. *)
Definition readArguments (argv : list string) : UM U (option arguments) :=
  let argc := length argv in
  if (argc <? 2)%nat || (18 <? argc)%nat then ret None
  else
    let* r := readOptions argc (tail argv) initial in
    match r with
    | None => ret None
    | Some arg =>
        let* ok := checkArguments arg in
        if (ok : bool) then ret (Some arg) else ret None
    end.
End Args.

(** ** Sizes *)

Lemma span_digits_app d r :
  Forall (fun c => is_digit c = true) d ->
  match r with c :: _ => is_digit c = false | [] => True end ->
  span_digits (d ++ r) = (d, r).
Proof.
  intros Hd Hr. induction Hd as [|c d E _ IH]; cbn.
  - destruct r as [|c r]; cbn; [done|]. by rewrite Hr.
  - by rewrite E, IH.
Qed.

Lemma digit_class c :
  is_digit c = true -> is_space c = false /\ Ascii.eqb c "-" = false /\ Ascii.eqb c "+" = false.
Proof.
  intros H. split; [|split; apply Ascii.eqb_neq; intros ->; by vm_compute in H].
  unfold is_digit, is_space in *. set (n := Z.of_nat (nat_of_ascii c)) in *. bools.
  destruct (Z.eqb_spec n 32), (Z.leb_spec 9 n), (Z.leb_spec n 13); cbn; lia || done.
Qed.

Lemma scan_ld_digits d r :
  Forall (fun c => is_digit c = true) d -> d <> [] ->
  match r with c :: _ => is_digit c = false | [] => True end ->
  scan_ld (d ++ r) = Some (strtol 10 d, r).
Proof.
  intros Hd Hn Hr. pose proof (span_digits_app d r Hd Hr) as S.
  destruct d as [|c d]; [done|]. apply Forall_cons_1 in Hd as [Hc _].
  destruct (digit_class c Hc) as (H1 & H2 & H3).
  unfold scan_ld. cbn [app skip_space]. rewrite H1, H2, H3. cbn [app] in S. by rewrite S.
Qed.

(** The factor of a suffix. *)
Definition factor (unit : ascii) : Z :=
  if Ascii.eqb (toupper unit) "G" then 2 ^ 30
  else if Ascii.eqb (toupper unit) "M" then 2 ^ 20
  else if Ascii.eqb (toupper unit) "K" then 2 ^ 10 else 1.

Lemma dec_of_nonempty n z : (0 < n)%nat -> dec_of n z <> [].
Proof. destruct n as [|n]; [lia|]. intros _. cbn. by destruct (dec_of n (z / 10)). Qed.

Lemma strtol_dec n z :
  0 <= z < 2 ^ 63 -> z < 10 ^ Z.of_nat n -> strtol 10 (dec_of n z) = z.
Proof.
  intros Hz Hn. unfold strtol. rewrite number_dec_of, Z.mod_small by lia.
  unfold LONG_MAX. lia.
Qed.

Lemma string2bytes_plain n z :
  (0 < n)%nat -> 0 <= z < 2 ^ 63 -> z < 10 ^ Z.of_nat n ->
  string2bytes (string_of_list_ascii (dec_of n z)) = Some z.
Proof.
  intros Hn Hz Hlt. unfold string2bytes. rewrite list_ascii_of_string_of_list_ascii.
  rewrite <- (app_nil_r (dec_of n z)).
  rewrite scan_ld_digits by first [apply dec_of_digits | by apply dec_of_nonempty | done].
  rewrite strtol_dec by done. by rewrite wrap_id by (unfold fits; lia).
Qed.

(** A decimal number followed by a letter is read as the number times 2^30, 2^20 or 2^10
    for a G, an M or a K in either case, modulo 2^64, and as the number alone for any other
    character; what follows the letter is not looked at. *)
Theorem string2bytes_unit n z unit rest :
  (0 < n)%nat -> 0 <= z < 2 ^ 63 -> z < 10 ^ Z.of_nat n -> is_digit unit = false ->
  string2bytes (string_of_list_ascii (dec_of n z ++ unit :: rest)) = Some (u64 (z * factor unit)).
Proof.
  intros Hn Hz Hlt Hu. unfold string2bytes. rewrite list_ascii_of_string_of_list_ascii.
  rewrite scan_ld_digits by first [apply dec_of_digits | by apply dec_of_nonempty | done].
  rewrite strtol_dec, (wrap_id 64 z) by (done || unfold fits; lia). unfold factor.
  destruct (Ascii.eqb (toupper unit) "G"); [done|]. destruct (Ascii.eqb (toupper unit) "M"); [done|].
  destruct (Ascii.eqb (toupper unit) "K"); [done|].
  rewrite Z.mul_1_r, wrap_id by (unfold fits; lia). done.
Qed.

(** ** What the parser accepts *)

Section ArgsSpec.
Context {U : Type} `{!Handler ucall U}.

Lemma wp_checkArguments arg s (u : U) :
  wp (checkArguments arg) (fun o s' _ t => s' = s /\ exists b, o = Done b /\
    (b = true <-> 1 <= a_wsize arg <= MAX_WINDOW_SIZE /\ a_nbytes arg mod 4 = 0 /\
      1 <= a_niters arg < MAX_DMA_DESCRIPTORS)) s u.
Proof.
  unfold checkArguments, MAX_WINDOW_SIZE, MAX_DMA_DESCRIPTORS.
  destruct (Z.ltb_spec 24 (a_wsize arg)), (Z.ltb_spec (a_wsize arg) 1); cbn [orb]; wp_steps;
    try (split; [done|]; eexists; split; [done|]; lia).
  destruct (Z.eqb_spec (a_nbytes arg mod 4) 0); cbn [negb]; wp_steps;
    try (split; [done|]; eexists; split; [done|]; lia).
  destruct (Z.leb_spec 1024 (a_niters arg)), (Z.leb_spec (a_niters arg) 0); cbn [orb]; wp_steps;
    (split; [done|]; eexists; split; [done|]; lia).
Qed.

(** C40.  Arguments that are accepted are within the bounds the rest of the program relies
    on: the window size of the hardware, whole words, and fewer iterations than
    there are descriptors. *)
Theorem readArguments_valid argv s (u : U) arg :
  r_out (readArguments argv s u) = Done (Some arg) ->
  1 <= a_wsize arg <= MAX_WINDOW_SIZE /\ a_nbytes arg mod 4 = 0 /\
  1 <= a_niters arg < MAX_DMA_DESCRIPTORS.
Proof.
  enough (W : wp (readArguments argv) (fun o _ _ _ => o = Done (Some arg) ->
    1 <= a_wsize arg <= MAX_WINDOW_SIZE /\ a_nbytes arg mod 4 = 0 /\
    1 <= a_niters arg < MAX_DMA_DESCRIPTORS) s u) by exact W.
  unfold readArguments. destruct (_ || _); [by apply wp_ret|]. wp_step.
  unfold wp at 1. destruct (r_out (readOptions (length argv) (tail argv) initial s u)) as [[a|]|];
    [|by apply wp_ret|done].
  wp_step. eapply wp_mono; [apply wp_checkArguments|]. intros o s' k' t (-> & b & -> & Hb).
  destruct b; apply wp_ret; [|done]. intros [= <-]. by apply Hb.
Qed.

(** An option takes its operands from what follows it. *)
Lemma readOption_shorter o l arg s (u : U) :
  wp (readOption o l arg) (fun out s' _ _ => s' = s /\
    match out with
    | Done (Some (_, l')) => (length l' <= length l)%nat
    | Done None => True
    | Stop h => h <> NoFuel
    end) s u.
Proof.
  assert (T : forall l : list string, (length (tail l) <= length l)%nat)
    by (intros []; cbn; lia).
  pose proof (T l) as T1. pose proof (T (tail l)) as T2.
  unfold readOption, operand_bytes, operand.
  repeat match goal with
  | |- wp (if ?b then _ else _) _ _ _ => destruct b
  | |- wp _ _ _ _ => wp_step; cbn beta iota
  end; (split; [done|]); lia || done.
Qed.

Lemma readOptions_fuel fuel l arg s (u : U) :
  (length l <= fuel)%nat -> r_out (readOptions fuel l arg s u) <> Stop NoFuel.
Proof.
  intros Hl. enough (W : wp (readOptions fuel l arg) (fun o _ _ _ => o <> Stop NoFuel) s u)
    by exact W.
  revert l arg s u Hl. induction fuel as [|fuel IH]; intros [|o l] arg s u Hl; cbn [readOptions];
    try (by apply wp_ret); cbn [length] in Hl; [lia|].
  wp_step. eapply wp_mono; [apply readOption_shorter|].
  intros [[[a l']|]|h] s' k' t [-> H]; [|by apply wp_ret|congruence].
  eapply wp_mono; [apply IH; lia|]. done.
Qed.

(** The loop over the arguments ends: the model's bound on it is never reached. *)
Theorem readArguments_terminates argv s (u : U) :
  r_out (readArguments argv s u) <> Stop NoFuel.
Proof.
  enough (W : wp (readArguments argv) (fun o _ _ _ => o <> Stop NoFuel) s u) by exact W.
  unfold readArguments. destruct (_ || _); [by apply wp_ret|]. wp_step.
  pose proof (readOptions_fuel (length argv) (tail argv) initial s u) as F.
  assert (length (tail argv) <= length argv)%nat as Hl by (destruct argv; cbn; lia).
  specialize (F Hl). unfold wp at 1.
  destruct (r_out (readOptions (length argv) (tail argv) initial s u)) as [[a|]|];
    [|by apply wp_ret|done].
  wp_step. eapply wp_mono; [apply wp_checkArguments|]. intros o s' k' t (-> & b & -> & _).
  by destruct b; apply wp_ret.
Qed.

(** The options that take an operand, at the end of the command line, make the
    program dereference the null pointer at the end of the vector. *)
Theorem missing_operand prog o s (u : U) :
  o ∈ ["-t"; "-n"; "-l"; "-w"; "-d"; "-c"; "-p"] ->
  r_out (readArguments [prog; o] s u) = Stop (Undefined NullDeref).
Proof.
  rewrite !elem_of_cons, elem_of_nil.
  intros [-> | [-> | [-> | [-> | [-> | [-> | [-> | []]]]]]]]; reflexivity.
Qed.
End ArgsSpec.

(** ** Writing a command line and reading it back *)

Definition number_text (z : Z) : string := string_of_list_ascii (dec_of 19 z).

Definition test_text (t : test) : string := match t with LATENCY => "lat" | BANDWIDTH => "bw" end.
Definition direction_text (d : direction) : string :=
  match d with D2H => "R" | H2D => "W" | BOTH => "RW" end.
Definition cache_text (c : cache) : string :=
  match c with IGNORE => "ignore" | DISCARD => "discard" | WARM => "warm" end.
Definition pattern_text (a : arguments) : list string :=
  match a_pat a with
  | FIX => ["FIX"; number_text (a_prop0 a)]
  | SEQ => ["SEQ"]
  | RAN => ["RAN"; number_text (a_prop2 a)]
  end.

(** The command line of the help, without the name of the program. *)
Definition command_line (a : arguments) (file : string) : list string :=
  ["-t"; test_text (a_test a); "-d"; direction_text (a_dir a); "-p"] ++ pattern_text a ++
  ["-n"; number_text (a_nbytes a); "-l"; number_text (a_niters a); "-w"; number_text (a_wsize a);
   "-c"; cache_text (a_cache a); "-f"; file].

(** The arguments a command line can give. *)
Definition expressible (a : arguments) : Prop :=
  1 <= a_wsize a <= MAX_WINDOW_SIZE /\ 0 <= a_nbytes a < 2 ^ 63 /\ a_nbytes a mod 4 = 0 /\
  1 <= a_niters a < MAX_DMA_DESCRIPTORS /\
  match a_pat a with
  | FIX => 0 <= a_prop0 a < 2 ^ 63 /\ a_prop1 a = 0 /\ a_prop2 a = 0
  | SEQ => a_prop0 a = 0 /\ a_prop1 a = 0 /\ a_prop2 a = 0
  | RAN => 0 < a_prop2 a < 2 ^ 63 /\ a_prop1 a = a_prop2 a / 64 /\
           a_prop0 a = (a_prop2 a + 4095) / 4096
  end.

Lemma string2bytes_number_text z : 0 <= z < 2 ^ 63 -> string2bytes (number_text z) = Some z.
Proof. intros Hz. apply string2bytes_plain; [lia | done |]. lia. Qed.
#[global] Arguments string2bytes : simpl never.
#[global] Arguments number_text : simpl never.

Section RoundTrip.
Context {U : Type} `{!Handler ucall U}.

(** The option [o] turns the structure [arg] into [arg'] and leaves [l']. *)
Definition takes (o : string) (l : list string) (arg arg' : arguments) (l' : list string) : Prop :=
  forall s (u : U),
    wp (readOption o l arg) (fun out s' _ _ => out = Done (Some (arg', l')) /\ s' = s) s u.

Lemma takes_step fuel o l arg arg' l' (P : outcome (option arguments) -> lib -> Prop) s (u : U) :
  takes o l arg arg' l' ->
  (forall u', wp (readOptions fuel l' arg') (fun out s' _ _ => P out s') s u') ->
  wp (readOptions (S fuel) (o :: l) arg) (fun out s' _ _ => P out s') s u.
Proof.
  intros T W. cbn [readOptions]. wp_step. eapply wp_mono; [apply T|].
  intros out s' u' t (-> & ->). eapply wp_mono; [apply W|]. done.
Qed.

Lemma operand_bytes_number z l s (u : U) :
  0 <= z < 2 ^ 63 -> operand_bytes (number_text z :: l) s u = Res (Done z) s u [].
Proof.
  intros Hz. unfold operand_bytes, operand, bind. cbn [head need ret r_out r_st r_k r_tr].
  by rewrite string2bytes_number_text.
Qed.

Lemma takes_t t l arg : takes "-t" (test_text t :: l) arg (set_test t arg) l.
Proof. intros s u. by destruct t. Qed.
Lemma takes_d d l arg : takes "-d" (direction_text d :: l) arg (set_dir d arg) l.
Proof. intros s u. by destruct d. Qed.
Lemma takes_c c l arg : takes "-c" (cache_text c :: l) arg (set_cache c arg) l.
Proof. intros s u. by destruct c. Qed.
Lemma takes_f f l arg : takes "-f" (f :: l) arg (set_file_name (Some f) arg) l.
Proof. intros s u. done. Qed.

Ltac take_number :=
  let Hz := fresh in
  intros Hz ? ?; unfold readOption; cbn [String.eqb Ascii.eqb Bool.eqb orb]; wp_step;
  unfold wp at 1; rewrite operand_bytes_number by lia; cbn [r_out r_st r_k r_tr]; by apply wp_ret.

Lemma takes_n z l arg :
  0 <= z < 2 ^ 63 -> takes "-n" (number_text z :: l) arg (set_nbytes z arg) l.
Proof. take_number. Qed.
Lemma takes_l z l arg :
  0 <= z < 2 ^ 63 -> takes "-l" (number_text z :: l) arg (set_niters z arg) l.
Proof. take_number. Qed.
Lemma takes_w z l arg :
  0 <= z < 2 ^ 63 -> takes "-w" (number_text z :: l) arg (set_wsize z arg) l.
Proof. take_number. Qed.

Lemma takes_seq l arg : takes "-p" ("SEQ" :: l) arg (set_pat SEQ arg) l.
Proof. intros s u. done. Qed.
Lemma takes_fix z l arg :
  0 <= z < 2 ^ 63 ->
  takes "-p" ("FIX" :: number_text z :: l) arg (set_prop0 z (set_pat FIX arg)) l.
Proof.
  intros Hz s u. unfold readOption. cbn [String.eqb Ascii.eqb Bool.eqb orb]. wp_step.
  unfold operand. cbn [head need]. apply wp_ret. cbn beta iota.
  cbn [String.eqb Ascii.eqb Bool.eqb orb tail]. wp_step.
  unfold wp at 1. rewrite operand_bytes_number by lia. cbn [r_out r_st r_k r_tr].
  by apply wp_ret.
Qed.
Lemma takes_ran z l arg :
  0 < z < 2 ^ 63 ->
  takes "-p" ("RAN" :: number_text z :: l) arg
    (set_pran ((z + 4095) / 4096) (z / 64) z (set_pat RAN arg)) l.
Proof.
  intros Hz s u. unfold readOption. cbn [String.eqb Ascii.eqb Bool.eqb orb]. wp_step.
  unfold operand. cbn [head need]. apply wp_ret. cbn beta iota.
  cbn [String.eqb Ascii.eqb Bool.eqb orb tail]. wp_step.
  unfold wp at 1. rewrite operand_bytes_number by lia. cbn [r_out r_st r_k r_tr].
  unfold PAGE_SIZE. replace (z + 4096 - 1) with (z + 4095) by lia.
  rewrite wrap_id by (unfold fits; lia).
  assert (1 <= (z + 4095) / 4096) by (apply Z.div_le_lower_bound; lia).
  destruct (Z.eqb_spec ((z + 4095) / 4096) 0); [lia|]. by wp_steps.
Qed.

Ltac rest_of_line :=
  eapply takes_step; [apply takes_n; lia|]; intros ?;
  eapply takes_step; [apply takes_l; lia|]; intros ?;
  eapply takes_step; [apply takes_w; lia|]; intros ?;
  eapply takes_step; [apply takes_c|]; intros ?;
  eapply takes_step; [apply takes_f|]; intros ?;
  apply wp_ret; split; [|done].

Lemma wp_command_line a file s (u : U) :
  expressible a -> a_file_name a = Some file ->
  wp (readOptions (S (length (command_line a file))) (command_line a file) initial)
    (fun o s' _ _ => o = Done (Some a) /\ s' = s) s u.
Proof.
  intros Ha Hf. destruct a as [niters nbytes wsize t p d c p0 p1 p2 f]. cbn in Hf. subst f.
  destruct Ha as (Hw & Hn & Hm & Hl & Hp).
  unfold MAX_WINDOW_SIZE, MAX_DMA_DESCRIPTORS in *.
  unfold command_line, pattern_text.
  cbn [a_niters a_nbytes a_wsize a_test a_pat a_dir a_cache a_prop0 a_prop1 a_prop2] in *.
  set (P := fun (o : outcome (option arguments)) (s' : lib) => o = Done (Some
    (Arguments niters nbytes wsize t p d c p0 p1 p2 (Some file))) /\ s' = s).
  change (fun o s' _ _ => _) with (fun (o : outcome (option arguments)) s' (_ : U) (_ : utrace) => P o s').
  destruct p; cbn [app length];
    (eapply takes_step; [apply takes_t|]; intros u1);
    (eapply takes_step; [apply takes_d|]; intros u2).
  - eapply takes_step; [apply takes_fix; lia|]. intros u3.
    rest_of_line. destruct Hp as (_ & -> & ->). done.
  - eapply takes_step; [apply takes_seq|]. intros u3.
    rest_of_line. destruct Hp as (-> & -> & ->). done.
  - eapply takes_step; [apply takes_ran; lia|]. intros u3.
    rest_of_line. destruct Hp as (_ & -> & ->). done.
Qed.

Lemma wp_readArguments_line prog a file s (u : U) :
  expressible a -> a_file_name a = Some file ->
  wp (readArguments (prog :: command_line a file))
    (fun o s' _ _ => o = Done (Some a) /\ s' = s) s u.
Proof.
  intros Ha Hf. unfold readArguments.
  replace ((length (prog :: command_line a file) <? 2)%nat || _) with false
    by (unfold command_line, pattern_text; destruct (a_pat a); done).
  wp_step. cbn [length tail]. eapply wp_mono; [by apply wp_command_line|].
  intros o s' k' t (-> & ->). wp_step. eapply wp_mono; [apply wp_checkArguments|].
  intros o s' k2 t2 (-> & b & -> & Hb). destruct Ha as (Hw & Hn & Hm & Hl & _).
  destruct b; [by apply wp_ret|]. assert (false = true) by (apply Hb; done). done.
Qed.

(** C32.  Every combination of arguments the program has can be given on its command line, in
    the order of its help, and is read back as it was written. *)
Theorem readArguments_roundtrip prog a file s (u : U) :
  expressible a -> a_file_name a = Some file ->
  r_out (readArguments (prog :: command_line a file) s u) = Done (Some a).
Proof. intros Ha Hf. by apply (wp_readArguments_line prog a file s u). Qed.
End RoundTrip.

(** ** Witnesses *)

Lemma string2bytes_unit_witness : string2bytes "0004k" = Some 4096.
Proof. apply (string2bytes_unit 4 4 "k" []); [lia | done | done | done]. Defined.

Definition example_arguments : arguments :=
  Arguments 2 64 24 BANDWIDTH RAN BOTH WARM 1024 65536 4194304 (Some "log.csv").

Lemma readArguments_roundtrip_witness :
  r_out (readArguments ("benchmark" :: command_line example_arguments "log.csv") lib_init sys_init) =
    Done (Some example_arguments).
Proof. apply readArguments_roundtrip; [by vm_compute | reflexivity]. Defined.

Lemma readArguments_valid_witness : 1 <= a_niters example_arguments < MAX_DMA_DESCRIPTORS.
Proof.
  apply (readArguments_valid ("benchmark" :: command_line example_arguments "log.csv") lib_init
    sys_init example_arguments). vm_compute. reflexivity.
Defined.

Lemma missing_operand_witness :
  r_out (readArguments ["benchmark"; "-n"] lib_init sys_init) = Stop (Undefined NullDeref).
Proof. apply missing_operand. right. left. Defined.
