(* ===== verification/BenchMain.v ===== *)
(** * The benchmark (HOST/user/benchmark/benchmark.c, lines 123 to 152 and 286 to 487)

    The caches, the preparation of a descriptor, and the main loop, built with
    USE_HUGE_PAGES and NUMBER_PAGES = 1 as the file defines them.  Products of [int]
    wrap around, as compiled code does.  The one floating-point result that is
    only printed is the call [U_fprintf_gbps]. *)

From S2P Require Import Prelude Eff IoctlCommands NfpTypes Kernel SimKernel Posix Middleware Link.
From S2P Require Import SimSystem Numbers BenchArgs.
From Stdlib Require Import ZArith Lia String.
From stdpp Require Import base list strings pretty.
Local Open Scope string_scope.
Local Open Scope list_scope.
Local Open Scope Z_scope.
Local Open Scope eff_scope.

Definition MAX_READ_REQUEST_SIZE : Z := 512.
Definition MAX_PAYLOAD : Z := 256.
Definition DEFAULT_NUMBER_TLPS : Z := 512 * 512.
Definition NUMBER_PAGES : Z := 1.
Definition LARGE_ARRAY_SIZE : Z := 8 * 1024 * 1024.

(** The lines of the help. *)
Definition usage : list string :=
  ["This program has sveral modes of usage:";
   "· $benchmark -t <TEST_TYPE> -d <DIR> -p <PATTERN> [properties] -n <BYTES> -l <NITERS> [-w <WINDOW_SIZE>]  [-c <CACHE_OPTIONS>] [-f <LOGFILE>]";
   "	Where ";
   "		 <TEST_TYPE> can be lat or bw: ";
   "			lat represents Latency test ";
   "			bw represents Bandwidth test ";
   "		 <DIR> can be R/W/RW: ";
   "			R represents memory write requests from the FPGA ";
   "			W represents memory read requests from the FPGA ";
   "			RW represents a memory write request from the FPGA that is followed by a memory read request";
   "		 <PATTERN> can be FIX/SEQ/RAN for same address,sequential and random access ";
   "			- FIX <offset>       : Write always to the same address. The offset is referred to the initial position of the software buffer ";
   "			- SEQ                : Write to contiguous positions of memory";
   "			- RAN <window size>  : Write to random 4KB boundaries";
   "				[WARNING] <window size> must be a power of 2";
   "		 <BYTES> is a value greater than 0 (necessarily a multiple of 4). Number of bytes per descriptor";
   "		 <NITERS> is the number of iterations of the experiment";
   "		 <WINDOW_SIZE> total tags that can be asked simultaneously in memory reads. Min 1, Max 24 ";
   "		 <CACHE_OPTIONS> are: ";
   "			- ignore: Do nothing  ";
   "			- discard: Access in a random way before using the buffer  ";
   "			- warm: Preload in the cache the buffer before accessing to it ";
   "		 <LOGFILE> is the file where the log will be saved "].

(** ** Arithmetic *)

(** The double nearest to an unsigned integer, ties to even. *)
Definition to_double (z : Z) : Z :=
  let e := Z.log2 z - 52 in
  if e <=? 0 then z
  else
    let q := z / 2 ^ e in
    let r := z mod 2 ^ e in
    if (r <? 2 ^ (e - 1)) || ((r =? 2 ^ (e - 1)) && Z.even q) then q * 2 ^ e else (q + 1) * 2 ^ e.

(** Lines 371 to 382: number_of_tlps, [None] when there is no latency test.  The
    argument of [ceil] is an integer already. *)
Definition number_of_tlps (t : test) (d : direction) (length : Z) : option Z :=
  match t with
  | BANDWIDTH => Some DEFAULT_NUMBER_TLPS
  | LATENCY =>
      match d with
      | H2D => Some (u64 (to_double (length / MAX_READ_REQUEST_SIZE)))
      | BOTH => Some (u64 (to_double (length / MAX_PAYLOAD)))
      | D2H => None
      end
  end.

Definition maximum_size_per_tlp (d : direction) : Z :=
  match d with D2H | BOTH => MAX_PAYLOAD | H2D => MAX_READ_REQUEST_SIZE end.

Definition n_complete_tlps (d : direction) (nbytes : Z) : Z :=
  s32 (nbytes / maximum_size_per_tlp d).
Definition n_incomplete_tlps (d : direction) (nbytes : Z) : Z :=
  if nbytes =? u64 (s32 (maximum_size_per_tlp d * n_complete_tlps d nbytes)) then 0 else 1.

(** Line 468: [None] is the division by zero. *)
Definition total_bytes (d : direction) (nbytes n_total_tlps : Z) : option Z :=
  let n := s32 (n_complete_tlps d nbytes + n_incomplete_tlps d nbytes) in
  if n =? 0 then None
  else Some (u64 (Z.quot n_total_tlps n * nbytes +
                  s32 (Z.rem n_total_tlps n * maximum_size_per_tlp d))).

(** The loop of line 435. *)
Fixpoint power_above (fuel : nat) (check_limit size : Z) : option Z :=
  if check_limit <? size then
    match fuel with
    | O => None
    | S fuel' => power_above fuel' (u64 (check_limit * 2)) size
    end
  else Some check_limit.

(** ** The program *)

Inductive next := Continue | Break | Return (v : Z).

Definition dd_zero : dma_descriptor_sw :=
  DmaDescriptorSw 0 0 0 0 0 0 0 0 0 0 0 0 0 0 0 0 0 0.

Section Bench.
Context {U : Type} `{!Handler ucall U} `{E : IocEncoding}.

Definition printUsage : UM U unit := call (U_printf (text usage)).

Definition thrash_cache : UM U unit :=
  for_range (Z.to_nat (4 * LARGE_ARRAY_SIZE)) 0 (fun i =>
    let* r := call U_rand in
    let r := u64 r in
    let j := r mod LARGE_ARRAY_SIZE in
    if j <? LARGE_ARRAY_SIZE then call (U_store_large j (u64 (i * r)))
    else halt (Undefined OutOfBounds)).

Definition warm_cache (pmem total_size : Z) : UM U unit :=
  for_range (Z.to_nat (u64 (4 * total_size))) 0 (fun i =>
    let* j := need DivByZero (umod i (total_size / 8)) in
    call (U_store64 (u64 (pmem + 8 * j)) i)).

(** fprintf (fname, ...) *)
Definition log (fname : Z) (s : string) : UM U unit :=
  if fname =? 0 then halt (Undefined NullDeref) else call (U_fprintf fname s).

(** Lines 361 to 369: a descriptor of static storage, filled. *)
Definition fill (args : arguments) (total_size i : Z) (d : dma_descriptor_sw) : dma_descriptor_sw :=
  DmaDescriptorSw 0 total_size (a_nbytes args) 1 (dd_u1 d)
    (match a_dir args with D2H | BOTH => 1 | H2D => 0 end)
    (match a_dir args with H2D | BOTH => 1 | D2H => 0 end)
    (dd_address_mode d) (dd_u0 d) (dd_number_of_tlps d) (dd_latency d) 0 0 (dd_time_at_req d)
    (dd_time_at_comp d) (dd_bytes_at_req d) (dd_bytes_at_comp d) i.

Definition with_tlps (n : Z) (d : dma_descriptor_sw) : dma_descriptor_sw :=
  DmaDescriptorSw (dd_address d) (dd_buffer_size d) (dd_length d) (dd_enable d) (dd_u1 d)
    (dd_is_c2s_op d) (dd_is_s2c_op d) (dd_address_mode d) (dd_u0 d) n (dd_latency d)
    (dd_address_offset d) (dd_address_inc d) (dd_time_at_req d) (dd_time_at_comp d)
    (dd_bytes_at_req d) (dd_bytes_at_comp d) (dd_index d).

(** The fields the switch of line 399 stores. *)
Definition with_access (mode offset inc size : Z) (d : dma_descriptor_sw) : dma_descriptor_sw :=
  DmaDescriptorSw (dd_address d) size (dd_length d) (dd_enable d) (dd_u1 d)
    (dd_is_c2s_op d) (dd_is_s2c_op d) mode (dd_u0 d) (dd_number_of_tlps d) (dd_latency d)
    offset inc (dd_time_at_req d) (dd_time_at_comp d)
    (dd_bytes_at_req d) (dd_bytes_at_comp d) (dd_index d).

Definition with_index (i : Z) (d : dma_descriptor_sw) : dma_descriptor_sw :=
  DmaDescriptorSw (dd_address d) (dd_buffer_size d) (dd_length d) (dd_enable d) (dd_u1 d)
    (dd_is_c2s_op d) (dd_is_s2c_op d) (dd_address_mode d) (dd_u0 d) (dd_number_of_tlps d)
    (dd_latency d) (dd_address_offset d) (dd_address_inc d) (dd_time_at_req d)
    (dd_time_at_comp d) (dd_bytes_at_req d) (dd_bytes_at_comp d) i.

(** Lines 399 to 432: the descriptor, and whether [success] is kept. *)
Definition set_pattern (fname : Z) (args : arguments) (d : dma_descriptor_sw)
    : UM U (dma_descriptor_sw * bool) :=
  match a_pat args with
  | FIX =>
      let offset := a_prop0 args in
      let d := with_access 0 offset (dd_address_inc d) (dd_buffer_size d) d in
      if negb (offset / PAGE_SIZE =? u64 (offset + dd_length d) / 4096) && negb (offset =? 0) then
        do* log fname ("[ERROR] The request is not contained in one system page. " ++
          "This violates the specification" ++ nl)%string in
        ret (d, false)
      else
        do* log fname "FIX," in
        ret (d, true)
  | SEQ =>
      let d := with_access 1 0 (dd_address_inc d) (dd_buffer_size d) d in
      if dd_buffer_size d <=? u64 (dd_length d * dd_number_of_tlps d) then
        do* log fname
          ("[ERROR] The number of requested TLPs will exceed the buffer size" ++ nl)%string in
        ret (d, false)
      else
        do* log fname "SEQ," in
        ret (d, true)
  | RAN =>
      do* log fname "RAN," in
      ret (with_access 3 0 (a_prop1 args) (a_prop2 args) d, true)
  end.

(** Lines 448 to 459. *)
Definition prepare_cache (args : arguments) (pmem : Z) (d : dma_descriptor_sw) : UM U unit :=
  match a_cache args with
  | WARM =>
      match a_pat args with
      | RAN => warm_cache pmem (a_prop2 args)
      | _ => warm_cache (u64 (pmem + Z.shiftl (Z.shiftr (dd_address d) 2) 2)) (a_nbytes args)
      end
  | DISCARD => thrash_cache
  | IGNORE => ret tt
  end.

(** Lines 447 to 474, with the descriptor after them. *)
Definition run_descriptor (fname : Z) (args : arguments) (pmem i n_total_tlps : Z)
    (d : dma_descriptor_sw) : UM U dma_descriptor_sw :=
  do* log fname (pretty i ++ "," ++ pretty (s64 (a_nbytes args)))%string in
  do* prepare_cache args pmem d in
  let* w := writeDescriptor d in
  let d := w.1 in
  let d := with_index (u64 (dd_index d + 1) mod MAX_DMA_DESCRIPTORS) d in
  let* r := readDescriptor d in
  let d := r.1 in
  let* bytes := need DivByZero (total_bytes (a_dir args) (a_nbytes args) n_total_tlps) in
  do* (match a_test args with
       | BANDWIDTH =>
           if fname =? 0 then halt (Undefined NullDeref)
           else call (U_fprintf_gbps fname bytes (u64 (dd_latency d * 4)))
       | LATENCY =>
           log fname ("," ++ pretty (s64 (u64 (dd_time_at_comp d * 4))) ++ nl)%string
       end) in
  ret d.

(** The body of the main loop. *)
Definition iteration (fuel : nat) (fname : Z) (args : arguments) (pmem total_size i : Z)
    (dlist : list dma_descriptor_sw) : UM U (list dma_descriptor_sw * next) :=
  let* d := need OutOfBounds (arr_get dlist i) in
  let d := fill args total_size i d in
  match number_of_tlps (a_test args) (a_dir args) (dd_length d) with
  | None =>
      do* call (U_eprintf ("[ERROR] No Latency test available" ++ nl)%string) in
      let* dlist := need OutOfBounds (arr_set dlist i d) in
      ret (dlist, Return (-1))
  | Some n =>
      let d := with_tlps n d in
      let n_total_tlps := s32 n in
      let* fits := (if dd_buffer_size d <=? dd_length d then
          do* log fname
            ("[ERROR] The request size is greater than the buffer size" ++ nl)%string in
          ret false
        else ret true) in
      let* p := set_pattern fname args d in
      let d := p.1 in
      match power_above fuel 1 (dd_buffer_size d) with
      | None => halt NoFuel
      | Some check_limit =>
          let* power := (if negb (check_limit =? dd_buffer_size d) then
              do* log fname
                ("[ERROR] The buffer size must be a power of 2" ++ nl)%string in
              ret false
            else ret true) in
          if negb (fits && p.2 && power) then
            do* call (U_eprintf ("An error was detected" ++ nl)%string) in
            let* dlist := need OutOfBounds (arr_set dlist i d) in
            ret (dlist, Break)
          else
            let* d := run_descriptor fname args pmem i n_total_tlps d in
            let* dlist := need OutOfBounds (arr_set dlist i d) in
            ret (dlist, Continue)
      end
  end.

(** The main loop from iteration [i], [n] iterations; [Some v] is a return from it. *)
Fixpoint main_loop (n : nat) (fuel : nat) (fname : Z) (args : arguments) (pmem total_size i : Z)
    (dlist : list dma_descriptor_sw) : UM U (option Z) :=
  match n with
  | O => ret None
  | S n' =>
      let* r := iteration fuel fname args pmem total_size i dlist in
      match r.2 with
      | Continue => main_loop n' fuel fname args pmem total_size (i + 1) r.1
      | Break => ret None
      | Return v => ret (Some v)
      end
  end.

(** Lines 477 to 487. *)
Definition leave (fname pmem : Z) : UM U Z :=
  do* (if fname =? 0 then halt (Undefined NullDeref) else call (U_fclose fname)) in
  do* unsetHugeFreePages pmem NUMBER_PAGES in
  rte_exit 0 "".

Definition main (fuel : nat) (argv : list string) : UM U Z :=
  let* a := readArguments argv in
  match a with
  | None =>
      do* printUsage in
      ret 0
  | Some args =>
      let* init := rte_eal_init in
      do* (if init <? 0 then rte_exit (-1) "There was an error" else ret tt) in
      let* pmem := getFreeHugePages NUMBER_PAGES in
      let* size := hugepage_size in
      let total_size := u64 (NUMBER_PAGES * size) in
      do* (if pmem =? 0 then
             do* call (U_printf ("[MEMORY]     No free pages" ++ nl)%string) in
             rte_exit (-1) ("Error mapping kernel memory" ++ nl)%string
           else ret tt) in
      let* file := need NullDeref (a_file_name args) in
      let* fname := call (U_fopen file "a+") in
      do* setWindowSize (a_wsize args) in
      do* call (U_eprintf (match a_test args with
        | BANDWIDTH => "pattern,descriptor,size,bandwidth_gbps" ++ nl
        | LATENCY => "pattern,descriptor,size,latency_ns" ++ nl
        end)%string) in
      let* v := main_loop (Z.to_nat (a_niters args)) fuel fname args pmem total_size 0
        (replicate 1024 dd_zero) in
      match v with
      | Some v => ret v
      | None => leave fname pmem
      end
  end.
End Bench.

(** ** The test for a power of two *)

Lemma power_above_from fuel k size :
  0 <= k -> k + Z.of_nat fuel >= 63 -> size <= 2 ^ 63 ->
  exists j, k <= j /\ power_above fuel (2 ^ k) size = Some (2 ^ j) /\ size <= 2 ^ j /\
    (j = k \/ 2 ^ (j - 1) < size).
Proof.
  revert k. induction fuel as [|fuel IH]; intros k Hk Hf Hs; cbn [power_above].
  - assert (2 ^ 63 <= 2 ^ k) by (apply Z.pow_le_mono_r; lia).
    destruct (Z.ltb_spec (2 ^ k) size); [lia|]. exists k. split; [lia|]. split; [done|].
    split; [lia | by left].
  - destruct (Z.ltb_spec (2 ^ k) size) as [Lt | Ge].
    + assert (k < 63).
      { destruct (Z.lt_ge_cases k 63); [done|].
        assert (2 ^ 63 <= 2 ^ k) by (apply Z.pow_le_mono_r; lia). lia. }
      assert (E : 2 ^ k * 2 = 2 ^ (k + 1)) by (rewrite Z.pow_add_r by lia; lia).
      assert (2 ^ (k + 1) <= 2 ^ 63) by (apply Z.pow_le_mono_r; lia).
      rewrite E, wrap_id by (unfold fits; lia).
      destruct (IH (k + 1)) as (j & J1 & J2 & J3 & J4); [lia|lia|lia|].
      exists j. split; [lia|]. split; [done|]. split; [done|]. right.
      destruct J4 as [-> | J4]; [by replace (k + 1 - 1) with k by lia | done].
    + exists k. split; [lia|]. split; [done|]. split; [done | by left].
Qed.

Lemma power_above_found size :
  0 <= size <= 2 ^ 63 ->
  exists l, power_above 64 1 size = Some l /\ (l = size <-> exists k, 0 <= k /\ size = 2 ^ k).
Proof.
  intros Hs. destruct (power_above_from 64 0 size) as (j & J1 & J2 & J3 & J4); [lia|lia|lia|].
  exists (2 ^ j). split; [exact J2|]. split.
  - intros <-. by exists j.
  - intros (m & Hm & ->). apply Z.pow_le_mono_r_iff in J3; [|lia|lia].
    destruct J4 as [-> | J4]; [by assert (m = 0) as -> by lia|].
    apply Z.pow_lt_mono_r_iff in J4; [|lia|lia]. f_equal. lia.
Qed.

(** The loop that looks for a power of two ends within 64 rounds for a buffer of at most
    2^63 bytes, and finds the size itself exactly when the size is a power of two;
    for a larger size it never ends, because the power wraps around to 0. *)
Theorem power_above_spec size :
  (0 <= size <= 2 ^ 63 ->
   exists l, power_above 64 1 size = Some l /\ (l = size <-> exists k, 0 <= k /\ size = 2 ^ k)) /\
  (2 ^ 63 < size < 2 ^ 64 -> forall fuel, power_above fuel 1 size = None).
Proof.
  split; [apply power_above_found|]. intros Hs.
  assert (Z0 : forall fuel, power_above fuel 0 size = None).
  { induction fuel as [|fuel IH]; cbn [power_above];
      (destruct (Z.ltb_spec 0 size); [|lia]); [done|]. exact IH. }
  enough (G : forall fuel k, 0 <= k <= 63 -> power_above fuel (2 ^ k) size = None)
    by (intros fuel; apply (G fuel 0); lia).
  induction fuel as [|fuel IH]; intros k Hk; cbn [power_above];
    assert (2 ^ k <= 2 ^ 63) by (apply Z.pow_le_mono_r; lia);
    (destruct (Z.ltb_spec (2 ^ k) size); [|lia]); [done|].
  destruct (Z.eq_dec k 63) as [-> | Hne]; [exact (Z0 fuel)|].
  assert (E : 2 ^ k * 2 = 2 ^ (k + 1)) by (rewrite Z.pow_add_r by lia; lia).
  assert (2 ^ (k + 1) <= 2 ^ 63) by (apply Z.pow_le_mono_r; lia).
  rewrite E, wrap_id by (unfold fits; lia). apply IH. lia.
Qed.

(** ** The bytes a test moves *)

(** The device splits a request of [nbytes] in TLPs of the maximum size and one with
    the rest, if any; TLP [k] of a test that repeats the request: *)
Definition tlp_size (d : direction) (nbytes : Z) (k : Z) : Z :=
  let max := maximum_size_per_tlp d in
  let period := (nbytes + max - 1) / max in
  if k mod period <? nbytes / max then max else nbytes mod max.

Definition bytes_of_tlps (d : direction) (nbytes : Z) (n : nat) : Z :=
  foldr (fun k s => tlp_size d nbytes (Z.of_nat k) + s) 0 (seq 0 n).

Lemma maximum_size_cases d : maximum_size_per_tlp d = 256 \/ maximum_size_per_tlp d = 512.
Proof. destruct d; auto. Qed.

Lemma period_eq nbytes max :
  0 < max -> 0 < nbytes ->
  (nbytes + max - 1) / max = nbytes / max + (if nbytes mod max =? 0 then 0 else 1).
Proof.
  intros Hm Hn. pose proof (Z.div_mod nbytes max ltac:(lia)) as D.
  pose proof (Z.mod_pos_bound nbytes max Hm) as B. symmetry.
  destruct (Z.eqb_spec (nbytes mod max) 0).
  - apply (Z.div_unique_pos _ _ _ (max - 1)); lia.
  - apply (Z.div_unique_pos _ _ _ (nbytes mod max - 1)); lia.
Qed.

Lemma foldr_sum_snoc (f : nat -> Z) n :
  foldr (fun k s => f k + s) 0 (seq 0 (S n)) = foldr (fun k s => f k + s) 0 (seq 0 n) + f n.
Proof.
  rewrite seq_S, foldr_app. cbn [foldr Nat.add]. generalize (seq 0 n). intros l.
  induction l as [|x l IH]; cbn; lia.
Qed.

Lemma bytes_of_tlps_closed d nbytes n :
  0 < nbytes ->
  let max := maximum_size_per_tlp d in
  let period := (nbytes + max - 1) / max in
  bytes_of_tlps d nbytes n =
    Z.of_nat n / period * nbytes + Z.of_nat n mod period * max.
Proof.
  intros Hn max period.
  assert (Hm : 0 < max) by (destruct (maximum_size_cases d) as [E | E]; unfold max; lia).
  pose proof (period_eq nbytes max Hm Hn) as P. fold period in P.
  pose proof (Z.div_mod nbytes max ltac:(lia)) as D. pose proof (Z.mod_pos_bound nbytes max Hm) as B.
  assert (0 <= nbytes / max) by (apply Z.div_pos; lia).
  assert (Hp : 0 < period).
  { rewrite P. destruct (Z.eqb_spec (nbytes mod max) 0); [|lia].
    assert (nbytes / max <> 0) by lia. lia. }
  induction n as [|n IH].
  - cbn. rewrite Z.div_0_l, Z.mod_0_l by lia. lia.
  - unfold bytes_of_tlps in *.
    rewrite (foldr_sum_snoc (fun k => tlp_size d nbytes (Z.of_nat k))), IH. clear IH.
    unfold tlp_size. fold max period. rewrite Nat2Z.inj_succ. set (z := Z.of_nat n).
    pose proof (Z.div_mod z period ltac:(lia)) as Dz. pose proof (Z.mod_pos_bound z period Hp) as Bz.
    destruct (Z.eq_dec (z mod period) (period - 1)) as [Last | More].
    + assert (E1 : Z.succ z / period = z / period + 1)
        by (symmetry; apply (Z.div_unique_pos _ _ _ 0); lia).
      assert (E2 : Z.succ z mod period = 0)
        by (symmetry; apply (Z.mod_unique_pos _ _ (z / period + 1)); lia).
      rewrite E1, E2, Last. destruct (Z.eqb_spec (nbytes mod max) 0), (Z.ltb_spec (period - 1) (nbytes / max));
        nia.
    + assert (E1 : Z.succ z / period = z / period)
        by (symmetry; apply (Z.div_unique_pos _ _ _ (z mod period + 1)); lia).
      assert (E2 : Z.succ z mod period = z mod period + 1)
        by (symmetry; apply (Z.mod_unique_pos _ _ (z / period)); lia).
      rewrite E1, E2.
      destruct (Z.ltb_spec (z mod period) (nbytes / max)); [lia|].
      destruct (Z.eqb_spec (nbytes mod max) 0); lia.
Qed.

Lemma total_bytes_eq d nbytes n :
  0 < nbytes < 2 ^ 31 -> 0 <= n < 2 ^ 31 ->
  total_bytes d nbytes n = Some (bytes_of_tlps d nbytes (Z.to_nat n)).
Proof.
  intros Hb Hn. rewrite bytes_of_tlps_closed by lia. rewrite Z2Nat.id by lia.
  set (max := maximum_size_per_tlp d).
  assert (Hm : 256 <= max <= 512) by (destruct (maximum_size_cases d) as [E | E]; unfold max; lia).
  pose proof (Z.div_mod nbytes max ltac:(lia)) as D.
  pose proof (Z.mod_pos_bound nbytes max ltac:(lia)) as B.
  assert (0 <= nbytes / max) by (apply Z.div_pos; lia).
  pose proof (period_eq nbytes max ltac:(lia) ltac:(lia)) as P.
  unfold total_bytes, n_incomplete_tlps, n_complete_tlps. fold max.
  rewrite !(swrap_id 32 (nbytes / max)) by lia.
  rewrite (swrap_id 32 (max * _)) by lia. rewrite (wrap_id 64 (max * _)) by (unfold fits; lia).
  replace (nbytes =? max * (nbytes / max)) with (nbytes mod max =? 0).
  2: { destruct (Z.eqb_spec (nbytes mod max) 0), (Z.eqb_spec nbytes (max * (nbytes / max))); lia. }
  rewrite <- P.
  set (period := (nbytes + max - 1) / max) in *.
  assert (nbytes / max < 2 ^ 23) by (apply Z.div_lt_upper_bound; lia).
  assert (Hp : 0 < period <= 2 ^ 23).
  { destruct (Z.eqb_spec (nbytes mod max) 0); [|lia].
    assert (nbytes / max <> 0) by (intros Z0; rewrite Z0 in D; lia). lia. }
  rewrite (swrap_id 32 period) by lia.
  destruct (Z.eqb_spec period 0); [lia|]. f_equal.
  rewrite Z.quot_div_nonneg, Z.rem_mod_nonneg by lia.
  pose proof (Z.mod_pos_bound n period ltac:(lia)) as Bn.
  assert (n mod period <= nbytes / max) by (destruct (Z.eqb_spec (nbytes mod max) 0); lia).
  assert (0 <= n mod period * max < 2 ^ 31) by nia.
  rewrite (swrap_id 32 (n mod period * max)) by lia. apply wrap_id. unfold fits.
  assert (0 <= n / period <= n) by (split; [apply Z.div_pos; lia | apply Z.div_le_upper_bound; nia]).
  nia.
Qed.


(** C35.  The number of bytes the bandwidth is computed from is the sum of the sizes of the TLPs
    of the test, for every request below 2 GB and every count of TLPs of an [int]. *)
Theorem total_bytes_spec d nbytes n :
  0 < nbytes < 2 ^ 31 -> 0 <= n < 2 ^ 31 ->
  total_bytes d nbytes n = Some (bytes_of_tlps d nbytes (Z.to_nat n)).
Proof. apply total_bytes_eq. Qed.

(** A request of no bytes, which the arguments allow, divides by zero. *)
Lemma total_bytes_zero d n : total_bytes d 0 n = None.
Proof. by destruct d. Qed.

(** The latency test repeats a request in as many TLPs as it fills completely: [ceil] is
    applied after the integer division and has nothing to round, so that the TLP with
    the rest is not counted, and a request smaller than a TLP has none. *)
Theorem latency_tlps_floor n :
  0 <= n < 2 ^ 61 ->
  number_of_tlps LATENCY H2D n = Some (n / 512) /\
  number_of_tlps LATENCY BOTH n = Some (n / 256) /\
  (n / 512 = (n + 511) / 512 <-> n mod 512 = 0) /\
  (0 < n < 512 -> number_of_tlps LATENCY H2D n = Some 0 /\ (n + 511) / 512 = 1).
Proof.
  intros Hn.
  assert (D : forall z, 0 <= z < 2 ^ 53 -> u64 (to_double z) = z).
  { intros z Hz. unfold to_double. assert (Z.log2 z <= 52).
    { destruct (Z.eq_dec z 0) as [-> |]; [done|]. enough (Z.log2 z < 53) by lia.
      apply Z.log2_lt_pow2; lia. }
    destruct (Z.leb_spec (Z.log2 z - 52) 0); [|lia]. apply wrap_id. unfold fits. lia. }
  unfold number_of_tlps, MAX_READ_REQUEST_SIZE, MAX_PAYLOAD.
  assert (0 <= n / 512 < 2 ^ 53) by (split; [apply Z.div_pos | apply Z.div_lt_upper_bound]; lia).
  assert (0 <= n / 256 < 2 ^ 53) by (split; [apply Z.div_pos | apply Z.div_lt_upper_bound]; lia).
  rewrite !D by done. do 2 (split; [done|]).
  pose proof (Z.div_mod n 512 ltac:(lia)). pose proof (Z.mod_pos_bound n 512 ltac:(lia)).
  pose proof (Z.div_mod (n + 511) 512 ltac:(lia)). pose proof (Z.mod_pos_bound (n + 511) 512 ltac:(lia)).
  split; [lia|]. intros Hs. split; [f_equal|]; lia.
Qed.

(** ** Witnesses *)

Lemma power_above_spec_witness : exists l, power_above 64 1 (2 ^ 30) = Some l /\ l = 2 ^ 30.
Proof.
  destruct (proj1 (power_above_spec (2 ^ 30)) ltac:(done)) as (l & L1 & L2).
  exists l. split; [exact L1|]. apply L2. exists 30. done.
Defined.

Lemma total_bytes_spec_witness :
  total_bytes BOTH 300 5 = Some (bytes_of_tlps BOTH 300 5) /\ bytes_of_tlps BOTH 300 5 = 856.
Proof. split; [apply (total_bytes_spec BOTH 300 5); lia | reflexivity]. Defined.

Lemma latency_tlps_floor_witness : number_of_tlps LATENCY H2D 64 = Some 0.
Proof. apply (latency_tlps_floor 64); lia. Defined.
