(* ===== verification/BenchRun.v ===== *)
(** * Runs of the benchmark

    What a run of [main] of BenchMain.v asks of the driver: the specification of an
    experiment (which descriptors, in which order), the proof that the caches, an
    iteration, the main loop and the program follow it, and the runs that do not. *)

From S2P Require Import Prelude Eff IoctlCommands NfpTypes Kernel SimKernel Posix Middleware Link.
From S2P Require Import SimSystem Numbers BenchArgs BenchMain.
From Stdlib Require Import ZArith Lia String.
From stdpp Require Import base list strings pretty.
Local Open Scope string_scope.
Local Open Scope list_scope.
Local Open Scope Z_scope.
Local Open Scope eff_scope.

(** ** The specification of an experiment *)

Definition access_mode (p : pattern) : Z := match p with FIX => 0 | SEQ => 1 | RAN => 3 end.

(** The bytes of the host buffer the device may use. *)
Definition buffer_size (args : arguments) (total_size : Z) : Z :=
  match a_pat args with RAN => a_prop2 args | _ => total_size end.

(** The descriptor number [i] of an experiment with [n] TLPs per descriptor. *)
Definition descriptor (args : arguments) (total_size n i : Z) : dma_descriptor_sw :=
  DmaDescriptorSw 0 (buffer_size args total_size) (a_nbytes args) 1 0
    (match a_dir args with H2D => 0 | _ => 1 end) (match a_dir args with D2H => 0 | _ => 1 end)
    (access_mode (a_pat args)) 0 n 0
    (match a_pat args with FIX => a_prop0 args | _ => 0 end)
    (match a_pat args with RAN => a_prop1 args | _ => 0 end) 0 0 0 0 i.

(** The requests of the pattern are in the buffer. *)
Definition pattern_ok (args : arguments) (total_size n : Z) : Prop :=
  match a_pat args with
  | FIX => a_prop0 args = 0 \/ a_prop0 args / 4096 = (a_prop0 args + a_nbytes args) / 4096
  | SEQ => a_nbytes args * n < total_size
  | RAN => True
  end.

Definition acceptable (args : arguments) (total_size n : Z) : Prop :=
  a_nbytes args < total_size /\ pattern_ok args total_size n /\
  exists k, 0 <= k /\ buffer_size args total_size = 2 ^ k.

(** The area to warm has a word at least. *)
Definition cache_ready (args : arguments) : Prop :=
  a_cache args = WARM -> 8 <= match a_pat args with RAN => a_prop2 args | _ => a_nbytes args end.

(** The two requests of an iteration: the descriptor, and the slot asked for then, in
    whatever state the answer to the first left it. *)
Definition exchange `{E : IocEncoding} (d : dma_descriptor_sw) (asked : list Z)
    : list (Z * list Z) :=
  [(NFPIOC_WRITE_DMA_DESCRIPTOR, encode_dma_descriptor_sw d); (NFPIOC_READ_DMA_DESCRIPTOR, asked)].

(** What a program prints to the file [f]. *)

Inductive line :=
| Text (s : string)
| Gbps (num den : Z).   (* ",%lf\n" of num * 8.0 / den *)

Definition logged (f : Z) (e : event ucall) : option line :=
  match e with
  | Ev (U_fprintf g s) _ => if g =? f then Some (Text s) else None
  | Ev (U_fprintf_gbps g num den) _ => if g =? f then Some (Gbps num den) else None
  | _ => None
  end.

Definition pattern_name (p : pattern) : string :=
  match p with FIX => "FIX," | SEQ => "SEQ," | RAN => "RAN," end.

(** ** Computations without requests *)

Definition quiet (e : event ucall) : Prop :=
  ioctl_sent e = None /\ mapped e = None /\ unmapped e = None /\ closed e = None.

Lemma quiet_idle t : Forall quiet t -> idle t.
Proof.
  intros H. unfold idle.
  repeat split; apply calls_none; (eapply Forall_impl; [exact H|]); intros e (A & B & D & F); done.
Qed.

(** The trace has these requests, and no memory or file is opened or closed. *)
Definition talks (t : utrace) (l : list (Z * list Z)) : Prop :=
  calls ioctl_sent t = l /\ calls mapped t = [] /\ calls unmapped t = [] /\ calls closed t = [].

Lemma talks_app t t' l l' : talks t l -> talks t' l' -> talks (t ++ t') (l ++ l').
Proof.
  intros (A & B & D & F) (A' & B' & D' & F'). unfold talks.
  by rewrite !calls_app, A, B, D, F, A', B', D', F'.
Qed.

Lemma quiet_talks t : Forall quiet t -> talks t [].
Proof. apply quiet_idle. Qed.

(** A trace after another without requests. *)
Lemma talks_after t t' l : talks t [] -> talks t' l -> talks (t ++ t') l.
Proof. apply (talks_app t t' [] l). Qed.
Lemma talks_before t t' l : talks t l -> talks t' [] -> talks (t ++ t') l.
Proof. intros H H'. rewrite <- (app_nil_r l). by apply talks_app. Qed.
#[export] Hint Resolve talks_after talks_before quiet_talks : pcie.

Section Silent.
Context {U : Type} `{!Handler ucall U}.

(** [m] gives [a], whatever the system answers, and only prints and stores. *)
Definition silent {A} (m : UM U A) (a : A) : Prop :=
  forall s u, wp m (fun o s' _ t => o = Done a /\ s' = s /\ Forall quiet t) s u.

Lemma silent_ret {A} (a : A) : silent (ret a) a.
Proof. by intros s u. Qed.

Lemma silent_bind {A B} (m : UM U A) a (f : A -> UM U B) b :
  silent m a -> silent (f a) b -> silent (bind m f) b.
Proof.
  intros Hm Hf s u. wp_step. eapply wp_mono; [apply Hm|]. intros o s1 u1 t (-> & -> & T).
  eapply wp_mono; [apply Hf|]. intros o s2 u2 t2 (-> & -> & T2).
  do 2 (split; [done|]). by apply Forall_app.
Qed.

Lemma silent_call (c : ucall unit) : (forall r, quiet (Ev c r)) -> silent (call c) tt.
Proof. intros H s u. wp_step. destruct ans. do 2 (split; [done|]). by apply Forall_singleton. Qed.

Lemma silent_for_range n start body :
  (forall i, start <= i < start + Z.of_nat n -> silent (body i) tt) ->
  silent (for_range n start body) tt.
Proof.
  intros H s u.
  apply wp_for_range with (I := fun _ s' _ t => s' = s /\ Forall quiet t); [done| |].
  - intros i s1 u1 t1 Hi [-> T]. eapply wp_mono; [by apply H|]. intros o s2 u2 t2 (-> & -> & T2).
    split; [done|]. by apply Forall_app.
  - by intros s1 u1 t1 [-> T].
Qed.

Lemma silent_log fname msg : fname <> 0 -> silent (log fname msg) tt.
Proof. intros H. unfold log. apply Z.eqb_neq in H as ->. by apply silent_call. Qed.

Lemma wp_silent {A B} (m : UM U A) a (f : A -> UM U B) Q s (u : U) :
  silent m a ->
  (forall u' t, talks t [] -> wp (f a) (fun o s2 u2 t2 => Q o s2 u2 (t ++ t2)) s u') ->
  wp (bind m f) Q s u.
Proof.
  intros H W. wp_step. eapply wp_mono; [apply H|]. intros o s1 u1 t (-> & -> & T).
  apply W. by apply quiet_talks.
Qed.
End Silent.

(** ** The caches *)

Section Caches.
Context {U : Type} `{!Handler ucall U}.

Lemma silent_thrash_cache : silent (U := U) thrash_cache tt.
Proof.
  apply silent_for_range. intros i _ s u. wp_steps. cbv zeta.
  pose proof (Z.mod_pos_bound (u64 ans) LARGE_ARRAY_SIZE ltac:(done)).
  destruct (Z.ltb_spec (u64 ans mod LARGE_ARRAY_SIZE) LARGE_ARRAY_SIZE); [|lia]. wp_step.
  destruct ans0. do 2 (split; [done|]). by repeat (apply Forall_cons; split; [done|]).
Qed.

(** The store of round [i] of [warm_cache]: the number of the round in word
    [i mod (size / 8)] of the area. *)
Definition warm_store (pmem size i : Z) : Z * Z := (u64 (pmem + 8 * (i mod (size / 8))), i).

Lemma wp_warm_cache pmem size s (u : U) :
  8 <= size ->
  wp (warm_cache pmem size) (fun o s' _ t => o = Done tt /\ s' = s /\ Forall quiet t /\
    calls stored t = map (warm_store pmem size) (seqZ 0 (u64 (4 * size)))) s u.
Proof.
  intros Hs. unfold warm_cache.
  assert (1 <= size / 8) by (apply Z.div_le_lower_bound; lia).
  pose proof (wrap_fits 64 (4 * size) ltac:(lia)) as Hn. unfold fits in Hn.
  apply wp_for_range with (I := fun i s' _ t => s' = s /\ Forall quiet t /\
    calls stored t = map (warm_store pmem size) (seqZ 0 i)); [done| |].
  - intros i s1 u1 t1 Hi (-> & T & C). unfold umod.
    destruct (Z.eqb_spec (size / 8) 0); [lia|]. wp_steps; [|done].
    injection H0 as <-. split; [done|]. rewrite Forall_app.
    split; [split; [done | by repeat constructor]|].
    rewrite calls_app, C. change (calls stored _) with [warm_store pmem size i].
    by rewrite (seqZ_app 0 i 1), map_app, Z.add_0_l by lia.
  - rewrite Z2Nat.id by lia. intros s1 u1 t1 (-> & T & C). done.
Qed.

Lemma silent_warm_cache pmem size : 8 <= size -> silent (U := U) (warm_cache pmem size) tt.
Proof. intros H s u. eapply wp_mono; [by apply wp_warm_cache|]. by intros ? ? ? ? (-> & -> & ? & _). Qed.

(** Warming [size] bytes stores the numbers of the rounds, in order, in words of
    these bytes and nowhere else, and in every one of their whole words; fewer than 8
    bytes divide by zero. *)
Theorem warm_cache_spec pmem size s (u : U) :
  0 <= pmem -> 0 < size < 2 ^ 61 -> pmem + size < 2 ^ 64 ->
  let r := warm_cache pmem size s u in
  (8 <= size ->
   r_out r = Done tt /\
   calls stored (r_tr r) = map (warm_store pmem size) (seqZ 0 (4 * size)) /\
   Forall (fun '(a, _) => pmem <= a /\ a + 8 <= pmem + size) (calls stored (r_tr r)) /\
   forall j, 0 <= j < size / 8 -> pmem + 8 * j ∈ map fst (calls stored (r_tr r))) /\
  (size < 8 -> r_out r = Stop (Undefined DivByZero) /\ r_tr r = []).
Proof.
  intros Hp Hs Hb r. split.
  - intros H8. destruct (wp_warm_cache pmem size s u H8) as (O & _ & _ & C). fold r in O, C.
    pose proof (Z.div_mod size 8 ltac:(lia)) as D. pose proof (Z.mod_pos_bound size 8 ltac:(lia)).
    assert (Hw : forall i, 0 <= i mod (size / 8) < size / 8) by (intros i; apply Z.mod_pos_bound; lia).
    split; [done|]. rewrite wrap_id in C by (unfold fits; lia).
    assert (E : map (warm_store pmem size) (seqZ 0 (4 * size)) =
      map (fun i => (pmem + 8 * (i mod (size / 8)), i)) (seqZ 0 (4 * size))).
    { apply map_ext. intros i. unfold warm_store. specialize (Hw i).
      by rewrite wrap_id by (unfold fits; lia). }
    rewrite C. split; [done|]. rewrite E. split.
    + apply Forall_map, Forall_forall. intros i _. cbn. specialize (Hw i). lia.
    + intros j Hj. apply list_elem_of_fmap. exists (pmem + 8 * j, j). split; [done|].
      apply list_elem_of_fmap. exists j. split; [by rewrite Z.mod_small by lia|].
      apply elem_of_seqZ. lia.
  - intros H8.
    assert (W : wp (warm_cache pmem size) (fun o _ _ t =>
      o = Stop (Undefined DivByZero) /\ t = []) s u); [|exact W].
    unfold warm_cache. rewrite wrap_id by (unfold fits; lia).
    destruct (Z.to_nat (4 * size)) as [|n] eqn:En; [lia|]. cbn [for_range].
    rewrite Z.div_small by lia. unfold umod. cbn [Z.eqb]. by wp_steps.
Qed.

Lemma silent_prepare_cache args pmem d :
  cache_ready args -> silent (U := U) (prepare_cache args pmem d) tt.
Proof.
  intros H. unfold prepare_cache. unfold cache_ready in H.
  destruct (a_cache args); [apply silent_ret | apply silent_thrash_cache |].
  specialize (H eq_refl). destruct (a_pat args); by apply silent_warm_cache.
Qed.
End Caches.

(** ** An iteration *)

Section Iteration.
Context {U : Type} `{!Handler ucall U} `{E : IocEncoding}.
Variables (fname pmem total_size : Z) (args : arguments) (file : string) (n : Z).
Hypothesis Hname : fname <> 0.
Hypothesis Hargs : expressible args.
Hypothesis Hsize : 0 <= total_size <= 2 ^ 63.
Hypothesis Hbytes : a_nbytes args < 2 ^ 31.
Hypothesis Hcache : cache_ready args.

Lemma tlps_range :
  number_of_tlps (a_test args) (a_dir args) (a_nbytes args) = Some n -> 0 <= n < 2 ^ 31.
Proof using Hbytes Hargs.
  intros H. destruct Hargs as (_ & Hn & _).
  assert (D : forall z, 0 <= z < 2 ^ 31 -> u64 (to_double z) = z).
  { intros z Hz. unfold to_double. assert (Z.log2 z <= 52).
    { destruct (Z.eq_dec z 0) as [-> |]; [done|]. enough (Z.log2 z < 53) by lia.
      apply Z.log2_lt_pow2; [lia|]. lia. }
    destruct (Z.leb_spec (Z.log2 z - 52) 0); [|lia]. apply wrap_id. unfold fits. lia. }
  unfold number_of_tlps, MAX_READ_REQUEST_SIZE, MAX_PAYLOAD in H.
  assert (0 <= a_nbytes args / 512 < 2 ^ 31)
    by (split; [apply Z.div_pos | apply Z.div_lt_upper_bound]; lia).
  assert (0 <= a_nbytes args / 256 < 2 ^ 31)
    by (split; [apply Z.div_pos | apply Z.div_lt_upper_bound]; lia).
  rewrite !D in H by done.
  unfold DEFAULT_NUMBER_TLPS in H.
  destruct (a_test args), (a_dir args); first [done | injection H as H; lia].
Qed.

Lemma wp_set_pattern i s (u : U) :
  0 <= n < 2 ^ 31 ->
  wp (set_pattern fname args (with_tlps n (fill args total_size i dd_zero)))
    (fun o s' _ t => s' = s /\ Forall quiet t /\ exists b,
      o = Done (descriptor args total_size n i, b) /\
      (b = true <-> pattern_ok args total_size n) /\
      (b = true -> calls (logged fname) t = [Text (pattern_name (a_pat args))])) s u.
Proof using Hname Hargs Hbytes.
  intros Hn. destruct Hargs as (_ & Hb & _ & _ & Hp).
  assert (L : forall (msg : string) (d : dma_descriptor_sw) (b : bool) (P : Prop) name s (u : U),
    (b = true <-> P) -> (b = true -> msg = name) ->
    wp (do* log fname msg in ret (d, b)) (fun o s' _ t => s' = s /\ Forall quiet t /\ exists b' : bool,
      o = Done (d, b') /\ (b' = true <-> P) /\
      (b' = true -> calls (logged fname) t = [Text name])) s u).
  { intros msg d b P name s' u' HP Hm. wp_step. unfold log.
    pose proof Hname as Hf. apply Z.eqb_neq in Hf as ->. wp_steps. destruct ans.
    split; [done|]. split; [by repeat constructor|]. exists b. split; [done|]. split; [done|].
    intros Eb. cbn. by rewrite Z.eqb_refl, (Hm Eb). }
  unfold set_pattern, pattern_ok, pattern_name.
  cbn [dd_length dd_number_of_tlps dd_buffer_size dd_address_inc with_tlps fill with_access].
  unfold descriptor, buffer_size, access_mode, PAGE_SIZE. destruct (a_pat args).
  - rewrite wrap_id by (unfold fits; lia).
    destruct (Z.eqb_spec (a_prop0 args / 4096) ((a_prop0 args + a_nbytes args) / 4096));
      cbn [negb andb]; [apply L; [split; auto | done]|].
    destruct (Z.eqb_spec (a_prop0 args) 0) as [Z0 | Z0]; cbn [negb];
      [apply L; [split; auto | done]|]. apply L; [|done]. split; [done|]. intros []; lia.
  - rewrite wrap_id by (unfold fits; nia).
    destruct (Z.leb_spec total_size (a_nbytes args * n)); apply L; try done; split; done || lia.
  - by apply L.
Qed.

(** Requests go out in every case; a request of no bytes stops the program after them. *)
Lemma wp_run_descriptor i nt d s (u : U) :
  wp (run_descriptor fname args pmem i nt d) (fun o s' _ t => s' = s /\
    (exists asked, talks t (exchange d asked)) /\
    match total_bytes (a_dir args) (a_nbytes args) nt with
    | Some _ => exists d', o = Done d'
    | None => o = Stop (Undefined DivByZero)
    end) s u.
Proof using Hname Hcache.
  unfold run_descriptor. eapply wp_silent; [by apply silent_log|]. intros u1 t1 T1.
  eapply wp_silent; [by apply silent_prepare_cache|]. intros u2 t2 T2.
  assert (T : forall t3 asked a b, talks t3 [] ->
    talks (t1 ++ t2 ++ [Ev (U_ioctl (a_fd s) NFPIOC_WRITE_DMA_DESCRIPTOR
      (encode_dma_descriptor_sw d)) a; Ev (U_ioctl (a_fd s) NFPIOC_READ_DMA_DESCRIPTOR asked) b]
      ++ t3) (exchange d asked)).
  { intros t3 asked a b T3. apply talks_after; [done|]. apply talks_after; [done|].
    by apply (talks_before [_; _]). }
  unfold writeDescriptor, readDescriptor, getCharDeviceDescriptor. wp_steps.
  - rewrite H. pose proof Hname as Hf. apply Z.eqb_neq in Hf. destruct (a_test args).
    + eapply wp_mono; [by apply silent_log|]. intros o s3 u3 t3 (-> & -> & T3). wp_steps.
      split; [done|]. split; [|by eexists]. eexists. eapply (T (t3 ++ [])).
      rewrite app_nil_r. by apply quiet_talks.
    + rewrite Hf. wp_steps. split; [done|]. split; [|by eexists]. eexists. by eapply (T [_]).
  - rewrite H. split; [done|]. split; [|done]. eexists. by eapply (T []).
Qed.

(** A check that prints a message when it fails. *)
Lemma silent_check (c : bool) msg :
  silent (U := U) (if c then do* log fname msg in ret false else ret true) (negb c).
Proof using Hname.
  destruct c; [|apply silent_ret].
  eapply silent_bind; [by apply silent_log | apply silent_ret].
Qed.

Lemma buffer_size_range : 0 <= buffer_size args total_size <= 2 ^ 63.
Proof using Hsize Hargs.
  destruct Hargs as (_ & _ & _ & _ & Hp). unfold buffer_size.
  destruct (a_pat args); lia.
Qed.

(** What iteration [i] does on a fresh descriptor. *)
Definition iteration_result (i : Z) (dlist : list dma_descriptor_sw)
    (o : outcome (list dma_descriptor_sw * next)) (t : utrace) : Prop :=
  (acceptable args total_size n /\
   (exists asked, talks t (exchange (descriptor args total_size n i) asked)) /\
   (0 < a_nbytes args -> exists d, o = Done (<[Z.to_nat i := d]> dlist, Continue)) /\
   (a_nbytes args = 0 -> o = Stop (Undefined DivByZero))) \/
  (~ acceptable args total_size n /\ talks t [] /\
   exists d, o = Done (<[Z.to_nat i := d]> dlist, Break)).

Lemma wp_iteration i dlist s (u : U) :
  number_of_tlps (a_test args) (a_dir args) (a_nbytes args) = Some n ->
  arr_get dlist i = Some dd_zero ->
  wp (iteration 64 fname args pmem total_size i dlist) (fun o s' _ t =>
    s' = s /\ iteration_result i dlist o t) s u.
Proof using Hname Hargs Hsize Hbytes Hcache.
  intros Hn Hi. pose proof (tlps_range Hn) as Rn. apply arr_get_Some in Hi as Hi'.
  destruct Hi' as [Ri _]. unfold iteration. rewrite Hi. wp_step. apply wp_ret. cbn beta iota zeta.
  change (dd_length (fill args total_size i dd_zero)) with (a_nbytes args). rewrite Hn.
  eapply wp_silent; [apply silent_check|]. intros u1 t1 T1. wp_step.
  eapply wp_mono; [by apply wp_set_pattern|]. intros o s2 u2 t2 (-> & T2 & b & -> & Hb & _).
  cbn beta iota zeta. cbn [fst snd].
  change (dd_buffer_size (descriptor args total_size n i)) with (buffer_size args total_size).
  destruct (power_above_found _ buffer_size_range) as (l & El & Hl). rewrite El.
  eapply wp_silent; [apply silent_check|]. intros u3 t3 T3.
  apply quiet_talks in T2.
  change (dd_buffer_size (with_tlps n (fill args total_size i dd_zero))) with total_size.
  change (dd_length (with_tlps n (fill args total_size i dd_zero))) with (a_nbytes args).
  assert (Hacc : negb (total_size <=? a_nbytes args) && b &&
    negb (negb (l =? buffer_size args total_size)) = true <-> acceptable args total_size n).
  { unfold acceptable. rewrite negb_involutive, !andb_true_iff, negb_true_iff, Z.leb_gt, Z.eqb_eq.
    rewrite Hb, Hl. tauto. }
  destruct (_ && _) eqn:Eacc; cbn [negb].
  - apply proj1 in Hacc. specialize (Hacc eq_refl).
    wp_step. eapply wp_mono; [apply wp_run_descriptor|].
    intros o s4 u4 t4 (-> & (asked & T4) & Ho). pose proof Hargs as (_ & Rb & _).
    assert (T : talks (t1 ++ t2 ++ t3 ++ t4) (exchange (descriptor args total_size n i) asked))
      by auto with pcie.
    destruct (Z.eq_dec (a_nbytes args) 0) as [Z0 | Z0].
    + rewrite Z0, total_bytes_zero in Ho. subst o. split; [done|]. left. split; [done|].
      split; [by exists asked|]. split; [lia | done].
    + rewrite total_bytes_eq in Ho by (rewrite ?swrap_id; lia). destruct Ho as [d ->].
      rewrite arr_set_in by done. wp_step. apply wp_ret. wp_step. split; [done|].
      rewrite !app_nil_r. left. split; [done|]. split; [by exists asked|].
      split; [by exists d | lia].
  - rewrite arr_set_in by done. wp_step. wp_step. wp_step. apply wp_ret. cbn beta iota. wp_step. split; [done|]. right.
    split; [intros H; apply Hacc in H; congruence|].
    split; [|by eexists]. repeat (apply talks_after; [done|]). done.
Qed.

(** The requests of [length asked] iterations from number [i]. *)
Fixpoint session (i : Z) (asked : list (list Z)) : list (Z * list Z) :=
  match asked with
  | [] => []
  | a :: asked' => exchange (descriptor args total_size n i) a ++ session (i + 1) asked'
  end.

Definition fresh (dlist : list dma_descriptor_sw) (i : Z) (k : nat) : Prop :=
  0 <= i /\ forall j, i <= j < i + Z.of_nat k -> arr_get dlist j = Some dd_zero.

Lemma fresh_next dlist i k d :
  fresh dlist i (S k) -> fresh (<[Z.to_nat i := d]> dlist) (i + 1) k.
Proof.
  intros [Hi H]. split; [lia|]. intros j Hj. specialize (H j ltac:(lia)).
  apply arr_get_Some in H as [R L]. apply arr_get_Some. rewrite length_insert.
  split; [done|]. rewrite list_lookup_insert_ne by lia. done.
Qed.

Lemma wp_main_loop k i dlist s (u : U) :
  number_of_tlps (a_test args) (a_dir args) (a_nbytes args) = Some n ->
  acceptable args total_size n -> 0 < a_nbytes args -> fresh dlist i k ->
  wp (main_loop k 64 fname args pmem total_size i dlist) (fun o s' _ t =>
    o = Done None /\ s' = s /\
    exists asked, length asked = k /\ talks t (session i asked)) s u.
Proof using Hname Hargs Hsize Hbytes Hcache.
  intros Hn Ha Hb. revert i dlist s u. induction k as [|k IH]; intros i dlist s u Hf;
    cbn [main_loop].
  { apply wp_ret. do 2 (split; [done|]). by exists []. }
  wp_step. eapply wp_mono; [apply wp_iteration; [done|]; apply Hf; lia|].
  intros o s1 u1 t1 (-> & [(_ & (a & T1) & Ho & _) | [Hna _]]); [|done].
  destruct (Ho Hb) as [d ->]. cbn [fst snd].
  eapply wp_mono; [apply IH; by apply fresh_next|].
  intros o s2 u2 t2 (-> & -> & asked & L & T2). do 2 (split; [done|]).
  exists (a :: asked). split; [cbn; lia|]. by apply talks_app.
Qed.

Lemma wp_main_loop_refused k i dlist s (u : U) :
  number_of_tlps (a_test args) (a_dir args) (a_nbytes args) = Some n ->
  ~ acceptable args total_size n -> fresh dlist i k ->
  wp (main_loop k 64 fname args pmem total_size i dlist) (fun o s' _ t =>
    o = Done None /\ s' = s /\ talks t []) s u.
Proof using Hname Hargs Hsize Hbytes Hcache.
  intros Hn Ha Hf. destruct k as [|k]; cbn [main_loop]; [by apply wp_ret|].
  wp_step. eapply wp_mono; [apply wp_iteration; [done|]; apply Hf; lia|].
  intros o s1 u1 t1 (-> & [[Hac _] | (_ & T & d & ->)]); [done|]. cbn [fst snd].
  apply wp_ret. do 2 (split; [done|]). by rewrite app_nil_r.
Qed.

(** The test of latency that the device does not have ends the program in its first
    iteration. *)
Lemma wp_main_loop_none k i dlist s (u : U) :
  number_of_tlps (a_test args) (a_dir args) (a_nbytes args) = None ->
  fresh dlist i (S k) ->
  wp (main_loop (S k) 64 fname args pmem total_size i dlist) (fun o s' _ t =>
    o = Done (Some (-1)) /\ s' = s /\ talks t []) s u.
Proof.
  intros Hn Hf. cbn [main_loop]. wp_step. pose proof (proj2 Hf i ltac:(lia)) as Hi.
  unfold iteration. rewrite Hi. apply arr_get_Some in Hi as [Ri _]. wp_step. apply wp_ret.
  cbn beta iota zeta.
  change (dd_length (fill args total_size i dd_zero)) with (a_nbytes args). rewrite Hn.
  rewrite arr_set_in by done. wp_step. wp_step. wp_step. apply wp_ret. cbn beta iota. wp_step.
  cbn [fst snd]. by apply wp_ret.
Qed.
End Iteration.

(** ** Whole runs *)

Section Runs.
Context {U : Type} `{!Handler ucall U} `{!FsLaws (U := U)} `{!Resources (U := U)}.
Context `{E : IocEncoding}.

Lemma emits_readOption o l arg : emits quiet (readOption (U := U) o l arg).
Proof. unfold readOption, operand_bytes, operand. solve_emits. Qed.

Lemma emits_readOptions fuel l arg : emits quiet (readOptions (U := U) fuel l arg).
Proof.
  revert l arg. induction fuel as [|fuel IH]; intros [|o l] arg; cbn [readOptions];
    try (by auto with emits).
  apply emits_bind; [apply emits_readOption|]. intros [[arg' l']|]; [apply IH | apply emits_ret].
Qed.

Lemma emits_readArguments argv : emits quiet (readArguments (U := U) argv).
Proof.
  unfold readArguments, checkArguments. destruct (_ || _); [apply emits_ret|].
  apply emits_bind; [apply emits_readOptions|]. solve_emits.
Qed.

Lemma keeps_readArguments argv : keeps_fs (readArguments (U := U) argv).
Proof.
  unfold readArguments, checkArguments. destruct (_ || _); [apply keeps_ret|].
  apply keeps_bind; [|solve_keeps]. generalize (length argv), (tail argv), initial.
  intros fuel. induction fuel as [|fuel IH]; intros [|o l] arg; cbn [readOptions];
    try (by auto with pcie).
  apply keeps_bind; [unfold readOption, operand_bytes, operand; solve_keeps|].
  intros [[arg' l']|]; [apply IH | apply keeps_ret].
Qed.

Lemma wp_init s (u : U) :
  wp rte_eal_init (fun o s' u' t => o = Done 0 /\ 0 < a_fd s' /\ a_log s' <> 0 /\
    a_log_closed s' = false /\ talks t [] /\ same_fs u u') s u.
Proof.
  unfold rte_eal_init, rte_openlog_stream, set_affinity. wp_steps.
  pose proof (fdopen_given 1 u) as L. rewrite Hans in L.
  pose proof (open_nfp_ok kk0) as O. rewrite Hans1 in O. cbn [fst] in *.
  rewrite swrap_id by lia. destruct (Z.leb_spec ans1 0); [lia|]. wp_steps.
  do 5 (split; [done|]).
  eapply same_fs_trans; [exact (same_fs_call _ _ _ _ Hans)|].
  eapply same_fs_trans; [exact (same_fs_call _ _ _ _ Hans0)|]. exact (same_fs_call _ _ _ _ Hans1).
Qed.

Lemma wp_exit {A} code msg s (u : U) :
  a_log s <> 0 -> a_log_closed s = false -> 0 < a_fd s ->
  wp (rte_exit code msg : UM U A) (fun o _ _ t => o = Stop (Exited code) /\
    calls ioctl_sent t = [] /\ calls mapped t = [] /\ calls unmapped t = [] /\
    calls closed t = [a_fd s]) s u.
Proof.
  intros Hl Hc Hf. unfold rte_exit, rte_free, rte_vlog, rte_actuallog_stream.
  wp_steps. destruct (Z.eqb_spec (a_log s) 0); [done|]. rewrite Hc. wp_steps.
  destruct (Z.eqb_spec (a_fd s) 0); [lia|]. wp_steps. done.
Qed.

(** The requests before the main loop. *)
Definition opening (p size : Z) (args : arguments) (k : U) : list (Z * list Z) :=
  [(NFPIOC_REGISTER_BUFFER, encode_dma_buffer (DmaBuffer 1 p size (hp_size_of k) 1));
   (NFPIOC_WINDOW_SIZE, encode_u64 (a_wsize args))].

(** A run whose main loop makes the requests [l] and ends with [v], on a device [fd]
    and a mapping of [size] bytes at [p] of the file [id]. *)
Definition run_of (args : arguments) (k : U) (v : option Z) (l : list (Z * list Z))
    (p size id fd : Z) (o : outcome Z) (t : utrace) : Prop :=
  0 < p /\ 0 < fd /\ calls mapped t = [(p, size)] /\
  match v with
  | None => o = Stop (Exited 0) /\ calls unmapped t = [(p, size)] /\
      calls closed t = [id; fd] /\
      calls ioctl_sent t = opening p size args k ++ l ++ [(NFPIOC_UNREGISTER_BUFFER, [])]
  | Some r => o = Done r /\ calls unmapped t = [] /\ calls closed t = [] /\
      calls ioctl_sent t = opening p size args k ++ l
  end.

Lemma wp_main prog args file v (L : list (Z * list Z) -> Prop) s (u : U) :
  expressible args -> a_file_name args = Some file ->
  let size := u64 (1 * hp_size_of u) in
  (forall fname pmem s' u', fname <> 0 ->
    wp (main_loop (Z.to_nat (a_niters args)) 64 fname args pmem size 0 (replicate 1024 dd_zero))
      (fun o s2 _ t => o = Done v /\ s2 = s' /\ exists l, L l /\ talks t l) s' u') ->
  wp (main 64 (prog :: command_line args file)) (fun o _ _ t =>
    exists l p id fd, L l /\ run_of args u v l p size id fd o t) s u.
Proof.
  intros Ha Hf size Hloop. unfold main. wp_step.
  apply wp_mono with (Q := fun o s1 u1 t => (o = Done (Some args) /\ s1 = s) /\
    Forall quiet t /\ same_fs u u1); [exact (conj (wp_readArguments_line prog args file s u Ha Hf)
    (conj (emits_readArguments _ s u) (keeps_readArguments _ s u)))|].
  intros o s1 u1 t1 ((-> & ->) & T1 & F1). apply quiet_talks in T1. wp_step.
  eapply wp_mono; [apply wp_init|]. intros o s2 u2 t2 (-> & I1 & I2 & I3 & T2 & F2).
  pose proof (same_fs_trans _ _ _ F1 F2) as F12. cbn [Z.ltb Z.compare]. wp_step. apply wp_ret. cbn beta iota.
  wp_step. eapply wp_mono; [apply wp_getFreeHugePages_ok; unfold NUMBER_PAGES; lia|].
  intros o s3 u3 t3 (F3 & G1 & G2 & id & p & -> & Hp & -> & G3 & G4).
  unfold NUMBER_PAGES in *. rewrite (hp_size_same u u2) in G3, G4 |- * by done. fold size in G3, G4 |- *.
  wp_step. eapply wp_mono; [apply wp_hugepage_size|].
  intros o s4 u4 t4 (-> & -> & T4 & F4). cbn beta iota zeta.
  rewrite (hp_size_same u u3) by exact (same_fs_trans _ _ _ F12 F3). fold size.
  destruct (Z.eqb_spec p 0); [lia|]. wp_step. apply wp_ret. cbn beta iota. rewrite Hf.
  wp_step. apply wp_ret. cbn beta iota. wp_step. wp_step.
  pose proof (fopen_ok file "a+" u4) as Ho. rewrite Hans in Ho. cbn [fst] in Ho.
  unfold setWindowSize, getCharDeviceDescriptor. wp_steps.
  eapply wp_mono; [by apply Hloop|]. intros o s5 u5 t5 (-> & -> & l & HL & T5).
  destruct T1 as (A1 & A2 & A3 & A4), T2 as (B1 & B2 & B3 & B4), T4 as (C1 & C2 & C3 & C4),
    T5 as (D1 & D2 & D3 & D4).
  destruct v as [v|].
  - wp_steps. exists l, p, id, (a_fd s2). split; [done|]. unfold run_of, opening.
    rewrite !calls_app, A1, A2, A3, A4, B1, B2, B3, B4, C1, C2, C3, C4, D1, D2, D3, D4,
      G1, G2, G3, G4.
    do 6 (split; [done|]). cbn. by rewrite app_nil_r.
  - unfold leave. destruct (Z.eqb_spec ans 0); [done|]. wp_steps.
    eapply wp_mono; [apply wp_unsetHugeFreePages|]. intros o s6 u6 t6 (-> & -> & U1 & U2 & U3 & U4).
    cbn [a_hp_data a_sz a_hp_identifier set_hp_data set_hp_identifier set_sz] in *.
    destruct (Z.eqb_spec p 0); [lia|].
    eapply wp_mono; [by apply wp_exit|]. intros o s7 u7 t7 (-> & E1 & E2 & E3 & E4).
    exists l, p, id, (a_fd s2). split; [done|]. unfold run_of, opening.
    rewrite !calls_app, A1, A2, A3, A4, B1, B2, B3, B4, C1, C2, C3, C4, D1, D2, D3, D4,
      G1, G2, G3, G4, U1, U2, U3, U4, E1, E2, E3, E4.
    do 6 (split; [done|]). done.
Qed.
End Runs.

Section Experiments.
Context {U : Type} `{!Handler ucall U} `{!FsLaws (U := U)} `{!Resources (U := U)}.
Context `{E : IocEncoding}.

Lemma page_range (u : U) : 0 <= u64 (1 * hp_size_of u) <= 2 ^ 63.
Proof.
  assert (0 <= hp_size_of u <= 2 ^ 30) by (unfold hp_size_of; repeat case_match; lia).
  rewrite wrap_id by (unfold fits; lia). lia.
Qed.

Lemma fresh_initial args : expressible args ->
  fresh (replicate 1024 dd_zero) 0 (Z.to_nat (a_niters args)).
Proof.
  intros (_ & _ & _ & Hl & _). unfold MAX_DMA_DESCRIPTORS in Hl. split; [done|].
  intros j Hj. apply arr_get_Some. rewrite length_replicate. split; [lia|].
  apply lookup_replicate_2. lia.
Qed.

(** C4.  A run of the benchmark with a command line of its help, when the experiment fits in
    the huge page: it registers its page, sets the window, and for every number below
    the count of iterations, in order, writes the descriptor of the experiment with
    that number and reads one back; then it unregisters the page, unmaps it, closes
    what it opened and exits with 0. *)
Theorem benchmark_requests prog args file n s (u : U) :
  expressible args -> a_file_name args = Some file ->
  0 < a_nbytes args < 2 ^ 31 -> cache_ready args ->
  number_of_tlps (a_test args) (a_dir args) (a_nbytes args) = Some n ->
  let size := u64 (1 * hp_size_of u) in
  acceptable args size n ->
  let r := main 64 (prog :: command_line args file) s u in
  exists asked p id fd, Z.of_nat (length asked) = a_niters args /\
    run_of args u None (session size args n 0 asked) p size id fd (r_out r) (r_tr r).
Proof.
  intros Ha Hf Hb Hc Hn size Hacc r. pose proof Ha as (_ & _ & _ & Hl & _).
  destruct (wp_main prog args file None (fun l => exists asked,
    Z.of_nat (length asked) = a_niters args /\ l = session size args n 0 asked) s u Ha Hf)
    as (l & p & id & fd & (asked & L & ->) & R).
  - intros fname pmem s' u' Hname.
    eapply wp_mono; [apply (wp_main_loop fname pmem size args n Hname Ha (page_range u) (proj2 Hb) Hc
      _ _ _ _ _ Hn Hacc (proj1 Hb) (fresh_initial args Ha))|].
    intros o s2 u2 t (-> & -> & asked & L & T). do 2 (split; [done|]).
    exists (session size args n 0 asked). split; [|done]. exists asked. split; [lia | done].
  - by exists asked, p, id, fd.
Qed.

(** An experiment that does not fit sends nothing to the device: the program stops
    at its first iteration, gives everything back, and exits with 0 all the same. *)
Theorem benchmark_refused prog args file n s (u : U) :
  expressible args -> a_file_name args = Some file ->
  a_nbytes args < 2 ^ 31 -> cache_ready args ->
  number_of_tlps (a_test args) (a_dir args) (a_nbytes args) = Some n ->
  let size := u64 (1 * hp_size_of u) in
  ~ acceptable args size n ->
  let r := main 64 (prog :: command_line args file) s u in
  exists p id fd, run_of args u None [] p size id fd (r_out r) (r_tr r).
Proof.
  intros Ha Hf Hb Hc Hn size Hacc r.
  destruct (wp_main prog args file None (fun l => l = []) s u Ha Hf)
    as (l & p & id & fd & -> & R); [|by exists p, id, fd].
  intros fname pmem s' u' Hname.
  eapply wp_mono; [apply (wp_main_loop_refused fname pmem size args n Hname Ha (page_range u) Hb Hc
    _ _ _ _ _ Hn Hacc (fresh_initial args Ha))|].
  intros o s2 u2 t (-> & -> & T). do 2 (split; [done|]). by exists [].
Qed.

(** The latency of writes to the host cannot be measured: the program returns -1 from the
    middle of its loop, and neither unregisters nor unmaps its page nor closes the
    device. *)
Theorem benchmark_leaks prog args file s (u : U) :
  expressible args -> a_file_name args = Some file ->
  a_test args = LATENCY -> a_dir args = D2H ->
  let size := u64 (1 * hp_size_of u) in
  let r := main 64 (prog :: command_line args file) s u in
  exists p id fd, run_of args u (Some (-1)) [] p size id fd (r_out r) (r_tr r).
Proof.
  intros Ha Hf Ht Hd size r. pose proof Ha as (_ & _ & _ & Hl & _).
  destruct (wp_main prog args file (Some (-1)) (fun l => l = []) s u Ha Hf)
    as (l & p & id & fd & -> & R); [|by exists p, id, fd].
  intros fname pmem s' u' Hname. pose proof (fresh_initial args Ha) as F.
  destruct (Z.to_nat (a_niters args)) as [|k] eqn:Ek; [lia|].
  eapply wp_mono; [apply (wp_main_loop_none fname pmem size args); [by rewrite Ht, Hd | done]|].
  intros o s2 u2 t (-> & -> & T). do 2 (split; [done|]). by exists [].
Qed.

(** The checks of an experiment do not keep it in its buffer: a fixed address is only
    looked at within its page, and the window of random addresses, which takes the place
    of the size of the buffer, is not compared with it. *)
Theorem area_unchecked total_size k :
  12 <= k < 63 -> 4 < total_size ->
  let args p p0 p1 p2 := Arguments 1 4 24 BANDWIDTH p D2H IGNORE p0 p1 p2 (Some default_file) in
  (expressible (args RAN (2 ^ (k - 12)) (2 ^ (k - 6)) (2 ^ k)) /\
   acceptable (args RAN (2 ^ (k - 12)) (2 ^ (k - 6)) (2 ^ k)) total_size DEFAULT_NUMBER_TLPS) /\
  ((exists j, 0 <= j /\ total_size = 2 ^ j) ->
   expressible (args FIX (2 ^ k) 0 0) /\
   acceptable (args FIX (2 ^ k) 0 0) total_size DEFAULT_NUMBER_TLPS).
Proof.
  intros Hk Ht args. unfold args, expressible, acceptable, pattern_ok, buffer_size,
    MAX_WINDOW_SIZE, MAX_DMA_DESCRIPTORS.
  cbn [a_niters a_nbytes a_wsize a_test a_pat a_dir a_cache a_prop0 a_prop1 a_prop2].
  assert (P : forall m, 0 <= m <= k -> 2 ^ k = 2 ^ m * 2 ^ (k - m))
    by (intros m Hm; rewrite <- Z.pow_add_r by lia; f_equal; lia).
  pose proof (P 12 ltac:(lia)) as P12. pose proof (P 6 ltac:(lia)) as P6.
  assert (2 ^ k < 2 ^ 63) by (apply Z.pow_lt_mono_r; lia).
  assert (0 < 2 ^ (k - 12)) by (apply Z.pow_pos_nonneg; lia).
  change (2 ^ 12) with 4096 in P12. change (2 ^ 6) with 64 in P6.
  assert (D1 : 2 ^ (k - 6) = 2 ^ k / 64) by (rewrite P6, Z.mul_comm, Z.div_mul; lia).
  assert (D2 : 2 ^ (k - 12) = (2 ^ k + 4095) / 4096)
    by (rewrite P12; apply (Z.div_unique_pos _ _ _ 4095); lia).
  split; [split; [|split; [lia|]; split; [done|]; exists k; lia] | intros Hp; split].
  - repeat split; done || lia.
  - repeat split; done || lia.
  - split; [lia|]. split; [right | exact Hp].
    rewrite P12, (Z.mul_comm 4096), Z.div_mul, Z.div_add_l by lia. by rewrite Z.add_0_r.
Qed.

(** An iteration on a fresh slot of the list.  If the experiment fits it makes exactly
    two requests, the first with the descriptor of the experiment, and goes on, or,
    when the request has no bytes, which the arguments allow, divides by zero after
    the descriptor was sent; if it does not fit nothing is sent and the loop ends. *)
Theorem iteration_spec fname pmem total_size args n i dlist s (u : U) :
  fname <> 0 -> expressible args -> 0 <= total_size <= 2 ^ 63 -> a_nbytes args < 2 ^ 31 ->
  cache_ready args -> number_of_tlps (a_test args) (a_dir args) (a_nbytes args) = Some n ->
  arr_get dlist i = Some dd_zero ->
  let r := iteration 64 fname args pmem total_size i dlist s u in
  r_st r = s /\ iteration_result total_size args n i dlist (r_out r) (r_tr r).
Proof. intros Hf Ha Hs Hb Hc Hn Hi. by apply (wp_iteration fname pmem total_size args n). Qed.
End Experiments.

(** ** Witnesses *)

(** 512 bytes to and from a fixed address, three times. *)
Definition fixed_arguments : arguments :=
  Arguments 3 512 24 BANDWIDTH FIX BOTH WARM 4096 0 0 (Some "log.csv").
Definition latency_arguments : arguments :=
  Arguments 3 512 24 LATENCY FIX D2H IGNORE 0 0 0 (Some "log.csv").

Lemma fixed_acceptable : acceptable fixed_arguments (2 ^ 30) 262144.
Proof. split; [done|]. split; [by right|]. by exists 30. Qed.

Lemma warm_cache_spec_witness :
  calls stored (r_tr (warm_cache 4096 16 lib_init sys_init)) =
    map (warm_store 4096 16) (seqZ 0 64).
Proof. by apply (warm_cache_spec 4096 16 lib_init sys_init). Defined.

Lemma iteration_spec_witness :
  iteration_result (2 ^ 30) fixed_arguments 262144 0 [dd_zero]
    (r_out (iteration 64 1 fixed_arguments 4096 (2 ^ 30) 0 [dd_zero] open_lib sys_init))
    (r_tr (iteration 64 1 fixed_arguments 4096 (2 ^ 30) 0 [dd_zero] open_lib sys_init)).
Proof.
  apply (iteration_spec 1 4096 (2 ^ 30) fixed_arguments 262144 0 [dd_zero] open_lib sys_init);
    by vm_compute.
Defined.

Lemma fixed_expressible : expressible fixed_arguments.
Proof. by vm_compute. Qed.
Lemma latency_expressible : expressible latency_arguments.
Proof. by vm_compute. Qed.
Lemma size_1GB : u64 (1 * hp_size_of sys_init) = 2 ^ 30.
Proof. vm_compute. reflexivity. Qed.
Lemma size_2MB : u64 (1 * hp_size_of sys_2MB) = 2048.
Proof. vm_compute. reflexivity. Qed.
Lemma fixed_ready : cache_ready fixed_arguments.
Proof. by vm_compute. Qed.

Definition fixed_run (u : sys) : res ucall sys lib Z :=
  main 64 ("benchmark" :: command_line fixed_arguments "log.csv") lib_init u.

Lemma benchmark_requests_witness :
  let size := u64 (1 * hp_size_of sys_init) in
  let r := fixed_run sys_init in
  exists asked p id fd, Z.of_nat (length asked) = 3 /\
    run_of fixed_arguments sys_init None (session size fixed_arguments 262144 0 asked) p size id fd
      (r_out r) (r_tr r).
Proof.
  apply (benchmark_requests "benchmark" fixed_arguments "log.csv" 262144 lib_init sys_init
    fixed_expressible eq_refl ltac:(split; done) fixed_ready eq_refl).
  rewrite size_1GB. exact fixed_acceptable.
Defined.

(** More than a page of 2048 bytes. *)
Definition large_arguments : arguments := set_nbytes 4096 fixed_arguments.
Lemma large_expressible : expressible large_arguments.
Proof. by vm_compute. Qed.
Lemma large_ready : cache_ready large_arguments.
Proof. by vm_compute. Qed.

Lemma benchmark_refused_witness :
  let size := u64 (1 * hp_size_of sys_2MB) in
  let r := main 64 ("benchmark" :: command_line large_arguments "log.csv") lib_init sys_2MB in
  exists p id fd, run_of large_arguments sys_2MB None [] p size id fd (r_out r) (r_tr r).
Proof.
  apply (benchmark_refused "benchmark" large_arguments "log.csv" 262144 lib_init sys_2MB
    large_expressible eq_refl ltac:(done) large_ready eq_refl).
  rewrite size_2MB. by intros (H & _).
Defined.

Lemma benchmark_leaks_witness :
  let size := u64 (1 * hp_size_of sys_init) in
  let r := main 64 ("benchmark" :: command_line latency_arguments "log.csv") lib_init sys_init in
  exists p id fd, run_of latency_arguments sys_init (Some (-1)) [] p size id fd (r_out r) (r_tr r).
Proof.
  apply (benchmark_leaks "benchmark" latency_arguments "log.csv" lib_init sys_init
    latency_expressible eq_refl eq_refl eq_refl).
Defined.

Lemma area_unchecked_witness :
  acceptable (Arguments 1 4 24 BANDWIDTH RAN D2H IGNORE (2 ^ 20) (2 ^ 26) (2 ^ 32)
    (Some default_file)) (2 ^ 30) DEFAULT_NUMBER_TLPS.
Proof. apply (area_unchecked (2 ^ 30) 32); lia. Defined.
