(* ===== verification/EngineManager.v ===== *)
(** * The engine manager of the FPGA (FPGA/source/hdl/dma/dma_engine_manager.v)

    The registers of the DMA engine and the tables of descriptors, cycle by cycle: one
    [step] is a rising edge of the clock, in which every register takes the value its
    block computes from the values before the edge.  The inputs of a cycle are an
    access of the host, the end of an operation and the measurements that follow it
    (dma_rq_logic.v).  The memories are a core of the vendor, used through the class
    [Bram].  The reset is the one a program can cause through the common registers of
    dma_logic.v ([user_reset], [logic_step]).  The other registers of the file, from which
    nothing here depends, are in EngineReads.v: the acknowledgement, the pipeline of
    reads, the counters, and what the engine is shown. *)

From S2P Require Import Prelude.
From Stdlib Require Import ZArith Lia.
From stdpp Require Import base list gmap.
Local Open Scope Z_scope.

Definition C_ENGINE_TABLE_OFFSET : Z := 0x200.
Definition C_NUM_DESCRIPTORS : Z := 1024.
Definition C_NUM_ENGINES : Z := 2.                       (* dma_logic.v *)
Definition C_OFFSET_BETWEEN_ENGINES : Z := 0x4000.       (* dma_sriov_top.v *)
Definition C_DEFAULT_WINDOW_SIZE : Z := 24.              (* C_WINDOW_SIZE of pcie_controller.sv *)
Definition c_offset_between_descriptors : Z := 8.
Definition c_offset_engines_config : Z := 8.

(** ** Words written by bytes *)

Fixpoint lane_bytes (we : Z) (din old : list Z) : list Z :=
  match din, old with
  | d :: din', o :: old' => (if Z.odd we then d else o) :: lane_bytes (Z.div2 we) din' old'
  | _, _ => []
  end.

(** The 64-bit word [old] with the bytes of [din] that [we] enables. *)
Definition lanes (we din old : Z) : Z :=
  of_bytes (lane_bytes we (bytes_of 8 din) (bytes_of 8 old)).

(** The memory core: 1024 words of 64 bits with a write enable per byte. *)
Class Bram (R : Type) := {
  bram_read : R -> Z -> Z;
  bram_write : Z -> Z -> Z -> R -> R        (* address, write enable, data *)
}.

Class BramLaws (R : Type) `{Bram R} : Prop := {
  bram_read_write a we d r :
    bram_read (bram_write a we d r) a = lanes we d (bram_read r a);
  bram_read_other a a' we d r :
    a <> a' -> bram_read (bram_write a we d r) a' = bram_read r a';
  bram_read_fits a r : fits 64 (bram_read r a)
}.

(** ** The state *)

Record stats := Stats {
  st_latency : Z; st_req_time : Z; st_comp_time : Z; st_req_bytes : Z; st_comp_bytes : Z
}.

Record config := Config {
  capabilities_r : Z;
  address_mode_r : Z;
  last_index_descriptor_r : Z;
  window_size_r : Z;
  buffer_at_host_r : Z;
  address_gen_offset_r : Z;
  address_gen_incr_r : Z;
  number_tlps_r : Z
}.

(** The registers at the ports of the memories.  The write enables and the data of
    the three tables of the host are loaded together and are kept once. *)
Record port := Port {
  ena_size_r : bool; ena_address_r : bool; ena_control_r : bool; ena_time_r : bool;
  wea_r : Z; wea_time_r : Z;
  addra_size_r : Z; addra_address_r : Z; addra_control_r : Z;
  dina_r : Z;
  dina_stats_r : stats
}.

(** The eight memories of two equivalent tables. *)
Ltac eight E := destruct E as (?E1 & ?E2 & ?E3 & ?E4 & ?E5 & ?E6 & ?E7 & ?E8).
Ltac eightfold := split; [|split; [|split; [|split; [|split; [|split; [|split]]]]]]; cbn.

Section Manager.
Context {R : Type} `{Bram R}.

Record tables := Tables {
  mem_size : R; mem_address : R; mem_control : R;
  mem_time : R; mem_req_time : R; mem_comp_time : R; mem_req_bytes : R; mem_comp_bytes : R
}.

Record manager := Manager {
  enable_r : bool;
  stop_r : bool;
  cl_engine_stats_r : bool;
  active_index_descriptor_r : Z;
  m_config : config;
  m_port : port;
  m_tables : tables
}.

(** An access of the host: S_MEM_IFACE_ADDR, S_MEM_IFACE_DIN and S_MEM_IFACE_WE. *)
Record access := Access { x_addr : Z; x_din : Z; x_we : Z }.

Record input := Input {
  i_en : bool;                   (* S_MEM_IFACE_EN *)
  i_bus : access;
  i_end : bool;                  (* CONTROL_BYTE[3] *)
  i_update : bool;               (* UPDATE_LATENCY *)
  i_stats : stats
}.

(** ** The blocks *)

(** The macro CLOG2 (line 55) is a conditional without parentheses, so that the test of
    line 306 is [10], or [12 <= 8] in its last branch: it holds, and the index is written
    whole when the first byte is enabled. *)
Definition write_last_index (we din last : Z) : Z :=
  if Z.testbit we 0 then din mod C_NUM_DESCRIPTORS else last.

(** Lines 291 to 366: what an access does to the configuration. *)
Definition write_config (x : access) (c : config) : config :=
  let (caps, mode, last, window, buffer, off, incr, tlps) := c in
  let we := x_we x in
  let din := x_din x in
  if we =? 0 then c
  else if x_addr x =? C_ENGINE_TABLE_OFFSET then
    if Z.testbit we 0 then
      Config ((din / 4) mod 4) ((din / 16) mod 4) last window buffer off incr tlps
    else c
  else if x_addr x =? C_ENGINE_TABLE_OFFSET + 1 then
    Config caps mode (write_last_index we din last) window buffer off incr tlps
  else if x_addr x =? C_ENGINE_TABLE_OFFSET + 3 then
    Config caps mode last (lanes we din window) buffer off incr tlps
  else if x_addr x =? C_ENGINE_TABLE_OFFSET + 4 then
    Config caps mode last window (lanes we din buffer) off incr tlps
  else if x_addr x =? C_ENGINE_TABLE_OFFSET + 5 then
    Config caps mode last window buffer (lanes we din off) incr tlps
  else if x_addr x =? C_ENGINE_TABLE_OFFSET + 6 then
    Config caps mode last window buffer off (lanes we din incr) tlps
  else if x_addr x =? C_ENGINE_TABLE_OFFSET + 7 then
    Config caps mode last window buffer off incr (lanes we din tlps)
  else c.

(** Bits 0 and 1 of a write to the control word: the enable and, or-ed, what clears the
    statistics; [None] if the access is not one. *)
Definition write_control (x : access) : option (bool * bool) :=
  if (x_addr x =? C_ENGINE_TABLE_OFFSET) && Z.testbit (x_we x) 0
  then Some (Z.testbit (x_din x) 0, Z.testbit (x_din x) 1 || Z.testbit (x_din x) 0)
  else None.

Definition effective_addres (a : Z) : Z := u32 (a - C_ENGINE_TABLE_OFFSET - c_offset_engines_config).

(** The access is one to the tables, line 512. *)
Definition in_tables (x : access) : bool :=
  effective_addres (x_addr x) <=? c_offset_between_descriptors * C_NUM_DESCRIPTORS.

(** Lines 596 to 598: the index of a table, truncated to 10 bits. *)
Definition table_index (a k : Z) : Z :=
  (u32 (a - C_ENGINE_TABLE_OFFSET - c_offset_engines_config - k) / c_offset_between_descriptors)
    mod C_NUM_DESCRIPTORS.

(** Lines 495 to 605. *)
Definition next_port (i : input) (p : port) : port :=
  let x := i_bus i in
  let e := effective_addres (x_addr x) mod 8 in
  let latched es ea ec et we wt :=
    Port es ea ec et we wt (table_index (x_addr x) 1) (table_index (x_addr x) 0)
      (table_index (x_addr x) 2) (x_din x) (i_stats i) in
  if i_update i then latched false false false true (wea_r p) 255
  else if i_en i && in_tables x then
    latched (e =? 1) (e =? 0) (e =? 2) false (x_we x) 0
  else latched false false false false (wea_r p) (wea_time_r p).

(** The memories at the edge: lines 374 to 489.  The tables of measurements are
    addressed by the active descriptor itself. *)
Definition next_tables (active : Z) (p : port) (t : tables) : tables :=
  let w (e : bool) a we d r := if e then bram_write a we d r else r in
  let s := dina_stats_r p in
  let m := w (ena_time_r p) active (wea_time_r p) in
  Tables
    (w (ena_size_r p) (addra_size_r p) (wea_r p) (dina_r p) (mem_size t))
    (w (ena_address_r p) (addra_address_r p) (wea_r p) (dina_r p) (mem_address t))
    (w (ena_control_r p) (addra_control_r p) (wea_r p) (dina_r p) (mem_control t))
    (m (st_latency s) (mem_time t)) (m (st_req_time s) (mem_req_time t))
    (m (st_comp_time s) (mem_comp_time t)) (m (st_req_bytes s) (mem_req_bytes t))
    (m (st_comp_bytes s) (mem_comp_bytes t)).

Definition next_index (active : Z) : Z :=
  if active =? C_NUM_DESCRIPTORS - 1 then 0 else active + 1.

Definition next_active (i : input) (active : Z) : Z :=
  if i_end i then next_index active else active.

(** Lines 607 to 641, without the registers of the pipeline: the word the tables answer
    at an address.  The address and the control come from the side of the engine, so
    they are the ones of the active descriptor. *)
Definition table_read (active a : Z) (t : tables) : Z :=
  let e := effective_addres a mod 8 in
  let word k r := bram_read r (table_index a k) in
  if e =? 0 then bram_read (mem_address t) active
  else if e =? 1 then word 1 (mem_size t)
  else if e =? 2 then bram_read (mem_control t) active
  else if e =? 3 then word 3 (mem_time t)
  else if e =? 4 then word 4 (mem_req_time t)
  else if e =? 5 then word 5 (mem_comp_time t)
  else if e =? 6 then word 6 (mem_req_bytes t)
  else word 7 (mem_comp_bytes t).

(** A rising edge. *)
Definition step (i : input) (m : manager) : manager :=
  let control := if i_en i then write_control (i_bus i) else None in
  Manager
    (match control with
     | Some (e, _) => e
     | None => enable_r m && negb (stop_r m)
     end)
    (if cl_engine_stats_r m then false
     else i_end i && (active_index_descriptor_r m =? last_index_descriptor_r (m_config m)))
    (match control with Some (_, c) => c | None => false end)
    (next_active i (active_index_descriptor_r m))
    (if i_en i then write_config (i_bus i) (m_config m) else m_config m)
    (next_port i (m_port m))
    (next_tables (active_index_descriptor_r m) (m_port m) (m_tables m)).

Definition run (ins : list input) (m : manager) : manager := fold_left (fun m i => step i m) ins m.

(** *** The reset

    The values the blocks take when RST_N is low; the memories have no reset. *)
Definition stats_zero : stats := Stats 0 0 0 0 0.
Definition config_reset : config := Config 2 0 0 C_DEFAULT_WINDOW_SIZE 0 0 0 0.
Definition at_reset (t : tables) : manager :=
  Manager false false false 0 config_reset
    (Port false false false false 0 0 0 0 0 0 stats_zero) t.

(** dma_logic.v, lines 464 to 482: the access that raises user_reset_r. *)
Definition user_reset (x : access) : bool :=
  (x_addr x =? C_ENGINE_TABLE_OFFSET + C_NUM_ENGINES * C_OFFSET_BETWEEN_ENGINES) &&
  Z.testbit (x_we x) 0 && Z.testbit (x_din x) 7.

(** A rising edge with dma_logic.v around: user_reset_r, once up, resets every block at
    once, itself included (line 160). *)
Definition logic_step (i : input) (m : manager) : manager :=
  let m' := step i m in
  if i_en i && user_reset (i_bus i) then at_reset (m_tables m') else m'.


(** ** Accesses one at a time

    What a cycle leaves in the registers at the ports reaches the memories in the next
    one, and an operation that ended disables the engine in the next one.  [settled] is
    the state with both done; on it, each access has its whole effect at once. *)

Record device := Device {
  v_enable : bool;
  v_active : Z;
  v_config : config;
  v_tables : tables
}.

Definition settled (m : manager) : device :=
  Device (enable_r m && negb (stop_r m)) (active_index_descriptor_r m) (m_config m)
    (next_tables (active_index_descriptor_r m) (m_port m) (m_tables m)).

(** The word an access to the tables stores. *)
Definition table_write (x : access) (t : tables) : tables :=
  if in_tables x then
    let e := effective_addres (x_addr x) mod 8 in
    let w (b : bool) k r := if b then bram_write (table_index (x_addr x) k) (x_we x) (x_din x) r else r in
    Tables (w (e =? 1) 1 (mem_size t)) (w (e =? 0) 0 (mem_address t)) (w (e =? 2) 2 (mem_control t))
      (mem_time t) (mem_req_time t) (mem_comp_time t) (mem_req_bytes t) (mem_comp_bytes t)
  else t.

(** The words the engine takes its next operation from: DESCRIPTOR_ADDR, DESCRIPTOR_SIZE. *)
Definition current_entry (d : device) : Z * Z :=
  (bram_read (mem_address (v_tables d)) (v_active d), bram_read (mem_size (v_tables d)) (v_active d)).

(** What the operation that ends does. *)
Definition end_operation (d : device) : device :=
  Device (v_enable d && negb (v_active d =? last_index_descriptor_r (v_config d)))
    (next_index (v_active d)) (v_config d) (v_tables d).

Definition store_stats (s : stats) (d : device) : device :=
  let t := v_tables d in
  let w := bram_write (v_active d) 255 in
  Device (v_enable d) (v_active d) (v_config d)
    (Tables (mem_size t) (mem_address t) (mem_control t)
      (w (st_latency s) (mem_time t)) (w (st_req_time s) (mem_req_time t))
      (w (st_comp_time s) (mem_comp_time t)) (w (st_req_bytes s) (mem_req_bytes t))
      (w (st_comp_bytes s) (mem_comp_bytes t))).

Definition finish (s : stats) (d : device) : device := store_stats s (end_operation d).

Definition apply_access (x : access) (d : device) : device :=
  Device (match write_control x with Some (e, _) => e | None => v_enable d end)
    (v_active d) (write_config x (v_config d)) (table_write x (v_tables d)).

(** The device after the reset: its memories stay. *)
Definition device_reset (d : device) : device := Device false 0 config_reset (v_tables d).

(** What an access does to the device, with the reset. *)
Definition logic_access (x : access) (d : device) : device :=
  if user_reset x then device_reset d else apply_access x d.

(** No operation ends in these cycles. *)
Definition calm (i : input) : Prop := i_end i = false /\ i_update i = false.

Definition access_of (i : input) : option access := if i_en i then Some (i_bus i) else None.

Lemma tables_eta (t : tables) :
  Tables (mem_size t) (mem_address t) (mem_control t) (mem_time t) (mem_req_time t)
    (mem_comp_time t) (mem_req_bytes t) (mem_comp_bytes t) = t.
Proof. by destruct t. Qed.

(** The ports pass on the access of the cycle before. *)
Lemma port_access i a p t :
  i_update i = false ->
  next_tables a (next_port i p) t =
    match access_of i with Some x => table_write x t | None => t end.
Proof.
  intros Hu. unfold next_port, access_of, table_write. rewrite Hu.
  destruct (i_en i), (in_tables (i_bus i)); try by destruct t.
Qed.

Lemma step_calm i m :
  calm i ->
  settled (step i m) =
    match access_of i with Some x => apply_access x (settled m) | None => settled m end.
Proof.
  intros [He Hu]. unfold settled, step, next_active. rewrite He.
  cbn [enable_r stop_r active_index_descriptor_r m_config m_port m_tables cl_engine_stats_r].
  rewrite port_access by done.
  assert (S : (if cl_engine_stats_r m then false else false) = false)
    by (by destruct (cl_engine_stats_r m)).
  cbn [andb]. rewrite S, andb_true_r. unfold access_of. by destruct (i_en i).
Qed.

Lemma settled_reset t : settled (at_reset t) = Device false 0 config_reset t.
Proof. by destruct t. Qed.

(** The reset wins over everything else of its cycle; other cycles are those of the
    manager alone. *)
Theorem logic_step_spec i m :
  (forall x, access_of i = Some x -> user_reset x = true ->
    settled (logic_step i m) = device_reset (settled m)) /\
  (calm i -> settled (logic_step i m) =
    match access_of i with Some x => logic_access x (settled m) | None => settled m end).
Proof.
  assert (Hr : forall x, access_of i = Some x -> user_reset x = true ->
    settled (logic_step i m) = device_reset (settled m)).
  { unfold access_of, logic_step. destruct (i_en i); [|done]. intros x [= <-] ->. cbn [andb].
    by rewrite settled_reset. }
  split; [exact Hr|]. intros Hc. specialize (Hr (i_bus i)). pose proof (step_calm i m Hc) as S.
  unfold access_of, logic_step, logic_access in *. destruct (i_en i); cbn [andb]; [|exact S].
  destruct (user_reset (i_bus i)); [by apply Hr | exact S].
Qed.

(** ** Devices that answer alike *)

Definition same_words (r r' : R) : Prop := forall a, bram_read r a = bram_read r' a.

#[export] Instance tables_equiv : Equiv tables := fun t t' =>
  same_words (mem_size t) (mem_size t') /\ same_words (mem_address t) (mem_address t') /\
  same_words (mem_control t) (mem_control t') /\ same_words (mem_time t) (mem_time t') /\
  same_words (mem_req_time t) (mem_req_time t') /\ same_words (mem_comp_time t) (mem_comp_time t') /\
  same_words (mem_req_bytes t) (mem_req_bytes t') /\ same_words (mem_comp_bytes t) (mem_comp_bytes t').

#[export] Instance device_equiv : Equiv device := fun d d' =>
  v_enable d = v_enable d' /\ v_active d = v_active d' /\ v_config d = v_config d' /\
  v_tables d ≡ v_tables d'.

#[export] Instance same_words_equivalence : Equivalence same_words.
Proof. split; [by intros r a | by intros r r' E a | intros r r' r'' E E' a; by rewrite E]. Qed.

#[export] Instance tables_equivalence : Equivalence (≡@{tables}).
Proof.
  unfold equiv, tables_equiv. split; red.
  - intros t. by eightfold.
  - intros t t' E. eight E. by eightfold; symmetry.
  - intros t t' t'' E E'. eight E. eight E'. eightfold; by etransitivity.
Qed.

#[export] Instance device_equivalence : Equivalence (≡@{device}).
Proof.
  unfold equiv, device_equiv. split; red.
  - done.
  - intros d d' (? & ? & ? & ?). by split_and!; symmetry.
  - intros d d' d'' (? & ? & ? & ?) (? & ? & ? & ?). split_and!; by etransitivity.
Qed.

Section Laws.
Context `{!BramLaws R}.

#[export] Instance bram_write_proper a we x : Proper (same_words ==> same_words) (bram_write a we x).
Proof.
  intros r r' E b. destruct (decide (a = b)) as [<-|].
  - by rewrite !bram_read_write, (E a).
  - by rewrite !bram_read_other.
Qed.

Lemma bram_write_nothing a x r : same_words (bram_write a 0 x r) r.
Proof.
  intros b. destruct (decide (a = b)) as [<-|]; [|by rewrite bram_read_other].
  rewrite bram_read_write. transitivity (of_bytes (bytes_of 8 (bram_read r a))); [reflexivity|].
  apply of_bytes_of_8, bram_read_fits.
Qed.

Lemma store_stats_proper s : Proper ((≡) ==> (≡)) (store_stats s).
Proof.
  intros d d' (? & Ea & ? & E). unfold store_stats, equiv, device_equiv; cbn. rewrite Ea.
  eight E. split_and!; try done. eightfold; try done; by apply bram_write_proper.
Qed.

Lemma end_operation_proper : Proper ((≡) ==> (≡)) end_operation.
Proof.
  intros d d' (Ee & Ea & Ec & E). unfold end_operation, equiv, device_equiv; cbn.
  by rewrite Ee, Ea, Ec.
Qed.

Lemma table_write_proper x : Proper ((≡) ==> (≡)) (table_write x).
Proof.
  intros t t' E. unfold table_write. destruct (in_tables x); [|done].
  eight E. eightfold; try done; case_match; try done; by apply bram_write_proper.
Qed.

Lemma apply_access_proper x : Proper ((≡) ==> (≡)) (apply_access x).
Proof.
  intros d d' (Ee & Ea & Ec & E). unfold apply_access, equiv, device_equiv; cbn.
  rewrite Ee, Ea, Ec. split_and!; [done..|]. by apply table_write_proper.
Qed.

(** A read changes nothing. *)
Lemma apply_read x d : x_we x = 0 -> apply_access x d ≡ d.
Proof.
  intros Hx. unfold apply_access, write_control, write_config, table_write. rewrite Hx.
  rewrite andb_false_r. split; [done|]. split; [done|].
  split; [by cbn; destruct (v_config d)|]. cbn [v_tables]. destruct (in_tables x); [|done].
  eightfold; try done; case_match; try done; apply bram_write_nothing.
Qed.

(** The accesses that are not reads. *)
Definition writes (ins : list input) : list access :=
  base.filter (fun x => x_we x <> 0) (omap access_of ins).

Definition apply_accesses (l : list access) (d : device) : device :=
  fold_left (fun d x => apply_access x d) l d.

#[export] Instance apply_accesses_proper l : Proper ((≡) ==> (≡)) (apply_accesses l).
Proof.
  unfold apply_accesses.
  induction l as [|x l IH]; intros d d' E; [done|]. cbn. by apply IH, apply_access_proper.
Qed.

(** The clock implements the accesses: in any number of cycles in which no operation
    ends, the writes of the host have their effect one after the other. *)
Lemma run_calm ins m :
  Forall calm ins -> settled (run ins m) ≡ apply_accesses (writes ins) (settled m).
Proof.
  revert m. induction ins as [|i ins IH]; intros m Hc; [done|].
  apply Forall_cons_1 in Hc as [Hi Hc]. cbn [run fold_left]. fold (run ins (step i m)).
  rewrite IH, step_calm by done. unfold writes. cbn [omap list_omap].
  destruct (access_of i) as [x|]; [|done]. rewrite filter_cons. case_decide as Hx; [done|].
  apply apply_accesses_proper, apply_read. lia.
Qed.

Definition no_write (i : input) : Prop := forall x, access_of i = Some x -> x_we x = 0.

Lemma step_end i m :
  i_end i = true -> i_update i = false -> no_write i -> cl_engine_stats_r m = false ->
  settled (step i m) ≡ end_operation (settled m).
Proof.
  intros He Hu Hw Hc. unfold settled, step, next_active. rewrite He, Hc.
  cbn [enable_r stop_r active_index_descriptor_r m_config m_port m_tables cl_engine_stats_r].
  rewrite port_access by done. unfold no_write, access_of in *.
  destruct (i_en i); [|by repeat split].
  pose proof (apply_read (i_bus i) (settled m) (Hw _ eq_refl)) as (E1 & _ & E2 & E3).
  unfold settled in *. cbn in E1, E2, E3.
  unfold write_control in *. rewrite (Hw _ eq_refl), andb_false_r in *.
  split; [done|]. split; [done|]. split; [done | exact E3].
Qed.

Lemma step_update i m :
  i_end i = false -> i_update i = true -> no_write i ->
  settled (step i m) ≡ store_stats (i_stats i) (settled m).
Proof.
  intros He Hu Hw. unfold settled, step, next_active, next_port. rewrite He, Hu.
  assert (S : (if cl_engine_stats_r m then false else false) = false)
    by (by destruct (cl_engine_stats_r m)).
  cbn. rewrite S. unfold no_write, access_of, write_control in *.
  destruct (i_en i); cbn; rewrite ?(Hw _ eq_refl), ?andb_false_r, ?andb_true_r; [|done].
  split; [done|]. split; [done|]. split; [|done]. cbn. unfold write_config.
  rewrite (Hw _ eq_refl). by destruct (m_config m).
Qed.

Lemma step_quiet_clear i m : no_write i -> cl_engine_stats_r (step i m) = false.
Proof.
  intros Hw. unfold step, write_control; cbn. unfold no_write, access_of in Hw.
  destruct (i_en i); [|done]. by rewrite (Hw _ eq_refl), andb_false_r.
Qed.
(** The cycles in which an operation ends, with measurements [st]: the engine
    (dma_rq_logic.v, lines 715 and 1222) has UPDATE_LATENCY in the cycle after the end
    of the operation.  The host writes [before] earlier and [after] later; at the end
    it does not write. *)
Inductive operation (before : list access) (st : stats) (after : list access) : list input -> Prop :=
| Operation pre q e u post :
    Forall calm pre -> writes pre = before ->
    calm q -> no_write q ->
    i_end e = true -> i_update e = false -> no_write e ->
    i_end u = false -> i_update u = true -> no_write u -> i_stats u = st ->
    Forall calm post -> writes post = after ->
    operation before st after (pre ++ q :: e :: u :: post).

(** C7.  The clocked device implements operations: whatever the host reads and
    whenever, the cycles of an operation take the device, up to what its memories
    answer, through the writes before it, the end of the operation (the next
    descriptor, and the engine disabled if that was the last one), the measurements,
    stored in the entry of the next descriptor, and the writes after it. *)
Theorem run_operation before st after ins m :
  operation before st after ins ->
  settled (run ins m) ≡
    apply_accesses after (finish st (apply_accesses before (settled m))).
Proof.
  intros [pre q e u post Hpre <- Hq Wq He1 He2 We Hu1 Hu2 Wu <- Hpost <-].
  unfold run. rewrite fold_left_app. cbn [fold_left]. fold (run pre m).
  change (settled (run post (step u (step e (step q (run pre m))))) ≡
    apply_accesses (writes post) (finish (i_stats u) (apply_accesses (writes pre) (settled m)))).
  rewrite run_calm by done. apply apply_accesses_proper.
  rewrite step_update by done. apply store_stats_proper.
  rewrite step_end by (done || by apply step_quiet_clear). apply end_operation_proper.
  rewrite <- (run_calm pre) by done. rewrite step_calm by done. unfold no_write in Wq.
  destruct (access_of q); [by apply apply_read, Wq | done].
Qed.
End Laws.
End Manager.

(** ** A memory *)

#[export] Instance gmap_bram : Bram (gmap Z Z) := {
  bram_read r a := u64 (default 0 (r !! a));
  bram_write a we x r := <[a := lanes we x (u64 (default 0 (r !! a)))]> r
}.

Lemma lane_bytes_byte we din old :
  Forall is_byte din -> Forall is_byte old -> Forall is_byte (lane_bytes we din old).
Proof.
  intros Hd. revert we old. induction Hd; intros we old Ho; [constructor|].
  destruct Ho; constructor; [by case_match | auto].
Qed.

Lemma lane_bytes_length we din old :
  length din = length old -> length (lane_bytes we din old) = length din.
Proof.
  revert we old. induction din; intros we [|o old] E; try done. cbn. f_equal. apply IHdin.
  by injection E.
Qed.

Lemma lanes_fits we din old : fits 64 (lanes we din old).
Proof.
  unfold lanes, fits. change (2 ^ 64) with (256 ^ Z.of_nat 8).
  pose proof (of_bytes_range (lane_bytes we (bytes_of 8 din) (bytes_of 8 old))
    (lane_bytes_byte _ _ _ (bytes_of_bytes _ _) (bytes_of_bytes _ _))) as Hr.
  rewrite lane_bytes_length, bytes_of_length in Hr by (by rewrite !bytes_of_length). exact Hr.
Qed.

#[export] Instance gmap_bram_laws : BramLaws (gmap Z Z).
Proof.
  split; intros; cbn [bram_read bram_write gmap_bram].
  - rewrite lookup_insert_eq. cbn [default]. apply wrap_id, lanes_fits.
  - by rewrite lookup_insert_ne.
  - by apply wrap_fits.
Qed.

(** The state after the reset, with memories that were loaded with zeros. *)
Definition reset : manager (R := gmap Z Z) := at_reset (Tables ∅ ∅ ∅ ∅ ∅ ∅ ∅ ∅).

Definition idle : input := Input false (Access 0 0 0) false false stats_zero.

(** The test of line 512 lets one word too many through, and the index wraps around: the
    address of a descriptor 1024 is the one of descriptor 0. *)
Example past_the_end_wraps :
  let x := Access (C_ENGINE_TABLE_OFFSET + c_offset_engines_config +
    c_offset_between_descriptors * C_NUM_DESCRIPTORS) 99 255 in
  bram_read (mem_address (table_write x (v_tables (settled reset)))) 0 = 99.
Proof. by vm_compute. Qed.

(** The write of restart.sh. *)
Lemma logic_step_spec_witness :
  settled (logic_step (Input true (Access 0x8200 255 15) false false stats_zero)
    (step (Input true (Access 512 1 1) false false stats_zero) reset)) = settled reset.
Proof.
  rewrite (proj1 (logic_step_spec (Input true (Access 0x8200 255 15) false false stats_zero) _) (Access 0x8200 255 15));
    by vm_compute.
Defined.

Lemma run_operation_witness :
  bram_read (mem_time (v_tables (settled
    (run [idle; Input true (Access 512 1 1) false false stats_zero; idle;
          Input false (Access 0 0 0) true false stats_zero;
          Input false (Access 0 0 0) false true (Stats 7 0 0 0 0)] reset)))) 1 = 7.
Proof.
  transitivity (bram_read (mem_time (v_tables
    (finish (Stats 7 0 0 0 0) (apply_accesses [Access 512 1 1] (settled reset))))) 1);
    [|vm_compute; reflexivity].
  assert (O : operation [Access 512 1 1] (Stats 7 0 0 0 0) []
    [idle; Input true (Access 512 1 1) false false stats_zero; idle;
      Input false (Access 0 0 0) true false stats_zero;
      Input false (Access 0 0 0) false true (Stats 7 0 0 0 0)]).
  { apply (Operation _ _ _ [idle; Input true (Access 512 1 1) false false stats_zero] idle
      (Input false (Access 0 0 0) true false stats_zero)
      (Input false (Access 0 0 0) false true (Stats 7 0 0 0 0)) []);
      try done; by repeat constructor. }
  destruct (run_operation _ _ _ _ reset O) as (_ & _ & _ & E).
  destruct E as (_ & _ & _ & E & _). apply (E 1).
Defined.
