(* ===== verification/EngineReads.v ===== *)
(** * What the engine manager answers (dma_engine_manager.v, the rest)

    EngineManager.v has the registers that decide what the device does.  Here are the
    others of the same file: the acknowledgement of an access, the counters and status
    bits, the ports of the memories that are read, the pipeline that brings a word to
    S_MEM_IFACE_DOUT, and what the engine is shown of its descriptor.  The clock takes
    both parts on together ([full_step]). *)

From S2P Require Import Prelude EngineManager.
From Stdlib Require Import ZArith Lia.
From stdpp Require Import base list gmap.
Local Open Scope Z_scope.

(** The port B of the memory core: what it reads of an address, when the other port
    writes that address at the same time or not.  In the first case the core promises
    nothing. *)
Class BramPort (R : Type) `{Bram R} := { port_b : bool -> Z -> R -> Z }.

Class BramPortLaws (R : Type) `{BramPort R} : Prop := {
  port_b_quiet a r : port_b false a r = bram_read r a
}.

(** ** The registers *)

(** Lines 119 to 133. *)
Record acks := Acks {
  mem_ack_pending_pipe_1_r : bool;
  mem_ack_pending_pipe_2_r : bool;
  mem_ack_pending_pipe_3_r : bool;
  S_MEM_IFACE_ACK : bool
}.

(** Lines 139 to 146. *)
Record counters := Counters {
  reset_r : bool; running_r : bool; error_r : bool; time_r : Z; byte_count_r : Z
}.

(** A port B, which has an output register (create_project_vc709.tcl, line 66). *)
Record dual := Dual { dual_latch : Z; dual_dout : Z }.

(** The outputs of the memories, and the registers with the addresses of the five tables
    of measurements. *)
Record outputs := Outputs {
  addra_stats_r : stats;
  douta_size_s : Z;
  b_size : dual; b_address : dual; b_control : dual;
  b_time : dual; b_req_time : dual; b_comp_time : dual; b_req_bytes : dual; b_comp_bytes : dual
}.

Record answers := Answers {
  rdata_engine_r : Z; is_engine_read_r : bool; rdata_descriptor_r : Z
}.

(** What the engine sees: lines 228 to 266. *)
Record engine_side := EngineSide {
  DESCRIPTOR_ADDR : Z; DESCRIPTOR_SIZE : Z; WINDOW_SIZE : Z; VALID_ENGINE : bool;
  active_index_descriptor_pipe_r : Z
}.

Section Reads.
Context {R : Type} `{BramPort R}.

Record full := Full {
  f_manager : manager (R := R);
  f_acks : acks;
  f_counters : counters;
  f_outputs : outputs;
  f_answers : answers;
  f_engine : engine_side
}.

(** The inputs of a cycle: those of EngineManager.v, CONTROL_BYTE[4] and BYTE_COUNT. *)
Record wires := Wires { w_input : input; w_error : bool; w_byte_count : Z }.

(** ** The blocks *)

Definition next_acks (en : bool) (a : acks) : acks :=
  Acks en (mem_ack_pending_pipe_1_r a) (mem_ack_pending_pipe_2_r a) (mem_ack_pending_pipe_3_r a).

(** Lines 287, 301 and 675 to 709; of two assignments to running_r the later one counts. *)
Definition next_counters (w : wires) (m : manager (R := R)) (c : counters) : counters :=
  let i := w_input w in
  let x := i_bus i in
  let running := enable_r m && negb (stop_r m) in
  Counters
    (i_en i && (x_addr x =? C_ENGINE_TABLE_OFFSET) && Z.testbit (x_we x) 0 && Z.testbit (x_din x) 1)
    running
    (if cl_engine_stats_r m then false else w_error w)
    (if cl_engine_stats_r m then 0 else if running then u64 (time_r c + 1) else time_r c)
    (if cl_engine_stats_r m then 0
     else if running then u64 (byte_count_r c + w_byte_count w) else byte_count_r c).

(** The port A of a memory writes at the edge. *)
Definition writing (ena : bool) (we : Z) : bool := ena && negb (we =? 0).

Definition dual_next (clash : bool) (a : Z) (r : R) (d : dual) : dual :=
  Dual (port_b clash a r) (dual_latch d).

(** Lines 374 to 489 and 596 to 603, on the side of the outputs.  The memories answer
    at port A with what was just written, and keep their answer while not enabled. *)
Definition next_outputs (i : input) (m : manager (R := R)) (o : outputs) : outputs :=
  let active := active_index_descriptor_r m in
  let p := m_port m in
  let t := m_tables m in
  let idx := table_index (x_addr (i_bus i)) in
  let host ena addra := writing ena (wea_r p) && (addra =? active) in
  let meas addrb := writing (ena_time_r p) (wea_time_r p) && (addrb =? active) in
  let a := addra_stats_r o in
  let of_stats addrb := dual_next (meas addrb) addrb in
  Outputs
    (Stats (idx 3) (idx 4) (idx 5) (idx 6) (idx 7))
    (if ena_size_r p then bram_read (mem_size (next_tables active p t)) (addra_size_r p)
     else douta_size_s o)
    (dual_next (host (ena_size_r p) (addra_size_r p)) active (mem_size t) (b_size o))
    (dual_next (host (ena_address_r p) (addra_address_r p)) active (mem_address t) (b_address o))
    (dual_next (host (ena_control_r p) (addra_control_r p)) active (mem_control t) (b_control o))
    (of_stats (st_latency a) (mem_time t) (b_time o))
    (of_stats (st_req_time a) (mem_req_time t) (b_req_time o))
    (of_stats (st_comp_time a) (mem_comp_time t) (b_comp_time o))
    (of_stats (st_req_bytes a) (mem_req_bytes t) (b_req_bytes o))
    (of_stats (st_comp_bytes a) (mem_comp_bytes t) (b_comp_bytes o)).

(** Lines 649 to 661. *)
Definition engine_word (m : manager (R := R)) (c : counters) (a : Z) : Z :=
  if a =? C_ENGINE_TABLE_OFFSET then
    Z.b2z (enable_r m) + 2 * Z.b2z (reset_r c) + 4 * Z.b2z (running_r c) + 8 * Z.b2z (stop_r m) +
    16 * Z.b2z (error_r c) + 32 * capabilities_r (m_config m)
  else if a =? C_ENGINE_TABLE_OFFSET + 1 then
    last_index_descriptor_r (m_config m) + C_NUM_DESCRIPTORS * active_index_descriptor_r m
  else if a =? C_ENGINE_TABLE_OFFSET + 2 then time_r c
  else if a =? C_ENGINE_TABLE_OFFSET + 3 then byte_count_r c
  else 0.

Definition is_engine_word (a : Z) : bool :=
  (C_ENGINE_TABLE_OFFSET <=? a) && (a <=? C_ENGINE_TABLE_OFFSET + 3).

(** Lines 611 to 636. *)
Definition rdata_word (o : outputs) (a : Z) : Z :=
  let e := effective_addres a mod 8 in
  if e =? 0 then dual_dout (b_address o)
  else if e =? 1 then douta_size_s o
  else if e =? 2 then dual_dout (b_control o)
  else if e =? 3 then dual_dout (b_time o)
  else if e =? 4 then dual_dout (b_req_time o)
  else if e =? 5 then dual_dout (b_comp_time o)
  else if e =? 6 then dual_dout (b_req_bytes o)
  else dual_dout (b_comp_bytes o).

Definition next_answers (i : input) (m : manager (R := R)) (c : counters) (o : outputs)
    (r : answers) : answers :=
  let a := x_addr (i_bus i) in
  Answers
    (if i_en i then engine_word m c a else rdata_engine_r r)
    (if i_en i then is_engine_word a else is_engine_read_r r)
    (rdata_word o a).

(** ACTIVE_ENGINE is 0 (dma_logic.v, line 178), and so is its copy. *)
Definition next_engine (i : input) (m : manager (R := R)) (o : outputs) (e : engine_side) : engine_side :=
  let active := active_index_descriptor_r m in
  EngineSide
    (dual_dout (b_address o)) (dual_dout (b_size o)) (window_size_r (m_config m))
    (if i_end i then negb (active =? last_index_descriptor_r (m_config m))
     else (active =? active_index_descriptor_pipe_r e) && enable_r m)
    active.

Definition full_step (w : wires) (f : full) : full :=
  let i := w_input w in
  let m := f_manager f in
  Full (step i m) (next_acks (i_en i) (f_acks f)) (next_counters w m (f_counters f))
    (next_outputs i m (f_outputs f))
    (next_answers i m (f_counters f) (f_outputs f) (f_answers f))
    (next_engine i m (f_outputs f) (f_engine f)).

(** Line 268. *)
Definition S_MEM_IFACE_DOUT (f : full) : Z :=
  let r := f_answers f in
  if is_engine_read_r r then rdata_engine_r r else rdata_descriptor_r r.

(** Line 221. *)
Definition STATUS_BYTE (f : full) : Z :=
  let m := f_manager f in
  let c := f_counters f in
  Z.b2z (enable_r m) + 2 * Z.b2z (reset_r c) + 4 * Z.b2z (running_r c) + 8 * Z.b2z (stop_r m) +
  16 * Z.b2z (error_r c) + 32 * capabilities_r (m_config m) + 128 * address_mode_r (m_config m).

(** The reset ([at_reset]); the memories and their outputs have none. *)
Definition full_reset (f : full) : full :=
  let o := f_outputs f in
  Full (at_reset (m_tables (f_manager f))) (Acks false false false false)
    (Counters false false false 0 0)
    (Outputs stats_zero (douta_size_s o) (b_size o) (b_address o) (b_control o) (b_time o)
      (b_req_time o) (b_comp_time o) (b_req_bytes o) (b_comp_bytes o))
    (Answers 0 false 0)
    (EngineSide 0 0 C_DEFAULT_WINDOW_SIZE false 0).

(** ** A read

    The request is one cycle of S_MEM_IFACE_EN; the address stays for three more. *)

(** The word at [a] of a device that is in state [m]. *)
Definition word_at (f : full) (a : Z) : Z :=
  let m := f_manager f in
  if is_engine_word a then engine_word m (f_counters f) a
  else table_read (active_index_descriptor_r m) a (v_tables (settled m)).

Definition reads_at (a : Z) (w : wires) : Prop :=
  i_en (w_input w) = true /\ x_addr (i_bus (w_input w)) = a /\ x_we (i_bus (w_input w)) = 0.

Definition holds_at (a : Z) (w : wires) : Prop :=
  i_en (w_input w) = false /\ x_addr (i_bus (w_input w)) = a.

Definition calm_wires (w : wires) : Prop := calm (w_input w).

(** The words the memories answer: the port of the size is enabled for these only. *)
Definition readable (a : Z) : Prop :=
  C_ENGINE_TABLE_OFFSET <= a <= C_ENGINE_TABLE_OFFSET + c_offset_engines_config +
    c_offset_between_descriptors * C_NUM_DESCRIPTORS.

Section Laws.
Context `{!BramLaws R, !BramPortLaws R}.

Lemma writing_0 ena : writing ena 0 = false.
Proof. apply andb_false_r. Qed.

(** What a calm cycle without a write leaves at the ports. *)
Lemma port_quiet i p :
  calm i -> no_write i ->
  let p' := next_port i p in
  writing (ena_size_r p') (wea_r p') = false /\ writing (ena_address_r p') (wea_r p') = false /\
  writing (ena_control_r p') (wea_r p') = false /\ ena_time_r p' = false.
Proof.
  intros [_ Hu] Hw. unfold next_port. rewrite Hu. unfold no_write, access_of in Hw.
  destruct (i_en i), (in_tables (i_bus i)); cbn;
    rewrite ?(Hw _ eq_refl), ?writing_0; by rewrite ?andb_false_r.
Qed.

(** An access to a register enables no port. *)
Lemma port_register i p :
  calm i -> in_tables (i_bus i) = false ->
  let p' := next_port i p in
  ena_address_r p' = false /\ ena_size_r p' = false /\ ena_control_r p' = false.
Proof. intros [_ Hu] Hi. unfold next_port. rewrite Hu, Hi, andb_false_r. done. Qed.

Lemma next_active_calm i a : calm i -> next_active i a = a.
Proof. intros [He _]. unfold next_active. by rewrite He. Qed.

Lemma calm_active i m : calm i -> active_index_descriptor_r (step i m) = active_index_descriptor_r m.
Proof. apply next_active_calm. Qed.

(** The memories of the next cycle are the ones the device already has. *)
Lemma tables_settled i m : m_tables (step i m) = v_tables (settled m).
Proof. done. Qed.

(** The seven words read at ports B, two cycles later. *)
Lemma dual_later c1 a1 r1 c2 a2 r2 d :
  c1 = false ->
  dual_dout (dual_next c2 a2 r2 (dual_next c1 a1 r1 d)) = bram_read r1 a1.
Proof. intros ->. apply port_b_quiet. Qed.

(** The size, read at port A when the port is enabled, and kept while it is not. *)
Lemma size_read i p a t o :
  calm i -> no_write i -> i_en i = true -> in_tables (i_bus i) = true ->
  effective_addres (x_addr (i_bus i)) mod 8 = 1 ->
  let p' := next_port i p in
  (if ena_size_r p' then bram_read (mem_size (next_tables a p' t)) (addra_size_r p') else o) =
    bram_read (mem_size t) (table_index (x_addr (i_bus i)) 1).
Proof.
  intros [_ Hu] Hw He Hi E. unfold next_port. rewrite Hu, He, Hi, E. cbn.
  rewrite (Hw (i_bus i)) by (unfold access_of; by rewrite He). apply bram_write_nothing.
Qed.

Lemma size_kept i p a t (o : Z) :
  i_en i = false -> i_update i = false ->
  let p' := next_port i p in
  (if ena_size_r p' then bram_read (mem_size (next_tables a p' t)) (addra_size_r p') else o) = o.
Proof. intros He Hu. unfold next_port. by rewrite Hu, He. Qed.

Lemma size_in_tables a :
  readable a -> is_engine_word a = false -> effective_addres a mod 8 = 1 ->
  (effective_addres a <=? c_offset_between_descriptors * C_NUM_DESCRIPTORS) = true.
Proof.
  unfold readable, is_engine_word, effective_addres, C_ENGINE_TABLE_OFFSET, c_offset_engines_config,
    c_offset_between_descriptors, C_NUM_DESCRIPTORS.
  intros Ha Hn He. apply Z.leb_le. destruct (decide (a < 520)) as [Hl | Hl].
  - assert (a = 516 \/ a = 517 \/ a = 518 \/ a = 519) as [-> | [-> | [-> | ->]]]
      by (apply andb_false_iff in Hn as [Hn | Hn]; bools; lia); done.
  - rewrite wrap_id in * by (unfold fits; lia). lia.
Qed.

Ltac reads_eval :=
  cbn [full_step f_outputs f_manager f_acks f_counters f_answers next_outputs dual_next dual_dout
    dual_latch b_address b_control b_time b_req_time b_comp_time b_req_bytes b_comp_bytes
    douta_size_s addra_stats_r st_latency st_req_time st_comp_time st_req_bytes st_comp_bytes].

(** The word of the tables is at the outputs of the memories two cycles after the
    request. *)
Lemma tables_read a w0 w1 w2 f :
  readable a -> is_engine_word a = false ->
  reads_at a w0 -> holds_at a w1 -> calm_wires w0 -> calm_wires w1 ->
  rdata_word (f_outputs (full_step w2 (full_step w1 (full_step w0 f)))) a =
    table_read (active_index_descriptor_r (f_manager f)) a (v_tables (settled (f_manager f))).
Proof.
  intros Ha Hn (E0 & A0 & W0) (E1 & A1) C0 C1. unfold calm_wires in *.
  assert (N : no_write (w_input w0)) by (intros x; unfold access_of; rewrite E0; by intros [= <-]).
  pose proof (port_quiet (w_input w0) (m_port (f_manager f)) C0 N) as (P1 & P2 & P3 & P4).
  pose proof (size_in_tables a Ha Hn) as T.
  unfold rdata_word, table_read. reads_eval.
  rewrite !calm_active by done. cbn [m_port m_tables step]. rewrite P2, P3, P4, A0.
  cbn [writing andb]. rewrite !port_b_quiet.
  destruct (effective_addres a mod 8 =? 0); [done|].
  destruct (Z.eqb_spec (effective_addres a mod 8) 1) as [E|]; [|done].
  rewrite size_kept by (done || apply C1). rewrite size_read by (unfold in_tables; rewrite ?A0; auto).
  by rewrite A0.
Qed.

(** An access that is a read is acknowledged in the fourth cycle after it, and the word
    is at the outputs of the manager in that cycle. *)
Lemma read_answered a w0 w1 w2 w3 f :
  readable a -> reads_at a w0 -> holds_at a w1 -> holds_at a w2 -> holds_at a w3 ->
  calm_wires w0 -> calm_wires w1 ->
  let f' := full_step w3 (full_step w2 (full_step w1 (full_step w0 f))) in
  S_MEM_IFACE_ACK (f_acks f') = true /\ S_MEM_IFACE_DOUT f' = word_at f a.
Proof.
  intros Ha H0' H1' (E2 & A2) (E3 & A3) C0 C1. cbv zeta.
  pose proof H0' as (E0 & A0 & _). pose proof H1' as (E1 & A1).
  split; [by cbn; rewrite E0|]. unfold word_at, S_MEM_IFACE_DOUT.
  change (f_answers (full_step w3 ?g)) with
    (next_answers (w_input w3) (f_manager g) (f_counters g) (f_outputs g) (f_answers g)).
  unfold next_answers at 1 2 3. cbn [is_engine_read_r rdata_engine_r rdata_descriptor_r].
  rewrite E3, A3. cbn [full_step f_answers next_answers is_engine_read_r rdata_engine_r].
  rewrite E2, E1, E0, A0. destruct (is_engine_word a) eqn:Hn; [done|].
  by apply tables_read.
Qed.

(** ** What the engine is shown when it starts

    The last store before the start is one to a register (complete_until_descriptor,
    nfpdma.c), and there is a cycle between two stores (Completer.v). *)
Record start_cycles (w0 w1 w2 w3 : wires) : Prop := {
  sc_calm : Forall calm_wires [w0; w1; w2; w3];
  sc_en : i_en <$> (w_input <$> [w0; w1; w2; w3]) = [true; false; true; false];
  sc_register : in_tables (i_bus (w_input w0)) = false;
  sc_stopped : write_control (i_bus (w_input w0)) = None;
  sc_start : exists c, write_control (i_bus (w_input w2)) = Some (true, c)
}.

(** C19.  The start is seen by the engine two cycles later and not before, and in that cycle
    it is shown the entry of the active descriptor and the window. *)
Theorem start_shows_descriptor w0 w1 w2 w3 f :
  start_cycles w0 w1 w2 w3 -> enable_r (f_manager f) = false ->
  let f1 := full_step w0 f in
  let f2 := full_step w1 f1 in
  let f3 := full_step w2 f2 in
  let f4 := full_step w3 f3 in
  (VALID_ENGINE (f_engine f1), VALID_ENGINE (f_engine f2), VALID_ENGINE (f_engine f3),
    VALID_ENGINE (f_engine f4)) = (false, false, false, true) /\
  (DESCRIPTOR_ADDR (f_engine f4), DESCRIPTOR_SIZE (f_engine f4)) =
    current_entry (settled (f_manager f)) /\
  WINDOW_SIZE (f_engine f4) = window_size_r (v_config (settled (f_manager f3))).
Proof.
  intros [C En T W [c S]] He. cbv zeta.
  apply Forall_cons in C as [C0 C]. apply Forall_cons in C as [C1 C].
  apply Forall_cons in C as [C2 C]. apply Forall_cons in C as [C3 _].
  unfold calm_wires in *. injection En as E0 E1 E2 E3.
  split; [|split; [|done]].
  - cbn. rewrite !next_active_calm, He, E0, E1, E2, W, S, Z.eqb_refl by done.
    destruct C0 as [-> _], C1 as [-> _], C2 as [-> _], C3 as [-> _]. by rewrite !andb_false_r.
  - cbn. rewrite next_active_calm by done.
    destruct (port_register (w_input w0) (m_port (f_manager f)) C0 T) as (-> & -> & _).
    cbn [writing andb]. by rewrite !port_b_quiet.
Qed.
End Laws.
End Reads.

(** ** A manager *)

#[export] Instance gmap_port : BramPort (gmap Z Z) := {
  port_b clash a r := if clash then 0 else bram_read r a
}.

#[export] Instance gmap_port_laws : BramPortLaws (gmap Z Z).
Proof. by split. Qed.

(** After the reset, with memories that answered with zeros. *)
Definition full_after (t : tables (R := gmap Z Z)) : full :=
  let d := Dual 0 0 in
  full_reset (Full (at_reset t) (Acks false false false false) (Counters false false false 0 0)
    (Outputs stats_zero 0 d d d d d d d d) (Answers 0 false 0) (EngineSide 0 0 0 false 0)).

Definition access_wires (en : bool) (x : access) : wires :=
  Wires (Input en x false false stats_zero) false 0.

(** An address of 77, the last index, the start. *)
Lemma start_shows_descriptor_witness :
  let f := full_step (access_wires false (Access 0 0 0))
    (full_step (access_wires true (Access 520 77 255)) (full_after (Tables ∅ ∅ ∅ ∅ ∅ ∅ ∅ ∅))) in
  let f4 := full_step (access_wires false (Access 0 0 0)) (full_step (access_wires true (Access 512 1 15))
    (full_step (access_wires false (Access 0 0 0)) (full_step (access_wires true (Access 513 0 3)) f))) in
  (DESCRIPTOR_ADDR (f_engine f4), DESCRIPTOR_SIZE (f_engine f4)) = (77, 0).
Proof.
  intros f f4.
  destruct (start_shows_descriptor (access_wires true (Access 513 0 3))
    (access_wires false (Access 0 0 0)) (access_wires true (Access 512 1 15))
    (access_wires false (Access 0 0 0)) f) as (_ & E & _).
  - split; [by repeat constructor | done | done | done | by exists true].
  - by vm_compute.
  - unfold f4. rewrite E. by vm_compute.
Defined.
