(* ===== verification/AddressGen.v ===== *)
(** * Where the engine reads and writes (dma_rq_logic.v, lines 281 to 479)

    The addresses of the groups of requests of an operation: fixed, one after the other
    within a page, or at random within the buffer.  The blocks for writes and for reads
    are the same text on two sets of registers; here they are one [side], and what the
    state machine of the module has it do is an [advance].  Whatever the mode, the
    addresses stay in the buffer of the host ([buffer_kept], proved as an invariant that
    any state reaches once the configuration is held). *)

From S2P Require Import Prelude.
From Stdlib Require Import ZArith Lia.
From stdpp Require Import base list.
Local Open Scope Z_scope.

(** ** The registers *)

(** The inputs of the descriptor and of the registers of the engine. *)
Record placement := Placement {
  ADDR_AT_DESCRIPTOR : Z; SIZE_AT_DESCRIPTOR : Z; SIZE_AT_HOST : Z; ADDRESS_GEN_OFFSET : Z
}.

(** What reads and writes have in common. *)
Record dice := Dice {
  random_number_r : Z;
  random_number_modulus_r : Z;
  next_random_address_candidate_r : Z;
  next_random_address_candidate_plus_1_r : Z;
  size_at_descriptor_r : Z;
  clog_block_in_boundary_r : Z;
  block_in_boundary_r : Z;
  block_in_boundary_minus_1_r : Z
}.

(** The registers with [wr] or with [rd] in their names. *)
Record side := Side {
  tx_fix_addr_r : Z;
  initial_seq_page_r : Z;
  tx_seq_addr_r : Z;
  next_tx_seq_addr_r : Z;
  tx_rand_addr_r : Z;
  next_random_page_non_truncated_r : Z;
  next_offset_in_window_r : Z;
  next_random_address_non_truncated_r : Z;
  next_random_address_r : Z
}.

(** What the state machine has a side do: it starts an operation in this direction, it is
    idle, it has finished a group, or none of these. *)
Inductive advance := A_START | A_IDLE | A_NEXT | A_KEEP.

Definition dice_reset : dice := Dice 1 0 0 0 0 0 0 0.
Definition side_reset : side := Side 0 0 0 0 0 0 0 0 0.

(** ** The blocks *)

(** The macro CLOG2, which is the whole of an expression here. *)
Definition CLOG2 (x : Z) : Z :=
  if x <=? 2 then 1 else if x <=? 4 then 2 else if x <=? 8 then 3 else if x <=? 16 then 4
  else if x <=? 32 then 5 else if x <=? 64 then 6 else if x <=? 128 then 7 else if x <=? 256 then 8
  else if x <=? 512 then 9 else if x <=? 1024 then 10 else if x <=? 2048 then 11 else 12.

(** The bits of an address above its page, and the page itself. *)
Definition page_of (a : Z) : Z := a / 4096.
Definition page_base (a : Z) : Z := page_of a * 4096.

(** Lines 350 to 355 and 370 to 374. *)
Definition next_dice (c : placement) (d : dice) : dice :=
  let r := random_number_r d in
  Dice
    (2 * (r mod 2 ^ 30) + Z.b2z (xorb (Z.testbit r 30) (Z.testbit r 27)))
    (Z.land r (u64 (SIZE_AT_HOST c - 1)))
    (random_number_modulus_r d)
    (u64 (random_number_modulus_r d + 4096))
    (SIZE_AT_DESCRIPTOR c)
    (CLOG2 (size_at_descriptor_r d))
    (2 ^ clog_block_in_boundary_r d mod 2 ^ 12)
    ((2 ^ clog_block_in_boundary_r d - 1) mod 2 ^ 12).

(** Lines 358 and 359: the page of the candidate, or the one after it. *)
Definition random_page (d : dice) (last : Z) : Z :=
  if page_of (next_random_address_candidate_r d) =? page_of last
  then page_base (next_random_address_candidate_plus_1_r d)
  else page_base (next_random_address_candidate_r d).

(** Lines 376 and 377. *)
Definition random_offset (c : placement) (d : dice) : Z :=
  if SIZE_AT_DESCRIPTOR c =? 0 then 0
  else Z.ldiff (random_number_r d mod 2 ^ 12) (block_in_boundary_minus_1_r d).

(** Lines 383 to 427 and 429 to 465: the pair of the next group and the one after it. *)
Definition next_seq (v : advance) (c : placement) (s : side) : Z * Z :=
  let a := ADDR_AT_DESCRIPTOR c in
  let n := SIZE_AT_DESCRIPTOR c in
  match v with
  | A_START => (u64 (a + n), u64 (a + u64 (2 * n)))
  | A_IDLE => (a, u64 (a + n))
  | A_NEXT =>
      if page_of (u64 (next_tx_seq_addr_r s + n)) =? initial_seq_page_r s
      then (next_tx_seq_addr_r s, u64 (next_tx_seq_addr_r s + n))
      else (a, u64 (a + n))
  | A_KEEP => (tx_seq_addr_r s, next_tx_seq_addr_r s)
  end.

Definition next_rand (v : advance) (c : placement) (s : side) : Z :=
  match v with
  | A_KEEP => tx_rand_addr_r s
  | _ => u64 (ADDR_AT_DESCRIPTOR c + next_random_address_r s)
  end.

Definition next_initial_page (v : advance) (c : placement) (s : side) : Z :=
  match v with
  | A_START | A_IDLE => page_of (ADDR_AT_DESCRIPTOR c)
  | _ => initial_seq_page_r s
  end.

Definition next_side (v : advance) (c : placement) (d : dice) (s : side) : side :=
  Side
    (u64 (ADDR_AT_DESCRIPTOR c + ADDRESS_GEN_OFFSET c))
    (next_initial_page v c s)
    (next_seq v c s).1 (next_seq v c s).2
    (next_rand v c s)
    (random_page d (tx_rand_addr_r s))
    (random_offset c d)
    (page_base (next_random_page_non_truncated_r s) + next_offset_in_window_r s mod 2 ^ 12)
    (Z.land (next_random_address_non_truncated_r s) (u64 (SIZE_AT_HOST c - 1))).

(** Lines 472 to 479: tx_wr_addr_s and tx_rd_addr_s. *)
Definition tx_addr (address_mode_s : Z) (s : side) : Z :=
  if address_mode_s =? 0 then tx_fix_addr_r s
  else if address_mode_s =? 1 then tx_seq_addr_r s
  else tx_rand_addr_r s.

(** ** A held configuration *)

Section Held.
Context (c : placement).

Abbreviation ADDR := (ADDR_AT_DESCRIPTOR c).
Abbreviation SIZE := (SIZE_AT_DESCRIPTOR c).
Abbreviation HOST := (SIZE_AT_HOST c).

Definition addr_step (v : advance) (st : dice * side) : dice * side :=
  (next_dice c st.1, next_side v c st.1 st.2).

Definition addr_run (vs : list advance) (st : dice * side) : dice * side :=
  fold_left (fun st v => addr_step v st) vs st.

(** A group at [a] lies within the buffer. *)
Definition in_buffer (a : Z) : Prop := ADDR <= a /\ a + SIZE <= ADDR + HOST.

(** What the modes need: a buffer of a power of two of bytes, a page at least, with a
    group in a page; room for two groups in the sequential mode, whose second group takes
    its place unchecked; and room for the offset in the fixed one. *)
Record roomy (address_mode_s : Z) : Prop := {
  room_addr : 0 <= ADDR /\ ADDR + HOST < 2 ^ 63;
  room_size : 0 <= SIZE <= 4096;
  room_host : exists k, 12 <= k < 64 /\ HOST = 2 ^ k;
  room_fix : address_mode_s = 0 -> 0 <= ADDRESS_GEN_OFFSET c /\ ADDRESS_GEN_OFFSET c + SIZE <= HOST;
  room_seq : address_mode_s = 1 -> 2 * SIZE <= HOST
}.

(** The stages that the registers pass, one edge after the other. *)
Definition dice_size (st : dice * side) : Prop := size_at_descriptor_r st.1 = SIZE.
Definition dice_clog (st : dice * side) : Prop := clog_block_in_boundary_r st.1 = CLOG2 SIZE.
Definition dice_block (st : dice * side) : Prop :=
  block_in_boundary_minus_1_r st.1 = (2 ^ CLOG2 SIZE - 1) mod 2 ^ 12.
Definition offset_ok (st : dice * side) : Prop :=
  0 <= next_offset_in_window_r st.2 /\ next_offset_in_window_r st.2 + SIZE <= 4096.
Definition whole_ok (st : dice * side) : Prop :=
  next_random_address_non_truncated_r st.2 mod 4096 + SIZE <= 4096.
Definition random_ok (st : dice * side) : Prop :=
  0 <= next_random_address_r st.2 /\ next_random_address_r st.2 + SIZE <= HOST.
Definition rand_ok (st : dice * side) : Prop := in_buffer (tx_rand_addr_r st.2).

(** The sequential addresses: the first group, the second, or one in the first page. *)
Definition seq_ok (st : dice * side) : Prop :=
  let s := st.2 in
  initial_seq_page_r s = page_of ADDR /\ ADDR <= tx_seq_addr_r s /\
  next_tx_seq_addr_r s = tx_seq_addr_r s + SIZE /\
  (tx_seq_addr_r s <= ADDR + SIZE \/ page_of (tx_seq_addr_r s + SIZE) = page_of ADDR).

Lemma CLOG2_range x : 1 <= CLOG2 x <= 12.
Proof. unfold CLOG2. repeat case_match; lia. Qed.

Lemma CLOG2_covers x : x <= 4096 -> x <= 2 ^ CLOG2 x.
Proof. intros Hx. unfold CLOG2. repeat (case_match; [lia|]). lia. Qed.

(** The offset of a block within its page leaves room for the group. *)
Lemma block_offset r n : 0 <= n <= 4096 ->
  let o := Z.ldiff (r mod 2 ^ 12) ((2 ^ CLOG2 n - 1) mod 2 ^ 12) in 0 <= o /\ o + n <= 4096.
Proof.
  intros Hn. cbv zeta. pose proof (CLOG2_range n) as Hc. pose proof (CLOG2_covers n ltac:(lia)) as Hl.
  set (k := CLOG2 n) in *. pose proof (Z.pow_le_mono_r 2 k 12 ltac:(lia) ltac:(lia)) as Hk.
  pose proof (Z.pow_pos_nonneg 2 k ltac:(lia) ltac:(lia)) as Hp.
  rewrite (Z.mod_small (2 ^ k - 1)) by lia.
  replace (2 ^ k - 1) with (Z.ones k) by (rewrite Z.ones_equiv; lia).
  rewrite Z.ldiff_ones_r, Z.shiftl_mul_pow2, Z.shiftr_div_pow2 by lia.
  pose proof (Z.mod_pos_bound r (2 ^ 12) ltac:(lia)) as Hr. set (x := r mod 2 ^ 12) in *.
  assert (x / 2 ^ k < 2 ^ (12 - k)) as Hq.
  { apply Z.div_lt_upper_bound; [lia|]. rewrite <- Z.pow_add_r by lia. replace (k + (12 - k)) with 12 by lia. lia. }
  pose proof (Z.div_pos x (2 ^ k) ltac:(lia) ltac:(lia)) as H0.
  assert (2 ^ 12 = 2 ^ (12 - k) * 2 ^ k) as He.
  { rewrite <- Z.pow_add_r by lia. by replace (12 - k + k) with 12 by lia. }
  change (2 ^ 12) with 4096 in *. nia.
Qed.

(** The mask of the buffer keeps the place in the page. *)
Lemma mask_in_buffer x k n : 12 <= k -> x mod 4096 + n <= 4096 -> x mod 2 ^ k + n <= 2 ^ k.
Proof.
  intros Hk Hx. assert (2 ^ k = 2 ^ (k - 12) * 4096) as He.
  { change 4096 with (2 ^ 12). rewrite <- Z.pow_add_r by lia. f_equal. lia. }
  pose proof (Z.pow_pos_nonneg 2 (k - 12) ltac:(lia) ltac:(lia)) as Hp. rewrite He.
  rewrite (Z.mul_comm (2 ^ (k - 12))), Z.rem_mul_r by lia.
  pose proof (Z.mod_pos_bound (x / 4096) _ Hp). lia.
Qed.

Context (mode : Z) (room : roomy mode).

Lemma addr_u64 x : 0 <= x <= HOST -> u64 (ADDR + x) = ADDR + x.
Proof. destruct room as [Ha _ _ _ _]. intros Hx. apply wrap_id. unfold fits. lia. Qed.

Lemma host_mask x : Z.land x (u64 (HOST - 1)) = x mod HOST.
Proof.
  destruct room as [[H0 Ha] _ (k & Hk & ->) _ _].
  pose proof (Z.pow_pos_nonneg 2 k ltac:(lia) ltac:(lia)).
  pose proof (Z.pow_lt_mono_r 2 k 64 ltac:(lia) ltac:(lia) ltac:(lia)).
  rewrite wrap_id by (unfold fits; lia).
  rewrite <- (Z.land_ones x k), Z.ones_equiv by lia. by rewrite Z.sub_1_r.
Qed.

(** Each stage holds an edge after the one before. *)
Lemma stage_size v st : dice_size (addr_step v st).
Proof. done. Qed.

Lemma stage_clog v st : dice_size st -> dice_clog (addr_step v st).
Proof. unfold dice_size, dice_clog. cbn. by intros ->. Qed.

Lemma stage_block v st : dice_clog st -> dice_block (addr_step v st).
Proof. unfold dice_clog, dice_block. cbn. by intros ->. Qed.

Lemma stage_offset v st : dice_block st -> offset_ok (addr_step v st).
Proof.
  destruct room as [_ Hs _ _ _]. unfold dice_block, offset_ok. cbn. unfold random_offset. intros ->.
  destruct (SIZE =? 0) eqn:E; [lia | apply block_offset; lia].
Qed.

Lemma stage_whole v st : offset_ok st -> whole_ok (addr_step v st).
Proof.
  destruct room as [_ Hs _ _ _]. unfold offset_ok, whole_ok. cbn. intros [H0 H1].
  unfold page_base. change (2 ^ 12) with 4096. rewrite (Z.add_comm (_ * _)), Z.mod_add, Z.mod_mod by lia.
  pose proof (Z.mod_le (next_offset_in_window_r st.2) 4096). lia.
Qed.

Lemma stage_random v st : whole_ok st -> random_ok (addr_step v st).
Proof.
  unfold whole_ok, random_ok. cbn. rewrite host_mask. intros H.
  destruct room as [_ _ (k & Hk & ->) _ _].
  pose proof (Z.pow_pos_nonneg 2 k ltac:(lia) ltac:(lia)).
  split; [apply Z.mod_pos_bound; lia | apply mask_in_buffer; [lia | done]].
Qed.

Lemma stage_rand v st : v <> A_KEEP -> random_ok st -> rand_ok (addr_step v st).
Proof.
  destruct room as [_ Hs _ _ _]. unfold random_ok, rand_ok, in_buffer. cbn. intros Hv [H0 H1].
  replace (next_rand v c st.2) with (u64 (ADDR + next_random_address_r st.2)) by by destruct v.
  rewrite addr_u64; lia.
Qed.

Lemma seq_idle st : 2 * SIZE <= HOST -> seq_ok (addr_step A_IDLE st).
Proof.
  destruct room as [_ Hs _ _ _]. intros Hh. unfold seq_ok. cbn.
  rewrite addr_u64 by lia. split_and!; [done | lia | done | lia].
Qed.

Lemma seq_step v st : 2 * SIZE <= HOST -> seq_ok st -> seq_ok (addr_step v st).
Proof.
  destruct room as [_ Hs _ _ _]. intros Hh (H1 & H2 & H3 & H4). destruct v.
  - unfold seq_ok. cbn. rewrite (wrap_id 64 (2 * SIZE)) by (unfold fits; lia).
    rewrite !addr_u64 by lia. split_and!; [done | lia | lia | lia].
  - by apply seq_idle.
  - unfold seq_ok. cbn. rewrite H1. destruct (_ =? _) eqn:E; cbn; rewrite ?addr_u64 by lia.
    2:{ split_and!; [done | lia | lia | lia]. }
    apply Z.eqb_eq in E. rewrite H3 in *.
    assert (tx_seq_addr_r st.2 + SIZE <= ADDR + HOST) as Hb.
    { destruct room as [_ _ (k & Hk & HH) _ _].
      pose proof (Z.pow_le_mono_r 2 12 k ltac:(lia) ltac:(lia)). change (2 ^ 12) with 4096 in *.
      destruct H4 as [H4 | H4]; [lia|]. revert H4. unfold page_of. Z.to_euclidean_division_equations. lia. }
    destruct room as [[H0 Ha] _ _ _ _]. rewrite wrap_id in E |- * by (unfold fits; lia). split_and!; [done | lia | lia | by right].
  - by unfold seq_ok.
Qed.

(** ** The addresses stay in the buffer *)

Definition settled_addr (st : dice * side) : Prop :=
  dice_size st /\ dice_clog st /\ dice_block st /\ offset_ok st /\ whole_ok st /\ random_ok st /\
  rand_ok st /\ (mode = 1 -> seq_ok st) /\ tx_fix_addr_r st.2 = u64 (ADDR + ADDRESS_GEN_OFFSET c).

Lemma settled_step v st : settled_addr st -> settled_addr (addr_step v st).
Proof.
  intros (H1 & H2 & H3 & H4 & H5 & H6 & H7 & H8 & H9).
  split_and!; eauto using stage_size, stage_clog, stage_block, stage_offset, stage_whole, stage_random.
  - destruct v; try by apply stage_rand. done.
  - intros Hm. apply seq_step; [by apply (room_seq mode room) | by apply H8].
Qed.

Lemma settled_run vs st : settled_addr st -> settled_addr (addr_run vs st).
Proof.
  revert st. induction vs as [|v vs IH]; intros st Hs; [done|]. by apply IH, settled_step.
Qed.

(** From any values of the registers, seven idle cycles are enough. *)
Lemma settles st : settled_addr (addr_run (repeat A_IDLE 7) st).
Proof.
  cbn [repeat addr_run fold_left]. split_and!;
    auto 10 using stage_size, stage_clog, stage_block, stage_offset, stage_whole, stage_random.
  - apply stage_rand; auto 10 using stage_size, stage_clog, stage_block, stage_offset, stage_whole, stage_random.
  - intros Hm. by apply seq_idle, (room_seq mode room).
Qed.

Lemma settled_in_buffer st : settled_addr st -> in_buffer (tx_addr mode st.2).
Proof.
  intros (_ & _ & _ & _ & _ & _ & H7 & H8 & H9). unfold tx_addr.
  destruct (mode =? 0) eqn:E0; [|destruct (mode =? 1) eqn:E1; [|done]].
  - apply Z.eqb_eq in E0. destruct (room_fix mode room E0) as [Ho1 Ho2], (room_size mode room) as [Hs _].
    rewrite H9, addr_u64 by lia. unfold in_buffer. lia.
  - apply Z.eqb_eq in E1. destruct (H8 E1) as (_ & Hl & _ & Hu), (room_size mode room) as [Hs1 Hs2].
    pose proof (room_seq mode room E1). destruct (room_host mode room) as (k & Hk & HH).
    pose proof (Z.pow_le_mono_r 2 12 k ltac:(lia) ltac:(lia)). change (2 ^ 12) with 4096 in *.
    split; [done|]. destruct Hu as [Hu | Hu]; [lia|]. revert Hu. unfold page_of.
    Z.to_euclidean_division_equations. lia.
Qed.


(** The check of lines 358 and 359 is meant to avoid a page twice in a row, but compares
    the offset of a candidate with an absolute address: above the size of the buffer
    they never agree. *)
Lemma random_page_unchecked d last :
  HOST <= page_base last -> 0 <= next_random_address_candidate_r d < HOST ->
  random_page d last = page_base (next_random_address_candidate_r d).
Proof.
  unfold random_page, page_base, page_of. intros Hl Hc. destruct (_ =? _) eqn:E; [|done].
  apply Z.eqb_eq in E. rewrite <- E in Hl. pose proof (Z.mul_div_le (next_random_address_candidate_r d) 4096). lia.
Qed.

End Held.

(** ** On concrete values *)

(** The sequential mode with 64 bytes at the first page of a buffer of two. *)
Definition two_pages : placement := Placement 0x100000 64 8192 0.

Lemma two_pages_roomy m : roomy two_pages m.
Proof. split; [done | done | by exists 13 | done | done]. Qed.


(** The last block of the page is left out. *)
Example sequence_in_page :
  map (fun n => tx_seq_addr_r (addr_run two_pages (A_IDLE :: A_START :: repeat A_NEXT n)
    (dice_reset, side_reset)).2 - 0x100000) [0; 1; 61; 62]%nat = [64; 128; 3968; 0].
Proof. reflexivity. Qed.
