(* ===== verification/DeviceDma.v ===== *)
(** * The driver and the device together

    The stores of NfpDma.v arrive at the registers of EngineManager.v: what the device
    holds after them, what it does when it is started, and where it puts its
    measurements.  Each store, which never crosses a 64-bit word, is one access with the
    enables of its bytes, and they arrive in order: that the card has it so, cycle by
    cycle, is in CardBus.v and CardDriver.v. *)

From S2P Require Import Prelude Eff IoctlCommands NfpTypes Kernel SimKernel NfpDma EngineManager.
From Stdlib Require Import ZArith Lia.
From stdpp Require Import base list strings gmap.
Local Open Scope Z_scope.

(** ** Stores as accesses *)

(** The access of a store of the bytes [st.2] at address [st.1] of BAR 0. *)
Definition access_for (bar0 : Z) (st : Z * list Z) : access :=
  let o := st.1 - bar0 in
  Access (o / 8) (of_bytes st.2 * 2 ^ (8 * (o mod 8)))
    ((2 ^ Z.of_nat (length st.2) - 1) * 2 ^ (o mod 8)).

Lemma access_word bar0 k bs :
  access_for bar0 (bar0 + 8 * DMA_OFFSET + 8 * k, bs) =
    Access (C_ENGINE_TABLE_OFFSET + k) (of_bytes bs) (2 ^ Z.of_nat (length bs) - 1).
Proof.
  unfold access_for, DMA_OFFSET, C_ENGINE_TABLE_OFFSET. cbn [fst snd].
  replace (bar0 + 8 * 512 + 8 * k - bar0) with ((512 + k) * 8) by lia.
  by rewrite Z.div_mul, Z.mod_mul, Z.mul_0_r, !Z.mul_1_r by lia.
Qed.

(** ** Words written whole *)

Lemma lanes_full din old : fits 64 din -> lanes 255 din old = din.
Proof. intros Hf. transitivity (of_bytes (bytes_of 8 din)); [reflexivity | by apply of_bytes_of_8]. Qed.

Lemma last_index_whole l last : 0 <= l < 1024 -> write_last_index 3 l last = l.
Proof.
  intros Hl. apply (Z.mod_small l 1024 Hl).
Qed.

(** The fields of the control word, with the enable bit [e]. *)
Lemma control_decoded c s m e :
  fits 1 c -> fits 1 s -> fits 2 m -> e = 0 \/ e = 1 ->
  let w := 4 * c + 8 * s + 16 * m + e in
  Z.testbit w 0 = (e =? 1) /\ (w / 4) mod 4 = c + 2 * s /\ (w / 16) mod 4 = m.
Proof.
  unfold fits. intros Hc Hs Hm He.
  assert (c = 0 \/ c = 1) as [-> | ->] by lia; assert (s = 0 \/ s = 1) as [-> | ->] by lia;
  assert (m = 0 \/ m = 1 \/ m = 2 \/ m = 3) as [-> | [-> | [-> | ->]]] by lia;
  destruct He as [-> | ->]; done.
Qed.

Ltac device_eval :=
  cbn [v_enable v_active v_config v_tables mem_size mem_address mem_control mem_time
    mem_req_time mem_comp_time mem_req_bytes mem_comp_bytes];
  cbv beta iota zeta delta [Z.eqb Pos.eqb].

Section Device.
Context {R : Type} `{B : Bram R}.
Implicit Types d : device (R := R).

(** Accesses to the eight registers leave the tables alone. *)
Lemma register_tables k din we (t : tables (R := R)) :
  0 <= k < 8 -> table_write (Access (C_ENGINE_TABLE_OFFSET + k) din we) t = t.
Proof.
  intros Hk. unfold table_write, in_tables. cbn [x_addr].
  assert (k = 0 \/ k = 1 \/ k = 2 \/ k = 3 \/ k = 4 \/ k = 5 \/ k = 6 \/ k = 7)
    as [-> | [-> | [-> | [-> | [-> | [-> | [-> | ->]]]]]]] by lia; reflexivity.
Qed.

(** Accesses to the tables leave the registers alone. *)
Lemma table_config a din we c :
  C_ENGINE_TABLE_OFFSET + 8 <= a -> write_config (Access a din we) c = c.
Proof.
  intros Ha. unfold C_ENGINE_TABLE_OFFSET in Ha. unfold write_config, C_ENGINE_TABLE_OFFSET.
  destruct c. cbn [x_addr x_din x_we]. destruct (we =? 0); [done|].
  repeat match goal with |- context [Z.eqb a ?x] => destruct (Z.eqb_spec a x); [lia|] end. done.
Qed.

Lemma table_control a din we :
  C_ENGINE_TABLE_OFFSET + 8 <= a -> write_control (Access a din we) = None.
Proof.
  intros Ha. unfold write_control. cbn [x_addr]. unfold C_ENGINE_TABLE_OFFSET in *.
  destruct (Z.eqb_spec a 512); [lia | done].
Qed.

Lemma register_control k din we :
  0 < k < 8 -> write_control (Access (C_ENGINE_TABLE_OFFSET + k) din we) = None.
Proof.
  intros Hk. unfold write_control. cbn [x_addr].
  destruct (Z.eqb_spec (C_ENGINE_TABLE_OFFSET + k) C_ENGINE_TABLE_OFFSET); [lia | done].
Qed.

(** Word [m] of descriptor [j]. *)
Lemma descriptor_word j m din we (t : tables (R := R)) :
  0 <= j < C_NUM_DESCRIPTORS -> m = 0 \/ m = 1 ->
  table_write (Access (C_ENGINE_TABLE_OFFSET + (8 + 8 * j + m)) din we) t =
    if m =? 0 then
      Tables (mem_size t) (bram_write j we din (mem_address t)) (mem_control t)
        (mem_time t) (mem_req_time t) (mem_comp_time t) (mem_req_bytes t) (mem_comp_bytes t)
    else
      Tables (bram_write j we din (mem_size t)) (mem_address t) (mem_control t)
        (mem_time t) (mem_req_time t) (mem_comp_time t) (mem_req_bytes t) (mem_comp_bytes t).
Proof.
  unfold C_NUM_DESCRIPTORS. intros Hj Hm.
  unfold table_write, in_tables, effective_addres, table_index, c_offset_engines_config,
    c_offset_between_descriptors, C_NUM_DESCRIPTORS. cbn [x_addr x_din x_we].
  replace (C_ENGINE_TABLE_OFFSET + (8 + 8 * j + m) - C_ENGINE_TABLE_OFFSET - 8) with (m + j * 8) by lia.
  rewrite (wrap_id 32 (m + j * 8)) by (unfold fits; lia).
  destruct (Z.leb_spec (m + j * 8) (8 * 1024)); [|lia].
  rewrite Z.mod_add by lia.
  destruct Hm as [-> | ->]; cbn [Z.eqb]; rewrite Z.mod_small by lia; cbn [Z.eqb Pos.eqb].
  - rewrite Z.sub_0_r, Z.add_0_l, (wrap_id 32) by (unfold fits; lia).
    by rewrite Z.div_mul, Z.mod_small by lia.
  - replace (1 + j * 8 - 1) with (j * 8) by lia. rewrite (wrap_id 32) by (unfold fits; lia).
    by rewrite Z.div_mul, Z.mod_small by lia.
Qed.

(** ** A descriptor in the registers *)

(** The state the stores of a descriptor leave: [l] is the last index. *)
Definition holds_descriptor (dd : dma_descriptor_sw) (pa l : Z) (on : bool) d : device :=
  let t := v_tables d in
  let j := dd_index dd in
  Device on (v_active d)
    (Config (dd_is_c2s_op dd + 2 * dd_is_s2c_op dd) (dd_address_mode dd) l
      (window_size_r (v_config d)) (dd_buffer_size dd) (dd_address_offset dd)
      (dd_address_inc dd) (dd_number_of_tlps dd))
    (Tables (bram_write j 255 (dd_length dd) (mem_size t)) (bram_write j 255 pa (mem_address t))
      (mem_control t) (mem_time t) (mem_req_time t) (mem_comp_time t) (mem_req_bytes t)
      (mem_comp_bytes t)).

Definition deliver (bar0 : Z) (sts : list (Z * list Z)) d : device :=
  apply_accesses (access_for bar0 <$> sts) d.

Lemma deliver_app bar0 a b d : deliver bar0 (a ++ b) d = deliver bar0 b (deliver bar0 a d).
Proof. unfold deliver, apply_accesses. by rewrite fmap_app, fold_left_app. Qed.

(** One of the five registers of 64 bits. *)
Lemma deliver_register bar0 f k v d :
  engine_off 0 f = 8 * k -> 3 <= k <= 7 -> fits 64 v ->
  deliver bar0 [(bar0 + 8 * DMA_OFFSET + engine_off 0 f, bytes_of 8 v)] d =
    Device (v_enable d) (v_active d)
      (let (caps, mode, last, window, buffer, off, incr, tlps) := v_config d in
       if k =? 3 then Config caps mode last v buffer off incr tlps
       else if k =? 4 then Config caps mode last window v off incr tlps
       else if k =? 5 then Config caps mode last window buffer v incr tlps
       else if k =? 6 then Config caps mode last window buffer off v tlps
       else Config caps mode last window buffer off incr v)
      (v_tables d).
Proof.
  intros -> Hk Hv. unfold deliver, apply_accesses.
  cbn [fmap list_fmap fold_left].
  rewrite access_word, of_bytes_of_8, bytes_of_length by done.
  change (2 ^ Z.of_nat 8 - 1) with 255. unfold apply_access.
  rewrite register_control, register_tables by lia.
  unfold write_config. destruct (v_config d). cbn [x_addr x_din x_we].
  assert (k = 3 \/ k = 4 \/ k = 5 \/ k = 6 \/ k = 7) as [-> | [-> | [-> | [-> | ->]]]] by lia;
    cbv beta iota zeta delta [Z.eqb Z.add Pos.eqb Pos.add Pos.succ C_ENGINE_TABLE_OFFSET];
    by rewrite lanes_full.
Qed.

Lemma deliver_control bar0 w d :
  fits 32 w ->
  deliver bar0 [(bar0 + 8 * DMA_OFFSET + engine_off 0 "control"%string, bytes_of 4 w)] d =
    Device (Z.testbit w 0) (v_active d)
      (let (caps, mode, last, window, buffer, off, incr, tlps) := v_config d in
       Config ((w / 4) mod 4) ((w / 16) mod 4) last window buffer off incr tlps)
      (v_tables d).
Proof.
  intros Hw. change (engine_off 0 "control"%string) with (8 * 0). unfold deliver, apply_accesses.
  cbn [fmap list_fmap fold_left]. rewrite access_word, of_bytes_of_4, bytes_of_length by done.
  change (2 ^ Z.of_nat 4 - 1) with 15. unfold apply_access. rewrite register_tables by lia.
  unfold write_config. destruct (v_config d). reflexivity.
Qed.

Lemma deliver_last bar0 l d :
  0 <= l < 1024 ->
  deliver bar0 [(bar0 + 8 * DMA_OFFSET + engine_off 0 "complete_until_descriptor"%string,
    bytes_of 2 (u16 l))] d =
    Device (v_enable d) (v_active d)
      (let (caps, mode, last, window, buffer, off, incr, tlps) := v_config d in
       Config caps mode l window buffer off incr tlps)
      (v_tables d).
Proof.
  intros Hl. change (engine_off 0 "complete_until_descriptor"%string) with (8 * 1). unfold deliver, apply_accesses.
  cbn [fmap list_fmap fold_left]. rewrite access_word, of_bytes_of, bytes_of_length.
  rewrite (wrap_id 16), Z.mod_small by (unfold fits; lia).
  change (2 ^ Z.of_nat 2 - 1) with 3. unfold apply_access.
  rewrite register_control, register_tables by lia.
  unfold write_config. destruct (v_config d) as [caps mode last window buffer off incr tlps].
  cbn [x_addr x_din x_we].
  cbv beta iota zeta delta [Z.eqb Z.add Pos.eqb Pos.add Pos.succ C_ENGINE_TABLE_OFFSET].
  by rewrite last_index_whole.
Qed.

Lemma deliver_table bar0 j m f v d :
  0 <= j < C_NUM_DESCRIPTORS -> (m = 0 /\ f = "address"%string \/ m = 1 /\ f = "size"%string) ->
  fits 64 v ->
  deliver bar0 [(bar0 + 8 * DMA_OFFSET + descriptor_off j f, bytes_of 8 v)] d =
    Device (v_enable d) (v_active d) (v_config d)
      (let t := v_tables d in
       Tables (if m =? 0 then mem_size t else bram_write j 255 v (mem_size t))
         (if m =? 0 then bram_write j 255 v (mem_address t) else mem_address t) (mem_control t)
         (mem_time t) (mem_req_time t) (mem_comp_time t) (mem_req_bytes t) (mem_comp_bytes t)).
Proof.
  intros Hj Hm Hv.
  assert (O : descriptor_off j f = 8 * (8 + 8 * j + m)).
  { unfold descriptor_off. change (engine_off 0 "dma_descriptor") with 64.
    change (sizeof dma_descriptor) with 64.
    destruct Hm as [[-> ->] | [-> ->]];
      [change (offsetof "address"%string dma_descriptor) with 0
      | change (offsetof "size"%string dma_descriptor) with 8]; lia. }
  rewrite O. unfold deliver, apply_accesses.
  cbn [fmap list_fmap fold_left].
  rewrite access_word, of_bytes_of_8, bytes_of_length by done.
  change (2 ^ Z.of_nat 8 - 1) with 255. unfold apply_access.
  rewrite table_control, table_config by (destruct Hm as [[-> _] | [-> _]]; unfold C_NUM_DESCRIPTORS in *; lia).
  rewrite descriptor_word by (done || destruct Hm as [[-> _] | [-> _]]; auto).
  f_equal. destruct Hm as [[-> _] | [-> _]]; cbn [Z.eqb]; by destruct (v_tables d).
Qed.
(** The stores of a descriptor, one after the other. *)
Lemma deliver_descriptor bar0 dd pa l d :
  dd_ok dd -> in_range (dd_index dd) -> fits 64 pa ->
  deliver bar0 (descriptor_stores (bar0 + 8 * DMA_OFFSET) dd pa l) d =
    holds_descriptor dd pa (l mod 1024) false d.
Proof.
  intros Hd Hj Hp. destruct (control_word_fields dd Hd) as [W _].
  destruct Hd as (_ & Hb & Hl & _ & _ & Hc & Hs & Hm & _ & Hn & _ & Ho & Hi & _).
  unfold descriptor_stores.
  change (?a :: ?b :: ?c :: ?d :: ?e :: ?f :: ?g :: ?h :: []) with
    ([a] ++ [b] ++ [c] ++ [d] ++ [e] ++ [f] ++ [g] ++ [h]).
  pose proof (control_decoded _ _ _ 0 Hc Hs Hm (or_introl eq_refl)) as D. rewrite Z.add_0_r in D.
  destruct D as (D1 & D2 & D3).
  rewrite !deliver_app. unfold holds_descriptor.
  destruct d as [on active [caps mode last window buffer off incr tlps] [m1 m2 m3 m4 m5 m6 m7 m8]].
  cbn [v_active v_config v_tables window_size_r mem_size mem_address mem_control mem_time
    mem_req_time mem_comp_time mem_req_bytes mem_comp_bytes].
  rewrite (deliver_register _ "host_buffer_size"%string 4) by (reflexivity || lia || done).
  device_eval.
  rewrite (deliver_register _ "number_of_tlps"%string 7) by (reflexivity || lia || done).
  device_eval.
  rewrite (deliver_register _ "address_offset"%string 5) by (reflexivity || lia || done).
  device_eval.
  rewrite (deliver_register _ "address_inc"%string 6) by (reflexivity || lia || done).
  device_eval.
  rewrite (deliver_table _ (dd_index dd) 0 "address"%string) by (exact Hj || auto). device_eval.
  rewrite (deliver_table _ (dd_index dd) 1 "size"%string) by (exact Hj || auto). device_eval.
  rewrite W, deliver_control by (unfold fits in *; lia). device_eval.
  rewrite deliver_last by (apply Z.mod_pos_bound; unfold MAX_NUM_DMA_DESCRIPTORS; lia).
  device_eval. rewrite D1, D2, D3. done.
Qed.

Lemma deliver_start bar0 dd pa l d :
  dd_ok dd ->
  deliver bar0 (start_store (bar0 + 8 * DMA_OFFSET) dd) (holds_descriptor dd pa l false d) =
    holds_descriptor dd pa l true d.
Proof.
  intros Hd. destruct (control_word_fields dd Hd) as [W1 W2].
  destruct Hd as (_ & _ & _ & _ & _ & Hc & Hs & Hm & _).
  unfold start_store. rewrite W2, W1, deliver_control by (unfold fits in *; lia).
  unfold holds_descriptor. cbn [v_enable v_active v_config v_tables].
  destruct (control_decoded _ _ _ 1 Hc Hs Hm) as (D1 & D2 & D3); [by right|].
  rewrite D1, D2, D3. done.
Qed.

(** A store that leaves a stopped engine stopped. *)
Definition keeps_stopped (bar0 : Z) (st : Z * list Z) : Prop :=
  match write_control (access_for bar0 st) with Some (e, _) => e = false | None => True end.

Lemma deliver_stopped bar0 sts d :
  Forall (keeps_stopped bar0) sts -> v_enable d = false -> v_enable (deliver bar0 sts d) = false.
Proof.
  intros F. revert d. induction F as [|st sts Hs _ IH]; intros d Hd; [done|].
  apply IH. cbn. unfold keeps_stopped in Hs. by destruct (write_control _) as [[??]|].
Qed.

Lemma descriptor_stores_stopped bar0 dd pa l :
  dd_ok dd -> in_range (dd_index dd) ->
  Forall (keeps_stopped bar0) (descriptor_stores (bar0 + 8 * DMA_OFFSET) dd pa l).
Proof.
  intros Hd [Hj _]. destruct (control_word_fields dd Hd) as [W _].
  destruct Hd as (_ & _ & _ & _ & _ & Hc & Hs & Hm & _).
  pose proof (control_decoded _ _ _ 0 Hc Hs Hm (or_introl eq_refl)) as D. rewrite Z.add_0_r in D.
  destruct D as (D & _).
  assert (R1 : forall f k bs, engine_off 0 f = 8 * k -> 0 < k < 8 ->
    keeps_stopped bar0 (bar0 + 8 * DMA_OFFSET + engine_off 0 f, bs)).
  { intros f k bs -> Hk. unfold keeps_stopped. by rewrite access_word, register_control. }
  assert (R2 : forall f bs, 0 <= offsetof f dma_descriptor ->
    offsetof f dma_descriptor mod 8 = 0 ->
    keeps_stopped bar0 (bar0 + 8 * DMA_OFFSET + descriptor_off (dd_index dd) f, bs)).
  { intros f bs Ho Hm8. unfold keeps_stopped, descriptor_off.
    change (engine_off 0 "dma_descriptor") with 64. change (sizeof dma_descriptor) with 64.
    pose proof (Z.div_mod (offsetof f dma_descriptor) 8 ltac:(done)) as E.
    replace (64 + dd_index dd * 64 + offsetof f dma_descriptor)
      with (8 * (8 + 8 * dd_index dd + offsetof f dma_descriptor / 8)) by lia.
    rewrite access_word, table_control; [done|].
    pose proof (Z.div_pos (offsetof f dma_descriptor) 8 Ho ltac:(done)). lia. }
  unfold descriptor_stores. repeat constructor.
  - by apply (R1 _ 4).
  - by apply (R1 _ 7).
  - by apply (R1 _ 5).
  - by apply (R1 _ 6).
  - by apply R2.
  - by apply R2.
  - unfold keeps_stopped. change (engine_off 0 "control"%string) with (8 * 0).
    rewrite access_word, of_bytes_of_4 by (rewrite W; unfold fits in *; lia).
    unfold write_control. cbn [x_addr x_we x_din]. rewrite bytes_of_length, W, D. done.
  - by apply (R1 _ 1).
Qed.

(** C6.  What the driver stores is what the device holds: after the stores of a
    descriptor and the start bit, delivered in order to a device in any state whose
    engine is stopped, the entry of the descriptor has its bus address and length, the
    registers have its buffer size, number of operations, address generation, direction
    and the last index, nothing else has changed, and the engine is enabled; it is so
    after no earlier store, so it never starts on a descriptor half written. *)
Theorem descriptor_reaches_device bar0 dd pa l d :
  dd_ok dd -> in_range (dd_index dd) -> fits 64 pa -> v_enable d = false ->
  let sts := descriptor_stores (bar0 + 8 * DMA_OFFSET) dd pa l in
  (forall p, p `prefix_of` sts -> v_enable (deliver bar0 p d) = false) /\
  deliver bar0 (sts ++ start_store (bar0 + 8 * DMA_OFFSET) dd) d =
    holds_descriptor dd pa (l mod 1024) true d.
Proof.
  intros Hd Hj Hp He sts. split.
  - intros p [q E]. apply deliver_stopped; [|done].
    pose proof (descriptor_stores_stopped bar0 dd pa l Hd Hj) as F. fold sts in F.
    rewrite E in F. by apply Forall_app in F as [F _].
  - unfold sts. by rewrite deliver_app, deliver_descriptor, deliver_start.
Qed.
End Device.

(** ** Operations

    The driver and the device agree on which descriptor is next: [g_ldescriptor] of the
    one and the active index of the other start at 0 and step together. *)

Definition in_step (g : dma_globals) {R} (d : device (R := R)) : Prop :=
  v_active d = g_ldescriptor g /\ v_enable d = false.

Lemma calls_dma_map_fits t : Forall (fun x => fits 64 x.1) (calls dma_map t).
Proof.
  unfold calls. induction t as [|e t IH]; [constructor|]. cbn.
  destruct (dma_map e) as [x|] eqn:E; [|done]. constructor; [|done].
  destruct e as [X c r]. destruct c; try done. injection E as <-. by apply wrap_fits.
Qed.

Definition stats_ok (st : stats) : Prop :=
  fits 64 (st_latency st) /\ fits 64 (st_req_time st) /\ fits 64 (st_comp_time st) /\
  fits 64 (st_req_bytes st) /\ fits 64 (st_comp_bytes st).

(** The order of the status fields. *)
Definition stats_words (st : stats) : list Z :=
  [st_latency st; st_req_time st; st_comp_time st; st_req_bytes st; st_comp_bytes st].

Section Operations.
Context {K : Type} `{!Handler kcall K} {R : Type} `{B : Bram R} `{!BramLaws R}.

(** The words the device answers for the status registers of descriptor [j]. *)
Definition device_stats (j : Z) (d : device (R := R)) : stats :=
  let w f := table_read (v_active d) ((8 * DMA_OFFSET + descriptor_off j f) / 8) (v_tables d) in
  Stats (w "latency"%string) (w "time_at_req"%string) (w "time_at_comp"%string)
    (w "bytes_at_req"%string) (w "bytes_at_comp"%string).

(** The device when the call of the driver has made its stores. *)
Definition started (fuel : nat) (dd : dma_descriptor_sw) (s : driver) (k : K)
    (d : device (R := R)) : device :=
  deliver (c_bar0 (d_card s)) (calls mmio_write (r_tr (writeDMADescriptor fuel dd s k))) d.

Lemma table_read_status active j k (t : tables (R := R)) :
  0 <= j <= 1024 -> 3 <= k <= 7 ->
  table_read active (C_ENGINE_TABLE_OFFSET + (8 + 8 * j + k)) t =
    bram_read
      (if k =? 3 then mem_time t else if k =? 4 then mem_req_time t
       else if k =? 5 then mem_comp_time t else if k =? 6 then mem_req_bytes t
       else mem_comp_bytes t) (j mod C_NUM_DESCRIPTORS).
Proof.
  intros Hj Hk. unfold table_read, effective_addres, table_index, c_offset_engines_config,
    c_offset_between_descriptors.
  replace (C_ENGINE_TABLE_OFFSET + (8 + 8 * j + k) - C_ENGINE_TABLE_OFFSET - 8) with (k + j * 8) by lia.
  rewrite (wrap_id 32 (k + j * 8)) by (unfold fits; lia). rewrite Z.mod_add by lia.
  assert (T : forall m, m = k -> u32 (k + j * 8 - m) / 8 = j).
  { intros m ->. replace (k + j * 8 - k) with (j * 8) by lia.
    rewrite (wrap_id 32) by (unfold fits; lia). by apply Z.div_mul. }
  assert (k = 3 \/ k = 4 \/ k = 5 \/ k = 6 \/ k = 7) as [-> | [-> | [-> | [-> | ->]]]] by lia;
    rewrite (T _ eq_refl); reflexivity.
Qed.

Lemma device_stats_eq j d :
  0 <= j <= 1024 ->
  device_stats j d =
    let r m := bram_read (m (v_tables d)) (j mod C_NUM_DESCRIPTORS) in
    Stats (r mem_time) (r mem_req_time) (r mem_comp_time) (r mem_req_bytes) (r mem_comp_bytes).
Proof.
  intros Hj. unfold device_stats.
  assert (A : forall f k, offsetof f dma_descriptor = 8 * k ->
    (8 * DMA_OFFSET + descriptor_off j f) / 8 = C_ENGINE_TABLE_OFFSET + (8 + 8 * j + k)).
  { intros f k E. unfold descriptor_off. rewrite E.
    change (engine_off 0 "dma_descriptor") with 64. change (sizeof dma_descriptor) with 64.
    unfold DMA_OFFSET, C_ENGINE_TABLE_OFFSET.
    replace (8 * 512 + (64 + j * 64 + 8 * k)) with ((512 + (8 + 8 * j + k)) * 8) by lia.
    by apply Z.div_mul. }
  cbv zeta. rewrite (A _ 3), (A _ 4), (A _ 5), (A _ 6), (A _ 7) by reflexivity.
  by rewrite !table_read_status by lia.
Qed.

(** The registers are where BAR 0 is mapped (lines 287 and 288 of nfp.c). *)
Definition attached (s : driver) : Prop :=
  c_dma (d_card s) = c_bar0 (d_card s) + 8 * DMA_OFFSET.

(** A started write moves the index of the driver on. *)
Lemma write_advances fuel dd s (k : K) :
  dma_wf (d_dma s) -> in_range (dd_index dd) -> dd_enable dd <> 0 ->
  let s' := r_st (writeDMADescriptor fuel dd s k) in
  g_ldescriptor (d_dma s') = (g_ldescriptor (d_dma s) + 1) mod 1024 /\
  dma_wf (d_dma s') /\ d_card s' = d_card s /\ d_mem s' = d_mem s.
Proof.
  intros Hwf Hj He s'. pose proof (wp_writeDMADescriptor fuel dd s k Hwf Hj) as W.
  unfold wp in W. destruct W as (pa & _ & W).
  rewrite (proj2 (Z.eqb_neq _ 0) He) in W. destruct W as (_ & st & e & W).
  pose proof (next_ldescriptor dd pa (d_dma s) ltac:(apply Hwf)) as N.
  pose proof (programmed_wf dd pa _ Hwf Hj) as Pwf. unfold s'.
  destruct W as [(_ & -> & _) | (_ & -> & _)]; cbn; (split; [exact N|]);
    (split; [by auto using stopped_wf | done]).
Qed.

Lemma write_starts fuel dd s (k : K) d :
  dma_wf (d_dma s) -> attached s -> dd_ok dd -> in_range (dd_index dd) -> dd_enable dd <> 0 ->
  let r := writeDMADescriptor fuel dd s k in
  exists pa, calls dma_map (r_tr r) = [(pa, dd_buffer_size dd)] /\ fits 64 pa /\
    started fuel dd s k d = holds_descriptor dd pa (g_ldescriptor (d_dma s)) true d /\
    g_ldescriptor (d_dma (r_st r)) = (g_ldescriptor (d_dma s) + 1) mod 1024 /\
    dma_wf (d_dma (r_st r)) /\ d_card (r_st r) = d_card s /\ d_mem (r_st r) = d_mem s.
Proof.
  intros Hwf Ha Hd Hj He r. pose proof (wp_writeDMADescriptor fuel dd s k Hwf Hj) as W.
  unfold wp in W. destruct W as (pa & M & W). exists pa.
  assert (Hp : fits 64 pa).
  { pose proof (calls_dma_map_fits (r_tr r)) as F. unfold r in F. rewrite M in F.
    by apply Forall_cons_1 in F as [F _]. }
  rewrite (proj2 (Z.eqb_neq _ 0) He) in W. destruct W as (S & _).
  split; [exact M|]. split; [exact Hp|]. split; [|exact (write_advances fuel dd s k Hwf Hj He)].
  unfold started. rewrite S, Ha, deliver_app, deliver_descriptor, deliver_start by done.
  by rewrite Z.mod_small by apply Hwf.
Qed.

Lemma next_index_mod l : 0 <= l < 1024 -> next_index l = (l + 1) mod 1024.
Proof.
  intros Hl. unfold next_index, C_NUM_DESCRIPTORS. destruct (Z.eqb_spec l (1024 - 1)) as [->|].
  - done.
  - by rewrite Z.mod_small by lia.
Qed.

(** The entry the device takes once a descriptor is started. *)
Lemma current_entry_held dd pa l d :
  dd_ok dd -> fits 64 pa ->
  current_entry (holds_descriptor dd pa l true d) =
    if dd_index dd =? v_active d then (pa, dd_length dd) else current_entry d.
Proof.
  intros Hd Hp. unfold current_entry, holds_descriptor. cbn [v_tables v_active mem_address mem_size].
  destruct (Z.eqb_spec (dd_index dd) (v_active d)) as [<-|].
  - rewrite !bram_read_write, !lanes_full; [done | apply Hd | done].
  - by rewrite !bram_read_other.
Qed.

Lemma finish_held dd pa g d st :
  0 <= g_ldescriptor g < 1024 -> in_step g d -> stats_ok st ->
  let d2 := finish st (holds_descriptor dd pa (g_ldescriptor g) true d) in
  v_active d2 = (g_ldescriptor g + 1) mod 1024 /\ v_enable d2 = false /\
  device_stats (g_ldescriptor g + 1) d2 = st.
Proof.
  intros Hl [Ha _] (H1 & H2 & H3 & H4 & H5) d2.
  assert (A : v_active d2 = (g_ldescriptor g + 1) mod 1024)
    by (cbn; rewrite Ha; by apply next_index_mod).
  split; [exact A|]. split.
  - cbn. by rewrite Ha, Z.eqb_refl.
  - rewrite device_stats_eq by lia. unfold C_NUM_DESCRIPTORS. rewrite <- A. cbn.
    rewrite !bram_read_write, !lanes_full by done. by destruct st.
Qed.

(** C20.  The driver and the device stay in step: a descriptor that is written to be
    started while both are at the same index leaves, when the operation has ended, both
    at the next one and the engine stopped, whether or not the call returned; the
    measurements of the operation are the ones the device answers for that next index;
    and the operation was on the bus address just mapped and the length of the
    descriptor if the index of the descriptor is the one they were at, and otherwise on
    what the table held there before. *)
Theorem operation_in_step fuel dd st s (k : K) d :
  dma_wf (d_dma s) -> attached s -> dd_ok dd -> in_range (dd_index dd) -> dd_enable dd <> 0 ->
  stats_ok st -> in_step (d_dma s) d ->
  let r := writeDMADescriptor fuel dd s k in
  let l := g_ldescriptor (d_dma s) in
  let d1 := started fuel dd s k d in
  exists pa,
    calls dma_map (r_tr r) = [(pa, dd_buffer_size dd)] /\
    v_enable d1 = true /\
    current_entry d1 = (if dd_index dd =? l then (pa, dd_length dd) else current_entry d) /\
    in_step (d_dma (r_st r)) (finish st d1) /\
    device_stats (l + 1) (finish st d1) = st.
Proof.
  intros Hwf Ha Hd Hj He Hst Hs r l d1.
  destruct (write_starts fuel dd s k d Hwf Ha Hd Hj He) as (pa & M & Hp & D & N & _).
  pose proof (finish_held dd pa (d_dma s) d st ltac:(apply Hwf) Hs Hst) as (F1 & F2 & F3).
  exists pa. unfold d1. rewrite D. split; [exact M|]. split; [done|]. split.
  - rewrite current_entry_held by done. destruct Hs as [E _]. by rewrite E.
  - split; [|exact F3]. split; [|exact F2]. unfold r. by rewrite N.
Qed.

(** The device with another window size. *)
Definition with_window (ws : Z) (d : device (R := R)) : device :=
  Device (v_enable d) (v_active d)
    (let (caps, mode, last, window, buffer, off, incr, tlps) := v_config d in
     Config caps mode last ws buffer off incr tlps)
    (v_tables d).

Lemma wp_window ws s (k : K) :
  wp (dma_set_window_size ws) (fun o s' _ t => o = Done tt /\ s' = s /\ calls mmio_write t =
    [(c_dma (d_card s) + engine_off 0 "total_bytes"%string, bytes_of 8 ws)]) s k.
Proof. apply wp_engine_write8. by intros k'. Qed.

Lemma deliver_window bar0 ws (d : device (R := R)) :
  fits 64 ws ->
  deliver bar0 [(bar0 + 8 * DMA_OFFSET + engine_off 0 "total_bytes"%string, bytes_of 8 ws)] d =
    with_window ws d.
Proof. intros Hw. by rewrite (deliver_register _ _ 3). Qed.

(** The window size goes to the register the hardware has for it, although the
    driver stores it through the member [total_bytes], and nothing else of the device
    changes. *)
Theorem window_size_reaches_device ws s (k : K) d :
  attached s -> fits 64 ws ->
  let r := dma_set_window_size ws s k in
  r_out r = Done tt /\ r_st r = s /\
  deliver (c_bar0 (d_card s)) (calls mmio_write (r_tr r)) d = with_window ws d.
Proof.
  intros Ha Hw r. destruct (wp_window ws s k) as (W1 & W2 & W3). fold r in W1, W2, W3.
  split; [exact W1|]. split; [exact W2|]. rewrite W3, Ha. by apply deliver_window.
Qed.

(** ** A run of the benchmark *)

(** A descriptor is served: the device takes what was written, and its measurements
    are those answered for the next index. *)
Definition served fuel (dd : dma_descriptor_sw) (st : stats) (s : driver) (k : K) (d : device) : Prop :=
  let r := writeDMADescriptor fuel dd s k in
  let d1 := started fuel dd s k d in
  exists pa, calls dma_map (r_tr r) = [(pa, dd_buffer_size dd)] /\ v_enable d1 = true /\
    current_entry d1 = (pa, dd_length dd) /\
    number_tlps_r (v_config d1) = dd_number_of_tlps dd /\
    buffer_at_host_r (v_config d1) = dd_buffer_size dd /\
    address_gen_offset_r (v_config d1) = dd_address_offset dd /\
    address_gen_incr_r (v_config d1) = dd_address_inc dd /\
    address_mode_r (v_config d1) = dd_address_mode dd /\
    device_stats (dd_index dd + 1) (finish st d1) = st.

Fixpoint all_served fuel (ops : list (dma_descriptor_sw * stats)) (s : driver) (k : K)
    (d : device) : Prop :=
  match ops with
  | [] => True
  | (dd, st) :: ops' =>
      served fuel dd st s k d /\
      let r := writeDMADescriptor fuel dd s k in
      all_served fuel ops' (r_st r) (r_k r) (finish st (started fuel dd s k d))
  end.

(** Descriptors to start, with consecutive indices from [l]. *)
Fixpoint consecutive (l : Z) (ops : list (dma_descriptor_sw * stats)) : Prop :=
  match ops with
  | [] => True
  | (dd, st) :: ops' =>
      dd_ok dd /\ dd_index dd = l /\ dd_enable dd <> 0 /\ stats_ok st /\
      consecutive ((l + 1) mod 1024) ops'
  end.

(** All the operations of a run: descriptors with consecutive indices, written one
    after the other from an index the driver and the device agree on, are all served,
    whatever the kernel answers; the measurements of each are those the device answers
    for the index after it, the one the benchmark reads, also past the last entry. *)
Theorem run_served fuel ops s (k : K) d :
  dma_wf (d_dma s) -> attached s -> in_step (d_dma s) d ->
  consecutive (g_ldescriptor (d_dma s)) ops -> all_served fuel ops s k d.
Proof.
  revert s k d. induction ops as [|[dd st] ops IH]; intros s k d Hwf Ha Hs Hc; [done|].
  cbn [all_served consecutive] in *. destruct Hc as (Hd & Hj & He & Hst & Hc).
  assert (Hr : in_range (dd_index dd)) by (rewrite Hj; apply Hwf).
  destruct (write_starts fuel dd s k d Hwf Ha Hd Hr He) as (pa & M & Hp & D & N & W & C & _).
  pose proof (finish_held dd pa (d_dma s) d st ltac:(apply Hwf) Hs Hst) as (F1 & F2 & F3).
  split.
  - exists pa. rewrite D. split; [exact M|]. split; [done|].
    rewrite current_entry_held by done. destruct Hs as [E _].
    rewrite E, Hj, Z.eqb_refl. by split_and!.
  - apply IH; [exact W | by unfold attached; rewrite C | | by rewrite N].
    rewrite D. split; [by rewrite N | exact F2].
Qed.
End Operations.

(** ** Witnesses *)

(** A card whose registers are mapped at 0. *)
Definition at_zero : driver :=
  Driver (Card 0 0 0 0 0 (8 * DMA_OFFSET) mem_zero mmap_info_zero) dma_globals_init mem_globals_init.

Definition op (j : Z) : dma_descriptor_sw :=
  DmaDescriptorSw 4096 1073741824 512 1 0 1 1 3 0 262144 0 8 64 0 0 0 0 j.

Lemma op_ok j : 0 <= j < 1024 -> dd_ok (op j).
Proof. intros Hj. unfold dd_ok, op, fits; cbn. lia. Qed.

Lemma at_zero_wf : dma_wf (d_dma at_zero).
Proof. exact dma_globals_init_wf. Qed.

Lemma descriptor_reaches_device_witness :
  current_entry (deliver 0 (descriptor_stores (0 + 8 * DMA_OFFSET) (op 0) 4096 0 ++
    start_store (0 + 8 * DMA_OFFSET) (op 0)) (settled reset)) = (4096, 512).
Proof.
  destruct (descriptor_reaches_device 0 (op 0) 4096 0 (settled reset)) as [_ ->].
  - by apply op_ok.
  - done.
  - done.
  - reflexivity.
  - vm_compute. reflexivity.
Defined.

(** The second descriptor written first: the engine starts on the empty first entry. *)
Lemma operation_in_step_witness :
  current_entry (started 10 (op 1) at_zero sim_init (settled reset)) = (0, 0).
Proof.
  destruct (operation_in_step 10 (op 1) (Stats 7 1 2 3 4) at_zero sim_init (settled reset))
    as (pa & _ & _ & -> & _).
  - exact at_zero_wf.
  - reflexivity.
  - by apply op_ok.
  - done.
  - done.
  - by repeat constructor.
  - split; reflexivity.
  - vm_compute. reflexivity.
Defined.

Lemma run_served_witness :
  all_served 10 [(op 0, Stats 7 1 2 3 4); (op 1, Stats 8 1 2 3 4)] at_zero sim_init (settled reset).
Proof.
  apply run_served.
  - exact at_zero_wf.
  - reflexivity.
  - split; reflexivity.
  - do 2 (split; [by apply op_ok|]; split; [reflexivity|]; split; [done|];
      split; [by repeat constructor|]). exact I.
Defined.

Lemma window_size_reaches_device_witness :
  window_size_r (v_config (deliver 0
    (calls mmio_write (r_tr (dma_set_window_size 24 at_zero sim_init))) (settled reset))) = 24.
Proof.
  destruct (window_size_reaches_device 24 at_zero sim_init (settled reset)) as (_ & _ & E);
    [reflexivity | done |].
  change 0 with (c_bar0 (d_card at_zero)). rewrite E. reflexivity.
Defined.
