(* ===== verification/RegisterMap.v ===== *)
(** * The registers by name

    The driver reaches the engine through the packed structures of NfpTypes.v, the
    hardware decodes word addresses (EngineManager.v, EngineReads.v).  Member by member:
    the one register, or the one entry of the one table, that a store through the member
    changes, and the word that a load through it gets.  Not every member is read back
    where it was written: a store to [total_bytes] sets the size of the window, a load
    gets the count of bytes; [address] and [generate_irq] answer for the active
    descriptor, whichever the driver asks for; and the last four registers answer with
    measurements. *)

From S2P Require Import Prelude NfpTypes EngineManager EngineReads DeviceDma.
From Stdlib Require Import ZArith Lia.
From stdpp Require Import base list strings gmap.
Local Open Scope string_scope.
Local Open Scope list_scope.
Local Open Scope Z_scope.

Section Map.
Context {R : Type} `{B : Bram R}.
Implicit Types d : device (R := R).

(** ** What the hardware has of each member *)

(** A store of [v] through a member of [struct dma_engine]. *)
Definition set_register (f : string) (v : Z) d : device (R := R) :=
  let (caps, mode, last, window, buffer, off, incr, tlps) := v_config d in
  Device (if decide (f = "control") then Z.testbit v 0 else v_enable d) (v_active d)
    (if decide (f = "control") then
       Config ((v / 4) mod 4) ((v / 16) mod 4) last window buffer off incr tlps
     else if decide (f = "complete_until_descriptor") then
       Config caps mode (v mod 1024) window buffer off incr tlps
     else if decide (f = "total_bytes") then Config caps mode last v buffer off incr tlps
     else if decide (f = "host_buffer_size") then Config caps mode last window v off incr tlps
     else if decide (f = "address_offset") then Config caps mode last window buffer v incr tlps
     else if decide (f = "address_inc") then Config caps mode last window buffer off v tlps
     else if decide (f = "number_of_tlps") then Config caps mode last window buffer off incr v
     else v_config d)
    (v_tables d).

(** A store of [v] through a member of descriptor [j]. *)
Definition set_member (f : string) (j v : Z) d : device (R := R) :=
  let t := v_tables d in
  let w g r := if decide (f = g) then bram_write j 255 v r else r in
  Device (v_enable d) (v_active d) (v_config d)
    (Tables (w "size" (mem_size t)) (w "address" (mem_address t)) (w "generate_irq" (mem_control t))
      (mem_time t) (mem_req_time t) (mem_comp_time t) (mem_req_bytes t) (mem_comp_bytes t)).

(** The word of a member of [struct dma_engine]. *)
Definition register (f : string) (s : full (R := R)) : Z :=
  let m := f_manager s in
  let c := f_counters s in
  let last r := bram_read r 1023 in
  let t := v_tables (settled m) in
  if decide (f = "control") then
    Z.b2z (enable_r m) + 2 * Z.b2z (reset_r c) + 4 * Z.b2z (running_r c) + 8 * Z.b2z (stop_r m) +
    16 * Z.b2z (error_r c) + 32 * capabilities_r (m_config m)
  else if decide (f = "total_time") then time_r c
  else if decide (f = "total_bytes") then byte_count_r c
  else if decide (f = "host_buffer_size") then last (mem_req_time t)
  else if decide (f = "address_offset") then last (mem_comp_time t)
  else if decide (f = "address_inc") then last (mem_req_bytes t)
  else if decide (f = "number_of_tlps") then last (mem_comp_bytes t)
  else last_index_descriptor_r (m_config m) + 1024 * active_index_descriptor_r m.

(** The word of a member of descriptor [j]. *)
Definition member (f : string) (j : Z) (s : full (R := R)) : Z :=
  let d := settled (f_manager s) in
  let t := v_tables d in
  if decide (f = "address") then bram_read (mem_address t) (v_active d)
  else if decide (f = "size") then bram_read (mem_size t) j
  else if decide (f = "generate_irq") then bram_read (mem_control t) (v_active d)
  else if decide (f = "latency") then bram_read (mem_time t) j
  else if decide (f = "time_at_req") then bram_read (mem_req_time t) j
  else if decide (f = "time_at_comp") then bram_read (mem_comp_time t) j
  else if decide (f = "bytes_at_req") then bram_read (mem_req_bytes t) j
  else bram_read (mem_comp_bytes t) j.

(** A cycle of the card with the store of [v] to the [n] bytes at [o] from the engine. *)
Definition stores (bar0 o n v : Z) (i : input) : Prop :=
  calm i /\
  access_of i = Some (access_for bar0 (bar0 + 8 * DMA_OFFSET + o, bytes_of (Z.to_nat n) v)).

(** The word of a load at [o] from the engine. *)
Definition loaded (o : Z) (s : full (R := R)) : Z := word_at s ((8 * DMA_OFFSET + o) / 8).

(** ** The decoder *)

(** No store to the first engine is the reset. *)
Lemma engine_no_reset bar0 o bs :
  0 <= o < 8 * OFFSET_BETWEEN_ENGINES ->
  user_reset (access_for bar0 (bar0 + 8 * DMA_OFFSET + o, bs)) = false.
Proof.
  unfold OFFSET_BETWEEN_ENGINES. intros Ho. unfold user_reset, access_for, DMA_OFFSET,
    C_ENGINE_TABLE_OFFSET, C_NUM_ENGINES, C_OFFSET_BETWEEN_ENGINES. cbn [x_addr fst].
  replace (bar0 + 8 * 512 + o - bar0) with (8 * 512 + o) by lia.
  destruct (Z.eqb_spec ((8 * 512 + o) / 8) (512 + 2 * 16384)) as [E|]; [|done].
  Z.to_euclidean_division_equations. lia.
Qed.

Lemma store_once bar0 o n v i m :
  0 <= o < 8 * OFFSET_BETWEEN_ENGINES -> stores bar0 o n v i ->
  settled (logic_step i m) =
    deliver bar0 [(bar0 + 8 * DMA_OFFSET + o, bytes_of (Z.to_nat n) v)] (settled m).
Proof.
  intros Ho [Hc Ha]. rewrite (proj2 (logic_step_spec i m) Hc), Ha.
  unfold logic_access. by rewrite engine_no_reset.
Qed.

(** Word [k] of descriptor [j]: the host writes three tables. *)
Lemma member_word j k din we (t : tables (R := R)) :
  0 <= j < C_NUM_DESCRIPTORS -> 0 <= k < 8 ->
  table_write (Access (C_ENGINE_TABLE_OFFSET + (8 + 8 * j + k)) din we) t =
    let w n r := if k =? n then bram_write j we din r else r in
    Tables (w 1 (mem_size t)) (w 0 (mem_address t)) (w 2 (mem_control t))
      (mem_time t) (mem_req_time t) (mem_comp_time t) (mem_req_bytes t) (mem_comp_bytes t).
Proof.
  unfold C_NUM_DESCRIPTORS. intros Hj Hk.
  unfold table_write, in_tables, effective_addres, table_index, c_offset_engines_config,
    c_offset_between_descriptors, C_NUM_DESCRIPTORS. cbn [x_addr x_din x_we].
  replace (C_ENGINE_TABLE_OFFSET + (8 + 8 * j + k) - C_ENGINE_TABLE_OFFSET - 8) with (k + j * 8) by lia.
  rewrite (wrap_id 32 (k + j * 8)) by (unfold fits; lia).
  destruct (Z.leb_spec (k + j * 8) (8 * 1024)); [|lia].
  rewrite Z.mod_add, (Z.mod_small k) by lia.
  assert (T : forall n, k = n -> (u32 (k + j * 8 - n) / 8) mod 1024 = j).
  { intros n ->. replace (n + j * 8 - n) with (j * 8) by lia.
    rewrite (wrap_id 32) by (unfold fits; lia). by rewrite Z.div_mul, Z.mod_small by lia. }
  f_equal; (case_match eqn:E; [|done]; apply Z.eqb_eq in E; by rewrite T).
Qed.

Lemma table_read_member active j k (t : tables (R := R)) :
  0 <= j < 1024 -> 0 <= k < 8 ->
  table_read active (C_ENGINE_TABLE_OFFSET + (8 + 8 * j + k)) t =
    if k =? 0 then bram_read (mem_address t) active
    else if k =? 1 then bram_read (mem_size t) j
    else if k =? 2 then bram_read (mem_control t) active
    else bram_read
      (if k =? 3 then mem_time t else if k =? 4 then mem_req_time t
       else if k =? 5 then mem_comp_time t else if k =? 6 then mem_req_bytes t
       else mem_comp_bytes t) j.
Proof.
  intros Hj Hk. destruct (Z.leb_spec 3 k).
  { rewrite table_read_status by lia. unfold C_NUM_DESCRIPTORS. rewrite Z.mod_small by lia.
    by rewrite ?(proj2 (Z.eqb_neq k 0)), ?(proj2 (Z.eqb_neq k 1)), ?(proj2 (Z.eqb_neq k 2)) by lia. }
  unfold table_read, effective_addres, table_index, c_offset_engines_config,
    c_offset_between_descriptors, C_NUM_DESCRIPTORS.
  replace (C_ENGINE_TABLE_OFFSET + (8 + 8 * j + k) - C_ENGINE_TABLE_OFFSET - 8) with (k + j * 8) by lia.
  rewrite (wrap_id 32 (k + j * 8)), Z.mod_add by (unfold fits; lia).
  assert (k = 0 \/ k = 1 \/ k = 2) as [-> | [-> | ->]] by lia; [done | | done].
  replace (1 + j * 8 - 1) with (j * 8) by lia. rewrite (wrap_id 32) by (unfold fits; lia).
  by rewrite Z.div_mul, (Z.mod_small j) by lia.
Qed.

(** ** The members *)

Lemma member_store bar0 j f k v d :
  0 <= j < 1024 -> fits 64 v -> offsetof f dma_descriptor = 8 * k -> 0 <= k < 8 ->
  deliver bar0 [(bar0 + 8 * DMA_OFFSET + descriptor_off j f, bytes_of 8 v)] d =
    let t := v_tables d in
    let w n r := if k =? n then bram_write j 255 v r else r in
    Device (v_enable d) (v_active d) (v_config d)
      (Tables (w 1 (mem_size t)) (w 0 (mem_address t)) (w 2 (mem_control t))
        (mem_time t) (mem_req_time t) (mem_comp_time t) (mem_req_bytes t) (mem_comp_bytes t)).
Proof.
  intros Hj Hv Ho Hk. unfold descriptor_off. rewrite Ho.
  change (engine_off 0 "dma_descriptor") with 64. change (sizeof dma_descriptor) with 64.
  replace (64 + j * 64 + 8 * k) with (8 * (8 + 8 * j + k)) by lia.
  unfold deliver, apply_accesses. cbn [fmap list_fmap fold_left].
  rewrite access_word, of_bytes_of_8, bytes_of_length by done.
  unfold apply_access. by rewrite table_control, table_config, member_word by (unfold C_NUM_DESCRIPTORS; lia).
Qed.

Lemma member_load j f k (s : full (R := R)) :
  0 <= j < 1024 -> offsetof f dma_descriptor = 8 * k -> 0 <= k < 8 ->
  loaded (descriptor_off j f) s =
    table_read (v_active (settled (f_manager s))) (C_ENGINE_TABLE_OFFSET + (8 + 8 * j + k))
      (v_tables (settled (f_manager s))).
Proof.
  intros Hj Ho Hk. unfold loaded, descriptor_off. rewrite Ho.
  change (engine_off 0 "dma_descriptor") with 64. change (sizeof dma_descriptor) with 64.
  replace (8 * DMA_OFFSET + (64 + j * 64 + 8 * k)) with ((C_ENGINE_TABLE_OFFSET + (8 + 8 * j + k)) * 8)
    by (unfold DMA_OFFSET, C_ENGINE_TABLE_OFFSET; lia).
  rewrite Z.div_mul by lia. unfold word_at, is_engine_word.
  destruct (Z.leb_spec (C_ENGINE_TABLE_OFFSET + (8 + 8 * j + k)) (C_ENGINE_TABLE_OFFSET + 3)); [lia|].
  by rewrite andb_false_r.
Qed.

(** A store to bytes of the second word that leaves out its first one. *)
Lemma store_upper bar0 o n v d :
  0 < o < 8 -> 0 <= n -> fits (8 * n) v ->
  deliver bar0 [(bar0 + 8 * DMA_OFFSET + (8 + o), bytes_of (Z.to_nat n) v)] d = d.
Proof.
  intros Ho Hn Hv. unfold deliver, apply_accesses. cbn [fmap list_fmap fold_left].
  assert (A : access_for bar0 (bar0 + 8 * DMA_OFFSET + (8 + o), bytes_of (Z.to_nat n) v) =
    Access (C_ENGINE_TABLE_OFFSET + 1) (of_bytes (bytes_of (Z.to_nat n) v) * 2 ^ (8 * o))
      ((2 ^ n - 1) * 2 ^ o)).
  { unfold access_for, DMA_OFFSET, C_ENGINE_TABLE_OFFSET. cbn [fst snd]. rewrite bytes_of_length.
    replace (bar0 + 8 * 512 + (8 + o) - bar0) with (o + 513 * 8) by lia.
    rewrite Z.div_add, Z.mod_add, (Z.mod_small o), (Z.div_small o) by lia. by rewrite Z2Nat.id by lia. }
  rewrite A. unfold apply_access. rewrite register_control, register_tables by lia.
  unfold write_config, write_last_index. destruct d as [e a [] t].
  cbn [x_addr x_din x_we v_config v_enable v_active v_tables]. rewrite Z.mul_pow2_bits_low by lia.
  cbv beta iota zeta delta [Z.eqb Z.add Pos.eqb Pos.add Pos.succ C_ENGINE_TABLE_OFFSET].
  by case_match.
Qed.

(** The scalar members of [struct dma_engine] and the members of [struct dma_descriptor]. *)
Ltac each_member H :=
  repeat (apply elem_of_cons in H as [[= -> ->] | H]); [.. | by apply elem_of_nil in H].

(** The place, in words, of the member that the goal is about. *)
Ltac at_engine_word tac :=
  match goal with |- context [engine_off 0 ?f] =>
    let k := eval vm_compute in (engine_off 0 f / 8) in tac k end.
Ltac at_member tac :=
  match goal with |- context [descriptor_off _ ?f] =>
    let k := eval vm_compute in (offsetof f dma_descriptor / 8) in tac k end.

(** The members are in the words of the first engine. *)
Lemma register_range f n :
  (f, n) ∈ dma_engine -> n <= 8 -> 0 <= engine_off 0 f < 8 * OFFSET_BETWEEN_ENGINES.
Proof. intros Hf Hn. unfold dma_engine in Hf. each_member Hf; try (vm_compute in Hn; done). Qed.

Lemma descriptor_range f n j :
  (f, n) ∈ dma_descriptor -> 0 <= j < 1024 -> 0 <= descriptor_off j f < 8 * OFFSET_BETWEEN_ENGINES.
Proof.
  intros Hf Hj. unfold descriptor_off, OFFSET_BETWEEN_ENGINES. change (engine_off 0 "dma_descriptor") with 64.
  change (sizeof dma_descriptor) with 64. unfold dma_descriptor in Hf.
  each_member Hf; match goal with |- context [offsetof ?f ?l] =>
    let o := eval vm_compute in (offsetof f l) in change (offsetof f l) with o end; lia.
Qed.

Lemma register_store bar0 f n v d :
  (f, n) ∈ dma_engine -> n <= 8 -> fits (8 * n) v ->
  deliver bar0 [(bar0 + 8 * DMA_OFFSET + engine_off 0 f, bytes_of (Z.to_nat n) v)] d =
    set_register f v d.
Proof.
  intros Hf Hn Hv. unfold dma_engine in Hf. each_member Hf; try (vm_compute in Hn; done);
    try (at_engine_word ltac:(fun k => rewrite (deliver_register bar0 _ k) by done;
      unfold set_register; by destruct d as [? ? [] ?])).
  - change (engine_off 0 "control") with (8 * 0). unfold deliver, apply_accesses.
    cbn [fmap list_fmap fold_left]. rewrite access_word, of_bytes_of_8, bytes_of_length by done.
    unfold apply_access. rewrite register_tables by lia. unfold write_config, set_register.
    by destruct (v_config d).
  - change (engine_off 0 "complete_until_descriptor") with (8 * 1). unfold deliver, apply_accesses.
    cbn [fmap list_fmap fold_left]. rewrite access_word, of_bytes_of, bytes_of_length.
    unfold apply_access. rewrite register_control, register_tables by lia.
    unfold write_config, set_register. rewrite (Z.mod_small v) by done. by destruct (v_config d).
  - rewrite (store_upper bar0 2) by done. unfold set_register. by destruct d as [? ? [] ?].
  - rewrite (store_upper bar0 4) by done. unfold set_register. by destruct d as [? ? [] ?].
  - change (engine_off 0 "total_time") with (8 * 2). unfold deliver, apply_accesses.
    cbn [fmap list_fmap fold_left]. rewrite access_word, bytes_of_length.
    unfold apply_access. rewrite register_control, register_tables by lia.
    unfold set_register, write_config. by destruct d as [? ? [] ?].
Qed.

Lemma register_load f n (s : full (R := R)) :
  (f, n) ∈ dma_engine -> n <= 8 -> loaded (engine_off 0 f) s = register f s.
Proof.
  intros Hf Hn. unfold dma_engine in Hf. by each_member Hf; try (vm_compute in Hn; done).
Qed.

Lemma descriptor_store bar0 f n j v d :
  (f, n) ∈ dma_descriptor -> 0 <= j < 1024 -> fits (8 * n) v ->
  deliver bar0 [(bar0 + 8 * DMA_OFFSET + descriptor_off j f, bytes_of (Z.to_nat n) v)] d =
    set_member f j v d.
Proof.
  intros Hf Hj Hv. unfold dma_descriptor in Hf. each_member Hf;
    change (Z.to_nat 8) with 8%nat; at_member ltac:(fun k => by rewrite (member_store bar0 j _ k)).
Qed.

Lemma descriptor_load f n j (s : full (R := R)) :
  (f, n) ∈ dma_descriptor -> 0 <= j < 1024 -> loaded (descriptor_off j f) s = member f j s.
Proof.
  intros Hf Hj. unfold dma_descriptor in Hf. each_member Hf;
    at_member ltac:(fun k => by rewrite (member_load j _ k), table_read_member).
Qed.

(** C37.  The members of the driver's structures are the registers of the hardware.  A store
    through a scalar member of the engine, or through a member of any descriptor, in a cycle
    of the clock changes the device exactly as its name has it ([set_register],
    [set_member]): the register, or the entry of the one table, and nothing else, in
    particular it is never the reset.  The word of a load at the member ([word_at], which
    is what a load on the bus gets) is the one of its name ([register], [member]). *)
Theorem register_map bar0 f n v :
  fits (8 * n) v ->
  ((f, n) ∈ dma_engine -> n <= 8 ->
    (forall i m, stores bar0 (engine_off 0 f) n v i ->
      settled (logic_step i m) = set_register f v (settled m)) /\
    (forall s : full (R := R), loaded (engine_off 0 f) s = register f s)) /\
  (forall j, (f, n) ∈ dma_descriptor -> 0 <= j < MAX_NUM_DMA_DESCRIPTORS ->
    (forall i m, stores bar0 (descriptor_off j f) n v i ->
      settled (logic_step i m) = set_member f j v (settled m)) /\
    (forall s : full (R := R), loaded (descriptor_off j f) s = member f j s)).
Proof.
  intros Hv. split.
  - intros Hf Hn. split; [|intros s; by apply (register_load f n)].
    intros i m Hs. rewrite (store_once _ _ _ _ _ _ (register_range f n Hf Hn) Hs).
    by apply register_store.
  - intros j Hf Hj. split; [|intros s; by apply (descriptor_load f n)].
    intros i m Hs. rewrite (store_once _ _ _ _ _ _ (descriptor_range f n j Hf Hj) Hs).
    by apply descriptor_store.
Qed.
End Map.

(** The store of the size of descriptor 5, and of the last index, on a card after its reset. *)
Definition store_at (o n v : Z) : input :=
  Input true (access_for 0 (0 + 8 * DMA_OFFSET + o, bytes_of (Z.to_nat n) v)) false false stats_zero.

Lemma register_map_witness :
  let m := settled (logic_step (store_at (descriptor_off 5 "size") 8 512) reset) in
  let m' := settled (logic_step (store_at (engine_off 0 "complete_until_descriptor") 2 7) reset) in
  bram_read (mem_size (v_tables m)) 5 = 512 /\ bram_read (mem_address (v_tables m)) 5 = 0 /\
  v_config m' = Config 2 0 7 C_DEFAULT_WINDOW_SIZE 0 0 0 0.
Proof.
  cbv zeta. split; [|split].
  - rewrite (proj1 (proj2 (register_map 0 "size" 8 512 ltac:(done)) 5 ltac:(by repeat constructor)
      ltac:(done)) (store_at (descriptor_off 5 "size") 8 512) reset); [by vm_compute | by split].
  - rewrite (proj1 (proj2 (register_map 0 "size" 8 512 ltac:(done)) 5 ltac:(by repeat constructor)
      ltac:(done)) (store_at (descriptor_off 5 "size") 8 512) reset); [by vm_compute | by split].
  - rewrite (proj1 (proj1 (register_map 0 "complete_until_descriptor" 2 7 ltac:(done))
      ltac:(by repeat constructor) ltac:(done))
      (store_at (engine_off 0 "complete_until_descriptor") 2 7) reset); [by vm_compute | by split].
Defined.
