(* ===== verification/Completer.v ===== *)
(** * Loads and stores of the host at the card (pcie_completer_to_bram.sv)

    The PCI Express core of the vendor presents the requests of the host; this module
    turns one at a time into an access of the memory interface, and a read into a
    completion.  Here are its state machine and its wires, what the specification of PCI
    Express has for a load or a store ([asks], [carries]), and that the module has the
    right access and the right completion for it.  CardBus.v has the module at work. *)

From S2P Require Import Prelude EngineManager DeviceDma.
From Stdlib Require Import ZArith Lia Ascii String.
From stdpp Require Import base list strings gmap.
Local Open Scope Z_scope.

(** Bits [hi] to [lo]. *)
Definition bits (hi lo z : Z) : Z := (z / 2 ^ lo) mod 2 ^ (hi - lo + 1).

(** ** The state *)

Inductive c_state :=
| S_RESET | S_WAIT_FOR_REQ | S_STORE_WR_REQ | S_STORE_RD_REQ | S_WAIT_FOR_RD_CPL
| S_SEND_RD_CPL | S_SEND_UNSUPPORTED_REQ.

Inductive c_decoded := NO_REQ | VALID_RD_REQ | VALID_WR_REQ | UNSUPPORTED_REQ.

#[export] Instance c_state_eq_dec : EqDecision c_state.
Proof. solve_decision. Defined.

(** A beat of the completer request interface. *)
Record cq := Cq { m_axis_cq_tdata : Z; m_axis_cq_tuser : Z; m_axis_cq_tvalid : bool }.

Record request := Request {
  req_at : Z; req_addr : Z; req_dword_cnt : Z; req_type : Z; req_reqr_id : Z; req_tag : Z;
  req_bar_id : Z; req_tc : Z; req_attr : Z; req_data : Z; req_first_be : Z; req_last_be : Z
}.

Record completer := Completer {
  c_st : c_state;
  c_req : request;
  cpl_lower_addr : Z;
  cpl_byte_cnt : Z;
  cpl_data : Z
}.

(** ** Requests: lines 109 to 148 *)

Definition C_MEM_RD_REQ : Z := 0.
Definition C_MEM_WR_REQ : Z := 1.
Definition BAR : Z := 0.                                  (* pcie_controller.sv *)

Definition cq_fields (q : cq) : request :=
  let d := m_axis_cq_tdata q in
  let u := m_axis_cq_tuser q in
  Request (bits 1 0 d) (bits 63 2 d) (bits 74 64 d) (bits 78 75 d) (bits 95 80 d) (bits 103 96 d)
    (bits 114 112 d) (bits 123 121 d) (bits 126 124 d) (bits 191 128 d) (bits 3 0 u) (bits 7 4 u).

Definition valid_dword_cnt (r : request) : bool :=
  (req_dword_cnt r =? 1) || (req_dword_cnt r =? 2).

Definition decoded_req (q : cq) : c_decoded :=
  let r := cq_fields q in
  let u := m_axis_cq_tuser q in
  if Z.testbit u 40 && negb (Z.testbit u 41) && m_axis_cq_tvalid q then
    if (req_type r =? C_MEM_RD_REQ) && (req_bar_id r =? BAR) then
      if valid_dword_cnt r then VALID_RD_REQ else UNSUPPORTED_REQ
    else if (req_type r =? C_MEM_WR_REQ) && (req_bar_id r =? BAR) then
      if valid_dword_cnt r then VALID_WR_REQ else UNSUPPORTED_REQ
    else NO_REQ
  else NO_REQ.

(** ** The state machine: lines 151 to 214 *)

Definition next_state (d : c_decoded) (ack tready : bool) (s : c_state) : c_state :=
  match s with
  | S_RESET => S_WAIT_FOR_REQ
  | S_WAIT_FOR_REQ =>
      match d with
      | NO_REQ => S_WAIT_FOR_REQ
      | VALID_RD_REQ => S_STORE_RD_REQ
      | VALID_WR_REQ => S_STORE_WR_REQ
      | UNSUPPORTED_REQ => S_SEND_UNSUPPORTED_REQ
      end
  | S_STORE_WR_REQ => S_WAIT_FOR_REQ
  | S_STORE_RD_REQ => S_WAIT_FOR_RD_CPL
  | S_WAIT_FOR_RD_CPL => if ack then S_SEND_RD_CPL else S_WAIT_FOR_RD_CPL
  | S_SEND_RD_CPL => if tready then S_WAIT_FOR_REQ else S_SEND_RD_CPL
  | S_SEND_UNSUPPORTED_REQ => S_WAIT_FOR_REQ
  end.

Definition next_req (q : cq) (c : completer) : request :=
  match c_st c, decoded_req q with
  | S_WAIT_FOR_REQ, NO_REQ => c_req c
  | S_WAIT_FOR_REQ, _ => cq_fields q
  | _, _ => c_req c
  end.

(** ** The memory interface: lines 221 to 248 *)

Definition mem_en (c : completer) : bool :=
  match c_st c with S_STORE_RD_REQ | S_STORE_WR_REQ => true | _ => false end.

Definition mem_addr (r : request) : Z := bits 24 1 (req_addr r).

(** The address is the one of dma_sriov_top.v: 16 bits of it. *)
Definition mem_access (c : completer) : access :=
  let r := c_req c in
  let odd := Z.odd (req_addr r) in
  let one := req_dword_cnt r =? 1 in
  let lo := bits 31 0 (req_data r) in
  let (din, we) :=
    match c_st c with
    | S_STORE_WR_REQ =>
        if one then
          if odd then (lo * 2 ^ 32, req_first_be r * 2 ^ 4) else (lo, req_first_be r)
        else (req_data r, req_last_be r * 2 ^ 4 + req_first_be r)
    | _ => (0, 0)
    end in
  Access (u16 (mem_addr r)) din we.

(** ** The completion: lines 254 to 378 *)

(** casex: a pattern of bits, the most significant one first. *)
Fixpoint casex (p : list Ascii.ascii) (v : Z) : bool :=
  match p with
  | [] => true
  | b :: p' =>
      (match b with
       | "1"%char => Z.testbit v (Z.of_nat (length p'))
       | "0"%char => negb (Z.testbit v (Z.of_nat (length p')))
       | _ => true
       end) && casex p' v
  end.

Fixpoint select (t : list (string * (Z * Z))) (v : Z) : option (Z * Z) :=
  match t with
  | [] => None
  | (p, x) :: t' => if casex (String.list_ascii_of_string p) v then Some x else select t' v
  end.

(** The patterns of req_first_be, and of req_last_be with req_first_be: the count of
    bytes, and the low bits of the address. *)
Definition one_dword : list (string * (Z * Z)) :=
  [("1xx1", (4, 0)); ("01x1", (3, 0)); ("1x10", (3, 1)); ("0011", (2, 0)); ("0110", (2, 1));
   ("1100", (2, 2)); ("0001", (1, 0)); ("0010", (1, 1)); ("0100", (1, 2)); ("1000", (1, 3))]%string.

Definition two_dwords : list (string * (Z * Z)) :=
  [("1xxxxxx1", (8, 0)); ("01xxxxx1", (7, 0)); ("001xxxx1", (6, 0)); ("0001xxx1", (5, 0));
   ("1xxxxx10", (7, 1)); ("01xxxx10", (6, 1)); ("001xxx10", (5, 1)); ("0001xx10", (4, 1));
   ("1xxxx100", (6, 2)); ("01xxx100", (5, 2)); ("001xx100", (4, 2)); ("0001x100", (3, 2));
   ("1xxx1000", (5, 3)); ("01xx1000", (4, 3)); ("001x1000", (3, 3)); ("00011000", (2, 3))]%string.

Definition counted (r : request) : option (Z * Z) :=
  if req_dword_cnt r =? 1 then select one_dword (req_first_be r)
  else select two_dwords (req_last_be r * 2 ^ 4 + req_first_be r).

Definition read_word (r : request) (dout : Z) : Z :=
  if req_dword_cnt r =? 1 then
    if Z.odd (req_addr r) then bits 63 32 dout else bits 31 0 dout
  else dout.

Definition next_cpl (dout : Z) (c : completer) : Z * Z * Z :=
  match c_st c with
  | S_WAIT_FOR_RD_CPL =>
      let r := c_req c in
      match counted r with
      | Some (n, low) => ((req_addr r * 4 + low) mod 2 ^ 7, n, read_word r dout)
      | None => (cpl_lower_addr c, cpl_byte_cnt c, read_word r dout)
      end
  | _ => (cpl_lower_addr c, cpl_byte_cnt c, cpl_data c)
  end.

Definition completer_step (q : cq) (ack tready : bool) (dout : Z) (c : completer) : completer :=
  let '(low, n, data) := next_cpl dout c in
  Completer (next_state (decoded_req q) ack tready (c_st c)) (next_req q c) low n data.

(** Lines 380 to 420: the completion, from its least significant field, with the widths. *)
Definition cc_fields (c : completer) : list (Z * Z) :=
  let r := c_req c in
  [(7, cpl_lower_addr c); (1, 0); (2, req_at r); (6, 0); (13, cpl_byte_cnt c); (1, 0); (2, 0);
   (11, req_dword_cnt r); (3, 0); (1, 0); (1, 0); (16, req_reqr_id r); (8, req_tag r); (16, 0);
   (1, 0); (3, req_tc r); (3, req_attr r); (1, 0); (64, cpl_data c); (96, 0)].

Fixpoint fields_value (l : list (Z * Z)) : Z :=
  match l with
  | [] => 0
  | (w, v) :: l' => v + 2 ^ w * fields_value l'
  end.

(** A field is where the widths below it put it. *)
Lemma field_found w v l1 l2 :
  0 <= w -> 0 <= v < 2 ^ w -> Forall (fun x => 0 <= x.1 /\ 0 <= x.2 < 2 ^ x.1) l1 ->
  let lo := fold_right (fun x n => x.1 + n) 0 l1 in
  bits (lo + w - 1) lo (fields_value (l1 ++ (w, v) :: l2)) = v.
Proof.
  intros Hw Hv H. cbv zeta. unfold bits. replace (_ + w - 1 - _ + 1) with w by lia.
  induction H as [|[w1 v1] l1 [H1 H2] HF IH]; cbn [app fold_right fields_value fst snd] in *.
  - rewrite Z.div_1_r, Z.mul_comm, Z.mod_add by lia. by apply Z.mod_small.
  - assert (0 <= fold_right (fun x n => x.1 + n) 0 l1) as Hl.
    { clear -HF. induction HF as [|x l [Hx _] HF IH]; cbn; lia. }
    rewrite Z.pow_add_r, <- Z.div_div by (try apply Z.pow_nonzero; lia).
    rewrite (Z.mul_comm (2 ^ w1)), Z.div_add, (Z.div_small v1) by lia. by rewrite Z.add_0_l.
Qed.

Lemma bits_bounds hi lo z : lo <= hi -> 0 <= bits hi lo z < 2 ^ (hi - lo + 1).
Proof. intros H. apply Z.mod_pos_bound. apply Z.pow_pos_nonneg; lia. Qed.

Ltac fields_fit := repeat (apply Forall_cons_2; [cbn; lia|]); apply Forall_nil_2.

(** s_axis_cc_tvalid, and s_axis_cc_tdata with s_axis_cc_tkeep. *)
Definition completion (c : completer) : option (Z * Z) :=
  match c_st c with
  | S_SEND_RD_CPL =>
      Some (fields_value (cc_fields c), if req_dword_cnt (c_req c) =? 1 then 15 else 31)
  | _ => None
  end.

(** ** Requests of loads and stores

    What the specification of PCI Express has for an access of [len] bytes at offset [o]
    of the BAR that stays within an aligned word of 64 bits: the address of the first
    dword, the count of dwords, and the enables of the bytes of the first and of the
    last one. *)
Record asks (r : request) (o len : Z) : Prop := {
  ask_len : 0 < len;
  ask_word : o mod 8 + len <= 8;
  ask_range : 0 <= o < 2 ^ 19;
  ask_addr : req_addr r mod 2 ^ 17 = o / 4;
  ask_cnt : req_dword_cnt r = (o mod 4 + len + 3) / 4;
  ask_first : req_first_be r = ((2 ^ len - 1) * 2 ^ (o mod 4)) mod 16;
  ask_last : req_last_be r = ((2 ^ len - 1) * 2 ^ (o mod 4)) / 16
}.

(** A store carries its bytes in their places, and anything in the others. *)
Record carries (r : request) (o : Z) (bs : list Z) : Prop := {
  carries_asks : asks r o (Z.of_nat (length bs));
  carries_data i b : bs !! i = Some b -> byte_at (req_data r) (o mod 4 + Z.of_nat i) = b
}.

Lemma ask_cases r o len :
  asks r o len ->
  (o mod 4 = 0 \/ o mod 4 = 1 \/ o mod 4 = 2 \/ o mod 4 = 3) /\
  (len = 1 \/ len = 2 \/ len = 3 \/ len = 4 \/ len = 5 \/ len = 6 \/ len = 7 \/ len = 8) /\
  (o mod 8 = o mod 4 /\ Z.odd (req_addr r) = false \/
   o mod 8 = 4 + o mod 4 /\ Z.odd (req_addr r) = true /\ o mod 4 + len <= 4).
Proof.
  intros [Hl Hw [Ho _] Ha _ _ _].
  assert (O : Z.odd (req_addr r) = ((o / 4) mod 2 =? 1)).
  { rewrite <- Ha, Z.mod_mod_divide by (by exists (2 ^ 16)). rewrite Zmod_odd.
    by destruct (Z.odd (req_addr r)). }
  pose proof (Z.rem_mul_r o 4 2) as M. change (4 * 2) with 8 in M.
  pose proof (Z.mod_pos_bound o 4). pose proof (Z.mod_pos_bound (o / 4) 2).
  rewrite O. destruct (Z.eqb_spec ((o / 4) mod 2) 1); lia.
Qed.

Ltac ask_split H :=
  let Ho := fresh "Ho" in let Hn := fresh "Hn" in let Hw := fresh "Hw" in let Hb := fresh "Hb" in
  destruct (ask_cases _ _ _ H) as (Ho & Hn & Hw);
  destruct H as [_ ?Hb _ _ ?Hcnt ?Hfirst ?Hlast].

(** The patterns of the completer count the bytes that are asked for, and find the
    offset of the first one. *)
Lemma counted_spec r o len : asks r o len -> counted r = Some (len, o mod 4).
Proof.
  intros H. ask_split H. unfold counted. rewrite Hcnt, Hfirst, Hlast.
  destruct Ho as [E | [E | [E | E]]]; rewrite E in *;
    destruct Hn as [-> | [-> | [-> | [-> | [-> | [-> | [-> | ->]]]]]]]; done || (exfalso; lia).
Qed.

Lemma bits_mod z : bits 31 0 z = z mod 256 ^ 4.
Proof. unfold bits. by rewrite Z.div_1_r. Qed.

Lemma one_dword_asked r o len : asks r o len -> (req_dword_cnt r =? 1) = (o mod 4 + len <=? 4).
Proof.
  intros H. ask_split H. rewrite Hcnt.
  destruct Ho as [E | [E | [E | E]]]; rewrite E in *;
    destruct Hn as [-> | [-> | [-> | [-> | [-> | [-> | [-> | ->]]]]]]]; done || (exfalso; lia).
Qed.

(** The bytes asked for are where the request has them. *)
Lemma read_word_spec r o len i word :
  asks r o len -> 0 <= i < len ->
  byte_at (read_word r word) (o mod 4 + i) = byte_at word (o mod 8 + i).
Proof.
  intros H Hi. unfold read_word. rewrite (one_dword_asked r o len H).
  destruct (ask_cases r o len H) as (Ho & _ & Hw). destruct (Z.leb_spec (o mod 4 + len) 4).
  - destruct Hw as [[-> ->] | (-> & -> & _)]; [|].
    + rewrite bits_mod. apply byte_at_mod. lia.
    + unfold bits. change (2 ^ 32) with (256 ^ 4). change (2 ^ (63 - 32 + 1)) with (256 ^ 4).
      rewrite byte_at_mod, byte_at_div by lia. f_equal. lia.
  - destruct Hw as [[-> _] | (_ & _ & Hw)]; [done | lia].
Qed.

Lemma word_asked r o len : asks r o len -> u16 (bits 24 1 (req_addr r)) = o / 8.
Proof.
  intros [_ _ _ Ha _ _ _]. unfold bits, wrap. change (2 ^ (24 - 1 + 1)) with (2 ^ 24).
  rewrite Z.mod_mod_divide by (by exists (2 ^ 8)). change (2 ^ 1) with 2.
  transitivity ((req_addr r mod 2 ^ 17) / 2).
  - change (2 ^ 17) with (2 * 2 ^ 16). rewrite Z.rem_mul_r, (Z.mul_comm 2), Z.div_add by lia.
    rewrite (Z.div_small (req_addr r mod 2)) by (by apply Z.mod_pos_bound). lia.
  - rewrite Ha, Z.div_div by lia. done.
Qed.

Lemma lower_addr_spec r o len : asks r o len -> (req_addr r * 4 + o mod 4) mod 2 ^ 7 = o mod 2 ^ 7.
Proof.
  intros [_ _ _ Ha _ _ _]. pose proof (Z.div_mod (req_addr r) (2 ^ 17)) as M.
  pose proof (Z.div_mod o 4) as N. rewrite Ha in M.
  replace (req_addr r * 4 + o mod 4) with (o + req_addr r / 2 ^ 17 * 2 ^ 12 * 2 ^ 7) by lia.
  by apply Z.mod_add.
Qed.

(** Two dwords of which the first is an odd one, as for a store of 8 bytes at offset 4: the
    completer takes them for those of the aligned word. *)
Example unaligned_store :
  let r := Request 0 1 2 C_MEM_WR_REQ 0 0 0 0 0 77 15 15 in
  mem_access (Completer S_STORE_WR_REQ r 0 0 0) = Access 0 77 255.
Proof. by vm_compute. Qed.

(** ** Accesses that agree on the bytes they enable *)

Record same_access (x y : access) : Prop := {
  same_addr : x_addr x = x_addr y;
  same_we : x_we x = x_we y;
  same_bytes j : 0 <= j < 8 -> Z.testbit (x_we x) j = true ->
    byte_at (x_din x) j = byte_at (x_din y) j
}.

Lemma lane_bytes_same n we d d' l :
  (forall j, 0 <= j < Z.of_nat n -> Z.testbit we j = true -> byte_at d j = byte_at d' j) ->
  lane_bytes we (bytes_of n d) l = lane_bytes we (bytes_of n d') l.
Proof.
  revert we d d' l. induction n as [|n IH]; intros we d d' [|o l] Hb; try done. cbn.
  f_equal.
  - specialize (Hb 0). rewrite Z.bit0_odd in Hb. unfold byte_at in Hb. change (256 ^ 0) with 1 in Hb.
    rewrite !Z.div_1_r in Hb. destruct (Z.odd we); [|done]. apply Hb; lia || done.
  - apply IH. intros j Hj Ht. rewrite Z.div2_spec, Z.shiftr_spec in Ht by lia.
    change (d / 256) with (d / 256 ^ 1). change (d' / 256) with (d' / 256 ^ 1).
    rewrite !byte_at_div, (Z.add_comm 1) by lia. apply Hb; [lia | done].
Qed.

Lemma lanes_same x y old : same_access x y -> lanes (x_we x) (x_din x) old = lanes (x_we y) (x_din y) old.
Proof. intros [_ E B]. unfold lanes. rewrite <- E. f_equal. by apply lane_bytes_same. Qed.

(** The bits of the first byte, when it is enabled. *)
Lemma first_byte_bits z z' :
  byte_at z 0 = byte_at z' 0 ->
  (forall k, 0 <= k < 8 -> Z.testbit z k = Z.testbit z' k) /\
  (z / 4) mod 4 = (z' / 4) mod 4 /\ (z / 16) mod 4 = (z' / 16) mod 4.
Proof.
  unfold byte_at. change (256 ^ 0) with 1. rewrite !Z.div_1_r. intros E. split.
  - intros k Hk. rewrite <- (Z.mod_pow2_bits_low z 8), <- (Z.mod_pow2_bits_low z' 8) by lia.
    change (2 ^ 8) with 256. by rewrite E.
  - split; Z.to_euclidean_division_equations; lia.
Qed.

(** The index of the last descriptor is written whole ([write_last_index]): of its two
    bytes neither alone. *)
Definition whole_index (x : access) : Prop :=
  x_addr x = C_ENGINE_TABLE_OFFSET + 1 -> Z.testbit (x_we x) 0 = true -> Z.testbit (x_we x) 1 = true.

Lemma last_index_same x y l :
  same_access x y -> x_addr x = C_ENGINE_TABLE_OFFSET + 1 -> whole_index x ->
  write_last_index (x_we x) (x_din x) l = write_last_index (x_we y) (x_din y) l.
Proof.
  intros [_ E B] Ha Hw. unfold write_last_index. rewrite <- E.
  destruct (Z.testbit (x_we x) 0) eqn:T0; [|done]. specialize (Hw Ha T0).
  pose proof (B 0 ltac:(lia) T0) as B0. pose proof (B 1 ltac:(lia) Hw) as B1.
  unfold byte_at in B0, B1. change (256 ^ 0) with 1 in B0. change (256 ^ 1) with 256 in B1.
  rewrite !Z.div_1_r in B0. unfold C_NUM_DESCRIPTORS. Z.to_euclidean_division_equations. lia.
Qed.

(** A store is the access of DeviceDma.v. *)
Lemma store_we r o bs :
  carries r o bs ->
  (if req_dword_cnt r =? 1 then if Z.odd (req_addr r) then req_first_be r * 2 ^ 4 else req_first_be r
   else req_last_be r * 2 ^ 4 + req_first_be r) =
  (2 ^ Z.of_nat (length bs) - 1) * 2 ^ (o mod 8).
Proof.
  intros [H _]. rewrite (one_dword_asked _ _ _ H). ask_split H. rewrite Hfirst, Hlast.
  destruct Hw as [[-> ->] | (-> & -> & Hw)];
    destruct Ho as [E | [E | [E | E]]]; rewrite E in *;
    destruct Hn as [Hn | [Hn | [Hn | [Hn | [Hn | [Hn | [Hn | Hn]]]]]]]; rewrite Hn in *;
    done || (exfalso; lia).
Qed.

Lemma ones_bits n s j : 0 <= n -> 0 <= s -> 0 <= j -> Z.testbit ((2 ^ n - 1) * 2 ^ s) j = true -> s <= j < s + n.
Proof.
  intros Hn Hs Hj. rewrite <- Z.shiftl_mul_pow2, Z.shiftl_spec by lia.
  replace (2 ^ n - 1) with (Z.ones n) by (by rewrite Z.ones_equiv, Z.sub_1_r).
  destruct (Z_lt_le_dec (j - s) 0); [by rewrite Z.testbit_neg_r by lia|].
  destruct (Z_lt_le_dec (j - s) n); [lia | by rewrite Z.ones_spec_high by lia].
Qed.

Lemma store_access c o bs bar0 :
  c_st c = S_STORE_WR_REQ -> carries (c_req c) o bs -> Forall is_byte bs ->
  same_access (mem_access c) (access_for bar0 (bar0 + o, bs)).
Proof.
  intros Hc Hr Hb. pose proof (store_we _ _ _ Hr) as W. pose proof Hr as [Hq D].
  pose proof (one_dword_asked _ _ _ Hq) as O1.
  destruct (ask_cases _ _ _ Hq) as (Ho & _ & Hw).
  assert (A : x_we (mem_access c) = x_we (access_for bar0 (bar0 + o, bs))).
  { unfold access_for. cbn [fst snd x_we]. replace (bar0 + o - bar0) with o by lia. rewrite <- W.
    unfold mem_access. rewrite Hc. by repeat case_match. }
  split; [|exact A|].
  - unfold access_for. cbn [fst snd x_addr]. replace (bar0 + o - bar0) with o by lia.
    rewrite <- (word_asked _ _ _ Hq). unfold mem_access. by repeat case_match.
  - rewrite A. unfold access_for. cbn [fst snd x_we x_din]. replace (bar0 + o - bar0) with o by lia.
    intros j Hj Ht. pose proof (Z.mod_pos_bound o 8). apply ones_bits in Ht; [|lia..].
    change 2 with (2 ^ 1). rewrite <- Z.pow_mul_r, Z.mul_1_l by lia.
    rewrite Z.pow_mul_r by lia. change (2 ^ 8) with 256.
    rewrite byte_at_shift by lia.
    destruct (lookup_lt_is_Some_2 bs (Z.to_nat (j - o mod 8))) as [b Eb]; [lia|].
    pose proof (byte_at_of_bytes bs _ b Hb Eb) as E2. rewrite Z2Nat.id in E2 by lia. rewrite E2.
    pose proof (D _ b Eb) as E1. rewrite Z2Nat.id in E1 by lia. rewrite <- E1.
    unfold mem_access. rewrite Hc, O1.
    destruct (Z.leb_spec (o mod 4 + Z.of_nat (length bs)) 4) as [Hl | Hl].
    + destruct Hw as [[Em ->] | (Em & -> & _)]; cbn [x_din]; rewrite bits_mod.
      * rewrite byte_at_mod by lia. f_equal. lia.
      * change (2 ^ 32) with (256 ^ 4). rewrite byte_at_shift, byte_at_mod by lia. f_equal. lia.
    + destruct Hw as [[Em _] | (_ & _ & Hw)]; [|lia]. cbn [x_din]. f_equal. lia.
Qed.

Section Accesses.
Context {R : Type} `{BramLaws R}.

Lemma control_same x y : same_access x y -> write_control x = write_control y /\ user_reset x = user_reset y.
Proof.
  intros [E1 E2 B]. unfold write_control, user_reset. rewrite <- E1, <- E2.
  destruct (Z.testbit (x_we x) 0) eqn:T; [|by rewrite !andb_false_r].
  destruct (first_byte_bits _ _ (B 0 ltac:(lia) T)) as (F & _).
  by rewrite (F 0), (F 1), (F 7) by lia.
Qed.

Lemma config_same x y c : same_access x y -> whole_index x -> write_config x c = write_config y c.
Proof.
  intros S Hw. pose proof S as [E1 E2 B]. unfold write_config. destruct c.
  rewrite !(lanes_same x y _ S). rewrite <- E1, <- E2. destruct (x_we x =? 0); [done|].
  destruct (Z.eqb_spec (x_addr x) C_ENGINE_TABLE_OFFSET) as [Ea | _].
  - destruct (Z.testbit (x_we x) 0) eqn:T; [|done].
    by destruct (first_byte_bits _ _ (B 0 ltac:(lia) T)) as (_ & -> & ->).
  - destruct (Z.eqb_spec (x_addr x) (C_ENGINE_TABLE_OFFSET + 1)) as [Ea | _]; [|done].
    rewrite (last_index_same x y) by done. by rewrite E2.
Qed.

Lemma bram_write_same x y a (r : R) :
  same_access x y -> same_words (bram_write a (x_we x) (x_din x) r) (bram_write a (x_we y) (x_din y) r).
Proof.
  intros S b. destruct (decide (a = b)) as [<-|].
  - by rewrite !bram_read_write, (lanes_same x y _ S).
  - by rewrite !bram_read_other.
Qed.

Lemma logic_access_same x y (d : device (R := R)) :
  same_access x y -> whole_index x -> logic_access x d ≡ logic_access y d.
Proof.
  intros S Hw. unfold logic_access, apply_access. destruct (control_same x y S) as [-> ->].
  destruct (user_reset y); [done|]. rewrite (config_same x y _ S Hw).
  split; [done|]. split; [done|]. split; [done|]. cbn [v_tables].
  unfold table_write, in_tables. rewrite (same_addr _ _ S). destruct (_ <=? _); [|done].
  eightfold; try done; case_match; try done; by apply bram_write_same.
Qed.
End Accesses.
