(* ===== verification/Completions.v ===== *)
(** * The answers to memory reads (FPGA/source/hdl/dma/dma_rc_logic.v)

    The host answers a request in one or more completions, each a packet of one or more
    beats; the module counts the dwords of each tag and raises its bit of COMPLETED_TAGS
    for a cycle when the packet that makes them enough has ended.  One [rc_step] is a
    rising edge.  The data is thrown away, and TREADY is constant.  [tag_completes] says
    that a tag is completed exactly then, when the host answers as PCI Express has it. *)

From S2P Require Import Prelude EngineManager DeviceDma Completer.
From Stdlib Require Import ZArith Lia.
From stdpp Require Import base list.
Local Open Scope Z_scope.

(** ** The registers *)

(** The registers of a tag. *)
Record rc_tag := RcTag {
  completed_tag : bool;              (* completed_tags_r *)
  word_count_tag_r : Z;
  difference_r : Z;
  is_tag_count_exceeded_r : bool
}.

Record completions := Completions {
  is_rc_sop_r : bool;
  tlp_tag_r : Z;
  end_of_tag_r : bool;
  rc_tags : list rc_tag
}.

(** A beat of the requester completion interface. *)
Record rc := Rc { S_AXIS_RC_TDATA : Z; S_AXIS_RC_TLAST : bool; S_AXIS_RC_TVALID : bool }.

(** Lines 118, 156: the fields of the first beat of a completion. *)
Definition tlp_dwords_s (b : rc) : Z := bits 42 32 (S_AXIS_RC_TDATA b).
Definition tlp_tag_s (b : rc) : Z := bits 71 64 (S_AXIS_RC_TDATA b).

(** The beat is the first one of a completion of tag [j]. *)
Definition starts_tag (c : completions) (b : rc) (j : nat) : bool :=
  is_rc_sop_r c && S_AXIS_RC_TVALID b && (Z.of_nat j =? tlp_tag_s b).

(** It is the only one, and has all that is missing. *)
Definition in_one_pulse (b : rc) (t : rc_tag) : bool :=
  (tlp_dwords_s b <=? 5) && (difference_r t <=? tlp_dwords_s b).

(** Lines 181 to 246, for a tag that is busy or not, with the size of its request. *)
Definition next_rc_tag (c : completions) (b : rc) (busy : bool) (size : Z) (j : nat) (t : rc_tag) : rc_tag :=
  let n := tlp_dwords_s b in
  let one := S_AXIS_RC_TLAST b && in_one_pulse b t in
  RcTag
    (negb (completed_tag t) && busy && (S_AXIS_RC_TVALID b && S_AXIS_RC_TLAST b) &&
     ((is_tag_count_exceeded_r t && (Z.of_nat j =? tlp_tag_r c)) ||
      (is_rc_sop_r c && (Z.of_nat j =? tlp_tag_s b) && in_one_pulse b t)))
    (if starts_tag c b j then
       if one then 0 else if completed_tag t then 0 else (word_count_tag_r t + n) mod 2 ^ 11
     else if completed_tag t then 0 else word_count_tag_r t)
    (if starts_tag c b j then (size - word_count_tag_r t - n) mod 2 ^ 11
     else (size - word_count_tag_r t) mod 2 ^ 11)
    (if starts_tag c b j && busy then
       if one then is_tag_count_exceeded_r t else (size - word_count_tag_r t) mod 2 ^ 11 <=? n
     else negb (completed_tag t) && (size <=? word_count_tag_r t)).

(** A rising edge, with BUSY_TAGS and SIZE_TAGS. *)
Definition rc_step (b : rc) (busy : list bool) (sizes : list Z) (c : completions) : completions :=
  Completions
    (if S_AXIS_RC_TLAST b && S_AXIS_RC_TVALID b then true
     else if S_AXIS_RC_TVALID b then false else is_rc_sop_r c)
    (if is_rc_sop_r c then tlp_tag_s b else tlp_tag_r c)
    (S_AXIS_RC_TVALID b && S_AXIS_RC_TLAST b)
    (imap (fun j t => next_rc_tag c b (nth j busy false) (nth j sizes 0) j t) (rc_tags c)).

Definition COMPLETED_TAGS (c : completions) : list bool := map completed_tag (rc_tags c).

Definition rc_reset : completions :=
  Completions true 0 false (repeat (RcTag false 0 0 false) (Z.to_nat C_DEFAULT_WINDOW_SIZE)).

Lemma rc_tag_step b busy sizes c j t :
  rc_tags c !! j = Some t ->
  rc_tags (rc_step b busy sizes c) !! j = Some (next_rc_tag c b (nth j busy false) (nth j sizes 0) j t).
Proof. intros H. cbn. by rewrite list_lookup_imap, H. Qed.

(** ** What the host sends

    The reference: for a request of [n] dwords with tag [j], the dwords that have come
    and the tag of the completion that is in flight. *)

Section Answer.
Context (j : nat) (n : Z).

Record progressing := Progressing { got : Z; flight : option Z }.

(** The completion that ends with this beat is the last one of the request. *)
Definition last_answer (p : progressing) (b : rc) : bool :=
  S_AXIS_RC_TVALID b && S_AXIS_RC_TLAST b &&
  match flight p with
  | Some g => (g =? Z.of_nat j) && (got p =? n)
  | None => (tlp_tag_s b =? Z.of_nat j) && (got p + tlp_dwords_s b =? n)
  end.

Definition answer_step (p : progressing) (b : rc) : progressing :=
  if S_AXIS_RC_TVALID b then
    match flight p with
    | Some g => Progressing (got p) (if S_AXIS_RC_TLAST b then None else Some g)
    | None =>
        Progressing (if tlp_tag_s b =? Z.of_nat j then got p + tlp_dwords_s b else got p)
          (if S_AXIS_RC_TLAST b then None else Some (tlp_tag_s b))
    end
  else p.

(** A first beat has the descriptor and up to five dwords, and it is the only one if they
    are all; the host sends no more than was asked for. *)
Definition legal_beat (p : progressing) (b : rc) : Prop :=
  S_AXIS_RC_TVALID b = true -> flight p = None ->
  0 < tlp_dwords_s b /\ S_AXIS_RC_TLAST b = (tlp_dwords_s b <=? 5) /\
  (tlp_tag_s b = Z.of_nat j -> got p + tlp_dwords_s b <= n).

(** The registers follow the reference. *)
Record follows (p : progressing) (c : completions) : Prop := {
  follow_got : 0 <= got p <= n;
  follow_sop : is_rc_sop_r c = match flight p with None => true | Some _ => false end;
  follow_tag g : flight p = Some g -> tlp_tag_r c = g;
  follow_full : got p = n -> flight p = Some (Z.of_nat j);
  follow_regs : rc_tags c !! j = Some (RcTag false (got p) (n - got p) (n <=? got p))
}.

Context (Hn : 0 < n < 2 ^ 11).

Lemma small z : 0 <= z <= n -> z mod 2 ^ 11 = z.
Proof. intros Hz. apply Z.mod_small. lia. Qed.

(** An edge with the tag busy and its size known: it is completed with its last answer,
    and else the registers follow. *)
Lemma follow_step p c b busy sizes :
  follows p c -> legal_beat p b -> nth j busy false = true -> nth j sizes 0 = n ->
  let c' := rc_step b busy sizes c in
  if last_answer p b then exists t, rc_tags c' !! j = Some t /\ completed_tag t = true
  else follows (answer_step p b) c'.
Proof.
  intros [H1 H2 H3 H4 H5] L Hb Hs. cbv zeta. pose proof (rc_tag_step b busy sizes c j _ H5) as Ht.
  rewrite Hb, Hs in Ht. unfold next_rc_tag, starts_tag, in_one_pulse in Ht.
  cbn [completed_tag word_count_tag_r difference_r is_tag_count_exceeded_r negb andb] in Ht.
  rewrite H2 in Ht. unfold last_answer, answer_step, legal_beat in *.
  set (m := tlp_dwords_s b) in *. set (g := tlp_tag_s b) in *.
  assert (forall z, 0 <= z <= n -> z mod 2 ^ 11 = z) as Sm by apply small.
  rewrite (Z.eqb_sym g (Z.of_nat j)).
  destruct (S_AXIS_RC_TVALID b) eqn:V; cbn [andb] in *.
  2:{ rewrite andb_false_r, andb_false_l in Ht. cbn [andb] in Ht.
      split; cbn [is_rc_sop_r tlp_tag_r rc_step got flight]; try done.
      - by rewrite V, andb_false_r.
      - intros g' Hg. rewrite H2, Hg. by apply H3.
      - rewrite Ht, Sm by lia. done. }
  destruct (flight p) as [g'|] eqn:F; cbn [andb orb] in Ht.
  - rewrite (H3 g' eq_refl), Sm, (Z.eqb_sym (Z.of_nat j)), orb_false_r in Ht by lia.
    destruct (S_AXIS_RC_TLAST b && ((g' =? Z.of_nat j) && (got p =? n))) eqn:E.
    + eexists. split; [exact Ht|]. cbn. destruct (S_AXIS_RC_TLAST b), (g' =? Z.of_nat j); try done.
      cbn in E. apply Z.eqb_eq in E. rewrite E, Z.leb_refl. done.
    + split; cbn [is_rc_sop_r tlp_tag_r rc_step got flight].
      * lia.
      * rewrite V. by destruct (S_AXIS_RC_TLAST b).
      * rewrite H2. intros g0 Hg0. destruct (S_AXIS_RC_TLAST b); [done|]. injection Hg0 as <-. by apply H3.
      * intros Hgot. specialize (H4 Hgot). injection H4 as ->. rewrite Z.eqb_refl, (proj2 (Z.eqb_eq _ _) Hgot) in E.
        by destruct (S_AXIS_RC_TLAST b).
      * rewrite Ht. do 2 f_equal. destruct (S_AXIS_RC_TLAST b); [|done].
        destruct (Z.leb_spec n (got p)); [|done]. cbn in E |- *. apply andb_false_iff in E as [E | E%Z.eqb_neq]; [by rewrite E | lia].
  - destruct (L eq_refl eq_refl) as (Lm & Ll & Lg).
    assert (got p < n) as Hlt by (destruct (Z.eq_dec (got p) n) as [Hg|]; [by specialize (H4 Hg) | lia]).
    rewrite (proj2 (Z.leb_gt n (got p))) in * by lia. cbn [andb orb] in Ht.
    destruct (Z.eqb_spec (Z.of_nat j) g) as [Hj|Hj]; cbn [andb] in *.
    + specialize (Lg (eq_sym Hj)). rewrite Ll in *.
      rewrite !Sm in Ht by lia.
      assert ((n - got p <=? m) = (got p + m =? n)) as E
        by (destruct (Z.leb_spec (n - got p) m), (Z.eqb_spec (got p + m) n); done || lia).
      rewrite E, andb_assoc, andb_diag in Ht. destruct (m <=? 5) eqn:M, (got p + m =? n) eqn:N; cbn [andb] in *;
        first [apply Z.eqb_eq in N | apply Z.eqb_neq in N]; [by eexists | | |];
        (split; cbn [is_rc_sop_r tlp_tag_r rc_step got flight]; rewrite ?V, ?Ll, ?H2;
          [lia | done | intros g0 Hg0; by simplify_eq | intros; (by rewrite Hj) || lia | rewrite Ht; do 2 f_equal; lia]).
    + rewrite Ll, andb_false_r in *. rewrite Sm in Ht by lia.
      split; cbn [is_rc_sop_r tlp_tag_r rc_step got flight].
      * lia.
      * rewrite V, Ll. by destruct (m <=? 5).
      * rewrite H2. intros g0 Hg0. destruct (m <=? 5); [done|]. by injection Hg0.
      * lia.
      * rewrite Ht. by rewrite (proj2 (Z.leb_gt n (got p))) by lia.
Qed.

(** The inputs of a cycle in which the request of the tag is outstanding. *)
Definition outstanding (x : rc * list bool * list Z) : Prop :=
  nth j x.1.2 false = true /\ nth j x.2 0 = n.

Definition rc_run (xs : list (rc * list bool * list Z)) (c : completions) : completions :=
  fold_left (fun c x => rc_step x.1.1 x.1.2 x.2 c) xs c.

(** Legal beats, none of them the last answer. *)
Fixpoint unfinished (xs : list (rc * list bool * list Z)) (p : progressing) : Prop :=
  match xs with
  | [] => True
  | x :: xs' =>
      outstanding x /\ legal_beat p x.1.1 /\ last_answer p x.1.1 = false /\
      unfinished xs' (answer_step p x.1.1)
  end.

Definition answer_run (xs : list (rc * list bool * list Z)) (p : progressing) : progressing :=
  fold_left (fun p x => answer_step p x.1.1) xs p.

Lemma follow_run xs p c : follows p c -> unfinished xs p -> follows (answer_run xs p) (rc_run xs c).
Proof.
  revert p c. induction xs as [|x xs IH]; intros p c F; [done|]. intros ([Hb Hs] & Hl & He & Hu).
  apply IH; [|done]. pose proof (follow_step p c x.1.1 x.1.2 x.2 F Hl Hb Hs) as Hx. by rewrite He in Hx.
Qed.

Lemma completed_nth c t : rc_tags c !! j = Some t -> nth j (COMPLETED_TAGS c) false = completed_tag t.
Proof. intros H. apply nth_lookup_Some. unfold COMPLETED_TAGS. by rewrite list_lookup_fmap, H. Qed.

(** A quiet cycle after the tag is taken, with nothing counted, is enough to follow. *)
Lemma fresh_follows c b busy sizes t :
  is_rc_sop_r c = true -> S_AXIS_RC_TVALID b = false -> nth j sizes 0 = n ->
  rc_tags c !! j = Some t -> completed_tag t = false -> word_count_tag_r t = 0 ->
  follows (Progressing 0 None) (rc_step b busy sizes c).
Proof.
  intros H1 H2 H3 H4 H5 H6. pose proof (rc_tag_step b busy sizes c j t H4) as Ht.
  unfold next_rc_tag, starts_tag in Ht. rewrite H1, H2, H3, H5, H6 in Ht. cbn [andb negb] in Ht.
  split; cbn [is_rc_sop_r tlp_tag_r rc_step got flight]; rewrite ?H1, ?H2, ?andb_false_r; try done; try lia.
  rewrite Ht, andb_false_r, andb_false_l. rewrite small by lia. done.
Qed.

(** The count is taken back with the completion, so that the tag is fresh again. *)
Lemma completed_clears c b busy sizes t :
  rc_tags c !! j = Some t -> completed_tag t = true -> starts_tag c b j = false ->
  exists t', rc_tags (rc_step b busy sizes c) !! j = Some t' /\ completed_tag t' = false /\
    word_count_tag_r t' = 0.
Proof.
  intros H1 H2 H3. eexists. split; [apply (rc_tag_step b busy sizes c j t H1)|].
  unfold next_rc_tag. rewrite H2, H3. done.
Qed.
End Answer.

(** C15.  A tag is completed exactly with the last answer to its request: as long as the host sends
    legal completions, of whatever tags, split and interleaved as it likes, the bit of the
    tag is down, and it goes up in the cycle after the beat that ends the completion which
    makes the dwords of the request complete, and in no other. *)
Theorem tag_completes j n p c xs b busy sizes :
  0 < n < 2 ^ 11 -> follows j n p c -> unfinished j n xs p ->
  let p' := answer_run j xs p in
  legal_beat j n p' b -> nth j busy false = true -> nth j sizes 0 = n ->
  nth j (COMPLETED_TAGS (rc_run xs c)) false = false /\
  nth j (COMPLETED_TAGS (rc_step b busy sizes (rc_run xs c))) false = last_answer j n p' b.
Proof.
  intros Hn F U. cbv zeta. intros L Hb Hs. pose proof (follow_run j n Hn xs p c F U) as F'.
  split; [by rewrite (completed_nth j _ _ (follow_regs j n _ _ F'))|].
  pose proof (follow_step j n Hn _ _ b busy sizes F' L Hb Hs) as Hx.
  destruct (last_answer j n (answer_run j xs p) b).
  - destruct Hx as (t & Ht & Hc). by rewrite (completed_nth j _ t Ht).
  - by rewrite (completed_nth j _ _ (follow_regs j n _ _ Hx)).
Qed.

(** ** On concrete beats

    A request of 16 dwords with tag 1 is answered by 4 dwords in one beat and 12 in two,
    with a completion of tag 0 in between. *)
Definition first_beat (tag dwords : Z) (last : bool) : rc := Rc (dwords * 2 ^ 32 + tag * 2 ^ 64) last true.
Definition more_beat : rc := Rc 0 true true.
Definition no_beat : rc := Rc 0 false false.

Definition two_tags (b : rc) : rc * list bool * list Z := (b, [true; true], [32; 16]).

Definition answers_16 : list (rc * list bool * list Z) :=
  map two_tags [first_beat 1 4 true; no_beat; first_beat 0 3 true; first_beat 1 12 false; no_beat].

Lemma tag_completes_witness :
  let c := rc_step no_beat [true; true] [32; 16] rc_reset in
  nth 1 (COMPLETED_TAGS (rc_step more_beat [true; true] [32; 16] (rc_run answers_16 c))) false = true.
Proof.
  cbv zeta.
  destruct (tag_completes 1 16 (Progressing 0 None) (rc_step no_beat [true; true] [32; 16] rc_reset)
    answers_16 more_beat [true; true] [32; 16]) as [_ E].
  - done.
  - by apply (fresh_follows 1 16 ltac:(done) rc_reset no_beat _ _ (RcTag false 0 0 false)).
  - unfold answers_16. repeat (split; [done|]; split; [by vm_compute|]; split; [by vm_compute|]). done.
  - by vm_compute.
  - done.
  - done.
  - rewrite E. by vm_compute.
Defined.
