(* ===== verification/Fifo.v ===== *)
(** * The FIFOs of the vendor

    The FPGA design puts FIFOs of the vendor's generator between its blocks, with a stream
    on each side (user_fifo, axis_fifo_2clk_32d_12u).  What is relied on is here: a class
    of what they show and a class of their laws.  All of them are clocked by the clock of
    the PCI Express core (pcie_benchmark.sv connects it to the AXI-Lite side too), so that
    an edge is one for both sides. *)

From S2P Require Import Prelude.
From Stdlib Require Import ZArith Lia.
From stdpp Require Import base list.
Local Open Scope Z_scope.

(** A word is TDATA with TUSER or TKEEP, as the FIFO has them. *)
Class AxisFifo (F : Type) := {
  s_axis_tready : F -> bool;
  m_axis_tvalid : F -> bool;
  m_axis_t : F -> Z * Z;
  fifo_edge : option (Z * Z) -> bool -> F -> F;    (* what is offered; TREADY of the reader *)
  fifo_reset : F
}.

Section Fifo.
Context {F : Type} `{AxisFifo F}.

(** What an edge takes in, and what it hands over. *)
Definition put_in (x : option (Z * Z)) (f : F) : list (Z * Z) :=
  if s_axis_tready f then option_list x else [].
Definition taken_out (r : bool) (f : F) : list (Z * Z) :=
  if r && m_axis_tvalid f then [m_axis_t f] else [].
End Fifo.

(** The contents, the oldest first: nothing is lost, doubled or reordered. *)
Class AxisFifoLaws (F : Type) `{AxisFifo F} := {
  contents : F -> list (Z * Z);
  contents_reset : contents fifo_reset = [];
  contents_edge x r f : taken_out r f ++ contents (fifo_edge x r f) = contents f ++ put_in x f;
  contents_valid f : m_axis_tvalid f = true -> contents f <> []
}.

(** ** A FIFO of 16 words *)

Record shelf := Shelf { shelved : list (Z * Z) }.

#[export] Instance shelf_fifo : AxisFifo shelf := {
  s_axis_tready f := (length (shelved f) <? 16)%nat;
  m_axis_tvalid f := match shelved f with [] => false | _ :: _ => true end;
  m_axis_t f := hd (0, 0) (shelved f);
  fifo_edge x r f :=
    Shelf ((if r then tail (shelved f) else shelved f)
           ++ if (length (shelved f) <? 16)%nat then option_list x else []);
  fifo_reset := Shelf []
}.

#[export] Instance shelf_laws : AxisFifoLaws shelf.
Proof.
  refine {| contents := shelved |}.
  - done.
  - intros x r [l]. unfold taken_out, put_in. cbn. by destruct r, l.
  - intros [[|y l]]; by cbn.
Defined.
