(* ===== verification/Bridge.v ===== *)
(** * The registers of BAR 2 (pcie_to_axi_reg_requester.sv)

    A load or a store of a dword of BAR 2 becomes an access of the AXI-Lite bus, where the
    application has the vendor's GPIO block (app.v).  Two state machines, one for requests
    and one for completions, with five FIFOs between them and the bus; one [bridge_step] is
    a rising edge.  The stores and the loads reach the bus in order ([bar2_stores],
    [bar2_loads]), and loads that are not overlapped are answered in order; of two loads
    at once the second answer may be lost ([second_answer_lost]). *)

From S2P Require Import Prelude EngineManager DeviceDma Completer Fifo.
From Stdlib Require Import ZArith Lia.
From stdpp Require Import base list.
Local Open Scope Z_scope.

(** ** The state *)

Inductive cq_state_t := S_CQ_RESET | S_CQ_WAIT_FOR_REQ | S_CQ_STORE_RD_REQ | S_CQ_STORE_WR_REQ.
Inductive cc_state_t := S_CC_RESET | S_CC_WAIT_FOR_DATA | S_CC_SEND_CPL.

(** The request that is kept, lines 129 to 139 less what is not read again. *)
Record axi_req := AxiReq {
  a_at : Z; a_addr : Z; a_reqr_id : Z; a_tag : Z; a_tc : Z; a_attr : Z; a_first_be : Z; a_data : Z
}.

(** The completion, lines 144 to 151: five bits of the address, three of the count. *)
Record axi_cpl := AxiCpl {
  k_addr : Z; k_at : Z; k_byte_cnt : Z; k_rqer_id : Z; k_tag : Z; k_tc : Z; k_attr : Z; k_data : Z
}.

Record bridge {F : Type} := Bridge {
  cq_state : cq_state_t;
  cc_state : cc_state_t;
  b_req : axi_req;
  b_cpl : axi_cpl;
  wa_fifo : F; w_fifo : F; ar_fifo : F; r_fifo : F; d_fifo : F
}.
Arguments bridge : clear implicits.
Arguments Bridge {F}.

(** The inputs of a cycle: a beat of the host, the readiness for completions, and the bus:
    the readiness for addresses and data, and an answer to a load (RVALID with RDATA and
    RRESP). *)
Record b_in := BIn {
  i_cq : cq; i_cc_tready : bool;
  i_awready : bool; i_wready : bool; i_arready : bool; i_r : option (Z * Z)
}.

(** ** Requests: lines 167 to 208 *)

Definition C_AXI_BAR : Z := 2.

Definition valid_axi_req (type : Z) (q : cq) : bool :=
  let d := m_axis_cq_tdata q in
  let u := m_axis_cq_tuser q in
  (bits 78 75 d =? type) && (bits 74 64 d =? 1) && Z.testbit u 40 && negb (Z.testbit u 41)
  && m_axis_cq_tvalid q && (bits 114 112 d =? C_AXI_BAR).

Definition valid_rd_req : cq -> bool := valid_axi_req C_MEM_RD_REQ.
Definition valid_wr_req : cq -> bool := valid_axi_req C_MEM_WR_REQ.

(** The address is a word of 32 bits: the two low bits of the host's are its type. *)
Definition axi_fields (q : cq) : axi_req :=
  let d := m_axis_cq_tdata q in
  AxiReq (bits 1 0 d) (4 * bits 29 0 (bits 63 2 d)) (bits 95 80 d) (bits 103 96 d) (bits 123 121 d)
    (bits 126 124 d) (bits 3 0 (m_axis_cq_tuser q)) (bits 159 128 d).

Section Bridge.
Context {F : Type} `{AxisFifo F}.

(** Lines 270 to 287: a request goes to its two FIFOs at once. *)
Definition wr_stored (b : bridge F) : bool :=
  match cq_state b with S_CQ_STORE_WR_REQ => s_axis_tready (wa_fifo b) && s_axis_tready (w_fifo b) | _ => false end.
Definition rd_stored (b : bridge F) : bool :=
  match cq_state b with S_CQ_STORE_RD_REQ => s_axis_tready (ar_fifo b) && s_axis_tready (d_fifo b) | _ => false end.

(** Lines 212 to 252. *)
Definition next_cq (q : cq) (b : bridge F) : cq_state_t :=
  match cq_state b with
  | S_CQ_RESET => S_CQ_WAIT_FOR_REQ
  | S_CQ_WAIT_FOR_REQ =>
      if valid_rd_req q then S_CQ_STORE_RD_REQ
      else if valid_wr_req q then S_CQ_STORE_WR_REQ else S_CQ_WAIT_FOR_REQ
  | S_CQ_STORE_WR_REQ => if wr_stored b then S_CQ_WAIT_FOR_REQ else S_CQ_STORE_WR_REQ
  | S_CQ_STORE_RD_REQ => if rd_stored b then S_CQ_WAIT_FOR_REQ else S_CQ_STORE_RD_REQ
  end.

(** Lines 254 to 268. *)
Definition next_axi_req (q : cq) (b : bridge F) : axi_req :=
  match cq_state b with
  | S_CQ_WAIT_FOR_REQ => if valid_rd_req q || valid_wr_req q then axi_fields q else b_req b
  | _ => b_req b
  end.

(** Lines 290 to 299: what the completion will need. *)
Definition header_word (r : axi_req) : Z * Z :=
  (fields_value [(16, a_reqr_id r); (8, a_tag r); (2, a_at r); (3, a_tc r); (3, a_attr r)],
   fields_value [(8, a_addr r mod 2 ^ 7); (4, 4)]).

(** ** Completions: lines 311 to 418 *)

Definition cpl_data_available (b : bridge F) : bool := m_axis_tvalid (r_fifo b) && m_axis_tvalid (d_fifo b).

Definition next_cc (tready : bool) (b : bridge F) : cc_state_t :=
  match cc_state b with
  | S_CC_RESET => S_CC_WAIT_FOR_DATA
  | S_CC_WAIT_FOR_DATA => if cpl_data_available b then S_CC_SEND_CPL else S_CC_WAIT_FOR_DATA
  | S_CC_SEND_CPL => if tready then S_CC_WAIT_FOR_DATA else S_CC_SEND_CPL
  end.

Definition cpl_of (h x : Z * Z) : axi_cpl :=
  let (d, u) := h in
  AxiCpl (bits 6 0 u mod 2 ^ 5) (bits 25 24 d) (bits 11 8 u mod 2 ^ 3) (bits 15 0 d) (bits 23 16 d)
    (bits 28 26 d) (bits 31 29 d) x.1.

Definition next_axi_cpl (b : bridge F) : axi_cpl :=
  match cc_state b with
  | S_CC_WAIT_FOR_DATA =>
      if cpl_data_available b then cpl_of (m_axis_t (d_fifo b)) (m_axis_t (r_fifo b)) else b_cpl b
  | _ => b_cpl b
  end.

(** The completion, from its least significant field, with the widths. *)
Definition axi_cc_fields (k : axi_cpl) : list (Z * Z) :=
  [(7, k_addr k); (1, 0); (2, k_at k); (6, 0); (13, k_byte_cnt k); (1, 0); (2, 0); (11, 1); (3, 0); (1, 0);
   (1, 0); (16, k_rqer_id k); (8, k_tag k); (16, 0); (1, 0); (3, k_tc k); (3, k_attr k); (1, 0);
   (32, k_data k); (128, 0)].

(** s_axis_cc_tvalid with s_axis_cc_tdata. *)
Definition axi_completion (b : bridge F) : option Z :=
  match cc_state b with S_CC_SEND_CPL => Some (fields_value (axi_cc_fields (b_cpl b))) | _ => None end.

(** ** A rising edge, with the FIFOs of lines 421 to 494 *)

Definition offered (go : bool) (x : Z * Z) : option (Z * Z) := if go then Some x else None.

Definition bridge_step (i : b_in) (b : bridge F) : bridge F :=
  let r := b_req b in
  Bridge (next_cq (i_cq i) b) (next_cc (i_cc_tready i) b) (next_axi_req (i_cq i) b) (next_axi_cpl b)
    (fifo_edge (offered (wr_stored b) (a_addr r, 0)) (i_awready i) (wa_fifo b))
    (fifo_edge (offered (wr_stored b) (a_data r, a_first_be r)) (i_wready i) (w_fifo b))
    (fifo_edge (offered (rd_stored b) (a_addr r, 0)) (i_arready i) (ar_fifo b))
    (fifo_edge (i_r i) (cpl_data_available b) (r_fifo b))
    (fifo_edge (offered (rd_stored b) (header_word r)) (cpl_data_available b) (d_fifo b)).

Definition bridge_run (qs : list b_in) (b : bridge F) : bridge F := fold_left (fun b i => bridge_step i b) qs b.

Definition bridge_reset : bridge F :=
  Bridge S_CQ_RESET S_CC_RESET (AxiReq 0 0 0 0 0 0 0 0) (AxiCpl 0 0 0 0 0 0 0 0)
    fifo_reset fifo_reset fifo_reset fifo_reset fifo_reset.
(** ** What goes by in a run *)

Fixpoint log {A} (f : b_in -> bridge F -> list A) (qs : list b_in) (b : bridge F) : list A :=
  match qs with
  | [] => []
  | i :: qs' => f i b ++ log f qs' (bridge_step i b)
  end.

(** The host: stores and loads that are taken, completions that it takes. *)
Definition stores_taken (i : b_in) (b : bridge F) : list axi_req :=
  match cq_state b with
  | S_CQ_WAIT_FOR_REQ => if negb (valid_rd_req (i_cq i)) && valid_wr_req (i_cq i) then [axi_fields (i_cq i)] else []
  | _ => []
  end.
Definition loads_taken (i : b_in) (b : bridge F) : list axi_req :=
  match cq_state b with
  | S_CQ_WAIT_FOR_REQ => if valid_rd_req (i_cq i) then [axi_fields (i_cq i)] else []
  | _ => []
  end.
Definition completed (i : b_in) (b : bridge F) : list Z :=
  if i_cc_tready i then option_list (axi_completion b) else [].

(** The bus: addresses and data of stores, addresses of loads, answers. *)
Definition bus_aw (i : b_in) (b : bridge F) : list (Z * Z) := taken_out (i_awready i) (wa_fifo b).
Definition bus_w (i : b_in) (b : bridge F) : list (Z * Z) := taken_out (i_wready i) (w_fifo b).
Definition bus_ar (i : b_in) (b : bridge F) : list (Z * Z) := taken_out (i_arready i) (ar_fifo b).
Definition bus_r (i : b_in) (b : bridge F) : list (Z * Z) := put_in (i_r i) (r_fifo b).

(** In between: what a request still has to be put in, what the completions take out of
    their FIFOs, and what they keep of it. *)
Definition waiting_wr (b : bridge F) : list axi_req :=
  match cq_state b with S_CQ_STORE_WR_REQ => [b_req b] | _ => [] end.
Definition waiting_rd (b : bridge F) : list axi_req :=
  match cq_state b with S_CQ_STORE_RD_REQ => [b_req b] | _ => [] end.
Definition wr_put (_ : b_in) (b : bridge F) : list axi_req := if wr_stored b then [b_req b] else [].
Definition rd_put (_ : b_in) (b : bridge F) : list axi_req := if rd_stored b then [b_req b] else [].

Definition popped (_ : b_in) (b : bridge F) : list ((Z * Z) * (Z * Z)) :=
  if cpl_data_available b then [(m_axis_t (d_fifo b), m_axis_t (r_fifo b))] else [].
Definition captured (i : b_in) (b : bridge F) : list ((Z * Z) * (Z * Z)) :=
  match cc_state b with S_CC_WAIT_FOR_DATA => popped i b | _ => [] end.

(** What is conserved by every edge is conserved by a run. *)
Lemma log_balance {A} (out new : b_in -> bridge F -> list A) (held : bridge F -> list A) :
  (forall i b, out i b ++ held (bridge_step i b) = held b ++ new i b) ->
  forall qs b, log out qs b ++ held (bridge_run qs b) = held b ++ log new qs b.
Proof.
  intros Hs qs. induction qs as [|i qs IH]; intros b; [by rewrite app_nil_r|]. cbn [log].
  change (bridge_run (i :: qs) b) with (bridge_run qs (bridge_step i b)).
  by rewrite <- app_assoc, IH, !app_assoc, Hs.
Qed.

Lemma log_map {A B} (g : A -> B) (f : b_in -> bridge F -> list A) qs b :
  log (fun i b => map g (f i b)) qs b = map g (log f qs b).
Proof. revert b. induction qs as [|i qs IH]; intros b; [done|]. cbn [log]. by rewrite IH, map_app. Qed.

Lemma wr_put_step i b : wr_put i b ++ waiting_wr (bridge_step i b) = waiting_wr b ++ stores_taken i b.
Proof.
  unfold wr_put, waiting_wr, stores_taken. cbn [bridge_step cq_state b_req]. unfold next_cq, next_axi_req, wr_stored.
  destruct (cq_state b); try done.
  - destruct (valid_rd_req (i_cq i)), (valid_wr_req (i_cq i)); done.
  - by destruct (rd_stored b).
  - by destruct (s_axis_tready (wa_fifo b) && s_axis_tready (w_fifo b)).
Qed.

Lemma rd_put_step i b : rd_put i b ++ waiting_rd (bridge_step i b) = waiting_rd b ++ loads_taken i b.
Proof.
  unfold rd_put, waiting_rd, loads_taken. cbn [bridge_step cq_state b_req]. unfold next_cq, next_axi_req, rd_stored.
  destruct (cq_state b); try done.
  - destruct (valid_rd_req (i_cq i)), (valid_wr_req (i_cq i)); done.
  - by destruct (s_axis_tready (ar_fifo b) && s_axis_tready (d_fifo b)).
  - by destruct (wr_stored b).
Qed.

Section Laws.
Context `{!AxisFifoLaws F}.

(** Requests are only offered to FIFOs that take them. *)
Lemma put_offered go x f :
  (go = true -> s_axis_tready f = true) -> put_in (offered go x) f = if go then [x] else [].
Proof. intros Hg. unfold put_in, offered. destruct go; [by rewrite Hg|]. by destruct (s_axis_tready f). Qed.

Lemma wr_stored_ready b : wr_stored b = true -> s_axis_tready (wa_fifo b) = true /\ s_axis_tready (w_fifo b) = true.
Proof. unfold wr_stored. destruct (cq_state b); try done. apply andb_true_iff. Qed.

Lemma rd_stored_ready b : rd_stored b = true -> s_axis_tready (ar_fifo b) = true /\ s_axis_tready (d_fifo b) = true.
Proof. unfold rd_stored. destruct (cq_state b); try done. apply andb_true_iff. Qed.

(** A FIFO with requests in it: what came out, what is in it, and what is to be put in. *)
Lemma request_path (g : axi_req -> Z * Z) (put taken : b_in -> bridge F -> list axi_req) (wait : bridge F -> list axi_req)
    (out : b_in -> bridge F -> list (Z * Z)) (fifo : bridge F -> F) qs b :
  (forall i b, put i b ++ wait (bridge_step i b) = wait b ++ taken i b) ->
  (forall i b, out i b ++ contents (fifo (bridge_step i b)) = contents (fifo b) ++ map g (put i b)) ->
  let b' := bridge_run qs b in
  log out qs b ++ contents (fifo b') ++ map g (wait b') =
    contents (fifo b) ++ map g (wait b ++ log taken qs b).
Proof.
  intros H1 H2. cbv zeta. pose proof (log_balance put taken wait H1 qs b) as B1.
  pose proof (log_balance out (fun i b => map g (put i b)) (fun b => contents (fifo b)) H2 qs b) as B2.
  cbv beta in B2. by rewrite app_assoc, B2, log_map, <- app_assoc, <- map_app, B1.
Qed.

Lemma aw_path i b :
  bus_aw i b ++ contents (wa_fifo (bridge_step i b)) = contents (wa_fifo b) ++ map (fun r => (a_addr r, 0)) (wr_put i b).
Proof.
  unfold bus_aw, wr_put. cbn [bridge_step wa_fifo]. rewrite contents_edge, put_offered; [by destruct (wr_stored b)|].
  apply wr_stored_ready.
Qed.

Lemma w_path i b :
  bus_w i b ++ contents (w_fifo (bridge_step i b)) = contents (w_fifo b) ++ map (fun r => (a_data r, a_first_be r)) (wr_put i b).
Proof.
  unfold bus_w, wr_put. cbn [bridge_step w_fifo]. rewrite contents_edge, put_offered; [by destruct (wr_stored b)|].
  apply wr_stored_ready.
Qed.

Lemma ar_path i b :
  bus_ar i b ++ contents (ar_fifo (bridge_step i b)) = contents (ar_fifo b) ++ map (fun r => (a_addr r, 0)) (rd_put i b).
Proof.
  unfold bus_ar, rd_put. cbn [bridge_step ar_fifo]. rewrite contents_edge, put_offered; [by destruct (rd_stored b)|].
  apply rd_stored_ready.
Qed.

Lemma taken_popped f b :
  (cpl_data_available b = true -> m_axis_tvalid f = true) ->
  taken_out (cpl_data_available b) f = if cpl_data_available b then [m_axis_t f] else [].
Proof. intros Hf. unfold taken_out. destruct (cpl_data_available b); [by rewrite Hf | done]. Qed.

Lemma available_valid b :
  cpl_data_available b = true -> m_axis_tvalid (r_fifo b) = true /\ m_axis_tvalid (d_fifo b) = true.
Proof. apply andb_true_iff. Qed.

Lemma d_path i b :
  map fst (popped i b) ++ contents (d_fifo (bridge_step i b)) = contents (d_fifo b) ++ map header_word (rd_put i b).
Proof.
  pose proof (contents_edge (offered (rd_stored b) (header_word (b_req b))) (cpl_data_available b) (d_fifo b)) as E.
  rewrite taken_popped, put_offered in E by (apply rd_stored_ready || apply available_valid).
  unfold popped, rd_put. cbn [bridge_step d_fifo]. by destruct (cpl_data_available b), (rd_stored b).
Qed.

Lemma r_path i b : map snd (popped i b) ++ contents (r_fifo (bridge_step i b)) = contents (r_fifo b) ++ bus_r i b.
Proof.
  pose proof (contents_edge (i_r i) (cpl_data_available b) (r_fifo b)) as E.
  rewrite taken_popped in E by apply available_valid. unfold popped, bus_r. cbn [bridge_step r_fifo].
  by destruct (cpl_data_available b).
Qed.

(** ** Completions *)

Definition value_of (p : (Z * Z) * (Z * Z)) : Z := fields_value (axi_cc_fields (cpl_of p.1 p.2)).

Lemma completion_step i b :
  completed i b ++ option_list (axi_completion (bridge_step i b)) =
  option_list (axi_completion b) ++ map value_of (captured i b).
Proof.
  unfold completed, axi_completion, captured, popped. cbn [bridge_step cc_state b_cpl]. unfold next_cc, next_axi_cpl.
  destruct (cc_state b); [by destruct (i_cc_tready i) | | by destruct (i_cc_tready i)].
  by destruct (cpl_data_available b), (i_cc_tready i).
Qed.

(** The loads that are not answered. *)
Definition open_loads (b : bridge F) : nat :=
  length (waiting_rd b) + length (contents (d_fifo b)) + length (option_list (axi_completion b)).

Definition woken (b : bridge F) : Prop := cc_state b = S_CC_RESET -> contents (d_fifo b) = [].

Lemma single_step i b :
  woken b -> (open_loads b <= 1)%nat -> (loads_taken i b <> [] -> open_loads b = 0%nat) ->
  captured i b = popped i b /\ woken (bridge_step i b) /\ (open_loads (bridge_step i b) <= 1)%nat /\
  open_loads (bridge_step i b) = (open_loads b + length (loads_taken i b) - length (completed i b))%nat.
Proof.
  intros Hw Ho Hl. assert (captured i b = popped i b) as Hc.
  { unfold captured, popped. destruct (cpl_data_available b) eqn:A; [|by destruct (cc_state b)].
    apply available_valid in A as [_ D]. apply contents_valid in D. unfold open_loads, axi_completion in Ho.
    destruct (cc_state b) eqn:C; [by destruct D; apply Hw | done |].
    destruct (contents (d_fifo b)); [done | cbn in Ho; lia]. }
  pose proof (f_equal length (rd_put_step i b)) as E1. pose proof (f_equal length (d_path i b)) as E2.
  pose proof (f_equal length (completion_step i b)) as E3. rewrite Hc in E3.
  rewrite !length_app, !length_map in *. assert (length (loads_taken i b) <= 1)%nat as L.
  { unfold loads_taken. repeat case_match; cbn; lia. }
  assert (loads_taken i b = [] \/ open_loads b = 0%nat) as [E0 | E0] by (destruct (loads_taken i b); [by left | right; by apply Hl]).
  - split_and!; [done | | |]; unfold open_loads in *; rewrite E0 in *; cbn [length] in *; [|lia | lia].
    red. cbn [bridge_step cc_state]. unfold next_cc. by destruct (cc_state b), (cpl_data_available b), (i_cc_tready i).
  - split_and!; [done | | |]; unfold open_loads in *; [|lia | lia].
    red. cbn [bridge_step cc_state]. unfold next_cc. by destruct (cc_state b), (cpl_data_available b), (i_cc_tready i).
Qed.

(** Loads that are not overlapped, with [n] that are open. *)
Fixpoint one_by_one (n : nat) (qs : list b_in) (b : bridge F) : Prop :=
  match qs with
  | [] => True
  | i :: qs' =>
      (loads_taken i b <> [] -> n = 0%nat) /\
      one_by_one (n + length (loads_taken i b) - length (completed i b)) qs' (bridge_step i b)
  end.

Lemma nothing_lost qs b :
  woken b -> (open_loads b <= 1)%nat -> one_by_one (open_loads b) qs b -> log captured qs b = log popped qs b.
Proof.
  revert b. induction qs as [|i qs IH]; intros b Hw Ho H1; [done|]. destruct H1 as [Hl H1].
  destruct (single_step i b Hw Ho Hl) as (C & W & O & E). cbn [log]. rewrite C. f_equal.
  apply IH; [done | done | by rewrite E].
Qed.

(** *** What a load is answered with *)

(** The fields of a request in the FIFO have their widths. *)
Record in_widths (r : axi_req) : Prop := {
  width_id : 0 <= a_reqr_id r < 2 ^ 16;
  width_tag : 0 <= a_tag r < 2 ^ 8;
  width_at : 0 <= a_at r < 2 ^ 2;
  width_tc : 0 <= a_tc r < 2 ^ 3;
  width_attr : 0 <= a_attr r < 2 ^ 3
}.

Lemma axi_fields_widths q : in_widths (axi_fields q).
Proof. split; cbn; apply bits_bounds; lia. Qed.

Lemma loads_in_widths qs b : Forall in_widths (log loads_taken qs b).
Proof.
  revert b. induction qs as [|i qs IH]; intros b; [constructor|]. cbn [log]. apply Forall_app. split; [|done].
  unfold loads_taken. repeat case_match; constructor; [apply axi_fields_widths | done].
Qed.

(** The word that was read, with the identity of the load, four bytes, and five bits of the
    address. *)
Definition answer (r : axi_req) (x : Z * Z) : axi_cpl :=
  AxiCpl (a_addr r mod 2 ^ 5) (a_at r) 4 (a_reqr_id r) (a_tag r) (a_tc r) (a_attr r) x.1.

Lemma cpl_of_header r x : in_widths r -> cpl_of (header_word r) x = answer r x.
Proof.
  intros [H1 H2 H3 H4 H5]. pose proof (Z.mod_pos_bound (a_addr r) (2 ^ 7) ltac:(lia)).
  unfold cpl_of, header_word, answer. change (2 ^ 7) with 128 in *. f_equal.
  - transitivity ((a_addr r mod 128) mod 2 ^ 5); [f_equal|by apply Z.mod_mod_divide; exists 4].
    cbn [fields_value]. unfold bits. rewrite Z.div_1_r. change (2 ^ (6 - 0 + 1)) with 128.
    replace (a_addr r mod 128 + 2 ^ 8 * (4 + 2 ^ 4 * 0)) with (a_addr r mod 128 + 8 * 128) by lia.
    rewrite Z.mod_add by lia. by rewrite Z.mod_small.
  - apply (field_found 2 _ [(16, _); (8, _)]); [lia | done | fields_fit].
  - transitivity (4 mod 2 ^ 3); [f_equal | done]. apply (field_found 4 4 [(8, _)] []); [lia | lia | fields_fit].
  - apply (field_found 16 _ []); [lia | done | fields_fit].
  - apply (field_found 8 _ [(16, _)]); [lia | done | fields_fit].
  - apply (field_found 3 _ [(16, _); (8, _); (2, _)]); [lia | done | fields_fit].
  - apply (field_found 3 _ [(16, _); (8, _); (2, _); (3, _)]); [lia | done | fields_fit].
Qed.

(** ** Theorems *)

(** The stores of BAR 2 reach the bus.  Whatever comes in from the reset on: the addresses that the
    bus has taken, those still in their FIFO and the one about to go there are the
    addresses of the stores that were taken from the host, in order, and the same holds
    of the data with the enables of the bytes; so the k-th data of the bus belong to the
    k-th address, and both to the k-th store. *)
Theorem bar2_stores qs :
  let b := bridge_run qs bridge_reset in
  let stores := log stores_taken qs bridge_reset in
  log bus_aw qs bridge_reset ++ contents (wa_fifo b) ++ map (fun r => (a_addr r, 0)) (waiting_wr b) =
    map (fun r => (a_addr r, 0)) stores /\
  log bus_w qs bridge_reset ++ contents (w_fifo b) ++ map (fun r => (a_data r, a_first_be r)) (waiting_wr b) =
    map (fun r => (a_data r, a_first_be r)) stores.
Proof.
  cbv zeta. split.
  - rewrite (request_path _ _ _ _ _ _ qs bridge_reset wr_put_step aw_path). cbn. by rewrite contents_reset.
  - rewrite (request_path _ _ _ _ _ _ qs bridge_reset wr_put_step w_path). cbn. by rewrite contents_reset.
Qed.

(** C16.  The loads of BAR 2 are answered.  The addresses of the loads reach the bus in order, as those
    of stores do.  If the host only asks for a word when its earlier loads have been
    completed, the k-th completion that it takes is that of the k-th load, with its tag
    and its identity and the k-th word that the bus answered with, but only the low five
    bits of its address. *)
Theorem bar2_loads qs :
  let b := bridge_run qs bridge_reset in
  let loads := log loads_taken qs bridge_reset in
  log bus_ar qs bridge_reset ++ contents (ar_fifo b) ++ map (fun r => (a_addr r, 0)) (waiting_rd b) =
    map (fun r => (a_addr r, 0)) loads /\
  (one_by_one 0 qs bridge_reset ->
   length loads = (length (log completed qs bridge_reset) + open_loads b)%nat /\
   forall k v, log completed qs bridge_reset !! k = Some v ->
   exists r x, loads !! k = Some r /\ log bus_r qs bridge_reset !! k = Some x /\
     v = fields_value (axi_cc_fields (answer r x))).
Proof.
  cbv zeta. split.
  { rewrite (request_path _ _ _ _ _ _ qs bridge_reset rd_put_step ar_path). cbn. by rewrite contents_reset. }
  intros H1. assert (open_loads bridge_reset = 0%nat) as H0.
  { unfold open_loads. cbn. by rewrite contents_reset. }
  pose proof (nothing_lost qs bridge_reset) as N. rewrite H0 in N. specialize (N ltac:(intros _; apply contents_reset) ltac:(lia) H1).
  pose proof (log_balance completed _ _ completion_step qs bridge_reset) as C. rewrite log_map, N in C.
  pose proof (request_path header_word _ _ _ (fun i b => map fst (popped i b)) d_fifo qs bridge_reset rd_put_step d_path) as D.
  pose proof (log_balance (fun i b => map snd (popped i b)) bus_r _ r_path qs bridge_reset) as B.
  cbv beta zeta in D, B. rewrite log_map in D, B. cbn [bridge_reset d_fifo r_fifo waiting_rd cq_state] in D, B.
  rewrite contents_reset in D, B. cbn [app] in D, B. cbn in C.
  split.
  { pose proof (f_equal length C) as LC. pose proof (f_equal length D) as LD.
    rewrite !length_app, !length_map in LC. rewrite !length_app, !length_map in LD. unfold open_loads. lia. }
  intros k v Hv. apply (lookup_app_l_Some _ (option_list (axi_completion (bridge_run qs bridge_reset)))) in Hv. rewrite C in Hv.
  rewrite list_lookup_fmap in Hv. apply fmap_Some in Hv as ([h x] & Hp & ->).
  assert (log loads_taken qs bridge_reset !! k <> None) as [r Hr]%not_eq_None_Some.
  { intros E. apply lookup_ge_None in E. apply (f_equal length) in D. rewrite !length_app, !length_map in D.
    apply lookup_lt_Some in Hp. lia. }
  exists r, x. split; [done|]. split.
  - rewrite <- B. apply lookup_app_l_Some. by rewrite list_lookup_fmap, Hp.
  - assert (Some h = Some (header_word r)) as [= ->].
    { transitivity (map header_word (log loads_taken qs bridge_reset) !! k); [|by rewrite list_lookup_fmap, Hr].
      rewrite <- D. symmetry. apply lookup_app_l_Some. by rewrite list_lookup_fmap, Hp. }
    unfold value_of. cbn [fst snd]. rewrite cpl_of_header; [done|].
    exact (Forall_lookup_1 _ _ _ _ (loads_in_widths qs bridge_reset) Hr).
Qed.
End Laws.
End Bridge.

(** ** On a bus

    The host's request for a dword of BAR 2, its tag, and the word of a store. *)
Definition bar2_beat (type addr tag data : Z) : cq :=
  Cq (fields_value [(2, 0); (62, addr / 4); (11, 1); (4, type); (1, 0); (16, 0); (8, tag); (8, 0); (3, 2); (6, 0);
      (3, 0); (3, 0); (1, 0); (32, data)]) (2 ^ 40 + 15) true.

(** The bus takes what there is, and the host takes completions. *)
Definition bus_cycle (q : option cq) (r : option Z) : b_in :=
  BIn (default (Cq 0 0 false) q) true true true true (option_map (fun x => (x, 0)) r).

Definition idle_bus : b_in := bus_cycle None None.

(** One after the other. *)
Definition load_and_load : list b_in :=
  [idle_bus; bus_cycle (Some (bar2_beat C_MEM_RD_REQ 4 1 0)) None; idle_bus; idle_bus; bus_cycle None (Some 11);
   idle_bus; idle_bus; bus_cycle (Some (bar2_beat C_MEM_RD_REQ 8 2 0)) None; idle_bus; idle_bus;
   bus_cycle None (Some 22); idle_bus; idle_bus].

Lemma bar2_loads_witness :
  let cs := log completed load_and_load (bridge_reset (F := shelf)) in
  length cs = 2%nat /\
  forall k v, cs !! k = Some v ->
  exists r x, log loads_taken load_and_load (bridge_reset (F := shelf)) !! k = Some r /\
    [(11, 0); (22, 0)] !! k = Some x /\ v = fields_value (axi_cc_fields (answer r x)).
Proof.
  cbv zeta. split; [by vm_compute|]. destruct (bar2_loads (F := shelf) load_and_load) as [_ L].
  destruct L as [_ L]; [by vm_compute|]. exact L.
Defined.

(** The second load comes before the first one is answered: its answer is taken out of the
    FIFO while the first completion goes out, and is never sent. *)
Definition two_loads : list b_in :=
  [idle_bus; bus_cycle (Some (bar2_beat C_MEM_RD_REQ 4 1 0)) None; idle_bus;
   bus_cycle (Some (bar2_beat C_MEM_RD_REQ 8 2 0)) None; idle_bus; bus_cycle None (Some 11);
   bus_cycle None (Some 22); idle_bus; idle_bus].

Lemma idle_stays (b : bridge shelf) n :
  bridge_step idle_bus b = b -> completed idle_bus b = [] -> log completed (repeat idle_bus n) b = [].
Proof. intros Hb Hc. induction n as [|n IH]; [done|]. cbn [repeat log]. by rewrite Hb, Hc, IH. Qed.

Lemma log_app {F A} `{AxisFifo F} (f : b_in -> bridge F -> list A) l l' b :
  log f (l ++ l') b = log f l b ++ log f l' (bridge_run l b).
Proof. revert b. induction l as [|i l IH]; intros b; [done|]. cbn [log app]. by rewrite IH, app_assoc. Qed.

(** Of two loads of BAR 2 at once, the second answer may be lost.  Here the host asks for a second
    word before the first one has come; both are read on the bus, and although the host
    takes every completion at once there is one completion only, however long it waits. *)
Theorem second_answer_lost n :
  let qs := two_loads ++ repeat idle_bus n in
  length (log loads_taken two_loads (bridge_reset (F := shelf))) = 2%nat /\
  log bus_r two_loads (bridge_reset (F := shelf)) = [(11, 0); (22, 0)] /\
  length (log completed qs (bridge_reset (F := shelf))) = 1%nat.
Proof.
  cbv zeta. split; [by vm_compute|]. split; [by vm_compute|].
  rewrite log_app, idle_stays, app_nil_r by (by vm_compute). by vm_compute.
Qed.

(** The low address of a completion has seven bits in PCI Express; the load of the dword at 36
    is completed as one of the dword at 4. *)
Example lower_address_short :
  bits 6 0 (fields_value (axi_cc_fields (answer (axi_fields (bar2_beat C_MEM_RD_REQ 36 1 0)) (11, 0)))) = 4.
Proof. by vm_compute. Qed.
