(* ===== verification/CardBus.v ===== *)
(** * The card on the bus

    The completer (Completer.v) with what dma_sriov_top.v, dma_logic.v and the engine
    manager (EngineReads.v) put behind it: one [card_step] is a rising edge of the clock.
    A load is answered with the bytes that are there, and a store is the access that the
    driver's side of this development takes it for; then, the requests that are not
    served. *)

From S2P Require Import Prelude EngineManager EngineReads DeviceDma Completer.
From Stdlib Require Import ZArith Lia.
From stdpp Require Import base list gmap.
Local Open Scope Z_scope.

(** ** The card *)

Section Card.
Context {R : Type} `{BramPort R}.

(** The common register of dma_logic.v, lines 430 to 484. *)
Record card := Card {
  t_completer : completer;
  s_mem_iface_ack_ctrl_r : bool;
  s_mem_iface_dout_ctrl_r : Z;
  t_full : full (R := R)
}.

(** The inputs of a cycle. *)
Record pins := Pins {
  p_cq : cq;
  p_cc_tready : bool;
  p_end : bool; p_update : bool; p_stats : stats; p_error : bool; p_byte_count : Z
}.

Definition C_LOG2_MAX_PAYLOAD : Z := 8.                   (* pcie_controller.sv *)
Definition C_LOG2_MAX_READ_REQUEST : Z := 9.

Definition common_block : Z := C_ENGINE_TABLE_OFFSET + C_NUM_ENGINES * C_OFFSET_BETWEEN_ENGINES.
Definition common_word : Z := (C_LOG2_MAX_READ_REQUEST - 7) * 2 ^ 3 + (C_LOG2_MAX_PAYLOAD - 7).

(** The guard of dma_sriov_top.v, line 200. *)
Definition logic_en (c : completer) : bool :=
  mem_en c && (C_ENGINE_TABLE_OFFSET <=? x_addr (mem_access c)).

Definition card_wires (p : pins) (c : completer) : wires :=
  Wires (Input (logic_en c) (mem_access c) (p_end p) (p_update p) (p_stats p)) (p_error p) (p_byte_count p).

Definition card_dout (x : card) : Z :=
  if s_mem_iface_ack_ctrl_r x then s_mem_iface_dout_ctrl_r x else S_MEM_IFACE_DOUT (t_full x).

Definition card_ack (x : card) : bool :=
  if s_mem_iface_ack_ctrl_r x then true else S_MEM_IFACE_ACK (f_acks (t_full x)).

Definition card_step (p : pins) (x : card) : card :=
  let c := t_completer x in
  let w := card_wires p c in
  let a := mem_access c in
  let common := logic_en c && (x_addr a =? common_block) in
  let c' := completer_step (p_cq p) (card_ack x) (p_cc_tready p) (card_dout x) c in
  if logic_en c && user_reset a then Card c' false 0 (full_reset (full_step w (t_full x)))
  else Card c' common (if common then common_word else s_mem_iface_dout_ctrl_r x)
         (full_step w (t_full x)).

Definition card_run (ps : list pins) (x : card) : card := fold_left (fun x p => card_step p x) ps x.

(** The manager of EngineManager.v, inside, takes the step of [logic_step]. *)
Lemma card_manager p x :
  f_manager (t_full (card_step p x)) =
    logic_step (w_input (card_wires p (t_completer x))) (f_manager (t_full x)).
Proof. unfold card_step, logic_step. cbn. by destruct (_ && user_reset _). Qed.

(** ** Reads *)

(** The request is in the beat, and is for a word that the manager answers. *)
Definition read_request (r : request) (p : pins) : Prop :=
  decoded_req (p_cq p) = VALID_RD_REQ /\ cq_fields (p_cq p) = r.

Definition word_of (r : request) : Z := u16 (mem_addr r).

Definition calm_pins (p : pins) : Prop := p_end p = false /\ p_update p = false.

(** No write in the last two cycles. *)
Definition no_recent (x : card) : Prop :=
  mem_ack_pending_pipe_1_r (f_acks (t_full x)) = false /\
  mem_ack_pending_pipe_2_r (f_acks (t_full x)) = false.

(** What is kept for the completion of [r] when the memory answers [word]. *)
Definition latched (r : request) (word : Z) (c : completer) : Prop :=
  c_req c = r /\ cpl_data c = read_word r word /\
  forall n low, counted r = Some (n, low) ->
    cpl_byte_cnt c = n /\ cpl_lower_addr c = (req_addr r * 4 + low) mod 2 ^ 7.

Definition sent (x : card) : bool := bool_decide (c_st (t_completer x) = S_SEND_RD_CPL).

Lemma access_read c : c_st c <> S_STORE_WR_REQ -> x_we (mem_access c) = 0.
Proof. intros Hc. unfold mem_access. by destruct (c_st c). Qed.

Lemma access_addr c : x_addr (mem_access c) = word_of (c_req c).
Proof. unfold mem_access, word_of. destruct (c_st c); try done. by repeat case_match. Qed.

(** Without a write there is no reset. *)
Lemma card_step_read p x :
  let c := t_completer x in
  let common := logic_en c && (word_of (c_req c) =? common_block) in
  c_st c <> S_STORE_WR_REQ ->
  card_step p x =
    Card (completer_step (p_cq p) (card_ack x) (p_cc_tready p) (card_dout x) c) common
      (if common then common_word else s_mem_iface_dout_ctrl_r x)
      (full_step (card_wires p c) (t_full x)).
Proof.
  intros c common Hc. unfold card_step, user_reset. fold c.
  rewrite (access_read c Hc), access_addr. change (Z.testbit 0 0) with false.
  by rewrite andb_false_r, andb_false_l, andb_false_r.
Qed.

(** The three steps of a read. *)
Lemma read_accepted p x r :
  c_st (t_completer x) = S_WAIT_FOR_REQ -> read_request r p ->
  let x' := card_step p x in
  c_st (t_completer x') = S_STORE_RD_REQ /\ c_req (t_completer x') = r /\
  s_mem_iface_ack_ctrl_r x' = false /\
  f_acks (t_full x') = next_acks false (f_acks (t_full x)).
Proof.
  intros Hs [Hd Hr]. cbv zeta. rewrite card_step_read by (by rewrite Hs).
  unfold completer_step, next_cpl, next_state, next_req, card_wires, logic_en, mem_en.
  by rewrite Hs, Hd, <- Hr.
Qed.

Lemma read_stored p x a :
  c_st (t_completer x) = S_STORE_RD_REQ -> word_of (c_req (t_completer x)) = a ->
  C_ENGINE_TABLE_OFFSET <= a -> a <> common_block ->
  let w := card_wires p (t_completer x) in
  let x' := card_step p x in
  c_st (t_completer x') = S_WAIT_FOR_RD_CPL /\ c_req (t_completer x') = c_req (t_completer x) /\
  s_mem_iface_ack_ctrl_r x' = false /\ t_full x' = full_step w (t_full x) /\ reads_at a w.
Proof.
  intros Hs Ha Hl Hc. cbv zeta. rewrite card_step_read by (by rewrite Hs).
  unfold reads_at, card_wires, logic_en, mem_en. cbn [w_input i_en i_bus].
  rewrite access_addr, access_read, Ha, Hs by (by rewrite Hs).
  rewrite (proj2 (Z.leb_le _ _) Hl), (proj2 (Z.eqb_neq _ _) Hc).
  unfold completer_step, next_cpl, next_state, next_req. rewrite Hs. done.
Qed.

Lemma read_waits p x a :
  c_st (t_completer x) = S_WAIT_FOR_RD_CPL -> word_of (c_req (t_completer x)) = a ->
  let r := c_req (t_completer x) in
  let w := card_wires p (t_completer x) in
  let x' := card_step p x in
  c_st (t_completer x') = (if card_ack x then S_SEND_RD_CPL else S_WAIT_FOR_RD_CPL) /\
  latched r (card_dout x) (t_completer x') /\
  s_mem_iface_ack_ctrl_r x' = false /\ t_full x' = full_step w (t_full x) /\ holds_at a w.
Proof.
  intros Hs Ha. cbv zeta. rewrite card_step_read by (by rewrite Hs).
  unfold holds_at, card_wires, logic_en, mem_en. cbn [w_input i_en i_bus].
  rewrite access_addr, Ha, Hs. unfold completer_step, next_cpl, next_state, next_req. rewrite Hs.
  unfold latched. destruct (counted _) as [[]|]; cbn; split_and!; try done.
  by intros ? ? [= <- <-].
Qed.

Section Laws.
Context `{!BramLaws R, !BramPortLaws R}.

(** A cycle in which the completer waits for the memory, or for the host. *)
Lemma card_step_idle p x :
  mem_en (t_completer x) = false ->
  let w := card_wires p (t_completer x) in
  t_full (card_step p x) = full_step w (t_full x) /\ i_en (w_input w) = false /\
  s_mem_iface_ack_ctrl_r (card_step p x) = false /\
  f_acks (t_full (card_step p x)) = next_acks false (f_acks (t_full x)).
Proof.
  intros He. cbv zeta. rewrite card_step_read; [|intros E; unfold mem_en in He; by rewrite E in He].
  unfold card_wires, logic_en. by rewrite He.
Qed.

(** After a completion was sent no acknowledgement is near. *)
Lemma after_load p q x :
  c_st (t_completer (card_step p x)) = S_SEND_RD_CPL -> c_st (t_completer x) <> S_SEND_RD_CPL ->
  no_recent (card_step q (card_step p x)).
Proof.
  intros S1 S0.
  assert (W : c_st (t_completer x) = S_WAIT_FOR_RD_CPL).
  { revert S1 S0. unfold card_step. case_match; cbn; unfold completer_step;
      destruct (next_cpl _ _) as [[]]; cbn; unfold next_state; repeat case_match; done. }
  destruct (card_step_idle p x) as (_ & _ & _ & A); [unfold mem_en; by rewrite W|].
  destruct (card_step_idle q (card_step p x)) as (_ & _ & _ & B); [unfold mem_en; by rewrite S1|].
  unfold no_recent. by rewrite B, A.
Qed.

(** The steps of a read, with the acknowledgements of the manager in flight. *)
Lemma read_in_flight p0 p1 x r :
  c_st (t_completer x) = S_WAIT_FOR_REQ -> read_request r p0 ->
  C_ENGINE_TABLE_OFFSET <= word_of r -> word_of r <> common_block ->
  let x1 := card_step p0 x in
  let x2 := card_step p1 x1 in
  c_st (t_completer x1) = S_STORE_RD_REQ /\
  c_st (t_completer x2) = S_WAIT_FOR_RD_CPL /\ c_req (t_completer x2) = r /\
  s_mem_iface_ack_ctrl_r x2 = false /\
  f_acks (t_full x2) =
    Acks true false (mem_ack_pending_pipe_1_r (f_acks (t_full x)))
      (mem_ack_pending_pipe_2_r (f_acks (t_full x))) /\
  exists w, t_full x2 = full_step w (t_full x1) /\ reads_at (word_of r) w /\
    (calm_pins p1 -> calm_wires w).
Proof.
  intros Hs Hr Hl Hc x1 x2.
  destruct (read_accepted p0 x r Hs Hr) as (S1 & R1 & _ & A1). fold x1 in S1, R1, A1.
  destruct (read_stored p1 x1 (word_of r) S1) as (S2 & R2 & C2 & F2 & W2); [by rewrite R1 | done..|].
  fold x2 in S2, R2, C2, F2. split_and!; try done; [by rewrite R2| |by eexists].
  rewrite F2. cbn [full_step f_acks]. by rewrite A1, (proj1 W2).
Qed.

Lemma readable_not_common a : readable a -> a <> common_block.
Proof.
  unfold readable, common_block, C_ENGINE_TABLE_OFFSET, c_offset_engines_config,
    c_offset_between_descriptors, C_NUM_DESCRIPTORS, C_NUM_ENGINES, C_OFFSET_BETWEEN_ENGINES. lia.
Qed.

(** A cycle of waiting. *)
Lemma waits_on p x r ks :
  c_st (t_completer x) = S_WAIT_FOR_RD_CPL -> c_req (t_completer x) = r ->
  s_mem_iface_ack_ctrl_r x = false -> f_acks (t_full x) = ks ->
  let x' := card_step p x in
  c_st (t_completer x') = (if S_MEM_IFACE_ACK ks then S_SEND_RD_CPL else S_WAIT_FOR_RD_CPL) /\
  s_mem_iface_ack_ctrl_r x' = false /\ f_acks (t_full x') = next_acks false ks /\
  latched r (S_MEM_IFACE_DOUT (t_full x)) (t_completer x') /\
  exists w, t_full x' = full_step w (t_full x) /\ holds_at (word_of r) w /\
    (calm_pins p -> calm_wires w).
Proof.
  intros Hs Hr Hc Ha. cbv zeta.
  destruct (read_waits p x (word_of r) Hs) as (S' & D' & C' & F' & W'); [by rewrite Hr|].
  rewrite S', C', F'. cbn [full_step f_acks]. rewrite Ha, (proj1 W').
  revert D'. unfold card_ack, card_dout. rewrite Hc, Ha, Hr. intros D'. split_and!; try done.
  exists (card_wires p (t_completer x)). done.
Qed.

(** A read of a word of the manager, with no write in the last two cycles: five cycles
    later the completion is sent, and not before, with the word of the cycle of the
    request. *)
Lemma read_completes ps x r :
  length ps = 6%nat -> c_st (t_completer x) = S_WAIT_FOR_REQ -> no_recent x ->
  (exists p, head ps = Some p /\ read_request r p) -> Forall calm_pins (drop 1 ps) ->
  readable (word_of r) ->
  let x' := card_run ps x in
  c_st (t_completer x') = S_SEND_RD_CPL /\
  latched r (word_at (t_full (card_run (take 1 ps) x)) (word_of r)) (t_completer x') /\
  Forall (fun n => sent (card_run (take n ps) x) = false) (seq 0 6).
Proof.
  intros Hl Hs [N1 N2] (p0 & Hp & Hr) Hc Ha.
  destruct ps as [|? [|p1 [|p2 [|p3 [|p4 [|p5 []]]]]]]; try done. injection Hp as ->.
  cbn [drop] in Hc. apply Forall_cons in Hc as [K1 Hc]. apply Forall_cons in Hc as [K2 _].
  assert (Hlow : C_ENGINE_TABLE_OFFSET <= word_of r) by apply Ha.
  pose proof (readable_not_common _ Ha) as Hcom.
  destruct (read_in_flight p0 p1 x r Hs Hr Hlow Hcom) as (S1 & S2 & R2 & C2 & A2 & w1 & F2 & W1 & I1).
  rewrite N1, N2 in A2.
  cbn [card_run fold_left take]. set (x1 := card_step p0 x) in *. set (x2 := card_step p1 x1) in *.
  destruct (waits_on p2 x2 r _ S2 R2 C2 A2) as (S3 & C3 & A3 & [R3 _] & w2 & F3 & W2 & I2).
  set (x3 := card_step p2 x2) in *.
  destruct (waits_on p3 x3 r _ S3 R3 C3 A3) as (S4 & C4 & A4 & [R4 _] & w3 & F4 & W3 & _).
  set (x4 := card_step p3 x3) in *.
  destruct (waits_on p4 x4 r _ S4 R4 C4 A4) as (S5 & C5 & A5 & [R5 _] & w4 & F5 & W4 & _).
  set (x5 := card_step p4 x4) in *.
  destruct (waits_on p5 x5 r _ S5 R5 C5 A5) as (S6 & _ & _ & D6 & _).
  set (x6 := card_step p5 x5) in *.
  split; [exact S6|]. split.
  - rewrite F5, F4, F3, F2 in D6.
    by rewrite (proj2 (read_answered (word_of r) w1 w2 w3 w4 _ Ha W1 W2 W3 W4 (I1 K1) (I2 K2))) in D6.
  - cbn [seq]. rewrite !Forall_cons. cbn [card_run fold_left take]. fold x1 x2 x3 x4 x5.
    unfold sent. by rewrite Hs, S1, S2, S3, S4, S5.
Qed.

(** A register of the manager is answered with any acknowledgement: its word is there in
    the cycle after the request, and stays. *)
Definition engine_answer (v : Z) (x : card) : Prop :=
  is_engine_read_r (f_answers (t_full x)) = true /\ rdata_engine_r (f_answers (t_full x)) = v.

Lemma engine_waits p x r ks v :
  c_st (t_completer x) = S_WAIT_FOR_RD_CPL -> c_req (t_completer x) = r ->
  s_mem_iface_ack_ctrl_r x = false -> f_acks (t_full x) = ks -> engine_answer v x ->
  let x' := card_step p x in
  c_st (t_completer x') = (if S_MEM_IFACE_ACK ks then S_SEND_RD_CPL else S_WAIT_FOR_RD_CPL) /\
  s_mem_iface_ack_ctrl_r x' = false /\ f_acks (t_full x') = next_acks false ks /\
  engine_answer v x' /\ latched r v (t_completer x').
Proof.
  intros Hs Hr Hc Ha [He Hv] x'. destruct (waits_on p x r ks Hs Hr Hc Ha) as (S & C & A & D & w & F & [W _] & _).
  fold x' in S, C, A, D, F. split_and!; try done.
  - unfold engine_answer. rewrite F. cbn [full_step f_answers next_answers is_engine_read_r rdata_engine_r].
    by rewrite W.
  - unfold S_MEM_IFACE_DOUT in D. by rewrite He, Hv in D.
Qed.

(** The first acknowledgement in flight ends the wait. *)
Lemma engine_answered n ps x r ks v :
  length ps = S n -> S_MEM_IFACE_ACK (Nat.iter n (next_acks false) ks) = true ->
  c_st (t_completer x) = S_WAIT_FOR_RD_CPL -> c_req (t_completer x) = r ->
  s_mem_iface_ack_ctrl_r x = false -> f_acks (t_full x) = ks -> engine_answer v x ->
  exists k, (1 <= k <= S n)%nat /\ let x' := card_run (take k ps) x in
    c_st (t_completer x') = S_SEND_RD_CPL /\ latched r v (t_completer x') /\
    forall j, (j < k)%nat -> sent (card_run (take j ps) x) = false.
Proof.
  revert ps x ks. induction n as [|n IH]; intros [|p ps] x ks Hl Hn Hs Hr Hc Ha He; try done;
    destruct (engine_waits p x r ks v Hs Hr Hc Ha He) as (S' & C' & A' & E' & D');
    assert (N : sent x = false) by (unfold sent; by rewrite Hs).
  - cbn in Hn. rewrite Hn in S'. exists 1%nat. split; [lia|]. cbn [take]. split_and!; try done.
    intros j Hj. assert (j = 0)%nat as -> by lia. done.
  - destruct (S_MEM_IFACE_ACK ks) eqn:Ek.
    + exists 1%nat. split; [lia|]. cbn [take]. split_and!; try done.
      intros j Hj. assert (j = 0)%nat as -> by lia. done.
    + destruct (IH ps (card_step p x) (next_acks false ks)) as (k & Hk & K1 & K2 & K3); try done.
      { by injection Hl. } { by rewrite <- Nat.iter_succ_r. } { apply D'. }
      exists (S k). split; [lia|]. split_and!; try done.
      intros [|j] Hj; [done|]. apply K3. lia.
Qed.

Lemma engine_word_reads p0 ps x r :
  length ps = 5%nat -> c_st (t_completer x) = S_WAIT_FOR_REQ -> read_request r p0 ->
  readable (word_of r) -> is_engine_word (word_of r) = true ->
  exists n, (n <= 6)%nat /\ let x' := card_run (take n (p0 :: ps)) x in
    c_st (t_completer x') = S_SEND_RD_CPL /\
    latched r (word_at (t_full (card_step p0 x)) (word_of r)) (t_completer x') /\
    forall j, (j < n)%nat -> sent (card_run (take j (p0 :: ps)) x) = false.
Proof.
  intros Hl Hs Hr Ha Hw. destruct ps as [|p1 ps]; [done|].
  pose proof (readable_not_common _ Ha) as Hcom.
  destruct (read_in_flight p0 p1 x r Hs Hr (proj1 Ha) Hcom) as (S1 & S2 & R2 & C2 & A2 & w & F2 & W & _).
  assert (E : engine_answer (word_at (t_full (card_step p0 x)) (word_of r)) (card_step p1 (card_step p0 x))).
  { unfold engine_answer, word_at. rewrite F2, Hw. destruct W as (E & A & _).
    cbn [full_step f_answers next_answers is_engine_read_r rdata_engine_r]. by rewrite E, A. }
  destruct (engine_answered 3 ps _ r (Acks true false _ _) _ (eq_add_S _ _ Hl) eq_refl S2 R2 C2 A2 E) as (k & Hk & K1 & K2 & K3).
  exists (S (S k)). split; [lia|]. split_and!; try done.
  intros [|[|j]] Hj; [| |apply K3; lia]; unfold sent; cbn [take card_run fold_left].
  - by rewrite Hs.
  - by rewrite S1.
Qed.

(** C17.  A load is answered: whatever the host reads of the registers and the tables of
    the engine, at any offset and of any width within a word, is completed within six
    cycles with the bytes that are there in the cycle in which the request is taken up,
    their count and the low bits of their address; for the tables, if the host did not
    write in the two cycles before. *)
Theorem load_served ps p0 x r o len :
  length ps = 5%nat -> c_st (t_completer x) = S_WAIT_FOR_REQ ->
  read_request r p0 -> asks r o len -> readable (o / 8) -> Forall calm_pins ps ->
  no_recent x \/ is_engine_word (o / 8) = true ->
  exists n, (n <= 6)%nat /\ let x' := card_run (take n (p0 :: ps)) x in
    let c := t_completer x' in
    c_st c = S_SEND_RD_CPL /\ c_req c = r /\
    cpl_byte_cnt c = len /\ cpl_lower_addr c = o mod 2 ^ 7 /\
    (forall i, 0 <= i < len ->
      byte_at (cpl_data c) (o mod 4 + i) =
        byte_at (word_at (t_full (card_step p0 x)) (o / 8)) (o mod 8 + i)) /\
    (forall j, (j < n)%nat -> sent (card_run (take j (p0 :: ps)) x) = false) /\
    forall q, no_recent (card_step q x').
Proof.
  intros Hl Hs Hr Hq Ha Hc Hx.
  assert (E : word_of r = o / 8) by exact (word_asked r o len Hq). rewrite <- E in *.
  assert (S : exists n, (n <= 6)%nat /\ let x' := card_run (take n (p0 :: ps)) x in
    c_st (t_completer x') = S_SEND_RD_CPL /\
    latched r (word_at (t_full (card_step p0 x)) (word_of r)) (t_completer x') /\
    forall j, (j < n)%nat -> sent (card_run (take j (p0 :: ps)) x) = false).
  { destruct Hx as [Hn | Hw]; [|by apply engine_word_reads]. exists 6%nat. split; [lia|].
    destruct (read_completes (p0 :: ps) x r) as (S & L & N); try done; [cbn; lia | by exists p0|].
    rewrite take_ge by (cbn; lia). split; [exact S|]. split; [exact L|].
    intros j Hj. rewrite Forall_forall in N. apply N, elem_of_seq. lia. }
  destruct S as (n & Hn & S & (R1 & D & K) & N). exists n. split; [exact Hn|]. cbv zeta.
  destruct (K _ _ (counted_spec r o len Hq)) as [-> ->].
  split_and!; try done.
  - apply (lower_addr_spec r o len Hq).
  - intros i Hi. rewrite D. by apply (read_word_spec r o len).
  - intros q. destruct n as [|n]; [by cbn in S; rewrite Hs in S|].
    destruct (lookup_lt_is_Some_2 (p0 :: ps) n) as [pn En]; [cbn; lia|].
    rewrite (take_S_r _ n pn En) in *.
    unfold card_run in *. rewrite fold_left_app in *. cbn [fold_left] in *.
    apply after_load; [exact S|]. specialize (N n ltac:(lia)). unfold sent, card_run in N.
    by apply bool_decide_eq_false in N.
Qed.

(** ** Stores *)

Definition write_request (r : request) (p : pins) : Prop :=
  decoded_req (p_cq p) = VALID_WR_REQ /\ cq_fields (p_cq p) = r.

Lemma store_accepted p x r :
  c_st (t_completer x) = S_WAIT_FOR_REQ -> write_request r p -> calm_pins p ->
  let x' := card_step p x in
  c_st (t_completer x') = S_STORE_WR_REQ /\ c_req (t_completer x') = r /\
  settled (f_manager (t_full x')) = settled (f_manager (t_full x)).
Proof.
  intros Hs [Hd Hr] Hp. cbv zeta. rewrite card_step_read by (by rewrite Hs).
  cbn [t_completer t_full full_step f_manager]. rewrite step_calm by done.
  unfold access_of, completer_step, next_cpl, next_state, next_req, card_wires, logic_en, mem_en.
  by rewrite Hs, Hd, <- Hr.
Qed.

(** The card carries out a store. *)
Lemma store_carried_out p0 p1 x r o bs bar0 :
  c_st (t_completer x) = S_WAIT_FOR_REQ -> write_request r p0 ->
  carries r o bs -> Forall is_byte bs -> C_ENGINE_TABLE_OFFSET <= o / 8 ->
  whole_index (access_for bar0 (bar0 + o, bs)) -> calm_pins p0 -> calm_pins p1 ->
  let x' := card_step p1 (card_step p0 x) in
  c_st (t_completer x') = S_WAIT_FOR_REQ /\
  settled (f_manager (t_full x')) ≡
    logic_access (access_for bar0 (bar0 + o, bs)) (settled (f_manager (t_full x))).
Proof.
  intros Hs Hr Hc Hb Ha Hw K0 K1. cbv zeta.
  destruct (store_accepted p0 x r Hs Hr K0) as (S1 & R1 & E1). set (x1 := card_step p0 x) in *.
  split; [unfold card_step; by case_match; cbn; unfold completer_step, next_cpl; rewrite S1|].
  rewrite <- R1 in Hc. pose proof (store_access _ o bs bar0 S1 Hc Hb) as A.
  assert (En : logic_en (t_completer x1) = true).
  { unfold logic_en, mem_en. rewrite S1, (same_addr _ _ A). unfold access_for. cbn [fst snd x_addr].
    replace (bar0 + o - bar0) with o by lia. by apply Z.leb_le. }
  rewrite card_manager, (proj2 (logic_step_spec _ _)) by done.
  unfold access_of. cbn [card_wires w_input i_en i_bus]. rewrite En, E1.
  apply logic_access_same; [done|]. intros Ha1. rewrite (same_we _ _ A). apply Hw.
  by rewrite <- (same_addr _ _ A).
Qed.

(** C18.  A store reaches the device: the bytes a store writes at an offset of the words of
    the engine, or of the common register, are in two cycles the access that DeviceDma.v
    and Board.v have for it, and the card is ready for the next request; except that a
    store of the first byte alone of complete_until_descriptor also writes bits 8 and 9. *)
Theorem store_served p0 p1 x r o bs bar0 :
  c_st (t_completer x) = S_WAIT_FOR_REQ -> write_request r p0 ->
  carries r o bs -> Forall is_byte bs -> C_ENGINE_TABLE_OFFSET <= o / 8 ->
  whole_index (access_for bar0 (bar0 + o, bs)) -> calm_pins p0 -> calm_pins p1 ->
  let x' := card_step p1 (card_step p0 x) in
  c_st (t_completer x') = S_WAIT_FOR_REQ /\
  settled (f_manager (t_full x')) ≡
    logic_access (access_for bar0 (bar0 + o, bs)) (settled (f_manager (t_full x))).
Proof. apply store_carried_out. Qed.

(** ** Requests that get no answer *)

(** The completer waits, and nothing that is in flight will end that. *)
Definition stuck (x : card) : Prop :=
  c_st (t_completer x) = S_WAIT_FOR_RD_CPL /\ s_mem_iface_ack_ctrl_r x = false /\
  f_acks (t_full x) = Acks false false false false.

Lemma stuck_forever ps x : stuck x -> stuck (card_run ps x).
Proof.
  revert x. induction ps as [|p ps IH]; intros x Hx; [done|]. apply IH.
  destruct Hx as (S & C & A).
  destruct (card_step_idle p x) as (_ & _ & C' & A'); [unfold mem_en; by rewrite S|].
  split; [|split; [exact C' | by rewrite A', A]].
  rewrite card_step_read by (by rewrite S). cbn. unfold completer_step.
  destruct (next_cpl _ _) as [[]]. cbn. unfold next_state, card_ack. by rewrite S, C, A.
Qed.

(** The guard of dma_sriov_top.v leaves the words below the engine without an answer: a
    load of one of them is never completed, and the card takes up no other request. *)
Theorem low_load_hangs p0 p1 ps x r :
  c_st (t_completer x) = S_WAIT_FOR_REQ -> no_recent x -> read_request r p0 ->
  word_of r < C_ENGINE_TABLE_OFFSET ->
  c_st (t_completer (card_run (p0 :: p1 :: ps) x)) = S_WAIT_FOR_RD_CPL.
Proof.
  intros Hs [N1 N2] Hr Hl.
  destruct (read_accepted p0 x r Hs Hr) as (S1 & R1 & C1 & A1). unfold next_acks in A1. rewrite N1, N2 in A1.
  apply (stuck_forever ps). set (x1 := card_step p0 x) in *.
  assert (E : logic_en (t_completer x1) = false).
  { unfold logic_en. rewrite access_addr, R1. apply andb_false_iff. right. by apply Z.leb_gt. }
  rewrite card_step_read by (by rewrite S1). rewrite E. unfold stuck, card_wires. rewrite E.
  cbn. rewrite A1. unfold completer_step, next_cpl, next_state. by rewrite S1.
Qed.

(** A request of more than two dwords is dropped; if it is a read, no completion says so. *)
Lemma unsupported_dropped p q x :
  c_st (t_completer x) = S_WAIT_FOR_REQ -> decoded_req (p_cq p) = UNSUPPORTED_REQ ->
  let x1 := card_step p x in let x2 := card_step q x1 in
  c_st (t_completer x2) = S_WAIT_FOR_REQ /\
  completion (t_completer x1) = None /\ completion (t_completer x2) = None.
Proof.
  intros Hs Hd x1 x2.
  assert (S1 : c_st (t_completer x1) = S_SEND_UNSUPPORTED_REQ).
  { unfold x1. rewrite card_step_read by (by rewrite Hs). cbn. unfold completer_step, next_cpl, next_state.
    by rewrite Hs, Hd. }
  assert (S2 : c_st (t_completer x2) = S_WAIT_FOR_REQ).
  { unfold x2. rewrite card_step_read by (by rewrite S1). cbn. unfold completer_step, next_cpl, next_state.
    by rewrite S1. }
  unfold completion. by rewrite S1, S2.
Qed.
End Laws.
End Card.

(** ** A card *)

(** The beat of a request. *)
Definition beat (r : request) : cq :=
  Cq (fields_value [(2, req_at r); (62, req_addr r); (11, req_dword_cnt r); (4, req_type r); (1, 0);
        (16, req_reqr_id r); (8, req_tag r); (8, 0); (3, req_bar_id r); (6, 0); (3, req_tc r);
        (3, req_attr r); (1, 0); (64, req_data r)])
     (req_first_be r + 2 ^ 4 * req_last_be r + 2 ^ 40) true.

Definition no_request : cq := Cq 0 0 false.

Definition pins_of (q : cq) : pins := Pins q true false false stats_zero false 0.

(** A load of a word of 8 bytes, and a store of one, at offset [o]. *)
Definition load8 (o : Z) : request := Request 0 (o / 4) 2 C_MEM_RD_REQ 0 3 0 0 0 0 15 15.
Definition store8 (o v : Z) : request := Request 0 (o / 4) 2 C_MEM_WR_REQ 0 4 0 0 0 v 15 15.

(** A card after the reset, with a latency of 7 in the first entry. *)
Definition sim_card : card (R := gmap Z Z) :=
  card_step (pins_of no_request)
    (Card (Completer S_RESET (load8 0) 0 0 0) false 0
      (full_after (Tables ∅ ∅ ∅ {[ 0 := 7 ]} ∅ ∅ ∅ ∅))).

(** The latency of the first entry is at offset 4184. *)
Example sim_load :
  let run n := t_completer (card_run (take n (pins_of (beat (load8 4184)) :: repeat (pins_of no_request) 5)) sim_card) in
  (c_st (run 5%nat), c_st (run 6%nat), cpl_data (run 6%nat)) = (S_WAIT_FOR_RD_CPL, S_SEND_RD_CPL, 7).
Proof. by vm_compute. Qed.

(** A load that follows a store at once takes the acknowledgement of the store: it is
    completed two cycles early, with what was on the wires. *)
Example load_after_store_stale :
  let ps := [pins_of (beat (store8 4160 5)); pins_of no_request; pins_of (beat (load8 4184));
             pins_of no_request; pins_of no_request; pins_of no_request] in
  let c := t_completer (card_run ps sim_card) in
  (c_st c, cpl_data c) = (S_SEND_RD_CPL, 0).
Proof. by vm_compute. Qed.

Lemma load_served_witness :
  exists n, (n <= 6)%nat /\
    byte_at (cpl_data (t_completer (card_run (take n (pins_of (beat (load8 4184)) ::
      repeat (pins_of no_request) 5)) sim_card))) 0 = 7.
Proof.
  destruct (load_served (repeat (pins_of no_request) 5) (pins_of (beat (load8 4184))) sim_card
    (load8 4184) 4184 8) as (n & Hn & _ & _ & _ & _ & D & _).
  - done.
  - by vm_compute.
  - split; by vm_compute.
  - by split.
  - by split.
  - by repeat constructor.
  - left. split; by vm_compute.
  - exists n. split; [exact Hn|]. specialize (D 0). change (4184 mod 4 + 0) with 0 in D.
    rewrite D by lia. by vm_compute.
Defined.

Lemma carries_store8 o v : o mod 8 = 0 -> 0 <= o < 2 ^ 19 -> carries (store8 o v) o (bytes_of 8 v).
Proof.
  intros Hm Ho. assert (M : o mod 4 = 0) by (Z.to_euclidean_division_equations; lia).
  assert (A : o / 4 < 2 ^ 17) by (apply Z.div_lt_upper_bound; lia).
  split.
  { split; rewrite ?Hm, ?M; try done. apply Z.mod_small. split; [apply Z.div_pos; lia | done]. }
  rewrite M. intros i b Hi. cbn [req_data store8].
  rewrite <- (byte_at_of_bytes (bytes_of 8 v) i b (bytes_of_bytes 8 v) Hi), of_bytes_of.
  symmetry. apply byte_at_mod. apply lookup_lt_Some in Hi. rewrite bytes_of_length in Hi. lia.
Qed.

(** The start bit. *)
Lemma store_served_witness :
  v_enable (settled (f_manager (t_full (card_step (pins_of no_request)
    (card_step (pins_of (beat (store8 4096 1))) sim_card))))) = true.
Proof.
  destruct (store_served (pins_of (beat (store8 4096 1))) (pins_of no_request) sim_card
    (store8 4096 1) 4096 (bytes_of 8 1) 0) as (_ & E & _).
  - by vm_compute.
  - split; by vm_compute.
  - by apply carries_store8.
  - apply bytes_of_bytes.
  - done.
  - intros E. by vm_compute in E.
  - done.
  - done.
  - rewrite E. by vm_compute.
Defined.

Lemma low_load_hangs_witness :
  c_st (t_completer (card_run (pins_of (beat (load8 0)) :: repeat (pins_of no_request) 100) sim_card)) =
    S_WAIT_FOR_RD_CPL.
Proof.
  apply (low_load_hangs _ (pins_of no_request) (repeat (pins_of no_request) 99) sim_card (load8 0));
    try (split; by vm_compute); by vm_compute.
Defined.
