(* ===== verification/Requester.v ===== *)
(** * The generator of memory requests (FPGA/source/hdl/dma/dma_rq_logic.v)

    While the engine manager shows a valid descriptor, this module writes requests to the
    host (a stream of data words, from a buffer that the application fills) or reads from
    it (a request per TLP, each with a free tag of the window), says when the operation
    has ended, and measures it.  One [rq_step] is a rising edge of the clock: each block
    of the source is a function from the registers before the edge.  Registers nothing
    depends on are left out (mem_rd_last_tlp_words_r, is_sop_r, byte_en_r, req_tag_r,
    BYTE_COUNT, which stays 0).  RequesterReads.v and RequesterWrites.v say what an
    operation amounts to. *)

From S2P Require Import Prelude EngineManager DeviceDma Completer CardBus AddressGen.
From Stdlib Require Import ZArith Lia.
From stdpp Require Import base list.
Local Open Scope Z_scope.

Definition C_WINDOW_SIZE : Z := 24.                       (* pcie_controller.sv *)

Inductive rq_state := IDLE | INIT_WRITE | WRITE | INIT_READ | WAIT_READ | WAIT_RD_OP | WAIT_WR_OP.

#[export] Instance rq_state_eq_dec : EqDecision rq_state.
Proof. solve_decision. Defined.

(** ** Inputs and registers *)

(** What the engine manager shows: lines 110 to 132.  Of STATUS_BYTE the module looks at the
    upper four bits. *)
Record shown := Shown {
  ENGINE_VALID : bool;
  STATUS_8_5 : Z;                    (* STATUS_BYTE[8:5] *)
  PLACEMENT : placement;
  NUMBER_TLPS : Z;
  CURRENT_WINDOW_SIZE : Z
}.

Record rq_in := RqIn {
  q_shown : shown;
  q_tready : bool;                   (* M_AXIS_RQ_TREADY *)
  q_rc_valid : bool;                 (* S_AXIS_RC_TVALID, with the constant TREADY *)
  q_rc_tkeep : Z;
  q_completed : list bool;           (* COMPLETED_TAGS *)
  q_c2s_tvalid : bool;
  q_c2s_tdata : Z;
  q_c2s_tkeep : Z
}.

(** Lines 484 to 487, 251 and 252. *)
Record boundaries := Boundaries {
  total_tlp_r : Z;                   (* mem_wr_total_tlp_r and mem_rd_total_tlp_r *)
  mem_wr_number_even_tlp_r : Z; mem_wr_odd_tlp_words_r : Z;
  mem_rd_number_even_tlp_r : Z; mem_rd_odd_tlp_words_r : Z
}.

Record progress := Progress {
  mem_wr_current_tlp_r : Z; mem_wr_current_tlp_modulus_r : Z;
  mem_rd_current_tlp_r : Z; mem_rd_current_tlp_modulus_r : Z
}.

Record words := Words {
  mem_wr_remaining_words_r : Z;
  mem_wr_next_remainder_r : Z;
  mem_wr_addr_pointed_by_descriptor_r : Z;
  mem_rd_remaining_words_r : Z;
  mem_rd_addr_pointed_by_descriptor_r : Z
}.

Record tags := Tags {
  rq_window_size_r : Z;
  window_size_mask_r : list bool;
  current_tags_r : list bool;
  size_tags_r : list Z;
  latency_tags_r : list bool
}.

Record fifo := Fifo { c2s_buffer : list Z; c2s_buf_wr_ptr : Z; c2s_buf_rd_ptr : Z }.

Record axis := Axis {
  axis_rq_tvalid_r : bool; axis_rq_tdata_r : Z; axis_rq_tkeep_r : Z; axis_rq_tlast_r : bool;
  first_be_r : Z; last_be_r : Z
}.

Record generator := Generator { g_dice : dice; g_wr : side; g_rd : side }.

Record meter := Meter {
  update_latency_r : bool; stop_latency : bool;
  current_latency_r : Z; time_comp_r : Z; time_req_r : Z; bytes_comp_r : Z; bytes_req_r : Z
}.

Record requester := Requester {
  wr_state : rq_state;
  wr_state_pipe_r : rq_state;
  end_of_operation_r : bool;
  r_bounds : boundaries;
  r_progress : progress;
  r_words : words;
  r_tags : tags;
  r_fifo : fifo;
  r_axis : axis;
  r_gen : generator;
  r_meter : meter
}.

(** ** Wires *)

Definition max_words_tlp_s : Z := 2 ^ (C_LOG2_MAX_PAYLOAD - 2).
Definition max_words_read_request_s : Z := 2 ^ (C_LOG2_MAX_READ_REQUEST - 2).

(** Lines 694 and 695: the two bits of capabilities_s and the mode. *)
Definition writes (d : shown) : bool := Z.testbit (STATUS_8_5 d) 0.
Definition reads (d : shown) : bool := Z.testbit (STATUS_8_5 d) 1.
Definition address_mode_s (d : shown) : Z := bits 3 2 (STATUS_8_5 d).

Definition size_of (d : shown) : Z := SIZE_AT_DESCRIPTOR (PLACEMENT d).
Definition addr_of (d : shown) : Z := ADDR_AT_DESCRIPTOR (PLACEMENT d).

Section Wires.
Context (s : requester).

(** Lines 170 to 172 and 792 to 795. *)
Definition c2s_buf_occupancy : Z :=
  (c2s_buf_wr_ptr (r_fifo s) - c2s_buf_rd_ptr (r_fifo s)) mod 2 ^ 5.
Definition c2s_fifo_tready_s : bool := c2s_buf_occupancy <=? 12.
Definition one_word_at_buffer_s : bool := negb (c2s_buf_occupancy =? 0).
Definition two_words_at_buffer_s : bool := negb (bits 4 1 c2s_buf_occupancy =? 0).
Definition last_word_at_tlp_s : bool := mem_wr_remaining_words_r (r_words s) <=? 4.
Definition last_two_words_at_tlp_s : bool := mem_wr_remaining_words_r (r_words s) <=? 8.

(** The current TLP is the last one of its group. *)
Definition wr_group_ends : bool :=
  mem_wr_number_even_tlp_r (r_bounds s) =? mem_wr_current_tlp_modulus_r (r_progress s).
Definition rd_group_ends : bool :=
  mem_rd_number_even_tlp_r (r_bounds s) =? mem_rd_current_tlp_modulus_r (r_progress s).

(** Lines 542 and 543. *)
Definition current_wr_tlp_words_s : Z :=
  if wr_group_ends then mem_wr_odd_tlp_words_r (r_bounds s) else max_words_tlp_s.
Definition current_rd_tlp_words_s (d : shown) : Z :=
  if rd_group_ends then mem_rd_odd_tlp_words_r (r_bounds s)
  else if writes d then max_words_tlp_s else max_words_read_request_s.

(** A tag of the window is free: (current_tags_s & window_size_mask_r) != window_size_mask_r. *)
Definition tag_free : bool :=
  existsb (fun '(m, b) => m && negb b) (zip (window_size_mask_r (r_tags s)) (current_tags_r (r_tags s))).

(** No tag of the window is busy. *)
Definition tags_idle : bool :=
  forallb (fun '(m, b) => negb (m && b)) (zip (window_size_mask_r (r_tags s)) (current_tags_r (r_tags s))).

(** Lines 715 and 716. *)
Definition end_of_operation : bool :=
  match wr_state s with
  | WAIT_READ => tags_idle
  | IDLE => bool_decide (wr_state_pipe_r s = INIT_WRITE \/ wr_state_pipe_r s = WRITE)
  | _ => false
  end.

Definition CONTROL_BYTE : Z := 8 * Z.b2z end_of_operation.

(** An operation may start: the condition of IDLE, less the capability. *)
Definition startable (i : rq_in) : bool :=
  q_tready i && ENGINE_VALID (q_shown i) && negb (end_of_operation_r s) && negb end_of_operation.

(** The data is there for the word that ends a TLP. *)
Definition init_completes : bool := one_word_at_buffer_s && last_word_at_tlp_s.
Definition write_completes : bool :=
  (two_words_at_buffer_s && last_two_words_at_tlp_s) || (one_word_at_buffer_s && last_word_at_tlp_s).

(** The current memory write ends in this cycle. *)
Definition tlp_written (i : rq_in) : bool :=
  q_tready i &&
  match wr_state s with INIT_WRITE => init_completes | WRITE => write_completes | _ => false end.

(** A memory read is issued in this cycle. *)
Definition tlp_read (i : rq_in) : bool :=
  match wr_state s with INIT_READ => tag_free && q_tready i | _ => false end.

End Wires.

(** ** The blocks *)

(** The number of TLPs of a group and the words of its last one, lines 502 to 537. *)
Definition number_even (log size : Z) : Z :=
  if bits (log - 1) 0 size =? 0 then bits (log + 31) log size else u32 (bits (log + 31) log size + 1).
Definition odd_words (log size : Z) : Z :=
  if 0 <? bits (log - 1) 0 size then bits (log - 1) 0 size / 4 else 2 ^ (log - 2).

Definition next_boundaries (d : shown) : boundaries :=
  let log := if writes d then C_LOG2_MAX_PAYLOAD else C_LOG2_MAX_READ_REQUEST in
  Boundaries (u32 (NUMBER_TLPS d))
    (number_even C_LOG2_MAX_PAYLOAD (size_of d)) (odd_words C_LOG2_MAX_PAYLOAD (size_of d))
    (number_even log (size_of d)) (odd_words log (size_of d)).

(** Lines 551 to 608. *)
Definition next_progress (i : rq_in) (s : requester) : progress :=
  let (wt, wm, rt, rm) := r_progress s in
  match wr_state s with
  | IDLE => if q_tready i then Progress 1 1 1 1 else r_progress s
  | INIT_WRITE | WRITE =>
      if tlp_written s i then Progress (u32 (wt + 1)) (if wr_group_ends s then 1 else u32 (wm + 1)) rt rm
      else r_progress s
  | INIT_READ =>
      if tlp_read s i then Progress wt wm (u32 (rt + 1)) (if rd_group_ends s then 1 else u32 (rm + 1))
      else r_progress s
  | _ => r_progress s
  end.

(** After a TLP that ended its group (lines 632 to 640 and 651 to 659). *)
Definition after_write (d : shown) (s : requester) : rq_state :=
  if wr_group_ends s then
    if reads d then INIT_READ
    else if total_tlp_r (r_bounds s) <=? mem_wr_current_tlp_r (r_progress s) then IDLE else INIT_WRITE
  else INIT_WRITE.

(** Lines 615 to 692. *)
Definition next_wr_state (i : rq_in) (s : requester) : rq_state :=
  let d := q_shown i in
  match wr_state s with
  | IDLE =>
      if startable s i && writes d then INIT_WRITE
      else if startable s i && reads d then INIT_READ else IDLE
  | INIT_WRITE =>
      if q_tready i then
        if negb (one_word_at_buffer_s s) then INIT_WRITE
        else if last_word_at_tlp_s s then after_write d s else WRITE
      else INIT_WRITE
  | WRITE =>
      if q_tready i then if write_completes s then after_write d s else WRITE else WRITE
  | INIT_READ =>
      if q_tready i && tag_free s then
        if total_tlp_r (r_bounds s) <=? mem_rd_current_tlp_r (r_progress s) then WAIT_READ
        else if writes d && rd_group_ends s then INIT_WRITE else INIT_READ
      else INIT_READ
  | WAIT_READ => if end_of_operation s then IDLE else WAIT_READ
  | WAIT_RD_OP | WAIT_WR_OP => IDLE
  end.

(** The words of the next TLP: the remainder if that is the last of its group. *)
Definition next_tlp_words (even modulus odd max : Z) : Z :=
  if (even =? u32 (modulus + 1)) || (even =? 1) then odd else max.

(** Lines 803 to 862. *)
Definition wr_words_next (i : rq_in) (s : requester) : Z * Z * Z :=
  let w := r_words s in
  let d := q_shown i in
  let rem := mem_wr_remaining_words_r w in
  let nibble := mem_wr_next_remainder_r w in
  let a := mem_wr_addr_pointed_by_descriptor_r w in
  let next := next_tlp_words (mem_wr_number_even_tlp_r (r_bounds s))
    (mem_wr_current_tlp_modulus_r (r_progress s)) (mem_wr_odd_tlp_words_r (r_bounds s)) max_words_tlp_s in
  let done :=
    (next, next mod 16,
     if wr_group_ends s then tx_addr (address_mode_s d) (g_wr (r_gen s))
     else u64 (a + 4 * bits 10 0 (current_wr_tlp_words_s s))) in
  match wr_state s with
  | IDLE =>
      let n := Z.min (bits 63 2 (size_of d)) max_words_tlp_s in (n, n mod 16, addr_of d)
  | INIT_WRITE =>
      if tlp_written s i then done
      else if q_tready i && one_word_at_buffer_s s then (u64 (rem - 4), (nibble - 4) mod 16, a)
      else (rem, nibble, a)
  | WRITE =>
      if tlp_written s i then done
      else if q_tready i && two_words_at_buffer_s s then (u64 (rem - 8), (nibble - 8) mod 16, a)
      else (rem, nibble, a)
  | _ => (rem, nibble, a)
  end.

(** Lines 865 to 898. *)
Definition rd_words_next (i : rq_in) (s : requester) : Z * Z :=
  let w := r_words s in
  let d := q_shown i in
  let max := if writes d then max_words_tlp_s else max_words_read_request_s in
  match wr_state s with
  | IDLE =>
      if q_tready i then
        (if bits 63 2 (size_of d) <=? max_words_read_request_s then bits 63 2 (size_of d) else max, addr_of d)
      else (mem_rd_remaining_words_r w, mem_rd_addr_pointed_by_descriptor_r w)
  | INIT_READ =>
      if tlp_read s i then
        (next_tlp_words (mem_rd_number_even_tlp_r (r_bounds s))
           (mem_rd_current_tlp_modulus_r (r_progress s)) (mem_rd_odd_tlp_words_r (r_bounds s)) max,
         if rd_group_ends s then tx_addr (address_mode_s d) (g_rd (r_gen s))
         else u64 (mem_rd_addr_pointed_by_descriptor_r w + 4 * bits 10 0 (current_rd_tlp_words_s s d)))
      else (mem_rd_remaining_words_r w, mem_rd_addr_pointed_by_descriptor_r w)
  | _ => (mem_rd_remaining_words_r w, mem_rd_addr_pointed_by_descriptor_r w)
  end.

Definition next_words (i : rq_in) (s : requester) : words :=
  let '(rem, nibble, a) := wr_words_next i s in
  let (rrem, ra) := rd_words_next i s in
  Words rem nibble a rrem ra.

(** Lines 698 to 706 and 777 to 787. *)
Definition dec2mask (dec : Z) : list bool :=
  map (fun k => Z.of_nat k <? dec) (seq 0 (Z.to_nat C_WINDOW_SIZE)).

Definition completed (i : rq_in) (j : nat) : bool := nth j (q_completed i) false.
Definition in_window (i : rq_in) (j : nat) : bool :=
  Z.of_nat j <? bits 7 0 (CURRENT_WINDOW_SIZE (q_shown i)).

(** A read can be issued: what the blocks of the tags look at. *)
Definition issuing (i : rq_in) (s : requester) : bool :=
  bool_decide (wr_state s = INIT_READ) && q_tready i.

(** Tag [j], whose bit is [b], is taken: it is in the window, free, and all the tags
    below it are busy (lines 1169 and 1183). *)
Definition taken (i : rq_in) (s : requester) (j : nat) (b : bool) : bool :=
  issuing i s && in_window i j && negb b && forallb id (take j (current_tags_r (r_tags s))).

Definition next_tag (i : rq_in) (s : requester) (j : nat) (b : bool) : bool :=
  if taken i s j b then true
  else (b && negb (completed i j)) || (negb (j =? 0)%nat && negb (in_window i j)).

Definition next_size (i : rq_in) (s : requester) (j : nat) (n : Z) : Z :=
  if taken i s j (nth j (current_tags_r (r_tags s)) false)
  then bits 10 0 (current_rd_tlp_words_s s (q_shown i)) else n.

Fixpoint bits_value (l : list bool) : Z :=
  match l with [] => 0 | b :: l' => Z.b2z b + 2 * bits_value l' end.

(** Lines 1230 to 1258.  The tags below are compared with -1, a constant of 32 bits. *)
Definition next_latency_tag (i : rq_in) (s : requester) (j : nat) (b : bool) : bool :=
  let p := r_progress s in
  if issuing i s && in_window i j && negb b &&
     ((j =? 0)%nat || (bits_value (take j (latency_tags_r (r_tags s))) =? 2 ^ 32 - 1)) &&
     (mem_rd_current_tlp_r p =? mem_rd_current_tlp_modulus_r p)
  then true else b && negb (completed i j).

(** A list of fewer than 32 bits is never all ones as a word of 32 bits, so that the tags
    after the first are never marked. *)
Lemma bits_value_bounds l : 0 <= bits_value l < 2 ^ Z.of_nat (length l).
Proof.
  induction l as [|b l IH]; [done|]. cbn [bits_value length].
  rewrite Nat2Z.inj_succ, Z.pow_succ_r by lia. destruct b; cbn [Z.b2z]; lia.
Qed.

Lemma later_latency_tags_unset i s j :
  (0 < j <= Z.to_nat C_WINDOW_SIZE)%nat -> next_latency_tag i s j false = false.
Proof.
  intros Hj. unfold next_latency_tag. rewrite (proj2 (Nat.eqb_neq j 0)) by lia. rewrite orb_false_l.
  pose proof (bits_value_bounds (take j (latency_tags_r (r_tags s)))) as Hb. rewrite length_take in Hb.
  assert (2 ^ Z.of_nat (j `min` length (latency_tags_r (r_tags s))) <= 2 ^ 24) as Hp.
  { apply Z.pow_le_mono_r; [lia|]. unfold C_WINDOW_SIZE in Hj. lia. }
  rewrite (proj2 (Z.eqb_neq _ (2 ^ 32 - 1))); [by rewrite andb_false_r|].
  change (2 ^ 24) with 16777216 in Hp. lia.
Qed.

Definition next_tags (i : rq_in) (s : requester) : tags :=
  let t := r_tags s in
  Tags (bits 7 0 (CURRENT_WINDOW_SIZE (q_shown i))) (dec2mask (rq_window_size_r t))
    (imap (next_tag i s) (current_tags_r t)) (imap (next_size i s) (size_tags_r t))
    (imap (next_latency_tag i s) (latency_tags_r t)).

(** The words the write requests take from the buffer in this cycle, lines 901 to 960. *)
Definition words_taken (i : rq_in) (s : requester) : Z :=
  if q_tready i then
    match wr_state s with
    | INIT_WRITE => if one_word_at_buffer_s s then 1 else 0
    | WRITE =>
        if one_word_at_buffer_s s && last_word_at_tlp_s s then 1
        else if two_words_at_buffer_s s then 2 else 0
    | _ => 0
    end
  else 0.

(** Lines 174 to 197. *)
Definition trunc (value : Z) : nat := Z.to_nat (value mod 2 ^ 4).

Definition next_fifo (i : rq_in) (s : requester) : fifo :=
  let f := r_fifo s in
  let rd := (c2s_buf_rd_ptr f + words_taken i s) mod 2 ^ 5 in
  let wr := c2s_buf_wr_ptr f in
  if q_c2s_tvalid i && c2s_fifo_tready_s s then
    Fifo (<[trunc (wr + 1) := bits 255 128 (q_c2s_tdata i)]>
            (<[trunc wr := bits 127 0 (q_c2s_tdata i)]> (c2s_buffer f)))
      ((wr + if Z.testbit (q_c2s_tkeep i) 16 then 2 else 1) mod 2 ^ 5) rd
  else Fifo (c2s_buffer f) wr rd.

(** The tag of a read: lines 1139 to 1147, the lowest that is free. *)
Definition firstFree (oh : list bool) : Z :=
  foldr (fun k tag => if nth k oh false then tag else Z.of_nat k) 0 (seq 0 (Z.to_nat C_WINDOW_SIZE)).

Definition s2c_rq_tag_s (s : requester) : Z := firstFree (current_tags_r (r_tags s)).
Definition c2s_rq_tag_s (s : requester) : Z := (mem_wr_current_tlp_r (r_progress s) - 1) mod 2 ^ 8.

(** The header of a request, from its least significant field, with the widths: the
    address, the count of dwords, the type and the tag (lines 912 to 929 and 964 to 980). *)
Definition rq_header (address dwords type tag : Z) : list (Z * Z) :=
  [(2, 0); (62, bits 63 2 address); (11, bits 10 0 dwords); (4, type); (1, 0); (16, 0); (8, tag);
   (16, 0); (1, 0); (3, 0); (3, 0); (1, 0)].

Definition MEMORY_READ : Z := 0.
Definition MEMORY_WRITE : Z := 1.

Definition write_header (s : requester) : list (Z * Z) :=
  rq_header (mem_wr_addr_pointed_by_descriptor_r (r_words s)) (current_wr_tlp_words_s s) MEMORY_WRITE
    (c2s_rq_tag_s s).
Definition read_header (d : shown) (s : requester) : list (Z * Z) :=
  rq_header (mem_rd_addr_pointed_by_descriptor_r (r_words s)) (current_rd_tlp_words_s s d) MEMORY_READ
    (s2c_rq_tag_s s).

(** A word of the buffer, [k] after the one that is next. *)
Definition buffered (s : requester) (k : Z) : Z :=
  nth (trunc (c2s_buf_rd_ptr (r_fifo s) + k)) (c2s_buffer (r_fifo s)) 0.

(** TVALID and TDATA: lines 901 to 1002.  With TREADY low they keep their values. *)
Definition next_beat (i : rq_in) (s : requester) : bool * Z :=
  let x := r_axis s in
  if q_tready i then
    match wr_state s with
    | INIT_WRITE =>
        (one_word_at_buffer_s s, fields_value (write_header s ++ [(128, buffered s 0)]))
    | WRITE =>
        if one_word_at_buffer_s s && last_word_at_tlp_s s then (true, buffered s 0)
        else if two_words_at_buffer_s s
             then (true, fields_value [(128, buffered s 0); (128, buffered s 1)])
        else (false, axis_rq_tdata_r x)
    | INIT_READ => (tag_free s, fields_value (read_header (q_shown i) s))
    | _ => (false, 0)
    end
  else (axis_rq_tvalid_r x, axis_rq_tdata_r x).

(** Lines 1016 to 1083: TKEEP, TLAST and the enables of the bytes. *)
Definition keep_init (n : Z) : Z :=
  if n =? 0 then 0x0f else if n =? 1 then 0x1f else if n =? 2 then 0x3f else if n =? 3 then 0x7f else 0xff.
Definition keep_more (n : Z) : Z :=
  if n =? 0 then 0x00 else if n =? 1 then 0x01 else if n =? 2 then 0x03 else if n =? 3 then 0x07
  else if n =? 4 then 0x0f else if n =? 5 then 0x1f else if n =? 6 then 0x3f else if n =? 7 then 0x7f
  else 0xff.

Definition next_axis (i : rq_in) (s : requester) : axis :=
  let x := r_axis s in
  let w := r_words s in
  let (v, data) := next_beat i s in
  let kept := Axis v data (axis_rq_tkeep_r x) (axis_rq_tlast_r x) in
  if negb (q_tready i) then kept (first_be_r x) (last_be_r x)
  else match wr_state s with
  | INIT_WRITE =>
      let last_be := if mem_wr_remaining_words_r w <=? 1 then 0 else 15 in
      if one_word_at_buffer_s s then
        if last_word_at_tlp_s s
        then Axis v data (keep_init (mem_wr_next_remainder_r w)) true 15 last_be
        else Axis v data 0xff false 15 last_be
      else kept 15 last_be
  | WRITE =>
      if write_completes s
      then Axis v data (keep_more (mem_wr_next_remainder_r w)) (last_two_words_at_tlp_s s)
             (first_be_r x) (last_be_r x)
      else kept (first_be_r x) (last_be_r x)
  | INIT_READ =>
      Axis v data 0x0f true 15 (if bits 10 1 (mem_rd_remaining_words_r w) =? 0 then 0 else 15)
  | _ => kept (first_be_r x) (last_be_r x)
  end.

(** What the state machine has the address generators do: AddressGen.v. *)
Definition advance_wr (i : rq_in) (s : requester) : advance :=
  match wr_state s with
  | IDLE => if startable s i && writes (q_shown i) then A_START else A_IDLE
  | _ => if tlp_written s i && wr_group_ends s then A_NEXT else A_KEEP
  end.

Definition advance_rd (i : rq_in) (s : requester) : advance :=
  match wr_state s with
  | IDLE => if startable s i && reads (q_shown i) then A_START else A_IDLE
  | _ => if tlp_read s i && rd_group_ends s then A_NEXT else A_KEEP
  end.

Definition next_gen (i : rq_in) (s : requester) : generator :=
  let g := r_gen s in
  let c := PLACEMENT (q_shown i) in
  Generator (next_dice c (g_dice g)) (next_side (advance_wr i s) c (g_dice g) (g_wr g))
    (next_side (advance_rd i s) c (g_dice g) (g_rd g)).

(** The dwords a beat carries. *)
Definition kept_dwords (tkeep : Z) : Z :=
  fold_right (fun k n => Z.b2z (Z.testbit tkeep (Z.of_nat k)) + n) 0 (seq 0 8).

(** The measurement starts with the first request that could be sent. *)
Definition measured_start (i : rq_in) (s : requester) : bool :=
  q_tready i &&
  match wr_state s with
  | INIT_WRITE => writes (q_shown i)
  | INIT_READ => reads (q_shown i)
  | _ => false
  end.

(** Lines 1211 to 1331. *)
Definition next_meter (i : rq_in) (s : requester) : meter :=
  let m := r_meter s in
  let p := r_progress s in
  let x := r_axis s in
  let sent := axis_rq_tvalid_r x && q_tready i in
  let comp :=
    if reads (q_shown i)
    then (mem_rd_current_tlp_r p =? mem_rd_current_tlp_modulus_r p)
         || existsb id (latency_tags_r (r_tags s))
    else mem_wr_current_tlp_r p =? mem_wr_current_tlp_modulus_r p in
  let req :=
    (bool_decide (wr_state s <> IDLE) && sent)
    || (bool_decide (wr_state s <> WAIT_READ) && negb (time_req_r m =? 0)) in
  let update := negb (measured_start i s) && end_of_operation s in
  let stop := if measured_start i s then false else if end_of_operation s then true else stop_latency m in
  if stop_latency m then Meter update stop 0 0 0 0 0
  else Meter update stop
    (u64 (current_latency_r m + 1))
    (if comp then u64 (time_comp_r m + 1) else time_comp_r m)
    (if req then u64 (time_req_r m + 1) else time_req_r m)
    (if q_rc_valid i then u64 (bytes_comp_r m + kept_dwords (q_rc_tkeep i)) else bytes_comp_r m)
    (if sent then u64 (bytes_req_r m + kept_dwords (axis_rq_tkeep_r x)) else bytes_req_r m).

(** A rising edge. *)
Definition rq_step (i : rq_in) (s : requester) : requester :=
  Requester (next_wr_state i s) (wr_state s)
    (end_of_operation s || (ENGINE_VALID (q_shown i) && end_of_operation_r s))
    (next_boundaries (q_shown i)) (next_progress i s) (next_words i s) (next_tags i s) (next_fifo i s)
    (next_axis i s) (next_gen i s) (next_meter i s).

Definition rq_run (qs : list rq_in) (s : requester) : requester :=
  fold_left (fun s i => rq_step i s) qs s.

(** The registers after an edge. *)
Ltac rq_cbn :=
  cbn [rq_step wr_state wr_state_pipe_r end_of_operation_r r_bounds r_progress r_words r_tags r_fifo
    r_axis r_gen r_meter].
Ltac words_cbn :=
  cbn [mem_rd_remaining_words_r mem_rd_addr_pointed_by_descriptor_r mem_wr_remaining_words_r
    mem_wr_addr_pointed_by_descriptor_r].
Ltac progress_cbn :=
  cbn [mem_wr_current_tlp_r mem_wr_current_tlp_modulus_r mem_rd_current_tlp_r
    mem_rd_current_tlp_modulus_r] in *.

(** The reset. *)
Definition window_bits {A} (x : A) : list A := repeat x (Z.to_nat C_WINDOW_SIZE).

Definition rq_reset : requester :=
  Requester IDLE IDLE false (Boundaries 0 0 0 0 0) (Progress 1 1 1 1) (Words 0 0 0 0 0)
    (Tags 0 (window_bits false) (window_bits false) (window_bits 0) (window_bits false))
    (Fifo (repeat 0 16) 0 0) (Axis false 0 0 false 0 0)
    (Generator dice_reset side_reset side_reset) (Meter false true 0 0 0 0 0).

(** ** The stream to the host

    The output registers hold a beat until it is accepted. *)

Definition pending (s : requester) : list axis := if axis_rq_tvalid_r (r_axis s) then [r_axis s] else [].
Definition accepted (i : rq_in) (s : requester) : list axis := if q_tready i then pending s else [].
Definition loaded (i : rq_in) (s : requester) : list axis := if q_tready i then pending (rq_step i s) else [].

Fixpoint gathered {A} (f : rq_in -> requester -> list A) (qs : list rq_in) (s : requester) : list A :=
  match qs with
  | [] => []
  | i :: qs' => f i s ++ gathered f qs' (rq_step i s)
  end.

Lemma slice_step i s : accepted i s ++ pending (rq_step i s) = pending s ++ loaded i s.
Proof.
  unfold accepted, loaded. destruct (q_tready i) eqn:E; [done|]. rewrite app_nil_l, app_nil_r.
  unfold pending. cbn. unfold next_axis, next_beat. rewrite E. by destruct (r_axis s).
Qed.

(** What has been accepted, and the beat at the outputs, is what has been loaded. *)
Lemma slice qs s :
  gathered accepted qs s ++ pending (rq_run qs s) = pending s ++ gathered loaded qs s.
Proof.
  revert s. induction qs as [|i qs IH]; intros s; [by rewrite app_nil_r|]. cbn [gathered].
  change (rq_run (i :: qs) s) with (rq_run qs (rq_step i s)).
  by rewrite <- (app_assoc (accepted i s)), IH, !app_assoc, slice_step.
Qed.

Lemma gathered_app {A} (f : rq_in -> requester -> list A) l l' s :
  gathered f (l ++ l') s = gathered f l s ++ gathered f l' (rq_run l s).
Proof.
  revert s. induction l as [|i l IH]; intros s; [done|]. cbn [gathered app]. by rewrite IH, app_assoc.
Qed.

(** The fields of a request that the core of the vendor reads in a beat. *)
Record tlp := Tlp { tlp_addr : Z; tlp_dwords : Z; tlp_type : Z; tlp_tag : Z }.

Definition tlp_of (tdata : Z) : tlp :=
  Tlp (4 * bits 63 2 tdata) (bits 74 64 tdata) (bits 78 75 tdata) (bits 103 96 tdata).

Lemma tlp_of_header a n t g l :
  0 <= t < 16 -> 0 <= g < 256 ->
  tlp_of (fields_value (rq_header a n t g ++ l)) = Tlp (4 * bits 63 2 a) (bits 10 0 n) t g.
Proof.
  intros Ht Hg. pose proof (bits_bounds 63 2 a ltac:(lia)). pose proof (bits_bounds 10 0 n ltac:(lia)).
  unfold tlp_of, rq_header. cbn [app]. f_equal; [apply (f_equal (Z.mul 4))| | |].
  - apply (field_found 62 _ [(2, 0)]); [lia | done | fields_fit].
  - apply (field_found 11 _ [(2, 0); (62, _)]); [lia | done | fields_fit].
  - apply (field_found 4 _ [(2, 0); (62, _); (11, _)]); [lia | done | fields_fit].
  - apply (field_found 8 _ [(2, 0); (62, _); (11, _); (4, _); (1, 0); (16, 0)]);
      [lia | done | fields_fit].
Qed.

(** ** Between operations

    The machine is ready for a descriptor, or it is over with one that is still shown. *)

Definition held (d : shown) (i : rq_in) : Prop := q_shown i = d.

Definition not_writing (t : rq_state) : Prop := t <> INIT_WRITE /\ t <> WRITE.

Definition ready (s : requester) : Prop :=
  wr_state s = IDLE /\ not_writing (wr_state_pipe_r s) /\ end_of_operation_r s = false.

Definition over (s : requester) : Prop :=
  wr_state s = IDLE /\ not_writing (wr_state_pipe_r s) /\ end_of_operation_r s = true.

Lemma idle_no_end s : wr_state s = IDLE -> not_writing (wr_state_pipe_r s) -> end_of_operation s = false.
Proof.
  intros H1 [H2 H3]. unfold end_of_operation. rewrite H1. apply bool_decide_eq_false. tauto.
Qed.

Lemma idle_loaded i s : wr_state s = IDLE -> loaded i s = [].
Proof.
  intros H. unfold loaded. destruct (q_tready i) eqn:Q; [|done]. unfold pending. cbn [rq_step r_axis].
  unfold next_axis, next_beat. by rewrite Q, H.
Qed.

(** A ready machine starts, or stays as it is. *)
Lemma ready_stays i s : ready s -> startable s i = false -> ready (rq_step i s).
Proof.
  intros (H1 & H2 & H3) Hs. split_and!; rq_cbn.
  - unfold next_wr_state. by rewrite H1, Hs.
  - by rewrite H1.
  - by rewrite (idle_no_end s H1 H2), H3, andb_false_r.
Qed.

Lemma over_step d i s :
  ENGINE_VALID d = true -> held d i -> over s -> over (rq_step i s) /\ end_of_operation s = false.
Proof.
  intros Hv Hh (H1 & H2 & H3). red in Hh. pose proof (idle_no_end s H1 H2) as He.
  split; [|done]. assert (startable s i = false) as Hs.
  { unfold startable. by rewrite H3, andb_false_r. }
  split_and!; rq_cbn.
  - unfold next_wr_state. by rewrite H1, Hs.
  - by rewrite H1.
  - by rewrite He, H3, Hh, Hv.
Qed.

(** ** Runs in time *)

(** What goes on until [Q], and cannot go past a cycle without it. *)
Lemma until (P Q : nat -> Prop) n t :
  (forall v, P v -> Q v \/ P (S v)) -> P t -> (P (t + n)%nat -> Q (t + n)%nat) ->
  exists v, (t <= v)%nat /\ Q v.
Proof.
  intros Hs. revert t. induction n as [|n IH]; intros t Ht Hu.
  - rewrite Nat.add_0_r in Hu. eauto.
  - destruct (Hs t Ht) as [Hq | Ht']; [eauto|].
    destruct (IH (S t) Ht') as (v & Hv & Hq); [by rewrite Nat.add_succ_comm|]. exists v. split; [lia | done].
Qed.

Section Time.
Context (ins : nat -> rq_in) (s0 : requester).

Fixpoint rq_at (t : nat) : requester :=
  match t with O => s0 | S t' => rq_step (ins t') (rq_at t') end.

Lemma rq_run_at t : rq_run (map ins (seq 0 t)) s0 = rq_at t.
Proof.
  induction t as [|t IH]; [done|]. rewrite seq_S, map_app. unfold rq_run in *. rewrite fold_left_app, IH. done.
Qed.

(** The clock of an operation: it stands until the first request could be sent, and counts
    from the cycle after it. *)
Definition starts_at (t : nat) : Prop := measured_start (ins t) (rq_at t) = true.
Definition first_start (a : nat) : Prop := starts_at a /\ forall u, (u < a)%nat -> ~ starts_at u.

Definition clock_stands (t : nat) : Prop :=
  stop_latency (r_meter (rq_at t)) = true /\ forall u, (u < t)%nat -> ~ starts_at u.
Definition clock_runs (a t : nat) : Prop :=
  first_start a /\ (a < t)%nat /\ stop_latency (r_meter (rq_at t)) = false /\
  current_latency_r (r_meter (rq_at t)) = u64 (Z.of_nat t - Z.of_nat a - 1).

Lemma clock_step t :
  clock_stands t \/ (exists a, clock_runs a t) -> end_of_operation (rq_at t) = false ->
  clock_stands (S t) \/ (exists a, clock_runs a (S t)).
Proof.
  unfold clock_stands, clock_runs. intros C He. cbn [rq_at]. cbn [rq_step r_meter]. unfold next_meter. rewrite He.
  destruct C as [[C1 C2] | (a & Ca & Hlt & C1 & C2)]; rewrite C1; cbn [stop_latency current_latency_r].
  - destruct (measured_start (ins t) (rq_at t)) eqn:M; cbn [negb andb stop_latency current_latency_r].
    + right. exists t. split; [by split|]. split; [lia|]. split; [done|].
      by replace (Z.of_nat (S t) - Z.of_nat t - 1) with 0 by lia.
    + left. split; [done|]. intros u Hu. destruct (decide (u = t)) as [->|]; [|apply C2; lia].
      unfold starts_at. by rewrite M.
  - right. exists a. split; [done|]. split; [lia|]. split.
    + by destruct (measured_start (ins t) (rq_at t)).
    + rewrite C2, wrap_add_l. f_equal. lia.
Qed.

Lemma clock_at t :
  stop_latency (r_meter s0) = true -> (forall u, (u < t)%nat -> end_of_operation (rq_at u) = false) ->
  clock_stands t \/ exists a, clock_runs a t.
Proof.
  intros Hs Hb. induction t as [|t IH]; [left; split; [done | lia]|].
  apply clock_step; [apply IH; intros u Hu; apply Hb; lia | apply Hb; lia].
Qed.

Lemma clock_read a t :
  clock_runs a t -> current_latency_r (r_meter (rq_at (S t))) = u64 (Z.of_nat t - Z.of_nat a).
Proof.
  intros (_ & _ & C1 & C2). cbn [rq_at rq_step r_meter]. unfold next_meter. rewrite C1. cbn [current_latency_r].
  rewrite C2, wrap_add_l. f_equal. lia.
Qed.
End Time.
