(* ===== verification/TlpGroups.v ===== *)
(** * Requests and their TLPs

    A request that is larger than a TLP is sent as a group of TLPs, the last of which has
    the rest, and a group follows the other.  The generator has the size of the group and
    the words of its last TLP in registers (Requester.number_even, Requester.odd_words);
    here they are shown to be what the benchmark computes with (BenchMain.tlp_size), for
    writes and for reads. *)

From S2P Require Import Prelude BenchArgs BenchMain EngineManager DeviceDma Completer CardBus AddressGen Requester.
From Stdlib Require Import ZArith Lia.
From stdpp Require Import base list.
Local Open Scope Z_scope.

Section Groups.
Context (dir : direction) (log size : Z).
Context (Hdir : 4 <= log <= 12 /\ maximum_size_per_tlp dir = 2 ^ log).
Context (Hsize : 0 < size < 2 ^ (log + 31)) (H4 : size mod 4 = 0).

Definition group_of : Z := number_even log size.
Definition tlp_words (k : Z) : Z :=
  if group_of =? k mod group_of + 1 then odd_words log size else 2 ^ (log - 2).

Lemma tlp_quarter : 2 ^ log = 4 * 2 ^ (log - 2) /\ 4 <= 2 ^ (log - 2) <= 1024.
Proof.
  destruct Hdir as [L _]. split.
  - change 4 with (2 ^ 2) at 1. rewrite <- Z.pow_add_r by lia. f_equal. lia.
  - change 4 with (2 ^ 2). change 1024 with (2 ^ 10). split; apply Z.pow_le_mono_r; lia.
Qed.

Lemma low_bits : bits (log - 1) 0 size = size mod 2 ^ log.
Proof. unfold bits. rewrite Z.div_1_r. do 2 f_equal. lia. Qed.

Lemma group_of_eq : group_of = (size + 2 ^ log - 1) / 2 ^ log /\ 0 < group_of < 2 ^ 32 - 1.
Proof.
  destruct tlp_quarter as [Q1 Q2], Hdir as [L _].
  unfold group_of, number_even. rewrite low_bits.
  assert (bits (log + 31) log size = size / 2 ^ log) as ->.
  { unfold bits. replace (log + 31 - log + 1) with 32 by lia. apply Z.mod_small.
    split; [apply Z.div_pos; lia|]. apply Z.div_lt_upper_bound; [lia|]. rewrite Z.pow_add_r in Hsize by lia. lia. }
  assert (size / 2 ^ log < 2 ^ 31) as Hd.
  { apply Z.div_lt_upper_bound; [lia|]. rewrite Z.pow_add_r in Hsize by lia. lia. }
  pose proof (period_eq size (2 ^ log) ltac:(lia) ltac:(lia)) as Hp. rewrite Hp.
  pose proof (Z.div_pos size (2 ^ log) ltac:(lia) ltac:(lia)) as H0.
  rewrite wrap_id by (unfold fits; lia).
  pose proof (Z.div_mod size (2 ^ log) ltac:(lia)). destruct (_ =? 0) eqn:E; [|lia].
  apply Z.eqb_eq in E. assert (size / 2 ^ log <> 0); [|lia]. intros E'. rewrite E, E' in H. lia.
Qed.

Lemma odd_words_eq :
  odd_words log size = if size mod 2 ^ log =? 0 then 2 ^ (log - 2) else size mod 2 ^ log / 4.
Proof.
  destruct tlp_quarter as [Q1 Q2]. unfold odd_words. rewrite low_bits.
  pose proof (Z.mod_pos_bound size (2 ^ log) ltac:(lia)).
  destruct (Z.eqb_spec (size mod 2 ^ log) 0) as [E|E]; [by rewrite E|].
  by rewrite (proj2 (Z.ltb_lt 0 _)) by lia.
Qed.

Lemma rest_whole : size mod 2 ^ log mod 4 = 0.
Proof.
  destruct tlp_quarter as [Q1 Q2]. rewrite Q1. clear -H4 Q2.
  pose proof (Z.div_mod size (4 * 2 ^ (log - 2)) ltac:(lia)) as D.
  replace (size mod (4 * 2 ^ (log - 2))) with (size + (- (2 ^ (log - 2) * (size / (4 * 2 ^ (log - 2))))) * 4) by lia.
  by rewrite Z.mod_add by lia.
Qed.

(** The dwords of TLP [k] are those the benchmark counts with. *)
Lemma tlp_words_eq k : 0 <= k -> 4 * tlp_words k = tlp_size dir size k.
Proof.
  intros Hk. destruct group_of_eq as [Hg Hp], tlp_quarter as [Q1 Q2], Hdir as [_ Hm].
  unfold tlp_words, tlp_size. rewrite Hm, <- Hg, odd_words_eq.
  pose proof (Z.mod_pos_bound k group_of ltac:(lia)).
  pose proof (period_eq size (2 ^ log) ltac:(lia) ltac:(lia)) as He. rewrite <- Hg in He.
  pose proof (Z.div_mod (size mod 2 ^ log) 4 ltac:(lia)). pose proof rest_whole.
  destruct (Z.eqb_spec group_of (k mod group_of + 1)), (Z.eqb_spec (size mod 2 ^ log) 0),
    (Z.ltb_spec (k mod group_of) (size / 2 ^ log)); lia.
Qed.

Lemma tlp_words_range k : 0 <= k -> 1 <= tlp_words k <= 2 ^ (log - 2).
Proof.
  intros Hk. destruct tlp_quarter as [Q1 Q2]. unfold tlp_words. rewrite odd_words_eq.
  pose proof (Z.mod_pos_bound size (2 ^ log) ltac:(lia)). pose proof rest_whole.
  pose proof (Z.div_mod (size mod 2 ^ log) 4 ltac:(lia)).
  destruct (_ =? _ + 1); [|lia]. destruct (Z.eqb_spec (size mod 2 ^ log) 0); lia.
Qed.

(** A TLP of the group fits in its place. *)
Lemma tlp_words_fit k : 0 <= k -> 2 ^ log * (k mod group_of) + 4 * tlp_words k <= size.
Proof.
  intros Hk. destruct group_of_eq as [Hg Hp], tlp_quarter as [Q1 Q2]. rewrite tlp_words_eq by done. unfold tlp_size.
  rewrite (proj2 Hdir), <- Hg.
  pose proof (Z.mod_pos_bound k group_of ltac:(lia)). pose proof (Z.div_mod size (2 ^ log) ltac:(lia)).
  pose proof (Z.mod_pos_bound size (2 ^ log) ltac:(lia)).
  destruct (Z.ltb_spec (k mod group_of) (size / 2 ^ log)); [nia|].
  assert (k mod group_of <= size / 2 ^ log); [|nia].
  pose proof (period_eq size (2 ^ log) ltac:(lia) ltac:(lia)) as He. rewrite <- Hg in He. destruct (_ =? 0); lia.
Qed.

(** The place in the group of the next TLP. *)
Lemma group_of_next k : 0 <= k ->
  (group_of = k mod group_of + 1 -> (k + 1) mod group_of = 0) /\
  (group_of <> k mod group_of + 1 -> (k + 1) mod group_of = k mod group_of + 1).
Proof.
  intros Hk. destruct group_of_eq as [_ Hp]. pose proof (Z.mod_pos_bound k group_of ltac:(lia)).
  pose proof (Z.div_mod k group_of ltac:(lia)). split; intros E.
  - replace (k + 1) with ((k / group_of + 1) * group_of) by lia. by rewrite Z.mod_mul by lia.
  - symmetry. apply (Z.mod_unique_pos _ _ (k / group_of)); lia.
Qed.

(** The registers step from the words of one TLP to those of the next. *)
Lemma next_tlp_words_eq k : 0 <= k ->
  next_tlp_words group_of (k mod group_of + 1) (odd_words log size) (2 ^ (log - 2)) = tlp_words (k + 1).
Proof.
  intros Hk. destruct group_of_eq as [_ Hp], (group_of_next k Hk) as [G1 G2].
  pose proof (Z.mod_pos_bound k group_of ltac:(lia)).
  unfold next_tlp_words, tlp_words. rewrite wrap_id by (unfold fits; lia).
  destruct (Z.eq_dec group_of (k mod group_of + 1)) as [G|G].
  - rewrite (G1 G), <- G. rewrite (proj2 (Z.eqb_neq group_of (group_of + 1))) by lia. done.
  - rewrite (G2 G). destruct (Z.eqb_spec group_of 1); [lia|]. by rewrite orb_false_r.
Qed.

(** The first TLP: what a request of this size starts with. *)
Lemma first_tlp_words : Z.min (bits 63 2 size) (2 ^ (log - 2)) = tlp_words 0.
Proof.
  destruct group_of_eq as [Hg Hp], tlp_quarter as [Q1 Q2], Hdir as [L _].
  unfold tlp_words. rewrite odd_words_eq, Z.mod_0_l by lia.
  assert (2 ^ (log + 31) <= 2 ^ 43) by (apply Z.pow_le_mono_r; lia).
  assert (bits 63 2 size = size / 4) as ->.
  { unfold bits. change (2 ^ (63 - 2 + 1)) with (2 ^ 62). change (2 ^ 2) with 4. apply Z.mod_small.
    split; [apply Z.div_pos; lia | apply Z.div_lt_upper_bound; lia]. }
  pose proof (period_eq size (2 ^ log) ltac:(lia) ltac:(lia)) as He. rewrite <- Hg in He.
  pose proof (Z.div_mod size (2 ^ log) ltac:(lia)) as D. pose proof (Z.mod_pos_bound size (2 ^ log) ltac:(lia)).
  pose proof (Z.div_mod size 4 ltac:(lia)). pose proof (Z.div_pos size (2 ^ log) ltac:(lia) ltac:(lia)).
  destruct (Z.eqb_spec group_of (0 + 1)) as [G|G], (Z.eqb_spec (size mod 2 ^ log) 0) as [E|E].
  - assert (size / 2 ^ log = 1) as X by lia. rewrite X, E in D. lia.
  - assert (size / 2 ^ log = 0) as X by lia. rewrite X in D. assert (size mod 2 ^ log = size) as -> by lia. lia.
  - assert (2 <= size / 2 ^ log) as X by lia. nia.
  - assert (1 <= size / 2 ^ log) as X by lia. nia.
Qed.
End Groups.
