(* ===== verification/RequesterReads.v ===== *)
(** * An operation of reads (dma_rq_logic.v)

    What the generator of Requester.v does while the engine manager shows it a descriptor
    for reads: which requests it sends, that they stay in the buffer of the host, that it
    ends when all are answered, and that it does end on a link that is fair.  Then what
    happens when the window of tags grows between two operations. *)

From S2P Require Import Prelude BenchArgs BenchMain EngineManager DeviceDma Completer CardBus AddressGen Requester.
From S2P Require Import TlpGroups.
From Stdlib Require Import ZArith Lia.
From stdpp Require Import base list.
Local Open Scope Z_scope.

(** ** Tags

    Tag [j] is [busy s j]; the window is the mask of the tags below [w]. *)

Definition busy (s : requester) (j : nat) : bool := nth j (current_tags_r (r_tags s)) false.

(** The lowest free tag. *)
Definition first_free (s : requester) (j : nat) : Prop :=
  busy s j = false /\ forall k, (k < j)%nat -> busy s k = true.

Definition window_of (d : shown) : Z := bits 7 0 (CURRENT_WINDOW_SIZE d).

(** The registers that follow the configuration have it. *)
Record steady (d : shown) (s : requester) : Prop := {
  steady_bounds : r_bounds s = next_boundaries d;
  steady_window : rq_window_size_r (r_tags s) = window_of d;
  steady_mask : window_size_mask_r (r_tags s) = dec2mask (window_of d);
  steady_tags : length (current_tags_r (r_tags s)) = Z.to_nat C_WINDOW_SIZE
}.

Lemma steady_step d i s : held d i -> steady d s -> steady d (rq_step i s).
Proof.
  intros <- [H1 H2 H3 H4]. split; cbn; [done | done | by rewrite H2 | by rewrite length_imap].
Qed.

(** Two edges are enough. *)
Lemma steady_soon d i1 i2 s :
  held d i1 -> held d i2 -> length (current_tags_r (r_tags s)) = Z.to_nat C_WINDOW_SIZE ->
  steady d (rq_step i2 (rq_step i1 s)).
Proof. intros <- H2 Hl. red in H2. split; cbn; rewrite ?length_imap; [by rewrite H2 | by rewrite H2 | done | done]. Qed.

Lemma busy_step i s j :
  (j < length (current_tags_r (r_tags s)))%nat ->
  busy (rq_step i s) j = next_tag i s j (busy s j).
Proof.
  intros Hj. unfold busy. cbn. destruct (lookup_lt_is_Some_2 _ _ Hj) as [b Hb].
  rewrite (nth_lookup_Some _ _ _ b Hb). apply nth_lookup_Some.
  by rewrite list_lookup_imap, Hb.
Qed.

Lemma mask_lookup d s j :
  steady d s -> (j < Z.to_nat C_WINDOW_SIZE)%nat ->
  zip (window_size_mask_r (r_tags s)) (current_tags_r (r_tags s)) !! j =
    Some (Z.of_nat j <? window_of d, busy s j).
Proof.
  intros [_ _ -> Hl] Hj. rewrite lookup_zip_with. unfold dec2mask.
  rewrite list_lookup_fmap, lookup_seq_lt by done. cbn -[Z.ltb].
  destruct (lookup_lt_is_Some_2 (current_tags_r (r_tags s)) j) as [b Hb]; [by rewrite Hl|].
  unfold busy. by rewrite Hb, (nth_lookup_Some _ _ _ b Hb).
Qed.

Lemma mask_elem d s m b :
  steady d s ->
  (m, b) ∈ zip (window_size_mask_r (r_tags s)) (current_tags_r (r_tags s)) <->
  exists j, (j < Z.to_nat C_WINDOW_SIZE)%nat /\ m = (Z.of_nat j <? window_of d) /\ b = busy s j.
Proof.
  intros Hs. rewrite list_elem_of_lookup. split.
  - intros [j Hj]. pose proof (lookup_lt_Some _ _ _ Hj) as Hlt.
    rewrite length_zip_with, (steady_mask d s Hs) in Hlt. unfold dec2mask in Hlt.
    rewrite length_map, length_seq in Hlt. exists j.
    rewrite (mask_lookup d s j) in Hj by (done || lia). simplify_eq. split; [lia | done].
  - intros (j & Hj & -> & ->). exists j. by apply mask_lookup.
Qed.

Lemma tag_free_iff d s :
  steady d s ->
  tag_free s = true <->
  exists j, (j < Z.to_nat C_WINDOW_SIZE)%nat /\ Z.of_nat j < window_of d /\ busy s j = false.
Proof.
  intros Hs. unfold tag_free. rewrite existsb_exists. split.
  - intros ([m b] & Hin & Hb). apply list_elem_of_In, (mask_elem d s) in Hin as (j & ? & -> & ->); [|done].
    apply andb_true_iff in Hb as [?%Z.ltb_lt ?%negb_true_iff]. eauto.
  - intros (j & Hj & Hw & Hb). exists (true, false). split; [|done].
    apply list_elem_of_In, (mask_elem d s); [done|]. exists j. split_and!; [done | symmetry; by apply Z.ltb_lt | done].
Qed.

Lemma tags_idle_iff d s :
  steady d s ->
  tags_idle s = true <->
  forall j, (j < Z.to_nat C_WINDOW_SIZE)%nat -> Z.of_nat j < window_of d -> busy s j = false.
Proof.
  intros Hs. unfold tags_idle. rewrite forallb_forall. split.
  - intros H j Hj Hw. specialize (H (true, busy s j)). apply negb_true_iff, H.
    apply list_elem_of_In, (mask_elem d s); [done|]. exists j. split_and!; [done | symmetry; by apply Z.ltb_lt | done].
  - intros H [m b] Hin. apply list_elem_of_In, (mask_elem d s) in Hin as (j & Hj & -> & ->); [|done].
    destruct (Z.ltb_spec (Z.of_nat j) (window_of d)); [|done]. by rewrite H.
Qed.

Lemma below_busy s j :
  (j <= length (current_tags_r (r_tags s)))%nat ->
  forallb id (take j (current_tags_r (r_tags s))) = true <-> forall k, (k < j)%nat -> busy s k = true.
Proof.
  intros Hj. rewrite forallb_forall. split.
  - intros H k Hk. apply (H (busy s k)), list_elem_of_In, list_elem_of_lookup. exists k.
    destruct (lookup_lt_is_Some_2 (current_tags_r (r_tags s)) k) as [b Hb]; [lia|].
    unfold busy. by rewrite lookup_take_lt, (nth_lookup_Some _ _ _ b Hb), Hb by done.
  - intros H b Hin. apply list_elem_of_In, list_elem_of_lookup in Hin as [k Hk].
    apply lookup_take_Some in Hk as [Hk Hlt]. rewrite <- (H k Hlt). unfold busy.
    by rewrite (nth_lookup_Some _ _ _ b Hk).
Qed.

Lemma taken_iff i s j :
  (j < length (current_tags_r (r_tags s)))%nat ->
  taken i s j (busy s j) = true <->
  issuing i s = true /\ Z.of_nat j < window_of (q_shown i) /\ first_free s j.
Proof.
  intros Hj. unfold taken, in_window, first_free.
  rewrite !andb_true_iff, below_busy, negb_true_iff, Z.ltb_lt by lia. tauto.
Qed.

Lemma first_free_exists s j : busy s j = false -> exists k, (k <= j)%nat /\ first_free s k.
Proof.
  induction j as [j IH] using lt_wf_ind. intros Hj.
  destruct (decide (Exists (fun k => busy s k = false) (seq 0 j))) as [E | E].
  - apply Exists_exists in E as (k & Hk & Hb). apply elem_of_seq in Hk.
    destruct (IH k ltac:(lia) Hb) as (k' & ? & ?). exists k'. split; [lia | done].
  - exists j. split; [lia|]. split; [done|]. intros k Hk. apply not_false_iff_true. intros Hb. apply E.
    apply Exists_exists. exists k. split; [apply elem_of_seq; lia | done].
Qed.

Lemma first_free_unique s j k : first_free s j -> first_free s k -> j = k.
Proof.
  intros [Hj Hj'] [Hk Hk']. destruct (Nat.lt_trichotomy j k) as [H | [H | H]]; [|done|].
  - by rewrite Hk' in Hj.
  - by rewrite Hj' in Hk.
Qed.

(** The tag of the request is the one that is taken. *)
Lemma firstFree_spec s j :
  (j < Z.to_nat C_WINDOW_SIZE)%nat -> first_free s j -> s2c_rq_tag_s s = Z.of_nat j.
Proof.
  intros Hj [Hf Hb]. unfold s2c_rq_tag_s, firstFree.
  replace (Z.to_nat C_WINDOW_SIZE) with (j + S (Z.to_nat C_WINDOW_SIZE - S j))%nat by lia.
  rewrite seq_app, foldr_app. cbn [seq foldr]. rewrite Nat.add_0_l. unfold busy in Hf. rewrite Hf.
  assert (forall k, In k (seq 0 j) -> nth k (current_tags_r (r_tags s)) false = true) as Hk.
  { intros k Hk%in_seq. apply (Hb k). lia. }
  revert Hk. generalize (seq 0 j). intros l. induction l as [|k l IH]; intros Hk; [done|]. cbn.
  rewrite (Hk k) by by left. apply IH. intros k' Hk'. apply Hk. by right.
Qed.

(** What an edge does to a tag of the window, when the window does not change. *)
Lemma tag_step d i s j :
  steady d s -> held d i -> (j < Z.to_nat C_WINDOW_SIZE)%nat -> Z.of_nat j < window_of d ->
  (tlp_read s i = true -> first_free s j -> busy (rq_step i s) j = true) /\
  (~ (tlp_read s i = true /\ first_free s j) ->
   busy (rq_step i s) j = busy s j && negb (completed i j)).
Proof.
  intros Hs Hh Hj Hw. pose proof (steady_tags d s Hs) as Hl. rewrite busy_step by lia.
  pose proof (taken_iff i s j ltac:(lia)) as Ht. rewrite Hh in Ht.
  assert (issuing i s = true /\ first_free s j <-> tlp_read s i = true /\ first_free s j) as He.
  { unfold issuing, tlp_read. destruct (wr_state s); try (rewrite bool_decide_false by done; done).
    rewrite bool_decide_true by done. rewrite !andb_true_iff. split; [|tauto].
    intros [[_ ?] Hf]. split_and!; try done. apply (tag_free_iff d s Hs). exists j. destruct Hf. eauto. }
  unfold next_tag. destruct (taken i s j (busy s j)) eqn:T.
  - apply proj1 in Ht. specialize (Ht eq_refl). split; [done|]. intros N. destruct N. apply He. tauto.
  - split.
    + intros H1 H2. destruct He as [_ He]. specialize (He (conj H1 H2)). exfalso.
      destruct Ht as [_ Ht]. discriminate Ht. tauto.
    + intros _. unfold in_window. rewrite Hh. change (bits 7 0 (CURRENT_WINDOW_SIZE d)) with (window_of d).
      rewrite (proj2 (Z.ltb_lt _ _) Hw). cbn. by rewrite andb_false_r, orb_false_r.
Qed.

(** A request is issued with a tag of the window that was free. *)
Lemma read_tag d i s :
  steady d s -> tlp_read s i = true ->
  exists j, (j < Z.to_nat C_WINDOW_SIZE)%nat /\ Z.of_nat j < window_of d /\ first_free s j /\
    s2c_rq_tag_s s = Z.of_nat j.
Proof.
  intros Hs Ht. assert (tag_free s = true) as Hf.
  { unfold tlp_read in Ht. destruct (wr_state s); try done. by apply andb_true_iff in Ht as [? _]. }
  apply (tag_free_iff d s Hs) in Hf as (j & Hj & Hw & Hb).
  destruct (first_free_exists s j Hb) as (k & Hk & Hff). exists k.
  split_and!; [lia | lia | done |]. apply firstFree_spec; [lia | done].
Qed.

(** ** The requests of an operation

    A descriptor of [total] TLPs of a request of [size_of d] bytes, which repeats in
    groups of [even]. *)

Section Operation.
Context (d : shown).

Definition group : Z := mem_rd_number_even_tlp_r (next_boundaries d).
Definition last_words : Z := mem_rd_odd_tlp_words_r (next_boundaries d).
Definition words_of_read (k : Z) : Z :=
  if group =? k mod group + 1 then last_words else max_words_read_request_s.

(** The number of requests: one at least. *)
Definition n_reads : Z := Z.max 1 (NUMBER_TLPS d).

Record read_op : Prop := {
  op_valid : ENGINE_VALID d = true;
  op_reads : reads d = true;
  op_writes : writes d = false;
  op_size : 0 < size_of d < 2 ^ 40 /\ size_of d mod 4 = 0;
  op_addr : addr_of d mod 4 = 0;
  op_tlps : 0 <= NUMBER_TLPS d < 2 ^ 32 - 1;
  op_window : 1 <= window_of d <= C_WINDOW_SIZE
}.

Context (op : read_op).

(** The groups are those of the TLPs of the benchmark. *)
Lemma read_groups :
  (4 <= 9 <= 12 /\ maximum_size_per_tlp H2D = 2 ^ 9) /\ 0 < size_of d < 2 ^ (9 + 31) /\ size_of d mod 4 = 0.
Proof. split; [done | apply op]. Qed.

Lemma group_is : group = group_of 9 (size_of d).
Proof. unfold group, next_boundaries. by rewrite (op_writes op). Qed.

Lemma last_words_is : last_words = odd_words 9 (size_of d).
Proof. unfold last_words, next_boundaries. by rewrite (op_writes op). Qed.

Lemma words_is k : words_of_read k = tlp_words 9 (size_of d) k.
Proof. unfold words_of_read, tlp_words. by rewrite group_is, last_words_is. Qed.

Lemma group_bounds : 0 < group < 2 ^ 32 - 1.
Proof. destruct read_groups as (G1 & G2 & G3). rewrite group_is. by apply (group_of_eq H2D 9). Qed.

(** The dwords of request [k] are those of the TLP of the benchmark, and there are 1 to 128. *)
Lemma words_of_read_eq k : 0 <= k -> 4 * words_of_read k = tlp_size H2D (size_of d) k.
Proof. destruct read_groups as (G1 & G2 & G3). rewrite words_is. by apply tlp_words_eq. Qed.

Lemma words_of_read_range k : 0 <= k -> 1 <= words_of_read k <= 128.
Proof. destruct read_groups as (G1 & G2 & G3). rewrite words_is. by apply (tlp_words_range H2D 9). Qed.

(** A request of the group fits in its place. *)
Lemma words_fit k : 0 <= k -> 512 * (k mod group) + 4 * words_of_read k <= size_of d.
Proof. destruct read_groups as (G1 & G2 & G3). rewrite words_is, group_is. by apply (tlp_words_fit H2D 9). Qed.

(** The place in the group of the next request. *)
Lemma group_next k : 0 <= k ->
  (group = k mod group + 1 -> (k + 1) mod group = 0) /\
  (group <> k mod group + 1 -> (k + 1) mod group = k mod group + 1).
Proof. destruct read_groups as (G1 & G2 & G3). rewrite group_is. by apply (group_of_next H2D 9). Qed.

(** *** The phases

    The machine waits for the descriptor, issues request [k], waits for the answers, and
    rests until the manager takes the descriptor away. *)

Record reading (k : Z) (s : requester) : Prop := {
  reading_state : wr_state s = INIT_READ;
  reading_count : 0 <= k < n_reads;
  reading_tlp : mem_rd_current_tlp_r (r_progress s) = k + 1;
  reading_mod : mem_rd_current_tlp_modulus_r (r_progress s) = k mod group + 1;
  reading_words : mem_rd_remaining_words_r (r_words s) = words_of_read k;
  reading_addr : exists a, in_buffer (PLACEMENT d) a /\
    mem_rd_addr_pointed_by_descriptor_r (r_words s) = a + 512 * (k mod group)
}.

Definition waiting (s : requester) : Prop := wr_state s = WAIT_READ.

(** [k] requests have been issued. *)
Definition phase (k : Z) (s : requester) : Prop :=
  (ready s /\ k = 0) \/ reading k s \/ (waiting s /\ k = n_reads) \/ (over s /\ k = n_reads).

Definition prepared (s : requester) : Prop :=
  steady d s /\ settled_addr (PLACEMENT d) (address_mode_s d) (g_dice (r_gen s), g_rd (r_gen s)).

Context (room : roomy (PLACEMENT d) (address_mode_s d)).

Lemma prepared_step i s : held d i -> prepared s -> prepared (rq_step i s).
Proof.
  intros Hh [H1 H2]. split; [by apply steady_step|]. cbn. red in Hh. rewrite Hh.
  by apply (settled_step (PLACEMENT d) (address_mode_s d) room (advance_rd i s)) in H2.
Qed.

(** Request [k] as it goes out: it asks for the words of TLP [k], which lie in the
    buffer, with a tag of the window. *)
Record read_beat (k : Z) (x : axis) : Prop := {
  beat_words : 4 * tlp_dwords (tlp_of (axis_rq_tdata_r x)) = tlp_size H2D (size_of d) k;
  beat_type : tlp_type (tlp_of (axis_rq_tdata_r x)) = MEMORY_READ;
  beat_tag : 0 <= tlp_tag (tlp_of (axis_rq_tdata_r x)) < window_of d;
  beat_low : addr_of d <= tlp_addr (tlp_of (axis_rq_tdata_r x));
  beat_high : tlp_addr (tlp_of (axis_rq_tdata_r x)) + tlp_size H2D (size_of d) k <=
    addr_of d + SIZE_AT_HOST (PLACEMENT d);
  beat_keep : axis_rq_tkeep_r x = 15 /\ axis_rq_tlast_r x = true;
  beat_be : first_be_r x = 15 /\ last_be_r x = if tlp_size H2D (size_of d) k =? 4 then 0 else 15
}.

Lemma group_ends s k :
  steady d s -> reading k s -> rd_group_ends s = (group =? k mod group + 1).
Proof. intros Hs Hk. unfold rd_group_ends. by rewrite (steady_bounds d s Hs), (reading_mod k s Hk). Qed.

Lemma current_words s k : steady d s -> reading k s -> current_rd_tlp_words_s s d = words_of_read k.
Proof.
  intros Hs Hk. unfold current_rd_tlp_words_s, words_of_read.
  by rewrite (group_ends s k Hs Hk), (op_writes op), (steady_bounds d s Hs).
Qed.

(** The address of request [k], in its register. *)
Lemma read_address s k a :
  in_buffer (PLACEMENT d) a -> 0 <= k ->
  mem_rd_addr_pointed_by_descriptor_r (r_words s) = a + 512 * (k mod group) ->
  let a' := 4 * bits 63 2 (mem_rd_addr_pointed_by_descriptor_r (r_words s)) in
  addr_of d <= a' /\ a' + 4 * words_of_read k <= addr_of d + SIZE_AT_HOST (PLACEMENT d).
Proof.
  intros [H1 H2] Hk E. cbv zeta. rewrite E. pose proof (words_fit k Hk) as Hf.
  pose proof (words_of_read_range k Hk). pose proof (op_addr op) as Ha.
  pose proof group_bounds as Hg. pose proof (Z.mod_pos_bound k group ltac:(lia)).
  destruct (room_addr _ _ room) as [R1 R2]. fold (addr_of d) in *. fold (size_of d) in *.
  unfold bits. change (2 ^ 2) with 4. change (63 - 2 + 1) with 62.
  rewrite (Z.mod_small (_ / 4)).
  2:{ split; [apply Z.div_pos; lia | apply Z.div_lt_upper_bound; lia]. }
  revert Ha. generalize dependent (k mod group). intros m ? ? ?. Z.to_euclidean_division_equations. lia.
Qed.

Lemma read_loaded i s k :
  held d i -> prepared s -> reading k s -> tlp_read s i = true ->
  exists x, loaded i s = [x] /\ read_beat k x.
Proof.
  intros Hh [Hs _] Hk Ht. destruct (read_tag d i s Hs Ht) as (j & Hj & Hw & _ & Hg).
  pose proof (reading_count k s Hk) as Hc. pose proof (words_of_read_range k ltac:(lia)) as Hr.
  destruct (reading_addr k s Hk) as (a & Ha & Ea). pose proof (read_address s k a Ha ltac:(lia) Ea) as [A1 A2].
  unfold tlp_read in Ht. rewrite (reading_state k s Hk) in Ht. apply andb_true_iff in Ht as [Hf Hq].
  unfold loaded. rewrite Hq. unfold pending. cbn [rq_step r_axis]. unfold next_axis, next_beat.
  rewrite Hq, (reading_state k s Hk), Hf. cbn [negb axis_rq_tvalid_r]. eexists. split; [done|].
  pose proof (op_window op) as [_ Ow]. unfold C_WINDOW_SIZE in Ow.
  red in Hh. rewrite Hh. unfold read_header.
  pose proof (tlp_of_header (mem_rd_addr_pointed_by_descriptor_r (r_words s)) (current_rd_tlp_words_s s d)
    MEMORY_READ (s2c_rq_tag_s s) [] ltac:(done) ltac:(rewrite Hg; lia)) as T.
  rewrite app_nil_r in T.
  rewrite (current_words s k Hs Hk) in *. pose proof (words_of_read_eq k ltac:(lia)) as We.
  assert (bits 10 0 (words_of_read k) = words_of_read k) as B0.
  { unfold bits. rewrite Z.div_1_r. apply Z.mod_small. lia. }
  split; cbn [axis_rq_tdata_r axis_rq_tkeep_r axis_rq_tlast_r first_be_r last_be_r];
    rewrite ?T; cbn [tlp_dwords tlp_type tlp_tag tlp_addr]; rewrite <- ?We, ?B0; try done; try lia.
  - split; [done|]. rewrite (reading_words k s Hk).
    unfold bits. change (2 ^ (10 - 1 + 1)) with 1024. change (2 ^ 1) with 2.
    destruct (Z.eqb_spec ((words_of_read k / 2) mod 1024) 0) as [E|E], (Z.eqb_spec (4 * words_of_read k) 4);
      try done; revert E; Z.to_euclidean_division_equations; lia.
Qed.

(** Outside of a read nothing goes out. *)
Lemma nothing_loaded i s k :
  prepared s -> phase k s -> tlp_read s i = false -> loaded i s = [].
Proof.
  intros [Hs _] Hp Ht. unfold loaded. destruct (q_tready i) eqn:Hq; [|done]. unfold pending.
  cbn [rq_step r_axis]. unfold next_axis, next_beat. rewrite Hq. cbn [negb].
  unfold tlp_read in Ht.
  destruct Hp as [[[-> _] _] | [Hk | [[-> _] | [[-> _] _]]]]; try done.
  rewrite (reading_state k s Hk) in *. by rewrite Hq, andb_true_r in Ht; rewrite Ht.
Qed.

Lemma ready_step i s :
  held d i -> prepared s -> ready s ->
  (startable s i = true -> reading 0 (rq_step i s)) /\ (startable s i = false -> ready (rq_step i s)).
Proof.
  intros Hh [Hs Ha] (H1 & H2 & H3). red in Hh.
  pose proof (idle_no_end s H1 H2) as He.
  assert (forall b, startable s i = b ->
    wr_state (rq_step i s) = if b then INIT_READ else IDLE) as Hw.
  { intros b Hb. cbn. unfold next_wr_state. rewrite H1, Hb, Hh, (op_writes op), (op_reads op), andb_false_r, andb_true_r.
    by destruct b. }
  split; intros Hb.
  2:{ by apply ready_stays. }
  assert (q_tready i = true) as Hq.
  { unfold startable in Hb. by destruct (q_tready i). }
  pose proof group_bounds as Hp. destruct (op_size op) as [Hsz _]. split.
  - by rewrite (Hw true).
  - unfold n_reads. lia.
  - rq_cbn. unfold next_progress. rewrite H1, Hq. destruct (r_progress s); done.
  - rq_cbn. unfold next_progress. rewrite H1, Hq, Z.mod_0_l by lia. by destruct (r_progress s).
  - rq_cbn. unfold next_words, rd_words_next. rewrite H1, Hq, Hh, (op_writes op).
    destruct (wr_words_next i s) as [[? ?] ?]. words_cbn.
    destruct read_groups as (R1 & R2 & R3). rewrite words_is, <- (first_tlp_words H2D 9) by done.
    change max_words_read_request_s with (2 ^ (9 - 2)). destruct (Z.leb_spec (bits 63 2 (size_of d)) (2 ^ (9 - 2))); lia.
  - exists (addr_of d). split.
    + destruct (room_size _ _ room), (room_host _ _ room) as (h & Hh1 & Hh2).
      pose proof (Z.pow_le_mono_r 2 12 h ltac:(lia) ltac:(lia)). change (2 ^ 12) with 4096 in *.
      unfold in_buffer. fold (addr_of d). lia.
    + rq_cbn. unfold next_words, rd_words_next. rewrite H1, Hq, Hh.
      destruct (wr_words_next i s) as [[? ?] ?]. words_cbn. rewrite Z.mod_0_l; lia.
Qed.

Lemma reading_stays i s k :
  held d i -> prepared s -> reading k s -> tlp_read s i = false -> reading k (rq_step i s).
Proof.
  intros Hh [Hs _] Hk Ht. pose proof (reading_state k s Hk) as E. pose proof Ht as Ht'.
  unfold tlp_read in Ht'. rewrite E in Ht'. split; try by apply Hk.
  - rq_cbn. unfold next_wr_state. rewrite E, andb_comm, Ht'. done.
  - rq_cbn. unfold next_progress. rewrite E, Ht. destruct (r_progress s) eqn:R. rewrite <- R. by apply Hk.
  - rq_cbn. unfold next_progress. rewrite E, Ht. destruct (r_progress s) eqn:R. rewrite <- R. by apply Hk.
  - rq_cbn. unfold next_words, rd_words_next. rewrite E, Ht. destruct (wr_words_next i s) as [[? ?] ?]. by apply Hk.
  - rq_cbn. unfold next_words, rd_words_next. rewrite E, Ht. destruct (wr_words_next i s) as [[? ?] ?]. by apply Hk.
Qed.

(** A request is followed by the next one, or by the wait. *)
Lemma reading_next i s k :
  held d i -> prepared s -> reading k s -> tlp_read s i = true ->
  if k + 1 =? n_reads then waiting (rq_step i s) else reading (k + 1) (rq_step i s).
Proof.
  intros Hh [Hs Ha] Hk Ht. red in Hh. pose proof (reading_state k s Hk) as E. pose proof Ht as Ht'.
  unfold tlp_read in Ht'. rewrite E in Ht'. pose proof (reading_count k s Hk) as Hc.
  pose proof (op_tlps op) as Ho.
  assert (wr_state (rq_step i s) = if k + 1 =? n_reads then WAIT_READ else INIT_READ) as Hw.
  { rq_cbn. unfold next_wr_state. rewrite E, andb_comm, Ht', Hh, (op_writes op), (reading_tlp k s Hk).
    rewrite (steady_bounds d s Hs). cbn [next_boundaries total_tlp_r]. rewrite wrap_id by (unfold fits; lia).
    unfold n_reads in *. cbn [andb].
    destruct (Z.leb_spec (NUMBER_TLPS d) (k + 1)), (Z.eqb_spec (k + 1) (Z.max 1 (NUMBER_TLPS d))); done || lia. }
  destruct (k + 1 =? n_reads) eqn:L; [done|]. apply Z.eqb_neq in L.
  pose proof group_bounds as Hg. pose proof (Z.mod_pos_bound k group ltac:(lia)) as Hm.
  destruct (group_next k ltac:(lia)) as [G1 G2]. pose proof (group_ends s k Hs Hk) as Ge.
  assert (n_reads < 2 ^ 32) by (unfold n_reads; lia).
  assert (r_progress (rq_step i s) = Progress (mem_wr_current_tlp_r (r_progress s))
    (mem_wr_current_tlp_modulus_r (r_progress s)) (k + 1 + 1) ((k + 1) mod group + 1)) as Hp.
  { rq_cbn. unfold next_progress. rewrite E, Ht, Ge.
    pose proof (reading_tlp k s Hk) as R1. pose proof (reading_mod k s Hk) as R2.
    destruct (r_progress s). progress_cbn. rewrite R1, R2. rewrite !wrap_id by (unfold fits; lia).
    destruct (Z.eqb_spec group (k mod group + 1)) as [G|G]; [by rewrite (G1 G) | by rewrite (G2 G)]. }
  split; [done | lia | by rewrite Hp | by rewrite Hp | |].
  - rq_cbn. unfold next_words, rd_words_next. rewrite E, Ht, Hh, (op_writes op). destruct (wr_words_next i s) as [[? ?] ?].
    words_cbn. rewrite (steady_bounds d s Hs), (reading_mod k s Hk). fold group last_words.
    destruct read_groups as (R1 & R2 & R3). rewrite words_is, group_is, last_words_is.
    apply (next_tlp_words_eq H2D 9); done || lia.
  - rq_cbn. unfold next_words, rd_words_next. rewrite E, Ht, Ge, Hh. destruct (wr_words_next i s) as [[? ?] ?]. words_cbn.
    destruct (Z.eqb_spec group (k mod group + 1)) as [G|G].
    + eexists. rewrite (G1 G), Z.mul_0_r, Z.add_0_r. split; [|done].
      apply (settled_in_buffer _ _ room _ Ha).
    + destruct (reading_addr k s Hk) as (a & [A1 A2] & Ea). exists a. split; [done|]. rewrite (G2 G), Ea.
      rewrite (current_words s k Hs Hk). unfold words_of_read. rewrite (proj2 (Z.eqb_neq _ _) G).
      change (bits 10 0 max_words_read_request_s) with 128.
      destruct (op_size op), (room_size _ _ room), (room_addr _ _ room).
      pose proof (words_fit k ltac:(lia)). pose proof (words_of_read_range k ltac:(lia)).
      rewrite wrap_id; [lia|]. unfold fits. fold (size_of d) (addr_of d) in *. lia.
Qed.

Lemma waiting_step i s :
  held d i -> waiting s -> if end_of_operation s then over (rq_step i s) else waiting (rq_step i s).
Proof.
  intros Hh Hw. red in Hw. destruct (end_of_operation s) eqn:E.
  - split_and!; rq_cbn; unfold next_wr_state; by rewrite ?Hw, ?E.
  - red. rq_cbn. unfold next_wr_state. by rewrite Hw, E.
Qed.

Lemma n_reads_pos : 1 <= n_reads.
Proof. unfold n_reads. lia. Qed.

Lemma phase_step i s k :
  held d i -> prepared s -> phase k s ->
  phase (k + Z.b2z (tlp_read s i)) (rq_step i s) /\
  exists l, loaded i s = l /\ Z.of_nat (length l) = Z.b2z (tlp_read s i) /\ Forall (read_beat k) l.
Proof.
  intros Hh Hp Hk. pose proof n_reads_pos as Hn. split.
  - destruct Hk as [[Hr ->] | [Hk | [[Hw ->] | [Ho ->]]]].
    + destruct (ready_step i s Hh Hp Hr) as [R1 R2].
      assert (tlp_read s i = false) as -> by (unfold tlp_read; by rewrite (proj1 Hr)).
      destruct (startable s i); [right; left; by apply R1 | left; split; [by apply R2 | done]].
    + destruct (tlp_read s i) eqn:T; cbn [Z.b2z].
      * pose proof (reading_next i s k Hh Hp Hk T) as Hx. right. destruct (k + 1 =? n_reads) eqn:L.
        { right. left. split; [done | lia]. }
        by left.
      * rewrite Z.add_0_r. right. left. by apply reading_stays.
    + assert (tlp_read s i = false) as -> by (unfold tlp_read; by rewrite Hw).
      pose proof (waiting_step i s Hh Hw) as Hx. right. right. rewrite Z.add_0_r.
      destruct (end_of_operation s); [by right | by left].
    + assert (tlp_read s i = false) as -> by (unfold tlp_read; by rewrite (proj1 Ho)).
      right. right. right. split; [apply (over_step d i s (op_valid op) Hh Ho) | cbn; lia].
  - exists (loaded i s). split; [done|]. destruct (tlp_read s i) eqn:T.
    + destruct Hk as [[Hr _] | [Hk | [[Hw _] | [Ho _]]]].
      * unfold tlp_read in T. by rewrite (proj1 Hr) in T.
      * destruct (read_loaded i s k Hh Hp Hk T) as (x & -> & Hx). split; [done | by apply Forall_singleton].
      * unfold tlp_read in T. by rewrite Hw in T.
      * unfold tlp_read in T. by rewrite (proj1 Ho) in T.
    + by rewrite (nothing_loaded i s k Hp Hk T).
Qed.

Lemma prepared_run qs s : Forall (held d) qs -> prepared s -> prepared (rq_run qs s).
Proof.
  intros H. revert s. induction H as [|i qs Hi H IH]; intros s Hs; [done|]. by apply IH, prepared_step.
Qed.

(** The requests that go out, in order. *)
Lemma phase_run qs s k :
  Forall (held d) qs -> prepared s -> phase k s -> 0 <= k ->
  let out := gathered loaded qs s in
  phase (k + Z.of_nat (length out)) (rq_run qs s) /\
  (forall n x, out !! n = Some x -> read_beat (k + Z.of_nat n) x).
Proof.
  intros H. revert s k. induction H as [|i qs Hi H IH]; intros s k Hs Hk H0; cbv zeta.
  { split; [by rewrite Z.add_0_r | done]. }
  destruct (phase_step i s k Hi Hs Hk) as (Hk' & l & El & Hl & HF). cbn [gathered]. rewrite El.
  destruct (IH (rq_step i s) _ (prepared_step i s Hi Hs) Hk') as [I1 I2].
  { destruct (tlp_read s i); cbn [Z.b2z]; lia. }
  rewrite length_app. split.
  - rewrite Nat2Z.inj_add, Hl, Z.add_assoc. apply I1.
  - intros n x Hx. apply lookup_app_Some in Hx as [Hx | [Hn Hx]].
    + assert (n = 0%nat) as ->.
      { apply lookup_lt_Some in Hx. destruct (tlp_read s i); cbn [Z.b2z] in Hl; lia. }
      rewrite Z.add_0_r. by apply (Forall_lookup_1 _ _ _ _ HF Hx).
    + apply I2 in Hx. by replace (k + Z.b2z (tlp_read s i) + Z.of_nat (n - length l)) with (k + Z.of_nat n) in Hx by lia.
Qed.

Lemma phase_count k s : phase k s -> 0 <= k <= n_reads.
Proof.
  pose proof n_reads_pos as Hn. intros [[_ ->] | [Hk | [[_ ->] | [_ ->]]]]; try lia.
  pose proof (reading_count k s Hk). lia.
Qed.

Lemma phase_not_writing k s : phase k s -> not_writing (wr_state s).
Proof.
  intros [[(E & _) _] | [R | [[E _] | [(E & _) _]]]]; [| pose proof (reading_state k s R) as E | |]; by rewrite E.
Qed.

Lemma phase_ends k s : phase k s -> end_of_operation s = true -> waiting s /\ k = n_reads.
Proof.
  intros [[Hr _] | [Hk | [Hw | [Ho _]]]] He; [| |done|]; exfalso; unfold end_of_operation in He.
  - destruct Hr as (H1 & H2 & _). rewrite H1 in He. apply bool_decide_eq_true in He. red in H2. tauto.
  - by rewrite (reading_state k s Hk) in He.
  - destruct Ho as (H1 & H2 & _). rewrite H1 in He. apply bool_decide_eq_true in He. red in H2. tauto.
Qed.

(** *** The answers *)

Definition tally (p : nat -> bool) (l : list nat) : Z := foldr (fun j n => Z.b2z (p j) + n) 0 l.

Definition window_tags : list nat := seq 0 (Z.to_nat (window_of d)).
Definition n_busy (s : requester) : Z := tally (busy s) window_tags.

(** The tags that are completed in a cycle. *)
Definition n_answers (i : rq_in) (s : requester) : Z :=
  tally (fun j => busy s j && completed i j) window_tags.

Lemma tally_cons p j l : tally p (j :: l) = Z.b2z (p j) + tally p l.
Proof. done. Qed.

Lemma tally_ext p q l : (forall j, j ∈ l -> p j = q j) -> tally p l = tally q l.
Proof.
  induction l as [|j l IH]; intros H; [done|]. rewrite !tally_cons, (H j) by by left. f_equal. apply IH.
  intros k Hk. apply H. by right.
Qed.

Lemma tally_split p q l :
  tally p l = tally (fun j => p j && negb (q j)) l + tally (fun j => p j && q j) l.
Proof. induction l as [|j l IH]; [done|]. rewrite !tally_cons, IH. destruct (p j), (q j); cbn; lia. Qed.

Lemma tally_app p l l' : tally p (l ++ l') = tally p l + tally p l'.
Proof. induction l as [|j l IH]; [done|]. cbn [app]. rewrite !tally_cons, IH. lia. Qed.

Lemma tally_false p l : (forall j, j ∈ l -> p j = false) -> tally p l = 0.
Proof.
  intros H. rewrite (tally_ext p (fun _ => false)) by done. clear. by induction l.
Qed.

Lemma tally_nonneg p l : 0 <= tally p l.
Proof. induction l as [|j l IH]; [done|]. rewrite tally_cons. destruct (p j); cbn [Z.b2z]; lia. Qed.

Lemma tally_pos p l j : j ∈ l -> p j = true -> 0 < tally p l.
Proof.
  intros Hin Hj. induction l as [|k l IH]; [by apply not_elem_of_nil in Hin|]. rewrite tally_cons.
  pose proof (tally_nonneg p l). apply elem_of_cons in Hin as [-> | Hin]; [rewrite Hj; cbn [Z.b2z]; lia|].
  specialize (IH Hin). destruct (p k); cbn [Z.b2z]; lia.
Qed.

Lemma tally_witness p l : 0 < tally p l -> exists j, j ∈ l /\ p j = true.
Proof.
  intros H. destruct (decide (Exists (fun j => p j = true) l)) as [(j & ? & ?)%Exists_exists | E]; [by exists j|].
  rewrite tally_false in H; [lia|]. intros j Hj. apply not_true_iff_false. intros Hk. apply E, Exists_exists. eauto.
Qed.

(** One more tag is counted at [f]. *)
Lemma tally_one p q f n :
  (f < n)%nat -> p f = false -> q f = true -> (forall j, j <> f -> q j = p j) ->
  tally q (seq 0 n) = tally p (seq 0 n) + 1.
Proof.
  intros Hf Hp Hq H. replace n with (f + S (n - S f))%nat by lia. rewrite seq_app, !tally_app.
  cbn [seq Nat.add]. rewrite !tally_cons, Hp, Hq.
  rewrite (tally_ext q p (seq 0 f)), (tally_ext q p (seq (S f) _)); [cbn [Z.b2z]; lia | |].
  - intros j Hj%elem_of_seq. apply H. lia.
  - intros j Hj%elem_of_seq. apply H. lia.
Qed.

Lemma window_tag j : j ∈ window_tags <-> Z.of_nat j < window_of d.
Proof. unfold window_tags. rewrite elem_of_seq. lia. Qed.

Lemma window_small j : Z.of_nat j < window_of d -> (j < Z.to_nat C_WINDOW_SIZE)%nat.
Proof. pose proof (op_window op). lia. Qed.

Lemma busy_balance i s :
  held d i -> steady d s ->
  n_busy (rq_step i s) + n_answers i s = n_busy s + Z.b2z (tlp_read s i).
Proof.
  intros Hh Hs. unfold n_busy, n_answers.
  rewrite (tally_split (busy s) (completed i) window_tags).
  destruct (tlp_read s i) eqn:T; cbn [Z.b2z].
  - destruct (read_tag d i s Hs T) as (f & _ & Hw & Hf & _).
    enough (tally (busy (rq_step i s)) window_tags =
      tally (fun j => busy s j && negb (completed i j)) window_tags + 1) by lia.
    set (q := fun j => if (j =? f)%nat then true else busy s j && negb (completed i j)).
    rewrite (tally_ext _ q).
    + apply (tally_one _ q f); [lia | | by unfold q; rewrite Nat.eqb_refl |].
      * by rewrite (proj1 Hf).
      * intros j Hj. unfold q. by rewrite (proj2 (Nat.eqb_neq j f)).
    + intros j Hj%window_tag. unfold q.
      destruct (tag_step d i s j Hs Hh (window_small j Hj) Hj) as [S1 S2].
      destruct (Nat.eqb_spec j f) as [->|Hn]; [by apply S1|]. apply S2. intros [_ Hf']. apply Hn.
      by apply (first_free_unique s).
  - rewrite (tally_ext (busy (rq_step i s)) (fun j => busy s j && negb (completed i j))); [lia|].
    intros j Hj%window_tag. apply (tag_step d i s j Hs Hh (window_small j Hj) Hj).
    rewrite T. by intros [? _].
Qed.

(** The end is the cycle with no busy tag. *)
Lemma end_is_idle s : steady d s -> waiting s -> end_of_operation s = true <-> n_busy s = 0.
Proof.
  intros Hs Hw. unfold end_of_operation. rewrite Hw, (tags_idle_iff d s Hs). split.
  - intros H. apply tally_false. intros j Hj%window_tag. apply H; [by apply window_small | done].
  - intros H j _ Hj. assert (j ∈ window_tags) as Hin by by apply window_tag. revert H Hin.
    unfold n_busy. generalize window_tags. intros l. induction l as [|k l IH]; [by intros _ ?%not_elem_of_nil|].
    assert (0 <= tally (busy s) l) by (clear; induction l as [|k l IH]; [done | rewrite tally_cons; destruct (busy s k); cbn [Z.b2z]; lia]).
    rewrite tally_cons. intros Ht [-> | Hin]%elem_of_cons; [destruct (busy s k); cbn [Z.b2z] in Ht; [lia | done]|].
    apply IH; [destruct (busy s k); cbn [Z.b2z] in Ht; lia | done].
Qed.

(** *** It ends *)

Section Live.
Context (ins : nat -> rq_in) (s0 : requester).

Abbreviation rq_at := (rq_at ins s0).

(** The link takes a beat again and again, and every busy tag is completed at some time. *)
Record fair : Prop := {
  fair_ready t : exists u, (t <= u)%nat /\ q_tready (ins u) = true;
  fair_answers t j : Z.of_nat j < window_of d -> busy (rq_at t) j = true ->
    exists u, (t <= u)%nat /\ completed (ins u) j = true
}.

Context (Hh : forall t, held d (ins t)) (Hp : prepared s0) (F : fair).

Lemma prepared_at t : prepared (rq_at t).
Proof. induction t as [|t IH]; [done|]. by apply prepared_step. Qed.

Lemma steady_at t : steady d (rq_at t).
Proof. apply prepared_at. Qed.

Lemma starts t : ready (rq_at t) -> exists v, (t <= v)%nat /\ reading 0 (rq_at (S v)).
Proof.
  intros Hr. destruct (fair_ready F t) as (u & Hu & Hq). replace u with (t + (u - t))%nat in Hq by lia.
  apply (until (fun v => ready (rq_at v)) (fun v => reading 0 (rq_at (S v))) (u - t) t); [|done|].
  - intros v Hv. destruct (ready_step (ins v) (rq_at v) (Hh v) (prepared_at v) Hv) as [R1 R2].
    destruct (startable (rq_at v) (ins v)); [left; by apply R1 | right; by apply R2].
  - intros Hv. apply (ready_step _ _ (Hh _) (prepared_at _) Hv). unfold startable.
    rewrite Hq. pose proof (Hh (t + (u - t))%nat) as Hd. red in Hd. rewrite Hd, (op_valid op).
    destruct Hv as (V1 & V2 & V3). rewrite V3. unfold end_of_operation. rewrite V1.
    rewrite bool_decide_false; [done|]. intros [V | V]; by apply V2 in V.
Qed.

(** With a free tag, the next request is issued. *)
Lemma issues k t :
  reading k (rq_at t) -> tag_free (rq_at t) = true ->
  exists v, (t <= v)%nat /\ reading k (rq_at v) /\ tlp_read (rq_at v) (ins v) = true.
Proof.
  intros Hk Hf. destruct (fair_ready F t) as (u & Hu & Hq). replace u with (t + (u - t))%nat in Hq by lia.
  apply (until (fun v => reading k (rq_at v) /\ tag_free (rq_at v) = true)
    (fun v => reading k (rq_at v) /\ tlp_read (rq_at v) (ins v) = true) (u - t) t); [|done|].
  - intros v [Hv Hfv]. destruct (tlp_read (rq_at v) (ins v)) eqn:T; [by left|]. right.
    split; [by apply (reading_stays (ins v) _ k (Hh v) (prepared_at v))|].
    apply (tag_free_iff d _ (steady_at v)) in Hfv as (j & Hj & Hw & Hb).
    apply (tag_free_iff d _ (steady_at (S v))). exists j. split_and!; [done | done |].
    destruct (tag_step d (ins v) _ j (steady_at v) (Hh v) Hj Hw) as [_ S2]. cbn [rq_at].
    rewrite S2, Hb; [done|]. rewrite T. by intros [? _].
  - intros [Hv Hfv]. split; [done|]. unfold tlp_read. by rewrite (reading_state k _ Hv), Hfv, Hq.
Qed.

(** Without one, tag 0 is waited for. *)
Lemma tag_freed k t :
  reading k (rq_at t) ->
  exists v, (t <= v)%nat /\ reading k (rq_at v) /\ (tag_free (rq_at v) = true \/ tlp_read (rq_at v) (ins v) = true).
Proof.
  intros Hk. pose proof (op_window op) as [Ow _].
  assert (0 < Z.to_nat C_WINDOW_SIZE)%nat as H24 by (unfold C_WINDOW_SIZE; lia).
  assert (Z.of_nat 0 < window_of d) as H0 by lia.
  assert (forall v, busy (rq_at v) 0 = false -> tag_free (rq_at v) = true) as Hfree.
  { intros v Hv. apply (tag_free_iff d _ (steady_at v)). by exists 0%nat. }
  destruct (busy (rq_at t) 0) eqn:B.
  2:{ exists t. split_and!; [done | done | left; by apply Hfree]. }
  destruct (fair_answers F t 0 H0 B) as (u & Hu & Hc). replace u with (t + (u - t))%nat in Hc by lia.
  set (Q := fun v => reading k (rq_at v) /\ (tag_free (rq_at v) = true \/ tlp_read (rq_at v) (ins v) = true)).
  assert (exists v, (t <= v)%nat /\ (Q v \/ Q (S v))) as (v & Hv & [Hq | Hq]).
  2:{ by exists v. }
  2:{ exists (S v). split; [lia | done]. }
  assert (forall v, reading k (rq_at v) -> tlp_read (rq_at v) (ins v) = false ->
    reading k (rq_at (S v)) /\ busy (rq_at (S v)) 0 = busy (rq_at v) 0 && negb (completed (ins v) 0)) as Hs.
  { intros v Hv T. split; [by apply (reading_stays (ins v) _ k (Hh v) (prepared_at v))|].
    apply (tag_step d (ins v) _ 0 (steady_at v) (Hh v) H24 H0). rewrite T. by intros [? _]. }
  apply (until (fun v => reading k (rq_at v) /\ busy (rq_at v) 0 = true) (fun v => Q v \/ Q (S v)) (u - t) t); [|done|].
  - intros v [Hv Hb]. destruct (tlp_read (rq_at v) (ins v)) eqn:T; [left; left; split; [done | by right]|].
    destruct (Hs v Hv T) as [Hv' Hb']. destruct (busy (rq_at (S v)) 0) eqn:B'; [by right|].
    left. right. split; [done|]. left. by apply Hfree.
  - intros [Hv Hb]. destruct (tlp_read (rq_at (t + (u - t))) (ins (t + (u - t)))) eqn:T; [left; split; [done | by right]|].
    destruct (Hs _ Hv T) as [Hv' Hb']. right. split; [done|]. left. apply Hfree. by rewrite Hb', Hc, andb_false_r.
Qed.

Lemma next_request k t :
  reading k (rq_at t) ->
  exists v, (t <= v)%nat /\ if k + 1 =? n_reads then waiting (rq_at v) else reading (k + 1) (rq_at v).
Proof.
  intros Hk. destruct (tag_freed k t Hk) as (v & Hv & Hk' & Ho).
  assert (exists u, (v <= u)%nat /\ reading k (rq_at u) /\ tlp_read (rq_at u) (ins u) = true) as (u & Hu & Hku & T).
  { destruct Ho as [Hf | T]; [by apply issues | by exists v]. }
  exists (S u). split; [lia|]. by apply (reading_next (ins u) _ k (Hh u) (prepared_at u)).
Qed.

Lemma all_requested k t : reading k (rq_at t) -> exists v, (t <= v)%nat /\ waiting (rq_at v).
Proof.
  intros Hk. remember (Z.to_nat (n_reads - k)) as n eqn:En. revert k t Hk En.
  induction n as [|n IH]; intros k t Hk En; pose proof (reading_count k _ Hk); [lia|].
  destruct (next_request k t Hk) as (v & Hv & Hn). destruct (k + 1 =? n_reads); [by exists v|].
  destruct (IH (k + 1) v Hn ltac:(lia)) as (u & Hu & Hw). exists u. split; [lia | done].
Qed.

(** In the wait, the count of busy tags falls with each answer. *)
Lemma wait_step t :
  waiting (rq_at t) -> end_of_operation (rq_at t) = false ->
  waiting (rq_at (S t)) /\ n_busy (rq_at (S t)) + n_answers (ins t) (rq_at t) = n_busy (rq_at t).
Proof.
  intros Hw He. pose proof (waiting_step (ins t) _ (Hh t) Hw) as Hx. rewrite He in Hx. split; [done|].
  pose proof (busy_balance (ins t) _ (Hh t) (steady_at t)) as Hb.
  assert (tlp_read (rq_at t) (ins t) = false) as T by (unfold tlp_read; by rewrite Hw).
  rewrite T in Hb. cbn [Z.b2z rq_at] in *. lia.
Qed.

Lemma all_answered t :
  waiting (rq_at t) -> exists v, (t <= v)%nat /\ end_of_operation (rq_at v) = true.
Proof.
  remember (Z.to_nat (n_busy (rq_at t))) as n eqn:En. revert t En.
  induction n as [n IH] using lt_wf_ind. intros t En Hw.
  pose proof (tally_nonneg (busy (rq_at t)) window_tags) as H0. fold (n_busy (rq_at t)) in H0.
  destruct (Z.eq_dec (n_busy (rq_at t)) 0) as [Z0 | NZ].
  { exists t. split; [done|]. by apply end_is_idle; [apply steady_at | |]. }
  destruct (tally_witness (busy (rq_at t)) window_tags) as (j & Hj & Hb); [fold (n_busy (rq_at t)); lia|].
  destruct (fair_answers F t j (proj1 (window_tag j) Hj) Hb) as (u & Hu & Hc).
  replace u with (t + (u - t))%nat in Hc by lia.
  set (m := n_busy (rq_at t)) in *.
  destruct (until (fun v => waiting (rq_at v) /\ n_busy (rq_at v) <= m /\ busy (rq_at v) j = true)
    (fun v => end_of_operation (rq_at v) = true \/ (waiting (rq_at (S v)) /\ n_busy (rq_at (S v)) < m)) (u - t) t)
    as (v & Hv & [He | [Hw' Hn]]).
  - intros v (V1 & V2 & V3). destruct (end_of_operation (rq_at v)) eqn:E; [by left; left|].
    destruct (wait_step v V1 E) as [W1 W2]. pose proof (tally_nonneg (fun j => busy (rq_at v) j && completed (ins v) j) window_tags).
    unfold n_answers in W2. destruct (completed (ins v) j) eqn:C.
    + left. right. split; [done|].
      pose proof (tally_pos (fun j => busy (rq_at v) j && completed (ins v) j) window_tags j Hj) as Hx.
      cbv beta in Hx. rewrite V3, C in Hx. specialize (Hx eq_refl). lia.
    + right. split_and!; [done | lia |].
      destruct (tag_step d (ins v) _ j (steady_at v) (Hh v)) as [_ S2]; [by apply window_small, window_tag | by apply window_tag|].
      cbn [rq_at]. rewrite S2, V3, C; [done|]. unfold tlp_read. rewrite V1. by intros [? _].
  - by split_and!.
  - intros (V1 & V2 & V3). destruct (end_of_operation (rq_at (t + (u - t)))) eqn:E; [by left|].
    destruct (wait_step _ V1 E) as [W1 W2]. right. split; [done|]. unfold n_answers in W2.
    pose proof (tally_pos (fun k => busy (rq_at (t + (u - t))) k && completed (ins (t + (u - t))) k) window_tags j Hj) as Hx.
    cbv beta in Hx. rewrite V3, Hc in Hx. specialize (Hx eq_refl). lia.
  - exists v. done.
  - destruct (IH (Z.to_nat (n_busy (rq_at (S v)))) ltac:(pose proof (tally_nonneg (busy (rq_at (S v))) window_tags);
      unfold n_busy in *; lia) (S v) eq_refl Hw') as (x & Hx & Hend).
    exists x. split; [lia | done].
Qed.

Lemma ends : ready s0 -> exists v, end_of_operation (rq_at v) = true.
Proof.
  intros Hr. destruct (starts 0 Hr) as (t & _ & Hk). destruct (all_requested 0 (S t) Hk) as (u & _ & Hw).
  destruct (all_answered u Hw) as (v & _ & He). by exists v.
Qed.
End Live.

(** *** What is measured *)

Section Measured.
Context (ins : nat -> rq_in) (s0 : requester).
Context (Hh : forall t, held d (ins t)) (Hp : prepared s0).

Definition could_send (t : nat) : Prop :=
  wr_state (rq_at ins s0 t) = INIT_READ /\ q_tready (ins t) = true.

Lemma measured_iff t :
  not_writing (wr_state (rq_at ins s0 t)) -> starts_at ins s0 t <-> could_send t.
Proof.
  unfold starts_at, measured_start, could_send, not_writing. pose proof (Hh t) as E. red in E. rewrite E, (op_reads op).
  destruct (q_tready (ins t)), (wr_state (rq_at ins s0 t)); cbn [andb]; split; try done; try tauto; by intros [? ?].
Qed.

Lemma phase_at t : ready s0 -> exists k, phase k (rq_at ins s0 t).
Proof.
  intros Hr. induction t as [|t (k & IH)]; [exists 0; by left|]. eexists.
  apply (phase_step (ins t) _ k (Hh t) (prepared_at ins s0 Hh Hp t) IH).
Qed.

(** Before the first request, the machine waits for the descriptor or for the link. *)
Lemma unstarted t :
  ready s0 -> (forall u, (u < t)%nat -> ~ starts_at ins s0 u) ->
  ready (rq_at ins s0 t) \/ reading 0 (rq_at ins s0 t).
Proof.
  intros Hr Hn. induction t as [|t IH]; [by left|]. pose proof (prepared_at ins s0 Hh Hp t) as Hpt.
  destruct IH as [R | R]; [intros u Hu; apply Hn; lia | |].
  - destruct (ready_step (ins t) _ (Hh t) Hpt R) as [R1 R2].
    destruct (startable (rq_at ins s0 t) (ins t)); [right; by apply R1 | left; by apply R2].
  - right. apply (reading_stays (ins t) _ 0 (Hh t) Hpt R). unfold tlp_read. rewrite (reading_state 0 _ R).
    apply andb_false_intro2. apply not_true_iff_false. intros Q. apply (Hn t ltac:(lia)), measured_iff.
    + apply (phase_not_writing 0). by right; left.
    + split; [apply R | done].
Qed.

(** At the end, the clock has the cycles since the first request could be sent. *)
Lemma latency_at t :
  stop_latency (r_meter s0) = true -> ready s0 ->
  (forall u, (u < t)%nat -> end_of_operation (rq_at ins s0 u) = false) ->
  end_of_operation (rq_at ins s0 t) = true ->
  exists a, (could_send a /\ forall u, (u < a)%nat -> ~ could_send u) /\ (a < t)%nat /\
    current_latency_r (r_meter (rq_at ins s0 (S t))) = u64 (Z.of_nat t - Z.of_nat a).
Proof.
  intros Hs Hr Hb He.
  assert (forall u, not_writing (wr_state (rq_at ins s0 u))) as Hw.
  { intros u. destruct (phase_at u Hr) as (k & P). by apply (phase_not_writing k). }
  destruct (clock_at ins s0 t Hs Hb) as [C | (a & C)].
  - exfalso. assert (phase 0 (rq_at ins s0 t)) as P.
    { destruct (unstarted t Hr) as [R | R]; [apply C | by left | by right; left]. }
    apply (phase_ends 0 _ P) in He as [_ Hn]. pose proof n_reads_pos. lia.
  - exists a. destruct C as ([C1 C2] & C3 & C4). split; [split; [by apply measured_iff|] | split; [done|]].
    + intros u Hu Cu. apply (C2 u Hu). by apply measured_iff.
    + by apply (clock_read ins s0 a t).
Qed.
End Measured.

(** *** From rest *)

(** The machine at rest, with the tags of the window free. *)
Record at_rest (s : requester) : Prop := {
  rest_state : wr_state s = IDLE;
  rest_pipe : not_writing (wr_state_pipe_r s);
  rest_stream : axis_rq_tvalid_r (r_axis s) = false;
  rest_length : length (current_tags_r (r_tags s)) = Z.to_nat C_WINDOW_SIZE;
  rest_free j : Z.of_nat j < window_of d -> busy s j = false
}.

(** The configuration of [d] with no valid descriptor. *)
Definition quiet : shown :=
  Shown false (STATUS_8_5 d) (PLACEMENT d) (NUMBER_TLPS d) (CURRENT_WINDOW_SIZE d).

Lemma quiet_step i s :
  held quiet i -> at_rest s ->
  at_rest (rq_step i s) /\ end_of_operation_r (rq_step i s) = false /\
  (g_dice (r_gen (rq_step i s)), g_rd (r_gen (rq_step i s))) =
    addr_step (PLACEMENT d) A_IDLE (g_dice (r_gen s), g_rd (r_gen s)).
Proof.
  intros Hh [H1 H2 H3 H4 H5]. red in Hh.
  pose proof (idle_no_end s H1 H2) as He.
  assert (startable s i = false) as Hs.
  { unfold startable. rewrite Hh. cbn [ENGINE_VALID quiet]. by rewrite andb_false_r. }
  split_and!.
  - split; rq_cbn.
    + unfold next_wr_state. by rewrite H1, Hs.
    + by rewrite H1.
    + unfold next_axis, next_beat. rewrite H1. by destruct (q_tready i); cbn [negb axis_rq_tvalid_r].
    + unfold next_tags. cbn [current_tags_r]. by rewrite length_imap.
    + intros j Hj. rewrite busy_step by (rewrite H4; by apply window_small).
      unfold next_tag, taken, issuing, in_window. rewrite H1, bool_decide_false, Hh by done.
      change (bits 7 0 (CURRENT_WINDOW_SIZE quiet)) with (window_of d).
      rewrite (proj2 (Z.ltb_lt _ _) Hj), (H5 j Hj). by destruct j.
  - rq_cbn. by rewrite He, Hh.
  - rq_cbn. unfold next_gen, advance_rd. rewrite H1, Hs, Hh. done.
Qed.

Lemma quiet_run qs s :
  Forall (held quiet) qs -> at_rest s ->
  at_rest (rq_run qs s) /\ (qs <> [] -> end_of_operation_r (rq_run qs s) = false) /\
  (g_dice (r_gen (rq_run qs s)), g_rd (r_gen (rq_run qs s))) =
    addr_run (PLACEMENT d) (repeat A_IDLE (length qs)) (g_dice (r_gen s), g_rd (r_gen s)).
Proof.
  intros H. revert s. induction H as [|i qs Hi H IH]; intros s Hs; [by split_and!|].
  destruct (quiet_step i s Hi Hs) as (Q1 & Q2 & Q3). destruct (IH _ Q1) as (I1 & I2 & I3).
  split_and!; [done | intros _; destruct H; [done | by apply I2] |].
  change (rq_run (i :: qs) s) with (rq_run qs (rq_step i s)). by rewrite I3, Q3.
Qed.

Lemma rest_prepared qs s :
  Forall (held quiet) qs -> (7 <= length qs)%nat -> at_rest s ->
  let s' := rq_run qs s in prepared s' /\ ready s' /\ at_rest s'.
Proof.
  intros H Hl Hs. cbv zeta. destruct (quiet_run qs s H Hs) as (Q1 & Q2 & Q3).
  split_and!; [| | done].
  - split.
    + destruct H as [|i1 qs H1 H]; [cbn in Hl; lia|]. destruct H as [|i2 qs H2 H]; [cbn in Hl; lia|].
      assert (steady quiet (rq_run qs (rq_step i2 (rq_step i1 s)))) as [S1 S2 S3 S4]; [|by split].
      pose proof (steady_soon quiet i1 i2 s H1 H2 (rest_length s Hs)) as Hx. clear -H Hx.
      revert Hx. generalize (rq_step i2 (rq_step i1 s)). induction H as [|i qs Hi H IH]; intros t Ht; [done|].
      by apply IH, steady_step.
    + rewrite Q3. replace (length qs) with (7 + (length qs - 7))%nat by lia.
      rewrite repeat_app. unfold addr_run. rewrite fold_left_app.
      apply (settled_run _ _ room), (settles _ _ room).
  - destruct Q1. split_and!; try done. apply Q2. intros ->. cbn in Hl. lia.
Qed.

(** The answers to a run. *)
Fixpoint answered (qs : list rq_in) (s : requester) : Z :=
  match qs with [] => 0 | i :: qs' => n_answers i s + answered qs' (rq_step i s) end.

Lemma balance_run qs s k :
  Forall (held d) qs -> prepared s -> phase k s ->
  n_busy (rq_run qs s) + answered qs s = n_busy s + Z.of_nat (length (gathered loaded qs s)).
Proof.
  intros H. revert s k. induction H as [|i qs Hi H IH]; intros s k Hs Hk; [cbn; lia|].
  destruct (phase_step i s k Hi Hs Hk) as (Hk' & l & El & Hl & _).
  pose proof (IH _ _ (prepared_step i s Hi Hs) Hk') as I. cbn [answered gathered].
  rewrite length_app, El. change (rq_run (i :: qs) s) with (rq_run qs (rq_step i s)).
  pose proof (busy_balance i s Hi (proj1 Hs)). lia.
Qed.

Lemma rest_idle s : at_rest s -> n_busy s = 0.
Proof. intros Hs. apply tally_false. intros j Hj%window_tag. by apply (rest_free s Hs). Qed.

(** The bytes the requests ask for. *)
Definition asked_bytes (out : list axis) : Z :=
  foldr (fun x n => 4 * tlp_dwords (tlp_of (axis_rq_tdata_r x)) + n) 0 out.

Lemma asked_bytes_eq out :
  (forall n x, out !! n = Some x -> read_beat (Z.of_nat n) x) ->
  asked_bytes out = bytes_of_tlps H2D (size_of d) (length out).
Proof.
  intros H. unfold asked_bytes, bytes_of_tlps.
  assert (forall m, (forall n x, out !! n = Some x -> read_beat (Z.of_nat (m + n)) x) ->
    foldr (fun x n => 4 * tlp_dwords (tlp_of (axis_rq_tdata_r x)) + n) 0 out =
    foldr (fun k s => tlp_size H2D (size_of d) (Z.of_nat k) + s) 0 (seq m (length out))) as G; [|by apply (G 0%nat)].
  clear H. induction out as [|x out IH]; intros m Hm; [done|]. cbn [foldr seq length].
  rewrite (beat_words _ _ (Hm 0%nat x eq_refl)), Nat.add_0_r. f_equal. apply IH. intros n y Hy.
  rewrite Nat.add_succ_comm. by apply Hm.
Qed.

End Operation.

(** ** Theorems *)

(** From a machine that is ready. *)
Lemma requests_held d s qs :
  read_op d -> roomy (PLACEMENT d) (address_mode_s d) -> prepared d s -> ready s -> at_rest d s ->
  Forall (held d) qs ->
  let s' := rq_run qs s in
  let out := gathered accepted qs s ++ pending s' in
  Z.of_nat (length out) <= n_reads d /\
  (forall n x, out !! n = Some x -> read_beat d (Z.of_nat n) x) /\
  (end_of_operation s' = true ->
   Z.of_nat (length out) = n_reads d /\ answered d qs s = n_reads d /\
   asked_bytes out = bytes_of_tlps H2D (size_of d) (length out)).
Proof.
  intros op room Hp Hy Hr H. cbv zeta. rewrite slice. unfold pending. rewrite (rest_stream d s Hr). cbn [app].
  assert (phase d 0 s) as H0 by by left.
  destruct (phase_run d op room qs s 0 H Hp H0 ltac:(lia)) as [P1 P2].
  rewrite Z.add_0_l in P1. pose proof (phase_count d _ _ P1) as Hc. split_and!; [lia | done |].
  intros He. destruct (phase_ends d _ _ P1 He) as [Hw Hn]. split_and!; [done | | by apply asked_bytes_eq].
  pose proof (balance_run d op room qs s 0 H Hp H0) as Hb. rewrite (rest_idle d s Hr) in Hb.
  apply (end_is_idle d op) in He; [lia | | done].
  apply (prepared_run d room qs s H Hp).
Qed.

(** C11.  The requests of a read.  Once the configuration of a descriptor for reads has been shown
    for seven cycles of rest, and from the cycle in which it becomes valid, what the
    machine sends is, request by request, the division in TLPs that the benchmark counts
    with: each is a read of the dwords of that TLP, with a tag of the window, within the
    buffer of the host; there are never more than the descriptor has (one at least); and
    the end of the operation is only said when all of them have been sent and answered,
    and the bytes they ask for are those the benchmark divides by the time. *)
Theorem read_requests d s quiets qs :
  read_op d -> roomy (PLACEMENT d) (address_mode_s d) -> at_rest d s ->
  (7 <= length quiets)%nat -> Forall (held (quiet d)) quiets -> Forall (held d) qs ->
  let s1 := rq_run quiets s in
  let s2 := rq_run qs s1 in
  let out := gathered accepted qs s1 ++ pending s2 in
  Z.of_nat (length out) <= n_reads d /\
  (forall n x, out !! n = Some x -> read_beat d (Z.of_nat n) x) /\
  (end_of_operation s2 = true ->
   Z.of_nat (length out) = n_reads d /\ answered d qs s1 = n_reads d /\
   asked_bytes out = bytes_of_tlps H2D (size_of d) (length out)).
Proof.
  intros op room Hr Hl Hq H. cbv zeta.
  destruct (rest_prepared d op room quiets s Hq Hl Hr) as (Hp & Hy & Hr1). by apply requests_held.
Qed.

(** A read ends.  On a link that accepts beats again and again and completes every busy tag
    at some time, the operation that starts when the descriptor becomes valid comes to
    its end. *)
Theorem reads_end d s quiets ins :
  read_op d -> roomy (PLACEMENT d) (address_mode_s d) -> at_rest d s ->
  (7 <= length quiets)%nat -> Forall (held (quiet d)) quiets ->
  (forall t, held d (ins t)) -> fair d ins (rq_run quiets s) ->
  exists t, end_of_operation (rq_at ins (rq_run quiets s) t) = true.
Proof.
  intros op room Hr Hl Hq Hh F. destruct (rest_prepared d op room quiets s Hq Hl Hr) as (Hp & Hy & _).
  by apply (ends d op room ins).
Qed.

(** ** A window that grows

    The tags outside of the window are marked busy, and only an answer frees a tag: the
    tags between an old window and a larger one stay busy, with nothing to answer. *)

Section Growing.
Context (d : shown) (w : Z) (ins : nat -> rq_in).

Definition with_window (n : Z) : shown :=
  Shown (ENGINE_VALID d) (STATUS_8_5 d) (PLACEMENT d) (NUMBER_TLPS d) n.

Abbreviation state := (rq_at ins rq_reset).

(** The tag has been requested, and not completed since. *)
Fixpoint owed (t : nat) (j : nat) : bool :=
  match t with
  | O => false
  | S t' =>
      if tlp_read (state t') (ins t') && (s2c_rq_tag_s (state t') =? Z.of_nat j) then true
      else owed t' j && negb (completed (ins t') j)
  end.

(** Only what was requested is completed. *)
Definition honest : Prop := forall t j, completed (ins t) j = true -> owed t j = true.

(** A window of [w] tags up to cycle [t1], the one of [d] after it, and a valid descriptor
    from cycle [t2] on. *)
Record grows (t1 t2 : nat) : Prop := {
  grows_times : (1 <= t1)%nat /\ (t1 + 2 <= t2)%nat;
  grows_window : 1 <= w < window_of d /\ window_of d <= C_WINDOW_SIZE;
  grows_reads : writes d = false;
  grows_before t : (t < t1)%nat -> held (quiet (with_window w)) (ins t);
  grows_between t : (t1 <= t < t2)%nat -> held (quiet d) (ins t);
  grows_after t : (t2 <= t)%nat -> held d (ins t)
}.

Context (t1 t2 : nat) (G : grows t1 t2) (H : honest).

Lemma tags_length_at t : length (current_tags_r (r_tags (state t))) = Z.to_nat C_WINDOW_SIZE.
Proof. induction t as [|t IH]; [done|]. cbn. by rewrite length_imap. Qed.

(** The inputs of the cycle, whatever the time. *)
Lemma grows_any t :
  writes (q_shown (ins t)) = false /\
  ((t < t2)%nat -> ENGINE_VALID (q_shown (ins t)) = false) /\
  ((t1 <= t)%nat -> window_of (q_shown (ins t)) = window_of d).
Proof.
  destruct (le_lt_dec t1 t) as [L1 | L1].
  2:{ rewrite (grows_before t1 t2 G t L1). split_and!; [apply G | done | lia]. }
  destruct (le_lt_dec t2 t) as [L2 | L2].
  - rewrite (grows_after t1 t2 G t L2). split_and!; [apply G | lia | done].
  - rewrite (grows_between t1 t2 G t (conj L1 L2)). split_and!; [apply G | done | done].
Qed.

Lemma states_at t : not_writing (wr_state (state t)) /\ not_writing (wr_state_pipe_r (state t)) /\
  ((t <= t2)%nat -> wr_state (state t) = IDLE).
Proof.
  induction t as [|t (I1 & I2 & I3)]; [by split_and!|].
  destruct (grows_any t) as (W & V & _). cbn [rq_at]. split_and!; [| done |].
  - rq_cbn. unfold next_wr_state. rewrite W, andb_false_r. red in I1.
    destruct (wr_state (state t)) eqn:E; try tauto; split; repeat case_match; done.
  - intros Ht. rq_cbn. unfold next_wr_state. rewrite I3 by lia. unfold startable.
    by rewrite (V ltac:(lia)), !andb_false_r, !andb_false_l.
Qed.

Lemma mask_at t : (t2 <= t)%nat -> window_size_mask_r (r_tags (state t)) = dec2mask (window_of d).
Proof.
  intros Ht. destruct (grows_times t1 t2 G). destruct t as [|[|t]]; [lia | lia|]. cbn [rq_at].
  cbn [rq_step r_tags next_tags window_size_mask_r rq_window_size_r]. f_equal.
  apply (grows_any t). lia.
Qed.

Lemma firstFree_free s j : (0 < j)%nat -> s2c_rq_tag_s s = Z.of_nat j -> busy s j = false.
Proof.
  intros Hj. unfold s2c_rq_tag_s, firstFree. generalize (seq 0 (Z.to_nat C_WINDOW_SIZE)). intros l.
  induction l as [|k l IH]; cbn; [lia|]. unfold busy. destruct (nth k _ false) eqn:E; [done|].
  intros Hk. by replace j with k by lia.
Qed.

(** The tag [w] is busy, and is not owed, in every cycle after the first. *)
Lemma stuck t : (t1 <= t)%nat -> busy (state t) (Z.to_nat w) = true /\ owed t (Z.to_nat w) = false.
Proof.
  destruct (grows_window t1 t2 G) as [Hw Hd]. destruct (grows_times t1 t2 G) as [T1 T2].
  assert (forall u, (u < t1)%nat -> owed (S u) (Z.to_nat w) = false) as O1.
  { induction u as [|u IHu]; intros Hu; cbn [owed].
    - by rewrite andb_false_l.
    - assert (tlp_read (state (S u)) (ins (S u)) = false) as ->.
      { unfold tlp_read. by rewrite (proj2 (proj2 (states_at (S u)))) by lia. }
      rewrite andb_false_l. change (owed (S u) (Z.to_nat w) && negb (completed (ins (S u)) (Z.to_nat w)) = false).
      by rewrite (IHu ltac:(lia)). }
  intros Ht. induction Ht as [|t Ht [IB IO]].
  - destruct t1 as [|u] eqn:E; [lia|]. split; [|apply O1; lia]. cbn [rq_at].
    rewrite busy_step by (rewrite tags_length_at; lia). unfold next_tag, taken, in_window.
    pose proof (grows_before (S u) t2 G u ltac:(lia)) as Hu. red in Hu. rewrite Hu.
    change (bits 7 0 (CURRENT_WINDOW_SIZE (quiet (with_window w)))) with (bits 7 0 w).
    assert (bits 7 0 w = w) as ->.
    { unfold bits. rewrite Z.div_1_r. apply Z.mod_small. unfold C_WINDOW_SIZE in *. lia. }
    rewrite Z2Nat.id, Z.ltb_irrefl, andb_false_r by lia.
    rewrite (proj2 (Nat.eqb_neq _ _)) by lia. by rewrite orb_true_r.
  - assert (completed (ins t) (Z.to_nat w) = false) as C.
    { apply not_true_iff_false. intros C. apply H in C. by rewrite IO in C. }
    split.
    + cbn [rq_at]. rewrite busy_step by (rewrite tags_length_at; lia).
      unfold next_tag. rewrite IB, C. by destruct (taken _ _ _ _).
    + cbn [owed]. rewrite IO, andb_false_l. destruct (s2c_rq_tag_s (state t) =? Z.of_nat (Z.to_nat w)) eqn:E.
      * apply Z.eqb_eq, firstFree_free in E; [by rewrite E in IB | lia].
      * by rewrite andb_false_r.
Qed.

Lemma never_ends t : end_of_operation (state t) = false.
Proof.
  destruct (states_at t) as (S1 & S2 & S3). unfold end_of_operation.
  destruct (wr_state (state t)) eqn:E; try done.
  - apply bool_decide_eq_false. intros [P | P]; by apply S2 in P.
  - assert (t2 < t)%nat as Ht by (apply Nat.nle_gt; intros L; by specialize (S3 L)).
    destruct (grows_window t1 t2 G) as [Hw Hd]. destruct (grows_times t1 t2 G).
    destruct (stuck t ltac:(lia)) as [B _]. apply not_true_iff_false. intros Hi.
    unfold tags_idle in Hi. rewrite mask_at, forallb_forall in Hi by lia.
    specialize (Hi (true, true)). apply diff_true_false. symmetry. apply Hi. apply list_elem_of_In, list_elem_of_lookup.
    exists (Z.to_nat w). rewrite lookup_zip_with. unfold dec2mask.
    rewrite list_lookup_fmap, lookup_seq_lt by lia. cbn -[Z.ltb].
    destruct (lookup_lt_is_Some_2 (current_tags_r (r_tags (state t))) (Z.to_nat w)) as [b Hb];
      [rewrite tags_length_at; lia|].
    rewrite Hb. cbn. rewrite Z2Nat.id, (proj2 (Z.ltb_lt _ _)) by lia. f_equal. f_equal.
    unfold busy in B. by rewrite (nth_lookup_Some _ _ _ b Hb) in B.
Qed.

End Growing.

(** C39.  A window that grows without a reset hangs the engine.  After any time with a window of [w]
    tags, and then with a larger one, an operation of reads never ends, although every
    request is accepted and answered. *)
Theorem growing_window_hangs d w ins t1 t2 t :
  grows d w ins t1 t2 -> honest ins -> end_of_operation (rq_at ins rq_reset t) = false.
Proof. intros G H. by apply (never_ends d w ins t1 t2). Qed.

(** ** On a link

    Three TLPs of a request of 600 bytes, of 512, 88 and 512 bytes, in a buffer of two
    pages. *)
Definition read_600 (window : Z) : shown := Shown true 2 (Placement 0x100000 600 8192 0) 3 window.

Definition on_link (d : shown) (tags : list bool) : rq_in := RqIn d true false 0 tags false 0 0.

Lemma read_600_op : read_op (read_600 2).
Proof. by split. Qed.

Lemma read_600_roomy : roomy (PLACEMENT (read_600 2)) (address_mode_s (read_600 2)).
Proof. split; [done | done | by exists 13 | done | done]. Qed.

Lemma reset_at_rest d : at_rest d rq_reset.
Proof.
  split; try done. intros j _. unfold busy. cbn [rq_reset r_tags current_tags_r].
  by do 24 (destruct j as [|j]; [done|]); destruct j.
Qed.

Definition quiet_link : list rq_in := repeat (on_link (quiet (read_600 2)) []) 7.
Definition read_link : list rq_in := repeat (on_link (read_600 2) (window_bits true)) 5.

Lemma read_requests_witness :
  let s1 := rq_run quiet_link rq_reset in
  let out := gathered accepted read_link s1 ++ pending (rq_run read_link s1) in
  Z.of_nat (length out) = 3 /\ asked_bytes out = 1112.
Proof.
  cbv zeta. destruct (read_requests (read_600 2) rq_reset quiet_link read_link read_600_op read_600_roomy
    (reset_at_rest _)) as (_ & _ & E).
  - cbn. lia.
  - by repeat constructor.
  - by repeat constructor.
  - destruct E as (E1 & _ & E3); [by vm_compute|]. split; [exact E1|]. rewrite E3. by vm_compute.
Defined.

Lemma reads_end_witness :
  exists t, end_of_operation (rq_at (fun _ => on_link (read_600 2) (window_bits true))
    (rq_run quiet_link rq_reset) t) = true.
Proof.
  apply (reads_end (read_600 2) rq_reset quiet_link); [exact read_600_op | exact read_600_roomy | apply reset_at_rest
    | cbn; lia | by repeat constructor | done |].
  split.
  - intros t. by exists t.
  - intros t j Hj _. exists t. split; [done|]. unfold completed. cbn [q_completed on_link].
    change (window_of (read_600 2)) with 2 in Hj. by do 2 (destruct j as [|j]; [done|]); lia.
Defined.

(** A window of one tag and then of two: the first request is answered, the second never
    gets the tag that is free in the window. *)
Definition grown_link (t : nat) : rq_in :=
  if (t <? 1)%nat then on_link (quiet (with_window (read_600 2) 1)) []
  else if (t <? 3)%nat then on_link (quiet (read_600 2)) []
  else on_link (read_600 2) (if (t =? 6)%nat then [true] else []).

Lemma growing_window_hangs_witness :
  end_of_operation (rq_at grown_link rq_reset 1000) = false.
Proof.
  apply (growing_window_hangs (read_600 2) 1 grown_link 1 3).
  - split; [lia | done | done | | |]; intros t Ht; unfold grown_link.
    + by rewrite (proj2 (Nat.ltb_lt _ _)).
    + by rewrite (proj2 (Nat.ltb_ge _ _)), (proj2 (Nat.ltb_lt _ _)) by lia.
    + by rewrite !(proj2 (Nat.ltb_ge _ _)) by lia.
  - intros t j. unfold completed, grown_link.
    destruct (Nat.ltb_spec t 1); [by destruct j|]. destruct (Nat.ltb_spec t 3); [by destruct j|].
    destruct (Nat.eqb_spec t 6) as [->|]; [|by destruct j]. by destruct j as [|[|j]]; vm_compute.
Defined.
