(* ===== verification/ReadLatency.v ===== *)
(** * The latency that the benchmark prints (dma_rq_logic.v)

    The latency test prints TIME_AT_COMP.  For a read of one TLP it is the time of one
    request: the cycles from the one that issues it to the one in which its tag is
    completed ([time_of_one_read]).  For more, it is not the time of the last answer: the
    tags after the first are never marked (Requester.later_latency_tags_unset), and the
    count stops with the first tag ([time_stops_early]). *)

From S2P Require Import Prelude BenchArgs BenchMain EngineManager DeviceDma Completer CardBus AddressGen Requester.
From S2P Require Import TlpGroups RequesterReads.
From Stdlib Require Import ZArith Lia.
From stdpp Require Import base list.
Local Open Scope Z_scope.

(** ** The marks of the tags *)

Definition marked (s : requester) : bool := nth 0 (latency_tags_r (r_tags s)) false.

(** No tag but the first is marked. *)
Record first_marks (s : requester) : Prop := {
  marks_length : length (latency_tags_r (r_tags s)) = Z.to_nat C_WINDOW_SIZE;
  marks_later j : (0 < j)%nat -> nth j (latency_tags_r (r_tags s)) false = false
}.

Lemma marks_step i s :
  first_marks s -> first_marks (rq_step i s) /\ marked (rq_step i s) = next_latency_tag i s 0 (marked s).
Proof.
  intros [H1 H2]. assert (forall j, (j < Z.to_nat C_WINDOW_SIZE)%nat ->
    nth j (latency_tags_r (r_tags (rq_step i s))) false =
    next_latency_tag i s j (nth j (latency_tags_r (r_tags s)) false)) as Hj.
  { intros j Hj. rewrite <- H1 in Hj. destruct (lookup_lt_is_Some_2 _ _ Hj) as [b Hb].
    rewrite (nth_lookup_Some _ _ _ b Hb). apply nth_lookup_Some. cbn. by rewrite list_lookup_imap, Hb. }
  split; [split|].
  - cbn. by rewrite length_imap.
  - intros j Hp. destruct (decide (j < Z.to_nat C_WINDOW_SIZE)%nat) as [L|L].
    + rewrite Hj, H2 by done. apply later_latency_tags_unset. lia.
    + apply nth_overflow. cbn. rewrite length_imap. lia.
  - apply Hj. unfold C_WINDOW_SIZE. lia.
Qed.

Lemma any_marked s : first_marks s -> existsb id (latency_tags_r (r_tags s)) = marked s.
Proof.
  intros [_ H]. unfold marked. destruct (latency_tags_r (r_tags s)) as [|b l]; [done|]. cbn [existsb nth].
  assert (existsb id l = false) as ->; [|by destruct b].
  apply not_true_iff_false. rewrite existsb_exists. intros (x & Hx & E).
  apply list_elem_of_In, list_elem_of_lookup in Hx as [k Hk]. specialize (H (S k) ltac:(lia)). cbn [nth] in H.
  rewrite (nth_lookup_Some _ _ _ x Hk) in H. by rewrite H in E.
Qed.

(** Nothing is marked, and the clock stands. *)
Definition unmeasured (s : requester) : Prop :=
  first_marks s /\ marked s = false /\ stop_latency (r_meter s) = true.

Lemma unmeasured_run d qs s :
  read_op d -> Forall (held (quiet d)) qs -> at_rest d s -> unmeasured s -> unmeasured (rq_run qs s).
Proof.
  intros op H. revert s. induction H as [|i qs Hi H IH]; intros s Hs (M1 & M2 & M3); [done|].
  apply IH; [by apply (quiet_step d op)|]. destruct (marks_step i s M1) as [N1 N2]. split_and!; [done | |].
  - rewrite N2, M2. unfold next_latency_tag, issuing. by rewrite (rest_state d s Hs), bool_decide_false.
  - cbn [rq_step r_meter]. unfold next_meter, measured_start. rewrite M3, (rest_state d s Hs), andb_false_r.
    cbn [stop_latency]. by destruct (end_of_operation s).
Qed.

(** ** One read *)

Section Single.
Context (d : shown) (op : read_op d) (room : roomy (PLACEMENT d) (address_mode_s d)).

(** One TLP. *)
Context (single : size_of d <= 512 /\ NUMBER_TLPS d <= 1).

Lemma single_reads : n_reads d = 1.
Proof. unfold n_reads. lia. Qed.

Lemma single_group : group d = 1.
Proof.
  destruct (read_groups d op) as (G1 & G2 & G3). rewrite (group_is d op).
  destruct (group_of_eq H2D 9 (size_of d) G1 G2) as [-> _]. change (2 ^ 9) with 512.
  symmetry. apply (Z.div_unique_pos _ _ _ (size_of d - 1)); lia.
Qed.

Context (ins : nat -> rq_in) (s0 : requester).
Context (Hh : forall t, held d (ins t)) (Hp : prepared d s0) (Hr : ready s0) (Hz : at_rest d s0).
Context (Hm : first_marks s0) (Hu : marked s0 = false) (Hs : stop_latency (r_meter s0) = true).

Abbreviation at_time := (rq_at ins s0).

Lemma marks_at t : first_marks (at_time t).
Proof. induction t as [|t IH]; [done|]. by apply marks_step. Qed.

(** Before the request: nothing is busy or marked. *)
Lemma before_request t :
  (forall u, (u < t)%nat -> ~ starts_at ins s0 u) ->
  (ready (at_time t) \/ reading d 0 (at_time t)) /\ (forall j, Z.of_nat j < window_of d -> busy (at_time t) j = false) /\
  marked (at_time t) = false /\ stop_latency (r_meter (at_time t)) = true.
Proof.
  intros Hn. split; [by apply (unstarted d op room)|].
  induction t as [|t IH]; [split_and!; [apply Hz | done | done]|].
  destruct IH as (I1 & I2 & I3); [intros u Hlt; apply Hn; lia|].
  pose proof (unstarted d op room ins s0 Hh Hp t Hr ltac:(intros u Hlt; apply Hn; lia)) as Ph.
  assert (issuing (ins t) (at_time t) = false) as Hi.
  { unfold issuing. destruct Ph as [R | R]; [by rewrite bool_decide_false by by rewrite (proj1 R)|].
    apply andb_false_intro2, not_true_iff_false. intros Q. apply (Hn t ltac:(lia)).
    apply (measured_iff d op ins s0 Hh); [by rewrite (reading_state d 0 _ R) | split; [apply R | done]]. }
  split_and!.
  - intros j Hj. cbn [rq_at]. destruct (tag_step d (ins t) _ j (steady_at d room ins s0 Hh Hp t) (Hh t)
      (window_small d op j Hj) Hj) as [_ T]. rewrite T, (I1 j Hj); [done|].
    intros [T' _]. unfold tlp_read in T'. unfold issuing in Hi. destruct (wr_state (at_time t)); try done.
    rewrite bool_decide_true, andb_true_l in Hi by done. by rewrite Hi, andb_false_r in T'.
  - cbn [rq_at]. rewrite (proj2 (marks_step (ins t) _ (marks_at t))), I2. unfold next_latency_tag. by rewrite Hi.
  - cbn [rq_at rq_step r_meter]. unfold next_meter. rewrite I3. cbn [stop_latency].
    assert (measured_start (ins t) (at_time t) = false) as -> by by apply not_true_iff_false, Hn; lia.
    by destruct (end_of_operation (at_time t)).
Qed.

(** The request is out, and its tag is not completed: [a] is the cycle that issued it. *)
Record asking (a t : nat) : Prop := {
  asking_state : waiting (at_time t);
  asking_tags j : Z.of_nat j < window_of d -> busy (at_time t) j = (j =? 0)%nat;
  asking_mark : marked (at_time t) = true;
  asking_clock : stop_latency (r_meter (at_time t)) = false;
  asking_time : time_comp_r (r_meter (at_time t)) = u64 (Z.of_nat t - Z.of_nat a - 1);
  asking_place : mem_rd_current_tlp_r (r_progress (at_time t)) = 2 /\
    mem_rd_current_tlp_modulus_r (r_progress (at_time t)) = 1
}.

(** Its tag has been completed in the cycle before. *)
Record answered_at (a t : nat) : Prop := {
  answered_end : end_of_operation (at_time t) = true;
  answered_mark : marked (at_time t) = false;
  answered_clock : stop_latency (r_meter (at_time t)) = false;
  answered_time : time_comp_r (r_meter (at_time t)) = u64 (Z.of_nat t - Z.of_nat a - 1);
  answered_place : mem_rd_current_tlp_r (r_progress (at_time t)) = 2 /\
    mem_rd_current_tlp_modulus_r (r_progress (at_time t)) = 1
}.

Lemma request_out a : first_start ins s0 a -> asking a (S a).
Proof.
  intros [S1 S2]. destruct (before_request a S2) as ([R | R] & B & M & C).
  { unfold starts_at, measured_start in S1. by rewrite (proj1 R), andb_false_r in S1. }
  assert (could_send ins s0 a) as [C1 C2].
  { apply (measured_iff d op ins s0 Hh); [by rewrite (reading_state d 0 _ R) | done]. }
  pose proof (steady_at d room ins s0 Hh Hp a) as Sd. pose proof (op_window d op) as [W1 W2].
  assert (first_free (at_time a) 0) as F0 by (split; [apply B; lia | lia]).
  assert (tlp_read (at_time a) (ins a) = true) as T.
  { unfold tlp_read. rewrite C1, C2, andb_true_r. apply (tag_free_iff d _ Sd). exists 0%nat.
    split_and!; [unfold C_WINDOW_SIZE; lia | lia | apply F0]. }
  pose proof (reading_next d op room (ins a) _ 0 (Hh a) (prepared_at d room ins s0 Hh Hp a) R T) as N.
  rewrite single_reads in N. cbn in N. split; [exact N | | | | |].
  - intros j Hj. destruct (tag_step d (ins a) _ j Sd (Hh a) (window_small d op j Hj) Hj) as [T1 T2].
    cbn [rq_at]. destruct (Nat.eqb_spec j 0) as [->|Hn]; [by apply T1|]. rewrite T2, (B j Hj); [done|].
    intros [_ F]. by apply Hn, (first_free_unique (at_time a)).
  - cbn [rq_at]. rewrite (proj2 (marks_step (ins a) _ (marks_at a))), M. unfold next_latency_tag.
    unfold issuing, in_window. pose proof (Hh a) as Hd. red in Hd. rewrite C1, C2, Hd, bool_decide_true by done.
    change (bits 7 0 (CURRENT_WINDOW_SIZE d)) with (window_of d). rewrite (proj2 (Z.ltb_lt _ _)) by lia.
    by rewrite (reading_tlp d 0 _ R), (reading_mod d 0 _ R), Z.mod_0_l by (rewrite single_group; lia).
  - cbn [rq_at rq_step r_meter]. unfold next_meter. rewrite C. cbn [stop_latency]. by rewrite S1.
  - cbn [rq_at rq_step r_meter]. unfold next_meter. rewrite C. cbn [time_comp_r].
    by replace (Z.of_nat (S a) - Z.of_nat a - 1) with 0 by lia.
  - cbn [rq_at rq_step r_progress]. unfold next_progress. rewrite C1, T, (group_ends d _ 0 Sd R).
    pose proof (reading_tlp d 0 _ R) as P1. pose proof (reading_mod d 0 _ R) as P2.
    rewrite single_group in *. destruct (r_progress (at_time a)). progress_cbn. by rewrite P1.
Qed.

Lemma asking_no_end a t : asking a t -> end_of_operation (at_time t) = false.
Proof.
  intros A. unfold end_of_operation. rewrite (asking_state a t A). apply not_true_iff_false. intros I.
  pose proof (op_window d op) as [W1 W2].
  apply (tags_idle_iff d _ (steady_at d room ins s0 Hh Hp t)) with (j := 0%nat) in I; [|unfold C_WINDOW_SIZE; lia | lia].
  by rewrite (asking_tags a t A) in I by lia.
Qed.

Lemma asking_step a t :
  (a < t)%nat -> asking a t ->
  if completed (ins t) 0 then answered_at a (S t) else asking a (S t) /\ end_of_operation (at_time t) = false.
Proof.
  intros Ha A. pose proof (asking_no_end a t A) as He. destruct A as [A1 A2 A3 A4 A5 [A6 A7]]. pose proof (steady_at d room ins s0 Hh Hp t) as Sd.
  pose proof (op_window d op) as [W1 W2]. red in A1.
  assert (forall j, Z.of_nat j < window_of d -> busy (at_time (S t)) j = (j =? 0)%nat && negb (completed (ins t) j)) as B.
  { intros j Hj. rewrite <- (A2 j Hj). apply (tag_step d (ins t) _ j Sd (Hh t) (window_small d op j Hj) Hj).
    unfold tlp_read. rewrite A1. by intros [? _]. }
  assert (marked (at_time (S t)) = negb (completed (ins t) 0)) as M.
  { cbn [rq_at]. rewrite (proj2 (marks_step (ins t) _ (marks_at t))), A3. unfold next_latency_tag, issuing.
    rewrite A1, bool_decide_false by done. done. }
  assert (stop_latency (r_meter (at_time (S t))) = false) as C.
  { cbn [rq_at rq_step r_meter]. unfold next_meter. rewrite A4, He. cbn [stop_latency].
    by destruct (measured_start (ins t) (at_time t)). }
  assert (time_comp_r (r_meter (at_time (S t))) = u64 (Z.of_nat (S t) - Z.of_nat a - 1)) as T.
  { cbn [rq_at rq_step r_meter]. unfold next_meter. rewrite A4. cbn [time_comp_r]. pose proof (Hh t) as Hd. red in Hd.
    rewrite Hd, (op_reads d op), any_marked, A3, orb_true_r, A5, wrap_add_l by apply marks_at. f_equal. lia. }
  assert (r_progress (at_time (S t)) = r_progress (at_time t)) as P.
  { cbn [rq_at rq_step r_progress]. unfold next_progress. rewrite A1. by destruct (r_progress (at_time t)). }
  pose proof (waiting_step d (ins t) _ (Hh t) A1) as N. rewrite He in N.
  destruct (completed (ins t) 0) eqn:E; [|split; [|done]].
  - split; try done; [|by rewrite P]. unfold end_of_operation. cbn [rq_at]. rewrite N.
    apply (tags_idle_iff d _ (steady_at d room ins s0 Hh Hp (S t))). intros j _ Hj. rewrite (B j Hj).
    destruct (Nat.eqb_spec j 0) as [->|]; [by rewrite E | done].
  - split; try done; [|by rewrite P]. intros j Hj. rewrite (B j Hj).
    destruct (Nat.eqb_spec j 0) as [->|]; [by rewrite E | done].
Qed.

Lemma asked_until a t :
  first_start ins s0 a -> (a < t)%nat -> (forall u, (a < u < t)%nat -> completed (ins u) 0 = false) ->
  asking a t /\ forall u, (u < t)%nat -> end_of_operation (at_time u) = false.
Proof.
  intros Ha Hlt Hn. induction t as [|t IH]; [lia|]. destruct (decide (t = a)) as [->|Ht].
  - split; [by apply request_out|]. intros u Lu. apply not_true_iff_false. intros E.
    destruct (before_request u) as [Ph _]; [intros v Hv; apply Ha; lia|].
    assert (phase d 0 (at_time u)) as P by (destruct Ph; [by left | by right; left]).
    destruct (phase_ends d _ _ P E) as [_ Hz0]. by rewrite single_reads in Hz0.
  - destruct IH as [A E]; [lia | intros u Lu; apply Hn; lia|].
    pose proof (asking_step a t ltac:(lia) A) as S. rewrite Hn in S by lia. destruct S as [S1 S2].
    split; [done|]. intros u Lu. destruct (decide (u = t)) as [->|]; [done | apply E; lia].
Qed.

(** The cycle after the completion is the end, and the times are stored in the next. *)
Lemma times_at a c :
  first_start ins s0 a -> (a < c)%nat -> completed (ins c) 0 = true ->
  (forall u, (a < u < c)%nat -> completed (ins u) 0 = false) ->
  let m := r_meter (at_time (S (S c))) in
  end_of_operation (at_time (S c)) = true /\
  (forall u, (u <= c)%nat -> end_of_operation (at_time u) = false) /\
  time_comp_r m = u64 (Z.of_nat c - Z.of_nat a) /\
  current_latency_r m = u64 (Z.of_nat c + 1 - Z.of_nat a).
Proof.
  intros Ha Hlt Hc Hn. cbv zeta. destruct (asked_until a c Ha Hlt Hn) as [A E].
  pose proof (asking_no_end a c A) as Ec.
  assert (forall u, (u <= c)%nat -> end_of_operation (at_time u) = false) as E'.
  { intros u Lu. destruct (decide (u = c)) as [->|]; [done | apply E; lia]. }
  pose proof (asking_step a c Hlt A) as B. rewrite Hc in B. destruct B as [B1 B2 B3 B4 [B5 B6]].
  split_and!; try done.
  - change (at_time (S (S c))) with (rq_step (ins (S c)) (at_time (S c))). cbn [rq_step r_meter]. unfold next_meter.
    rewrite B3. cbn [time_comp_r].
    pose proof (Hh (S c)) as Hd. red in Hd. rewrite Hd, (op_reads d op), (any_marked _ (marks_at (S c))).
    rewrite B5, B6, B2, B4. f_equal. lia.
  - destruct (clock_at ins s0 (S c) Hs) as [C | (a' & C)]; [intros u Lu; apply E'; lia | |].
    + by destruct (proj2 C a ltac:(lia)); apply Ha.
    + rewrite (clock_read ins s0 a' (S c) C). replace a' with a; [f_equal; lia|].
      destruct C as ([C1 C2] & _), Ha as [H1 H2]. destruct (Nat.lt_trichotomy a a') as [L | [L | L]]; [|done|].
      * by destruct (C2 a L).
      * by destruct (H2 a' L).
Qed.
End Single.

(** ** Theorem *)

(** C14.  What the latency test prints for a read of one TLP.  From a machine at rest, with
    nothing marked, that is shown the configuration for seven cycles: if [a] is the first
    cycle in which the request can be sent, and [c] is the first one after it that
    completes tag 0, the operation ends in cycle [c + 1], and not before; TIME_AT_COMP, the
    word that is printed, is then [c - a], the time from the request to its last answer,
    and the latency of the operation is one more. *)
Theorem time_of_one_read d s quiets ins a c :
  read_op d -> roomy (PLACEMENT d) (address_mode_s d) -> size_of d <= 512 /\ NUMBER_TLPS d <= 1 ->
  at_rest d s -> unmeasured s -> (7 <= length quiets)%nat -> Forall (held (quiet d)) quiets ->
  (forall t, held d (ins t)) ->
  let s1 := rq_run quiets s in
  let m := r_meter (rq_at ins s1 (S (S c))) in
  first_start ins s1 a -> (a < c)%nat -> completed (ins c) 0 = true ->
  (forall u, (a < u < c)%nat -> completed (ins u) 0 = false) ->
  end_of_operation (rq_at ins s1 (S c)) = true /\
  (forall u, (u <= c)%nat -> end_of_operation (rq_at ins s1 u) = false) /\
  time_comp_r m = u64 (Z.of_nat c - Z.of_nat a) /\
  current_latency_r m = u64 (Z.of_nat c + 1 - Z.of_nat a).
Proof.
  intros op room single Hr Hm Hl Hq Hh. cbv zeta.
  destruct (rest_prepared d op room quiets s Hq Hl Hr) as (Hp & Hy & Hr1).
  destruct (unmeasured_run d quiets s op Hq Hr Hm) as (M1 & M2 & M3). intros. by apply (times_at d).
Qed.

(** *** On a link

    A request of 64 bytes, whose tag is completed ten cycles after it could be sent. *)
Definition read_64 : shown := Shown true 2 (Placement 0x100000 64 8192 0) 1 1.

Definition one_answer (t : nat) : rq_in := on_link read_64 (if (t =? 11)%nat then [true] else []).

Lemma reset_unmeasured : unmeasured rq_reset.
Proof.
  split_and!; [|done | done]. split; [done|]. intros j _. cbn [rq_reset r_tags latency_tags_r].
  by do 24 (destruct j as [|j]; [done|]); destruct j.
Qed.

Lemma time_of_one_read_witness :
  let s1 := rq_run (repeat (on_link (quiet read_64) []) 7) rq_reset in
  time_comp_r (r_meter (rq_at one_answer s1 13)) = 10 /\ current_latency_r (r_meter (rq_at one_answer s1 13)) = 11.
Proof.
  cbv zeta. destruct (time_of_one_read read_64 rq_reset (repeat (on_link (quiet read_64) []) 7) one_answer 1 11)
    as (_ & _ & T & L).
  - by split.
  - split; [done | done | by exists 13 | done | done].
  - by split.
  - apply reset_at_rest.
  - exact reset_unmeasured.
  - cbn. lia.
  - by repeat constructor.
  - done.
  - split; [by vm_compute|]. intros [|u] Hu; [by vm_compute | lia].
  - lia.
  - done.
  - intros u Hu. unfold completed, one_answer. rewrite (proj2 (Nat.eqb_neq u 11)) by lia. done.
  - rewrite T, L. by split.
Defined.

(** ** More than one TLP

    Two requests, in cycles 1 and 2.  Tag 0 is completed in cycle 6 and tag 1 in cycle 30:
    the operation ends in cycle 31, and TIME_AT_COMP has stopped with tag 0. *)
Definition two_reads : shown := Shown true 2 (Placement 0x100000 1024 8192 0) 2 2.

Definition two_answers (t : nat) : rq_in :=
  on_link two_reads (if (t =? 6)%nat then [true; false] else if (t =? 30)%nat then [false; true] else []).

Example time_stops_early :
  let s1 := rq_run (repeat (on_link (quiet two_reads) []) 7) rq_reset in
  let s2 := rq_at two_answers s1 31 in
  let m := r_meter (rq_at two_answers s1 32) in
  end_of_operation s2 = true /\ current_latency_r m = 30 /\ time_comp_r m = 5.
Proof. vm_compute. by split_and!. Qed.
