(* ===== verification/C2sBuffer.v ===== *)
(** * The buffer of the words to write (dma_rq_logic.v, lines 150 to 202)

    Between the application and the write requests there is a buffer of 16 words of 128
    bits, with pointers of five bits.  Seen through the words between its pointers it is a
    queue: what is taken are the words that were put in, in that order, each once
    ([buffer_is_queue]); it never holds more than 14, since two are only let in with 12 at
    most. *)

From S2P Require Import Prelude EngineManager DeviceDma Completer CardBus AddressGen Requester.
From Stdlib Require Import ZArith Lia.
From stdpp Require Import base list.
Local Open Scope Z_scope.

(** The words between the pointers, the oldest first. *)
Definition queued (s : requester) : list Z :=
  map (fun k => buffered s (Z.of_nat k)) (seq 0 (Z.to_nat (c2s_buf_occupancy s))).

(** The words that come in with a cycle, and those that a request takes. *)
Definition stored (i : rq_in) (s : requester) : list Z :=
  if q_c2s_tvalid i && c2s_fifo_tready_s s then
    bits 127 0 (q_c2s_tdata i) ::
    if Z.testbit (q_c2s_tkeep i) 16 then [bits 255 128 (q_c2s_tdata i)] else []
  else [].

Definition removed (i : rq_in) (s : requester) : list Z :=
  take (Z.to_nat (words_taken i s)) (queued s).

Record buffer_ok (s : requester) : Prop := {
  buffer_length : length (c2s_buffer (r_fifo s)) = 16%nat;
  buffer_occupancy : c2s_buf_occupancy s <= 14
}.

Lemma occupancy_bounds s : 0 <= c2s_buf_occupancy s < 32.
Proof. apply Z.mod_pos_bound. lia. Qed.

Lemma occupancy_1 s : one_word_at_buffer_s s = true <-> 1 <= c2s_buf_occupancy s.
Proof.
  unfold one_word_at_buffer_s. pose proof (occupancy_bounds s).
  destruct (Z.eqb_spec (c2s_buf_occupancy s) 0); cbn; split; done || lia.
Qed.

Lemma occupancy_2 s : two_words_at_buffer_s s = true <-> 2 <= c2s_buf_occupancy s.
Proof.
  unfold two_words_at_buffer_s, bits. pose proof (occupancy_bounds s) as B. change (2 ^ 1) with 2. change (2 ^ (4 - 1 + 1)) with 16.
  rewrite Z.mod_small by (split; [apply Z.div_pos; lia | apply Z.div_lt_upper_bound; lia]).
  destruct (Z.eqb_spec (c2s_buf_occupancy s / 2) 0) as [E|E]; cbn; split; try done; revert E; Z.to_euclidean_division_equations; lia.
Qed.

(** A request never takes a word that is not there. *)
Lemma taken_bounds i s : 0 <= words_taken i s <= Z.min 2 (c2s_buf_occupancy s).
Proof.
  pose proof (occupancy_bounds s). pose proof (proj1 (occupancy_1 s)). pose proof (proj1 (occupancy_2 s)).
  unfold words_taken.
  destruct (q_tready i), (wr_state s), (one_word_at_buffer_s s), (last_word_at_tlp_s s), (two_words_at_buffer_s s);
    cbn [andb]; lia.
Qed.

Lemma queued_length s : length (queued s) = Z.to_nat (c2s_buf_occupancy s).
Proof. unfold queued. by rewrite length_map, length_seq. Qed.

(** The count of words after an edge. *)
Lemma occupancy_step i s :
  c2s_buf_occupancy s <= 14 ->
  c2s_buf_occupancy (rq_step i s) = c2s_buf_occupancy s - words_taken i s + Z.of_nat (length (stored i s)) /\
  c2s_buf_occupancy (rq_step i s) <= 14.
Proof.
  intros Ho. pose proof (occupancy_bounds s) as B. pose proof (taken_bounds i s) as T.
  assert (c2s_buf_occupancy (rq_step i s) =
    (c2s_buf_occupancy s - words_taken i s + Z.of_nat (length (stored i s))) mod 2 ^ 5) as E.
  { unfold c2s_buf_occupancy. cbn [rq_step r_fifo]. unfold next_fifo, stored.
    destruct (q_c2s_tvalid i && c2s_fifo_tready_s s); cbn [c2s_buf_wr_ptr c2s_buf_rd_ptr length].
    - rewrite <- Zminus_mod_idemp_l, <- Zminus_mod_idemp_r, !Zmod_mod, Zminus_mod_idemp_l, Zminus_mod_idemp_r.
      rewrite <- Zplus_mod_idemp_l, Zminus_mod_idemp_l, Zplus_mod_idemp_l.
      f_equal. destruct (Z.testbit (q_c2s_tkeep i) 16); cbn [length]; lia.
    - rewrite Zminus_mod_idemp_r, Z.add_0_r. rewrite Zminus_mod_idemp_l. f_equal. lia. }
  assert (stored i s <> [] -> c2s_buf_occupancy s <= 12) as R.
  { unfold stored, c2s_fifo_tready_s. destruct (Z.leb_spec (c2s_buf_occupancy s) 12); [lia|]. by rewrite andb_false_r. }
  assert (length (stored i s) <= 2)%nat as L.
  { unfold stored. by repeat case_match; cbn; lia. }
  assert (c2s_buf_occupancy s - words_taken i s + Z.of_nat (length (stored i s)) <= 14).
  { destruct (stored i s) eqn:S; [cbn in *; lia|]. assert (c2s_buf_occupancy s <= 12) by by apply R. cbn in *; lia. }
  rewrite E, Z.mod_small by lia. lia.
Qed.

(** A place in the buffer, counted from the word that is next. *)
Definition place (s : requester) (k : Z) : nat := trunc (c2s_buf_rd_ptr (r_fifo s) + k).

Lemma trunc_eq a b : trunc a = trunc b <-> a mod 16 = b mod 16.
Proof.
  unfold trunc. change (2 ^ 4) with 16. pose proof (Z.mod_pos_bound a 16 ltac:(lia)).
  pose proof (Z.mod_pos_bound b 16 ltac:(lia)). lia.
Qed.

Lemma trunc_lt a : (trunc a < 16)%nat.
Proof. unfold trunc. change (2 ^ 4) with 16. pose proof (Z.mod_pos_bound a 16 ltac:(lia)). lia. Qed.

Lemma mod_32_16 a b : (a mod 2 ^ 5 + b) mod 16 = (a + b) mod 16.
Proof. rewrite (Z.mod_eq a) by lia. change (2 ^ 5) with 32. Z.to_euclidean_division_equations. lia. Qed.

(** The words that come in go to the places after those that are held. *)
Lemma write_place s k : trunc (c2s_buf_wr_ptr (r_fifo s) + k) = place s (c2s_buf_occupancy s + k).
Proof.
  apply trunc_eq. unfold c2s_buf_occupancy.
  replace (c2s_buf_rd_ptr (r_fifo s) + ((c2s_buf_wr_ptr (r_fifo s) - c2s_buf_rd_ptr (r_fifo s)) mod 2 ^ 5 + k))
    with ((c2s_buf_wr_ptr (r_fifo s) - c2s_buf_rd_ptr (r_fifo s)) mod 2 ^ 5 + (c2s_buf_rd_ptr (r_fifo s) + k)) by lia.
  rewrite mod_32_16. f_equal. lia.
Qed.

Lemma place_eq s a b : 0 <= a - b < 16 -> place s a = place s b -> a = b.
Proof.
  intros H E%trunc_eq. revert E. generalize (c2s_buf_rd_ptr (r_fifo s)). intros r E.
  revert E. Z.to_euclidean_division_equations. lia.
Qed.

Lemma buffered_step i s k :
  buffered (rq_step i s) k = nth (place s (words_taken i s + k)) (c2s_buffer (r_fifo (rq_step i s))) 0.
Proof.
  unfold buffered. f_equal. apply trunc_eq. cbn [rq_step r_fifo]. unfold next_fifo.
  destruct (q_c2s_tvalid i && c2s_fifo_tready_s s); cbn [c2s_buf_rd_ptr]; rewrite mod_32_16; f_equal; lia.
Qed.

(** A word that is held stays, and those that come in are after it. *)
Lemma buffered_kept i s k :
  0 <= k -> words_taken i s + k < c2s_buf_occupancy s ->
  buffered (rq_step i s) k = buffered s (words_taken i s + k).
Proof.
  intros H1 H2. rewrite buffered_step. unfold buffered. fold (place s (words_taken i s + k)).
  cbn [rq_step r_fifo]. unfold next_fifo. pose proof (taken_bounds i s) as T.
  destruct (q_c2s_tvalid i && c2s_fifo_tready_s s) eqn:V; cbn [c2s_buffer]; [|done].
  assert (c2s_buf_occupancy s <= 12) as Ho.
  { apply andb_true_iff in V as [_ V]. by apply Z.leb_le in V. }
  assert (forall e, 0 <= e <= 1 -> trunc (c2s_buf_wr_ptr (r_fifo s) + e) <> place s (words_taken i s + k)) as Hne.
  { intros e He. rewrite write_place. intros E%place_eq; lia. }
  pose proof (Hne 0 ltac:(lia)) as N0. rewrite Z.add_0_r in N0.
  rewrite !nth_lookup, !list_lookup_insert_ne by (done || by apply Hne). done.
Qed.

Lemma buffered_new i s k :
  buffer_ok s -> (k < length (stored i s))%nat ->
  Some (buffered (rq_step i s) (c2s_buf_occupancy s - words_taken i s + Z.of_nat k)) = stored i s !! k.
Proof.
  intros [H1 H2] Hk. rewrite buffered_step.
  replace (words_taken i s + (c2s_buf_occupancy s - words_taken i s + Z.of_nat k))
    with (c2s_buf_occupancy s + Z.of_nat k) by lia.
  rewrite <- write_place. cbn [rq_step r_fifo]. unfold next_fifo, stored in *.
  destruct (q_c2s_tvalid i && c2s_fifo_tready_s s); [|cbn in Hk; lia]. cbn [c2s_buffer].
  pose proof (trunc_lt (c2s_buf_wr_ptr (r_fifo s))) as L0. pose proof (trunc_lt (c2s_buf_wr_ptr (r_fifo s) + 1)) as L1.
  assert (trunc (c2s_buf_wr_ptr (r_fifo s) + 1) <> trunc (c2s_buf_wr_ptr (r_fifo s))) as N.
  { intros E%trunc_eq. revert E. Z.to_euclidean_division_equations. lia. }
  rewrite nth_lookup. destruct k as [|[|k]].
  - rewrite Z.add_0_r, list_lookup_insert_ne, list_lookup_insert_eq; [done | by rewrite H1 | done].
  - destruct (Z.testbit (q_c2s_tkeep i) 16); [|cbn in Hk; lia].
    rewrite list_lookup_insert_eq; [done | by rewrite length_insert, H1].
  - destruct (Z.testbit (q_c2s_tkeep i) 16); cbn in Hk; lia.
Qed.

(** An edge: what comes in goes to the end of the queue, what is taken was at its front. *)
Lemma queue_step i s :
  buffer_ok s ->
  buffer_ok (rq_step i s) /\ queued s ++ stored i s = removed i s ++ queued (rq_step i s).
Proof.
  intros Hb. pose proof Hb as [H1 H2]. destruct (occupancy_step i s H2) as [O1 O2].
  split.
  - split; [|done]. cbn [rq_step r_fifo]. unfold next_fifo.
    destruct (_ && _); cbn [c2s_buffer]; by rewrite ?length_insert.
  - pose proof (taken_bounds i s) as T. pose proof (occupancy_bounds s) as B.
    rewrite <- (take_drop (Z.to_nat (words_taken i s)) (queued s)) at 1. rewrite <- app_assoc. unfold removed. f_equal.
    apply list_eq_same_length with (n := Z.to_nat (c2s_buf_occupancy (rq_step i s))).
    + by rewrite queued_length.
    + rewrite length_app, length_drop, queued_length, O1. lia.
    + intros k x y Hk Hx Hy. rewrite O1 in Hk.
      unfold queued in Hy. rewrite list_lookup_fmap, lookup_seq_lt in Hy by (rewrite O1; lia). cbn in Hy. simplify_eq.
      destruct (decide (k < Z.to_nat (c2s_buf_occupancy s - words_taken i s))%nat) as [L|L].
      * rewrite buffered_kept by lia. rewrite lookup_app_l, lookup_drop in Hx
          by (rewrite length_drop, queued_length; lia).
        unfold queued in Hx. rewrite list_lookup_fmap, lookup_seq_lt in Hx by lia. cbn in Hx. injection Hx as <-.
        f_equal. lia.
      * rewrite lookup_app_r in Hx by (rewrite length_drop, queued_length; lia).
        rewrite length_drop, queued_length in Hx.
        assert (Some (buffered (rq_step i s) (Z.of_nat k)) = Some x) as [= <-]; [|done]. rewrite <- Hx.
        rewrite <- (buffered_new i s) by (done || lia). do 2 f_equal. lia.
Qed.

Lemma queue_run qs s :
  buffer_ok s ->
  buffer_ok (rq_run qs s) /\
  queued s ++ gathered stored qs s = gathered removed qs s ++ queued (rq_run qs s).
Proof.
  revert s. induction qs as [|i qs IH]; intros s Hb; [by rewrite app_nil_r|].
  destruct (queue_step i s Hb) as [Q1 Q2]. destruct (IH _ Q1) as [I1 I2]. split; [done|].
  cbn [gathered]. change (rq_run (i :: qs) s) with (rq_run qs (rq_step i s)).
  by rewrite app_assoc, Q2, <- !app_assoc, I2.
Qed.

(** The buffer is a queue.  From the reset on, whatever is shown to the machine and whenever
    the link stops it: the words taken by the write requests so far, followed by those
    between the pointers, are the words let in so far, none lost, doubled or out of order,
    although the pointers wrap and a place is written on every word let in, used or not;
    there are never more than 14 of them, and a pair of words is let in exactly when there
    are 12 at most. *)
Theorem buffer_is_queue qs :
  let s := rq_run qs rq_reset in
  gathered stored qs rq_reset = gathered removed qs rq_reset ++ queued s /\
  (length (queued s) <= 14)%nat /\
  (c2s_fifo_tready_s s = true <-> (length (queued s) <= 12)%nat).
Proof.
  cbv zeta. destruct (queue_run qs rq_reset) as [Q1 Q2]; [by split; vm_compute|].
  split; [exact Q2|]. rewrite queued_length. pose proof (buffer_occupancy _ Q1).
  pose proof (occupancy_bounds (rq_run qs rq_reset)). unfold c2s_fifo_tready_s. rewrite Z.leb_le. lia.
Qed.
