(* ===== verification/App.v ===== *)
(** * The application, and the words it writes (app.v, user_fifo in dma_logic.v)

    The application of the benchmark is a counter of 32 bits, offered as words of 256, and
    a sink.  Its words go through the FIFO user_fifo of the vendor to the generator of
    requests: one [path_step] is a rising edge of all three.  Whatever the generator is
    shown, and whenever the link stops it, what the write requests carry is the counter
    ([writes_carry_counter]). *)

From S2P Require Import Prelude EngineManager DeviceDma Completer CardBus AddressGen Requester C2sBuffer Fifo.
From Stdlib Require Import ZArith Lia.
From stdpp Require Import base list.
Local Open Scope Z_scope.

(** ** The counter: lines 104 to 126 of app.v *)

Definition c2s_tkeep : Z := 0xffffffff.
Definition c2s_tvalid : bool := true.

(** c2s_tdata_r: the upper 224 bits stay, the lower 32 count. *)
Definition app_step (c2s_tready : bool) (c2s_tdata_r : Z) : Z :=
  if c2s_tready then c2s_tdata_r - bits 31 0 c2s_tdata_r + u32 (bits 31 0 c2s_tdata_r + 1) else c2s_tdata_r.

Definition app_reset : Z := 0.

Lemma app_counts c : 0 <= c < 2 ^ 32 -> app_step true c = u32 (c + 1).
Proof.
  intros Hc. unfold app_step, bits. rewrite Z.div_1_r. change (2 ^ (31 - 0 + 1)) with (2 ^ 32).
  rewrite Z.mod_small by done. lia.
Qed.

(** ** The path of the words *)

Section Path.
Context {F : Type} `{AxisFifo F}.

Record path := Path { p_app : Z; p_fifo : F; p_rq : requester }.

(** Lines 265 to 278 and 315 to 319 of dma_logic.v. *)
Definition path_input (i : rq_in) (x : path) : rq_in :=
  let (data, keep) := m_axis_t (p_fifo x) in
  RqIn (q_shown i) (q_tready i) (q_rc_valid i) (q_rc_tkeep i) (q_completed i) (m_axis_tvalid (p_fifo x)) data keep.

Definition path_step (i : rq_in) (x : path) : path :=
  Path (app_step (s_axis_tready (p_fifo x)) (p_app x))
    (fifo_edge (if c2s_tvalid then Some (p_app x, c2s_tkeep) else None) (c2s_fifo_tready_s (p_rq x)) (p_fifo x))
    (rq_step (path_input i x) (p_rq x)).

Definition path_run (ls : list rq_in) (x : path) : path := fold_left (fun x i => path_step i x) ls x.

(** At power up the counter is 0; the reset that the host can give takes the FIFO and the
    generator with it, and the counter goes on. *)
Definition path_reset (c : Z) : path := Path c fifo_reset rq_reset.

(** What the generator sees. *)
Fixpoint path_inputs (ls : list rq_in) (x : path) : list rq_in :=
  match ls with
  | [] => []
  | i :: ls' => path_input i x :: path_inputs ls' (path_step i x)
  end.

Lemma path_rq ls x : p_rq (path_run ls x) = rq_run (path_inputs ls x) (p_rq x).
Proof. revert x. induction ls as [|i ls IH]; intros x; [done|]. apply IH. Qed.

(** The words of the application that the FIFO has taken. *)
Fixpoint app_words (ls : list rq_in) (x : path) : list (Z * Z) :=
  match ls with
  | [] => []
  | i :: ls' => put_in (Some (p_app x, c2s_tkeep)) (p_fifo x) ++ app_words ls' (path_step i x)
  end.

(** They are the counter. *)
Definition counted_from (c : Z) (n : nat) : list (Z * Z) :=
  map (fun k => (u32 (c + Z.of_nat k), c2s_tkeep)) (seq 0 n).

Lemma counted_S c n : 0 <= c < 2 ^ 32 -> (c, c2s_tkeep) :: counted_from (u32 (c + 1)) n = counted_from c (S n).
Proof.
  intros Hc. unfold counted_from. cbn [seq map]. rewrite Z.add_0_r, (wrap_id 32 c Hc). f_equal.
  rewrite <- seq_shift, map_map. apply map_ext. intros k.
  rewrite wrap_add_l. by replace (c + 1 + Z.of_nat k) with (c + Z.of_nat (S k)) by lia.
Qed.

Lemma app_words_counted ls x : 0 <= p_app x < 2 ^ 32 -> exists n, app_words ls x = counted_from (p_app x) n.
Proof.
  revert x. induction ls as [|i ls IH]; intros x Hc; [by exists 0%nat|]. cbn [app_words]. unfold put_in.
  assert (p_app (path_step i x) = if s_axis_tready (p_fifo x) then u32 (p_app x + 1) else p_app x) as E.
  { cbn [path_step p_app]. destruct (s_axis_tready (p_fifo x)); [by apply app_counts | done]. }
  destruct (IH (path_step i x)) as [n ->].
  { rewrite E. destruct (s_axis_tready (p_fifo x)); [apply Z.mod_pos_bound; lia | done]. }
  rewrite E. destruct (s_axis_tready (p_fifo x)); [|by exists n]. exists (S n). by apply counted_S.
Qed.

(** The two words of 128 bits of a word of the FIFO. *)
Definition halves (t : Z * Z) : list Z := bits 127 0 t.1 :: if Z.testbit t.2 16 then [bits 255 128 t.1] else [].

Lemma stored_halves i x :
  stored (path_input i x) (p_rq x) = flat_map halves (taken_out (c2s_fifo_tready_s (p_rq x)) (p_fifo x)).
Proof.
  unfold stored, taken_out, path_input. destruct (m_axis_t (p_fifo x)) as [d k].
  cbn [q_c2s_tvalid q_c2s_tdata q_c2s_tkeep]. rewrite andb_comm.
  destruct (c2s_fifo_tready_s (p_rq x) && m_axis_tvalid (p_fifo x)); [|done]. cbn [flat_map]. by rewrite app_nil_r.
Qed.

Section Laws.
Context `{!AxisFifoLaws F}.

(** What the requests have taken, the buffer, and the FIFO: the words of the application. *)
Lemma words_on_path ls x :
  buffer_ok (p_rq x) ->
  let x' := path_run ls x in
  gathered removed (path_inputs ls x) (p_rq x) ++ queued (p_rq x') ++ flat_map halves (contents (p_fifo x')) =
  queued (p_rq x) ++ flat_map halves (contents (p_fifo x) ++ app_words ls x).
Proof.
  revert x. induction ls as [|i ls IH]; intros x Hb; [by rewrite app_nil_r|]. cbv zeta.
  cbn [path_inputs gathered app_words]. destruct (queue_step (path_input i x) (p_rq x) Hb) as [Hb' Q].
  change (path_run (i :: ls) x) with (path_run ls (path_step i x)).
  pose proof (IH (path_step i x) Hb') as I. cbv zeta in I. cbn [path_step p_rq] in I |- *.
  rewrite <- app_assoc, I, app_assoc, <- Q, stored_halves, <- app_assoc. f_equal.
  rewrite <- flat_map_app, !app_assoc. f_equal. f_equal. apply contents_edge.
Qed.
End Laws.
End Path.

Lemma counter_halves z : 0 <= z < 2 ^ 32 -> halves (z, c2s_tkeep) = [z; 0].
Proof.
  intros Hz. unfold halves, bits. cbn [fst snd]. rewrite Z.div_1_r, Z.mod_small by lia.
  change (Z.testbit c2s_tkeep 16) with true. by rewrite Z.div_small by lia.
Qed.

Lemma halves_lookup c n k w :
  flat_map halves (counted_from c n) !! k = Some w -> w = if Nat.even k then u32 (c + Z.of_nat (k / 2)) else 0.
Proof.
  enough (forall m, flat_map halves (map (fun j => (u32 (c + Z.of_nat j), c2s_tkeep)) (seq m n)) !! k = Some w ->
    w = if Nat.even k then u32 (c + Z.of_nat (m + k / 2)) else 0) as G by apply (G 0%nat).
  revert k. induction n as [|n IH]; intros k m Hk; [done|]. cbn [seq map flat_map] in Hk.
  rewrite counter_halves in Hk by (apply Z.mod_pos_bound; lia).
  destruct k as [|[|k]]; cbn in Hk; [injection Hk as <-; by rewrite Nat.add_0_r | by injection Hk as <- |].
  apply IH in Hk. rewrite Hk. cbn [Nat.even]. destruct (Nat.even k); [|done].
  replace (S (S k) / 2)%nat with (S (k / 2)); [by rewrite Nat.add_succ_comm|].
  replace (S (S k)) with (k + 1 * 2)%nat by lia. rewrite Nat.div_add by lia. lia.
Qed.

Lemma reset_buffer : buffer_ok rq_reset.
Proof. by split; vm_compute. Qed.

(** C13.  A write carries the counter.  From a reset with the counter at [c], whatever the generator is
    shown and whenever the link stops it: the words that the write requests have taken,
    those in the buffer of 16 and those in the FIFO are together the halves of the
    successive values of the counter, none lost, doubled or out of order.  So the n-th
    word that the host gets is the counter after n / 2 steps or, at the odd places,
    zero. *)
Theorem writes_carry_counter {F} `{AxisFifoLaws F} c ls :
  0 <= c < 2 ^ 32 ->
  let x := path_run ls (path_reset (F := F) c) in
  let ws := gathered removed (path_inputs ls (path_reset (F := F) c)) rq_reset in
  (exists n, ws ++ queued (p_rq x) ++ flat_map halves (contents (p_fifo x)) = flat_map halves (counted_from c n)) /\
  forall n w, ws !! n = Some w -> w = if Nat.even n then u32 (c + Z.of_nat (n / 2)) else 0.
Proof.
  intros Hc. cbv zeta. destruct (app_words_counted ls (path_reset (F := F) c) Hc) as [n En].
  pose proof (words_on_path ls (path_reset (F := F) c) reset_buffer) as W. cbv zeta in W. rewrite En in W.
  cbn [path_reset p_rq p_fifo p_app] in W. rewrite contents_reset in W.
  change (queued rq_reset) with (@nil Z) in W. cbn [app] in W.
  split; [by exists n|]. intros k w Hk. apply (halves_lookup c n).
  rewrite <- W. by apply lookup_app_l_Some.
Qed.

(** ** At work

    The engine shows a write of 64 bytes with a FIFO of 16 words in the path, on a link that
    takes every beat. *)
Definition write_64 : shown := Shown true 1 (Placement 0x100000 64 8192 0) 1 1.

Definition app_link (d : shown) : rq_in := RqIn d true false 0 [] false 0 0.

Definition write_lines : list rq_in :=
  repeat (app_link (Shown false 1 (PLACEMENT write_64) 1 1)) 7 ++ repeat (app_link write_64) 4.

Lemma writes_carry_counter_witness :
  let ws := gathered removed (path_inputs write_lines (path_reset (F := shelf) 4294967295)) rq_reset in
  ws = [4294967295; 0; 0; 0] /\
  forall n w, ws !! n = Some w -> w = if Nat.even n then u32 (4294967295 + Z.of_nat (n / 2)) else 0.
Proof.
  cbv zeta. split; [by vm_compute|].
  apply (writes_carry_counter (F := shelf) 4294967295 write_lines). lia.
Defined.
