(* ===== verification/RequesterWrites.v ===== *)
(** * An operation of writes (dma_rq_logic.v)

    What the generator of Requester.v sends while the engine manager shows it a descriptor
    for writes: packets that carry the words of the application in order, TLP by TLP as
    the benchmark counts them, but always whole groups of them.  The words come from the
    queue of C2sBuffer.v. *)

From S2P Require Import Prelude BenchArgs BenchMain EngineManager DeviceDma Completer CardBus AddressGen Requester.
From S2P Require Import TlpGroups RequesterReads C2sBuffer.
From Stdlib Require Import ZArith Lia.
From stdpp Require Import base list.
Local Open Scope Z_scope.

(** ** Packets

    A beat of the stream: its data, its TKEEP (a bit for each dword), its TLAST. *)
Definition packet_beat : Type := Z * Z * bool.
Definition beat_of (x : axis) : packet_beat := (axis_rq_tdata_r x, axis_rq_tkeep_r x, axis_rq_tlast_r x).

(** [n] dwords in words of four, two words in a beat. *)
Fixpoint more_beats (n : Z) (ws : list Z) : list packet_beat :=
  match ws with
  | [] => []
  | [w] => [(w, 2 ^ n - 1, true)]
  | w1 :: w2 :: ws' =>
      (fields_value [(128, w1); (128, w2)], 2 ^ Z.min n 8 - 1, n <=? 8) :: more_beats (n - 8) ws'
  end.

(** A packet: the first beat has the header and one word. *)
Definition packet (head : list (Z * Z)) (n : Z) (ws : list Z) : list packet_beat :=
  match ws with
  | [] => []
  | w :: ws' => (fields_value (head ++ [(128, w)]), 2 ^ (4 + Z.min n 4) - 1, n <=? 4) :: more_beats (n - 4) ws'
  end.

(** The enables of the machine are those. *)
Lemma keep_init_eq n : 1 <= n <= 4 -> keep_init (n mod 16) = 2 ^ (4 + Z.min n 4) - 1.
Proof. intros H. assert (n = 1 \/ n = 2 \/ n = 3 \/ n = 4) as [-> | [-> | [-> | ->]]] by lia; done. Qed.

Lemma keep_more_eq n : 1 <= n <= 8 -> keep_more (n mod 16) = 2 ^ n - 1.
Proof.
  intros H. assert (n = 1 \/ n = 2 \/ n = 3 \/ n = 4 \/ n = 5 \/ n = 6 \/ n = 7 \/ n = 8) as Hn by lia.
  by destruct Hn as [-> | [-> | [-> | [-> | [-> | [-> | [-> | ->]]]]]]].
Qed.

(** What a request takes from the queue. *)
Lemma removed_none i s : words_taken i s = 0 -> removed i s = [].
Proof. unfold removed. by intros ->. Qed.

Lemma queued_cons s :
  1 <= c2s_buf_occupancy s -> exists l, queued s = buffered s 0 :: l.
Proof.
  intros H. unfold queued. replace (Z.to_nat (c2s_buf_occupancy s)) with (S (Z.to_nat (c2s_buf_occupancy s - 1))) by lia.
  cbn [seq map]. eauto.
Qed.

Lemma removed_one i s : one_word_at_buffer_s s = true -> words_taken i s = 1 -> removed i s = [buffered s 0].
Proof.
  intros Ho%occupancy_1 Ht. unfold removed. rewrite Ht. destruct (queued_cons s Ho) as [l ->]. by destruct l.
Qed.

Lemma removed_two i s :
  two_words_at_buffer_s s = true -> words_taken i s = 2 -> removed i s = [buffered s 0; buffered s 1].
Proof.
  intros Ho%occupancy_2 Ht. unfold removed, queued. rewrite Ht.
  replace (Z.to_nat (c2s_buf_occupancy s)) with (S (S (Z.to_nat (c2s_buf_occupancy s - 2)))) by lia. done.
Qed.

Lemma two_is_one s : two_words_at_buffer_s s = true -> one_word_at_buffer_s s = true.
Proof. rewrite occupancy_1, occupancy_2. lia. Qed.

(** ** The operation *)

Section Operation.
Context (d : shown).

Definition write_group : Z := group_of C_LOG2_MAX_PAYLOAD (size_of d).
Definition words_of_write (k : Z) : Z := tlp_words C_LOG2_MAX_PAYLOAD (size_of d) k.

(** Whole groups, as many as are needed for the TLPs of the descriptor, one at least. *)
Definition n_writes : Z :=
  write_group * ((Z.max 1 (NUMBER_TLPS d) + write_group - 1) / write_group).

Record write_op : Prop := {
  wop_valid : ENGINE_VALID d = true;
  wop_writes : writes d = true;
  wop_reads : reads d = false;
  wop_size : 0 < size_of d < 2 ^ 39 /\ size_of d mod 4 = 0;
  wop_addr : addr_of d mod 4 = 0;
  wop_tlps : 0 <= NUMBER_TLPS d < 2 ^ 32;
  wop_total : n_writes < 2 ^ 32 - 1
}.

Context (op : write_op) (room : roomy (PLACEMENT d) (address_mode_s d)).

Lemma write_groups :
  (4 <= 8 <= 12 /\ maximum_size_per_tlp D2H = 2 ^ 8) /\ 0 < size_of d < 2 ^ (8 + 31) /\ size_of d mod 4 = 0.
Proof. split; [done | apply op]. Qed.

Lemma write_group_bounds : 0 < write_group < 2 ^ 32 - 1.
Proof. destruct write_groups as (G1 & G2 & G3). by apply (group_of_eq D2H 8). Qed.

Lemma words_of_write_eq k : 0 <= k -> 4 * words_of_write k = tlp_size D2H (size_of d) k.
Proof. destruct write_groups as (G1 & G2 & G3). by apply (tlp_words_eq D2H 8). Qed.

Lemma words_of_write_range k : 0 <= k -> 1 <= words_of_write k <= 64.
Proof. destruct write_groups as (G1 & G2 & G3). by apply (tlp_words_range D2H 8). Qed.

Lemma write_fit k : 0 <= k -> 256 * (k mod write_group) + 4 * words_of_write k <= size_of d.
Proof. destruct write_groups as (G1 & G2 & G3). by apply (tlp_words_fit D2H 8). Qed.

Lemma write_group_next k : 0 <= k ->
  (write_group = k mod write_group + 1 -> (k + 1) mod write_group = 0) /\
  (write_group <> k mod write_group + 1 -> (k + 1) mod write_group = k mod write_group + 1).
Proof. destruct write_groups as (G1 & G2 & G3). by apply (group_of_next D2H 8). Qed.

(** The operation ends with the first group that reaches the count of the descriptor. *)
Lemma n_writes_bounds : NUMBER_TLPS d <= n_writes < Z.max 1 (NUMBER_TLPS d) + write_group /\ 1 <= n_writes.
Proof.
  pose proof write_group_bounds as G. unfold n_writes. set (m := Z.max 1 (NUMBER_TLPS d)).
  assert (1 <= m /\ NUMBER_TLPS d <= m) as [M1 M2] by lia.
  pose proof (Z.div_mod (m + write_group - 1) write_group ltac:(lia)).
  pose proof (Z.mod_pos_bound (m + write_group - 1) write_group ltac:(lia)). lia.
Qed.

Lemma group_decides k :
  0 <= k < n_writes -> write_group = k mod write_group + 1 ->
  (NUMBER_TLPS d <=? k + 1) = (k + 1 =? n_writes).
Proof.
  intros Hk Hg. pose proof write_group_bounds as G. unfold n_writes in *.
  set (m := Z.max 1 (NUMBER_TLPS d)) in *. assert (1 <= m /\ NUMBER_TLPS d <= m) as [M1 M2] by lia.
  pose proof (Z.div_mod (m + write_group - 1) write_group ltac:(lia)) as D.
  pose proof (Z.mod_pos_bound (m + write_group - 1) write_group ltac:(lia)) as B.
  pose proof (Z.div_mod k write_group ltac:(lia)) as K.
  set (c := (m + write_group - 1) / write_group) in *. set (q := k / write_group) in *.
  assert (k + 1 = write_group * (q + 1)) as E by lia. rewrite E in *.
  assert (0 <= q) by (apply Z.div_pos; lia).
  destruct (Z.leb_spec (NUMBER_TLPS d) (write_group * (q + 1))), (Z.eqb_spec (write_group * (q + 1)) (write_group * c));
    try done; exfalso.
  - assert (q + 1 <= c - 1) by nia. assert (write_group * (q + 1) <= write_group * (c - 1)) by nia.
    assert (m <= write_group * (q + 1)) by lia. nia.
  - assert (q + 1 = c) by nia. lia.
Qed.

(** *** The phases *)

(** Bounds and addresses have settled to the configuration. *)
Definition primed (s : requester) : Prop :=
  r_bounds s = next_boundaries d /\
  settled_addr (PLACEMENT d) (address_mode_s d) (g_dice (r_gen s), g_wr (r_gen s)).

Lemma primed_step i s : held d i -> primed s -> primed (rq_step i s).
Proof.
  intros Hh [H1 H2]. red in Hh. split; cbn; rewrite Hh; [done|].
  by apply (settled_step (PLACEMENT d) (address_mode_s d) room (advance_wr i s)) in H2.
Qed.

(** TLP [k], of the group at [a], has [r] dwords to go. *)
Record in_tlp (k a r : Z) (s : requester) : Prop := {
  writing_count : 0 <= k < n_writes;
  writing_group : in_buffer (PLACEMENT d) a;
  writing_left : 1 <= r <= words_of_write k;
  writing_tlp : mem_wr_current_tlp_r (r_progress s) = k + 1;
  writing_mod : mem_wr_current_tlp_modulus_r (r_progress s) = k mod write_group + 1;
  writing_words : mem_wr_remaining_words_r (r_words s) = r;
  writing_nibble : mem_wr_next_remainder_r (r_words s) = r mod 16;
  writing_addr : mem_wr_addr_pointed_by_descriptor_r (r_words s) = a + 256 * (k mod write_group)
}.

(** Its packet is about to start, or has started. *)
Definition opening (k a : Z) (s : requester) : Prop :=
  wr_state s = INIT_WRITE /\ in_tlp k a (words_of_write k) s.

Definition streaming (k a r : Z) (s : requester) : Prop :=
  wr_state s = WRITE /\ in_tlp k a r s /\ axis_rq_tkeep_r (r_axis s) = 0xff /\ axis_rq_tlast_r (r_axis s) = false.

(** The cycle in which the end is said. *)
Definition said_end (s : requester) : Prop :=
  wr_state s = IDLE /\ (wr_state_pipe_r s = INIT_WRITE \/ wr_state_pipe_r s = WRITE).

Definition write_head (k a : Z) : list (Z * Z) :=
  rq_header (a + 256 * (k mod write_group)) (words_of_write k) MEMORY_WRITE (k mod 256).

Lemma wr_group_end k a r s : primed s -> in_tlp k a r s -> wr_group_ends s = (write_group =? k mod write_group + 1).
Proof. intros [Hs _] W. unfold wr_group_ends. by rewrite Hs, (writing_mod k a r s W). Qed.

Lemma header_of k a r s : primed s -> in_tlp k a r s -> write_header s = write_head k a.
Proof.
  intros Hs W. unfold write_header, write_head, c2s_rq_tag_s.
  rewrite (writing_addr k a r s W), (writing_tlp k a r s W). f_equal; [|f_equal; lia].
  unfold current_wr_tlp_words_s. rewrite (wr_group_end k a r s Hs W), (proj1 Hs). done.
Qed.

(** An edge that does not end the TLP. *)
Lemma writing_kept k a r r' i s :
  in_tlp k a r s -> tlp_written s i = false -> 1 <= r' <= r ->
  wr_words_next i s = (r', r' mod 16, mem_wr_addr_pointed_by_descriptor_r (r_words s)) ->
  wr_state s = INIT_WRITE \/ wr_state s = WRITE -> in_tlp k a r' (rq_step i s).
Proof.
  intros W T Hr E Hs. pose proof (writing_left k a r s W).
  assert (r_progress (rq_step i s) = r_progress s) as Hp.
  { cbn [rq_step r_progress]. unfold next_progress. rewrite T. by destruct (r_progress s), Hs as [-> | ->]. }
  split; try apply W; rewrite ?Hp; try apply W; [lia | ..]; cbn [rq_step r_words]; unfold next_words; rewrite E;
    destruct (rd_words_next i s); try done. apply W.
Qed.

(** An edge that ends it: the next TLP, or the end. *)
Lemma written_next k a r i s :
  held d i -> primed s -> in_tlp k a r s -> tlp_written s i = true ->
  if k + 1 =? n_writes then said_end (rq_step i s)
  else exists a', ((k + 1) mod write_group = 0 \/ a' = a) /\ opening (k + 1) a' (rq_step i s).
Proof.
  intros Hh Hs W T. red in Hh. pose proof (writing_count k a r s W) as Hc.
  pose proof (wr_group_end k a r s Hs W) as Ge. pose proof (group_decides k Hc) as Gd.
  destruct (write_group_next k ltac:(lia)) as [G1 G2]. pose proof (write_group_bounds) as Gb.
  pose proof (Z.mod_pos_bound k write_group ltac:(lia)) as Hm. pose proof (wop_total op) as Ht.
  destruct Hs as [Hb Ha].
  assert (wr_state s = INIT_WRITE \/ wr_state s = WRITE) as St.
  { unfold tlp_written in T. destruct (wr_state s); auto; by rewrite andb_false_r in T. }
  assert (wr_state (rq_step i s) = after_write d s) as Hn.
  { unfold tlp_written in T. apply andb_true_iff in T as [Q T]. cbn [rq_step wr_state]. unfold next_wr_state.
    rewrite Q, Hh. destruct St as [E | E]; rewrite E in T |- *; [|by rewrite T].
    unfold init_completes in T. apply andb_true_iff in T as [T1 T2]. by rewrite T1, T2. }
  assert (after_write d s = if k + 1 =? n_writes then IDLE else INIT_WRITE) as Hw.
  { unfold after_write. rewrite Ge, (wop_reads op), Hb, (writing_tlp k a r s W). cbn [next_boundaries total_tlp_r].
    rewrite wrap_id by (unfold fits; pose proof (wop_tlps op); lia).
    destruct (Z.eqb_spec write_group (k mod write_group + 1)) as [G|G]; [by rewrite (Gd G)|].
    destruct (Z.eqb_spec (k + 1) n_writes) as [E|]; [|done]. exfalso. specialize (G2 G).
    rewrite E in G2. unfold n_writes in G2. rewrite Z.mul_comm, Z.mod_mul in G2; lia. }
  rewrite Hw in Hn. destruct (k + 1 =? n_writes) eqn:L.
  { split; [done|]. cbn [rq_step wr_state_pipe_r]. tauto. }
  apply Z.eqb_neq in L.
  assert (r_progress (rq_step i s) = Progress (k + 1 + 1) ((k + 1) mod write_group + 1)
    (mem_rd_current_tlp_r (r_progress s)) (mem_rd_current_tlp_modulus_r (r_progress s))) as Hp.
  { cbn [rq_step r_progress]. unfold next_progress. rewrite T, Ge.
    pose proof (writing_tlp k a r s W) as R1. pose proof (writing_mod k a r s W) as R2.
    destruct (r_progress s). progress_cbn. rewrite R1, R2. rewrite !wrap_id by (unfold fits; lia).
    destruct (Z.eqb_spec write_group (k mod write_group + 1)) as [G|G];
      [rewrite (G1 G) | rewrite (G2 G)]; by destruct St as [-> | ->]. }
  assert (next_tlp_words (mem_wr_number_even_tlp_r (r_bounds s)) (mem_wr_current_tlp_modulus_r (r_progress s))
    (mem_wr_odd_tlp_words_r (r_bounds s)) max_words_tlp_s = words_of_write (k + 1)) as Hx.
  { rewrite Hb, (writing_mod k a r s W). destruct (write_groups) as (R1 & R2 & R3).
    apply (next_tlp_words_eq D2H 8); done || lia. }
  pose proof (words_of_write_range (k + 1) ltac:(lia)) as Hr.
  set (a' := if write_group =? k mod write_group + 1 then tx_addr (address_mode_s d) (g_wr (r_gen s)) else a).
  exists a'. split; [unfold a'; destruct (Z.eqb_spec write_group (k mod write_group + 1)) as [G|G]; [left; by apply G1 | by right]|].
  split; [done|].
  assert (r_words (rq_step i s) = Words (words_of_write (k + 1)) (words_of_write (k + 1) mod 16)
    (if wr_group_ends s then tx_addr (address_mode_s d) (g_wr (r_gen s))
     else u64 (mem_wr_addr_pointed_by_descriptor_r (r_words s) + 4 * bits 10 0 (current_wr_tlp_words_s s)))
    (rd_words_next i s).1 (rd_words_next i s).2) as Hv.
  { cbn [rq_step r_words]. unfold next_words, wr_words_next. rewrite T, Hx, Hh. by destruct St as [-> | ->], (rd_words_next i s). }
  split; rewrite ?Hp, ?Hv; try done; try lia; rewrite ?Ge; unfold a'.
  - destruct (_ =? _); [|apply W]. by apply (settled_in_buffer _ _ room _ Ha).
  - words_cbn. destruct (Z.eqb_spec write_group (k mod write_group + 1)) as [G|G]; [rewrite (G1 G); lia|].
    rewrite (G2 G), (writing_addr k a r s W). unfold current_wr_tlp_words_s. rewrite Ge, ?(proj2 (Z.eqb_neq _ _) G).
    change (bits 10 0 max_words_tlp_s) with 64. destruct (writing_group k a r s W) as [A1 A2].
    destruct (wop_size op), (room_size _ _ room), (room_addr _ _ room).
    pose proof (write_fit k ltac:(lia)). pose proof (words_of_write_range k ltac:(lia)).
    rewrite wrap_id; [lia|]. unfold fits. fold (size_of d) (addr_of d) in *. lia.
Qed.

(** *** The beats of a packet *)

(** What is still to come of the packet, as a function of its words. *)
Definition underway (k a r : Z) (rest : list Z -> list packet_beat) (s : requester) : Prop :=
  (opening k a s /\ r = words_of_write k /\ rest = packet (write_head k a) r) \/
  (streaming k a r s /\ rest = more_beats r).

Lemma loaded_beat i s v data :
  q_tready i = true -> next_beat i s = (v, data) ->
  loaded i s = if v then [next_axis i s] else [].
Proof.
  intros Hq Hn. unfold loaded, pending. rewrite Hq. cbn [rq_step r_axis].
  assert (axis_rq_tvalid_r (next_axis i s) = v) as ->; [|done].
  unfold next_axis. rewrite Hn. by repeat case_match.
Qed.

Lemma underway_left k a r rest s : underway k a r rest s -> in_tlp k a r s.
Proof. by intros [[[_ W] [-> _]] | [[_ [W _]] _]]. Qed.

(** A TLP is written in this cycle: in one beat, or with its last beat. *)
Lemma last_word k a r s : in_tlp k a r s -> last_word_at_tlp_s s = (r <=? 4).
Proof. intros W. unfold last_word_at_tlp_s. by rewrite (writing_words k a r s W). Qed.

Lemma last_two_words k a r s : in_tlp k a r s -> last_two_words_at_tlp_s s = (r <=? 8).
Proof. intros W. unfold last_two_words_at_tlp_s. by rewrite (writing_words k a r s W). Qed.

(** Without a word, or with the link not ready, nothing happens. *)
Lemma opening_stays k a i s :
  opening k a s -> q_tready i && one_word_at_buffer_s s = false ->
  tlp_written s i = false /\ removed i s = [] /\ loaded i s = [] /\ opening k a (rq_step i s).
Proof.
  intros [E W] Q. assert (tlp_written s i = false) as T.
  { unfold tlp_written, init_completes. rewrite E. by destruct (q_tready i), (one_word_at_buffer_s s). }
  split_and!; [done | | |].
  - apply removed_none. unfold words_taken. rewrite E. by destruct (q_tready i), (one_word_at_buffer_s s).
  - destruct (q_tready i) eqn:Q'; [|unfold loaded; by rewrite Q']. erewrite loaded_beat; [|done|].
    2:{ unfold next_beat. by rewrite Q', E. }
    by rewrite andb_true_l in Q; rewrite Q.
  - split.
    + cbn [rq_step wr_state]. unfold next_wr_state. rewrite E. by destruct (q_tready i), (one_word_at_buffer_s s).
    + pose proof (writing_left _ _ _ s W).
      apply (writing_kept k a (words_of_write k) _ i s W T); [lia | | by left]. unfold wr_words_next.
      by rewrite E, T, Q, (writing_words _ _ _ s W), (writing_nibble _ _ _ s W).
Qed.

(** An edge at the start of a packet. *)
Lemma opening_step k a r i s :
  primed s -> opening k a s -> r = words_of_write k ->
  let ws := removed i s in let bs := map beat_of (loaded i s) in
  if tlp_written s i then Z.of_nat (length ws) = (r + 3) / 4 /\ packet (write_head k a) r ws = bs
  else exists r' rest', underway k a r' rest' (rq_step i s) /\ r' = r - 4 * Z.of_nat (length ws) /\
    forall ws', packet (write_head k a) r (ws ++ ws') = bs ++ rest' ws'.
Proof.
  intros Hs O ->. cbv zeta. set (r := words_of_write k) in *. pose proof O as [E W].
  pose proof (writing_left k a r s W) as Hr. pose proof (words_of_write_range k ltac:(pose proof (writing_count k a r s W); lia)) as Hn.
  pose proof (last_word k a r s W) as Hl.
  destruct (q_tready i && one_word_at_buffer_s s) eqn:Q.
  2:{ destruct (opening_stays k a i s O Q) as (-> & -> & -> & O'). exists r, (packet (write_head k a) r).
      split; [by left|]. split; [cbn [length]; lia | done]. }
  apply andb_true_iff in Q as [Q1 Q2].
  assert (tlp_written s i = (r <=? 4)) as T.
  { unfold tlp_written, init_completes. by rewrite E, Q1, Q2, Hl. }
  assert (removed i s = [buffered s 0]) as Rm.
  { apply removed_one; [done|]. unfold words_taken. by rewrite Q1, E, Q2. }
  assert (next_beat i s = (true, fields_value (write_head k a ++ [(128, buffered s 0)]))) as Nb.
  { unfold next_beat. by rewrite Q1, E, Q2, (header_of k a r s Hs W). }
  assert (next_axis i s = Axis true (fields_value (write_head k a ++ [(128, buffered s 0)]))
    (2 ^ (4 + Z.min r 4) - 1) (r <=? 4) 15 (if r <=? 1 then 0 else 15)) as Na.
  { unfold next_axis. rewrite Nb, Q1, E, Q2, Hl. cbn [negb]. rewrite (writing_words k a r s W), (writing_nibble k a r s W).
    destruct (Z.leb_spec r 4); [by rewrite keep_init_eq by lia|]. by rewrite Z.min_r by lia. }
  rewrite (loaded_beat i s _ _ Q1 Nb), Na, Rm, T. cbn [map beat_of axis_rq_tdata_r axis_rq_tkeep_r axis_rq_tlast_r length].
  destruct (Z.leb_spec r 4) as [L|L].
  - split; [|cbn [packet more_beats]; by rewrite (proj2 (Z.leb_le r 4)) by lia]. Z.to_euclidean_division_equations. lia.
  - exists (r - 4), (more_beats (r - 4)). split; [|split].
    + right. split; [|done]. split; [|split].
      * cbn [rq_step wr_state]. unfold next_wr_state. by rewrite E, Q1, Q2, Hl.
      * apply (writing_kept k a r (r - 4) i s W); [by rewrite T | lia | | by left].
        unfold wr_words_next. rewrite E, T, Q1, Q2. cbn [andb].
        rewrite (writing_words k a r s W), (writing_nibble k a r s W), wrap_id by (unfold fits; lia).
        by rewrite Zminus_mod_idemp_l.
      * cbn [rq_step r_axis]. rewrite Na. cbn [axis_rq_tkeep_r axis_rq_tlast_r]. by rewrite Z.min_r by lia.
    + cbn [length]. lia.
    + intros ws'. cbn [packet app]. by rewrite (proj2 (Z.leb_gt r 4)) by lia.
Qed.

Lemma streaming_stays k a r i s :
  streaming k a r s -> tlp_written s i = false -> q_tready i && two_words_at_buffer_s s = false ->
  removed i s = [] /\ loaded i s = [] /\ streaming k a r (rq_step i s).
Proof.
  intros (E & W & K1 & K2) T Q. pose proof (writing_left k a r s W).
  assert (q_tready i = true -> two_words_at_buffer_s s = false /\
    one_word_at_buffer_s s && last_word_at_tlp_s s = false) as Q'.
  { intros Q'. unfold tlp_written, write_completes in T. rewrite E, Q' in T. rewrite Q' in Q. cbn [andb] in *.
    rewrite Q in T. by rewrite andb_false_l, orb_false_l in T. }
  assert (next_beat i s = (if q_tready i then false else axis_rq_tvalid_r (r_axis s), axis_rq_tdata_r (r_axis s))) as Nb.
  { unfold next_beat. rewrite E. destruct (q_tready i); [|done]. by destruct (Q' eq_refl) as [-> ->]. }
  split_and!; [| | split_and!].
  - apply removed_none. unfold words_taken. rewrite E. destruct (q_tready i); [|done].
    by destruct (Q' eq_refl) as [-> ->].
  - destruct (q_tready i) eqn:Q0; [by rewrite (loaded_beat i s _ _ Q0 Nb) | unfold loaded; by rewrite Q0].
  - cbn [rq_step wr_state]. unfold next_wr_state, tlp_written in *. rewrite E in *.
    destruct (q_tready i); [|done]. cbn [andb] in T. by rewrite T.
  - apply (writing_kept k a r r i s W T); [lia | | by right]. unfold wr_words_next.
    by rewrite E, T, Q, (writing_words k a r s W), (writing_nibble k a r s W).
  - cbn [rq_step r_axis]. unfold next_axis. rewrite Nb, E. unfold tlp_written in T. rewrite E in T.
    destruct (q_tready i); cbn [negb andb] in *; [by rewrite T | done].
  - cbn [rq_step r_axis]. unfold next_axis. rewrite Nb, E. unfold tlp_written in T. rewrite E in T.
    destruct (q_tready i); cbn [negb andb] in *; [by rewrite T | done].
Qed.

(** The edge that ends a packet, with one word or with two. *)
Lemma streaming_last k a r i s :
  streaming k a r s -> tlp_written s i = true ->
  let ws := removed i s in
  Z.of_nat (length ws) = (r + 3) / 4 /\ more_beats r ws = map beat_of (loaded i s).
Proof.
  intros (E & W & K1 & K2) T. cbv zeta. pose proof (writing_left k a r s W) as Hr.
  pose proof (last_word k a r s W) as L1. pose proof (last_two_words k a r s W) as L2.
  unfold tlp_written in T. rewrite E in T. apply andb_true_iff in T as [Q T].
  assert (r <= 8) as Hr8.
  { unfold write_completes in T. rewrite L1, L2 in T. apply orb_true_iff in T as [T | T]; lia. }
  destruct (one_word_at_buffer_s s && (r <=? 4)) eqn:O.
  - apply andb_true_iff in O as [O1 O2%Z.leb_le].
    rewrite (removed_one i s O1) by (unfold words_taken; by rewrite Q, E, O1, L1, (proj2 (Z.leb_le r 4))).
    erewrite loaded_beat; [|done | unfold next_beat; by rewrite Q, E, O1, L1, (proj2 (Z.leb_le r 4))].
    unfold next_axis, next_beat. rewrite Q, E, T, O1, L1, L2, (proj2 (Z.leb_le r 4)), (proj2 (Z.leb_le r 8)) by lia.
    cbn [negb andb map beat_of axis_rq_tdata_r axis_rq_tkeep_r axis_rq_tlast_r more_beats].
    rewrite (writing_nibble k a r s W), keep_more_eq by lia. split; [|done].
    cbn [length]. Z.to_euclidean_division_equations. lia.
  - assert (two_words_at_buffer_s s = true) as O2.
    { unfold write_completes in T. rewrite L1, O, orb_false_r in T. by apply andb_true_iff in T as [? _]. }
    rewrite (two_is_one s O2) in O. cbn [andb] in O. pose proof (proj1 (Z.leb_gt _ _) O) as O'.
    rewrite (removed_two i s O2) by (unfold words_taken; by rewrite Q, E, L1, O, O2, andb_false_r).
    erewrite loaded_beat; [|done | unfold next_beat; by rewrite Q, E, L1, O, O2, andb_false_r].
    unfold next_axis, next_beat. rewrite Q, E, T, L1, L2, O, O2, andb_false_r, (proj2 (Z.leb_le r 8)) by lia.
    cbn [negb andb map beat_of axis_rq_tdata_r axis_rq_tkeep_r axis_rq_tlast_r more_beats].
    rewrite (writing_nibble k a r s W), keep_more_eq, Z.min_l, (proj2 (Z.leb_le r 8)) by lia. split; [|done].
    cbn [length]. Z.to_euclidean_division_equations. lia.
Qed.

(** Another edge in a packet. *)
Lemma streaming_more k a r i s :
  streaming k a r s -> tlp_written s i = false ->
  let ws := removed i s in
  exists r' rest', underway k a r' rest' (rq_step i s) /\ r' = r - 4 * Z.of_nat (length ws) /\
    forall ws', more_beats r (ws ++ ws') = map beat_of (loaded i s) ++ rest' ws'.
Proof.
  intros Hst T. pose proof Hst as (E & W & K1 & K2). cbv zeta. pose proof (writing_left k a r s W) as Hr.
  pose proof (words_of_write_range k ltac:(pose proof (writing_count k a r s W); lia)) as Hn.
  pose proof (last_word k a r s W) as L1. pose proof (last_two_words k a r s W) as L2.
  destruct (q_tready i && two_words_at_buffer_s s) eqn:Q.
  2:{ destruct (streaming_stays k a r i s Hst T Q) as (-> & -> & S). exists r, (more_beats r).
      split; [by right|]. split; [cbn [length]; lia | done]. }
  apply andb_true_iff in Q as [Q O2]. pose proof (two_is_one s O2) as O1.
  assert (write_completes s = false) as T' by (unfold tlp_written in T; by rewrite E, Q in T).
  assert (8 < r) as R8.
  { unfold write_completes in T'. rewrite O2, L2 in T'. cbn [andb] in T'. apply orb_false_iff in T' as [T' _]. lia. }
  assert (next_beat i s = (true, fields_value [(128, buffered s 0); (128, buffered s 1)])) as Nb.
  { unfold next_beat. by rewrite Q, E, O1, L1, O2, (proj2 (Z.leb_gt r 4)) by lia. }
  assert (next_axis i s = Axis true (fields_value [(128, buffered s 0); (128, buffered s 1)]) 255 false
    (first_be_r (r_axis s)) (last_be_r (r_axis s))) as Na.
  { unfold next_axis. by rewrite Nb, Q, E, T', K1, K2. }
  rewrite (removed_two i s O2) by (unfold words_taken; by rewrite Q, E, O1, L1, O2, (proj2 (Z.leb_gt r 4)) by lia).
  rewrite (loaded_beat i s _ _ Q Nb), Na. cbn [map beat_of axis_rq_tdata_r axis_rq_tkeep_r axis_rq_tlast_r length].
  exists (r - 8), (more_beats (r - 8)). split; [|split].
  - right. split; [|done]. split; [|split].
    + cbn [rq_step wr_state]. unfold next_wr_state. by rewrite E, Q, T'.
    + apply (writing_kept k a r (r - 8) i s W T); [lia | | by right].
      unfold wr_words_next. rewrite E, T, Q, O2. cbn [andb].
      rewrite (writing_words k a r s W), (writing_nibble k a r s W), wrap_id by (unfold fits; lia).
      by rewrite Zminus_mod_idemp_l.
    + cbn [rq_step r_axis]. by rewrite Na.
  - cbn [length]. lia.
  - intros ws'. cbn [more_beats app]. by rewrite Z.min_r, (proj2 (Z.leb_gt r 8)) by lia.
Qed.

(** An edge while a packet is under way. *)
Lemma underway_step k a r rest i s :
  primed s -> underway k a r rest s ->
  let ws := removed i s in let bs := map beat_of (loaded i s) in
  if tlp_written s i then Z.of_nat (length ws) = (r + 3) / 4 /\ rest ws = bs
  else exists r' rest', underway k a r' rest' (rq_step i s) /\ r' = r - 4 * Z.of_nat (length ws) /\
    forall ws', rest (ws ++ ws') = bs ++ rest' ws'.
Proof.
  intros Hs [(O & E & ->) | (S & ->)]; [by apply opening_step|]. cbv zeta.
  destruct (tlp_written s i) eqn:T; [by apply (streaming_last k a) | by apply streaming_more].
Qed.

(** ** What has been sent

    [sent k a ws bs]: the first [k] TLPs, with the words [ws], are the beats [bs]; each
    has its words, its place in its group and its tag in the header, and the group of the
    last one is at [a], within the buffer of the host. *)
Inductive sent : Z -> Z -> list Z -> list packet_beat -> Prop :=
  | sent_none a : in_buffer (PLACEMENT d) a -> sent 0 a [] []
  | sent_more k a a' ws bs new :
      sent k a ws bs -> in_buffer (PLACEMENT d) a' -> (k mod write_group = 0 \/ a' = a) ->
      Z.of_nat (length new) = (words_of_write k + 3) / 4 ->
      sent (k + 1) a' (ws ++ new) (bs ++ packet (write_head k a') (words_of_write k) new).

(** Whole TLPs, and the beginning of one more. *)
Definition sending (k a : Z) (ws : list Z) (bs : list packet_beat) (s : requester) : Prop :=
  exists a0 r rest new ws1 bs1 bs2,
    underway k a r rest s /\ sent k a0 ws1 bs1 /\ (k mod write_group = 0 \/ a = a0) /\
    ws = ws1 ++ new /\ bs = bs1 ++ bs2 /\
    r = words_of_write k - 4 * Z.of_nat (length new) /\
    forall ws', packet (write_head k a) (words_of_write k) (new ++ ws') = bs2 ++ rest ws'.

Definition write_phase (ws : list Z) (bs : list packet_beat) (s : requester) : Prop :=
  (ready s /\ ws = [] /\ bs = []) \/ (exists k a, sending k a ws bs s) \/
  ((said_end s \/ over s) /\ exists a, sent n_writes a ws bs).

Lemma opening_sending k a a0 ws bs s :
  opening k a s -> sent k a0 ws bs -> (k mod write_group = 0 \/ a = a0) -> sending k a ws bs s.
Proof.
  intros O S G. exists a0, (words_of_write k), (packet (write_head k a) (words_of_write k)), [], ws, bs, [].
  rewrite !app_nil_r. split_and!; try done; [by left | cbn [length]; lia].
Qed.

Lemma sending_step k a ws bs i s :
  held d i -> primed s -> sending k a ws bs s ->
  write_phase (ws ++ removed i s) (bs ++ map beat_of (loaded i s)) (rq_step i s).
Proof.
  intros Hh Hs (a0 & r & rest & new & ws1 & bs1 & bs2 & U & S & G & -> & -> & N & P).
  pose proof (underway_step k a r rest i s Hs U) as Hu. cbv zeta in Hu.
  pose proof (underway_left k a r rest s U) as W.
  destruct (tlp_written s i) eqn:T.
  - destruct Hu as [Hl Hr].
    assert (sent (k + 1) a ((ws1 ++ new) ++ removed i s) ((bs1 ++ bs2) ++ map beat_of (loaded i s))) as S'.
    { rewrite <- !app_assoc. rewrite <- Hr, <- P. apply (sent_more k a0 a ws1 bs1); [done | apply W | done |].
      rewrite length_app, Nat2Z.inj_add, Hl, N.
      replace (words_of_write k + 3) with (words_of_write k - 4 * Z.of_nat (length new) + 3 + Z.of_nat (length new) * 4) by lia.
      rewrite Z.div_add by lia. lia. }
    pose proof (written_next k a r i s Hh Hs W T) as Hn. destruct (k + 1 =? n_writes) eqn:L.
    + apply Z.eqb_eq in L. rewrite L in S'. right. right. split; [by left | by exists a].
    + destruct Hn as (a' & Ha & O). right. left. exists (k + 1), a'. by apply (opening_sending _ _ a).
  - destruct Hu as (r' & rest' & U' & Hl & Hr). right. left. exists k, a.
    exists a0, r', rest', (new ++ removed i s), ws1, bs1, (bs2 ++ map beat_of (loaded i s)).
    split_and!; [done | done | done | by rewrite app_assoc | by rewrite app_assoc | rewrite length_app; lia |].
    intros ws'. by rewrite <- !app_assoc, P, Hr.
Qed.

Lemma idle_removed i s : wr_state s = IDLE -> removed i s = [].
Proof. intros H. apply removed_none. unfold words_taken. rewrite H. by destruct (q_tready i). Qed.

(** The start: the first TLP, at the address of the descriptor. *)
Lemma ready_opens i s :
  held d i -> primed s -> ready s -> startable s i = true ->
  opening 0 (addr_of d) (rq_step i s).
Proof.
  intros Hh Hs (H1 & H2 & H3) Hb. red in Hh. pose proof write_group_bounds as G. pose proof n_writes_bounds as [_ N].
  destruct write_groups as (R1 & R2 & R3). assert (q_tready i = true) as Q.
  { unfold startable in Hb. by destruct (q_tready i). }
  pose proof (words_of_write_range 0 ltac:(lia)) as Hw.
  assert (r_words (rq_step i s) = Words (words_of_write 0) (words_of_write 0 mod 16) (addr_of d)
    (rd_words_next i s).1 (rd_words_next i s).2) as Hv.
  { cbn [rq_step r_words]. unfold next_words, wr_words_next. rewrite H1, Hh.
    change max_words_tlp_s with (2 ^ (8 - 2)). rewrite (first_tlp_words D2H 8) by done. by destruct (rd_words_next i s). }
  assert (r_progress (rq_step i s) = Progress 1 1 1 1) as Hp.
  { cbn [rq_step r_progress]. unfold next_progress. rewrite H1, Q. by destruct (r_progress s). }
  split.
  { cbn [rq_step wr_state]. unfold next_wr_state. by rewrite H1, Hb, Hh, (wop_writes op). }
  split; rewrite ?Hp, ?Hv; words_cbn; progress_cbn; rewrite ?Z.mod_0_l by lia; try done; try lia.
  destruct (room_size _ _ room), (room_host _ _ room) as (h & Hh1 & Hh2).
  pose proof (Z.pow_le_mono_r 2 12 h ltac:(lia) ltac:(lia)). change (2 ^ 12) with 4096 in *.
  unfold in_buffer. fold (addr_of d). lia.
Qed.

Lemma said_end_step i s : held d i -> said_end s -> over (rq_step i s) /\ end_of_operation s = true.
Proof.
  intros Hh [H1 H2]. red in Hh. assert (end_of_operation s = true) as He.
  { unfold end_of_operation. rewrite H1. by apply bool_decide_eq_true. }
  split; [|done]. split_and!; rq_cbn; [| by rewrite H1 | by rewrite He].
  unfold next_wr_state, startable. by rewrite H1, He, !andb_false_r, !andb_false_l.
Qed.

Lemma write_step ws bs i s :
  held d i -> primed s -> write_phase ws bs s ->
  write_phase (ws ++ removed i s) (bs ++ map beat_of (loaded i s)) (rq_step i s).
Proof.
  intros Hh Hs [(R & -> & ->) | [(k & a & S) | (E & S)]]; [| by apply (sending_step k a) |].
  - rewrite (idle_removed i s), (idle_loaded i s) by apply R. destruct (startable s i) eqn:B.
    + pose proof (ready_opens i s Hh Hs R B) as O. right. left. exists 0, (addr_of d).
      apply (opening_sending 0 _ (addr_of d)); [done | | by right]. apply sent_none. apply O.
    + left. split; [by apply ready_stays | done].
  - right. right. split; [|destruct E as [E | E]; rewrite (idle_removed i s), (idle_loaded i s), !app_nil_r by apply E; done].
    right. destruct E as [E | E]; [by apply said_end_step | by apply (over_step d); [apply op | |]].
Qed.

Lemma write_run ws bs qs s :
  Forall (held d) qs -> primed s -> write_phase ws bs s ->
  write_phase (ws ++ gathered removed qs s) (bs ++ map beat_of (gathered loaded qs s)) (rq_run qs s).
Proof.
  intros H. revert ws bs s. induction H as [|i qs Hi H IH]; intros ws bs s Hs P; [by rewrite !app_nil_r|].
  cbn [gathered]. change (rq_run (i :: qs) s) with (rq_run qs (rq_step i s)).
  rewrite map_app, !app_assoc. apply IH; [by apply primed_step | by apply write_step].
Qed.

(** The end is only said after the last group. *)
Lemma write_ends_in ws bs s :
  write_phase ws bs s -> end_of_operation s = true -> said_end s /\ exists a, sent n_writes a ws bs.
Proof.
  intros [(R & _) | [(k & a & S) | (E & S)]] He.
  - by rewrite (idle_no_end s) in He by apply R.
  - destruct S as (a0 & r & rest & new & ws1 & bs1 & bs2 & U & _).
    unfold end_of_operation in He. by destruct U as [[[E _] _] | [[E _] _]]; rewrite E in He.
  - split; [|done]. destruct E as [E | O]; [done|]. by rewrite (idle_no_end s) in He by apply O.
Qed.

(** *** From rest *)

Record still (s : requester) : Prop := {
  still_state : wr_state s = IDLE;
  still_pipe : not_writing (wr_state_pipe_r s);
  still_stream : axis_rq_tvalid_r (r_axis s) = false
}.

Lemma still_step i s :
  held (quiet d) i -> still s ->
  still (rq_step i s) /\ end_of_operation_r (rq_step i s) = false /\ r_bounds (rq_step i s) = next_boundaries d /\
  (g_dice (r_gen (rq_step i s)), g_wr (r_gen (rq_step i s))) =
    addr_step (PLACEMENT d) A_IDLE (g_dice (r_gen s), g_wr (r_gen s)).
Proof.
  intros Hh [H1 H2 H3]. red in Hh. pose proof (idle_no_end s H1 H2) as He.
  assert (startable s i = false) as Hs.
  { unfold startable. rewrite Hh. cbn [ENGINE_VALID quiet]. by rewrite andb_false_r. }
  split_and!; [split | | |]; rq_cbn.
  - unfold next_wr_state. by rewrite H1, Hs.
  - by rewrite H1.
  - unfold next_axis, next_beat. rewrite H1. by destruct (q_tready i); cbn [negb axis_rq_tvalid_r].
  - by rewrite He, Hh.
  - by rewrite Hh.
  - unfold next_gen, advance_wr. by rewrite H1, Hs, Hh.
Qed.

Lemma still_run qs s :
  Forall (held (quiet d)) qs -> still s ->
  let s' := rq_run qs s in
  still s' /\ (qs <> [] -> ready s' /\ r_bounds s' = next_boundaries d) /\
  (g_dice (r_gen s'), g_wr (r_gen s')) =
    addr_run (PLACEMENT d) (repeat A_IDLE (length qs)) (g_dice (r_gen s), g_wr (r_gen s)).
Proof.
  intros H. revert s. induction H as [|i qs Hi H IH]; intros s Hs; [by split_and!|]. cbv zeta.
  destruct (still_step i s Hi Hs) as (Q1 & Q2 & Q3 & Q4). destruct (IH _ Q1) as (I1 & I2 & I3).
  change (rq_run (i :: qs) s) with (rq_run qs (rq_step i s)). split_and!; [done | | by rewrite I3, Q4].
  intros _. destruct qs as [|j qs]; [|by apply I2]. split; [|done]. split_and!; [apply I1 | apply I1 | done].
Qed.

Lemma still_primed qs s :
  Forall (held (quiet d)) qs -> (7 <= length qs)%nat -> still s ->
  let s' := rq_run qs s in primed s' /\ ready s' /\ still s'.
Proof.
  intros H Hl Hs. cbv zeta. destruct (still_run qs s H Hs) as (Q1 & Q2 & Q3).
  destruct Q2 as [Q2 Q4]; [intros ->; cbn in Hl; lia|]. split_and!; [|done | done]. split; [done|]. rewrite Q3.
  replace (length qs) with (7 + (length qs - 7))%nat by lia.
  rewrite repeat_app. unfold addr_run. rewrite fold_left_app.
  apply (settled_run _ _ room), (settles _ _ room).
Qed.

(** *** The bytes

    The bits of TKEEP of a packet are those of its header and of its dwords. *)
Definition dwords_of (bs : list packet_beat) : Z := foldr (fun b n => kept_dwords b.1.2 + n) 0 bs.

Lemma dwords_of_app bs bs' : dwords_of (bs ++ bs') = dwords_of bs + dwords_of bs'.
Proof. induction bs as [|b bs IH]; [done|]. cbn [app]. unfold dwords_of in *. cbn [foldr]. lia. Qed.

Lemma kept_ones n : 0 <= n <= 8 -> kept_dwords (2 ^ n - 1) = n.
Proof.
  intros H. assert (n = 0 \/ n = 1 \/ n = 2 \/ n = 3 \/ n = 4 \/ n = 5 \/ n = 6 \/ n = 7 \/ n = 8) as Hn by lia.
  by destruct Hn as [-> | [-> | [-> | [-> | [-> | [-> | [-> | [-> | ->]]]]]]]].
Qed.

Lemma more_beats_dwords n ws :
  0 <= n -> Z.of_nat (length ws) = (n + 3) / 4 -> dwords_of (more_beats n ws) = n.
Proof.
  remember (length ws) as m eqn:Em. revert n ws Em. induction m as [m IH] using lt_wf_ind.
  intros n ws Em Hn Hl. destruct ws as [|w1 [|w2 ws]]; cbn [length] in Em; subst m; cbn [more_beats dwords_of foldr fst snd].
  - revert Hl. Z.to_euclidean_division_equations. lia.
  - rewrite kept_ones; revert Hl; Z.to_euclidean_division_equations; lia.
  - change (foldr _ 0 (more_beats (n - 8) ws)) with (dwords_of (more_beats (n - 8) ws)).
    destruct (Z.leb_spec n 8) as [L|L].
    + rewrite Z.min_l by lia. rewrite kept_ones by lia.
      destruct ws; [cbn; lia|]. cbn [length] in Hl. revert Hl. Z.to_euclidean_division_equations. lia.
    + rewrite Z.min_r, kept_ones by lia. rewrite (IH (length ws)); [lia | lia | done | lia |].
      revert Hl. Z.to_euclidean_division_equations. lia.
Qed.

Lemma packet_dwords head n ws :
  1 <= n -> Z.of_nat (length ws) = (n + 3) / 4 -> dwords_of (packet head n ws) = 4 + n.
Proof.
  intros Hn Hl. destruct ws as [|w ws]; cbn [length] in Hl; [revert Hl; Z.to_euclidean_division_equations; lia|].
  cbn [packet dwords_of foldr fst snd].
  change (foldr _ 0 (more_beats (n - 4) ws)) with (dwords_of (more_beats (n - 4) ws)).
  rewrite kept_ones by lia. destruct (Z.le_gt_cases n 4) as [L|L].
  - destruct ws; [cbn; lia|]. cbn [length] in Hl. revert Hl. Z.to_euclidean_division_equations. lia.
  - rewrite more_beats_dwords; [lia | lia |]. revert Hl. Z.to_euclidean_division_equations. lia.
Qed.

(** A header for each TLP, and the bytes that the benchmark counts with. *)
Lemma sent_bytes k a ws bs :
  sent k a ws bs -> 0 <= k /\ 4 * dwords_of bs = 16 * k + bytes_of_tlps D2H (size_of d) (Z.to_nat k).
Proof.
  induction 1 as [a Ha | k a a' ws bs new Sk [I1 I2] Ha Hg Hl]; [done|]. split; [lia|].
  rewrite dwords_of_app, packet_dwords by (done || by apply words_of_write_range).
  replace (Z.to_nat (k + 1)) with (S (Z.to_nat k)) by lia. unfold bytes_of_tlps in *.
  rewrite (foldr_sum_snoc (fun j => tlp_size D2H (size_of d) (Z.of_nat j))), Z2Nat.id by lia.
  pose proof (words_of_write_eq k I1). lia.
Qed.

(** *** It ends *)

Section Live.
Context (ins : nat -> rq_in) (s0 : requester).

(** The link takes a beat, and the application has a word, again and again. *)
Record supplied : Prop := {
  supplied_ready t : exists u, (t <= u)%nat /\ q_tready (ins u) = true;
  supplied_words t : exists u, (t <= u)%nat /\ q_c2s_tvalid (ins u) = true
}.

Context (Hh : forall t, held d (ins t)) (Hp : primed s0) (Hb : buffer_ok s0) (F : supplied).

Abbreviation at_time := (rq_at ins s0).

Lemma primed_at t : primed (at_time t).
Proof. induction t as [|t IH]; [done|]. by apply primed_step. Qed.

Lemma buffer_at t : buffer_ok (at_time t).
Proof. induction t as [|t IH]; [done|]. by apply queue_step. Qed.

(** In TLP [k], with [r] dwords to go, and [n] words in the buffer at least. *)
Definition stalled (k a r n : Z) (t : nat) : Prop :=
  (exists rest, underway k a r rest (at_time t)) /\ n <= c2s_buf_occupancy (at_time t).

(** A word is taken. *)
Definition moves (k a r : Z) (t : nat) : Prop :=
  (exists rest, underway k a r rest (at_time t)) /\ 0 < words_taken (ins t) (at_time t).

Lemma removed_length i s : Z.of_nat (length (removed i s)) = words_taken i s.
Proof. unfold removed. rewrite length_take, queued_length. pose proof (taken_bounds i s). lia. Qed.

Lemma stalled_step k a r n t :
  stalled k a r n t -> moves k a r t \/ stalled k a r (n + Z.of_nat (length (stored (ins t) (at_time t)))) (S t).
Proof.
  intros [(rest & U) Hn]. pose proof (taken_bounds (ins t) (at_time t)) as B.
  destruct (Z.eq_dec (words_taken (ins t) (at_time t)) 0) as [Z0 | NZ]; [|left; split; [by exists rest | lia]].
  right. pose proof (underway_step k a r rest (ins t) _ (primed_at t) U) as Hu. cbv zeta in Hu.
  pose proof (underway_left k a r rest _ U) as W. pose proof (writing_left k a r _ W).
  destruct (occupancy_step (ins t) (at_time t) (buffer_occupancy _ (buffer_at t))) as [O _].
  destruct (tlp_written (at_time t) (ins t)).
  - destruct Hu as [Hl _]. rewrite removed_length in Hl. exfalso. revert Hl. Z.to_euclidean_division_equations. lia.
  - destruct Hu as (r' & rest' & U' & Hl & _). rewrite removed_length, Z0 in Hl. split; [|cbn [rq_at]; lia].
    replace r' with r in U' by lia. by exists rest'.
Qed.
Lemma stalled_weaken k a r n m t : m <= n -> stalled k a r n t -> stalled k a r m t.
Proof. intros Hm [U Hn]. split; [done | lia]. Qed.

(** A stalled packet gets its words, *)
Lemma filled k a r n t :
  n < 2 -> stalled k a r n t -> exists v, (t <= v)%nat /\ (moves k a r v \/ stalled k a r (n + 1) v).
Proof.
  intros Hn St. destruct (supplied_words F t) as (u & Hu & Hv). replace u with (t + (u - t))%nat in Hv by lia.
  assert (forall v, stalled k a r n v -> moves k a r v \/ stalled k a r n (S v)) as Hs.
  { intros v Hx. destruct (stalled_step k a r n v Hx) as [|Hx']; [by left | right].
    apply (stalled_weaken _ _ _ _ n) in Hx'; [done | lia]. }
  destruct (until (stalled k a r n) (fun v => moves k a r v \/ stalled k a r (n + 1) (S v)) (u - t) t)
    as (v & Hv' & [M | M]); [| done | | by exists v; auto | exists (S v); split; [lia | by right]].
  - intros v Hx. destruct (Hs v Hx); auto.
  - intros Hx. destruct (Z.le_gt_cases (c2s_buf_occupancy (at_time (t + (u - t)))) 12) as [L|L].
    + destruct (stalled_step _ _ _ _ _ Hx) as [|Hx']; [by left | right].
      eapply stalled_weaken; [|exact Hx']. unfold stored, c2s_fifo_tready_s.
      rewrite Hv, (proj2 (Z.leb_le _ _)) by lia. cbn [andb length]. lia.
    + destruct (stalled_step k a r (n + 1) (t + (u - t))) as [|Hx']; [split; [apply Hx | lia] | by left | right].
      eapply stalled_weaken; [|exact Hx']. lia.
Qed.

(** and then it moves. *)
Lemma moving k a r n t : 0 <= n -> stalled k a r n t -> exists v, (t <= v)%nat /\ moves k a r v.
Proof.
  intros Hn St. assert (forall m v, 2 - m < 2 -> stalled k a r (2 - m) v -> 0 <= m <= 2 ->
    exists u, (v <= u)%nat /\ (moves k a r u \/ stalled k a r 2 u)) as Fill.
  { intros m v Hm. assert (m = 1 \/ m = 2 \/ m <= 0 \/ 2 < m) as [-> | [-> | ?]] by lia; intros S0 Hr; try lia.
    - by destruct (filled k a r 1 v ltac:(lia) S0) as (u & ? & ?); exists u.
    - destruct (filled k a r 0 v ltac:(lia) S0) as (u & Hu & [M | S1]); [by exists u; auto|].
      destruct (filled k a r 1 u ltac:(lia) S1) as (x & Hx & ?). exists x. split; [lia | done]. }
  destruct (Fill 2 t ltac:(lia) (stalled_weaken k a r n 0 t Hn St) ltac:(lia)) as (v & Hv & [M | S2]); [by exists v|].
  destruct (supplied_ready F v) as (u & Hu & Hq). replace u with (v + (u - v))%nat in Hq by lia.
  destruct (until (stalled k a r 2) (moves k a r) (u - v) v) as (x & Hx & M); [| done | | exists x; split; [lia | done]].
  - intros y Hy. destruct (stalled_step k a r 2 y Hy) as [|Hx']; [by left | right].
    eapply stalled_weaken; [|exact Hx']. lia.
  - intros [(rest & U) Ho]. split; [by exists rest|]. pose proof (proj2 (occupancy_2 _) Ho) as O2.
    pose proof (two_is_one _ O2) as O1. unfold words_taken. rewrite Hq, O1, O2.
    destruct U as [[[-> _] _] | [[-> _] _]]; [lia|]. by destruct (last_word_at_tlp_s _); cbn [andb]; lia.
Qed.

(** A move comes nearer to the end. *)
Lemma moves_next k a r t :
  moves k a r t ->
  said_end (at_time (S t)) \/
  exists k' a' r' rest', underway k' a' r' rest' (at_time (S t)) /\ 64 * k - r < 64 * k' - r'.
Proof.
  intros [(rest & U) M]. pose proof (underway_left k a r rest _ U) as W.
  pose proof (underway_step k a r rest (ins t) _ (primed_at t) U) as Hu. cbv zeta in Hu.
  pose proof (writing_left k a r _ W) as Hr. pose proof (writing_count k a r _ W).
  destruct (tlp_written (at_time t) (ins t)) eqn:T.
  - pose proof (written_next k a r (ins t) _ (Hh t) (primed_at t) W T) as Hn.
    destruct (k + 1 =? n_writes); [by left|]. destruct Hn as (a' & _ & O). right.
    exists (k + 1), a', (words_of_write (k + 1)), (packet (write_head (k + 1) a') (words_of_write (k + 1))).
    split; [by left|]. pose proof (words_of_write_range (k + 1) ltac:(lia)). lia.
  - destruct Hu as (r' & rest' & U' & -> & _). right. exists k, a, (r - 4 * Z.of_nat (length (removed (ins t) (at_time t)))), rest'.
    split; [done|]. rewrite removed_length. lia.
Qed.

Lemma all_written k a r rest t : underway k a r rest (at_time t) -> exists v, said_end (at_time v).
Proof.
  remember (Z.to_nat (64 * n_writes - (64 * k - r))) as n eqn:En. revert k a r rest t En.
  induction n as [n IH] using lt_wf_ind. intros k a r rest t En U.
  destruct (moving k a r 0 t ltac:(lia)) as (v & Hv & M).
  { split; [by exists rest|]. apply occupancy_bounds. }
  destruct (moves_next k a r v M) as [E | (k' & a' & r' & rest' & U' & L)]; [by exists (S v)|].
  pose proof (underway_left _ _ _ _ _ U') as W'. pose proof (writing_count _ _ _ _ W'). pose proof (writing_left _ _ _ _ W').
  apply (IH (Z.to_nat (64 * n_writes - (64 * k' - r'))) ltac:(lia) k' a' r' rest' (S v) eq_refl U').
Qed.

Lemma write_opens t : ready (at_time t) -> exists v, opening 0 (addr_of d) (at_time v).
Proof.
  intros Hr. destruct (supplied_ready F t) as (u & Hu & Hq). replace u with (t + (u - t))%nat in Hq by lia.
  destruct (until (fun v => ready (at_time v)) (fun v => opening 0 (addr_of d) (at_time (S v))) (u - t) t)
    as (v & _ & O); [| done | | by exists (S v)].
  - intros v Hv. destruct (startable (at_time v) (ins v)) eqn:B;
      [left; by apply ready_opens, B; [apply Hh | apply primed_at|] | right; by apply ready_stays].
  - intros Hv. apply (ready_opens (ins (t + (u - t))) (at_time (t + (u - t)))); [apply Hh | apply primed_at | done |].
    unfold startable. rewrite Hq.
    pose proof (Hh (t + (u - t))%nat) as Hd. red in Hd. rewrite Hd, (wop_valid op). destruct Hv as (V1 & V2 & V3).
    by rewrite V3, (idle_no_end _ V1 V2).
Qed.

Lemma write_comes_to_end : ready s0 -> exists t, end_of_operation (at_time t) = true.
Proof.
  intros Hr. destruct (write_opens 0 Hr) as (v & O).
  destruct (all_written 0 (addr_of d) (words_of_write 0) (packet (write_head 0 (addr_of d)) (words_of_write 0)) v) as (t & E).
  - by left.
  - exists t. by apply (said_end_step (ins t)).
Qed.

(** *** What is measured *)

Definition could_write (t : nat) : Prop :=
  wr_state (at_time t) = INIT_WRITE /\ q_tready (ins t) = true.

Lemma write_phase_at t : ready s0 -> exists ws bs, write_phase ws bs (at_time t).
Proof.
  intros Hr. induction t as [|t (ws & bs & IH)]; [exists [], []; by left|]. eexists _, _.
  apply (write_step ws bs (ins t) _ (Hh t) (primed_at t) IH).
Qed.

Lemma write_phase_state ws bs s : write_phase ws bs s -> wr_state s <> INIT_READ.
Proof.
  intros [[R _] | [(k & a & S) | [E _]]].
  - by rewrite (proj1 R).
  - destruct S as (? & ? & ? & ? & ? & ? & ? & [[[-> _] _] | [[-> _] _]] & _); done.
  - by destruct E as [[-> _] | [-> _]].
Qed.

Lemma written_iff t : wr_state (at_time t) <> INIT_READ -> starts_at ins s0 t <-> could_write t.
Proof.
  unfold starts_at, measured_start, could_write. pose proof (Hh t) as E. red in E. rewrite E, (wop_writes op).
  destruct (q_tready (ins t)), (wr_state (at_time t)); cbn [andb]; split; try done; by intros [? ?].
Qed.

Lemma unwritten t :
  ready s0 -> (forall u, (u < t)%nat -> ~ starts_at ins s0 u) ->
  ready (at_time t) \/ opening 0 (addr_of d) (at_time t).
Proof.
  intros Hr Hn. induction t as [|t IH]; [by left|].
  destruct IH as [R | O]; [intros u Hu; apply Hn; lia | |].
  - destruct (startable (at_time t) (ins t)) eqn:B; [right | left; by apply ready_stays].
    by apply (ready_opens (ins t) _ (Hh t) (primed_at t) R).
  - right. apply (opening_stays 0 (addr_of d) (ins t) _ O). apply andb_false_intro1, not_true_iff_false. intros Q.
    apply (Hn t ltac:(lia)), written_iff; [by rewrite (proj1 O) | by split; [apply O|]].
Qed.

(** At the end, the clock has the cycles since the first packet could start. *)
Lemma write_latency_at t :
  stop_latency (r_meter s0) = true -> ready s0 ->
  (forall u, (u < t)%nat -> end_of_operation (at_time u) = false) ->
  end_of_operation (at_time t) = true ->
  exists a, (could_write a /\ forall u, (u < a)%nat -> ~ could_write u) /\ (a < t)%nat /\
    current_latency_r (r_meter (at_time (S t))) = u64 (Z.of_nat t - Z.of_nat a).
Proof.
  intros Hs Hr Hn He. assert (forall u, starts_at ins s0 u <-> could_write u) as Hw.
  { intros u. apply written_iff. destruct (write_phase_at u Hr) as (ws & bs & P). by apply (write_phase_state ws bs). }
  destruct (clock_at ins s0 t Hs Hn) as [C | (a & C)].
  - exfalso. destruct (unwritten t Hr (proj2 C)) as [R | O].
    + by rewrite (idle_no_end _ (proj1 R) (proj1 (proj2 R))) in He.
    + unfold end_of_operation in He. by rewrite (proj1 O) in He.
  - exists a. pose proof C as ([C1 C2] & C3 & C4). split; [split; [by apply Hw|] | split; [done|]].
    + intros u Hu Cu. apply (C2 u Hu). by apply Hw.
    + by apply (clock_read ins s0 a t).
Qed.
End Live.

(** At any time: whole TLPs, and the beginning of a packet. *)
Definition begun (ws : list Z) (bs : list packet_beat) : Prop :=
  exists k a ws1 bs1 new bs2,
    k <= n_writes /\ sent k a ws1 bs1 /\ ws = ws1 ++ new /\ bs = bs1 ++ bs2 /\
    ((new = [] /\ bs2 = []) \/
     exists a', in_buffer (PLACEMENT d) a' /\ (k mod write_group = 0 \/ a' = a) /\
       forall ws', exists bs', packet (write_head k a') (words_of_write k) (new ++ ws') = bs2 ++ bs').

Lemma write_phase_begun ws bs s : write_phase ws bs s -> begun ws bs.
Proof.
  pose proof n_writes_bounds as [_ N]. intros [(_ & -> & ->) | [(k & a & S) | (_ & a & S)]].
  - exists 0, (addr_of d), [], [], [], []. split_and!; try done; try lia; try by left. apply sent_none.
    destruct (room_size _ _ room), (room_host _ _ room) as (h & Hh1 & Hh2).
    pose proof (Z.pow_le_mono_r 2 12 h ltac:(lia) ltac:(lia)). change (2 ^ 12) with 4096 in *.
    unfold in_buffer. fold (addr_of d). lia.
  - destruct S as (a0 & r & rest & new & ws1 & bs1 & bs2 & U & S & G & -> & -> & _ & P).
    pose proof (underway_left k a r rest s U) as W. pose proof (writing_count k a r s W).
    exists k, a0, ws1, bs1, new, bs2. split_and!; try done; [lia|]. right. exists a.
    split_and!; [apply W | done |]. intros ws'. exists (rest ws'). apply P.
  - exists n_writes, a, ws, bs, [], []. rewrite !app_nil_r. split_and!; try done; try lia; by left.
Qed.
End Operation.

(** C12.  The requests of a write.  Once the configuration of a descriptor for writes has been shown
    for seven cycles of rest, and from the cycle in which it becomes valid, the machine
    sends packet by packet the TLPs that the benchmark counts with: each has the header
    of its place in its group, which lies in the buffer of the host, and then the next
    words of the application, in order, with TKEEP and TLAST as their count wants.  The
    end of the operation is only said with whole groups sent, as many as are needed for
    the TLPs of the descriptor, and what the bits of TKEEP count is their headers and the
    bytes of that many TLPs. *)
Theorem write_requests d s quiets qs :
  write_op d -> roomy (PLACEMENT d) (address_mode_s d) -> still s -> buffer_ok s ->
  (7 <= length quiets)%nat -> Forall (held (quiet d)) quiets -> Forall (held d) qs ->
  let s1 := rq_run quiets s in
  let s2 := rq_run qs s1 in
  let out := map beat_of (gathered accepted qs s1 ++ pending s2) in
  let ws := gathered removed qs s1 in
  queued s1 ++ gathered stored qs s1 = ws ++ queued s2 /\ begun d ws out /\
  (end_of_operation s2 = true ->
   (exists a, sent d (n_writes d) a ws out) /\
   4 * dwords_of out = 16 * n_writes d + bytes_of_tlps D2H (size_of d) (Z.to_nat (n_writes d))).
Proof.
  intros op room St Bk Hl Hq H. cbv zeta.
  destruct (still_primed d room quiets s Hq Hl St) as (P & R & St').
  destruct (queue_run quiets s Bk) as [Bk' _]. destruct (queue_run qs (rq_run quiets s) Bk') as [_ Q].
  rewrite slice. unfold pending. rewrite (still_stream _ St'). cbn [app].
  pose proof (write_run d op room [] [] qs _ H P) as W. cbn [app] in W. specialize (W ltac:(by left)).
  split; [done|]. split; [by apply (write_phase_begun d op room _ _ _ W)|].
  intros He. destruct (write_ends_in d _ _ _ W He) as [_ [a S]]. split; [by exists a|].
  by apply (sent_bytes d op _ _ _ _ S).
Qed.

(** A write ends.  On a link that takes beats again and again, with an application that has
    words again and again, by one or by two, the operation that starts when the
    descriptor becomes valid comes to its end. *)
Theorem writes_end d s quiets ins :
  write_op d -> roomy (PLACEMENT d) (address_mode_s d) -> still s -> buffer_ok s ->
  (7 <= length quiets)%nat -> Forall (held (quiet d)) quiets ->
  (forall t, held d (ins t)) -> supplied ins ->
  exists t, end_of_operation (rq_at ins (rq_run quiets s) t) = true.
Proof.
  intros op room St Bk Hl Hq Hh F. destruct (still_primed d room quiets s Hq Hl St) as (P & R & _).
  destruct (queue_run quiets s Bk) as [Bk' _]. by apply (write_comes_to_end d op room ins).
Qed.

(** ** On a link

    Three TLPs of a request of 300 bytes, of 256, 44 and 256 bytes, are sent as four: the
    card does not stop in a group, and the 900 bytes are not those the benchmark divides
    by the time. *)
Definition write_300 : shown := Shown true 1 (Placement 0x100000 300 8192 0) 3 1.

(** The link takes every beat, and there are always two words. *)
Definition fed (d : shown) : rq_in := RqIn d true false 0 [] true 0x100000000000000000000000000000002 0xffffffff.

Lemma write_300_op : write_op write_300.
Proof. by split. Qed.

Lemma write_300_roomy : roomy (PLACEMENT write_300) (address_mode_s write_300).
Proof. split; [done | done | by exists 13 | done | done]. Qed.

(** More TLPs than were asked for, unless the groups come out even. *)
Lemma writes_overcount d :
  write_op d -> 1 <= NUMBER_TLPS d -> NUMBER_TLPS d mod write_group d <> 0 -> NUMBER_TLPS d < n_writes d.
Proof.
  intros op H1 Hm. pose proof (n_writes_bounds d op) as [[B _] _]. destruct (Z.eq_dec (NUMBER_TLPS d) (n_writes d)) as [E|]; [|lia].
  exfalso. apply Hm. rewrite E. unfold n_writes. rewrite Z.mul_comm, Z.mod_mul; [done|]. pose proof (write_group_bounds d op). lia.
Qed.

Example bandwidth_of_768 :
  n_writes (Shown true 1 (Placement 0 768 (2 ^ 20) 0) DEFAULT_NUMBER_TLPS 1) = DEFAULT_NUMBER_TLPS + 2.
Proof. reflexivity. Qed.

Definition quiet_feed : list rq_in := repeat (fed (quiet write_300)) 7.
Definition write_feed : list rq_in := repeat (fed write_300) 23.

Lemma write_requests_witness :
  let s1 := rq_run quiet_feed rq_reset in
  let out := map beat_of (gathered accepted write_feed s1 ++ pending (rq_run write_feed s1)) in
  4 * dwords_of out = 16 * 4 + bytes_of_tlps D2H 300 4 /\ bytes_of_tlps D2H 300 4 = 600.
Proof.
  cbv zeta. split; [|reflexivity].
  destruct (write_requests write_300 rq_reset quiet_feed write_feed write_300_op write_300_roomy) as (_ & _ & E).
  - by split.
  - by split; vm_compute.
  - reflexivity.
  - by repeat constructor.
  - by repeat constructor.
  - apply E. by vm_compute.
Defined.

Lemma writes_end_witness :
  exists t, end_of_operation (rq_at (fun _ => fed write_300) (rq_run quiet_feed rq_reset) t) = true.
Proof.
  apply (writes_end write_300 rq_reset quiet_feed (fun _ => fed write_300) write_300_op write_300_roomy).
  - by split.
  - by split; vm_compute.
  - reflexivity.
  - by repeat constructor.
  - done.
  - split; intros t; by exists t.
Defined.
