(* ===== verification/DmaLogic.v ===== *)
(** * The whole card (dma_logic.v)

    The card of CardBus.v with the engine in it: the generator of requests (Requester.v)
    takes its descriptor from the engine manager, gives it the end of the operation and
    the measurements, and shares the tags with the counter of completions
    (Completions.v).  What is outside is the PCI Express core, on three streams, and the
    buffer of the application ([lines]).  The end of an operation and its measurements, which
    are inputs of the models of the manager and of the card, come from the generator here:
    they arrive as those models take them to arrive ([ends_once]), and a read or a write
    that is started is performed, once ([card_performs_read], [card_performs_write]). *)

From S2P Require Import Prelude BenchArgs BenchMain EngineManager EngineReads DeviceDma Completer.
From S2P Require Import Completions CardBus AddressGen Requester RequesterReads C2sBuffer RequesterWrites.
From Stdlib Require Import ZArith Lia.
From stdpp Require Import base list gmap.
Local Open Scope Z_scope.

Section Whole.
Context {R : Type} `{BramPort R}.

Record whole := Whole {
  w_card : card (R := R);
  w_rq : requester;
  w_rc : completions
}.

(** The inputs of a cycle: a request of the host, the readiness for completions and for
    requests, a beat of an answer with its TKEEP, and the port of the buffer c2s_fifo_i. *)
Record lines := Lines {
  l_cq : cq; l_cc_tready : bool;
  l_rq_tready : bool;
  l_rc : rc; l_rc_tkeep : Z;
  l_c2s_tvalid : bool; l_c2s_tdata : Z; l_c2s_tkeep : Z
}.

(** Lines 162 to 199 and 320 to 338: what the generator is shown. *)
Definition shown_of (f : full (R := R)) : shown :=
  let c := m_config (f_manager f) in
  let e := f_engine f in
  Shown (VALID_ENGINE e) (bits 8 5 (STATUS_BYTE f))
    (Placement (DESCRIPTOR_ADDR e) (DESCRIPTOR_SIZE e) (buffer_at_host_r c) (address_gen_offset_r c))
    (number_tlps_r c) (WINDOW_SIZE e).

Definition rq_input (l : lines) (x : whole) : rq_in :=
  RqIn (shown_of (t_full (w_card x))) (l_rq_tready l) (S_AXIS_RC_TVALID (l_rc l)) (l_rc_tkeep l)
    (COMPLETED_TAGS (w_rc x)) (l_c2s_tvalid l) (l_c2s_tdata l) (l_c2s_tkeep l).

(** The measurements, of which the manager keeps five. *)
Definition measured (s : requester) : stats :=
  let m := r_meter s in
  Stats (current_latency_r m) (time_req_r m) (time_comp_r m) (bytes_req_r m) (bytes_comp_r m).

(** CONTROL_BYTE[4] is 0, and so is byte_count_r. *)
Definition engine_pins (l : lines) (x : whole) : pins :=
  Pins (l_cq l) (l_cc_tready l) (Z.testbit (CONTROL_BYTE (w_rq x)) 3) (update_latency_r (r_meter (w_rq x)))
    (measured (w_rq x)) (Z.testbit (CONTROL_BYTE (w_rq x)) 4) 0.

(** A rising edge; the reset of line 160 takes all the blocks with it. *)
Definition whole_step (l : lines) (x : whole) : whole :=
  let c := t_completer (w_card x) in
  let t := r_tags (w_rq x) in
  if logic_en c && user_reset (mem_access c)
  then Whole (card_step (engine_pins l x) (w_card x)) rq_reset rc_reset
  else Whole (card_step (engine_pins l x) (w_card x)) (rq_step (rq_input l x) (w_rq x))
    (rc_step (l_rc l) (current_tags_r t) (size_tags_r t) (w_rc x)).

Definition manager_of (x : whole) : manager (R := R) := f_manager (t_full (w_card x)).

(** What the generator takes from the status: the capabilities and the mode. *)
Lemma shown_status (f : full (R := R)) :
  bits 8 5 (STATUS_BYTE f) =
    (capabilities_r (m_config (f_manager f)) + 4 * address_mode_r (m_config (f_manager f))) mod 16.
Proof.
  unfold bits, STATUS_BYTE. cbv zeta. change (2 ^ (8 - 5 + 1)) with 16. change (2 ^ 5) with 32. f_equal.
  set (c := capabilities_r _). set (a := address_mode_r _).
  symmetry. apply (Z.div_unique_pos _ _ _ (Z.b2z (enable_r (f_manager f)) + 2 * Z.b2z (reset_r (f_counters f)) +
    4 * Z.b2z (running_r (f_counters f)) + 8 * Z.b2z (stop_r (f_manager f)) + 16 * Z.b2z (error_r (f_counters f)))); [|lia].
  assert (forall b, 0 <= Z.b2z b <= 1) as Hb by by destruct b.
  pose proof (Hb (enable_r (f_manager f))). pose proof (Hb (reset_r (f_counters f))).
  pose proof (Hb (running_r (f_counters f))). pose proof (Hb (stop_r (f_manager f))).
  pose proof (Hb (error_r (f_counters f))). lia.
Qed.

Lemma control_end s : Z.testbit (CONTROL_BYTE s) 3 = end_of_operation s.
Proof. unfold CONTROL_BYTE. by destruct (end_of_operation s). Qed.

(** ** The end of an operation

    Whatever comes in, the measurements are handed over in the cycle after the end of an
    operation, and in no other, and two ends never follow one another. *)
Theorem ends_once i s :
  update_latency_r (r_meter (rq_step i s)) = end_of_operation s /\
  (end_of_operation s = true -> end_of_operation (rq_step i s) = false).
Proof.
  assert (forall u, end_of_operation s = u -> measured_start i s && u = false) as Hm.
  { intros u <-. unfold measured_start, end_of_operation. destruct (wr_state s); try (by rewrite andb_false_r); by destruct (q_tready i). }
  split.
  - cbn [rq_step r_meter]. unfold next_meter. pose proof (Hm _ eq_refl) as Hx.
    assert (negb (measured_start i s) && end_of_operation s = end_of_operation s) as E.
    { by destruct (measured_start i s), (end_of_operation s). }
    by destruct (stop_latency (r_meter s)).
  - intros He. unfold end_of_operation at 1. cbn [rq_step wr_state wr_state_pipe_r].
    assert (wr_state s = IDLE \/ wr_state s = WAIT_READ) as Hs.
    { unfold end_of_operation in He. destruct (wr_state s); try done; auto. }
    assert (next_wr_state i s = IDLE) as ->.
    { unfold next_wr_state, startable. rewrite He. destruct Hs as [-> | ->]; [|done].
      by rewrite !andb_false_r, !andb_false_l. }
    apply bool_decide_eq_false. by destruct Hs as [-> | ->]; intros [? | ?].
Qed.

(** ** The manager while an operation is going on *)

Section Laws.
Context `{!BramLaws R} `{!BramPortLaws R}.

(** Nothing is about to be written to the tables. *)
Definition quiet_ports (p : port) : Prop :=
  ena_time_r p = false /\
  (ena_size_r p || ena_address_r p || ena_control_r p = true -> wea_r p = 0).

Lemma quiet_read i p : i_update i = false -> no_write i -> quiet_ports p -> quiet_ports (next_port i p).
Proof.
  intros Hu Hw Hp. unfold next_port, quiet_ports. rewrite Hu. unfold no_write, access_of in Hw.
  destruct (i_en i); [|done]. destruct (in_tables (i_bus i)); [|done]. cbn. split; [done|]. intros _. by apply Hw.
Qed.

(** A memory behind a quiet port keeps its words, and there is no clash. *)
Lemma quiet_memory ena we a d (r : R) :
  (ena = true -> we = 0) -> same_words (if ena then bram_write a we d r else r) r /\ writing ena we = false.
Proof.
  intros Hq. destruct ena; [|by split]. rewrite (Hq eq_refl). split; [apply bram_write_nothing | done].
Qed.

Lemma quiet_tables active p (t : tables (R := R)) :
  quiet_ports p -> next_tables active p t ≡ t /\
  writing (ena_size_r p) (wea_r p) = false /\ writing (ena_address_r p) (wea_r p) = false.
Proof.
  intros [Ht Hw]. unfold next_tables. cbv zeta. rewrite Ht.
  assert (forall e, (e = true -> ena_size_r p || ena_address_r p || ena_control_r p = true) -> e = true -> wea_r p = 0) as He by auto.
  destruct (quiet_memory (ena_size_r p) (wea_r p) (addra_size_r p) (dina_r p) (mem_size t)) as [S1 S2].
  { apply He. by intros ->. }
  destruct (quiet_memory (ena_address_r p) (wea_r p) (addra_address_r p) (dina_r p) (mem_address t)) as [A1 A2].
  { apply He. intros ->. by rewrite orb_true_r. }
  destruct (quiet_memory (ena_control_r p) (wea_r p) (addra_control_r p) (dina_r p) (mem_control t)) as [C1 _].
  { apply He. intros ->. by rewrite orb_true_r. }
  split; [by eightfold | done].
Qed.

(** The engine is enabled, the generator is shown [d], and will go on being shown it. *)
Record showing (d : shown) (v : device (R := R)) (f : full (R := R)) : Prop := {
  showing_settled : settled (f_manager f) ≡ v;
  showing_enable : enable_r (f_manager f) = true;
  showing_stop : stop_r (f_manager f) = false;
  showing_clear : cl_engine_stats_r (f_manager f) = false;
  showing_ports : quiet_ports (m_port (f_manager f));
  showing_address : b_address (f_outputs f) = Dual (addr_of d) (addr_of d) /\
    bram_read (mem_address (m_tables (f_manager f))) (active_index_descriptor_r (f_manager f)) = addr_of d;
  showing_size : b_size (f_outputs f) = Dual (size_of d) (size_of d) /\
    bram_read (mem_size (m_tables (f_manager f))) (active_index_descriptor_r (f_manager f)) = size_of d;
  showing_window : window_size_r (m_config (f_manager f)) = CURRENT_WINDOW_SIZE d;
  showing_active : active_index_descriptor_pipe_r (f_engine f) = active_index_descriptor_r (f_manager f);
  showing_shown : shown_of f = d;
  showing_valid : ENGINE_VALID d = true
}.

Lemma config_read i m : no_write i -> m_config (step i m) = m_config m.
Proof.
  intros Hw. unfold step, no_write, access_of in *. cbn. destruct (i_en i); [|done].
  unfold write_config. rewrite (Hw _ eq_refl). by destruct (m_config m).
Qed.

Lemma enable_read i m : no_write i -> enable_r (step i m) = enable_r m && negb (stop_r m).
Proof.
  intros Hw. unfold step, no_write, access_of, write_control in *. cbn. destruct (i_en i); [|done].
  by rewrite (Hw _ eq_refl), andb_false_r.
Qed.

Lemma settled_read i m : calm i -> no_write i -> settled (step i m) ≡ settled m.
Proof.
  intros Hc Hw. rewrite step_calm by done. unfold no_write in Hw.
  destruct (access_of i); [by apply apply_read, Hw | done].
Qed.

Lemma showing_step d v w f :
  calm_wires w -> no_write (w_input w) -> showing d v f -> showing d v (full_step w f).
Proof.
  intros Hc Hw [S1 S2 S3 S4 S5 [S6 S6'] [S7 S7'] S8 S9 S10 S11]. unfold calm_wires in Hc.
  pose proof (quiet_tables (active_index_descriptor_r (f_manager f)) _ (m_tables (f_manager f)) S5) as (Q & W1 & W2).
  eight Q. pose proof Hc as [He Hu].
  assert (active_index_descriptor_r (step (w_input w) (f_manager f)) = active_index_descriptor_r (f_manager f)) as Ea
    by by apply calm_active.
  assert (VALID_ENGINE (f_engine f) = ENGINE_VALID d /\ DESCRIPTOR_ADDR (f_engine f) = addr_of d /\
    DESCRIPTOR_SIZE (f_engine f) = size_of d /\ WINDOW_SIZE (f_engine f) = CURRENT_WINDOW_SIZE d)
    as (V1 & V2 & V3 & V4) by by rewrite <- S10.
  split; cbn [full_step f_manager f_outputs f_engine].
  - by rewrite settled_read.
  - by rewrite enable_read, S2, S3.
  - cbn. rewrite S4, He. done.
  - by apply step_quiet_clear.
  - by apply quiet_read.
  - rewrite Ea. cbn. rewrite W2, S6. unfold dual_next. cbn [dual_latch andb]. rewrite port_b_quiet, S6'. split; [done|].
    by rewrite (E2 _).
  - rewrite Ea. cbn. rewrite W1, S7. unfold dual_next. cbn [dual_latch andb]. rewrite port_b_quiet, S7'. split; [done|].
    by rewrite (E1 _).
  - by rewrite config_read.
  - by rewrite Ea.
  - etransitivity; [|exact S10]. unfold shown_of. rewrite !shown_status.
    cbn [full_step f_manager f_engine next_engine VALID_ENGINE DESCRIPTOR_ADDR DESCRIPTOR_SIZE WINDOW_SIZE].
    rewrite config_read, S6, S7, V1, V2, V3, V4, He, S2, S9, Z.eqb_refl, S11 by done. cbn [dual_dout andb]. by rewrite S8.
  - done.
Qed.
(** The cycle after the end of the last operation, and the time after that. *)
Record ending (v : device (R := R)) (f : full (R := R)) : Prop := {
  ending_settled : settled (f_manager f) ≡ end_operation v;
  ending_stop : stop_r (f_manager f) = true;
  ending_valid : VALID_ENGINE (f_engine f) = false;
  ending_active : active_index_descriptor_r (f_manager f) <> active_index_descriptor_pipe_r (f_engine f)
}.

Record stopped (v : device (R := R)) (f : full (R := R)) : Prop := {
  stopped_settled : settled (f_manager f) ≡ v;
  stopped_enable : enable_r (f_manager f) = false;
  stopped_valid : VALID_ENGINE (f_engine f) = false
}.

Lemma showing_end d v w f :
  v_active v = last_index_descriptor_r (v_config v) ->
  i_end (w_input w) = true -> i_update (w_input w) = false -> no_write (w_input w) ->
  showing d v f -> ending v (full_step w f).
Proof.
  intros Hv He Hu Hw S. pose proof (showing_settled d v f S) as Q. pose proof Q as (_ & Qa & Qc & _).
  unfold settled in Qa, Qc. cbn in Qa, Qc.
  split; cbn [full_step f_manager f_engine].
  - rewrite step_end by (done || apply S). by apply end_operation_proper.
  - cbn. by rewrite (showing_clear d v f S), He, Qa, Qc, Hv, Z.eqb_refl.
  - cbn. by rewrite He, Qa, Qc, Hv, Z.eqb_refl.
  - cbn. unfold next_active, next_index. rewrite He. destruct (Z.eqb_spec (active_index_descriptor_r (f_manager f)) (C_NUM_DESCRIPTORS - 1));
      unfold C_NUM_DESCRIPTORS in *; lia.
Qed.

Lemma ending_update v w f :
  i_end (w_input w) = false -> i_update (w_input w) = true -> no_write (w_input w) ->
  ending v f -> stopped (finish (i_stats (w_input w)) v) (full_step w f).
Proof.
  intros He Hu Hw [E1 E2 E3 E4]. split; cbn [full_step f_manager f_engine].
  - rewrite step_update by done. by apply store_stats_proper.
  - by rewrite enable_read, E2, andb_false_r.
  - cbn. by rewrite He, (proj2 (Z.eqb_neq _ _) E4).
Qed.

Lemma stopped_step v w f :
  calm_wires w -> no_write (w_input w) -> stopped v f -> stopped v (full_step w f).
Proof.
  intros Hc Hw [S1 S2 S3]. split; cbn [full_step f_manager f_engine].
  - by rewrite settled_read.
  - by rewrite enable_read, S2.
  - cbn. by rewrite (proj1 Hc), S2, andb_false_r.
Qed.

(** ** An operation, from its start

    The descriptor is shown and valid, and nothing is measured. *)
Record started (d : shown) (v : device (R := R)) (x : whole) : Prop := {
  started_store : c_st (t_completer (w_card x)) <> S_STORE_WR_REQ;
  started_full : showing d v (t_full (w_card x));
  started_update : update_latency_r (r_meter (w_rq x)) = false;
  started_clock : stop_latency (r_meter (w_rq x)) = true
}.

(** The host only loads. *)
Definition only_loads (l : lines) : Prop := decoded_req (l_cq l) <> VALID_WR_REQ.

Section Stream.
Context (d : shown) (v : device (R := R)) (x0 : whole) (ls : nat -> lines).

Fixpoint whole_at (t : nat) : whole :=
  match t with O => x0 | S t' => whole_step (ls t') (whole_at t') end.

Definition ends_at (t : nat) : bool := end_of_operation (w_rq (whole_at t)).
Definition ended_before (t : nat) : bool := existsb ends_at (seq 0 t).

Context (Hls : forall t, only_loads (ls t)) (St : started d v x0).

Lemma ended_S t : ended_before (S t) = ended_before t || ends_at t.
Proof. unfold ended_before. rewrite seq_S, existsb_app. cbn. by rewrite orb_false_r. Qed.

(** The wires of the manager in cycle [t]. *)
Definition wires_at (t : nat) : wires :=
  card_wires (engine_pins (ls t) (whole_at t)) (t_completer (w_card (whole_at t))).

Lemma no_store t : c_st (t_completer (w_card (whole_at t))) <> S_STORE_WR_REQ.
Proof.
  induction t as [|t IH]; [apply St|]. pose proof (Hls t) as Hl. unfold only_loads in Hl. cbn [whole_at].
  assert (w_card (whole_step (ls t) (whole_at t)) = card_step (engine_pins (ls t) (whole_at t)) (w_card (whole_at t))) as ->
    by (unfold whole_step; by destruct (logic_en _ && _)).
  rewrite card_step_read by done. cbn [t_completer]. unfold completer_step.
  destruct (next_cpl _ _) as [[? ?] ?]. cbn [c_st]. unfold next_state. cbn [engine_pins p_cq].
  destruct (c_st (t_completer (w_card (whole_at t)))); try done; repeat case_match; done.
Qed.

Lemma wires_read t : no_write (w_input (wires_at t)).
Proof.
  unfold no_write, access_of, wires_at, card_wires. cbn [w_input i_en i_bus].
  destruct (logic_en _); [|done]. intros x [= <-]. apply access_read, no_store.
Qed.

(** Without stores there is no reset, and the parts take their steps. *)
Lemma parts_step t :
  t_full (w_card (whole_at (S t))) = full_step (wires_at t) (t_full (w_card (whole_at t))) /\
  w_rq (whole_at (S t)) = rq_step (rq_input (ls t) (whole_at t)) (w_rq (whole_at t)).
Proof.
  cbn [whole_at]. unfold whole_step, user_reset. rewrite (access_read _ (no_store t)).
  change (Z.testbit 0 0) with false. rewrite andb_false_r, andb_false_l, andb_false_r. cbn [w_card w_rq].
  split; [|done]. by rewrite card_step_read by apply no_store.
Qed.

Lemma wires_end t : i_end (w_input (wires_at t)) = ends_at t.
Proof. apply control_end. Qed.

Lemma update_next t : i_update (w_input (wires_at (S t))) = ends_at t.
Proof.
  cbn [wires_at card_wires w_input engine_pins p_update i_update]. rewrite (proj2 (parts_step t)).
  apply (ends_once (rq_input (ls t) (whole_at t)) (w_rq (whole_at t))).
Qed.

(** Until the operation ends, the descriptor is shown. *)
Lemma shown_before t :
  ended_before t = false ->
  showing d v (t_full (w_card (whole_at t))) /\ i_update (w_input (wires_at t)) = false.
Proof.
  induction t as [|t IH]; intros He; [split; [apply St | apply (started_update d v x0 St)]|].
  rewrite ended_S in He. apply orb_false_iff in He as [He1 He2]. destruct (IH He1) as [I1 I2].
  split; [|by rewrite update_next]. rewrite (proj1 (parts_step t)). apply showing_step; [|apply wires_read | done].
  split; [by rewrite wires_end | done].
Qed.

(** The inputs of the generator, with the descriptor held for ever, and any answers and
    words after the end. *)
Definition after_input : rq_in := RqIn d true false 0 (window_bits true) true 0 0.
Definition held_input (t : nat) : rq_in :=
  if ended_before t then after_input else rq_input (ls t) (whole_at t).

Lemma held_at t : held d (held_input t).
Proof.
  unfold held_input. destruct (ended_before t) eqn:E; [done|]. apply (showing_shown d v), (shown_before t E).
Qed.

Lemma same_generator t : ended_before t = false -> rq_at held_input (w_rq x0) t = w_rq (whole_at t).
Proof.
  induction t as [|t IH]; intros He; [done|]. rewrite ended_S in He. apply orb_false_iff in He as [He1 He2].
  cbn [rq_at]. rewrite (proj2 (parts_step t)), IH by done. unfold held_input. by rewrite He1.
Qed.

Lemma first_end t : ended_before t = true -> exists u, ended_before u = false /\ ends_at u = true.
Proof.
  induction t as [|t IH]; intros He; [done|]. rewrite ended_S in He.
  destruct (ended_before t) eqn:E; [by apply IH|]. by exists t.
Qed.

(** An end of the run with the descriptor held is one of the card. *)
Lemma reaches_end : (exists t, end_of_operation (rq_at held_input (w_rq x0) t) = true) ->
  exists t, ended_before t = false /\ ends_at t = true.
Proof.
  intros (t & Ht). destruct (ended_before t) eqn:E; [by apply (first_end t)|]. exists t. split; [done|].
  unfold ends_at. by rewrite <- same_generator.
Qed.

(** The machine rests, and has nothing to do. *)
Definition resting (t : nat) : Prop :=
  wr_state (w_rq (whole_at t)) = IDLE /\ not_writing (wr_state_pipe_r (w_rq (whole_at t))) /\
  VALID_ENGINE (f_engine (t_full (w_card (whole_at t)))) = false.

Lemma resting_no_end t : resting t -> ends_at t = false.
Proof.
  intros (H1 & H2 & _). unfold ends_at, end_of_operation. rewrite H1. apply bool_decide_eq_false.
  intros [E | E]; by apply H2 in E.
Qed.

Lemma resting_state t :
  resting t -> wr_state (w_rq (whole_at (S t))) = IDLE /\ not_writing (wr_state_pipe_r (w_rq (whole_at (S t)))).
Proof.
  intros (H1 & H2 & H3). rewrite (proj2 (parts_step t)). rq_cbn. split; [|by rewrite H1].
  unfold next_wr_state, startable. rewrite H1. cbn [rq_input q_shown shown_of ENGINE_VALID]. rewrite H3.
  by rewrite !andb_false_r, !andb_false_l.
Qed.

(** What the generator does at the end: it is over with the descriptor. *)
Definition ends_over : Prop :=
  forall t, ended_before t = false -> ends_at t = true -> over (w_rq (whole_at (S t))).

Context (one : v_active v = last_index_descriptor_r (v_config v)).

Lemma after_end t :
  ends_over -> ended_before t = false -> ends_at t = true ->
  let st := measured (w_rq (whole_at (S t))) in
  ending v (t_full (w_card (whole_at (S t)))) /\
  forall k, stopped (finish st v) (t_full (w_card (whole_at (S (S (k + t)))))) /\ resting (S (S (k + t))).
Proof.
  intros Ov Hb He. cbv zeta. destruct (shown_before t Hb) as [Sh Hu].
  assert (ending v (t_full (w_card (whole_at (S t))))) as En.
  { rewrite (proj1 (parts_step t)). apply (showing_end d); [done | by rewrite wires_end | done | apply wires_read | done]. }
  split; [done|].
  assert (resting (S t)) as R1.
  { destruct (Ov t Hb He) as (X1 & X2 & _). split; [done|]. split; [done | apply En]. }
  intros k. enough (resting (S (k + t)) /\ stopped (finish (measured (w_rq (whole_at (S t)))) v)
    (t_full (w_card (whole_at (S (S (k + t)))))) /\ resting (S (S (k + t)))) as (_ & ? & ?) by done.
  assert (forall u, resting u -> forall w, stopped w (t_full (w_card (whole_at (S u)))) ->
    stopped w (t_full (w_card (whole_at (S u)))) /\ resting (S u)) as Hnext.
  { intros u Hr w Hw. destruct (resting_state u Hr) as [X1 X2]. split; [done|]. split; [done|]. split; [done | apply Hw]. }
  induction k as [|k (IH1 & IH2 & IH3)]; cbn [Nat.add]; (split; [done|]); apply Hnext; try done.
  - rewrite (proj1 (parts_step (S t))). apply (ending_update v (wires_at (S t))); [| | apply wires_read | done].
    + by rewrite wires_end, resting_no_end.
    + by rewrite update_next.
  - rewrite (proj1 (parts_step (S (S (k + t))))). apply stopped_step; [|apply wires_read | done].
    split; [by rewrite wires_end, resting_no_end|]. rewrite update_next. by apply resting_no_end.
Qed.

Lemma ended_mono t u : (u <= t)%nat -> ended_before t = false -> ended_before u = false.
Proof.
  intros Hu He. induction Hu as [|t Hu IH]; [done|]. rewrite ended_S in He.
  apply orb_false_iff in He as [He _]. by apply IH.
Qed.

Lemma held_inputs t :
  ended_before t = false -> map (fun u => rq_input (ls u) (whole_at u)) (seq 0 t) = map held_input (seq 0 t).
Proof.
  intros Hb. apply map_ext_in. intros u Hu%in_seq. unfold held_input. by rewrite (ended_mono t u) by (lia || done).
Qed.

Lemma held_same t : ended_before t = false -> rq_run (map held_input (seq 0 t)) (w_rq x0) = w_rq (whole_at t).
Proof. intros Hb. by rewrite rq_run_at, same_generator. Qed.

Lemma no_end_before t u : ended_before t = false -> (u < t)%nat -> end_of_operation (rq_at held_input (w_rq x0) u) = false.
Proof.
  intros Hb Hu. rewrite same_generator by (apply (ended_mono t); [lia | done]).
  assert (ended_before (S u) = false) as E by (apply (ended_mono t); [lia | done]).
  rewrite ended_S in E. by apply orb_false_iff in E as [_ E].
Qed.

(** The beats that the link has taken, or is offered, until cycle [t], and the words that
    the writes have taken. *)
Definition sent_until (t : nat) : list axis :=
  gathered accepted (map (fun u => rq_input (ls u) (whole_at u)) (seq 0 t)) (w_rq x0) ++ pending (w_rq (whole_at t)).
Definition removed_until (t : nat) : list Z :=
  gathered removed (map (fun u => rq_input (ls u) (whole_at u)) (seq 0 t)) (w_rq x0).

(** In cycle [a] a request could be sent, in this state of the machine, for the first time. *)
Definition could (st : rq_state) (a : nat) : Prop :=
  wr_state (w_rq (whole_at a)) = st /\ l_rq_tready (ls a) = true.
Definition first_could (st : rq_state) (a : nat) : Prop := could st a /\ forall u, (u < a)%nat -> ~ could st u.

Lemma could_held st t u :
  ended_before t = false -> (u <= t)%nat ->
  (wr_state (rq_at held_input (w_rq x0) u) = st /\ q_tready (held_input u) = true) <-> could st u.
Proof.
  intros Hb Hu. unfold could. rewrite same_generator by by apply (ended_mono t).
  unfold held_input. by rewrite (ended_mono t u Hu Hb).
Qed.

Lemma first_held st t a :
  ended_before t = false -> (a < t)%nat ->
  (wr_state (rq_at held_input (w_rq x0) a) = st /\ q_tready (held_input a) = true) /\
  (forall u, (u < a)%nat -> ~ (wr_state (rq_at held_input (w_rq x0) u) = st /\ q_tready (held_input u) = true)) ->
  first_could st a.
Proof.
  intros Hb Ha [H1 H2]. split; [by apply (could_held st t) in H1; [| | lia]|].
  intros u Hu C. apply (H2 u Hu). apply (could_held st t); [done | lia | done].
Qed.

(** The latency that is stored, from that of the run with the descriptor held. *)
Lemma stored_latency t z :
  ended_before t = false -> current_latency_r (r_meter (rq_at held_input (w_rq x0) (S t))) = z ->
  st_latency (measured (w_rq (whole_at (S t)))) = z.
Proof.
  intros Hb <-. cbn [measured st_latency]. rewrite (proj2 (parts_step t)). cbn [rq_at].
  rewrite same_generator by done. unfold held_input. by rewrite Hb.
Qed.

(** What the device is at every time, for an operation that has come to its end. *)
Definition performed (t : nat) : Prop :=
  (forall u, (u <= t)%nat -> settled (manager_of (whole_at u)) ≡ v) /\
  settled (manager_of (whole_at (S t))) ≡ end_operation v /\
  (forall u, (S t < u)%nat -> settled (manager_of (whole_at u)) ≡ finish (measured (w_rq (whole_at (S t)))) v).

Lemma end_performs t : ends_over -> ended_before t = false -> ends_at t = true -> performed t.
Proof.
  intros Ov Hb He. destruct (after_end t Ov Hb He) as [En Af]. split_and!.
  - intros u Hu. apply (showing_settled d v), shown_before. by apply (ended_mono t).
  - apply En.
  - intros u Hu. replace u with (S (S (u - S (S t) + t))) by lia. apply Af.
Qed.
End Stream.

(** ** A read *)

Section Reads.
Context (d : shown) (v : device (R := R)) (x0 : whole) (ls : nat -> lines).

(** The generator is at rest, with the configuration of the read. *)
Record set_to_read : Prop := {
  set_prepared : prepared d (w_rq x0);
  set_ready : ready (w_rq x0);
  set_rest : at_rest d (w_rq x0)
}.

(** Until the end, the link takes a beat again and again and every busy tag is completed
    at some time. *)
Record fair_link : Prop := {
  link_ready t : ended_before x0 ls t = false -> exists u, (t <= u)%nat /\ l_rq_tready (ls u) = true;
  link_answers t j : ended_before x0 ls t = false -> Z.of_nat j < window_of d -> busy (w_rq (whole_at x0 ls t)) j = true ->
    exists u, (t <= u)%nat /\ nth j (COMPLETED_TAGS (w_rc (whole_at x0 ls u))) false = true
}.

Context (Hls : forall t, only_loads (ls t)) (St : started d v x0) (Sr : set_to_read).
Context (op : read_op d) (room : roomy (PLACEMENT d) (address_mode_s d)).

Abbreviation inputs := (held_input d x0 ls).
Abbreviation same := (same_generator d v x0 ls Hls St).
Abbreviation holds := (held_at d v x0 ls Hls St).

Lemma held_fair : fair_link -> fair d inputs (w_rq x0).
Proof.
  intros [F1 F2]. split.
  - intros t. destruct (ended_before x0 ls t) eqn:E.
    { exists t. split; [done|]. unfold held_input. by rewrite E. }
    destruct (F1 t E) as (u & Hu & Hr). exists u. split; [done|]. unfold held_input. by destruct (ended_before x0 ls u).
  - intros t j Hj Hb.
    assert (forall u, ended_before x0 ls u = true -> completed (inputs u) j = true) as Hall.
    { intros u Hu. unfold held_input, completed. rewrite Hu. cbn [q_completed after_input]. unfold window_bits.
      apply nth_repeat_lt. by apply (window_small d op). }
    destruct (ended_before x0 ls t) eqn:E; [exists t; split; [done | by apply Hall]|].
    rewrite same in Hb by done. destruct (F2 t j E Hj Hb) as (u & Hu & Hc). exists u. split; [done|].
    destruct (ended_before x0 ls u) eqn:Eu; [by apply Hall|]. unfold held_input. by rewrite Eu.
Qed.

Lemma read_over : ends_over x0 ls.
Proof.
  intros t Hb He. destruct (phase_at d op room inputs (w_rq x0) holds (set_prepared Sr) t (set_ready Sr)) as (k & P).
  rewrite same in P by done. destruct (phase_ends d k _ P He) as [Hw _].
  pose proof (showing_shown d v _ (proj1 (shown_before d v x0 ls Hls St t Hb))) as Hd.
  pose proof (waiting_step d (rq_input (ls t) (whole_at x0 ls t)) _ Hd Hw) as Hx. unfold ends_at in He. rewrite He in Hx.
  by rewrite (proj2 (parts_step d v x0 ls Hls St t)).
Qed.

Lemma sent_reads t :
  ended_before x0 ls t = false -> ends_at x0 ls t = true ->
  asked_bytes (sent_until x0 ls t) = bytes_of_tlps H2D (size_of d) (Z.to_nat (n_reads d)).
Proof.
  intros Hb He. destruct (requests_held d (w_rq x0) (map inputs (seq 0 t)) op room) as (_ & _ & E); try apply Sr.
  { apply Forall_map, Forall_forall. intros u _. apply holds. }
  rewrite (held_same d v x0 ls Hls St t Hb) in E. destruct (E He) as (E1 & _ & E3).
  unfold sent_until. rewrite (held_inputs d x0 ls t Hb), E3. f_equal. lia.
Qed.

Lemma read_latency t :
  ended_before x0 ls t = false -> ends_at x0 ls t = true ->
  exists a, first_could x0 ls INIT_READ a /\ (a < t)%nat /\
    st_latency (measured (w_rq (whole_at x0 ls (S t)))) = u64 (Z.of_nat t - Z.of_nat a).
Proof.
  intros Hb He. destruct (latency_at d op room inputs (w_rq x0) holds (set_prepared Sr) t) as (a & A1 & A2 & A3);
    [apply St | apply Sr | intros u Hu; by apply (no_end_before d v x0 ls Hls St t) | by rewrite same |].
  exists a. split; [by apply (first_held d v x0 ls Hls St INIT_READ t)|]. split; [done|].
  by apply (stored_latency d v x0 ls Hls St).
Qed.
End Reads.

(** C9.  The card performs a read that is started, once.  While the host only loads, and on a link
    that takes requests again and again and answers each: up to some cycle the device is
    as it was started; from two cycles later on, and for ever, it is as after one
    operation, with the measurements of this one.  By then the requests for all the bytes
    that the benchmark counts with have been sent, and the latency that is stored is the
    number of cycles from the first in which a request could be sent to the end. *)
Theorem card_performs_read d v x ls :
  read_op d -> roomy (PLACEMENT d) (address_mode_s d) ->
  v_active v = last_index_descriptor_r (v_config v) -> started d v x -> set_to_read d x ->
  (forall t, only_loads (ls t)) -> fair_link d x ls ->
  exists t, performed v x ls t /\
    asked_bytes (sent_until x ls t) = bytes_of_tlps H2D (size_of d) (Z.to_nat (n_reads d)) /\
    exists a, first_could x ls INIT_READ a /\ (a < t)%nat /\
      st_latency (measured (w_rq (whole_at x ls (S t)))) = u64 (Z.of_nat t - Z.of_nat a).
Proof.
  intros op room one St Sr Hls F. destruct (reaches_end d v x ls Hls St) as (t & Hb & He).
  { apply (ends d op room); [by apply (held_at d v) | apply Sr | by apply (held_fair d v) | apply Sr]. }
  exists t. split; [|split].
  - apply (end_performs d v x ls Hls St one t); [by apply (read_over d v) | done | done].
  - by apply (sent_reads d v).
  - by apply (read_latency d v).
Qed.

(** ** A write *)

Section Writes.
Context (d : shown) (v : device (R := R)) (x0 : whole) (ls : nat -> lines).

Record set_to_write : Prop := {
  set_primed : primed d (w_rq x0);
  set_ready_w : ready (w_rq x0);
  set_still : still (w_rq x0);
  set_buffer : buffer_ok (w_rq x0)
}.

(** Until the end, the link takes a beat and the application has a word again and again. *)
Record fed_link : Prop := {
  fed_ready t : ended_before x0 ls t = false -> exists u, (t <= u)%nat /\ l_rq_tready (ls u) = true;
  fed_words t : ended_before x0 ls t = false -> exists u, (t <= u)%nat /\ l_c2s_tvalid (ls u) = true
}.

Context (Hls : forall t, only_loads (ls t)) (St : started d v x0) (Sw : set_to_write).
Context (op : write_op d) (room : roomy (PLACEMENT d) (address_mode_s d)).

Abbreviation inputs := (held_input d x0 ls).
Abbreviation same := (same_generator d v x0 ls Hls St).
Abbreviation holds := (held_at d v x0 ls Hls St).

Lemma held_supplied : fed_link -> supplied inputs.
Proof.
  intros [F1 F2]. split; intros t; (destruct (ended_before x0 ls t) eqn:E;
    [exists t; split; [done|]; unfold held_input; by rewrite E|]).
  - destruct (F1 t E) as (u & Hu & Hr). exists u. split; [done|]. unfold held_input. by destruct (ended_before x0 ls u).
  - destruct (F2 t E) as (u & Hu & Hr). exists u. split; [done|]. unfold held_input. by destruct (ended_before x0 ls u).
Qed.

Lemma write_over : ends_over x0 ls.
Proof.
  intros t Hb He. destruct (write_phase_at d op room inputs (w_rq x0) holds (set_primed Sw) t (set_ready_w Sw)) as (ws & bs & P).
  rewrite same in P by done. destruct (write_ends_in d ws bs _ P He) as [En _].
  pose proof (showing_shown d v _ (proj1 (shown_before d v x0 ls Hls St t Hb))) as Hd.
  rewrite (proj2 (parts_step d v x0 ls Hls St t)).
  apply (said_end_step d (rq_input (ls t) (whole_at x0 ls t)) _ Hd En).
Qed.

(** The words that came in until cycle [t]. *)
Definition let_in_until (t : nat) : list Z :=
  gathered stored (map (fun u => rq_input (ls u) (whole_at x0 ls u)) (seq 0 t)) (w_rq x0).

Lemma sent_writes t :
  ended_before x0 ls t = false -> ends_at x0 ls t = true ->
  queued (w_rq x0) ++ let_in_until t = removed_until x0 ls t ++ queued (w_rq (whole_at x0 ls t)) /\
  exists a, sent d (n_writes d) a (removed_until x0 ls t) (map beat_of (sent_until x0 ls t)).
Proof.
  intros Hb He. unfold let_in_until, removed_until, sent_until. rewrite (held_inputs d x0 ls t Hb).
  rewrite <- (held_same d v x0 ls Hls St t Hb). split; [apply queue_run, Sw|].
  rewrite slice. unfold pending. rewrite (still_stream _ (set_still Sw)). cbn [app].
  assert (Forall (held d) (map inputs (seq 0 t))) as HF by (apply Forall_map, Forall_forall; intros u _; apply holds).
  pose proof (write_run d op room [] [] _ _ HF (set_primed Sw)) as W. cbn [app] in W.
  specialize (W ltac:(left; split; [apply Sw | done])). apply (write_ends_in d _ _ _ W).
  by rewrite (held_same d v x0 ls Hls St t Hb).
Qed.

Lemma write_latency t :
  ended_before x0 ls t = false -> ends_at x0 ls t = true ->
  exists a, first_could x0 ls INIT_WRITE a /\ (a < t)%nat /\
    st_latency (measured (w_rq (whole_at x0 ls (S t)))) = u64 (Z.of_nat t - Z.of_nat a).
Proof.
  intros Hb He. destruct (write_latency_at d op room inputs (w_rq x0) holds (set_primed Sw) t) as (a & A1 & A2 & A3);
    [apply St | apply Sw | intros u Hu; by apply (no_end_before d v x0 ls Hls St t) | by rewrite same |].
  exists a. split; [by apply (first_held d v x0 ls Hls St INIT_WRITE t)|]. split; [done|].
  by apply (stored_latency d v x0 ls Hls St).
Qed.
End Writes.

(** C10.  The card performs a write that is started, once.  While the host only loads, on a link
    that takes beats again and again, with an application that has words again and again:
    the device goes from the state it was started in to that after one operation, with
    the measurements of this one.  By then the packets of whole groups of TLPs have been
    sent, with the words that the application gave, in order, and the latency that is
    stored is the number of cycles from the first in which a packet could start to the
    end. *)
Theorem card_performs_write d v x ls :
  write_op d -> roomy (PLACEMENT d) (address_mode_s d) ->
  v_active v = last_index_descriptor_r (v_config v) -> started d v x -> set_to_write d x ->
  (forall t, only_loads (ls t)) -> fed_link x ls ->
  exists t, performed v x ls t /\
    queued (w_rq x) ++ let_in_until x ls t = removed_until x ls t ++ queued (w_rq (whole_at x ls t)) /\
    (exists a, sent d (n_writes d) a (removed_until x ls t) (map beat_of (sent_until x ls t))) /\
    exists a, first_could x ls INIT_WRITE a /\ (a < t)%nat /\
      st_latency (measured (w_rq (whole_at x ls (S t)))) = u64 (Z.of_nat t - Z.of_nat a).
Proof.
  intros op room one St Sw Hls F. destruct (reaches_end d v x ls Hls St) as (t & Hb & He).
  { apply (write_comes_to_end d op room (held_input d x ls) (w_rq x) (held_at d v x ls Hls St)); try apply Sw.
    by apply (held_supplied d). }
  destruct (sent_writes d v x ls Hls St Sw op room t Hb He) as [S1 S2]. exists t. split_and!; [| done | done |].
  - apply (end_performs d v x ls Hls St one t); [by apply (write_over d v) | done | done].
  - by apply (write_latency d v).
Qed.
End Laws.
End Whole.

(** ** On a card

    The host stores the configuration of 64 bytes at 0x100000 with the direction, and then
    the start. *)

Definition lines_of (q : cq) (b : rc) : lines := Lines q true true b 0 false 0 0.
Definition calm_lines : lines := lines_of no_request no_beat.

Fixpoint whole_run (l : list lines) (x : whole (R := gmap Z Z)) : whole * list rq_in :=
  match l with
  | [] => (x, [])
  | i :: l' => let r := whole_run l' (whole_step i x) in (r.1, rq_input i x :: r.2)
  end.

(** Direction, address, size, last index, window, size of the buffer and count of TLPs. *)
Definition configure (control : Z) : list lines :=
  flat_map (fun '(k, v) => [lines_of (beat (store8 (8 * (C_ENGINE_TABLE_OFFSET + k)) v)) no_beat; calm_lines])
    [(0, control); (8, 0x100000); (9, 64); (1, 0); (3, 1); (4, 8192); (7, 1)] ++ repeat calm_lines 2.

Definition configured (control : Z) : whole := (whole_run (configure control) (Whole sim_card rq_reset rc_reset)).1.

(** The start bit, with 8 for a read and 4 for a write. *)
Definition start_lines (control : Z) : list lines :=
  repeat calm_lines 6 ++ [lines_of (beat (store8 (8 * C_ENGINE_TABLE_OFFSET) (control + 1))) no_beat; calm_lines; calm_lines].

Definition on_card (control : Z) : whole := (whole_run (start_lines control) (configured control)).1.

Definition op_64 (capabilities : Z) : shown := Shown true capabilities (Placement 0x100000 64 8192 0) 1 1.

Lemma op_64_roomy c : address_mode_s (op_64 c) = 0 -> roomy (PLACEMENT (op_64 c)) (address_mode_s (op_64 c)).
Proof. intros ->. split; [done | done | by exists 13 | done | done]. Qed.

Ltac card_computes :=
  unfold manager_of; split; [reflexivity | by vm_compute | by vm_compute | by vm_compute | split; by vm_compute
    | by vm_compute | by vm_compute | by vm_compute | by vm_compute | by vm_compute | done].

(** *** A read, answered by one completion in three beats *)

Definition answering (t : nat) : lines :=
  lines_of no_request
    (if (t =? 4)%nat then first_beat 0 16 false
     else if (t =? 5)%nat then Rc 0 false true else if (t =? 6)%nat then more_beat else no_beat).

Lemma read_64_op : read_op (op_64 2).
Proof. by split. Qed.

Lemma read_started : started (op_64 2) (settled (manager_of (on_card 8))) (on_card 8).
Proof. split; [by vm_compute | card_computes | by vm_compute | by vm_compute]. Qed.

Lemma read_set : set_to_read (op_64 2) (on_card 8).
Proof.
  assert (w_rq (on_card 8) = rq_run (whole_run (start_lines 8) (configured 8)).2 (w_rq (configured 8))) as E by by vm_compute.
  destruct (rest_prepared (op_64 2) read_64_op (op_64_roomy 2 eq_refl) (whole_run (start_lines 8) (configured 8)).2 (w_rq (configured 8)))
    as (P1 & P2 & P3).
  - clear E. vm_compute. by repeat constructor.
  - clear E. vm_compute. lia.
  - clear E. split; [by vm_compute | split; by vm_compute | by vm_compute | by vm_compute |].
    intros j Hj. change (window_of (op_64 2)) with 1 in Hj. replace j with 0%nat by lia. by vm_compute.
  - rewrite <- E in P1, P2, P3. by split.
Qed.

Lemma answering_fair : fair_link (op_64 2) (on_card 8) answering.
Proof.
  assert (forall t, ended_before (on_card 8) answering t = false -> (t <= 8)%nat) as Ht.
  { intros t He. destruct (le_lt_dec t 8) as [L | L]; [done|].
    apply (ended_mono (on_card 8) answering t 9 L) in He. revert He. by vm_compute. }
  split.
  - intros t _. by exists t.
  - intros t j He Hj Hb. change (window_of (op_64 2)) with 1 in Hj. replace j with 0%nat in * by lia.
    apply Ht in He. exists 7%nat. split; [|by vm_compute].
    destruct (Nat.eq_dec t 8%nat) as [->|]; [|lia]. revert Hb. by vm_compute.
Qed.

Lemma card_performs_read_witness :
  exists t st, st_latency st = u64 (Z.of_nat t - 1) /\
    settled (manager_of (whole_at (on_card 8) answering (t + 2))) ≡ finish st (settled (manager_of (on_card 8))).
Proof.
  destruct (card_performs_read (op_64 2) (settled (manager_of (on_card 8))) (on_card 8) answering read_64_op
    (op_64_roomy 2 eq_refl)) as (t & (_ & _ & H3) & _ & a & [A1 A2] & _ & H5).
  - by vm_compute.
  - exact read_started.
  - exact read_set.
  - intros t. by destruct t as [|[|[|[|[|[|[|t]]]]]]].
  - exact answering_fair.
  - eexists t, _. split; [|apply H3; lia]. rewrite H5. f_equal. f_equal.
    assert (a <= 1)%nat by (apply Nat.nlt_ge; intros L; apply (A2 1%nat L); by vm_compute).
    destruct a as [|[|a]]; [destruct A1 as [A1 _]; by vm_compute in A1 | done | lia].
Defined.

(** *** A write, with an application that has two words in every cycle *)

Definition feeding (_ : nat) : lines := Lines no_request true true no_beat 0 true 0x20000000000000000000000000000001 0xffffffff.

Lemma write_64_op : write_op (op_64 1).
Proof. by split. Qed.

Lemma write_started : started (op_64 1) (settled (manager_of (on_card 4))) (on_card 4).
Proof. split; [by vm_compute | card_computes | by vm_compute | by vm_compute]. Qed.

Lemma write_set : set_to_write (op_64 1) (on_card 4).
Proof.
  assert (w_rq (on_card 4) = rq_run (whole_run (start_lines 4) (configured 4)).2 (w_rq (configured 4))) as E by by vm_compute.
  destruct (still_primed (op_64 1) (op_64_roomy 1 eq_refl) (whole_run (start_lines 4) (configured 4)).2 (w_rq (configured 4)))
    as (P1 & P2 & P3).
  - clear E. vm_compute. by repeat constructor.
  - clear E. vm_compute. lia.
  - clear E. split; [by vm_compute | split; by vm_compute | by vm_compute].
  - rewrite <- E in P1, P2, P3. split; [done | done | done |]. clear. by split; vm_compute.
Qed.

Lemma card_performs_write_witness :
  exists t st, st_latency st = u64 (Z.of_nat t - 1) /\
    settled (manager_of (whole_at (on_card 4) feeding (t + 2))) ≡ finish st (settled (manager_of (on_card 4))) /\
    exists a ws, sent (op_64 1) 1 a ws (map beat_of (sent_until (on_card 4) feeding t)).
Proof.
  destruct (card_performs_write (op_64 1) (settled (manager_of (on_card 4))) (on_card 4) feeding write_64_op
    (op_64_roomy 1 eq_refl)) as (t & (_ & _ & H3) & _ & [a0 S] & a & [A1 A2] & _ & H5).
  - by vm_compute.
  - exact write_started.
  - exact write_set.
  - done.
  - split; intros t _; by exists t.
  - eexists t, _. split; [|split; [apply H3; lia | by eexists a0, _]]. rewrite H5. f_equal. f_equal.
    assert (a <= 1)%nat by (apply Nat.nlt_ge; intros L; apply (A2 1%nat L); by vm_compute).
    destruct a as [|[|a]]; [destruct A1 as [A1 _]; by vm_compute in A1 | done | lia].
Defined.
