(* ===== verification/Board.v ===== *)
(** * The board while the driver runs

    DeviceDma.v delivers the stores of a call and then lets the operation end.  Here the
    device is part of the kernel's environment ([Board]) and works on its own: between
    any two calls of the driver an operation that was started may end.  What the driver
    then finds is the result of its polling loop. *)

From S2P Require Import Prelude Eff IoctlCommands NfpTypes Kernel SimKernel NfpDma NfpMem NfpIoctl.
From S2P Require Import EngineManager DeviceDma.
From Stdlib Require Import ZArith Lia.
From stdpp Require Import base list strings gmap.
Local Open Scope Z_scope.
Local Open Scope eff_scope.

Class Board (K R : Type) := {
  board : K -> device (R := R);
  board_bar0 : Z                     (* where BAR 0 is mapped *)
}.

(** The word of the common registers, above the ones of the engine. *)
Definition reset_offset : Z := 8 * (C_ENGINE_TABLE_OFFSET + C_NUM_ENGINES * C_OFFSET_BETWEEN_ENGINES).

(** A store to the words of the engine in BAR 0 that does not cross one. *)
Definition one_access (bar0 : Z) (st : Z * list Z) : Prop :=
  bar0 <= st.1 < bar0 + reset_offset /\ (st.1 - bar0) mod 8 + Z.of_nat (length st.2) <= 8.

Definition control_at (bar0 : Z) : Z := bar0 + 8 * DMA_OFFSET + engine_off 0 "control"%string.

(** What the bus and the engine do: a store to a stopped device reaches its registers;
    during any other call, an operation that was started may end, with some
    measurements; the enable bit and the status registers are read as they are. *)
Class BoardLaws (K R : Type) `{HK : Handler kcall K} `{B : Bram R} `{Bd : Board K R} : Prop := {
  board_store {X} (c : kcall X) k st :
    mmio_write (Ev c (handle c k).1) = Some st -> one_access board_bar0 st ->
    v_enable (board k) = false ->
    board (handle c k).2 ≡ apply_access (access_for board_bar0 st) (board k);
  board_other {X} (c : kcall X) k :
    mmio_write (Ev c (handle c k).1) = None ->
    board (handle c k).2 ≡ board k \/
    v_enable (board k) = true /\ exists st, stats_ok st /\ board (handle c k).2 ≡ finish st (board k);
  board_enabled k :
    (handle (K_io_load_bit (control_at board_bar0) 0) k).1 =
      v_enable (board (handle (K_io_load_bit (control_at board_bar0) 0) k).2);
  board_status j f k :
    0 <= j <= MAX_NUM_DMA_DESCRIPTORS -> f ∈ status_members ->
    decode_u64 (handle (K_memcpy_fromio (board_bar0 + 8 * DMA_OFFSET + descriptor_off j f) 8) k).1 =
      table_read (v_active (board k)) ((8 * DMA_OFFSET + descriptor_off j f) / 8) (v_tables (board k))
}.

(** ** Stores to a stopped device *)

Section Stopped.
Context {K R : Type} `{HK : Handler kcall K} `{B : Bram R} `{!BramLaws R} `{Bd : Board K R}.
Context `{!BoardLaws K R}.

Definition orderly (st : Z * list Z) : Prop :=
  one_access board_bar0 st /\ keeps_stopped board_bar0 st.

#[local] Instance deliver_proper bar0 sts : Proper ((≡) ==> (≡)) (deliver (R := R) bar0 sts).
Proof. intros d d' E. by apply apply_accesses_proper. Qed.

(** While the device is stopped and the stores keep it stopped, it holds what they
    say. *)
Lemma board_replay t k :
  v_enable (board k) = false -> consistent t k -> Forall orderly (calls mmio_write t) ->
  board (replay t k) ≡ deliver board_bar0 (calls mmio_write t) (board k).
Proof.
  revert k. induction t as [|[X c r] t IH]; intros k Hs; [done|].
  intros [Ha Hc]. cbn [answered next] in Ha, Hc. subst r.
  change (replay (Ev c (handle c k).1 :: t) k) with (replay t (handle c k).2).
  unfold calls. cbn [omap list_omap]. destruct (mmio_write (Ev c (handle c k).1)) as [st|] eqn:E.
  - intros [[F1 F2] F]%Forall_cons_1. pose proof (board_store c k st E F1 Hs) as H.
    change (st :: omap mmio_write t) with ([st] ++ calls mmio_write t). rewrite deliver_app.
    rewrite IH; [by rewrite H | | done | exact F].
    destruct H as (-> & _). by apply (deliver_stopped board_bar0 [st]); [repeat constructor|].
  - intros F. destruct (board_other c k E) as [H | [H _]]; [|by rewrite Hs in H].
    rewrite IH; [by rewrite H | | done | exact F]. by destruct H as (-> & _).
Qed.

Lemma replays_board {A} (m : KM K A) s k :
  replays m -> v_enable (board k) = false -> let r := m s k in
  Forall orderly (calls mmio_write (r_tr r)) ->
  board (r_k r) ≡ deliver board_bar0 (calls mmio_write (r_tr r)) (board k).
Proof. intros Hm Hs r F. destruct (Hm s k) as [E Hc]. unfold r in *. rewrite E. by apply board_replay. Qed.
End Stopped.

(** ** A descriptor written while the device works *)

Lemma word_access bar0 k bs :
  0 <= k <= 8300 -> Z.of_nat (length bs) <= 8 ->
  one_access bar0 (bar0 + 8 * DMA_OFFSET + 8 * k, bs).
Proof.
  intros Hk Hl. unfold one_access, DMA_OFFSET. cbn [fst snd].
  replace (bar0 + 8 * 512 + 8 * k - bar0) with ((512 + k) * 8) by lia.
  rewrite Z.mod_mul by lia.
  change reset_offset with 266240. lia.
Qed.

Lemma descriptor_stores_access bar0 dd pa l :
  in_range (dd_index dd) ->
  Forall (one_access bar0) (descriptor_stores (bar0 + 8 * DMA_OFFSET) dd pa l ++
    start_store (bar0 + 8 * DMA_OFFSET) dd).
Proof.
  unfold in_range, MAX_NUM_DMA_DESCRIPTORS. intros Hj.
  assert (A : forall off bs, off mod 8 = 0 -> 0 <= off / 8 <= 8300 -> Z.of_nat (length bs) <= 8 ->
    one_access bar0 (bar0 + 8 * DMA_OFFSET + off, bs)).
  { intros off bs Hm Ho Hl. rewrite (Z.div_mod off 8), Hm, Z.add_0_r by lia. by apply word_access. }
  assert (D : forall f, offsetof f dma_descriptor = 0 \/ offsetof f dma_descriptor = 8 ->
    descriptor_off (dd_index dd) f mod 8 = 0 /\ 0 <= descriptor_off (dd_index dd) f / 8 <= 8300).
  { intros f Hf. unfold descriptor_off.
    change (engine_off 0 "dma_descriptor") with 64. change (sizeof dma_descriptor) with 64.
    destruct Hf as [-> | ->]; Z.to_euclidean_division_equations; lia. }
  unfold descriptor_stores, start_store. cbn [app].
  repeat (apply Forall_cons; split); try apply Forall_nil; try done;
    (apply A; [| |rewrite bytes_of_length; lia]); try done; apply D; (by left) || (by right).
Qed.

Section Working.
Context {K R : Type} `{HK : Handler kcall K} `{B : Bram R} `{!BramLaws R} `{Bd : Board K R}.
Context `{!BoardLaws K R}.

Definition on_board (s : driver) : Prop := c_dma (d_card s) = board_bar0 + 8 * DMA_OFFSET.

Lemma program_board dd s (k : K) :
  dma_wf (d_dma s) -> on_board s -> dd_ok dd -> in_range (dd_index dd) ->
  v_enable (board k) = false ->
  wp (program_descriptor dd) (fun o s' k' t => exists pa,
    o = Done tt /\ s' = set_dma (programmed dd pa) s /\
    calls dma_map t = [(pa, dd_buffer_size dd)] /\ fits 64 pa /\
    board k' ≡ holds_descriptor dd pa (g_ldescriptor (d_dma s)) false (board k)) s k.
Proof.
  intros Hwf Ha Hd Hj Hs. pose proof (replays_board _ s k (replays_program dd) Hs) as T. cbv zeta in T.
  destruct (wp_program_descriptor dd s k Hwf Hj) as (pa & O & S & W & M & _). exists pa.
  split; [exact O|]. split; [exact S|]. split; [exact M|].
  assert (Hp : fits 64 pa).
  { pose proof (calls_dma_map_fits (r_tr (program_descriptor dd s k))) as F. rewrite M in F.
    by apply Forall_cons_1 in F as [F _]. }
  split; [exact Hp|]. rewrite W, Ha in T. rewrite T.
  - rewrite deliver_descriptor by done. by rewrite Z.mod_small by apply Hwf.
  - pose proof (descriptor_stores_access board_bar0 dd pa (g_ldescriptor (d_dma s)) Hj) as F1.
    apply Forall_app in F1 as [F1 _].
    pose proof (descriptor_stores_stopped board_bar0 dd pa (g_ldescriptor (d_dma s)) Hd Hj) as F2.
    apply Forall_forall. intros st Hst. rewrite Forall_forall in F1, F2. split; auto.
Qed.

(** ** The polling loop *)

Lemma finish_proper st : Proper ((≡) ==> (≡)) (finish (R := R) st).
Proof. intros d d' E. by apply store_stats_proper, end_operation_proper. Qed.

(** The engine was started on [d] and has one operation to do. *)
Definition one_operation (d : device (R := R)) : Prop :=
  v_enable d = true /\ v_active d = last_index_descriptor_r (v_config d).

Definition finished (d : device (R := R)) (k : K) : Prop :=
  exists st, stats_ok st /\ board k ≡ finish st d.

(** What the board is between the start and the last poll. *)
Definition working (d : device (R := R)) (k : K) : Prop := board k ≡ d \/ finished d k.

Lemma finish_stops st d : one_operation d -> v_enable (finish st d) = false.
Proof. intros [_ E]. cbn. by rewrite E, Z.eqb_refl, andb_false_r. Qed.

Lemma finished_stopped d k : one_operation d -> finished d k -> v_enable (board k) = false.
Proof. intros Hd (st & _ & (-> & _)). by apply finish_stops. Qed.

Lemma working_call {X} (c : kcall X) d k x k' :
  one_operation d -> mmio_write (Ev c x) = None -> handle c k = (x, k') -> working d k -> working d k'.
Proof.
  intros Hd Hc E Hw. assert (Ec : mmio_write (Ev c (handle c k).1) = None) by (by rewrite E).
  destruct (board_other c k Ec) as [O | (He & st & Hst & O)]; rewrite E in O; cbn [snd] in O.
  - destruct Hw as [Hw | (st & Hst & Hw)]; [left; by rewrite O | right].
    exists st. split; [done | by rewrite O].
  - destruct Hw as [Hw | Hw].
    + right. exists st. split; [done|]. rewrite O. by apply finish_proper.
    + rewrite (finished_stopped d k) in He by done. done.
Qed.

Lemma wp_poll_board fuel start d s (k : K) :
  one_operation d -> working d k ->
  wp (poll_engine fuel (control_at board_bar0) start) (fun o s' k' _ => o = Done tt ->
    TIMEOUT_US < u64 (g_e (d_dma s') - start) \/ finished d k') s k.
Proof.
  intros Hd. revert s k. induction fuel as [|fuel IH]; intros s k Hw; cbn [poll_engine];
    [by wp_step|]. wp_steps.
  assert (W1 : working d kk) by (by refine (working_call _ d k _ _ Hd _ Hans Hw)).
  assert (W2 : working d kk0) by (by refine (working_call _ d kk _ _ Hd _ Hans0 W1)).
  pose proof (board_enabled kk) as En. rewrite Hans0 in En. cbn [fst snd] in En. subst ans0.
  destruct (v_enable (board kk0)) eqn:Ev; cbn [negb orb].
  - destruct (Z.ltb_spec TIMEOUT_US (u64 (u64 ans - start))).
    + apply wp_ret. intros _. left. done.
    + by apply IH.
  - apply wp_ret. intros _. right. destruct W2 as [(E & _) | W2]; [|done].
    destruct Hd as [Hd _]. by rewrite Ev, Hd in E.
Qed.

(** Undoing the mappings leaves a stopped board alone. *)
Lemma release_board n d s (k : K) :
  one_operation d ->
  wp (for_range n 0 release_mapping) (fun _ _ k' t =>
    calls mmio_write t = [] -> finished d k -> finished d k') s k.
Proof.
  intros Hd T (st & Hst & F).
  pose proof (replays_board _ s k (replays_for_range n 0 _ replays_release)
    (finished_stopped d k Hd (ex_intro _ st (conj Hst F)))) as Tr. cbv zeta in Tr.
  rewrite T in Tr. exists st. split; [done|]. by rewrite Tr.
Qed.

(** The store to the control word starts the engine on the descriptor the tables hold. *)
Lemma start_board dd pa l v s (k : K) :
  on_board s -> dd_ok dd -> v_active v = l -> board k ≡ holds_descriptor dd pa l false v ->
  let k1 := (handle K_ktime_get_us k).2 in
  board (handle (K_memcpy_toio (c_dma (d_card s) + engine_off 0 "control"%string)
    (bytes_of 4 (Z.lor (control_word dd) 1))) k1).2 ≡ holds_descriptor dd pa l true v.
Proof.
  intros Ha Hd Hl Hb k1. assert (B1 : board k1 ≡ holds_descriptor dd pa l false v).
  { destruct (board_other K_ktime_get_us k eq_refl) as [O | (He & _)]; [by unfold k1; rewrite O|].
    destruct Hb as (Hb & _). by rewrite Hb in He. }
  match goal with |- board (handle ?c k1).2 ≡ _ => rewrite (board_store c k1
    (c_dma (d_card s) + engine_off 0 "control"%string, bytes_of 4 (Z.lor (control_word dd) 1))
    eq_refl) end; rewrite ?Ha; [| |by destruct B1 as (-> & _)].
  - rewrite (apply_access_proper _ _ _ B1). by rewrite <- (deliver_start board_bar0 dd pa l v Hd).
  - change (engine_off 0 "control"%string) with (8 * 0).
    apply word_access; [lia | by rewrite bytes_of_length].
Qed.

Lemma wp_run_board fuel dd pa l v s (k : K) :
  dma_wf (d_dma s) -> on_board s -> dd_ok dd -> v_active v = l ->
  board k ≡ holds_descriptor dd pa l false v ->
  wp (run_engine fuel dd) (fun o s' k' _ => o = Done tt ->
    TIMEOUT_US < u64 (g_e (d_dma s') - g_s (d_dma s')) \/
    finished (holds_descriptor dd pa l true v) k') s k.
Proof.
  intros Hwf Ha Hd Hl Hb. set (d := holds_descriptor dd pa l true v).
  assert (Hone : one_operation d) by done.
  pose proof (start_board dd pa l v s k Ha Hd Hl Hb) as B2. fold d in B2. cbv zeta in B2.
  unfold run_engine, dma_base. wp_steps. rewrite Hans in B2. cbn [snd] in B2. rewrite Hans0 in B2.
  cbn [snd] in B2. rewrite Ha.
  change (board_bar0 + 8 * DMA_OFFSET + engine_off 0 "control"%string)
    with (control_at board_bar0).
  eapply wp_mono; [apply wp_and; [by apply (wp_poll_board fuel (u64 ans) d); [|left]
    | apply wp_poll_engine]|].
  intros o s1 k1 t1 [P (Ho & [e ->] & _)]. destruct Ho as [-> | ->]; [|done].
  specialize (P eq_refl).
  eapply wp_mono; [apply wp_and; [apply wp_release_all; by destruct s as [c [] m]
    | by apply release_board]|].
  intros o s2 k2 t2 [(-> & -> & T & _) F] _. destruct P as [P | P]; [by left | right].
  by apply F.
Qed.

Lemma wp_write_board fuel dd s (k : K) :
  dma_wf (d_dma s) -> on_board s -> dd_ok dd -> in_range (dd_index dd) -> dd_enable dd <> 0 ->
  in_step (d_dma s) (board k) ->
  wp (writeDMADescriptor fuel dd) (fun o s' k' t => o = Done 0 ->
    TIMEOUT_US < u64 (g_e (d_dma s') - g_s (d_dma s')) \/
    exists pa, calls dma_map t = [(pa, dd_buffer_size dd)] /\ fits 64 pa /\
      finished (holds_descriptor dd pa (g_ldescriptor (d_dma s)) true (board k)) k') s k.
Proof.
  intros Hwf Ha Hd Hj He [Hact Hs]. unfold writeDMADescriptor. wp_step.
  eapply wp_mono; [by apply program_board|].
  intros o s1 k1 t1 (pa & -> & -> & M & Hp & Hb).
  rewrite (proj2 (Z.eqb_neq _ 0) He). wp_step.
  assert (Hwf1 : dma_wf (d_dma (set_dma (programmed dd pa) s))) by (by apply programmed_wf).
  eapply wp_mono; [apply wp_and; [by apply (wp_run_board fuel dd pa (g_ldescriptor (d_dma s)) (board k))
    | by apply wp_run_engine]|].
  intros o s2 k2 t2 [P (_ & M2 & st & e & [(-> & _) | (-> & _)])]; [done|].
  apply wp_ret. intros _. destruct (P eq_refl) as [P' | P']; [by left | right].
  exists pa. rewrite !calls_app, M, M2. done.
Qed.

(** ** Reading back *)

(** A call that is not a store leaves a stopped board alone. *)
Lemma stopped_call {X} (c : kcall X) d k x k' :
  v_enable d = false -> mmio_write (Ev c x) = None -> handle c k = (x, k') -> board k ≡ d ->
  board k' ≡ d.
Proof.
  intros Hd Hc E Hb. assert (Ec : mmio_write (Ev c (handle c k).1) = None) by (by rewrite E).
  destruct (board_other c k Ec) as [O | (He & _)]; rewrite E in *; cbn [snd] in *.
  - by rewrite O.
  - destruct Hb as (Hb & _). by rewrite Hb, Hd in He.
Qed.

Lemma table_read_equiv active a (t t' : tables (R := R)) :
  t ≡ t' -> table_read active a t = table_read active a t'.
Proof.
  intros E. eight E. unfold table_read. cbv zeta.
  repeat match goal with |- context [if ?b then _ else _] => destruct b end; auto.
Qed.

Lemma wp_read8_board j f d s (k : K) :
  on_board s -> 0 <= j <= MAX_NUM_DMA_DESCRIPTORS -> f ∈ status_members ->
  v_enable d = false -> board k ≡ d ->
  wp (descriptor_read8 j f) (fun o s' k' _ => s' = s /\ board k' ≡ d /\
    o = Done (table_read (v_active d) ((8 * DMA_OFFSET + descriptor_off j f) / 8) (v_tables d))) s k.
Proof.
  intros Ha Hj Hf Hd Hb. unfold descriptor_read8, dma_base. wp_steps. rewrite Ha in Hans.
  split; [done|]. split; [by refine (stopped_call _ d k _ _ Hd _ Hans Hb)|].
  pose proof (board_status j f k Hj Hf) as A. rewrite Hans in A. cbn [fst] in A. rewrite A.
  destruct Hb as (_ & -> & _ & Et). f_equal. by apply table_read_equiv.
Qed.

Lemma wp_read_board dd d s (k : K) :
  on_board s -> 0 <= dd_index dd <= MAX_NUM_DMA_DESCRIPTORS -> v_enable d = false -> board k ≡ d ->
  wp (readDMADescriptor dd) (fun o s' _ _ => s' = s /\
    o = Done (with_status (stats_words (device_stats (dd_index dd) d)) dd)) s k.
Proof.
  intros Ha Hj Hd Hb. unfold readDMADescriptor. revert k Hb.
  assert (In : forall f, f ∈ status_members -> forall (g : Z -> KM K dma_descriptor_sw) Q (k : K),
    board k ≡ d ->
    (forall k', board k' ≡ d ->
      wp (g (table_read (v_active d) ((8 * DMA_OFFSET + descriptor_off (dd_index dd) f) / 8)
        (v_tables d))) (fun o s' _ _ => Q o s') s k') ->
    wp (bind (descriptor_read8 (dd_index dd) f) g) (fun o s' _ _ => Q o s') s k).
  { intros f Hf g Q k Hb H. wp_step. eapply wp_mono; [by apply (wp_read8_board _ _ d)|].
    intros o s' k' t (-> & Hb' & ->). by apply H. }
  intros k Hb.
  do 5 (apply In; [by repeat constructor | done|]; clear k Hb; intros k Hb).
  by apply wp_ret.
Qed.

#[local] Instance device_stats_proper j : Proper ((≡) ==> eq) (device_stats (R := R) j).
Proof.
  intros d d' (_ & Ea & _ & Et). unfold device_stats. rewrite Ea. f_equal; by apply table_read_equiv.
Qed.

Lemma in_step_proper g (d d' : device (R := R)) : d ≡ d' -> in_step g d -> in_step g d'.
Proof. by intros (E1 & E2 & _) [A1 A2]; split; congruence. Qed.

(** C5.  A descriptor written to a board that works on its own, in step with the driver:
    the call returns, given fuel for the polls of its timeout; and then the engine has done one operation, with the parameters of the
    descriptor, on the bus address just mapped for it, or else the driver waited for
    more than its timeout; after the operation the driver and the board are in step
    again, at the next index, and a descriptor read at that index, whatever the kernel
    did in between without touching the board, holds the measurements the board took. *)
Theorem write_then_read {clock : K -> Z} {rate : nat} `{!ClockLaws clock rate} fuel dd s (k : K) :
  dma_wf (d_dma s) -> on_board s -> dd_ok dd -> in_range (dd_index dd) -> dd_enable dd <> 0 ->
  dd_index dd = g_ldescriptor (d_dma s) -> in_step (d_dma s) (board k) ->
  let r := writeDMADescriptor fuel dd s k in
  ((rate * Z.to_nat (TIMEOUT_US + 1) < fuel)%nat -> r_out r = Done 0) /\
  (r_out r = Done 0 ->
  TIMEOUT_US < u64 (g_e (d_dma (r_st r)) - g_s (d_dma (r_st r))) \/
  exists pa st, let busy := holds_descriptor dd pa (dd_index dd) true (board k) in
    calls dma_map (r_tr r) = [(pa, dd_buffer_size dd)] /\ current_entry busy = (pa, dd_length dd) /\
    board (r_k r) ≡ finish st busy /\ in_step (d_dma (r_st r)) (board (r_k r)) /\
    forall dd' k', dd_index dd' = dd_index dd + 1 -> board k' ≡ board (r_k r) ->
      r_out (readDMADescriptor dd' (r_st r) k') = Done (with_status (stats_words st) dd')).
Proof.
  intros Hwf Ha Hd Hj He Hi Hs r. split; [by apply write_returns|]. intros Ho. pose proof Hs as [Hact _].
  destruct (wp_write_board fuel dd s k Hwf Ha Hd Hj He Hs Ho) as [T | (pa & M & Hp & st & Hst & F)];
    [by left | right].
  destruct (finish_held dd pa (d_dma s) (board k) st ltac:(apply Hwf) Hs Hst) as (F1 & F2 & F3).
  destruct (write_advances fuel dd s k Hwf Hj He) as (N & _ & C & _).
  exists pa, st. rewrite Hi. set (busy := holds_descriptor _ _ _ _ _) in *. cbv zeta.
  split; [exact M|]. split.
  { unfold busy. rewrite current_entry_held by done. by rewrite Hact, Hi, Z.eqb_refl. }
  split; [exact F|]. split.
  { apply (in_step_proper _ (finish st busy)); [by symmetry|]. split; [|exact F2]. by rewrite F1, <- N. }
  intros dd' k' Hi' Hk'. assert (Hb : board k' ≡ finish st busy) by (by rewrite Hk').
  destruct (wp_read_board dd' (finish st busy) (r_st r) k') as [_ O]; try done.
  - unfold on_board, r. by rewrite C.
  - rewrite Hi', <- Hi. destruct Hj. lia.
  - by rewrite O, Hi', F3.
Qed.
End Working.

(** ** A board on the concrete kernel

    The registers are mapped where [mapped_driver] has them; an operation takes a time
    that depends on its index, and ends when the kernel has counted the polls of [sim_busy]
    down.  The only bit the driver loads is the enable bit, and all
    it copies from the registers are words. *)

Definition board_measures (d : device (R := gmap Z Z)) : stats :=
  Stats (7 + v_active d mod 1024) 1 2 3 4.

Lemma board_measures_ok d : stats_ok (board_measures d).
Proof.
  pose proof (Z.mod_pos_bound (v_active d) 1024 ltac:(lia)).
  unfold stats_ok, board_measures, fits; cbn -[Z.modulo]. lia.
Qed.

Definition sim_bar0 : Z := 2 ^ 32.

Definition board_next {X} (c : kcall X) (a : X) (k : sim) (d : device (R := gmap Z Z)) : device :=
  match mmio_write (Ev c a) with
  | Some st => logic_access (access_for sim_bar0 st) d
  | None =>
      match c with
      | K_io_load_bit _ _ => if v_enable d && (sim_busy k =? 0)%nat then finish (board_measures d) d else d
      | _ => d
      end
  end.

Definition board_answer {X} (c : kcall X) (k : sim) (d : device (R := gmap Z Z)) : X :=
  match c in kcall X return X with
  | K_io_load_bit a b => v_enable (board_next (K_io_load_bit a b) false k d)
  | K_pci_iomap bar _ => sim_bar0 + bar * 2 ^ 20
  | K_memcpy_fromio a _ => bytes_of 8 (table_read (v_active d) ((a - sim_bar0) / 8) (v_tables d))
  | c => sim_answer c k
  end.

#[export] Instance sim_board_handler : Handler kcall (sim * device (R := gmap Z Z)) :=
  fun X c '(k, d) =>
    let a := board_answer c k d in (a, (tick (sim_effect c k), board_next c a k d)).

#[export] Instance sim_board : Board (sim * device) (gmap Z Z) := { board := snd; board_bar0 := sim_bar0 }.

Lemma table_read_fits {R} `{BramLaws R} active a (t : tables (R := R)) :
  fits 64 (table_read active a t).
Proof. unfold table_read. cbv zeta. repeat case_match; apply bram_read_fits. Qed.

(** The words of the engine are not the one of the reset. *)
Lemma below_reset bar0 st :
  bar0 <= st.1 < bar0 + reset_offset -> user_reset (access_for bar0 st) = false.
Proof.
  intros Ha. unfold user_reset, access_for. cbn [x_addr].
  destruct (Z.eqb_spec ((st.1 - bar0) / 8)
    (C_ENGINE_TABLE_OFFSET + C_NUM_ENGINES * C_OFFSET_BETWEEN_ENGINES)) as [Ea|]; [|done].
  unfold reset_offset in Ha. pose proof (Z.mul_div_le (st.1 - bar0) 8 ltac:(lia)). lia.
Qed.

#[export] Instance sim_board_laws : BoardLaws (sim * device) (gmap Z Z).
Proof.
  split.
  - intros X c [k d] st E [Ha _] _. cbn -[mmio_write] in E |- *. unfold board_next. rewrite E.
    unfold logic_access. by rewrite below_reset.
  - intros X c [k d] E. cbn -[mmio_write] in E |- *. unfold board_next. rewrite E.
    destruct c; try by left. destruct (v_enable d) eqn:Ev; [|by left].
    destruct (sim_busy k =? 0)%nat; [right | by left]. split; [done|]. exists (board_measures d).
    split; [apply board_measures_ok | done].
  - by intros [k d].
  - intros j f [k d] _ _. cbn -[sim_bar0 descriptor_off DMA_OFFSET].
    replace (sim_bar0 + 8 * DMA_OFFSET + descriptor_off j f - sim_bar0)
      with (8 * DMA_OFFSET + descriptor_off j f) by lia.
    apply (of_bytes_of_8 _ (table_read_fits _ _ _)).
Qed.

#[export] Instance sim_board_clock :
  ClockLaws (fun k : sim * device (R := gmap Z Z) => sim_clock k.1) 1.
Proof.
  split.
  - intros [k d]. cbn -[u64]. by rewrite sim_effect_clock.
  - intros X c [k d]. cbn. rewrite sim_effect_clock. lia.
  - intros a [k d]. cbn. destruct k; cbn. lia.
Qed.

Lemma write_then_read_witness :
  let r := writeDMADescriptor 10 (op 0) mapped_driver (sim_init, settled reset) in
  exists st, r_out (readDMADescriptor (op 1) (r_st r) (r_k r)) =
    Done (with_status (stats_words st) (op 1)).
Proof.
  intros r.
  destruct (write_then_read (R := gmap Z Z) (rate := 1) 10 (op 0) mapped_driver
    (sim_init, settled reset)) as [_ [T | (pa & st & _ & _ & _ & _ & W)]].
  - exact dma_globals_init_wf.
  - reflexivity.
  - done.
  - done.
  - done.
  - reflexivity.
  - split; reflexivity.
  - vm_compute. reflexivity.
  - exfalso. revert T. vm_compute. discriminate.
  - exists st. by apply W.
Defined.
