(* ===== verification/CardDriver.v ===== *)
(** * The stores of the driver on the card

    DeviceDma.v and Board.v let the stores of the driver reach the device as accesses in
    order.  Here the card of CardBus.v is what they go through, cycle by cycle: the host
    sends the requests when it likes, one after the other, and the device is in the end
    where those files have it. *)

From S2P Require Import Prelude IoctlCommands NfpTypes NfpDma.
From S2P Require Import EngineManager EngineReads DeviceDma Board Completer CardBus.
From Stdlib Require Import ZArith Lia.
From stdpp Require Import base list strings gmap.
Local Open Scope Z_scope.

Section Stores.
Context {R : Type} `{BP : BramPort R} `{!BramLaws R, !BramPortLaws R}.
Variable bar0 : Z.

(** Cycles in which the host sends the stores [sts], and no operation ends: any number
    without a request, then two for each store, in which the request is taken up and
    carried out. *)
Inductive sends : list pins -> list (Z * list Z) -> Prop :=
| Sends_end : sends [] []
| Sends_idle p ps sts :
    decoded_req (p_cq p) = NO_REQ -> calm_pins p -> sends ps sts -> sends (p :: ps) sts
| Sends_store p0 p1 r o bs ps sts :
    write_request r p0 -> carries r o bs -> calm_pins p0 -> calm_pins p1 ->
    sends ps sts -> sends (p0 :: p1 :: ps) ((bar0 + o, bs) :: sts).

(** What the driver's side knows of each of its stores. *)
Definition proper_store (st : Z * list Z) : Prop :=
  bar0 + 8 * C_ENGINE_TABLE_OFFSET <= st.1 /\ one_access bar0 st /\ Forall is_byte st.2 /\
  whole_index (access_for bar0 st).

Lemma idle_settled p (x : card (R := R)) :
  c_st (t_completer x) = S_WAIT_FOR_REQ -> decoded_req (p_cq p) = NO_REQ -> calm_pins p ->
  c_st (t_completer (card_step p x)) = S_WAIT_FOR_REQ /\
  settled (f_manager (t_full (card_step p x))) = settled (f_manager (t_full x)).
Proof.
  intros Hs Hd Hp. destruct (card_step_idle p x) as (F & E & _); [unfold mem_en; by rewrite Hs|].
  rewrite F. cbn [full_step f_manager]. rewrite step_calm by done. unfold access_of. rewrite E.
  split; [|done]. rewrite card_step_read by (by rewrite Hs). cbn.
  unfold completer_step, next_cpl, next_state. by rewrite Hs, Hd.
Qed.

Lemma proper_access st (d : device (R := R)) :
  proper_store st -> logic_access (access_for bar0 st) d = apply_access (access_for bar0 st) d.
Proof.
  intros (Hl & [[_ Hu] _] & _). unfold logic_access, user_reset, access_for. cbn [x_addr].
  destruct (Z.eqb_spec ((st.1 - bar0) / 8) (C_ENGINE_TABLE_OFFSET + C_NUM_ENGINES * C_OFFSET_BETWEEN_ENGINES))
    as [E | _]; [|done].
  assert ((st.1 - bar0) / 8 < C_ENGINE_TABLE_OFFSET + C_NUM_ENGINES * C_OFFSET_BETWEEN_ENGINES)
    by (apply Z.div_lt_upper_bound; [lia|]; unfold reset_offset in Hu; lia).
  lia.
Qed.

(** The card carries out the stores in order. *)
Lemma stores_carried_out ps sts x :
  sends ps sts -> Forall proper_store sts -> c_st (t_completer x) = S_WAIT_FOR_REQ ->
  c_st (t_completer (card_run ps x)) = S_WAIT_FOR_REQ /\
  settled (f_manager (t_full (card_run ps x))) ≡ deliver bar0 sts (settled (f_manager (t_full x))).
Proof.
  intros Hps. revert x. induction Hps as [|p ps sts Hd Hp _ IH|p0 p1 r o bs ps sts Hr Hc K0 K1 _ IH];
    intros x Hf Hs; [done | |].
  - destruct (idle_settled p x Hs Hd Hp) as [Hs' E]. rewrite <- E. by apply (IH (card_step p x)).
  - apply Forall_cons in Hf as [Ho Hf]. pose proof Ho as (Hl & _ & Hb & Hw). cbn [fst snd] in *.
    destruct (store_carried_out p0 p1 x r o bs bar0) as [Hs' E]; try done.
    { apply Z.div_le_lower_bound; lia. }
    destruct (IH (card_step p1 (card_step p0 x)) Hf Hs') as [Hs2 E2].
    split; [exact Hs2|]. change (card_run (p0 :: p1 :: ps) x) with (card_run ps (card_step p1 (card_step p0 x))).
    rewrite E2. unfold deliver. cbn [fmap list_fmap].
    change (apply_accesses (access_for bar0 (bar0 + o, bs) :: (access_for bar0 <$> sts)) ?d)
      with (apply_accesses (access_for bar0 <$> sts) (apply_access (access_for bar0 (bar0 + o, bs)) d)).
    apply apply_accesses_proper. by rewrite E, proper_access.
Qed.

(** ** A descriptor *)

Lemma proper_word k bs :
  0 <= k <= 8300 -> Z.of_nat (length bs) <= 8 -> Forall is_byte bs -> (k = 1 -> length bs = 2%nat) ->
  proper_store (bar0 + 8 * DMA_OFFSET + 8 * k, bs).
Proof.
  intros Hk Hl Hb Hi. split; [unfold DMA_OFFSET, C_ENGINE_TABLE_OFFSET; cbn [fst]; lia|].
  split; [by apply word_access|]. split; [done|].
  unfold whole_index. rewrite access_word. cbn [x_addr x_we]. intros E _.
  rewrite Hi by lia. done.
Qed.

Lemma descriptor_proper dd pa l :
  in_range (dd_index dd) ->
  Forall proper_store (descriptor_stores (bar0 + 8 * DMA_OFFSET) dd pa l ++
    start_store (bar0 + 8 * DMA_OFFSET) dd).
Proof.
  unfold in_range, MAX_NUM_DMA_DESCRIPTORS. intros Hj.
  assert (W : forall off n v, off mod 8 = 0 -> 0 <= off / 8 <= 8300 -> Z.of_nat n <= 8 ->
    (off / 8 = 1 -> n = 2%nat) -> proper_store (bar0 + 8 * DMA_OFFSET + off, bytes_of n v)).
  { intros off n v Hm Ho Hn H1. rewrite (Z.div_mod off 8), Hm, Z.add_0_r by lia.
    apply proper_word; rewrite ?bytes_of_length; auto using bytes_of_bytes. }
  assert (D : forall f, offsetof f dma_descriptor = 0 \/ offsetof f dma_descriptor = 8 ->
    let o := descriptor_off (dd_index dd) f in o mod 8 = 0 /\ 8 <= o / 8 <= 8300).
  { intros f Hf. unfold descriptor_off.
    change (engine_off 0 "dma_descriptor") with 64. change (sizeof dma_descriptor) with 64.
    destruct Hf as [-> | ->]; Z.to_euclidean_division_equations; lia. }
  destruct (D "address"%string) as [A1 A2]; [by left|].
  destruct (D "size"%string) as [B1 B2]; [by right|].
  unfold descriptor_stores, start_store. cbn [app].
  repeat (apply Forall_cons; split); try apply Forall_nil; try done; apply W; try done; lia.
Qed.

(** C8.  What the driver stores is what the engine is started on, down to the clock: when
    the host sends the stores of a descriptor and its start as requests on the bus, in
    order and with any pauses, the card takes them all up, the entry of the descriptor and
    the registers have what the driver was given, nothing else has changed, and the
    engine is enabled. *)
Theorem descriptor_on_card ps x dd pa l :
  sends ps (descriptor_stores (bar0 + 8 * DMA_OFFSET) dd pa l ++
    start_store (bar0 + 8 * DMA_OFFSET) dd) ->
  c_st (t_completer x) = S_WAIT_FOR_REQ ->
  dd_ok dd -> in_range (dd_index dd) -> fits 64 pa ->
  c_st (t_completer (card_run ps x)) = S_WAIT_FOR_REQ /\
  settled (f_manager (t_full (card_run ps x))) ≡
    holds_descriptor dd pa (l mod 1024) true (settled (f_manager (t_full x))).
Proof.
  intros Hps Hs Hd Hj Hp.
  destruct (stores_carried_out ps _ x Hps (descriptor_proper dd pa l Hj) Hs) as [S E].
  split; [exact S|]. by rewrite E, deliver_app, deliver_descriptor, deliver_start.
Qed.
End Stores.

(** ** A host *)

Definition write_of (o : Z) (bs : list Z) : request :=
  let len := Z.of_nat (length bs) in
  let mask := (2 ^ len - 1) * 2 ^ (o mod 4) in
  Request 0 (o / 4) ((o mod 4 + len + 3) / 4) C_MEM_WR_REQ 0 4 0 0 0
    (of_bytes bs * 256 ^ (o mod 4)) (mask mod 16) (mask / 16).

Lemma write_of_carries o bs :
  0 < Z.of_nat (length bs) -> o mod 8 + Z.of_nat (length bs) <= 8 -> 0 <= o < 2 ^ 19 -> Forall is_byte bs ->
  carries (write_of o bs) o bs.
Proof.
  intros Hl Hw Ho Hb. split.
  - split; try done. cbn [req_addr write_of]. apply Z.mod_small.
    split; [apply Z.div_pos; lia | apply Z.div_lt_upper_bound; lia].
  - intros i b Hi. cbn [req_data write_of]. pose proof (Z.mod_pos_bound o 4).
    rewrite byte_at_shift by lia. replace (o mod 4 + Z.of_nat i - o mod 4) with (Z.of_nat i) by lia.
    by apply byte_at_of_bytes.
Qed.

(** A host that sends its stores as fast as the card takes them up. *)
Definition send_all (bar0 : Z) (sts : list (Z * list Z)) : list pins :=
  sts ≫= fun st => [pins_of (beat (write_of (st.1 - bar0) st.2)); pins_of no_request].

Lemma send_all_sends bar0 sts :
  Forall (proper_store bar0) sts ->
  Forall (fun st => 0 < Z.of_nat (length st.2) /\
    let r := write_of (st.1 - bar0) st.2 in write_request r (pins_of (beat r))) sts ->
  sends bar0 (send_all bar0 sts) sts.
Proof.
  intros Hp Hf. induction sts as [|[a bs] sts IH]; [constructor|].
  apply Forall_cons in Hp as [(Hl & [Ha Hw] & Hb & _) Hp]. apply Forall_cons in Hf as [[H0 Hr] Hf].
  cbn [fst snd] in *. replace a with (bar0 + (a - bar0)) at 2 by lia.
  apply (Sends_store bar0 _ _ (write_of (a - bar0) bs)); try done; [|by apply IH].
  apply write_of_carries; try done. unfold reset_offset, C_ENGINE_TABLE_OFFSET, C_NUM_ENGINES, C_OFFSET_BETWEEN_ENGINES in *. lia.
Qed.

Definition op_stores : list (Z * list Z) :=
  descriptor_stores (0 + 8 * DMA_OFFSET) (op 0) 4096 0 ++ start_store (0 + 8 * DMA_OFFSET) (op 0).

Lemma equal_entries (d d' : device (R := gmap Z Z)) :
  d ≡ d' -> (v_enable d, current_entry d) = (v_enable d', current_entry d').
Proof. intros (E1 & E2 & _ & S & A & _). unfold current_entry. by rewrite E1, E2, (S _), (A _). Qed.

Lemma descriptor_on_card_witness :
  let d := settled (f_manager (t_full (card_run (send_all 0 op_stores) sim_card))) in
  (v_enable d, current_entry d) = (true, (4096, 512)).
Proof.
  destruct (descriptor_on_card 0 (send_all 0 op_stores) sim_card (op 0) 4096 0) as (_ & E).
  - apply send_all_sends; [by apply descriptor_proper|]. repeat (constructor; [by vm_compute|]). constructor.
  - by vm_compute.
  - by apply op_ok.
  - done.
  - done.
  - cbv zeta. rewrite (equal_entries _ _ E). clear. by vm_compute.
Defined.
