(* ===== verification/Prompt.v ===== *)
(** * A prompt engine

    The timeout of the polling loop is there for a card that hangs.  On a machine whose
    engine ends every operation in time ([PromptEngine]), the loop ends because the
    engine has stopped, and never because of the timeout. *)

From S2P Require Import Prelude Eff IoctlCommands NfpTypes Kernel SimKernel NfpDma.
From S2P Require Import EngineManager DeviceDma Board.
From Stdlib Require Import ZArith Lia.
From stdpp Require Import base list.
Local Open Scope Z_scope.
Local Open Scope eff_scope.

(** An engine that a store at [a] gave one operation to do is seen stopped within [fuel]
    polls, and within the ten seconds of the timeout. *)
Class PromptEngine (K R : Type) `{H : Handler kcall K} `{Bd : Board K R} (clock : K -> Z)
    (fuel : nat) := {
  prompt : K -> Prop;
  prompt_call {X} (c : kcall X) k : prompt k -> prompt (handle c k).2;
  prompt_ends a bs k : prompt k -> one_operation (board (handle (K_memcpy_toio a bs) k).2) ->
    exists n, (n < fuel)%nat /\
      let k1 := (handle K_ktime_get_us (polls n a (handle (K_memcpy_toio a bs) k).2)).2 in
      (handle (K_io_load_bit a 0) k1).1 = false /\ clock k1 <= clock k + TIMEOUT_US
}.

Section Prompt.
Context {K : Type} `{!Handler kcall K} {clock : K -> Z} {rate : nat}.
Context `{!ClockLaws clock rate}.

Lemma clock_polls n a (k : K) : clock k <= clock (polls n a k).
Proof.
  revert k. induction n as [|n IH]; intros k; cbn; [lia|].
  pose proof (clock_step K_ktime_get_us k) as S1. set (k1 := (handle K_ktime_get_us k).2) in *.
  pose proof (clock_step (K_io_load_bit a 0) k1). specialize (IH (handle (K_io_load_bit a 0) k1).2).
  lia.
Qed.

Lemma wp_poll_prompt n fuel a start s (k : K) :
  (n < fuel)%nat -> start <= clock k ->
  let k1 := (handle K_ktime_get_us (polls n a k)).2 in
  (handle (K_io_load_bit a 0) k1).1 = false -> clock k1 <= start + TIMEOUT_US ->
  wp (poll_engine fuel a (u64 start)) (fun o s' _ _ => o = Done tt /\
    exists e, s' = set_dma (set_e e) s /\ u64 (e - u64 start) <= TIMEOUT_US) s k.
Proof.
  revert fuel s k. induction n as [|n IH]; intros [|fuel] s k Hf Hk k1 Hb Ht; try lia;
    cbn [poll_engine]; wp_steps;
    pose proof (clock_read k) as Rd; pose proof (clock_step K_ktime_get_us k) as S1;
    rewrite Hans in Rd, S1; cbn [fst snd] in Rd, S1; subst ans; rewrite wrap_wrap, wrap_sub.
  - unfold k1 in Hb, Ht. cbn [polls] in Hb, Ht. rewrite Hans in Hb, Ht. cbn [snd] in Hb, Ht.
    rewrite Hans0 in Hb. cbn [fst] in Hb. subst ans0. apply wp_ret. split; [done|].
    eexists. split; [reflexivity|]. rewrite wrap_sub, wrap_id; unfold fits, TIMEOUT_US in *; lia.
  - set (k2 := polls n a kk0). assert (E : polls (S n) a k = k2).
    { cbn [polls]. rewrite Hans. cbn [snd]. by rewrite Hans0. }
    unfold k1 in Hb, Ht. rewrite E in Hb, Ht.
    pose proof (clock_step (K_io_load_bit a 0) kk) as S2. rewrite Hans0 in S2. cbn [snd] in S2.
    pose proof (clock_polls n a kk0) as S3. pose proof (clock_step K_ktime_get_us k2) as S4.
    fold k2 in S3. assert (T : clock kk - start <= TIMEOUT_US) by lia.
    rewrite (wrap_id 64 (clock kk - start)) by (unfold fits, TIMEOUT_US in *; lia).
    destruct (Z.ltb_spec TIMEOUT_US (clock kk - start)); [lia|]. rewrite orb_false_r.
    destruct ans0; cbn [negb].
    + eapply wp_mono; [apply IH; [lia | lia | exact Hb | exact Ht]|].
      intros o s' k' t (-> & e & -> & He). split; [done|]. exists e. by destruct s as [c [] m].
    + apply wp_ret. split; [done|]. eexists. split; [reflexivity|].
      rewrite wrap_sub, wrap_id; unfold fits, TIMEOUT_US in *; lia.
Qed.

(** Whether the last operation took longer than the timeout. *)
Definition in_time (s : driver) : Prop := u64 (g_e (d_dma s) - g_s (d_dma s)) <= TIMEOUT_US.

Context {R : Type} `{B : Bram R} `{!BramLaws R} `{Bd : Board K R} `{!BoardLaws K R}.
Context {fuel : nat} `{!PromptEngine K R clock fuel}.

Lemma prompt_replay t k : prompt k -> prompt (replay t k).
Proof.
  apply replay_keeps. apply Forall_forall. intros [X c r] _ k'. apply prompt_call.
Qed.

Lemma one_operation_proper (d d' : device (R := R)) : d ≡ d' -> one_operation d' -> one_operation d.
Proof. intros (Ee & Ea & Ec & _) [O1 O2]. unfold one_operation. by rewrite Ee, Ea, Ec. Qed.

Lemma wp_run_prompt dd pa l v s (k : K) :
  dma_wf (d_dma s) -> on_board (K := K) (R := R) s -> dd_ok dd -> v_active v = l ->
  board k ≡ holds_descriptor dd pa l false v -> prompt k ->
  wp (run_engine fuel dd) (fun o s' _ _ => o = Done tt /\ in_time s') s k.
Proof.
  intros Hwf Ha Hd Hl Hb Hp. pose proof (start_board dd pa l v s k Ha Hd Hl Hb) as B2.
  apply one_operation_proper in B2; [|done]. cbv zeta in B2.
  unfold run_engine, dma_base. wp_steps.
  pose proof (clock_read k) as Rd. pose proof (prompt_call K_ktime_get_us k Hp) as P1.
  rewrite Hans in Rd, P1, B2. cbn [fst snd] in Rd, P1, B2. subst ans.
  match type of Hans0 with handle (K_memcpy_toio ?a ?bs) kk = _ =>
    destruct (prompt_ends a bs kk P1 B2) as (n & Hn & Hend & Ht);
    pose proof (clock_step (K_memcpy_toio a bs) kk) as S1 end.
  rewrite Hans0 in Hend, Ht, S1. cbn [snd] in Hend, Ht, S1. rewrite !wrap_wrap.
  eapply wp_mono; [eapply wp_poll_prompt; [exact Hn | lia | exact Hend | exact Ht]|].
  intros o s' k' t (-> & e & -> & He).
  eapply wp_mono; [apply wp_release_all; by destruct s as [c [] m]|].
  intros o s' k2 t2 (-> & -> & _). split; [done|]. by destruct s as [c [] m].
Qed.

(** On a prompt machine a descriptor that is written is served: the call returns 0, and
    not because of the timeout. *)
Lemma write_prompt dd s (k : K) :
  dma_wf (d_dma s) -> on_board (K := K) (R := R) s -> dd_ok dd -> in_range (dd_index dd) ->
  dd_enable dd <> 0 -> in_step (d_dma s) (board k) -> prompt k ->
  wp (writeDMADescriptor fuel dd) (fun o s' _ _ => o = Done 0 /\ in_time s') s k.
Proof.
  intros Hwf Ha Hd Hj He [Hact Hs] Hp. unfold writeDMADescriptor. wp_step.
  eapply wp_mono; [apply wp_replays; [apply replays_program | by apply program_board]|].
  intros o s' k' t ((pa & -> & -> & _ & _ & Hb) & Er & _).
  rewrite (proj2 (Z.eqb_neq _ 0) He). wp_step.
  eapply wp_mono; [apply (wp_run_prompt dd pa (g_ldescriptor (d_dma s)) (board k));
    try done; [by apply programmed_wf | by rewrite Er; apply prompt_replay]|].
  intros o s' k2 t2 [-> T]. by apply wp_ret.
Qed.
End Prompt.
