(* ===== verification/Session.v ===== *)
(** * Sessions on a board

    What the system calls of a program find and leave when the driver, the kernel and
    the board go on living between them: the semaphore is free, a page is registered,
    driver and board are at the same descriptor ([serving]), and every command keeps it
    so. *)

From S2P Require Import Prelude Eff IoctlCommands NfpTypes Kernel SimKernel NfpDma Prompt NfpMem.
From S2P Require Import NfpIoctl Posix Middleware Link EngineManager DeviceDma Board.
From Stdlib Require Import ZArith Lia.
From stdpp Require Import base list strings gmap.
Local Open Scope Z_scope.
Local Open Scope eff_scope.

(** ** Traces of a call *)

Section Traces.
Context {K : Type} `{HK : Handler kcall K} `{P : ProcessMemory K} `{!MemoryLaws K}.

Lemma sem_delta_actions (t : ktrace) :
  sem_delta t = foldr (fun a n => match a with Took => -1 | Interrupted => 0 | Gave => 1 end + n) 0
    (calls sem_action t).
Proof.
  induction t as [|[X c r] t IH]; [done|]. rewrite sem_delta_cons, IH. unfold calls.
  destruct c; cbn; try done. destruct r; done.
Qed.

Definition no_init (e : event kcall) : Prop := match e with Ev c _ => inits_sem c = false end.

Lemma count_replay {count : K -> Z} `{!SemaphoreLaws K count} t k :
  consistent t k -> Forall no_init t -> count (replay t k) = count k + sem_delta t.
Proof.
  revert k. induction t as [|[X c r] t IH]; intros k; [cbn; lia|].
  intros [Ha Hc] [Hn F]%Forall_cons_1. cbn [answered next] in Ha, Hc. subst r.
  change (replay (Ev c (handle c k).1 :: t) k) with (replay t (handle c k).2).
  rewrite IH by done. rewrite (count_call c k Hn), sem_delta_cons. lia.
Qed.

Lemma good_replay t k : good k -> good (replay t k).
Proof.
  apply replay_keeps. apply Forall_forall. intros [X c r] _ k'. apply good_call.
Qed.

(** The argument of the process, after a call that copied nothing out or copied it. *)
Lemma load_replay n t k : calls copied_out t = [] -> load n (replay t k) = load n k.
Proof.
  intros F%calls_nil_inv. apply (replay_keeps (fun k' => load n k' = load n k)); [|done].
  eapply Forall_impl; [exact F|]. intros [X c r] Hc k' <-. apply load_call. by destruct c.
Qed.

Lemma load_copied_replay bs t k :
  good k -> calls copied_out t = [(argp, bs)] -> load (length bs) (replay t k) = bs.
Proof.
  intros G H. destruct (calls_cons_inv _ _ _ _ H) as (t1 & [X c r] & t2 & -> & _ & He & H2).
  rewrite replay_app. change (replay (Ev c r :: t2) (replay t1 k))
    with (replay t2 (handle c (replay t1 k)).2).
  rewrite load_replay by done. destruct c; try done. injection He as -> ->.
  by apply load_copied, good_replay.
Qed.

(** The kernel mapped [n] bytes at the kernel address [a] for the device at [pa]. *)
Definition bus_address (a n pa : Z) : Prop :=
  exists k : K, pa = u64 (handle (K_pci_map_single a n) k).1.

Lemma mapped_for a n pa m t k :
  consistent t k -> calls dma_map t = [(pa, n)] -> calls map_request t = [(a, m)] ->
  bus_address a n pa.
Proof.
  intros Hc H1 H2. destruct (calls_cons_inv _ _ _ _ H1) as (t1 & [X c r] & t2 & -> & _ & He & _).
  apply consistent_app in Hc as (_ & Ha & _). destruct c; try done. injection He as <- <-.
  rewrite calls_app in H2. cbn in H2. cbn [answered] in Ha. subst r.
  destruct (calls map_request t1) as [|x l]; cbn in H2.
  - injection H2 as <- _ _. by eexists.
  - injection H2 as _ H2. by destruct l.
Qed.
End Traces.

Section NoInit.
Context {K : Type} `{HK : Handler kcall K} `{E : IocEncoding}.

Lemma no_init_poll fuel a st : emits (K := K) no_init (poll_engine fuel a st).
Proof. induction fuel as [|fuel IH]; cbn [poll_engine]; solve_emits. Qed.
Lemma no_init_release i : emits (K := K) no_init (release_mapping i).
Proof. unfold release_mapping, phy_store, phy_load. solve_emits. Qed.
Lemma no_init_record hp pag i : emits (K := K) no_init (record_huge_page hp pag i).
Proof. unfold record_huge_page. solve_emits. Qed.
Lemma no_init_forget l i : emits (K := K) no_init (forget_page l i).
Proof. unfold forget_page. solve_emits. Qed.
#[local] Hint Resolve no_init_poll no_init_release no_init_record no_init_forget : emits.

Lemma no_init_ioctl fuel cmd arg : emits (K := K) no_init (nfp_ioctl fuel cmd arg).
Proof.
  unfold nfp_ioctl, dispatch, fetch_argument, fetch, descriptor_address, Reg.WriteReg32, Reg.ReadReg32,
    writeDMADescriptor, program_descriptor, run_engine, readDMADescriptor, descriptor_read8,
    dma_set_window_size, engine_write8, descriptor_write8, phy_store, phy_load, dma_base,
    reg_hugemem, getUserHugePages, unreg_hugemem, forgetUserHugePages.
  solve_emits.
Qed.
End NoInit.

(** The memory of the process is not the board's, nor does it slow the engine. *)
Class UserMemory (K R : Type) `{HK : Handler kcall K} `{P : ProcessMemory K} `{Bd : Board K R}
    (clock : K -> Z) (fuel : nat) `{Pr : !PromptEngine K R clock fuel} `{B : Bram R} : Prop := {
  board_user bs k : board (store bs k) ≡ board k;
  prompt_user bs k : prompt k -> prompt (store bs k)
}.

Section Serving.
Context {K R : Type} `{HK : Handler kcall K} `{B : Bram R} `{!BramLaws R} `{Bd : Board K R}.
Context `{!BoardLaws K R} `{P : ProcessMemory K} `{!MemoryLaws K}.
Context {count : K -> Z} `{!SemaphoreLaws K count} {addr_of : Z -> Z} `{!PageLaws addr_of}.
Context `{E : IocEncoding} `{!IocLaws E} {clock : K -> Z} {rate : nat} `{!ClockLaws clock rate}.
Context {fuel : nat} `{!PromptEngine K R clock fuel} `{!UserMemory K R clock fuel}.

(** Between two calls: nobody is in the driver, and the engine is at rest. *)
Definition usable (k : K) : Prop := good k /\ prompt k /\ count k = 1.

Record serving (d : driver) (k : K) : Prop := Serving {
  sv_wf : dma_wf (d_dma d);
  sv_board : on_board (K := K) (R := R) d;
  sv_step : in_step (d_dma d) (board k);
  sv_usable : usable k
}.

(** The state at the first two calls of a command. *)
Lemma usable_store bs k : usable k -> usable (store bs k) /\ ready k.
Proof.
  intros (G & Pk & C). split; [|apply count_ready; lia].
  split; [by apply good_store|]. split; [by apply prompt_user | by rewrite count_store].
Qed.

(** What a call that gave the semaphore back leaves usable. *)
Lemma usable_after cmd bs d k :
  usable k -> let r := nfp_ioctl fuel cmd argp d (store bs k) in
  sem_delta (r_tr r) = 0 -> usable (r_k r).
Proof.
  intros U r Hs. destruct (usable_store bs k U) as [(G & Pk & C) _].
  destruct (replays_nfp_ioctl fuel cmd argp d (store bs k)) as [Er Hc]. fold r in Er, Hc.
  rewrite Er. split; [by apply good_replay|]. split; [by apply (prompt_replay (clock := clock) (fuel := fuel))|].
  rewrite count_replay, C; [lia | done | apply no_init_ioctl].
Qed.

Lemma script_delta cmd bs d k v :
  cmd <> NFPIOC_REGISTER_BUFFER -> let r := nfp_ioctl fuel cmd argp d (store bs k) in
  r_out r = Done v -> sem_script v = [Took; Gave] -> sem_delta (r_tr r) = 0.
Proof.
  intros Hc r Ho Hs. pose proof (wp_nfp_ioctl_script fuel cmd argp d (store bs k) Hc v Ho) as S.
  rewrite sem_delta_actions. unfold r. by rewrite S, Hs.
Qed.

(** A stopped board is left alone by calls that store nothing in it. *)
Lemma board_idle t k :
  v_enable (board k) = false -> consistent t k -> calls mmio_write t = [] ->
  board (replay t k) ≡ board k.
Proof. intros Hs Hc Hw. rewrite (board_replay t k Hs Hc); by rewrite Hw. Qed.

Lemma board_idle_ioctl cmd bs d k :
  v_enable (board k) = false -> let r := nfp_ioctl fuel cmd argp d (store bs k) in
  calls mmio_write (r_tr r) = [] -> board (r_k r) ≡ board k.
Proof.
  intros Hs r Hw. destruct (replays_nfp_ioctl fuel cmd argp d (store bs k)) as [Er Hc].
  fold r in Er, Hc. rewrite Er. pose proof (board_user bs k) as U.
  rewrite (board_idle _ _ (eq_trans (proj1 U) Hs) Hc Hw). exact U.
Qed.

(** The board when the body of a command starts. *)
Lemma board_entered bs n k :
  v_enable (board k) = false -> board (entered bs n k) ≡ board k.
Proof.
  intros Hs. pose proof (board_user bs k) as U. unfold entered.
  set (k0 := store bs k) in *. assert (H0 : v_enable (board k0) = false) by (by destruct U as (-> & _)).
  destruct (handle K_down_interruptible k0) as [x k1] eqn:E1.
  destruct (handle (K_copy_from_user argp n) k1) as [y k2] eqn:E2. cbn [fst snd] in *.
  rewrite E2. cbn [snd].
  rewrite <- U. refine (stopped_call _ _ k1 _ _ _ _ E2 _); [by rewrite <- H0 | done |].
  by refine (stopped_call _ _ k0 _ _ _ _ E1 _).
Qed.

Lemma usable_entered bs n k : usable k -> prompt (entered bs n k).
Proof. intros (_ & Pk & _). unfold entered. by do 2 apply prompt_call; apply prompt_user. Qed.

Lemma sys_result cmd bs d k :
  let r := nfp_ioctl fuel cmd argp d (store bs k) in
  r_out r = Done 0 -> sys_ioctl fuel cmd bs d k = Some (0, load (length bs) (r_k r), r_st r, r_k r).
Proof. intros r H. unfold sys_ioctl. fold r. by rewrite H. Qed.

(** The argument after a call that copied nothing out. *)
Lemma argument_kept cmd bs d k :
  let r := nfp_ioctl fuel cmd argp d (store bs k) in
  calls copied_out (r_tr r) = [] -> load (length bs) (r_k r) = bs.
Proof.
  intros r H. destruct (replays_nfp_ioctl fuel cmd argp d (store bs k)) as [Er _].
  fold r in Er. by rewrite Er, load_replay, load_store.
Qed.

Lemma holds_descriptor_proper dd pa l on : Proper ((≡) ==> (≡)) (holds_descriptor (R := R) dd pa l on).
Proof.
  intros v v' (_ & Ea & Ec & E'). eight E'. unfold holds_descriptor, equiv, device_equiv; cbn.
  rewrite Ea, Ec. split_and!; [done..|]. by eightfold; try done; apply bram_write_proper.
Qed.

Lemma write_neq_register : NFPIOC_WRITE_DMA_DESCRIPTOR <> NFPIOC_REGISTER_BUFFER.
Proof.
  destruct cmd_numbers as (N1 & N2 & N3 & N4 & N5 & N6 & N7). intros H. rewrite H in N3. lia.
Qed.

(** ** Writing a descriptor *)

(** The operation the board did for a descriptor [dd] written when driver and board were
    at descriptor [l] and it was [v]: the bytes at the kernel address [a] were mapped at
    the bus address [pa]. *)
Definition performed (a : Z) (dd : dma_descriptor_sw) (l : Z) (st : stats)
    (v v' : device (R := R)) : Prop :=
  exists pa, bus_address (K := K) a (dd_buffer_size dd) pa /\ fits 64 pa /\ stats_ok st /\
    v' ≡ finish st (holds_descriptor dd pa l true v).

(** The same when it was the operation of this very descriptor. *)
Definition served (a : Z) (dd : dma_descriptor_sw) (st : stats) (v v' : device (R := R)) : Prop :=
  exists pa, bus_address (K := K) a (dd_buffer_size dd) pa /\ stats_ok st /\
    let busy := holds_descriptor dd pa (dd_index dd) true v in
    current_entry busy = (pa, dd_length dd) /\ v' ≡ finish st busy.

Lemma performed_served a dd st v v' :
  dd_ok dd -> v_active v = dd_index dd -> performed a dd (dd_index dd) st v v' -> served a dd st v v'.
Proof.
  intros Ok Hv (pa & Hb & Hp & Hst & F). exists pa. do 2 (split; [done|]). cbv zeta.
  split; [|exact F]. rewrite current_entry_held by done. by rewrite Hv, Z.eqb_refl.
Qed.

(** It moves the board on by one, and stores its measurements there. *)
Lemma performed_moves a dd l st v v' :
  0 <= l < 1023 -> v_active v = l -> performed a dd l st v v' ->
  v_active v' = l + 1 /\ device_stats (l + 1) v' = st /\
  forall j, 0 <= j <= 1023 -> j <> l + 1 -> device_stats j v' = device_stats j v.
Proof.
  intros Hl Hv (pa & _ & _ & (S1 & S2 & S3 & S4 & S5) & F).
  assert (A : next_index (v_active v) = l + 1)
    by (rewrite Hv, next_index_mod by lia; apply Z.mod_small; lia).
  split; [destruct F as (_ & -> & _); exact A|].
  split; [|intros j Hj Hne]; rewrite (device_stats_proper _ _ _ F), !device_stats_eq by lia;
    unfold C_NUM_DESCRIPTORS; rewrite Z.mod_small by lia; cbn; rewrite A.
  - rewrite !bram_read_write, !lanes_full by done. by destruct st.
  - by rewrite !bram_read_other by done.
Qed.

Lemma performed_proper a dd l st v w v' w' :
  v ≡ v' -> w ≡ w' -> performed a dd l st v w -> performed a dd l st v' w'.
Proof.
  intros Ev Ew (pa & Hb & Hp & Hst & Hf). exists pa. do 3 (split; [done|]).
  rewrite <- Ew, Hf. by apply finish_proper, holds_descriptor_proper.
Qed.

Lemma write_performed dd d k :
  dma_wf (d_dma d) -> on_board (K := K) (R := R) d -> in_step (d_dma d) (board k) -> prompt k ->
  dd_ok dd -> in_range (dd_index dd) -> dd_enable dd <> 0 ->
  let r := writeDMADescriptor fuel dd d k in
  r_out r = Done 0 /\ exists st,
    performed (dd_address dd) dd (g_ldescriptor (d_dma d)) st (board k) (board (r_k r)) /\
    dma_wf (d_dma (r_st r)) /\ in_step (d_dma (r_st r)) (board (r_k r)).
Proof.
  intros Hwf Hb Hs Pk Ok Hj He r.
  destruct (write_prompt (clock := clock) dd d k Hwf Hb Ok Hj He Hs Pk) as [Ho T].
  fold r in Ho, T. split; [done|].
  destruct (wp_write_board fuel dd d k Hwf Hb Ok Hj He Hs Ho) as [T' | (pa & M & Hp & st & Hst & F)];
    [unfold in_time in T; fold r in T'; lia|].
  destruct (finish_held dd pa (d_dma d) (board k) st ltac:(apply Hwf) Hs Hst) as (F1 & F2 & F3).
  destruct (write_advances fuel dd d k Hwf Hj He) as (N & W & _). fold r in F, M, N, W.
  exists st. split; [|split; [exact W|]].
  - exists pa. destruct (replays_write fuel dd d k) as [_ Hc].
    split; [exact (mapped_for _ _ _ _ _ _ Hc M (wp_write_requests fuel dd d k))|]. done.
  - eapply in_step_proper; [symmetry; exact F|]. split; [by rewrite F1, <- N | exact F2].
Qed.

Lemma served_proper a dd st v w v' w' : v ≡ v' -> w ≡ w' -> served a dd st v w -> served a dd st v' w'.
Proof.
  intros Ev Ew (pa & Hb & Hst & Hc & Hf). exists pa. do 2 (split; [done|]).
  pose proof (holds_descriptor_proper dd pa (dd_index dd) true _ _ Ev) as H. cbn zeta.
  split; [|by rewrite <- Ew, Hf; apply finish_proper].
  rewrite <- Hc. unfold current_entry. destruct H as (_ & -> & _ & Ht). eight Ht. f_equal; auto.
Qed.

(** The system call that writes a descriptor whose bytes are in one huge page of the
    registered buffer. *)
Lemma sys_write db d0 dd d k :
  serving d k -> good_buffer db -> registered (addr_of := addr_of) db d0 d ->
  dd_ok dd -> in_range (dd_index dd) -> dd_enable dd <> 0 -> dd_address dd < db_length db ->
  dd_address dd mod db_hp_size db + dd_length dd < db_hp_size db ->
  dd_address dd + dd_length dd < 2 ^ 64 ->
  exists d' k' p st,
    sys_ioctl fuel NFPIOC_WRITE_DMA_DESCRIPTOR (encode_dma_descriptor_sw dd) d k =
      Some (0, encode_dma_descriptor_sw dd, d', k') /\ serving d' k' /\
    d_card d' = d_card d /\ d_mem d' = d_mem d /\
    g_ldescriptor (d_dma d') = (g_ldescriptor (d_dma d) + 1) mod 1024 /\
    g_pages (d_mem d) !! Z.to_nat (db_hp_size db / PAGE_SIZE * (dd_address dd / db_hp_size db)) = Some p /\
    performed (u64 (addr_of p + dd_address dd mod db_hp_size db)) dd (g_ldescriptor (d_dma d)) st
      (board k) (board k').
Proof.
  intros Sv Hg Hr Ok Hj He Ha Hp Hw. pose proof Sv as [Hwf Hb Hs U]. pose proof Ok as (Fa & _ & Fl & _).
  unfold fits in Fa, Fl. destruct (descriptor_bytes_roundtrip dd Ok) as [Len Rt].
  set (bs := encode_dma_descriptor_sw dd) in *. destruct (usable_store bs k U) as [_ Rd].
  destruct (enter_ioctl bs _ k (eq_sym Len) (proj1 U) Rd) as (k1 & D & C & G & _).
  set (k2 := entered bs sizeof_dma_descriptor_sw k) in *.
  destruct (descriptor_address_eq db d0 d dd k2 Hg Hr) as (p & P1 & P2); try lia.
  destruct (Z.ltb_spec (dd_address dd mod db_hp_size db + dd_length dd) (db_hp_size db)); [|lia].
  rewrite <- Rt in P2 at 1.
  destruct (nfp_ioctl_write_is fuel argp d (store bs k) k1 k2 bs _ D C P2)
    as (Io & Is & _ & _ & _ & Ic & Ik). rewrite Rt in Io, Is, Ik.
  set (dd' := with_address (u64 (addr_of p + dd_address dd mod db_hp_size db)) dd) in *.
  set (w := writeDMADescriptor fuel dd' d k2) in *.
  assert (B2 : board k2 ≡ board k) by (apply board_entered, Hs).
  assert (Ok' : dd_ok dd') by (apply with_address_ok; [by apply wrap_fits | done]).
  pose proof (in_step_proper _ _ _ (symmetry B2) Hs) as Hs2.
  destruct (write_performed dd' d k2 Hwf Hb Hs2 (usable_entered _ _ _ U) Ok' Hj He)
    as (Wo & st & Sd & Wf & St). fold w in Wo, Sd, Wf, St. rewrite Wo in Io, Ik.
  destruct (write_advances fuel dd' d k2 Hwf Hj He) as (N & _ & Ec & Em). fold w in N, Ec, Em.
  set (r := nfp_ioctl fuel NFPIOC_WRITE_DMA_DESCRIPTOR argp d (store bs k)) in *.
  assert (B3 : board (r_k r) ≡ board (r_k w)).
  { rewrite Ik. destruct (handle K_up (r_k w)) as [x k3] eqn:E3.
    by refine (stopped_call _ _ (r_k w) _ _ (proj2 St) _ E3 _). }
  exists (r_st r), (r_k r), p, st. split; [|split].
  - unfold r. by rewrite sys_result, argument_kept.
  - rewrite <- Is in Wf, St. split; [exact Wf | | | ].
    + unfold on_board. by rewrite Is, Ec.
    + exact (in_step_proper _ _ _ (symmetry B3) St).
    + apply usable_after; [exact U|].
      exact (script_delta _ bs d k 0 write_neq_register Io eq_refl).
  - rewrite Is, Ec, Em, N. do 4 (split; [done|]).
    exact (performed_proper _ _ _ _ _ _ _ _ B2 (symmetry B3) Sd).
Qed.

(** ** Reading one *)

Lemma read_neq_register : NFPIOC_READ_DMA_DESCRIPTOR <> NFPIOC_REGISTER_BUFFER.
Proof.
  destruct cmd_numbers as (N1 & N2 & N3 & N4 & N5 & N6 & N7). intros H. rewrite H in N4. lia.
Qed.

Lemma device_stats_ok j (v : device (R := R)) : stats_ok (device_stats j v).
Proof. unfold stats_ok, device_stats; cbn. split_and!; apply table_read_fits. Qed.

Lemma with_status_ok st dd : stats_ok st -> dd_ok dd -> dd_ok (with_status (stats_words st) dd).
Proof. intros (S1 & S2 & S3 & S4 & S5) Ok. unfold dd_ok in *. cbn. tauto. Qed.

Lemma sys_read db d0 dd d k :
  serving d k -> good_buffer db -> registered (addr_of := addr_of) db d0 d ->
  dd_ok dd -> 0 <= dd_index dd <= MAX_NUM_DMA_DESCRIPTORS -> dd_address dd < db_length db ->
  dd_address dd mod db_hp_size db + dd_length dd < db_hp_size db ->
  dd_address dd + dd_length dd < 2 ^ 64 ->
  exists k' a, fits 64 a /\
    sys_ioctl fuel NFPIOC_READ_DMA_DESCRIPTOR (encode_dma_descriptor_sw dd) d k =
      Some (0, encode_dma_descriptor_sw (with_status
        (stats_words (device_stats (dd_index dd) (board k))) (with_address a dd)), d, k') /\
    serving d k' /\ board k' ≡ board k.
Proof.
  intros Sv Hg Hr Ok Hj Ha Hp Hw. pose proof Sv as [Hwf Hb Hs U]. pose proof Ok as (Fa & _ & Fl & _).
  unfold fits in Fa, Fl. destruct (descriptor_bytes_roundtrip dd Ok) as [Len Rt].
  set (bs := encode_dma_descriptor_sw dd) in *. destruct (usable_store bs k U) as [_ Rd].
  destruct (enter_ioctl bs _ k (eq_sym Len) (proj1 U) Rd) as (k1 & D & C & G & _).
  set (k2 := entered bs sizeof_dma_descriptor_sw k) in *.
  destruct (descriptor_address_eq db d0 d dd k2 Hg Hr) as (p & P1 & P2); try lia.
  destruct (Z.ltb_spec (dd_address dd mod db_hp_size db + dd_length dd) (db_hp_size db)); [|lia].
  rewrite <- Rt in P2 at 1. set (a := u64 (addr_of p + dd_address dd mod db_hp_size db)) in *.
  assert (Fit : fits 64 a) by (by apply wrap_fits).
  destruct (nfp_ioctl_read_is fuel argp d (store bs k) k1 k2 bs _ D C P2)
    as (Io & Is & Iw & _ & _ & Ic). rewrite Rt in Ic.
  set (r := nfp_ioctl fuel NFPIOC_READ_DMA_DESCRIPTOR argp d (store bs k)) in *.
  assert (B2 : board k2 ≡ board k) by (apply board_entered, Hs).
  destruct (wp_read_board (with_address a dd) (board k) d k2 Hb Hj (proj2 Hs) B2) as [_ O1].
  destruct (wp_readDMADescriptor (with_address a dd) d k2) as (O2 & _).
  change (dd_index (with_address a dd)) with (dd_index dd) in O1.
  set (dd' := with_status (stats_words (device_stats (dd_index dd) (board k))) (with_address a dd)) in *.
  assert (O : with_status (calls read_answer (r_tr (readDMADescriptor (with_address a dd) d k2)))
    (with_address a dd) = dd') by congruence. rewrite O in Ic. clear O O1 O2.
  assert (Ok' : dd_ok dd') by (apply with_status_ok; [apply device_stats_ok | by apply with_address_ok]).
  destruct (descriptor_bytes_roundtrip dd' Ok') as [Len' _].
  destruct (replays_nfp_ioctl fuel NFPIOC_READ_DMA_DESCRIPTOR argp d (store bs k)) as [Er _]. fold r in Er.
  exists (r_k r), a. split; [exact Fit|]. split; [|split].
  - unfold r. rewrite sys_result by exact Io. fold r. rewrite Is. do 3 f_equal.
    replace (length bs) with (length (encode_dma_descriptor_sw dd')) by lia. f_equal.
    rewrite Er. apply load_copied_replay; [by apply good_store, U | exact Ic].
  - split; [done | done | |].
    + exact (in_step_proper _ _ _ (symmetry (board_idle_ioctl _ _ d k (proj2 Hs) Iw)) Hs).
    + apply usable_after; [exact U|].
      exact (script_delta _ bs d k 0 read_neq_register Io eq_refl).
  - exact (board_idle_ioctl _ _ d k (proj2 Hs) Iw).
Qed.

(** ** The window *)

Lemma window_guards :
  negb (_IOC_TYPE NFPIOC_WINDOW_SIZE =? IOCTL_MAGIC_NUMBER) = false /\
  (IOC_MAXNR <? _IOC_NR NFPIOC_WINDOW_SIZE) = false /\ NFPIOC_WINDOW_SIZE <> NFPIOC_REGISTER_BUFFER.
Proof.
  destruct (ioc_ior 57 7 8 ltac:(lia) ltac:(lia) ltac:(lia)) as [T N].
  destruct cmd_numbers as (N1 & N2 & N3 & N4 & N5 & N6 & N7).
  split; [|split; [by rewrite N7 | intros H; rewrite H in N7; lia]].
  unfold NFPIOC_WINDOW_SIZE, IOCTL_MAGIC_NUMBER, sizeof_u64. by rewrite T.
Qed.

Lemma nfp_ioctl_window arg ws d (k k1 k2 : K) bs :
  handle K_down_interruptible k = (0, k1) ->
  handle (K_copy_from_user arg sizeof_u64) k1 = (Some bs, k2) -> decode_u64 bs = ws ->
  let r := nfp_ioctl fuel NFPIOC_WINDOW_SIZE arg d k in
  r_out r = Done 0 /\ r_st r = d /\ calls mmio_write (r_tr r) =
    [(c_dma (d_card d) + engine_off 0 "total_bytes"%string, bytes_of 8 ws)].
Proof.
  intros Hd Hc <- r. as_wp r (nfp_ioctl fuel NFPIOC_WINDOW_SIZE arg) d k.
  unfold nfp_ioctl. destruct window_guards as (-> & -> & _).
  destruct cmd_numbers as (N1 & N2 & N3 & N4 & N5 & N6 & N7).
  wp_steps. rewrite Hd in Hans. injection Hans as <- <-. cbn [Z.eqb negb].
  unfold fetch_argument, fetch. rewrite !(cmd_neq NFPIOC_WINDOW_SIZE) by lia.
  rewrite Z.eqb_refl. cbn [orb]. wp_steps. rewrite Hc in Hans. injection Hans as <- <-. wp_steps.
  unfold dispatch. rewrite Z.eqb_refl. eapply wp_mono; [apply wp_window|].
  intros o s' k' t (-> & -> & T). wp_steps. unit_answers.
  by rewrite !calls_app, T.
Qed.

Lemma window_orderly ws : orderly (K := K) (R := R)
  (board_bar0 + 8 * DMA_OFFSET + engine_off 0 "total_bytes"%string, bytes_of 8 ws).
Proof.
  change (engine_off 0 "total_bytes"%string) with (8 * 3). split.
  - apply word_access; [lia | by rewrite bytes_of_length].
  - unfold keeps_stopped. by rewrite access_word, register_control.
Qed.

Lemma sys_window ws d k :
  serving d k -> fits 64 ws ->
  exists bs' k', sys_ioctl fuel NFPIOC_WINDOW_SIZE (encode_u64 ws) d k = Some (0, bs', d, k') /\
    serving d k' /\ board k' ≡ with_window ws (board k).
Proof.
  intros [Hwf Hb Hs U] Hw. set (bs := encode_u64 ws).
  destruct (usable_store bs k U) as [_ Rd].
  assert (L : sizeof_u64 = Z.of_nat (length bs)) by (unfold bs, encode_u64; by rewrite bytes_of_length).
  destruct (enter_ioctl bs _ k L (proj1 U) Rd) as (k1 & D & C & _).
  assert (Dc : decode_u64 bs = ws).
  { unfold decode_u64, bs, encode_u64. rewrite <- (app_nil_r (bytes_of 8 ws)).
    change (bytes_of 8 ws ++ []) with ([] ++ bytes_of 8 ws ++ []).
    rewrite scalar_at by done. by apply Z.mod_small. }
  destruct (nfp_ioctl_window argp ws d (store bs k) k1 _ bs D C Dc) as (Io & Is & Iw).
  pose proof (script_delta _ bs d k 0 (proj2 (proj2 window_guards)) Io eq_refl) as Sd.
  pose proof (sys_result _ bs d k Io) as Sr. pose proof (usable_after _ bs d k U Sd) as Ua.
  destruct (replays_nfp_ioctl fuel NFPIOC_WINDOW_SIZE argp d (store bs k)) as [Er Hc].
  set (r := nfp_ioctl fuel NFPIOC_WINDOW_SIZE argp d (store bs k)) in *.
  assert (Bw : board (r_k r) ≡ with_window ws (board k)).
  { pose proof (board_user bs k) as Bu. rewrite Er, board_replay.
    - rewrite Iw, Hb, deliver_window by done. destruct Bu as (E1 & E2 & E3 & E4).
      unfold with_window. rewrite E1, E2, E3. by split_and!.
    - by rewrite (proj1 Bu), (proj2 Hs).
    - done.
    - rewrite Iw, Hb. constructor; [apply window_orderly | done]. }
  exists (load (length bs) (r_k r)), (r_k r). rewrite Sr, Is. split; [done|]. split; [|exact Bw].
  split; [done | done | | exact Ua].
  apply (in_step_proper _ (with_window ws (board k))); [by symmetry | exact Hs].
Qed.

(** ** Registering a buffer, and giving it back *)

Definition no_store (e : event kcall) : Prop := mmio_write e = None.

Lemma no_store_record hp pag i : emits (K := K) no_store (record_huge_page hp pag i).
Proof. unfold record_huge_page. solve_emits. Qed.
Lemma no_store_forget l i : emits (K := K) no_store (forget_page l i).
Proof. unfold forget_page. solve_emits. Qed.
#[local] Hint Resolve no_store_record no_store_forget : emits.
Lemma no_store_unreg : emits (K := K) no_store unreg_hugemem.
Proof. unfold unreg_hugemem, forgetUserHugePages. solve_emits. Qed.
Lemma no_store_reg db : emits (K := K) no_store (reg_hugemem db).
Proof. unfold reg_hugemem, getUserHugePages. solve_emits. Qed.
#[local] Hint Resolve no_store_unreg no_store_reg : emits.

Lemma no_store_register arg : emits (K := K) no_store (nfp_ioctl fuel NFPIOC_REGISTER_BUFFER arg).
Proof.
  destruct cmd_numbers as (N1 & N2 & N3 & N4 & N5 & N6 & N7).
  unfold nfp_ioctl, dispatch, fetch_argument, fetch.
  rewrite !(cmd_neq NFPIOC_REGISTER_BUFFER) by lia. solve_emits.
Qed.

Lemma no_store_unregister arg :
  emits (K := K) no_store (nfp_ioctl fuel NFPIOC_UNREGISTER_BUFFER arg).
Proof.
  destruct cmd_numbers as (N1 & N2 & N3 & N4 & N5 & N6 & N7).
  unfold nfp_ioctl, dispatch, fetch_argument, fetch.
  rewrite !(cmd_neq NFPIOC_UNREGISTER_BUFFER) by lia. solve_emits.
Qed.

(** Memory for the array of pages is given, and user memory can be pinned. *)
Class PagesGiven : Prop := {
  vmalloc_given n k : good k -> 0 < n < 2 ^ 31 -> (handle (K_vmalloc_pages n) k).1 <> None;
  gup_given a n l k : good k -> 0 < n < 2 ^ 31 -> 0 <= s32 (handle (K_get_user_pages a n l) k).1.1
}.

Lemma pages_not_refused `{!PagesGiven} db k :
  good k -> 0 < user_npages (db_data db) (db_length db) < 2 ^ 31 -> ~ refuses_pages db k.
Proof.
  intros G Hn. unfold refuses_pages. pose proof (vmalloc_given _ k G Hn) as V.
  pose proof (good_call (K_vmalloc_pages (user_npages (db_data db) (db_length db))) k G) as G1.
  destruct (handle (K_vmalloc_pages _) k) as [[l|] k1]; [|done]. cbn [fst snd] in *.
  pose proof (gup_given (db_data db) _ l _ (good_call K_down_read_mmap_sem k1 G1) Hn). lia.
Qed.

Lemma encode_dma_buffer_length db : length (encode_dma_buffer db) = 40%nat.
Proof. unfold encode_dma_buffer. by rewrite !length_app, !bytes_of_length. Qed.

Lemma sys_register `{!PagesGiven} db d k :
  serving d k -> good_buffer db -> dma_buffer_ok db ->
  0 < user_npages (db_data db) (db_length db) < 2 ^ 31 ->
  length (m_page_address (c_buffer (d_card d))) = 16%nat ->
  exists bs' d' k', sys_ioctl fuel NFPIOC_REGISTER_BUFFER (encode_dma_buffer db) d k =
      Some (0, bs', d', k') /\ serving d' k' /\ registered (addr_of := addr_of) db d d' /\
    board k' ≡ board k.
Proof.
  intros [Hwf Hb Hs U] Hg Hok Hn La. set (bs := encode_dma_buffer db).
  destruct (usable_store bs k U) as [_ Rd].
  assert (L : sizeof_dma_buffer = Z.of_nat (length bs)) by (unfold bs; by rewrite encode_dma_buffer_length).
  destruct (enter_ioctl bs _ k L (proj1 U) Rd) as (k1 & D & C & G & _).
  assert (Rt : decode_dma_buffer bs = db) by by apply dma_buffer_roundtrip.
  pose proof (wp_nfp_ioctl_register (addr_of := addr_of) fuel argp d (store bs k) k1 _ bs D C) as W.
  rewrite Rt in W. specialize (W Hg La). destruct W as (Io & [(Rg & Sd) | (_ & _ & V)]);
    [|by destruct (pages_not_refused db _ G Hn)].
  pose proof (sys_result _ bs d k Io) as Sr. pose proof (usable_after _ bs d k U Sd) as Ua.
  pose proof (no_store_register argp d (store bs k)) as Ns. apply calls_none in Ns.
  pose proof (board_idle_ioctl _ bs d k (proj2 Hs) Ns) as Bi.
  set (r := nfp_ioctl fuel NFPIOC_REGISTER_BUFFER argp d (store bs k)) in *.
  exists (load (length bs) (r_k r)), (r_st r), (r_k r). split; [exact Sr|].
  split; [|split; [exact Rg | exact Bi]]. destruct Rg as (a & _ & Ec & Ed & _).
  split; [by rewrite Ed | unfold on_board; by rewrite Ec | | exact Ua].
  rewrite Ed. exact (in_step_proper _ _ _ (symmetry Bi) Hs).
Qed.

Lemma unregister_guards :
  negb (_IOC_TYPE NFPIOC_UNREGISTER_BUFFER =? IOCTL_MAGIC_NUMBER) = false /\
  (IOC_MAXNR <? _IOC_NR NFPIOC_UNREGISTER_BUFFER) = false /\
  NFPIOC_UNREGISTER_BUFFER <> NFPIOC_REGISTER_BUFFER.
Proof.
  destruct (ioc_io 57 6 ltac:(lia) ltac:(lia)) as [T N].
  destruct cmd_numbers as (N1 & N2 & N3 & N4 & N5 & N6 & N7).
  split; [|split; [by rewrite N6 | intros H; rewrite H in N6; lia]].
  unfold NFPIOC_UNREGISTER_BUFFER, IOCTL_MAGIC_NUMBER. by rewrite T.
Qed.

Lemma wp_unreg_hugemem d (k : K) :
  0 <= g_num_pages (d_mem d) <= Z.of_nat (length (g_pages (d_mem d))) ->
  wp unreg_hugemem (fun o d' _ t => o = Done 0 /\ d_dma d' = d_dma d /\
    c_dma (d_card d') = c_dma (d_card d) /\ m_length (c_buffer (d_card d')) = 0 /\
    m_page_address (c_buffer (d_card d')) = m_page_address (c_buffer (d_card d))) d k.
Proof.
  intros Hn. unfold unreg_hugemem. wp_steps.
  destruct (Z.eqb_spec (m_length (c_buffer (d_card d))) 0); wp_steps; [done|].
  eapply wp_mono; [by apply wp_forgetUserHugePages|].
  intros o s' k' t (-> & -> & _). by wp_steps.
Qed.

Lemma sys_unregister db d0 d k :
  serving d k -> registered (addr_of := addr_of) db d0 d ->
  exists bs' d' k', sys_ioctl fuel NFPIOC_UNREGISTER_BUFFER [] d k = Some (0, bs', d', k') /\
    serving d' k' /\ m_length (c_buffer (d_card d')) = 0 /\
    length (m_page_address (c_buffer (d_card d'))) = 16%nat /\ d_dma d' = d_dma d /\
    board k' ≡ board k.
Proof.
  intros [Hwf Hb Hs U] (a & [La _] & Ea & _ & Hn). destruct (usable_store [] k U) as [_ Rd].
  destruct (enter_ioctl [] 0 k eq_refl (proj1 U) Rd) as (k1 & D & _).
  assert (W : wp (nfp_ioctl fuel NFPIOC_UNREGISTER_BUFFER argp) (fun o d' _ t => o = Done 0 /\
    d_dma d' = d_dma d /\ c_dma (d_card d') = c_dma (d_card d) /\
    m_length (c_buffer (d_card d')) = 0 /\ length (m_page_address (c_buffer (d_card d'))) = 16%nat)
    d (store [] k)).
  { unfold nfp_ioctl. destruct unregister_guards as (-> & -> & _).
    destruct cmd_numbers as (N1 & N2 & N3 & N4 & N5 & N6 & N7).
    wp_steps. rewrite D in Hans. injection Hans as <- <-. cbn [Z.eqb negb].
    unfold fetch_argument. rewrite !(cmd_neq NFPIOC_UNREGISTER_BUFFER) by lia. cbn [orb]. wp_steps.
    unfold dispatch. rewrite !(cmd_neq NFPIOC_UNREGISTER_BUFFER) by lia. rewrite Z.eqb_refl.
    wp_step. eapply wp_mono; [by apply wp_unreg_hugemem|].
    intros o s' k' t (-> & E1 & E2 & E3 & E4). rewrite Ea in E4. wp_steps. by rewrite E4. }
  destruct W as (Io & Ed & Ec & El & Ep).
  pose proof (script_delta _ [] d k 0 (proj2 (proj2 unregister_guards)) Io eq_refl) as Sd.
  pose proof (sys_result _ [] d k Io) as Sr. pose proof (usable_after _ [] d k U Sd) as Ua.
  pose proof (no_store_unregister argp d (store [] k)) as Ns. apply calls_none in Ns.
  pose proof (board_idle_ioctl _ [] d k (proj2 Hs) Ns) as Bi.
  set (r := nfp_ioctl fuel NFPIOC_UNREGISTER_BUFFER argp d (store [] k)) in *.
  exists (load 0 (r_k r)), (r_st r), (r_k r). split; [exact Sr|]. split; [|by split_and!].
  split; [by rewrite Ed | unfold on_board; by rewrite Ec | | exact Ua].
  rewrite Ed. exact (in_step_proper _ _ _ (symmetry Bi) Hs).
Qed.
End Serving.

(** Outside [ioctl] the system leaves the board and the semaphore alone, and its engine
    prompt. *)
Class QuietSystem (U K R : Type) `{HU : Handler ucall U} `{HK : Handler kcall K}
    `{P : ProcessMemory K} `{B : Bram R} `{Bd : Board K R} (kernel : U -> driver * K)
    (clock : K -> Z) (count : K -> Z) (fuel : nat) `{Pr : !PromptEngine K R clock fuel} : Prop := {
  quiet_board X (c : ucall X) u : is_ioctl c = false ->
    board (kernel (handle c u).2).2 ≡ board (kernel u).2;
  quiet_prompt X (c : ucall X) u : is_ioctl c = false ->
    prompt (kernel u).2 -> prompt (kernel (handle c u).2).2;
  quiet_count X (c : ucall X) u : is_ioctl c = false ->
    count (kernel (handle c u).2).2 = count (kernel u).2
}.
