(* ===== verification/SimBoard.v ===== *)
(** * A concrete system with a board

    The concrete kernel and board of Board.v as the kernel of a concrete operating
    system: the machine of SimSystem.v whose [ioctl] reaches the board.  No theorem
    rests on it; the witnesses about the whole system do. *)

From S2P Require Import Prelude Eff IoctlCommands NfpTypes Kernel SimKernel NfpDma Prompt NfpMem.
From S2P Require Import NfpIoctl Posix Middleware Link SimSystem EngineManager DeviceDma Board.
From S2P Require Import Session.
From Stdlib Require Import ZArith Lia.
From stdpp Require Import base list strings gmap.
Local Open Scope list_scope.
Local Open Scope Z_scope.

(** ** The kernel with the board *)

Definition machine : Type := sim * device (R := gmap Z Z).

#[export] Instance machine_memory : ProcessMemory machine := {|
  argp := 4096;
  load n k := load n k.1;
  store bs k := (store bs k.1, k.2);
  good k := good k.1;
  ready k := ready k.1
|}.

(** Apart from those about the registers, calls are answered as without the board. *)
Lemma machine_answer {X} (c : kcall X) (k : machine) :
  match c with
  | K_io_load_bit _ _ => True
  | K_memcpy_fromio _ _ => True
  | K_pci_iomap _ _ => True
  | c => (handle c k).1 = (handle c k.1).1
  end.
Proof. by destruct k, c. Qed.

Lemma machine_kernel {X} (c : kcall X) (k : machine) : (handle c k).2.1 = (handle c k.1).2.
Proof. by destruct k. Qed.

#[export] Instance machine_memory_laws : MemoryLaws machine.
Proof.
  split.
  - intros X c k G. cbn [good machine_memory] in *. rewrite machine_kernel. by apply good_call.
  - intros bs k G. exact (good_store bs k.1 G).
  - intros bs k. exact (load_store bs k.1).
  - intros n k Hn G. rewrite (machine_answer (K_copy_from_user argp n)). exact (copy_in n k.1 Hn G).
  - intros bs k G. rewrite (machine_answer (K_copy_to_user argp bs)). exact (copy_out bs k.1 G).
  - intros bs k G. cbn [load machine_memory]. rewrite machine_kernel. exact (load_copied bs k.1 G).
  - intros X c n k Hc. cbn [load machine_memory]. rewrite machine_kernel. by apply load_call.
  - intros bs k Rd. exact (ready_store bs k.1 Rd).
  - intros k Rd. rewrite (machine_answer K_down_interruptible). exact (down_free k.1 Rd).
Qed.

#[export] Instance machine_semaphore : SemaphoreLaws machine (fun k => sim_sem k.1).
Proof.
  split.
  - intros X c k Hc. rewrite machine_kernel, (count_call c k.1 Hc). by destruct k, c.
  - intros bs k. exact (count_store bs k.1).
  - intros k Hk. exact (count_ready k.1 Hk).
Qed.

#[export] Instance machine_pages : PageLaws (K := machine) (fun page => 2 ^ 46 + page * 4096).
Proof.
  split.
  - intros n l [k v] H. exact (vmalloc_length n l k H).
  - intros start n l [k v]. exact (gup_length start n l k).
  - intros start n l [k v] Hn. exact (gup_count start n l k Hn).
  - intros p [k v]. done.
Qed.

#[export] Instance machine_gives : PagesGiven (K := machine).
Proof.
  split.
  - intros n [k v] G Hn. cbn. unfold fails. cbn in G. rewrite G. cbn.
    destruct (Z.ltb_spec n 1); [lia|]. destruct (Z.leb_spec (2 ^ 53) n); [lia|done].
  - intros a n l [k v] G Hn. cbn -[swrap]. unfold fails. cbn in G. rewrite G. cbn -[swrap].
    change (bool_decide (NoFailure = FailGetUserPages)) with false. cbn [fst]. rewrite swrap_id by lia. lia.
Qed.

(** The engine ends an operation within [sim_busy] polls. *)
Definition brief (k : machine) : Prop := (sim_busy k.1 <= 20)%nat.

Lemma busy_effect {X} (c : kcall X) k :
  sim_busy (sim_effect c k) = match c with K_io_load_bit _ _ => pred (sim_busy k) | _ => sim_busy k end.
Proof. destruct k, c; try done. cbn. by case_match. Qed.

Lemma busy_call {X} (c : kcall X) (k : machine) :
  sim_busy (handle c k).2.1 = match c with K_io_load_bit _ _ => pred (sim_busy k.1) | _ => sim_busy k.1 end.
Proof. rewrite machine_kernel. cbn. apply busy_effect. Qed.

Lemma clock_call {X} (c : kcall X) (k : machine) : sim_clock (handle c k).2.1 = sim_clock k.1 + 1.
Proof. rewrite machine_kernel. cbn. by rewrite sim_effect_clock. Qed.

(** The board while polls are left. *)
Lemma busy_board {X} (c : kcall X) (k : machine) :
  mmio_write (Ev c (handle c k).1) = None -> (sim_busy k.1 > 0)%nat -> (handle c k).2.2 = k.2.
Proof.
  destruct k as [k v]. intros E Hb. cbn -[mmio_write] in E |- *. unfold board_next. rewrite E.
  destruct c; try done. cbn [fst] in Hb. destruct (sim_busy k) as [|m]; [lia|].
  cbn. by rewrite andb_false_r.
Qed.

Lemma ktime_board (k : machine) : (handle K_ktime_get_us k).2.2 = k.2.
Proof. by destruct k. Qed.

Lemma machine_polls n a (k : machine) :
  (n <= sim_busy k.1)%nat -> let k' := polls n a k in
  sim_busy k'.1 = (sim_busy k.1 - n)%nat /\ sim_clock k'.1 = sim_clock k.1 + 2 * Z.of_nat n /\
  k'.2 = k.2.
Proof.
  revert k. induction n as [|n IH]; intros k Hn; cbn [polls]; [split; [lia|]; split; [lia | done]|].
  set (k1 := (handle K_ktime_get_us k).2). assert (B1 : sim_busy k1.1 = sim_busy k.1) by apply busy_call.
  destruct (IH (handle (K_io_load_bit a 0) k1).2) as (-> & -> & ->); [rewrite busy_call; lia|].
  rewrite !busy_call, !clock_call, (busy_board (K_io_load_bit a 0)) by (done || lia).
  split; [lia|]. split; [unfold k1; rewrite clock_call; lia | apply ktime_board].
Qed.

Lemma stops_when_done a (k : machine) :
  sim_busy k.1 = 0%nat -> one_operation k.2 -> (handle (K_io_load_bit a 0) k).1 = false.
Proof.
  destruct k as [k v]. intros Hb [Ho1 Ho2]. cbn [fst snd] in *.
  change (v_enable (board_next (K_io_load_bit a 0) false k v) = false).
  unfold board_next. cbn [mmio_write]. rewrite Hb, Ho1. by apply finish_stops.
Qed.

#[export] Instance machine_prompt : PromptEngine machine (gmap Z Z) (fun k => sim_clock k.1) sys_fuel.
Proof.
  refine (Build_PromptEngine _ _ _ _ _ _ brief _ _).
  - intros X c k Hk. unfold brief in *. rewrite busy_call. destruct c; lia.
  - intros a bs k Hk Ho. unfold brief in Hk. exists (sim_busy k.1). split; [unfold sys_fuel; lia|].
    set (k0 := (handle (K_memcpy_toio a bs) k).2) in *.
    assert (B0 : sim_busy k0.1 = sim_busy k.1) by apply busy_call.
    destruct (machine_polls (sim_busy k.1) a k0) as (B1 & C1 & D1); [lia|].
    split.
    + apply stops_when_done; [rewrite busy_call, B1; lia | by rewrite ktime_board, D1].
    + rewrite clock_call, C1. unfold k0. rewrite clock_call. unfold TIMEOUT_US. lia.
Defined.

#[export] Instance machine_user : UserMemory machine (gmap Z Z) (fun k => sim_clock k.1) sys_fuel.
Proof. by split. Qed.

(** ** The operating system *)

Definition board_sys : Type := sys * device (R := gmap Z Z).

Definition board_kernel (u : board_sys) : driver * machine := (s_driver u.1, (s_kernel u.1, u.2)).

Definition board_ioctl (cmd : Z) (arg : list Z) (u : board_sys) : Z * list Z * board_sys :=
  match sys_ioctl sys_fuel cmd arg (board_kernel u).1 (board_kernel u).2 with
  | Some (v, bs, d, (k, b)) => (v, bs, (Sys d k (s_dirs u.1) (s_rand u.1), b))
  | None => (-1, arg, u)
  end.

Definition board_sys_answer {X} (c : ucall X) (u : board_sys) : X * board_sys :=
  match c in ucall X return X * board_sys with
  | U_ioctl fd cmd arg => if fd =? sim_fd then board_ioctl cmd arg u else (-1, arg, u)
  | c => let r := sys_answer c u.1 in (r.1, (r.2, u.2))
  end.

#[export] Instance board_sys_handler : Handler ucall board_sys := fun X c u => board_sys_answer c u.

#[export] Instance board_sys_linked : Linked board_sys machine sys_fuel sim_fd board_kernel.
Proof.
  intros cmd bs [u b] v bs' d' [k' b'] H. unfold handle, board_sys_handler. cbn [board_sys_answer].
  rewrite Z.eqb_refl. unfold board_ioctl. by rewrite H.
Qed.

#[export] Instance board_sys_device : DeviceLaws board_sys machine sim_fd board_kernel.
Proof. split; try done; by intros X [] []. Qed.

#[export] Instance board_sys_quiet : QuietSystem board_sys machine (gmap Z Z) board_kernel
  (fun k => sim_clock k.1) (fun k => sim_sem k.1) sys_fuel.
Proof. split; by intros X [] []. Qed.

#[export] Instance board_sys_resources : Resources (U := board_sys).
Proof. by split. Qed.

#[export] Instance board_sys_mmap : MmapLaws (U := board_sys).
Proof. intros len fd u Hl. cbn. split; [by exists (2 ^ 18)|]. lia. Qed.

#[export] Instance board_sys_fs : FsLaws (U := board_sys).
Proof.
  intros X c [[d k dirs r] b] path. unfold fs, handle, board_sys_handler. destruct c; try done.
  cbn [board_sys_answer]. destruct (_ =? _); [|done]. unfold board_ioctl. by repeat case_match.
Qed.

(** The machine when the module was loaded: a board at reset. *)
Definition board_sys_init : board_sys := (Sys mapped_driver sim_init dirs_1GB 1, settled reset).

Lemma board_sys_serving :
  serving (R := gmap Z Z) (count := fun k : machine => sim_sem k.1)
    (clock := fun k : machine => sim_clock k.1) (fuel := sys_fuel)
    (board_kernel board_sys_init).1 (board_kernel board_sys_init).2.
Proof.
  split.
  - exact dma_globals_init_wf.
  - reflexivity.
  - by split.
  - split; [done|]. split; [|done]. unfold prompt, machine_prompt, brief. cbn. lia.
Qed.
