(* ===== verification/BenchDevice.v ===== *)
(** * The benchmark on the device

    The program together: the requests BenchRun.v proves the benchmark makes, run by the
    driver of NfpIoctl.v on the device of EngineManager.v.  What each part sends is what
    the next one needs, so that every iteration has the device work on the page of the
    benchmark with the parameters of the experiment, and hands back its measurements. *)

From S2P Require Import Prelude Eff IoctlCommands NfpTypes Kernel SimKernel Reg NfpDma NfpMem.
From S2P Require Import NfpIoctl Posix Middleware Link SimSystem Numbers BenchArgs BenchMain.
From S2P Require Import BenchRun EngineManager DeviceDma.
From Stdlib Require Import ZArith Lia String.
From stdpp Require Import base list strings gmap.
Local Open Scope string_scope.
Local Open Scope list_scope.
Local Open Scope Z_scope.

(** The buffer the middleware registers for one huge page. *)
Definition page_buffer (p size : Z) : dma_buffer := DmaBuffer 1 p size size 1.

Lemma page_buffer_good p size :
  0 < p -> (4096 | p) -> 0 < size < 2 ^ 63 -> (4096 | size) -> p + size <= 2 ^ 64 ->
  good_buffer (page_buffer p size).
Proof.
  intros Hp Dp Hs Ds He. unfold good_buffer, page_buffer, PAGE_SIZE; cbn.
  do 6 (split; [done || lia|]). rewrite huge_page_count_eq by (unfold fits; lia).
  assert ((size + size - 1) / size < 2) by (apply Z.div_lt_upper_bound; lia). lia.
Qed.

(** The descriptors of an experiment are values of the structure: nothing is lost on
    the way to the driver. *)
Lemma descriptor_fields args size n i :
  expressible args -> 0 <= size < 2 ^ 63 -> 0 <= n < 2 ^ 31 -> 0 <= i < 1024 ->
  dd_ok (descriptor args size n i).
Proof.
  intros (_ & Hb & _ & _ & Hp) Hs Hn Hi.
  unfold dd_ok, descriptor, buffer_size, access_mode, fits.
  cbn [dd_address dd_buffer_size dd_length dd_enable dd_u1 dd_is_c2s_op dd_is_s2c_op
    dd_address_mode dd_u0 dd_number_of_tlps dd_latency dd_address_offset dd_address_inc
    dd_time_at_req dd_time_at_comp dd_bytes_at_req dd_bytes_at_comp dd_index].
  assert (0 <= a_prop2 args / 64 < 2 ^ 63 \/ a_pat args <> RAN).
  { destruct (a_pat args); [by right | by right | left].
    split; [apply Z.div_pos | apply Z.div_lt_upper_bound]; lia. }
  destruct (a_pat args), (a_dir args); repeat split; try lia; destruct H; congruence || lia.
Qed.

Section OnDevice.
Context {K : Type} `{!Handler kcall K} {addr_of : Z -> Z} `{!PageLaws addr_of}.
Context `{E : IocEncoding} `{!IocLaws E}.

(** ** An experiment on the device *)

Context {R : Type} `{B : Bram R} `{!BramLaws R}.

(** What an iteration of the benchmark is to the device: the page of the benchmark is
    mapped, the engine starts on descriptor [d] at the bus address it was mapped to, and
    the measurements it then takes, [st], are the ones the device answers for the slot
    after the descriptor's. *)
Definition measured fuel arg (d : dma_descriptor_sw) (st : stats) (s : driver) (k : K)
    (v : device (R := R)) : Prop :=
  let r := nfp_ioctl fuel NFPIOC_WRITE_DMA_DESCRIPTOR arg s k in
  let v1 := deliver (c_bar0 (d_card s)) (calls mmio_write (r_tr r)) v in
  exists page pa,
    g_pages (d_mem s) !! 0%nat = Some page /\
    calls map_request (r_tr r) = [(u64 (addr_of page), dd_buffer_size d)] /\
    calls dma_map (r_tr r) = [(pa, dd_buffer_size d)] /\
    v_enable v1 = true /\ current_entry v1 = (pa, dd_length d) /\
    v_config v1 = Config (dd_is_c2s_op d + 2 * dd_is_s2c_op d) (dd_address_mode d)
      (last_index_descriptor_r (v_config v1)) (window_size_r (v_config v)) (dd_buffer_size d)
      (dd_address_offset d) (dd_address_inc d) (dd_number_of_tlps d) /\
    v_enable (finish st v1) = false /\
    device_stats (dd_index d + 1) (finish st v1) = st.

(** The iterations of an experiment from number [i], the kernel in any state at the
    start of each: it is given the descriptor of the iteration. *)
Fixpoint measures fuel arg (args : arguments) (size n i : Z) (turns : list (K * stats))
    (s : driver) (v : device (R := R)) : Prop :=
  match turns with
  | [] => True
  | (k, st) :: turns' =>
      let d := descriptor args size n i in
      forall k1 k2, handle K_down_interruptible k = (0, k1) ->
        handle (K_copy_from_user arg sizeof_dma_descriptor_sw) k1 =
          (Some (encode_dma_descriptor_sw d), k2) ->
        let r := nfp_ioctl fuel NFPIOC_WRITE_DMA_DESCRIPTOR arg s k in
        measured fuel arg d st s k v /\
        measures fuel arg args size n (i + 1) turns' (r_st r)
          (finish st (deliver (c_bar0 (d_card s)) (calls mmio_write (r_tr r)) v))
  end.

(** The system call of an iteration is the write of its translated descriptor. *)
Lemma iteration_writes fuel arg p size args n i s0 s (k k1 k2 : K) :
  let d := descriptor args size n i in
  expressible args -> 0 <= n < 2 ^ 31 -> acceptable args size n -> 0 <= i < a_niters args ->
  good_buffer (page_buffer p size) -> 0 < size < 2 ^ 63 ->
  registered (addr_of := addr_of) (page_buffer p size) s0 s ->
  handle K_down_interruptible k = (0, k1) ->
  handle (K_copy_from_user arg sizeof_dma_descriptor_sw) k1 =
    (Some (encode_dma_descriptor_sw d), k2) ->
  let r := nfp_ioctl fuel NFPIOC_WRITE_DMA_DESCRIPTOR arg s k in
  exists page, g_pages (d_mem s) !! 0%nat = Some page /\
    let d' := with_address (u64 (addr_of page)) d in
    let w := writeDMADescriptor fuel d' s k2 in
    dd_ok d' /\ in_range i /\ r_st r = r_st w /\
    calls mmio_write (r_tr r) = calls mmio_write (r_tr w) /\
    calls dma_map (r_tr r) = calls dma_map (r_tr w) /\
    calls map_request (r_tr r) = [(u64 (addr_of page), dd_buffer_size d)].
Proof.
  intros d Ha Hn (Hb & _ & _) Hi Hg Hs Hr Hd Hc r.
  pose proof Ha as (_ & Hbytes & _ & Hit & _). unfold MAX_DMA_DESCRIPTORS in Hit.
  assert (Ok : dd_ok d) by (apply descriptor_fields; [done | lia | lia | lia]).
  destruct (descriptor_bytes_roundtrip d Ok) as [_ Rt].
  destruct (descriptor_address_eq (page_buffer p size) s0 s d k2 Hg Hr) as (page & P1 & P2);
    try (change (dd_address d) with 0; change (dd_length d) with (a_nbytes args);
      change (db_length (page_buffer p size)) with size; lia).
  change (dd_address d) with 0 in P1, P2. change (dd_length d) with (a_nbytes args) in P2.
  change (db_hp_size (page_buffer p size)) with size in P1, P2.
  rewrite Z.mod_0_l, Z.add_0_l, Z.add_0_r in P2 by lia.
  rewrite Z.div_0_l, Z.mul_0_r in P1 by lia. destruct (Z.ltb_spec (a_nbytes args) size); [|lia].
  rewrite <- Rt in P2 at 1.
  destruct (nfp_ioctl_write_is fuel arg s k k1 k2 _ _ Hd Hc P2) as (_ & Is & Iw & Im & Iq & _).
  rewrite Rt in Is, Iw, Im, Iq. exists page. split; [exact P1|]. intros d' w.
  split; [apply with_address_ok; [by apply wrap_fits | done]|].
  split; [unfold in_range, MAX_NUM_DMA_DESCRIPTORS; lia|].
  do 3 (split; [done|]). unfold r. rewrite Iq. exact (wp_write_requests fuel d' s k2).
Qed.

(** One iteration, with what the next one needs. *)
Lemma iteration_measured fuel arg p size args n i s0 s (k k1 k2 : K) st v :
  let d := descriptor args size n i in
  expressible args -> 0 <= n < 2 ^ 31 -> acceptable args size n -> 0 <= i < a_niters args ->
  good_buffer (page_buffer p size) -> 0 < size < 2 ^ 63 ->
  registered (addr_of := addr_of) (page_buffer p size) s0 s -> dma_wf (d_dma s) -> attached s ->
  g_ldescriptor (d_dma s) = i -> in_step (d_dma s) v -> stats_ok st ->
  handle K_down_interruptible k = (0, k1) ->
  handle (K_copy_from_user arg sizeof_dma_descriptor_sw) k1 =
    (Some (encode_dma_descriptor_sw d), k2) ->
  let r := nfp_ioctl fuel NFPIOC_WRITE_DMA_DESCRIPTOR arg s k in
  measured fuel arg d st s k v /\
  dma_wf (d_dma (r_st r)) /\ d_card (r_st r) = d_card s /\ d_mem (r_st r) = d_mem s /\
  g_ldescriptor (d_dma (r_st r)) = (i + 1) mod 1024 /\
  in_step (d_dma (r_st r))
    (finish st (deliver (c_bar0 (d_card s)) (calls mmio_write (r_tr r)) v)).
Proof.
  intros d Ha Hn Hacc Hi Hg Hs Hr Hwf Hat Hl Hst Hok Hd Hc r.
  destruct (iteration_writes fuel arg p size args n i s0 s k k1 k2 Ha Hn Hacc Hi Hg Hs Hr Hd Hc)
    as (page & P & Ok & Hj & Is & Iw & Im & Iq). fold d in Ok, Is, Iw, Im, Iq. fold r in Is, Iw, Im, Iq.
  set (d' := with_address (u64 (addr_of page)) d) in *.
  destruct (write_starts fuel d' s k2 v Hwf Hat Ok Hj ltac:(done))
    as (pa & M & Hp & D & N & W & C1 & C2).
  destruct (finish_held d' pa (d_dma s) v st ltac:(apply Hwf) Hst Hok) as (F1 & F2 & F3).
  pose proof Hst as [Hact _]. unfold started in D. rewrite <- Iw in D. rewrite Is.
  unfold measured. fold r. rewrite D, Iq, Im, M. rewrite Hl in N.
  split; [|split_and!; try done; split; [by rewrite N, <- Hl | done]].
  exists page, pa. split_and!; try done.
  - rewrite current_entry_held by done. change (dd_index d') with i. by rewrite Hact, Hl, Z.eqb_refl.
  - change (dd_index d) with i. by rewrite <- Hl.
Qed.

(** The program as a whole, on a card fresh from its reset: whatever state the
    kernel is in at each system call, every iteration of an experiment that fits has
    the device work on the page of the benchmark with exactly the parameters of the
    experiment, one operation at a time and in order, and the measurements of iteration
    [i] are what the device answers for slot [i + 1], the one the benchmark reads. *)
Theorem experiment_on_device fuel arg p size args n turns s0 s (v : device (R := R)) :
  expressible args -> 0 <= n < 2 ^ 31 -> acceptable args size n ->
  Z.of_nat (length turns) <= a_niters args -> Forall (fun t => stats_ok t.2) turns ->
  good_buffer (page_buffer p size) -> 0 < size < 2 ^ 63 ->
  registered (addr_of := addr_of) (page_buffer p size) s0 s -> dma_wf (d_dma s) -> attached s ->
  g_ldescriptor (d_dma s) = 0 -> in_step (d_dma s) v ->
  measures fuel arg args size n 0 turns s v.
Proof.
  intros Ha Hn Hacc Hlen Hok Hg Hs.
  cut (forall i s0 s v, 0 <= i -> i + Z.of_nat (length turns) <= a_niters args ->
    registered (addr_of := addr_of) (page_buffer p size) s0 s -> dma_wf (d_dma s) ->
    attached s -> (turns = [] \/ g_ldescriptor (d_dma s) = i) -> in_step (d_dma s) v ->
    measures fuel arg args size n i turns s v).
  { intros G Hr Hwf Hat Hl Hst. apply (G 0 s0); auto. lia. }
  clear Hlen s0 s v. induction turns as [|[k st] turns IH]; intros i s0 s v Hi Hlen Hr Hwf Hat Hl Hst;
    [done|].
  destruct Hl as [|Hl]; [done|]. apply Forall_cons_1 in Hok as [Hk Hok]. cbn [length] in Hlen.
  cbn [measures]. intros k1 k2 Hd Hc. set (r := nfp_ioctl _ _ _ s k) in *.
  destruct (iteration_measured fuel arg p size args n i s0 s k k1 k2 st v) as
    (M & W & C1 & C2 & N & S); try done; [lia|]. split; [exact M|].
  apply (IH Hok (i + 1) (Driver (d_card s0) (d_dma (r_st r)) (d_mem s0))); try done; try lia.
  - by apply registered_after with s.
  - unfold attached. unfold r. by rewrite C1.
  - pose proof Ha as (_ & _ & _ & Hit & _). unfold MAX_DMA_DESCRIPTORS in Hit.
    destruct turns as [|? turns]; [by left | right]. cbn [length] in Hlen.
    unfold r. rewrite N. apply Z.mod_small. lia.
Qed.

(** The kernel reads the registers of the device. *)
Definition answered_by (bar0 : Z) (v : device (R := R)) (t : ktrace) : Prop :=
  calls read_answer t =
    (fun x => table_read (v_active v) ((x.1 - bar0) / 8) (v_tables v)) <$> calls mmio_read t.

(** The way back: reading the descriptor of slot [j], one of the 1024 or the one
    after the last, hands the user the measurements of the device for that slot, field by
    field, in the descriptor that was passed. *)
Theorem measurements_reach_user fuel arg p size d s0 s (k k1 k2 : K) v :
  dd_ok d -> 0 <= dd_address d -> dd_address d + dd_length d < size -> size < 2 ^ 63 ->
  good_buffer (page_buffer p size) ->
  registered (addr_of := addr_of) (page_buffer p size) s0 s -> attached s ->
  handle K_down_interruptible k = (0, k1) ->
  handle (K_copy_from_user arg sizeof_dma_descriptor_sw) k1 =
    (Some (encode_dma_descriptor_sw d), k2) ->
  let r := nfp_ioctl fuel NFPIOC_READ_DMA_DESCRIPTOR arg s k in
  answered_by (c_bar0 (d_card s)) v (r_tr r) ->
  r_out r = Done 0 /\ r_st r = s /\ exists d',
    calls copied_out (r_tr r) = [(arg, encode_dma_descriptor_sw d')] /\
    d' = with_status (stats_words (device_stats (dd_index d) v)) (with_address (dd_address d') d).
Proof.
  intros Ok Ha0 Ha1 Hs Hg Hr Hat Hd Hc r Hv.
  destruct (descriptor_bytes_roundtrip d Ok) as [_ Rt].
  assert (Hl : 0 <= dd_length d) by apply Ok.
  pose proof (nfp_ioctl_read_run (addr_of := addr_of) fuel arg (page_buffer p size) s0 s k k1 k2
    (encode_dma_descriptor_sw d) Hd Hc Hg Hr) as W. cbv zeta in W. rewrite Rt in W.
  change (db_hp_size (page_buffer p size)) with size in W.
  change (db_length (page_buffer p size)) with size in W. fold r in W.
  rewrite (Z.mod_small (dd_address d)) in W by lia.
  destruct W as (O & S & _ & W); [lia.. |]. destruct (Z.ltb_spec (dd_address d + dd_length d) size); [|lia].
  destruct W as (M & page & l & _ & L & C). split; [exact O|]. split; [exact S|].
  eexists. split; [exact C|]. rewrite <- L, Hv, M. unfold status_members. cbn [fmap list_fmap fst].
  rewrite Hat.
  assert (A : forall f, (c_bar0 (d_card s) + 8 * DMA_OFFSET + descriptor_off (dd_index d) f -
    c_bar0 (d_card s)) / 8 = (8 * DMA_OFFSET + descriptor_off (dd_index d) f) / 8)
    by (intros f; f_equal; lia).
  by rewrite !A.
Qed.
End OnDevice.

(** ** Witnesses *)

(** A card whose registers are mapped at 0, with the page of 8 KB registered. *)
Definition card_attached : driver :=
  Driver (Card 0 0 0 0 0 (8 * DMA_OFFSET) mem_zero mmap_info_zero) dma_globals_init mem_globals_init.
Definition card_ready : driver :=
  r_st (reg_hugemem (page_buffer (2 ^ 30) 8192) card_attached sim_init).

Lemma card_ready_ok :
  registered (addr_of := sim_addr) (page_buffer (2 ^ 30) 8192) card_attached card_ready.
Proof.
  exists ((2 ^ 46 + 2 ^ 30) :: replicate 15 0). split.
  - split; [done|]. intros i Hi. change (0 <= i < 1) in Hi. assert (i = 0) as -> by lia.
    eexists. split; [vm_compute; reflexivity | vm_compute; reflexivity].
  - split; [vm_compute; reflexivity|]. split; [reflexivity|]. by vm_compute.
Qed.

Definition sim_first : sim :=
  sim_with 4096 (encode_dma_descriptor_sw (descriptor fixed_arguments 8192 262144 0)).

Lemma experiment_on_device_witness :
  let r := nfp_ioctl 10 NFPIOC_WRITE_DMA_DESCRIPTOR 4096 card_ready sim_first in
  device_stats 1
    (finish (Stats 7 1 2 3 4) (deliver 0 (calls mmio_write (r_tr r)) (settled reset))) =
  Stats 7 1 2 3 4.
Proof.
  assert (W : measures (addr_of := sim_addr) 10 4096 fixed_arguments 8192 262144 0
    [(sim_first, Stats 7 1 2 3 4)] card_ready (settled reset)).
  { apply experiment_on_device with (2 ^ 30) card_attached.
    - exact fixed_expressible.
    - done.
    - split; [done|]. split; [by right|]. by exists 13.
    - done.
    - by repeat constructor.
    - apply page_buffer_good; [done | by exists 262144 | done | by exists 2 | done].
    - done.
    - exact card_ready_ok.
    - exact dma_globals_init_wf.
    - reflexivity.
    - reflexivity.
    - split; reflexivity. }
  destruct (W (sim_after K_down_interruptible sim_first)
    (sim_after (K_copy_from_user 4096 sizeof_dma_descriptor_sw)
      (sim_after K_down_interruptible sim_first))) as [M _].
  - vm_compute. reflexivity.
  - vm_compute. reflexivity.
  - destruct M as (page & pa & _ & _ & _ & _ & _ & _ & _ & M). exact M.
Defined.

(** The device after an operation, and a kernel that sees its registers for slot 1. *)
Definition device_measured : device (R := gmap Z Z) := finish (Stats 7 1 2 3 4) (settled reset).
Definition sim_second : sim :=
  Sim 0 1 (write_bytes ∅ 4096 (encode_dma_descriptor_sw (descriptor fixed_arguments 8192 262144 1)))
    (write_bytes ∅ (8 * DMA_OFFSET + descriptor_off 1 "latency")
      (concat (bytes_of 8 <$> [7; 1; 2; 3; 4]))) ∅ 3 0 NoFailure.

Lemma measurements_reach_user_witness :
  let r := nfp_ioctl 10 NFPIOC_READ_DMA_DESCRIPTOR 4096 card_ready sim_second in
  r_out r = Done 0 /\ exists a, calls copied_out (r_tr r) =
    [(4096, encode_dma_descriptor_sw (with_status [7; 1; 2; 3; 4]
      (with_address a (descriptor fixed_arguments 8192 262144 1))))].
Proof.
  intros r.
  destruct (measurements_reach_user (addr_of := sim_addr) 10 4096 (2 ^ 30) 8192
    (descriptor fixed_arguments 8192 262144 1) card_attached card_ready sim_second
    (sim_after K_down_interruptible sim_second)
    (sim_after (K_copy_from_user 4096 sizeof_dma_descriptor_sw)
      (sim_after K_down_interruptible sim_second)) device_measured) as (O & _ & d' & C & D).
  - apply descriptor_fields; [exact fixed_expressible | done | done | done].
  - done.
  - done.
  - done.
  - apply page_buffer_good; [done | by exists 262144 | done | by exists 2 | done].
  - exact card_ready_ok.
  - reflexivity.
  - vm_compute. reflexivity.
  - vm_compute. reflexivity.
  - vm_compute. reflexivity.
  - split; [exact O|]. exists (dd_address d'). fold r in C. rewrite C, D at 1. reflexivity.
Defined.
