(* ===== verification/System.v ===== *)
(** * The whole system

    The program, the C library, the kernel, the driver and the board at once: [ioctl] of
    the program runs the driver ([Linked]), the driver's calls reach the board
    ([Board]), and the board works on its own.  A run of the benchmark then prints what
    the board measured. *)

From S2P Require Import Prelude Eff IoctlCommands NfpTypes Kernel SimKernel NfpDma Prompt NfpMem.
From S2P Require Import NfpIoctl Posix Middleware Link SimSystem Numbers BenchArgs BenchMain BenchRun.
From S2P Require Import EngineManager DeviceDma Board Session SimBoard BenchDevice.
From Stdlib Require Import ZArith Lia String.
From stdpp Require Import base list strings gmap pretty.
Local Open Scope string_scope.
Local Open Scope list_scope.
Local Open Scope Z_scope.
Local Open Scope eff_scope.

(** ** The report of an experiment *)

(** The lines of iteration [i] of an experiment for the measurements [st]. *)
Definition report (args : arguments) (n i : Z) (st : stats) : list line :=
  [Text (pattern_name (a_pat args));
   Text (pretty i ++ "," ++ pretty (s64 (a_nbytes args)))%string;
   match a_test args with
   | LATENCY => Text ("," ++ pretty (s64 (u64 (st_comp_time st * 4))) ++ nl)%string
   | BANDWIDTH =>
       Gbps (default 0 (total_bytes (a_dir args) (a_nbytes args) n)) (u64 (st_latency st * 4))
   end].

Fixpoint reports (args : arguments) (n i : Z) (sts : list stats) : list line :=
  match sts with
  | [] => []
  | st :: sts' => report args n i st ++ reports args n (i + 1) sts'
  end.

(** ** Programs on the system *)

Section System.
Context {U K R : Type} `{HU : Handler ucall U} `{HK : Handler kcall K}.
Context `{B : Bram R} `{!BramLaws R} `{Bd : Board K R} `{!BoardLaws K R}.
Context `{P : ProcessMemory K} `{!MemoryLaws K} {count : K -> Z} `{!SemaphoreLaws K count}.
Context {addr_of : Z -> Z} `{!PageLaws addr_of} `{!PagesGiven (K := K)}.
Context `{E : IocEncoding} `{!IocLaws E} {clock : K -> Z} {rate : nat} `{!ClockLaws clock rate}.
Context {fuel : nat} `{!PromptEngine K R clock fuel} `{!UserMemory K R clock fuel}.
Context {dev_fd : Z} {kernel : U -> driver * K} `{!Linked U K fuel dev_fd kernel}.
Context `{!DeviceLaws U K dev_fd kernel} `{!QuietSystem U K R kernel clock count fuel}.
Context `{!FsLaws (U := U)} `{!Resources (U := U)} `{!MmapLaws (U := U)}.

(** The board as the program's system has it. *)
Definition the_board (u : U) : device (R := R) := board (kernel u).2.

Definition undisturbed (u u' : U) : Prop :=
  (kernel u').1 = (kernel u).1 /\ the_board u' ≡ the_board u /\
  (usable (count := count) (clock := clock) (fuel := fuel) (kernel u).2 ->
   usable (count := count) (clock := clock) (fuel := fuel) (kernel u').2).

Lemma undisturbed_trans u1 u2 u3 : undisturbed u1 u2 -> undisturbed u2 u3 -> undisturbed u1 u3.
Proof.
  intros (A & B' & C) (A' & B2 & C'). split; [congruence|]. split; [by rewrite B2 | auto].
Qed.

Lemma undisturbed_call {X} (c : ucall X) u : is_ioctl c = false -> undisturbed u (handle c u).2.
Proof.
  intros Hc. split; [by apply (quiet_driver (dev_fd := dev_fd))|].
  split; [by apply (quiet_board (clock := clock) (count := count) (fuel := fuel))|].
  intros (G & Pk & C). split; [by apply (quiet_good (dev_fd := dev_fd))|].
  split; [by apply (quiet_prompt (clock := clock) (count := count) (fuel := fuel))|].
  by rewrite (quiet_count (clock := clock) (fuel := fuel)).
Qed.

Lemma undisturbed_replay t u : calls ioctl_sent t = [] -> undisturbed u (replay t u).
Proof.
  intros F%calls_nil_inv. apply (replay_keeps (undisturbed u)); [|by split].
  eapply Forall_impl; [exact F|]. intros [X c r] Hc k' Hk.
  apply (undisturbed_trans _ _ _ Hk), undisturbed_call. by destruct c.
Qed.

(** A computation without requests leaves driver and board as they are. *)
Lemma wp_calm {A} (m : UM U A) Q s u :
  replays m -> wp m Q s u -> (forall o s' u' t, Q o s' u' t -> calls ioctl_sent t = []) ->
  wp m (fun o s' u' t => Q o s' u' t /\ undisturbed u u') s u.
Proof.
  intros Hm W HQ. eapply wp_mono; [exact (wp_replays m Q s u Hm W)|].
  intros o s' u' t (H & -> & _). split; [exact H|]. apply undisturbed_replay. by eapply HQ.
Qed.

(** Driver and board wait for descriptor [l], with a page registered. *)
Record waiting (a l : Z) (db : dma_buffer) (u : U) : Prop := Waiting {
  wt_serving : serving (R := R) (count := count) (clock := clock) (fuel := fuel) (kernel u).1 (kernel u).2;
  wt_buffer : exists d0, registered (addr_of := addr_of) db d0 (kernel u).1;
  wt_index : g_ldescriptor (d_dma (kernel u).1) = l;
  wt_page : exists p, g_pages (d_mem (kernel u).1) !! 0%nat = Some p /\ a = u64 (addr_of p)
}.

Lemma serving_undisturbed u u' :
  undisturbed u u' ->
  serving (R := R) (count := count) (clock := clock) (fuel := fuel) (kernel u).1 (kernel u).2 ->
  serving (R := R) (count := count) (clock := clock) (fuel := fuel) (kernel u').1 (kernel u').2.
Proof.
  intros (Ed & Eb & Eu) [W1 W2 W3 W4]. rewrite Ed. split; auto.
  exact (in_step_proper _ _ _ (symmetry Eb) W3).
Qed.

Lemma waiting_undisturbed a l db u u' : undisturbed u u' -> waiting a l db u -> waiting a l db u'.
Proof.
  intros Hu [W1 W2 W3 W4]. pose proof (serving_undisturbed _ _ Hu W1) as W.
  destruct Hu as (Ed & _). split; [exact W | by rewrite Ed..].
Qed.

(** ** The two requests of an iteration *)

Lemma wp_write_waiting f a l db dd s u :
  a_fd s = dev_fd -> waiting a l db u -> good_buffer db ->
  dd_ok dd -> in_range (dd_index dd) -> dd_enable dd <> 0 -> dd_address dd = 0 ->
  dd_length dd < db_hp_size db ->
  wp (writeDescriptor dd) (fun o s' u' t => o = Done (dd, 0) /\ s' = s /\
    calls (logged f) t = [] /\ waiting a ((l + 1) mod 1024) db u' /\
    exists st, performed (K := K) a dd l st (the_board u) (the_board u')) s u.
Proof.
  intros Hfd [Sv [d0 Hr] Hi (p & Hp & ->)] Hg Ok Hj He Ha Hl.
  pose proof Hg as (_ & _ & Hl0 & _ & Hh & _). pose proof Ok as (_ & _ & Fl & _). unfold fits in Fl.
  destruct (sys_write db d0 dd _ _ Sv Hg Hr Ok Hj He) as
    (d' & k' & p' & st & S & Sv' & Ec & Em & N & P1 & Sd);
    rewrite ?Ha, ?Zmod_0_l; try done; try lia.
  rewrite Ha, Zdiv_0_l, Z.mul_0_r in P1. change (Z.to_nat 0) with 0%nat in P1.
  rewrite Hp in P1. injection P1 as <-.
  rewrite Ha, Zmod_0_l, Z.add_0_r, Hi in Sd. rewrite Hi in N.
  destruct (ioctl_runs (kernel := kernel) _ _ u _ _ _ _ S) as [A1 A2].
  unfold writeDescriptor, getCharDeviceDescriptor. wp_steps.
  rewrite Hfd in Hans. rewrite Hans in A1, A2. cbn [fst snd] in A1, A2. subst ans.
  cbn [snd]. destruct (descriptor_bytes_roundtrip dd Ok) as [_ ->].
  do 3 (split; [done|]). split.
  - split; rewrite A2; cbn [fst snd].
    + exact Sv'.
    + eexists. by apply (registered_after _ _ _ _ Hr).
    + exact N.
    + exists p. by rewrite Em.
  - exists st. unfold the_board. rewrite A2. exact Sd.
Qed.

Lemma wp_read_waiting f a l db dd s u :
  a_fd s = dev_fd -> waiting a l db u -> good_buffer db ->
  dd_ok dd -> 0 <= dd_index dd <= MAX_NUM_DMA_DESCRIPTORS -> dd_address dd = 0 ->
  dd_length dd < db_hp_size db ->
  wp (readDescriptor dd) (fun o s' u' t => s' = s /\ calls (logged f) t = [] /\
    waiting a l db u' /\ the_board u' ≡ the_board u /\
    exists b, o = Done (with_status (stats_words (device_stats (dd_index dd) (the_board u)))
      (with_address b dd), 0)) s u.
Proof.
  intros Hfd [Sv [d0 Hr] Hi Hp] Hg Ok Hj Ha Hl.
  pose proof Hg as (_ & _ & Hl0 & _ & Hh & _). pose proof Ok as (_ & _ & Fl & _). unfold fits in Fl.
  destruct (sys_read db d0 dd _ _ Sv Hg Hr Ok Hj) as (k' & b & Fb & S & Sv' & Bk);
    rewrite ?Ha, ?Zmod_0_l; try done; try lia.
  destruct (ioctl_runs (kernel := kernel) _ _ u _ _ _ _ S) as [A1 A2].
  unfold readDescriptor, getCharDeviceDescriptor. wp_steps.
  rewrite Hfd in Hans. rewrite Hans in A1, A2. cbn [fst snd] in A1, A2. subst ans.
  cbn [snd]. rewrite (proj2 (descriptor_bytes_roundtrip _ (with_status_ok _ _
    (device_stats_ok _ _) (with_address_ok b dd Fb Ok)))).
  do 2 (split; [done|]). split; [|split; [by unfold the_board; rewrite A2 | by exists b]].
  by split; rewrite A2; cbn [fst snd]; [exact Sv' | exists d0 | | ].
Qed.

(** ** An iteration *)

Definition no_line (f : Z) (e : event ucall) : Prop := logged f e = None.

Lemma wp_log_calm f msg s (u : U) :
  f <> 0 ->
  wp (log f msg) (fun o s' u' t => o = Done tt /\ s' = s /\ calls (logged f) t = [Text msg] /\
    undisturbed u u') s u.
Proof.
  intros Hf. unfold log. apply Z.eqb_neq in Hf as ->. wp_step. destruct ans.
  do 2 (split; [done|]). split; [cbn; by rewrite Z.eqb_refl|].
  pose proof (undisturbed_call (U_fprintf f msg) u eq_refl) as D. by rewrite Hans in D.
Qed.

Lemma wp_prepare_calm f args pmem d s (u : U) :
  cache_ready args ->
  wp (prepare_cache args pmem d) (fun o s' u' t => o = Done tt /\ s' = s /\
    calls (logged f) t = [] /\ undisturbed u u') s u.
Proof.
  intros Hc.
  assert (Hr : replays (K := U) (prepare_cache args pmem d)).
  { unfold prepare_cache, warm_cache, thrash_cache, umod. solve_replays. }
  assert (He : emits (K := U) (no_line f) (prepare_cache args pmem d)).
  { assert (W : forall p n, emits (K := U) (no_line f) (warm_cache p n)).
    { intros p n. unfold warm_cache. apply emits_for_range. intros i. solve_emits. }
    assert (T : emits (K := U) (no_line f) thrash_cache).
    { unfold thrash_cache. apply emits_for_range. intros i. solve_emits. }
    unfold prepare_cache. destruct (a_cache args), (a_pat args); auto with emits. }
  eapply wp_mono; [apply (wp_calm _ _ s u Hr
    (wp_and _ _ _ _ _ (silent_prepare_cache args pmem d Hc s u) (wp_emits _ _ s u He)))|].
  - intros o s' u' t [(_ & _ & F) _]. by apply quiet_talks in F as [? _].
  - intros o s' u' t [[(-> & -> & _) F] D]. apply calls_none in F. done.
Qed.

(** The last line of an iteration. *)
Lemma wp_measurement f args n st lat comp s (u : U) :
  f <> 0 -> lat = st_latency st -> comp = st_comp_time st ->
  wp (match a_test args with
      | BANDWIDTH =>
          if f =? 0 then halt (Undefined NullDeref)
          else call (U_fprintf_gbps f (bytes_of_tlps (a_dir args) (a_nbytes args) (Z.to_nat n))
            (u64 (lat * 4)))
      | LATENCY => log f ("," ++ pretty (s64 (u64 (comp * 4))) ++ nl)%string
      end) (fun o s' u' t => o = Done tt /\ s' = s /\
    calls (logged f) t = [match a_test args with
      | LATENCY => Text ("," ++ pretty (s64 (u64 (st_comp_time st * 4))) ++ nl)%string
      | BANDWIDTH => Gbps (bytes_of_tlps (a_dir args) (a_nbytes args) (Z.to_nat n))
          (u64 (st_latency st * 4))
      end] /\ undisturbed u u') s u.
Proof.
  intros Hf -> ->. destruct (a_test args); [by apply wp_log_calm|].
  apply Z.eqb_neq in Hf as ->. wp_step. destruct ans.
  do 2 (split; [done|]). split; [cbn; by rewrite Z.eqb_refl|].
  match type of Hans with handle ?c u = _ => pose proof (undisturbed_call c u eq_refl) as D end.
  by rewrite Hans in D.
Qed.

Lemma wp_run_waiting fname args a p n i l size pmem s (u : U) :
  fname <> 0 -> cache_ready args -> a_fd s = dev_fd -> expressible args -> 0 <= n < 2 ^ 31 ->
  acceptable args size n -> 0 < a_nbytes args < 2 ^ 31 -> size < 2 ^ 63 -> 0 <= i < 1023 ->
  0 <= l < 1023 -> good_buffer (page_buffer p size) -> waiting a l (page_buffer p size) u ->
  let d := descriptor args size n i in
  wp (run_descriptor fname args pmem i n d) (fun o s' u' t => s' = s /\ (exists d', o = Done d') /\
    waiting a (l + 1) (page_buffer p size) u' /\
    calls (logged fname) t = tail (report args n i (device_stats (i + 1) (the_board u'))) /\
    exists st, performed (K := K) a d l st (the_board u) (the_board u')) s u.
Proof.
  intros Hf Hc Hfd Ha Hn (Hb & _) Hnb Hs Hi Hl Hg Wt d.
  assert (Ok : dd_ok d) by (apply descriptor_fields; [done | lia | lia | lia]).
  assert (Tb := total_bytes_eq (a_dir args) (a_nbytes args) n ltac:(lia) Hn).
  unfold run_descriptor. wp_step. eapply wp_mono; [by apply wp_log_calm|].
  intros o s1 u1 t1 (-> & -> & L1 & D1). wp_step. eapply wp_mono; [by apply (wp_prepare_calm fname)|].
  intros o s2 u2 t2 (-> & -> & L2 & D2). pose proof (undisturbed_trans _ _ _ D1 D2) as D.
  apply (waiting_undisturbed _ _ _ _ _ D) in Wt. destruct D as (_ & Eb & _). clear D1 D2 u1.
  wp_step. eapply wp_mono; [apply (wp_write_waiting fname a l (page_buffer p size) d);
    first [done | unfold in_range, MAX_NUM_DMA_DESCRIPTORS; cbn; lia]|].
  intros o s3 u3 t3 (-> & -> & L3 & Wt3 & st & Sd). cbn [fst].
  change (dd_index d) with i in *. rewrite (Z.mod_small (l + 1) 1024) in Wt3 by lia.
  rewrite (wrap_id 64 (i + 1)), (Z.mod_small (i + 1)) by (unfold fits, MAX_DMA_DESCRIPTORS; lia).
  change (with_index (i + 1) d) with (descriptor args size n (i + 1)).
  assert (Ok' : dd_ok (descriptor args size n (i + 1))) by (apply descriptor_fields; [done | lia | lia | lia]).
  wp_step. eapply wp_mono; [apply (wp_read_waiting fname a (l + 1) (page_buffer p size));
    first [done | unfold MAX_NUM_DMA_DESCRIPTORS; cbn; lia]|].
  intros o s4 u4 t4 (-> & L4 & Wt4 & Eb4 & b & ->). cbn [fst].
  change (dd_index (descriptor args size n (i + 1))) with (i + 1).
  set (shown := device_stats (i + 1) (the_board u3)). rewrite Tb.
  wp_step. apply wp_ret. cbn beta iota.
  wp_step. eapply wp_mono; [by apply (wp_measurement fname args n shown)|].
  intros o s5 u5 t5 (-> & -> & L5 & D5). apply wp_ret. split; [done|]. split; [by eexists|].
  split; [by apply (waiting_undisturbed _ _ _ _ _ D5)|]. destruct D5 as (_ & Eb5 & _).
  assert (Eb3 : the_board u3 ≡ the_board u5) by (by rewrite Eb5, Eb4).
  split; [|exists st; exact (performed_proper _ _ _ _ _ _ _ _ Eb Eb3 Sd)].
  rewrite !calls_app, L1, L2, L3, L4, L5, app_nil_r, <- (device_stats_proper _ _ _ Eb3).
  unfold report. by rewrite Tb.
Qed.

(** ** The main loop *)

Section Loop.
Variables (fname a p pmem size n : Z) (args : arguments).
Hypothesis Hname : fname <> 0.
Hypothesis Hcache : cache_ready args.
Hypothesis Hargs : expressible args.
Hypothesis Hacc : acceptable args size n.
Hypothesis Hbytes : 0 < a_nbytes args < 2 ^ 31.
Hypothesis Hsize : 0 <= size < 2 ^ 63.
Hypothesis Htlps : number_of_tlps (a_test args) (a_dir args) (a_nbytes args) = Some n.
Hypothesis Hbuffer : good_buffer (page_buffer p size).

(** A check that passes. *)
Lemma wp_passed (c : bool) msg {A} (g : bool -> UM U A) Q s (u : U) :
  c = false -> wp (g true) (fun o s' u' t => Q o s' u' t) s u ->
  wp (bind (if c then do* log fname msg in ret false else ret true) g) Q s u.
Proof. intros -> H. wp_step. by apply wp_ret. Qed.

Lemma wp_iteration_waiting i l dlist s (u : U) :
  a_fd s = dev_fd -> arr_get dlist i = Some dd_zero -> 0 <= i < 1023 -> 0 <= l < 1023 ->
  waiting a l (page_buffer p size) u ->
  wp (iteration 64 fname args pmem size i dlist) (fun o s' u' t => s' = s /\
    (exists d, o = Done (<[Z.to_nat i := d]> dlist, Continue)) /\
    waiting a (l + 1) (page_buffer p size) u' /\
    calls (logged fname) t = report args n i (device_stats (i + 1) (the_board u')) /\
    exists st, performed (K := K) a (descriptor args size n i) l st (the_board u) (the_board u')) s u.
Proof using All.
  intros Hfd Hi Ri Rl Wt. pose proof (tlps_range args n Hargs (proj2 Hbytes) Htlps) as Rn.
  pose proof Hi as Ri'. apply arr_get_Some in Ri' as [Ri' _].
  unfold iteration. rewrite Hi. wp_step. apply wp_ret. cbn beta iota zeta.
  change (dd_length (fill args size i dd_zero)) with (a_nbytes args). rewrite Htlps.
  pose proof Hacc as (Hb & Hpat & Hpow).
  apply wp_passed; [by apply Z.leb_gt|]. wp_step.
  assert (Hr : replays (K := U) (set_pattern fname args (with_tlps n (fill args size i dd_zero)))).
  { unfold set_pattern, log. solve_replays. }
  eapply wp_mono; [apply (wp_calm _ _ s u Hr
    (wp_set_pattern fname size args n Hname Hargs (proj2 Hbytes) i s u Rn))|].
  { intros o s' u' t (_ & F & _). by apply quiet_talks in F as [? _]. }
  intros o s2 u2 t2 [(-> & _ & ok & -> & Hok & L2) D2]. cbn beta iota zeta. cbn [fst snd].
  rewrite (proj2 Hok Hpat) in *. specialize (L2 eq_refl). clear ok Hok.
  change (dd_buffer_size (descriptor args size n i)) with (buffer_size args size).
  destruct (power_above_found _ (buffer_size_range size args Hargs ltac:(lia))) as (pow & El & Hl).
  rewrite El, (proj2 Hl Hpow). apply wp_passed; [by rewrite Z.eqb_refl|]. cbn [andb negb].
  rewrite swrap_id by lia. wp_step.
  eapply wp_mono; [apply (wp_run_waiting fname args a p n i l size pmem s u2); try done; try lia;
    by apply (waiting_undisturbed _ _ _ _ _ D2)|].
  intros o s3 u3 t3 (-> & (d & ->) & Wt3 & L3 & st & Sd). rewrite arr_set_in by done.
  wp_step. apply wp_ret. wp_step. split; [done|]. split; [by eexists|]. split; [exact Wt3|].
  cbn [app]. rewrite !app_nil_r, calls_app, L2, L3. split; [done|]. exists st.
  exact (performed_proper _ _ _ _ _ _ _ _ (proj1 (proj2 D2)) (reflexivity _) Sd).
Qed.

(** The operations of iterations from [i], driver and board at descriptor [l]. *)
Fixpoint operations (i l : Z) (sts : list stats) (v v' : device (R := R)) : Prop :=
  match sts with
  | [] => v' ≡ v
  | st :: sts' => exists v1, performed (K := K) a (descriptor args size n i) l st v v1 /\
      operations (i + 1) (l + 1) sts' v1 v'
  end.

(** What is read after each: as long as the board is ahead, what it had there. *)
Definition shown (i l : Z) (v : device (R := R)) (sts : list stats) : list stats :=
  map (fun j => device_stats (j + 1) v) (seqZ i (l - i)) ++ sts.

Lemma shown_cons i l v v1 st sts :
  0 <= i <= l -> l < 1023 -> v_active v = l -> performed (K := K) a (descriptor args size n i) l st v v1 ->
  shown i l v (st :: sts) = device_stats (i + 1) v1 :: shown (i + 1) (l + 1) v1 sts.
Proof.
  intros Hi Hl Hv Hp. destruct (performed_moves _ _ l _ _ _ ltac:(lia) Hv Hp) as (_ & S1 & S2).
  unfold shown. assert (E1 : map (fun j => device_stats (j + 1) v) (seqZ i (l - i)) =
    map (fun j => device_stats (j + 1) v1) (seqZ i (l - i))).
  { apply map_ext_in. intros j Hj%list_elem_of_In%elem_of_seqZ. symmetry. apply S2; lia. }
  assert (E2 : seqZ i (l + 1 - i) = seqZ i (l - i) ++ [l]).
  { replace (l + 1 - i) with (l - i + 1) by lia. rewrite seqZ_app by lia.
    by replace (i + (l - i)) with l by lia. }
  change (device_stats (i + 1) v1 :: map ?f ?x ++ sts) with (map f (i :: x) ++ sts).
  replace (l + 1 - (i + 1)) with (Z.pred (l + 1 - i)) by lia. rewrite <- seqZ_cons by lia.
  rewrite E1, E2, map_app, <- app_assoc. cbn [map app]. by rewrite S1.
Qed.

Lemma wp_loop_waiting k i l dlist s (u : U) :
  a_fd s = dev_fd -> BenchRun.fresh dlist i k -> 0 <= i <= l -> l + Z.of_nat k <= 1023 ->
  waiting a l (page_buffer p size) u ->
  wp (main_loop k 64 fname args pmem size i dlist) (fun o s' u' t => o = Done None /\ s' = s /\
    waiting a (l + Z.of_nat k) (page_buffer p size) u' /\ exists sts, length sts = k /\
      calls (logged fname) t = reports args n i (take k (shown i l (the_board u) sts)) /\
      operations i l sts (the_board u) (the_board u')) s u.
Proof using All.
  intros Hfd. revert i l dlist u. induction k as [|k IH]; intros i l dlist u Hf Hi Hk Wt; cbn [main_loop].
  { apply wp_ret. do 2 (split; [done|]). rewrite Z.add_0_r. split; [done|]. exists [].
    by rewrite take_0. }
  wp_step. eapply wp_mono; [apply (wp_iteration_waiting i l dlist s u Hfd); [apply Hf; lia | lia | lia | done]|].
  intros o s1 u1 t1 (-> & (d & ->) & Wt1 & L1 & st & Sd). cbn [fst snd].
  eapply wp_mono; [apply (IH (i + 1) (l + 1)); [by apply fresh_next | lia | lia | done]|].
  intros o s2 u2 t2 (-> & -> & Wt2 & sts & Len & L2 & Ex). do 2 (split; [done|]).
  split; [by replace (l + Z.of_nat (S k)) with (l + 1 + Z.of_nat k) by lia|].
  exists (st :: sts). split; [cbn; lia|]. split; [|by exists (the_board u1)].
  rewrite calls_app, L1, L2. assert (Hv : v_active (the_board u) = l)
    by (destruct Wt as [Sv _ <- _]; apply Sv).
  by rewrite (shown_cons i l _ (the_board u1) st sts) by (done || lia).
Qed.

(** When driver and board start at the same descriptor as the experiment, every
    operation is the one of its descriptor. *)
Fixpoint experiment (i : Z) (sts : list stats) (v v' : device (R := R)) : Prop :=
  match sts with
  | [] => v' ≡ v
  | st :: sts' => exists v1, served (K := K) a (descriptor args size n i) st v v1 /\
      experiment (i + 1) sts' v1 v'
  end.

Lemma operations_experiment i sts v v' :
  0 <= i -> i + Z.of_nat (length sts) <= 1023 -> v_active v = i ->
  operations i i sts v v' -> experiment i sts v v'.
Proof using BramLaws0 Hargs Hbytes Hsize Htlps.
  revert i v. induction sts as [|st sts IH]; intros i v Hi Hl Hv; [done|].
  intros (v1 & Hp & X). cbn [length] in Hl. exists v1. split.
  - apply performed_served; [|exact Hv | exact Hp].
    pose proof (tlps_range args n Hargs (proj2 Hbytes) Htlps).
    apply descriptor_fields; [done | lia | lia | lia].
  - destruct (performed_moves _ _ i _ _ _ ltac:(lia) Hv Hp) as (Hv1 & _). apply IH; [lia | lia | done | done].
Qed.

Lemma operations_proper i l sts v v' w w' :
  v ≡ v' -> w ≡ w' -> operations i l sts v w -> operations i l sts v' w'.
Proof.
  revert i l v v'. induction sts as [|st sts IH]; intros i l v v' Ev Ew; cbn; [by intros Hw; rewrite <- Ew, Hw|].
  intros (v1 & Sd & X). exists v1. split; [exact (performed_proper _ _ _ _ _ _ _ _ Ev (reflexivity _) Sd)|].
  by apply (IH _ _ v1).
Qed.

Lemma shown_proper i l v v' sts : v ≡ v' -> shown i l v sts = shown i l v' sts.
Proof.
  intros Ev. unfold shown. f_equal. apply map_ext. intros j. by apply device_stats_proper.
Qed.
End Loop.

(** ** Before and after the loop *)

(** A part of the program that prints nothing to a file. *)
Definition lineless {A} (m : UM U A) : Prop := replays m /\ forall f, emits (no_line f) m.

Lemma wp_lineless {A} (m : UM U A) Q s u :
  lineless m -> wp m Q s u -> (forall o s' u' t, Q o s' u' t -> calls ioctl_sent t = []) ->
  wp m (fun o s' u' t => Q o s' u' t /\ undisturbed u u' /\ forall f, calls (logged f) t = []) s u.
Proof.
  intros [Hr He] W HQ. eapply wp_mono; [apply (wp_and _ _ (fun _ _ _ t => forall f, calls (logged f) t = [])
    s u (wp_calm m Q s u Hr W HQ)); intros f; apply calls_none, He|].
  by intros o s' u' t [[H D] L].
Qed.

Lemma replays_readArguments argv : replays (K := U) (readArguments argv).
Proof.
  unfold readArguments, checkArguments. destruct (_ || _); [apply replays_ret|].
  apply replays_bind; [|solve_replays]. generalize (length argv), (tail argv), initial.
  intros k. induction k as [|k IH]; intros [|o l] arg; cbn [readOptions]; try (by auto with replays).
  apply replays_bind; [unfold readOption, operand_bytes, operand; solve_replays|].
  intros [[arg' l']|]; [apply IH | apply replays_ret].
Qed.

Lemma no_line_readArguments f argv : emits (K := U) (no_line f) (readArguments argv).
Proof.
  unfold readArguments, checkArguments. destruct (_ || _); [apply emits_ret|].
  apply emits_bind; [|solve_emits]. generalize (length argv), (tail argv), initial.
  intros k. induction k as [|k IH]; intros [|o l] arg; cbn [readOptions]; try (by auto with emits).
  apply emits_bind; [unfold readOption, operand_bytes, operand; solve_emits|].
  intros [[arg' l']|]; [apply IH | apply emits_ret].
Qed.

Lemma wp_parse prog args file s u :
  expressible args -> a_file_name args = Some file ->
  wp (readArguments (prog :: command_line args file)) (fun o s' u' t =>
    (o = Done (Some args) /\ s' = s /\ same_fs u u') /\ undisturbed u u' /\
    forall f, calls (logged f) t = []) s u.
Proof.
  intros Ha Hf. assert (Hl : lineless (readArguments (prog :: command_line args file)))
    by (split; [apply replays_readArguments | intros f; apply no_line_readArguments]).
  eapply wp_mono; [apply (wp_lineless _ (fun o s' u' t => (o = Done (Some args) /\ s' = s) /\
    Forall quiet t /\ same_fs u u') s u Hl)|].
  - exact (conj (wp_readArguments_line prog args file s u Ha Hf)
      (conj (emits_readArguments _ s u) (keeps_readArguments _ s u))).
  - intros o s' u' t (_ & F & _). by apply quiet_talks in F as [? _].
  - by intros o s' u' t [((-> & ->) & _ & F) D].
Qed.

Lemma lineless_exit {A} code msg : lineless (rte_exit code msg : UM U A).
Proof.
  unfold rte_exit, rte_free, rte_vlog, rte_actuallog_stream.
  split; [solve_replays | intros f; solve_emits].
Qed.

Lemma lineless_init : lineless rte_eal_init.
Proof.
  unfold rte_eal_init, rte_openlog_stream, set_affinity.
  split; [|intros f]; [solve_replays | solve_emits]; apply lineless_exit.
Qed.

Lemma wp_open s u :
  wp rte_eal_init (fun o s' u' t => (o = Done 0 /\ a_fd s' = dev_fd /\ a_log s' <> 0 /\
    a_log_closed s' = false /\ same_fs u u') /\ undisturbed u u' /\
    forall f, calls (logged f) t = []) s u.
Proof.
  eapply wp_mono; [apply (wp_lineless _ _ s u lineless_init
    (wp_and _ _ _ _ _ (wp_init s u) (wp_rte_eal_init (kernel := kernel) s u)))|].
  - by intros o s' u' t [(_ & _ & _ & _ & (T & _) & _) _].
  - intros o s' u' t [[(-> & _ & L & C & _ & F) (_ & Fd & _)] D]. done.
Qed.

Lemma lineless_hugepage_size : lineless hugepage_size.
Proof. unfold hugepage_size. split; [solve_replays | intros f; solve_emits]. Qed.

Lemma wp_size s u :
  wp hugepage_size (fun o s' u' t => (o = Done (hp_size_of u) /\ s' = s /\ same_fs u u') /\
    undisturbed u u' /\ forall f, calls (logged f) t = []) s u.
Proof.
  eapply wp_mono; [apply (wp_lineless _ _ s u lineless_hugepage_size (wp_hugepage_size s u))|].
  - by intros o s' u' t (_ & _ & (T & _) & _).
  - by intros o s' u' t [(-> & -> & _ & F) D].
Qed.

Lemma lineless_alloc n : lineless (alloc_hugepage n).
Proof. unfold alloc_hugepage. split; [solve_replays | intros f; solve_emits]. Qed.

(** Memory that a trace has mapped is where [mmap] places it. *)
Lemma mapped_placed t u p len :
  0 <= len < 2 ^ 40 -> consistent t u -> calls mapped t = [(p, len)] -> (4096 | p) /\ 0 < p /\ p + len <= 2 ^ 63.
Proof.
  intros Hl Hc H. destruct (calls_cons_inv _ _ _ _ H) as (t1 & [X c r] & t2 & -> & _ & He & _).
  apply consistent_app in Hc as (_ & Ha & _). destruct c; try done. cbn [mapped answered] in He, Ha.
  subst r. destruct (_ =? _); [done|]. injection He as <- ->.
  destruct (mmap_place len fd (replay t1 u) Hl) as (D & L & Hb).
  by rewrite wrap_id by (unfold fits; lia).
Qed.

Lemma wp_alloc size s u :
  0 <= size < 2 ^ 40 ->
  wp (alloc_hugepage size) (fun o s' u' t => (exists id p, o = Done 0 /\
    ((4096 | p) /\ 0 < p /\ p + size <= 2 ^ 63) /\
    s' = set_hp_data p (set_hp_identifier id (set_sz size s)) /\ same_fs u u') /\
    undisturbed u u' /\ forall f, calls (logged f) t = []) s u.
Proof.
  intros Hs. pose proof (wp_alloc_hugepage_ok size s u) as W.
  eapply wp_mono; [apply (wp_and _ _ _ _ _ (wp_lineless _ _ s u (lineless_alloc size) W
    ltac:(by intros o s' u' t (_ & T & _))) (wp_replays _ _ s u (proj1 (lineless_alloc size)) W))|].
  intros o s' u' t [[(F & _ & _ & _ & id & p & -> & _ & M & ->) D] (_ & _ & Hc)].
  split; [|done]. exists id, p. split; [done|]. split; [by eapply mapped_placed|]. done.
Qed.

Definition page : Z := 2 ^ 30.

Lemma page_ok p :
  (4096 | p) /\ 0 < p /\ p + page <= 2 ^ 63 ->
  good_buffer (page_buffer p page) /\ dma_buffer_ok (page_buffer p page) /\
  0 < user_npages p page < 2 ^ 31.
Proof.
  unfold page. intros ([q ->] & Hp & Hl).
  assert (good_buffer (page_buffer (q * 4096) (2 ^ 30)))
    by (apply page_buffer_good; [lia | by exists q | lia | by exists (2 ^ 18) | lia]).
  split; [done|]. split; [unfold dma_buffer_ok, fits, page_buffer; cbn; lia|].
  rewrite user_npages_eq by lia. unfold NfpTypes.PAGE_SIZE.
  replace (q * 4096 + 2 ^ 30 - 1) with (4095 + (q + (2 ^ 18 - 1)) * 4096) by lia.
  rewrite !Z.div_add, Z.div_mul by lia. change (4095 / 4096) with 0.
  replace (0 + (q + (2 ^ 18 - 1)) - q + 1) with (2 ^ 18) by lia. lia.
Qed.

(** A driver that serves, and has registered a page, waits. *)
Lemma waiting_registered p d0 u l :
  serving (R := R) (count := count) (clock := clock) (fuel := fuel) (kernel u).1 (kernel u).2 ->
  registered (addr_of := addr_of) (page_buffer p page) d0 (kernel u).1 ->
  g_ldescriptor (d_dma (kernel u).1) = l ->
  exists a, waiting a l (page_buffer p page) u.
Proof.
  intros Sv Hr Hl. pose proof Hr as (a & (_ & Ha) & _).
  destruct (Ha 0) as (q & Q2 & _); [done|]. cbn in Q2. exists (u64 (addr_of q)).
  split; [done | by exists d0 | done | exists q].
  split; [|done]. exact Q2.
Qed.

Lemma wp_register p s u :
  a_fd s = dev_fd ->
  serving (R := R) (count := count) (clock := clock) (fuel := fuel) (kernel u).1 (kernel u).2 ->
  length (m_page_address (c_buffer (d_card (kernel u).1))) = 16%nat ->
  (4096 | p) /\ 0 < p /\ p + page <= 2 ^ 63 ->
  wp (call (U_ioctl dev_fd NFPIOC_REGISTER_BUFFER (encode_dma_buffer (page_buffer p page))))
    (fun o s' u' t => (exists r, o = Done r) /\ s' = s /\ (forall f, calls (logged f) t = []) /\
      same_fs u u' /\ the_board u' ≡ the_board u /\
      exists a, waiting a (g_ldescriptor (d_dma (kernel u).1)) (page_buffer p page) u') s u.
Proof.
  intros Hfd Sv Hl Hp. destruct (page_ok p Hp) as (Hg & Hok & Hn).
  destruct (sys_register _ _ _ Sv Hg Hok Hn Hl) as (bs' & d' & k' & S & Sv' & Rg & Bd').
  destruct (ioctl_runs (kernel := kernel) _ _ u _ _ _ _ S) as [A1 A2].
  wp_step. rewrite Hans in A1, A2. cbn [fst snd] in A1, A2.
  split; [by eexists|]. do 2 (split; [done|]). split; [by eapply same_fs_call|].
  split; [by unfold the_board; rewrite A2|].
  apply (waiting_registered p (kernel u).1); rewrite A2; try done. cbn [fst].
  by destruct Rg as (x & _ & _ & -> & _).
Qed.
Lemma wp_pages s u :
  a_fd s = dev_fd -> hp_size_of u = page ->
  serving (R := R) (count := count) (clock := clock) (fuel := fuel) (kernel u).1 (kernel u).2 ->
  length (m_page_address (c_buffer (d_card (kernel u).1))) = 16%nat ->
  wp (getFreeHugePages 1) (fun o s' u' t => exists id p a, o = Done p /\ 0 < p /\
    good_buffer (page_buffer p page) /\ s' = set_hp_data p (set_hp_identifier id (set_sz page s)) /\
    same_fs u u' /\ (forall f, calls (logged f) t = []) /\ the_board u' ≡ the_board u /\
    waiting a (g_ldescriptor (d_dma (kernel u).1)) (page_buffer p page) u') s u.
Proof.
  intros Hfd Hh Sv Hl. unfold getFreeHugePages, getCharDeviceDescriptor. cbn [Z.eqb]. wp_steps.
  eapply wp_mono; [apply wp_size|]. intros o s1 u1 t1 ((-> & -> & F1) & D1 & L1). rewrite Hh.
  change (u64 (1 * page)) with page. wp_step. eapply wp_mono; [by apply wp_alloc|].
  intros o s2 u2 t2 ((id & p & -> & Hp & -> & F2) & D2 & L2). change (negb (0 =? 0)) with false. wp_steps.
  eapply wp_mono; [apply wp_size|]. intros o s3 u3 t3 ((-> & -> & F3) & D3 & L3).
  pose proof (same_fs_trans _ _ _ F1 F2) as F12. pose proof (same_fs_trans _ _ _ F12 F3) as F13.
  pose proof (undisturbed_trans _ _ _ (undisturbed_trans _ _ _ D1 D2) D3) as D.
  rewrite (hp_size_same u u2), Hh, Hfd by done. fold (page_buffer p page).
  pose proof (serving_undisturbed _ _ D Sv) as Sv3. destruct D as (Ed & Eb & _).
  wp_step. eapply wp_mono; [apply (wp_register p); try done; by rewrite ?Ed|].
  intros o s4 u4 t4 ((r & ->) & -> & L4 & F4 & E4 & a & Wt). wp_steps. exists id, p, a.
  split; [done|]. split; [by apply Hp|]. split; [by apply page_ok|]. do 2 (split; [done || by eapply same_fs_trans|]).
  split; [by intros f; rewrite !calls_app, L1, L2, L3, L4|]. split; [by rewrite E4, Eb | by rewrite <- Ed].
Qed.
Lemma wp_set_window a l db s u ws :
  a_fd s = dev_fd -> fits 64 ws -> waiting a l db u ->
  wp (setWindowSize ws) (fun o s' u' t => o = Done 0 /\ s' = s /\
    (forall f, calls (logged f) t = []) /\ waiting a l db u' /\
    the_board u' ≡ with_window ws (the_board u)) s u.
Proof.
  intros Hfd Hw [Sv [d0 Hr] Hi Hp].
  destruct (sys_window ws _ _ Sv Hw) as (bs' & k' & S & Sv' & Bk).
  destruct (ioctl_runs (kernel := kernel) _ _ u _ _ _ _ S) as [A1 A2].
  unfold setWindowSize, getCharDeviceDescriptor. wp_steps.
  rewrite Hfd in Hans. rewrite Hans in A1, A2. cbn [fst snd] in A1, A2.
  do 3 (split; [done|]). split; [|by unfold the_board; rewrite A2].
  by split; rewrite A2; cbn [fst snd]; [exact Sv' | exists d0 | | ].
Qed.

Lemma lineless_free : lineless free_hugepage.
Proof. unfold free_hugepage. split; [solve_replays | intros f; solve_emits]. Qed.

Lemma wp_free s u :
  wp free_hugepage (fun o s' u' t => (o = Done tt /\
    s' = set_hp_identifier 0 (set_hp_data 0 s)) /\ undisturbed u u' /\
    forall f, calls (logged f) t = []) s u.
Proof.
  assert (W : wp free_hugepage (fun o s' u' t => (o = Done tt /\
    s' = set_hp_identifier 0 (set_hp_data 0 s)) /\ calls ioctl_sent t = []) s u)
    by (unfold free_hugepage; by wp_steps).
  eapply wp_mono; [apply (wp_lineless _ _ s u lineless_free W); by intros o s' u' t (_ & T)|].
  by intros o s' u' t [[Eo _] D].
Qed.

Lemma wp_give_back a l db p s u :
  a_fd s = dev_fd -> a_hp_data s <> 0 -> waiting a l db u ->
  wp (unsetHugeFreePages p 1) (fun o s' u' t => o = Done tt /\
    s' = set_hp_identifier 0 (set_hp_data 0 s) /\ (forall f, calls (logged f) t = []) /\
    the_board u' ≡ the_board u /\
    serving (R := R) (count := count) (clock := clock) (fuel := fuel) (kernel u').1 (kernel u').2 /\
    m_length (c_buffer (d_card (kernel u').1)) = 0 /\
    length (m_page_address (c_buffer (d_card (kernel u').1))) = 16%nat /\
    g_ldescriptor (d_dma (kernel u').1) = l) s u.
Proof.
  intros Hfd Hd [Sv [d0 Hr] Hi _].
  destruct (sys_unregister _ _ _ _ Sv Hr) as (bs' & d' & k' & S & Sv' & M & Pl & G & Bk).
  destruct (ioctl_runs (kernel := kernel) _ _ u _ _ _ _ S) as [A1 A2].
  unfold unsetHugeFreePages, getCharDeviceDescriptor. apply Z.eqb_neq in Hd. wp_steps. rewrite Hd. wp_steps.
  rewrite Hfd in Hans. rewrite Hans in A1, A2. cbn [fst snd] in A1, A2.
  eapply wp_mono; [apply wp_free|]. intros o s' u' t ([-> ->] & D & L). do 2 (split; [done|]).
  split; [exact L|]. pose proof (serving_undisturbed _ _ D) as Sv2. rewrite A2 in Sv2.
  destruct D as (Ed & Eb & _). split; [rewrite Eb; by unfold the_board; rewrite A2|].
  split; [by apply Sv2|]. rewrite Ed, A2. cbn [fst]. by rewrite G.
Qed.

Lemma wp_leave {A} msg s u :
  a_fd s = dev_fd -> a_log s <> 0 -> a_log_closed s = false ->
  wp (rte_exit 0 msg : UM U A) (fun o s' u' t => o = Stop (Exited 0) /\ undisturbed u u' /\
    forall f, calls (logged f) t = []) s u.
Proof.
  intros Hfd Hl Hc. assert (Hp : 0 < a_fd s) by (rewrite Hfd; apply (dev_fd_positive (kernel := kernel))).
  eapply wp_mono; [apply (wp_lineless _ _ s u (lineless_exit 0 msg) (wp_exit 0 msg s u Hl Hc Hp));
    by intros o s' u' t (_ & T & _)|].
  by intros o s' u' t [(-> & _) D].
Qed.
(** ** A run *)

Lemma with_window_proper ws : Proper ((≡) ==> (≡)) (with_window (R := R) ws).
Proof.
  intros v v' (Ee & Ea & Ec & Et). unfold with_window, equiv, device_equiv; cbn. by rewrite Ec.
Qed.

(** After a run: everything is given back, and driver and board are at descriptor [l]. *)
Definition left_at (l : Z) (u : U) : Prop :=
  serving (R := R) (count := count) (clock := clock) (fuel := fuel) (kernel u).1 (kernel u).2 /\
  m_length (c_buffer (d_card (kernel u).1)) = 0 /\
  length (m_page_address (c_buffer (d_card (kernel u).1))) = 16%nat /\
  g_ldescriptor (d_dma (kernel u).1) = l.

Lemma wp_experiment a l p f args n pmem s (u : U) :
  f <> 0 -> expressible args -> 0 < a_nbytes args < 2 ^ 31 -> cache_ready args ->
  number_of_tlps (a_test args) (a_dir args) (a_nbytes args) = Some n ->
  acceptable args page n -> good_buffer (page_buffer p page) -> 0 <= l -> l + a_niters args <= 1023 ->
  a_fd s = dev_fd -> a_log s <> 0 -> a_log_closed s = false -> a_hp_data s <> 0 ->
  waiting a l (page_buffer p page) u ->
  wp (let* v := main_loop (Z.to_nat (a_niters args)) 64 f args pmem page 0 (replicate 1024 dd_zero) in
      match v with
      | Some v => ret v
      | None => leave f pmem
      end) (fun o s' u' t => o = Stop (Exited 0) /\ left_at (l + a_niters args) u' /\
    exists sts, Z.of_nat (length sts) = a_niters args /\
      calls (logged f) t =
        reports args n 0 (take (length sts) (shown 0 l (the_board u) sts)) /\
      operations a page n args 0 l sts (the_board u) (the_board u')) s u.
Proof.
  intros Hf Ha Hb Hc Hn Hacc Hg Hl0 Hl1 Hfd Hl Hlc Hd Wt. pose proof Ha as (_ & _ & _ & Hit & _).
  unfold MAX_DMA_DESCRIPTORS in Hit. wp_step.
  eapply wp_mono; [apply (wp_loop_waiting f a p pmem page n args); try done; try lia;
    by apply fresh_initial|].
  intros o s1 u1 t1 (-> & -> & W1 & sts & Len & L1 & X1). rewrite Z2Nat.id in W1 by lia.
  apply Z.eqb_neq in Hf as Hf'. unfold leave. rewrite Hf'. wp_step. wp_step.
  match type of Hans with handle ?c u1 = _ => pose proof (undisturbed_call c u1 eq_refl) as D end.
  rewrite Hans in D. pose proof (waiting_undisturbed _ _ _ _ _ D W1) as W2. destruct D as (_ & Eb & _).
  wp_step. eapply wp_mono; [by apply (wp_give_back a (l + a_niters args) (page_buffer p page))|].
  intros o s3 u3 t3 (-> & -> & L3 & E3 & Sv3).
  eapply wp_mono; [by apply wp_leave|]. intros o s4 u4 t4 (-> & D4 & L4). split; [done|].
  destruct Sv3 as (Sv3 & M3). pose proof (serving_undisturbed _ _ D4 Sv3) as Sv4.
  destruct D4 as (Ed & Eb4 & _). split; [split; [exact Sv4|]; by rewrite Ed|].
  exists sts. split; [lia|]. rewrite !calls_app, L1, L3, L4, !app_nil_r, Len. split; [done|].
  apply (operations_proper _ _ _ _ _ _ _ (the_board u) (the_board u) (the_board u1)); [done | | exact X1].
  by rewrite Eb4, E3, Eb.
Qed.

(** A run with driver and board at descriptor [l]. *)
Lemma wp_benchmark l prog args file n s (u : U) :
  expressible args -> a_file_name args = Some file ->
  0 < a_nbytes args < 2 ^ 31 -> cache_ready args ->
  number_of_tlps (a_test args) (a_dir args) (a_nbytes args) = Some n ->
  acceptable args page n -> hp_size_of u = page ->
  serving (R := R) (count := count) (clock := clock) (fuel := fuel) (kernel u).1 (kernel u).2 ->
  g_ldescriptor (d_dma (kernel u).1) = l -> l + a_niters args <= 1023 ->
  length (m_page_address (c_buffer (d_card (kernel u).1))) = 16%nat ->
  wp (main 64 (prog :: command_line args file)) (fun o _ u' t =>
    o = Stop (Exited 0) /\ left_at (l + a_niters args) u' /\
    exists f a sts, Ev (U_fopen file "a+") f ∈ t /\ Z.of_nat (length sts) = a_niters args /\
      calls (logged f) t = reports args n 0 (take (length sts) (shown 0 l (the_board u) sts)) /\
      operations a page n args 0 l sts (with_window (a_wsize args) (the_board u)) (the_board u')) s u.
Proof.
  intros Ha Hf Hb Hc Hn Hacc Hh Sv H0 Hl1 Hl.
  assert (Hl0 : 0 <= l) by (destruct Sv as [(_ & _ & _ & _ & Hw) _ _ _]; lia).
  unfold main. wp_step. eapply wp_mono; [by apply wp_parse|].
  intros o s1 u1 t1 ((-> & -> & F1) & D1 & T1).
  wp_step. eapply wp_mono; [apply wp_open|].
  intros o s2 u2 t2 ((-> & Hfd & L & C & F2) & D2 & T2). cbn [Z.ltb Z.compare]. wp_step. apply wp_ret.
  pose proof (undisturbed_trans _ _ _ D1 D2) as D. pose proof (serving_undisturbed _ _ D Sv) as Sv2.
  destruct D as (Ed & Eb & _). clear D1 D2. pose proof (same_fs_trans _ _ _ F1 F2) as F12.
  wp_step. eapply wp_mono; [apply (wp_pages s2 u2); try done; [by rewrite (hp_size_same u u2) | by rewrite Ed]|].
  intros o s3 u3 t3 (id & p & a & -> & Hp & Hg & -> & F3 & T3 & Eb3 & Wt). rewrite Ed, H0 in Wt.
  wp_step. eapply wp_mono; [apply wp_size|]. intros o s4 u4 t4 ((-> & -> & _) & D4 & T4).
  rewrite (hp_size_same u u3), Hh by by eapply same_fs_trans. cbn beta iota zeta.
  change (u64 (NUMBER_PAGES * page)) with page.
  destruct (Z.eqb_spec p 0); [lia|]. wp_step. apply wp_ret. cbn beta iota. rewrite Hf.
  wp_step. apply wp_ret. cbn beta iota. wp_step. wp_step.
  pose proof (fopen_ok file "a+" u4) as Ho. pose proof (undisturbed_call (U_fopen file "a+") u4 eq_refl) as D5.
  rewrite Hans in Ho, D5. pose proof (undisturbed_trans _ _ _ D4 D5) as D. cbn [snd fst] in *.
  apply (waiting_undisturbed _ _ _ _ _ D) in Wt. destruct D as (_ & Eb5 & _). clear D4 D5.
  assert (Hw : fits 64 (a_wsize args)) by (destruct Ha as [Ha _]; unfold fits, MAX_WINDOW_SIZE in *; lia).
  wp_step. eapply wp_mono; [by apply (wp_set_window a l (page_buffer p page))|].
  intros o s6 u6 t6 (-> & -> & T6 & W6 & Eb6). wp_step. wp_step.
  match type of Hans0 with handle ?c u6 = _ => pose proof (undisturbed_call c u6 eq_refl) as D7 end.
  rewrite Hans0 in D7. apply (waiting_undisturbed _ _ _ _ _ D7) in W6. destruct D7 as (_ & Eb7 & _).
  cbn [snd fst] in *. eapply wp_mono; [apply (wp_experiment a l p ans args n p); try done; cbn; lia|].
  intros o s8 u8 t8 (-> & Left & sts & Len & T8 & X). do 2 (split; [done|]). exists ans, a, sts.
  rewrite !calls_app, T1, T2, T3, T4, T6, T8. split; [set_solver|]. split; [done|].
  assert (Ev : the_board kk0 ≡ with_window (a_wsize args) (the_board u))
    by (rewrite Eb7, Eb6; apply with_window_proper; by rewrite Eb5, Eb3, Eb).
  split; [|exact (operations_proper _ _ _ _ _ _ _ _ _ _ _ Ev (reflexivity _) X)].
  do 2 f_equal. rewrite (shown_proper 0 l _ _ _ Ev). done.
Qed.

(** C1.  The whole program, from its command line to the registers of the board.  On a
    system with 1 GB pages whose driver serves, with driver and board at descriptor 0,
    a run of the benchmark with arguments that fit exits with 0.  For every iteration,
    in order, the board performs the operation of its descriptor on the page that was
    mapped for it, after the window was set; the file gets one report per iteration,
    with the measurements the board took for that very operation; and the driver is
    left serving, without a page, that many descriptors further. *)
Theorem benchmark_on_system prog args file n s (u : U) :
  expressible args -> a_file_name args = Some file ->
  0 < a_nbytes args < 2 ^ 31 -> cache_ready args ->
  number_of_tlps (a_test args) (a_dir args) (a_nbytes args) = Some n ->
  acceptable args page n -> hp_size_of u = page ->
  serving (R := R) (count := count) (clock := clock) (fuel := fuel) (kernel u).1 (kernel u).2 ->
  g_ldescriptor (d_dma (kernel u).1) = 0 ->
  length (m_page_address (c_buffer (d_card (kernel u).1))) = 16%nat ->
  let r := main 64 (prog :: command_line args file) s u in
  r_out r = Stop (Exited 0) /\ left_at (a_niters args) (r_k r) /\
  exists f a sts, Ev (U_fopen file "a+") f ∈ r_tr r /\ Z.of_nat (length sts) = a_niters args /\
    calls (logged f) (r_tr r) = reports args n 0 sts /\
    experiment a page n args 0 sts (with_window (a_wsize args) (the_board u)) (the_board (r_k r)).
Proof.
  intros Ha Hf Hb Hc Hn Hacc Hh Sv H0 Hl r. pose proof Ha as (_ & _ & _ & Hit & _).
  unfold MAX_DMA_DESCRIPTORS in Hit. pose proof Sv as [_ _ Hs _].
  destruct (wp_benchmark 0 prog args file n s u Ha Hf Hb Hc Hn Hacc Hh Sv H0 ltac:(lia) Hl)
    as (O & Left & f & a & sts & Hopen & Len & L & X). fold r in O, Left, Hopen, L, X.
  do 2 (split; [done|]). exists f, a, sts. do 2 (split; [done|]). split; [rewrite L|].
  - unfold shown. rewrite Z.sub_0_r. cbn [seqZ Z.to_nat seq map app fmap list_fmap]. by rewrite firstn_all.
  - apply operations_experiment; try done; [lia|]. cbn. rewrite <- H0. apply Hs.
Qed.

(** C3.  A run on a system where driver and board are already at descriptor [l], as after a
    run of [l] iterations without a restart, reports [l] operations late: its first
    lines are the measurements the board had before the run, each operation is done on
    what the tables held for descriptor [l] on, and only after [l] iterations does the
    file get measurements of this run. *)
Theorem benchmark_lags l prog args file n s (u : U) :
  expressible args -> a_file_name args = Some file ->
  0 < a_nbytes args < 2 ^ 31 -> cache_ready args ->
  number_of_tlps (a_test args) (a_dir args) (a_nbytes args) = Some n ->
  acceptable args page n -> hp_size_of u = page ->
  serving (R := R) (count := count) (clock := clock) (fuel := fuel) (kernel u).1 (kernel u).2 ->
  g_ldescriptor (d_dma (kernel u).1) = l -> l + a_niters args <= 1023 ->
  length (m_page_address (c_buffer (d_card (kernel u).1))) = 16%nat ->
  let r := main 64 (prog :: command_line args file) s u in
  r_out r = Stop (Exited 0) /\ left_at (l + a_niters args) (r_k r) /\
  exists f a sts, Ev (U_fopen file "a+") f ∈ r_tr r /\ Z.of_nat (length sts) = a_niters args /\
    calls (logged f) (r_tr r) = reports args n 0 (take (length sts)
      (map (fun j => device_stats (j + 1) (the_board u)) (seqZ 0 l) ++ sts)) /\
    operations a page n args 0 l sts (with_window (a_wsize args) (the_board u)) (the_board (r_k r)).
Proof.
  intros Ha Hf Hb Hc Hn Hacc Hh Sv H0 Hl1 Hl r.
  destruct (wp_benchmark l prog args file n s u Ha Hf Hb Hc Hn Hacc Hh Sv H0 Hl1 Hl)
    as (O & Left & f & a & sts & Hopen & Len & L & X). fold r in O, Left, Hopen, L, X.
  do 2 (split; [done|]). exists f, a, sts. do 2 (split; [done|]). split; [|exact X].
  rewrite L. unfold shown. by rewrite Z.sub_0_r.
Qed.
End System.

(** ** The directories after a run *)

Section Directories.
Context {U : Type} `{!Handler ucall U} `{!FsLaws (U := U)} `{E : IocEncoding}.

Lemma keeps_for_range n start (body : Z -> UM U unit) :
  (forall i, keeps_fs (body i)) -> keeps_fs (for_range n start body).
Proof. intros H. revert start. induction n as [|n IH]; intros start; cbn [for_range]; solve_keeps. Qed.

Lemma keeps_state (f : lib -> lib) : keeps_fs (U := U) (modify f).
Proof. by intros s k. Qed.
Lemma keeps_gets {A} (f : lib -> A) : keeps_fs (U := U) (gets f).
Proof. by intros s k. Qed.
Lemma keeps_get : keeps_fs (U := U) (Eff.get : UM U lib).
Proof. by intros s k. Qed.
#[local] Hint Resolve keeps_state keeps_gets keeps_get : pcie.

Lemma keeps_exit {A} code msg : keeps_fs (rte_exit code msg : UM U A).
Proof. unfold rte_exit, rte_free, rte_vlog, rte_actuallog_stream. solve_keeps. Qed.
#[local] Hint Resolve keeps_exit : pcie.

Lemma keeps_warm pmem size : keeps_fs (U := U) (warm_cache pmem size).
Proof. apply keeps_for_range. intros i. unfold umod. solve_keeps. Qed.
Lemma keeps_thrash : keeps_fs (U := U) thrash_cache.
Proof. apply keeps_for_range. intros i. unfold umod. solve_keeps. Qed.
#[local] Hint Resolve keeps_warm keeps_thrash : pcie.

Lemma keeps_run f args pmem i n d : keeps_fs (U := U) (run_descriptor f args pmem i n d).
Proof.
  unfold run_descriptor, log, prepare_cache, writeDescriptor, readDescriptor, getCharDeviceDescriptor.
  solve_keeps.
Qed.
#[local] Hint Resolve keeps_run : pcie.

Lemma keeps_iteration fuel f args pmem size i l : keeps_fs (U := U) (iteration fuel f args pmem size i l).
Proof. unfold iteration, set_pattern, log. solve_keeps. Qed.

Lemma keeps_main_loop k fuel f args pmem size i l :
  keeps_fs (U := U) (main_loop k fuel f args pmem size i l).
Proof.
  revert i l. induction k as [|k IH]; intros i l; cbn [main_loop]; [apply keeps_ret|].
  apply keeps_bind; [apply keeps_iteration|]. intros [l' nx]. cbn [fst snd]. destruct nx; solve_keeps.
Qed.
#[local] Hint Resolve keeps_main_loop keeps_readArguments : pcie.

Lemma keeps_main fuel argv : keeps_fs (U := U) (main fuel argv).
Proof.
  unfold main, leave, printUsage, rte_eal_init, rte_openlog_stream, set_affinity, getFreeHugePages,
    alloc_hugepage, hugepage_number, hugepage_size, setWindowSize, unsetHugeFreePages, free_hugepage,
    getCharDeviceDescriptor.
  solve_keeps.
Qed.
End Directories.

(** ** Witnesses *)

(** Three operations of 512 bytes on the concrete machine. *)
Definition board_run : res ucall board_sys lib Z :=
  main 64 ("benchmark" :: command_line fixed_arguments "log.csv") lib_init board_sys_init.

Lemma page_size_of_machine : hp_size_of board_sys_init = page.
Proof. vm_compute. reflexivity. Qed.

Lemma benchmark_on_system_witness :
  r_out board_run = Stop (Exited 0) /\ exists f sts, Z.of_nat (length sts) = 3 /\
    calls (logged f) (r_tr board_run) = reports fixed_arguments 262144 0 sts.
Proof.
  destruct (benchmark_on_system (U := board_sys) (K := machine) (R := gmap Z Z)
    (kernel := board_kernel) (dev_fd := sim_fd) (rate := 1)
    "benchmark" fixed_arguments "log.csv" 262144 lib_init board_sys_init) as (O & _ & f & a & sts & _ & N & C & _).
  - exact fixed_expressible.
  - reflexivity.
  - by split.
  - exact fixed_ready.
  - reflexivity.
  - exact fixed_acceptable.
  - exact page_size_of_machine.
  - exact board_sys_serving.
  - reflexivity.
  - reflexivity.
  - split; [exact O|]. exists f, sts. exact (conj N C).
Defined.

(** The same run once more, without a restart. *)
Lemma board_run_left : left_at (R := gmap Z Z) (kernel := board_kernel) (fuel := sys_fuel)
  (count := fun k : machine => sim_sem k.1) (clock := fun k : machine => sim_clock k.1) 3 (r_k board_run).
Proof.
  destruct (wp_benchmark (U := board_sys) (K := machine) (R := gmap Z Z)
    (kernel := board_kernel) (dev_fd := sim_fd) (rate := 1) 0
    "benchmark" fixed_arguments "log.csv" 262144 lib_init board_sys_init fixed_expressible eq_refl
    ltac:(by split) fixed_ready eq_refl fixed_acceptable page_size_of_machine board_sys_serving eq_refl
    ltac:(done) eq_refl) as (_ & L & _). exact L.
Qed.

Lemma page_size_after : hp_size_of (r_k board_run) = page.
Proof. rewrite (hp_size_same board_sys_init); [exact page_size_of_machine | apply keeps_main]. Qed.

Definition second_run : res ucall board_sys lib Z :=
  main 64 ("benchmark" :: command_line fixed_arguments "log.csv") lib_init (r_k board_run).

Lemma benchmark_lags_witness :
  r_out second_run = Stop (Exited 0) /\ exists f sts, Z.of_nat (length sts) = 3 /\
    calls (logged f) (r_tr second_run) = reports fixed_arguments 262144 0 (take (length sts)
      (map (fun j => device_stats (j + 1) (the_board (kernel := board_kernel) (r_k board_run)))
        (seqZ 0 3) ++ sts)).
Proof.
  destruct board_run_left as (Sv & _ & Pl & G).
  destruct (benchmark_lags (U := board_sys) (K := machine) (R := gmap Z Z)
    (kernel := board_kernel) (dev_fd := sim_fd) (rate := 1) 3
    "benchmark" fixed_arguments "log.csv" 262144 lib_init (r_k board_run)) as (O & _ & f & a & sts & _ & N & C & _).
  - exact fixed_expressible.
  - reflexivity.
  - by split.
  - exact fixed_ready.
  - reflexivity.
  - exact fixed_acceptable.
  - exact page_size_after.
  - exact Sv.
  - exact G.
  - done.
  - exact Pl.
  - split; [exact O|]. exists f, sts. split; [exact N | exact C].
Defined.
