(* ===== verification/Restart.v ===== *)
(** * Starting again (HOST/restart.sh)

    The script writes 255 to the common register of BAR 0 with [rwBar], which resets the
    engine, then takes the module out and loads it anew.  Loading is [nfp_init], the
    device the bus then hands to the function of the driver's table, and [nfp_probe].
    The driver that is loaded serves, and starts at descriptor 0 like the board. *)

From S2P Require Import Prelude Eff IoctlCommands NfpTypes Kernel SimKernel Reg NfpDma NfpMem NfpIoctl.
From S2P Require Import NfpPci NfpProbe NfpDriver Posix Middleware Link SimSystem RwBar.
From S2P Require Import EngineManager DeviceDma Board Prompt Session SimBoard System.
From Stdlib Require Import ZArith Lia String.
From stdpp Require Import base list strings gmap.
Local Open Scope list_scope.
Local Open Scope Z_scope.
Local Open Scope eff_scope.

(** ** Loading the module *)

(** A device is the driver's if its identifiers are in the table before the zeros. *)
Fixpoint pci_match (ids : list (Z * Z)) (id : Z * Z) : bool :=
  match ids with
  | [] => false
  | (v, d) :: ids' => negb (v =? 0) && ((v =? id.1) && (d =? id.2) || pci_match ids' id)
  end.

Section Module.
Context {K : Type} `{!Handler kcall K}.

(** The bus hands a device to the drivers that are registered, and takes it back. *)
Definition insmod (id : Z * Z) : KM K Z :=
  let* r := nfp_init in
  if r =? 0 then
    do* (if pci_match (drv_id_table pci_driver) id then drv_probe pci_driver else ret 0) in
    ret r
  else ret r.

Definition rmmod (id : Z * Z) : KM K unit :=
  do* nfp_exit in
  if pci_match (drv_id_table pci_driver) id then drv_remove pci_driver else ret tt.
End Module.

(** BAR 0 of the card is where the registers of the board are, and [sema_init] sets the
    semaphore. *)
Class LoadLaws (K R : Type) `{HK : Handler kcall K} `{P : ProcessMemory K} `{Bd : Board K R}
    (count : K -> Z) : Prop := {
  iomap_board n k : (handle (K_pci_iomap 0 n) k).1 = board_bar0 (K := K);
  board_bar0_place : 0 < board_bar0 (K := K) < 2 ^ 63;
  count_init n k : count (handle (K_sema_init n) k).2 = n
}.

Section Loading.
Context {K R : Type} `{HK : Handler kcall K} `{!ChrdevLaws (K := K)}.
Context `{B : Bram R} `{!BramLaws R} `{Bd : Board K R} `{!BoardLaws K R}.
Context `{P : ProcessMemory K} `{!MemoryLaws K} {count : K -> Z} `{!SemaphoreLaws K count}.
Context {clock : K -> Z} {fuel : nat} `{!PromptEngine K R clock fuel} `{!LoadLaws K R count}.

(** Once the coherent buffer is allocated, BAR 0 is mapped. *)
Definition bar0_mapped (s : driver) : Prop :=
  mi_page_list (c_mmap_info (d_card s)) = 0 \/ c_bar0 (d_card s) = board_bar0 (K := K).

Lemma bar0_modify f :
  (forall c, mi_page_list (c_mmap_info (f c)) = mi_page_list (c_mmap_info c) /\ c_bar0 (f c) = c_bar0 c \/
    mi_page_list (c_mmap_info (f c)) = 0) ->
  preserves (C := kcall) (K := K) bar0_mapped (modify (set_card f)).
Proof.
  intros Hf. apply preserves_modify. intros s Hs. unfold bar0_mapped in *. cbn.
  destruct (Hf (d_card s)) as [[-> ->] | ->]; [exact Hs | by left].
Qed.
#[local] Hint Extern 1 (preserves _ (modify (set_card _))) =>
  apply bar0_modify; intros []; first [by left | by right] : preserves.

Lemma preserves_bars r : preserves (C := kcall) (K := K) bar0_mapped (probe_bars r).
Proof.
  assert (L : forall r', preserves (C := kcall) (K := K) bar0_mapped (err_iface r')).
  { intros r'. unfold err_iface, nfpioctl_remove, iounmap_if, err_out_ioctl, err_out_disable_device. solve_preserves. }
  assert (L' : forall r', preserves (C := kcall) (K := K) bar0_mapped (err_out_ioctl r')).
  { intros r'. unfold err_out_ioctl, err_out_disable_device. solve_preserves. }
  intros s k Hs. unfold probe_bars. wp_step. wp_step.
  destruct (_ =? 0); [by apply L'|]. wp_step. wp_step. destruct (negb _); [by apply L'|].
  do 4 (wp_step; wp_step). pose proof (iomap_board (count := count) ans1 kk1) as Hb.
  rewrite Hans2 in Hb. cbn [fst] in Hb. wp_steps.
  match goal with |- wp _ _ ?s1 _ => assert (H1 : bar0_mapped s1) by (right; exact Hb) end.
  destruct (_ =? 0); [exact (L _ _ _ H1) | by apply wp_ret].
Qed.
#[local] Hint Resolve preserves_bars : preserves.

Lemma preserves_probe : preserves (C := kcall) (K := K) bar0_mapped nfp_probe.
Proof.
  unfold nfp_probe, nfpioctl_probe, pci_set_payload, pcie_set_readrq, err_out_ioctl,
    err_out_disable_device.
  solve_preserves.
Qed.

(** No call of a probe stores in the registers, and none takes the semaphore; after it
    is initialised it stays as it is. *)
Definition no_sem (e : event kcall) : Prop := sem_step e = 0 /\ no_init e.

Lemma no_store_probe : emits (K := K) no_store nfp_probe.
Proof.
  unfold nfp_probe, nfpioctl_probe, pci_set_payload, pcie_set_readrq, probe_bars, err_iface,
    nfpioctl_remove, iounmap_if, err_out_ioctl, err_out_disable_device.
  solve_emits.
Qed.

Ltac unfold_probe :=
  unfold nfpioctl_probe, pci_set_payload, pcie_set_readrq, probe_bars, err_iface,
    nfpioctl_remove, iounmap_if, err_out_ioctl, err_out_disable_device.

Lemma replays_probe : replays (K := K) (S := driver) nfp_probe.
Proof. unfold nfp_probe. unfold_probe. solve_replays. Qed.

Lemma count_still t k :
  consistent t k -> Forall no_sem t -> count (replay t k) = count k.
Proof.
  intros Hc F. rewrite count_replay; [|done|by eapply Forall_impl; [exact F|]; intros e [_ ?]].
  enough (sem_delta t = 0) by lia.
  clear Hc. induction F as [|e t [He _] _ IH]; [done|]. rewrite sem_delta_cons. lia.
Qed.

Lemma wp_probe_count s k :
  wp nfp_probe (fun _ _ k' t => RCard ∈ calls acquire t -> count k' = 1) s k.
Proof.
  unfold nfp_probe. wp_step. wp_step. destruct (ans =? 0) eqn:E0.
  { apply wp_ret. cbn. rewrite E0. by intros ?%elem_of_nil. }
  wp_step. wp_step. wp_step. wp_step. pose proof (count_init 1 kk) as C. rewrite Hans0 in C. cbn [snd] in C.
  match goal with |- wp ?m ?Q ?s1 kk0 =>
    assert (Hr : replays (K := K) m) by (unfold_probe; solve_replays);
    assert (He : emits (K := K) no_sem m) by (unfold_probe; solve_emits);
    pose proof (wp_replays m _ s1 kk0 Hr (wp_emits _ _ s1 kk0 He)) as W end.
  eapply wp_mono; [exact W|]. intros o s' k' t (F & -> & Hc) _. by rewrite count_still.
Qed.
#[local] Abbreviation serves d k := (serving (R := R) (count := count) (clock := clock) (fuel := fuel) d k).

(** What a load leaves. *)
Definition loaded (k : K) (d' : driver) (k' : K) : Prop :=
  serves d' k' /\ g_ldescriptor (d_dma d') = 0 /\
  length (m_page_address (c_buffer (d_card d'))) = 16%nat /\
  c_bar0 (d_card d') = board_bar0 (K := K) /\ board k' ≡ board k.

Lemma probe_serves k :
  good k -> prompt k -> v_enable (board k) = false -> v_active (board k) = 0 ->
  wp nfp_probe (fun o d' k' t => (exists v, o = Done v) /\ (probe_ready t -> loaded k d' k')) driver_init k.
Proof.
  intros G Pk He Ha.
  pose proof (wp_replays _ _ _ k replays_probe (wp_emits _ _ driver_init k no_store_probe)) as W1.
  pose proof (wp_and _ _ _ _ _ (wp_probe_count driver_init k) W1) as W2.
  pose proof (wp_and _ _ _ _ _ (wp_nfp_probe driver_init k) W2) as W3.
  pose proof (wp_and _ _ _ _ _ (wp_probe_cleared driver_init k) W3) as W4.
  assert (H0 : bar0_mapped driver_init) by by left.
  eapply wp_mono; [exact (wp_and _ _ _ _ _ (preserves_probe driver_init k H0) W4)|].
  intros o d' k' t (B0 & Cl & (v & -> & PE) & Cn & F & -> & Hc). split; [by eexists|]. intros [Rl Cd].
  rewrite Rl in PE. destruct (probe_end_ready _ _ _ PE Cd) as (b0 & b1 & b2 & p & h & Ac & _ & _ & _ & Mp & _ & Np).
  pose proof (probe_end_dma _ _ _ PE Cd) as D. destruct Cl as [(C1 & _ & C3 & _) | Cl];
    [|by rewrite Cl in Cd; apply elem_of_nil in Cd].
  assert (Bi : board (replay t k) ≡ board k) by (apply board_idle; [done | done | by apply calls_none]).
  assert (E0 : c_bar0 (d_card d') = board_bar0 (K := K)).
  { destruct B0 as [B0 | B0]; [by rewrite B0 in Mp; subst p | exact B0]. }
  split; [|by rewrite C1]. split.
  - rewrite C1. exact dma_globals_init_wf.
  - unfold on_board. rewrite D, E0. pose proof (board_bar0_place (count := count) (K := K)).
    unfold DMA_OFFSET. rewrite wrap_id by (unfold fits; lia). lia.
  - rewrite C1. apply (in_step_proper _ (board k)); [by symmetry|]. by split.
  - split; [by apply good_replay|]. split; [by apply (prompt_replay (clock := clock) (fuel := fuel))|].
    apply Cn. rewrite Ac. set_solver.
Qed.
Lemma replays_rmmod id : replays (K := K) (S := driver) (rmmod id).
Proof. unfold rmmod, nfp_exit, pci_driver, drv_remove, nfp_remove. unfold_probe. solve_replays. Qed.

Lemma no_store_rmmod id : emits (K := K) no_store (rmmod id).
Proof. unfold rmmod, nfp_exit, pci_driver, drv_remove, nfp_remove. unfold_probe. solve_emits. Qed.

Lemma wp_insmod id k :
  good k -> prompt k -> v_enable (board k) = false -> v_active (board k) = 0 ->
  pci_match (drv_id_table (pci_driver (K := K))) id = true ->
  wp (insmod id) (fun o d' k' t => (exists v, o = Done v) /\ (probe_ready t -> loaded k d' k')) driver_init k.
Proof.
  intros G Pk He Ha Hid. unfold insmod, nfp_init. rewrite Hid. wp_step. wp_step.
  pose proof (stopped_call K_pci_register_driver (board k) k ans kk He eq_refl Hans (reflexivity _)) as Bk.
  destruct (ans =? 0); [|wp_step; split; [by eexists|]; intros [_ Cd]; by apply elem_of_nil in Cd].
  pose proof (good_call K_pci_register_driver k G) as G1.
  pose proof (prompt_call (clock := clock) (fuel := fuel) K_pci_register_driver k Pk) as P1.
  rewrite Hans in G1, P1. destruct Bk as (Ee & Ea & Ec & Et).
  wp_step. eapply wp_mono; [apply (probe_serves kk G1 P1); congruence|].
  intros o d' k' t ((v & ->) & L). apply wp_ret. split; [by eexists|]. rewrite app_nil_r.
  intros Hr. destruct (L Hr) as (L1 & L2 & L3 & L4 & L5). do 4 (split; [done|]). rewrite L5. done.
Qed.

Definition keeps_page (e : event kcall) : Prop := page_released e = None.

Lemma emits_unload id : emits (K := K) keeps_page (rmmod id).
Proof. unfold rmmod, nfp_exit, pci_driver, drv_remove, nfp_remove. unfold_probe. solve_emits. Qed.
Lemma emits_load id : emits (K := K) keeps_page (insmod id).
Proof. unfold insmod, nfp_init, pci_driver, drv_probe, nfp_probe. unfold_probe. solve_emits. Qed.

Definition unpinned (s : driver) : Prop := m_length (c_buffer (d_card s)) = 0.
#[local] Hint Extern 1 (preserves unpinned (modify (set_card _))) =>
  apply preserves_modify; intros [[] ? ?] ?; done : preserves.
Lemma unpinned_load id : preserves (C := kcall) (K := K) unpinned (insmod id).
Proof. unfold insmod, nfp_init, pci_driver, drv_probe, nfp_probe. unfold_probe. solve_preserves. Qed.

Lemma load_returns id s k : wp (insmod id) (fun o _ _ _ => exists v, o = Done v) s k.
Proof.
  unfold insmod, nfp_init, pci_driver, drv_probe. wp_step. wp_step.
  destruct (ans =? 0); [|by apply wp_ret; exists ans]. wp_step. destruct (pci_match _ _); [|by wp_steps; exists ans].
  eapply wp_mono; [apply wp_nfp_probe|]. intros o s' k' t (v & -> & _). apply wp_ret. by exists ans.
Qed.

(** The pages of a registered buffer do not survive a reload: taking the module out gives
    none of them back, and the module that is loaded then does not know them, so that
    unregistering gives none back either.  They stay pinned. *)
Theorem reload_loses_pages id d k :
  let x := rmmod id d k in
  let p := insmod id driver_init (r_k x) in
  calls page_released (r_tr x) = [] /\ calls page_released (r_tr p) = [] /\
  forall k', calls page_released (r_tr (unreg_hugemem (r_st p) k')) = [].
Proof.
  intros x p. pose proof (unpinned_load id driver_init (r_k x) eq_refl) as L. fold p in L.
  split; [apply calls_none, emits_unload|]. split; [apply calls_none, emits_load|].
  intros k'. destruct (load_returns id driver_init (r_k x)) as [v Ho]. fold p in Ho.
  unfold wp in L. fold p in L. rewrite Ho in L. unfold unpinned in L. unfold unreg_hugemem, bind, gets.
  cbn [r_out r_st r_k r_tr]. by rewrite L.
Qed.

(** The module taken out and loaded again, in whatever state it was: its memory is new. *)
Lemma reload_serves id d k :
  good k -> prompt k -> v_enable (board k) = false -> v_active (board k) = 0 ->
  pci_match (drv_id_table (pci_driver (K := K))) id = true ->
  let r := insmod id driver_init (r_k (rmmod id d k)) in
  (exists v, r_out r = Done v) /\ (probe_ready (r_tr r) -> loaded k (r_st r) (r_k r)).
Proof.
  intros G Pk He Ha Hid r. destruct (replays_rmmod id d k) as [Er Hc].
  pose proof (no_store_rmmod id d k) as Ns. set (x := rmmod id d k) in *.
  assert (Bx : board (r_k x) ≡ board k) by (rewrite Er; apply board_idle; [done | done | by apply calls_none]).
  assert (Gx : good (r_k x)) by (rewrite Er; by apply good_replay).
  assert (Px : prompt (r_k x)) by (rewrite Er; by apply (prompt_replay (clock := clock) (fuel := fuel))).
  pose proof Bx as (Ee & Ea & _).
  destruct (wp_insmod id (r_k x) Gx Px ltac:(congruence) ltac:(congruence) Hid) as [O L].
  fold r in O, L. split; [exact O|]. intros Hr. destruct (L Hr) as (L1 & L2 & L3 & L4 & L5).
  do 4 (split; [done|]). by rewrite L5.
Qed.
End Loading.

(** ** The write of the script *)

(** A store that raises user_reset_r resets the engine, whatever it was doing. *)
Class ResetLaws (K R : Type) `{HK : Handler kcall K} `{B : Bram R} `{Bd : Board K R} : Prop :=
  board_reset X (c : kcall X) k st :
    mmio_write (Ev c (handle c k).1) = Some st -> user_reset (access_for board_bar0 st) = true ->
    board (handle c k).2 ≡ device_reset (board k).

Section Reset.
Context {K R : Type} `{HK : Handler kcall K} `{B : Bram R} `{!BramLaws R} `{Bd : Board K R}.
Context `{!BoardLaws K R} `{P : ProcessMemory K} `{!MemoryLaws K}.
Context {count : K -> Z} `{!SemaphoreLaws K count} {clock : K -> Z} {rate : nat}.
Context `{E : IocEncoding} `{!IocLaws E} {fuel : nat} `{!PromptEngine K R clock fuel}.
Context `{!UserMemory K R clock fuel} `{!ResetLaws K R}.

Definition reset_word : reg32 := Reg32 255 0 266240.

Lemma reset_store : user_reset (access_for board_bar0 (board_bar0 (K := K) + 266240, bytes_of 4 255)) = true.
Proof.
  unfold access_for. cbn [fst snd]. replace (board_bar0 + 266240 - board_bar0) with 266240 by lia. reflexivity.
Qed.

Lemma write32_neq_register : NFPIOC_WRITE_32 <> NFPIOC_REGISTER_BUFFER.
Proof. destruct cmd_numbers as (N1 & N2 & N3 & N4 & N5 & N6 & N7). intros H. rewrite H in N1. lia. Qed.

Lemma sys_reset d k :
  usable (count := count) (clock := clock) (fuel := fuel) k ->
  c_bar0 (d_card d) = board_bar0 (K := K) -> 0 < board_bar0 (K := K) < 2 ^ 63 ->
  v_enable (board k) = false ->
  exists k', sys_ioctl fuel NFPIOC_WRITE_32 (encode_reg32 reset_word) d k =
      Some (0, encode_reg32 reset_word, d, k') /\
    usable (count := count) (clock := clock) (fuel := fuel) k' /\
    board k' ≡ device_reset (board k).
Proof.
  intros U Hb Hp He. destruct (usable_store (encode_reg32 reset_word) k U) as [_ Rd].
  assert (Hw : reg32_ok reset_word) by (by vm_compute).
  assert (Ht : target reset_word (d_card d) = Some (board_bar0 (K := K) + 266240)).
  { unfold target, select_bar. cbn. rewrite Hb. destruct (Z.eqb_spec (board_bar0 (K := K)) 0); [lia|].
    rewrite wrap_id; [done | unfold fits; lia]. }
  pose proof (sys_write32 fuel reset_word d k Hw (proj1 U) Rd) as S. cbv zeta in S. rewrite Ht in S.
  eexists. split; [exact S|]. split.
  - unfold sys_ioctl in S. destruct (r_out _) as [v|] eqn:Eo in S; [|done].
    injection S as Ev _ _ Ek. assert (Hv : sem_script v = [Took; Gave])
      by (destruct (Z.ltb_spec v 0); [done | by subst v]).
    pose proof (usable_after NFPIOC_WRITE_32 (encode_reg32 reset_word) d k U
      (script_delta _ _ d k v write32_neq_register Eo Hv)) as Ua.
    rewrite Ek in Ua. exact Ua.
  - set (k0 := entered (encode_reg32 reset_word) sizeof_reg32 k) in *.
    pose proof (board_entered (encode_reg32 reset_word) sizeof_reg32 k He) as B0. fold k0 in B0.
    match goal with |- board (handle K_up ?k1).2 ≡ _ => set (k1' := k1);
      assert (B1 : board k1' ≡ device_reset (board k)) end.
    { unfold k1'. etransitivity; [
      exact (board_reset _ (K_iowrite32 (r_data reset_word) (board_bar0 (K := K) + 266240)) k0
        _ eq_refl reset_store)|].
      destruct B0 as (_ & _ & _ & Et). by split_and!. }
    destruct (handle K_up k1') as [y k2] eqn:E2. by refine (stopped_call K_up _ k1' _ _ _ _ E2 B1).
Qed.
End Reset.

(** ** The script *)

Section Script.
Context {U K R : Type} `{HU : Handler ucall U} `{HK : Handler kcall K} `{!ChrdevLaws (K := K)}.
Context `{B : Bram R} `{!BramLaws R} `{Bd : Board K R} `{!BoardLaws K R}.
Context `{P : ProcessMemory K} `{!MemoryLaws K} {count : K -> Z} `{!SemaphoreLaws K count}.
Context `{E : IocEncoding} `{!IocLaws E} {clock : K -> Z} {rate : nat} `{!ClockLaws clock rate}.
Context {fuel : nat} `{!PromptEngine K R clock fuel} `{!UserMemory K R clock fuel}.
Context {dev_fd : Z} {kernel : U -> driver * K} `{!Linked U K fuel dev_fd kernel}.
Context `{!DeviceLaws U K dev_fd kernel} `{!QuietSystem U K R kernel clock count fuel}.
Context `{!FsLaws (U := U)} `{!Resources (U := U)} `{!ResetLaws K R} `{!LoadLaws K R count}.

(** The command line of the script: ./bin/rwBar w 0 266240 255. *)
Definition reset_line (prog : string) : list string := [prog; "w"; "0"; "266240"; "255"]%string.

Lemma wp_reset_line prog a (u : U) :
  wp (RwBar.readArguments (reset_line prog)) (fun o s' u' t =>
    o = Done (Some (MemoryOp TO_CARD 255 266240 0)) /\ s' = a /\ u' = u /\ t = []) a u.
Proof.
  unfold RwBar.readArguments, reset_line. cbn [length Nat.eqb negb andb]. wp_steps; by operands.
Qed.

Lemma wp_reset prog a (u : U) :
  usable (count := count) (clock := clock) (fuel := fuel) (kernel u).2 ->
  c_bar0 (d_card (kernel u).1) = board_bar0 (K := K) ->
  v_enable (board (kernel u).2) = false ->
  wp (RwBar.main (reset_line prog)) (fun o _ u' _ => o = Stop (Exited 0) /\
    (kernel u').1 = (kernel u).1 /\
    usable (count := count) (clock := clock) (fuel := fuel) (kernel u').2 /\
    board (kernel u').2 ≡ device_reset (board (kernel u).2)) a u.
Proof.
  intros Us Hb He. unfold RwBar.main. wp_step. eapply wp_mono; [apply wp_reset_line|].
  intros o s1 u1 t1 (-> & -> & -> & ->). cbn [op_dir op_bar op_offset op_val].
  wp_step. eapply wp_mono; [apply (wp_open (dev_fd := dev_fd) (count := count) (clock := clock)
    (fuel := fuel) (kernel := kernel) a u)|].
  intros o s2 u2 t2 ((-> & Hfd & Hl & Hc & _) & (Ed & Eb & Eu) & _). cbn [Z.eqb negb].
  unfold the_board in Eb. pose proof Eb as (Ee & _).
  destruct (sys_reset (kernel u2).1 (kernel u2).2 (Eu Us)) as (k' & S & Us' & Bk);
    [by rewrite Ed | apply (board_bar0_place (count := count)) | congruence |].
  destruct (ioctl_runs (kernel := kernel) _ _ u2 _ _ _ _ S) as [A1 A2].
  unfold writeWord, getCharDeviceDescriptor. wp_steps.
  rewrite Hfd in Hans. change (encode_reg32 _) with (encode_reg32 reset_word) in Hans.
  rewrite Hans in A2. cbn [snd] in A2.
  eapply wp_mono; [by apply (wp_leave (dev_fd := dev_fd) (count := count) (clock := clock)
    (fuel := fuel) (kernel := kernel))|].
  intros o s3 u3 t3 (-> & (Ed3 & Eb3 & Eu3) & _). unfold the_board in Eb3. rewrite A2 in Ed3, Eb3, Eu3.
  split; [done|]. split; [by rewrite Ed3|]. split; [by apply Eu3|].
  rewrite Eb3, Bk. destruct Eb as (_ & _ & _ & Et). by split_and!.
Qed.

(** C2.  The script that the manual asks for before any measurement.  The write with
    [rwBar], while the engine is stopped, exits with 0 and resets the engine, memories
    apart; taking the module out, whatever the state of the driver, and loading it again
    returns, and when the probe ends well leaves a driver that serves and is at
    descriptor 0, like the board. *)
Theorem restart_serves prog id a (u : U) :
  usable (count := count) (clock := clock) (fuel := fuel) (kernel u).2 ->
  c_bar0 (d_card (kernel u).1) = board_bar0 (K := K) ->
  v_enable (board (kernel u).2) = false ->
  pci_match (drv_id_table (pci_driver (K := K))) id = true ->
  let r := RwBar.main (reset_line prog) a u in
  let k := (kernel (r_k r)).2 in
  let p := insmod id driver_init (r_k (rmmod id (kernel (r_k r)).1 k)) in
  r_out r = Stop (Exited 0) /\ board k ≡ device_reset (board (kernel u).2) /\
  (exists v, r_out p = Done v) /\
  (probe_ready (r_tr p) ->
    loaded (R := R) (count := count) (clock := clock) (fuel := fuel) k (r_st p) (r_k p)).
Proof.
  intros Us Hb He Hid r k p. destruct (wp_reset prog a u Us Hb He) as (O & _ & (G & Pk & _) & Bk).
  fold r in O, G, Pk, Bk. do 2 (split; [done|]). pose proof Bk as (Ee & Ea & _).
  by apply (reload_serves id (kernel (r_k r)).1 k).
Qed.
End Script.

(** ** Witness *)

#[export] Instance machine_reset : ResetLaws machine (gmap Z Z).
Proof.
  intros X c [k v] st Hw Hr. change (board_next c (board_answer c k v) k v ≡ device_reset v).
  change (mmio_write (Ev c (board_answer c k v)) = Some st) in Hw.
  change (user_reset (access_for sim_bar0 st) = true) in Hr.
  unfold board_next, logic_access. by rewrite Hw, Hr.
Qed.

#[export] Instance machine_load : LoadLaws machine (gmap Z Z) (fun k => sim_sem k.1).
Proof. split; [by intros n [k v] | done | by intros n [[] v]]. Qed.

#[export] Instance machine_chrdev : ChrdevLaws (K := machine).
Proof.
  split.
  - intros [k v]. exact (alloc_chrdev_neg k).
  - intros [k v]. exact (alloc_chrdev_int k).
  - intros d [k v]. exact (cdev_add_neg d k).
  - by intros p [k v].
Qed.

(** The machine with its board at descriptor 5, as after five measurements. *)
Definition nfp_board : Z * Z := (PCI_VENDOR_ID_NFP, PCI_DEVICE_ID_NFP).
Definition used_machine : board_sys :=
  (Sys mapped_driver sim_init dirs_1GB 1, Device false 5 config_reset (v_tables (settled reset))).

Lemma restart_serves_witness :
  let r := RwBar.main (reset_line "rwBar") lib_init used_machine in
  let k := (board_kernel (r_k r)).2 in
  let p := insmod nfp_board driver_init (r_k (rmmod nfp_board (board_kernel (r_k r)).1 k)) in
  r_out r = Stop (Exited 0) /\
  serving (R := gmap Z Z) (count := fun k : machine => sim_sem k.1)
    (clock := fun k : machine => sim_clock k.1) (fuel := sys_fuel) (r_st p) (r_k p).
Proof.
  intros r k p.
  destruct (restart_serves (U := board_sys) (K := machine) (R := gmap Z Z) (kernel := board_kernel)
    (dev_fd := sim_fd) (count := fun k => sim_sem k.1) (clock := fun k => sim_clock k.1)
    "rwBar" nfp_board lib_init used_machine) as (O & _ & _ & L).
  - destruct board_sys_serving as [_ _ _ Us]. exact Us.
  - reflexivity.
  - reflexivity.
  - reflexivity.
  - split; [exact O|]. apply L. split; [vm_compute; reflexivity|].
    apply (bool_decide_unpack (RCdev ∈ calls acquire (r_tr p))). vm_compute. done.
Defined.
